(* ===== verification/_CoqProject ===== *)
-Q . S2P
Prelude.v
PyFloat.v
PyDict.v
Numpy.v
CStruct.v
OperatorCommand.v
StateMachine.v
CanBus.v
Dispatcher.v
Wire.v
CanDaemon.v
CanTransport.v
CanProcess.v
CommManager.v
ActuatorDriver.v
SpgProtocol.v
ControlCommand.v
RobotState.v
Telemetry.v
Imu.v
Config.v
ShippedConfig.v
ShmManager.v
Supervisor.v
Controller.v
ControllerFacts.v
ControllerSpec.v
ControllerRun.v
AuxReader.v
DashboardDecode.v
DashboardState.v
DashboardCommand.v
DashboardView.v
DashboardApp.v
DashboardConfig.v
CanMonitor.v
MonitorsAgree.v
PolicyRunner.v
TaskController.v
ShippedPolicy.v
JointPolicy.v
Launch.v
Scenario.v
EndToEnd.v
