(* ===== verification/Prelude.v ===== *)
(** * QHRR0 / SPARQ robot controller: a verification development

    The program (Python, under [src/]) drives robots of the QHRR family: a
    controller process owns a CAN bus through a daemon, sends MIT commands to the
    actuators, reads their feedback and the IMU's, and exchanges fixed C structures
    with a policy, a gamepad reader and an operator dashboard in shared memory.
    Its own modules are modelled here by definitions that follow the source line by
    line, and the theorems state what the parts and their composition guarantee.

    ** How the program is modelled

    - Python integers are [Z], floats are Rocq's primitive binary64 [float] with
      Python's own operations on top ([PyFloat]); [c_float], [c_int16] and the
      other ctypes fields keep their width and wrap ([CStruct], [PyFloat]).
    - Bytes are [list Z]; dicts are lists of items in insertion order ([PyDict]).
    - Code that raises returns [res A]; code that also changes state is in the
      monad [ST S A := S → res A * S], whose state survives an exception, as
      Python's does ([try_except], [try_finally], [for_each] below).
    - What an external party decides is data of the state or an argument, and the
      theorems quantify over it: readings of the clocks, answers of the daemon, the
      outcome of connecting, how a child process reacts to a signal, what the
      joystick and the sockets deliver.
    - Threads meet only at locks and queues, and asyncio tasks only at awaits, so an
      execution is a sequence of the atomic operations between them, in any order.

    ** The files, and what they model

    - [Prelude], [PyFloat], [PyDict]: the language. Exceptions, the two monads with
      their Hoare rules and the preorder rules ([within], a hint database), bytes,
      float and dict operations, the lemmas about them.
    - [CStruct]: [shm/cstruct.py] and ctypes; segments as named byte arrays. The
      classes [CStruct] and [CStructLaws] are the interface of every structure.
    - [OperatorCommand], [ControlCommand], [RobotState]: [shm/operator_command.py],
      [control_command.py] and [aux_command.py], [robot_state.py].
    - [StateMachine]: [state_machine.py].
    - [CanBus], [Dispatcher], [Wire], [CanDaemon], [CanTransport], [CanProcess]:
      [hal/can_bus/] and [subprocesses/can_daemon/main.py], from the SocketCAN frame to
      the client's callbacks and the threads of the process between them; the class [CANBus] is what the daemon asks of a bus.
    - [CommManager], [ActuatorDriver], [Imu]: [hal/hardware/can/]; drivers are
      written against the classes [ActuatorProtocol] (with [ActuatorProtocolLaws])
      and [IMUProtocol].
    - [SpgProtocol], the E2BOX part of [Imu]: [qhrr0_hw/], the two protocols.
    - [Telemetry]: [telemetry/].
    - [Config], [ShippedConfig]: [core/platform_config.py], [core/config.py], and the
      YAML files of the repository as values.
    - [ShmManager], [Supervisor]: [shm/manager.py], [supervisor/process_supervisor.py]
      over a model of processes, signals and pid files.
    - [Controller]: [controller.py] and [main.py], over the class [ProcessControl] that
      the supervisor implements. [ControllerFacts] computes which frames each of its
      methods sends, [ControllerSpec] and [ControllerRun] prove its properties.
    - [AuxReader]: [subprocesses/aux_reader/main.py].
    - [Launch]: [run_mujoco_simulation.py], [run_controller.py] and
      [subprocesses/sparq_can/main.py], on the processes of [Supervisor].
    - [CanMonitor]: [tools/can_monitor.py], the monitor in a terminal, its screen and
      its loop included; [MonitorsAgree] compares it with the dashboard's.
    - [Numpy], [PolicyRunner], [TaskController]: arrays over a class of float dtypes
      ([DType]: [float32], [float64]) and [subprocesses/task_controller/] with
      [joint_initializer/main.py], two variants of one program that round to binary32,
      over an ONNX network that is a parameter; [ShippedPolicy] loads the repository's
      policy files. [JointPolicy] is [joint_initializer/policy_runner.py], the same
      runner at binary64, which nothing imports.
    - [DashboardDecode], [DashboardState], [DashboardCommand], [DashboardView],
      [DashboardApp], [DashboardConfig]: [subprocesses/dashboard/backend/].
    - [Scenario]: a controller at work, for the witnesses; [EndToEnd] composes the task
      controller with the controller on the shared memory between them.

    ** What the theorems show

    - Modes: [StateMachine.update_refines_table] (the code against an independent
      transition table), [estop_latches], [normal_needs_run],
      [arming_ends_in_damping].
    - The controller on the bus: [ControllerSpec.no_motion_without_command],
      [tick_sends_plan], [commands_act_once]; end to end from a writer of a segment
      to the frames, [zero_set_reaches_bus] and [ControllerRun.policy_reaches_bus];
      how a run ends, [main_ends_stopped] and [shutdown_stops_everything].
    - From the gamepad and the policy to the motors' frames:
      [EndToEnd.policy_moves_motors]. Its parts: [TaskController.policy_round] (which joint an output of the network
      drives, and that it is the joint whose position the network saw there) and
      [PolicyRunner.policy_memory] (sequences of rounds, the remembered actions), for
      either dtype; [JointPolicy.Joint.joint_step_exact] (at binary64 nothing is rounded
      between the state and the network).
    - Segments: round trips for every structure
      ([OperatorCommand.operator_command_delivery],
      [ControlCommand.control_command_delivery], [Telemetry.telemetry_delivery],
      [AuxReader.gamepad_reaches_policy]) and their lifecycle
      ([ShmManager.segments_lifecycle]).
    - Protocols: layout, range and round trip of what is packed and parsed
      ([SpgProtocol], [Imu], [CanBus.socketcan_roundtrip]), and that the dashboard's
      own decoders agree with the drivers ([DashboardDecode.monitor_decoders_agree]);
      the two monitors stay in step ([MonitorsAgree.monitors_stay_in_step]).
    - The CAN path: what its clients ask for and the bus delivers, end to end and under
      every interleaving ([CanProcess.process_serves_clients]; [process_run], the end
      of a run, [client_connects], the two handshakes, and [failed_start_never_ends], a start that fails); echoes, isolation
      of callbacks; state kept from frames ([ActuatorDriver.driver_tracks_latest],
      [DashboardState.monitor_counts]).
    - The dashboard's gates: [DashboardCommand.commands_gated] for any provider of the
      controller's state, and [DashboardApp.dashboard_follows_controller] for the
      application's, which reads what the controller publishes; [polling_holds] for its
      polling task.
    - Processes and configuration: [Supervisor] (start order, escalation, quoting),
      [Launch] (a simulation ends with its launcher, [launcher_ends_simulation]; what it is
      given, [simulator_environment]; no controller without a build, [controller_after_build]),
      [Config] (what an accepted configuration guarantees), [ShippedConfig], and
      [DashboardConfig]: a dashboard that starts watches the controller's motors and
      segments, its presets can be used, and watching it sends nothing
      ([watching_held]). [ShippedPolicy.supervised_arguments]: the arguments the
      supervisor's environment gives the task controller.

    ** Bounds

    Loops that Python ends by a deadline recurse on the list of clock readings or
    attempts that precede it ([CanTransport.connect_loop], [Supervisor.wait_exit]);
    loops that a signal or a stop request ends recurse on what happens before it
    ([Controller.run], [AuxReader.aux_loop], [CanProcess.serve], [CanMonitor.monitor_loop],
    [TaskController.task_loop], [Launch.watch], [DashboardApp.mit_poll_loop]). The only fuel is
    that of [DashboardDecode.hex_digits], one more than the binary logarithm of the
    number, which [hex_value_format] shows to be enough. [read_frames] has the
    program's own bound of 4096 frames.

    ** Not modelled

    - Texts of log messages and of exceptions: an exception is its class. Where the
      program shows [str(exc)], a parameter gives the text.
    - Reading YAML and JSON text, formatting and parsing of floats, file paths, the
      environment: parameters, or the value the library delivers.
    - The system calls on sockets and terminals (what they answer is data), argparse
      (what an option is given is data), FastAPI, uvicorn and the web pages.
    - numpy beyond one-dimensional arrays of one float dtype, with numpy 2's promotion
      of Python floats; the ONNX runtime; the rate reports and sleeps of the policy
      processes.
    - [hal/can_bus/utils/common.py], which cannot be imported; what cmake and make do, which
      is a parameter of [Launch]; and a Ctrl-C outside the loop of the simulation's launcher. *)

From Stdlib Require Export ZArith Lia Bool.
From stdpp Require Export base decidable option list strings numbers gmap.

#[global] Open Scope Z_scope.
#[export] Set Default Goal Selector "!".
Generalizable All Variables.

(** ** Python exceptions

    An exception value is its class; messages are not modelled. *)

Inductive exn :=
  | ValueError | TypeError | KeyError | IndexError
  | RuntimeError | AssertionError | NotImplementedError | AttributeError
  | ZeroDivisionError | OverflowError | StructError
  | OSError | FileNotFoundError | FileExistsError | PermissionError
  | ProcessLookupError | BlockingIOError | TimeoutError
  | QueueFull | QueueEmpty | TimeoutExpired | CalledProcessError
  | CommandError | PlatformConfigError | ConfigError.

#[export] Instance exn_eq_dec : EqDecision exn.
Proof. solve_decision. Defined.

(** [isinstance e c] is Python's test of an [except c] clause: the built-in
    class hierarchy, and the classes the project derives from it. *)
Definition isinstance (e c : exn) : bool :=
  bool_decide (e = c) ||
  match c, e with
  | OSError, (FileNotFoundError | FileExistsError | PermissionError
             | ProcessLookupError | BlockingIOError | TimeoutError) => true
  | RuntimeError, (NotImplementedError | CommandError) => true
  | ValueError, (PlatformConfigError | ConfigError) => true
  | PlatformConfigError, ConfigError => true
  | _, _ => false
  end.

(** ** The result of a call: a value, or an exception that propagates *)

Inductive res (A : Type) :=
  | Ok (a : A)
  | Raise (e : exn).
Arguments Ok {A} a.
Arguments Raise {A} e.

#[export] Instance res_eq_dec `{EqDecision A} : EqDecision (res A).
Proof. solve_decision. Defined.

#[export] Instance res_ret : MRet res := @Ok.
#[export] Instance res_bind : MBind res := λ _ _ f m,
  match m with Ok a => f a | Raise e => Raise e end.
#[export] Instance res_fmap : FMap res := λ _ _ f m,
  match m with Ok a => Ok (f a) | Raise e => Raise e end.

Definition is_ok {A} (r : res A) : bool :=
  match r with Ok _ => true | Raise _ => false end.

(** [guard_ok b e]: [if not b: raise e]. *)
Definition guard_ok (b : bool) (e : exn) : res unit :=
  if b then Ok () else Raise e.

Lemma guard_ok_Ok b e u : guard_ok b e = Ok u ↔ b = true.
Proof. destruct b, u; simpl; split; intros; congruence. Qed.

Lemma res_bind_Ok {A B} (m : res A) (f : A → res B) b :
  m ≫= f = Ok b ↔ ∃ a, m = Ok a ∧ f a = Ok b.
Proof. destruct m; simpl; naive_solver. Qed.

(** Left-to-right evaluation of a comprehension over a list. *)
Fixpoint mapR {A B} (f : A → res B) (l : list A) : res (list B) :=
  match l with
  | [] => Ok []
  | x :: xs => y ← f x; ys ← mapR f xs; Ok (y :: ys)
  end.

Lemma mapR_Ok {A B} (f : A → res B) l l' :
  mapR f l = Ok l' ↔ Forall2 (λ x y, f x = Ok y) l l'.
Proof.
  revert l'; induction l as [|x l IH]; intros l'; simpl.
  - split; [intros [= <-]; constructor|by inversion 1].
  - rewrite res_bind_Ok. setoid_rewrite res_bind_Ok. setoid_rewrite IH. split.
    + intros (y & Hy & ys & Hys & [= <-]). by constructor.
    + inversion 1; simplify_eq. eauto 6.
Qed.

(** ** Stateful code that can raise

    The state at the point of the exception survives it, as in Python: the
    frames already sent stay sent when a later one raises. *)

Definition ST (S A : Type) : Type := S → res A * S.

#[export] Instance ST_ret {S} : MRet (ST S) := λ _ a s, (Ok a, s).
#[export] Instance ST_fmap {S} : FMap (ST S) := λ _ _ f m s,
  match m s with
  | (Ok a, s') => (Ok (f a), s')
  | (Raise e, s') => (Raise e, s')
  end.
#[export] Instance ST_bind {S} : MBind (ST S) := λ _ _ f m s,
  match m s with
  | (Ok a, s') => f a s'
  | (Raise e, s') => (Raise e, s')
  end.

Definition raise {S A} (e : exn) : ST S A := λ s, (Raise e, s).
Definition get {S} : ST S S := λ s, (Ok s, s).
Definition gets {S A} (f : S → A) : ST S A := λ s, (Ok (f s), s).
Definition modify {S} (f : S → S) : ST S unit := λ s, (Ok (), f s).
Definition lift {S A} (r : res A) : ST S A := λ s, (r, s).

(** [try m except h]: the handler runs in the state the body left. *)
Definition try_except {S A} (m : ST S A) (h : exn → ST S A) : ST S A := λ s,
  match m s with
  | (Ok a, s') => (Ok a, s')
  | (Raise e, s') => h e s'
  end.

(** [try m finally f]: [f] always runs; its own exception wins. *)
Definition try_finally {S A} (m : ST S A) (f : ST S unit) : ST S A := λ s,
  let '(r, s') := m s in
  match f s' with
  | (Ok _, s'') => (r, s'')
  | (Raise e, s'') => (Raise e, s'')
  end.

(** Run a computation on a part of the state. *)
Definition zoom {S T A} (view : S → T) (put : T → S → S) (m : ST T A) : ST S A := λ s,
  let '(r, t) := m (view s) in (r, put t s).

Definition whenM {S} (b : bool) (m : ST S unit) : ST S unit :=
  if b then m else mret ().

(** A [for] loop over a list evaluated before the loop. *)
Fixpoint for_each {S A} (l : list A) (body : A → ST S unit) : ST S unit :=
  match l with
  | [] => mret ()
  | x :: xs => body x ≫= λ _, for_each xs body
  end.

(** Run the monadic structure of a computation applied to its state. *)
Ltac st_run :=
  unfold mbind, mret, fmap, ST_bind, ST_ret, ST_fmap, gets, get, modify, lift, raise; cbv beta iota.

Lemma st_bind_ok {S A B} (m : ST S A) (k : A → ST S B) s a s' :
  m s = (Ok a, s') → (m ≫= k) s = k a s'.
Proof. intros H. st_run. by rewrite H. Qed.

Lemma st_bind_raise {S A B} (m : ST S A) (k : A → ST S B) s e s' :
  m s = (Raise e, s') → (m ≫= k) s = (Raise e, s').
Proof. intros H. st_run. by rewrite H. Qed.

Lemma st_bind_inv {S A B} (m : ST S A) (k : A → ST S B) s b s' :
  (m ≫= k) s = (Ok b, s') → ∃ a s1, m s = (Ok a, s1) ∧ k a s1 = (Ok b, s').
Proof. st_run. destruct (m s) as [[a|e] s1]; [eauto|done]. Qed.

Lemma lift_inv {S A} (r : res A) (s : S) a s' : lift r s = (Ok a, s') → r = Ok a ∧ s' = s.
Proof. unfold lift. intros [= <- <-]. done. Qed.

(** ** Hoare triples for [ST], and their rules *)

Definition hoare {S A} (P : S → Prop) (m : ST S A) (Q : res A → S → Prop) : Prop :=
  ∀ s, P s → Q (fst (m s)) (snd (m s)).

Section hoare.
Context {S : Type}.
Implicit Types (P : S → Prop).

Lemma hoare_ret {A} P (a : A) (Q : res A → S → Prop) :
  (∀ s, P s → Q (Ok a) s) → hoare P (mret a) Q.
Proof. intros H s Hs. by apply H. Qed.

Lemma hoare_bind {A B} P (m : ST S A) (f : A → ST S B)
    (R : A → S → Prop) (Q : res B → S → Prop) :
  hoare P m (λ r s, match r with Ok a => R a s | Raise e => Q (Raise e) s end) →
  (∀ a, hoare (R a) (f a) Q) →
  hoare P (m ≫= f) Q.
Proof.
  intros Hm Hf s Hs. specialize (Hm s Hs).
  unfold mbind, ST_bind. destruct (m s) as [[a|e] s']; simpl in *; [|done].
  by apply Hf.
Qed.

Lemma hoare_weaken {A} P P' (m : ST S A) (Q Q' : res A → S → Prop) :
  hoare P m Q → (∀ s, P' s → P s) → (∀ r s, Q r s → Q' r s) → hoare P' m Q'.
Proof. intros H HP HQ s Hs. apply HQ, H, HP, Hs. Qed.

(** A loop whose body keeps [P], whether or not it raises, keeps [P]. *)
Lemma hoare_for_each {A} P (l : list A) (body : A → ST S unit) :
  (∀ x, x ∈ l → hoare P (body x) (λ _, P)) →
  hoare P (for_each l body) (λ _, P).
Proof.
  induction l as [|x l IH]; intros Hb; simpl.
  - by apply hoare_ret.
  - eapply (hoare_bind P (body x) _ (λ _, P)).
    + eapply hoare_weaken; [apply Hb; left|done|by intros [] s].
    + intros _. apply IH. intros y Hy. apply Hb. by right.
Qed.

Lemma hoare_modify P (f : S → S) (Q : res unit → S → Prop) :
  (∀ s, P s → Q (Ok ()) (f s)) → hoare P (modify f) Q.
Proof. intros H s Hs. by apply H. Qed.

Lemma hoare_lift {A} P (r : res A) (Q : res A → S → Prop) :
  (∀ s, P s → Q r s) → hoare P (lift r) Q.
Proof. intros H s Hs. by apply H. Qed.
End hoare.

(** ** Relations between the state before and after

    [within R m]: whatever [m] does, and whether it raises or not, the state it
    leaves is [R]-related to the one it started in. *)

Definition within {S A} (R : S → S → Prop) (m : ST S A) : Prop := ∀ s, R s (snd (m s)).

Section within.
Context {S : Type} (R : S → S → Prop) `{!PreOrder R}.

Lemma within_ret {A} (a : A) : within R (mret a).
Proof. intros s. exact (reflexivity s). Qed.
Lemma within_raise {A} e : within R (raise (A:=A) e).
Proof. intros s. exact (reflexivity s). Qed.
Lemma within_gets {A} (f : S → A) : within R (gets f).
Proof. intros s. exact (reflexivity s). Qed.
Lemma within_lift {A} (r : res A) : within R (lift r).
Proof. intros s. exact (reflexivity s). Qed.
Lemma within_bind {A B} (m : ST S A) (f : A → ST S B) :
  within R m → (∀ a, within R (f a)) → within R (m ≫= f).
Proof.
  intros Hm Hf s. specialize (Hm s). unfold mbind, ST_bind.
  destruct (m s) as [[a|e] s']; [|exact Hm]. etrans; [exact Hm|]. apply Hf.
Qed.
Lemma within_try {A} (m : ST S A) h :
  within R m → (∀ e, within R (h e)) → within R (try_except m h).
Proof.
  intros Hm Hf s. specialize (Hm s). unfold try_except.
  destruct (m s) as [[a|e] s']; [exact Hm|]. etrans; [exact Hm|]. apply Hf.
Qed.
Lemma within_finally {A} (m : ST S A) f :
  within R m → within R f → within R (try_finally m f).
Proof.
  intros Hm Hf s. specialize (Hm s). unfold try_finally.
  destruct (m s) as [r s']. specialize (Hf s').
  destruct (f s') as [[u|e] s'']; cbn in *; by etrans.
Qed.
Lemma within_if {A} (b : bool) (m1 m2 : ST S A) :
  within R m1 → within R m2 → within R (if b then m1 else m2).
Proof. by destruct b. Qed.
Lemma within_when (b : bool) (m : ST S unit) : within R m → within R (whenM b m).
Proof. intros Hm. destruct b; [exact Hm|apply within_ret]. Qed.
Lemma within_for_each {A} (l : list A) (body : A → ST S unit) :
  (∀ x, within R (body x)) → within R (for_each l body).
Proof.
  intros Hb. induction l; cbn; [apply within_ret|]. by apply within_bind.
Qed.
End within.

Create HintDb within.
#[export] Hint Resolve within_ret within_raise within_gets within_lift within_bind within_try
  within_finally within_if within_when within_for_each : within.
#[export] Hint Extern 1 (PreOrder _) => typeclasses eauto : within.

(** ** Bytes

    A Python [bytes] value is a list of integers in [0, 256). *)

Abbreviation bytes := (list Z).

Definition is_byte (z : Z) : Prop := 0 ≤ z < 256.
Definition is_byteb (z : Z) : bool := (0 <=? z) && (z <? 256).
Definition wf_bytes (b : bytes) : Prop := Forall is_byte b.

Lemma is_byteb_spec z : is_byteb z = true ↔ is_byte z.
Proof. unfold is_byteb, is_byte. rewrite andb_true_iff, Z.leb_le, Z.ltb_lt. lia. Qed.

#[export] Instance is_byte_dec z : Decision (is_byte z).
Proof. unfold is_byte. apply _. Defined.

(** [bytes([z0, z1, ...])] raises [ValueError] on an item outside range(256). *)
Definition py_bytes (l : list Z) : res bytes :=
  if forallb is_byteb l then Ok l else Raise ValueError.

Lemma py_bytes_Ok l : wf_bytes l → py_bytes l = Ok l.
Proof.
  intros H. unfold py_bytes.
  replace (forallb is_byteb l) with true; [done|]. symmetry.
  apply forallb_forall. intros x Hx. apply is_byteb_spec.
  rewrite <- list_elem_of_In in Hx. by eapply Forall_forall in H.
Qed.

Lemma py_bytes_wf l b : py_bytes l = Ok b → b = l ∧ wf_bytes b.
Proof.
  unfold py_bytes. destruct (forallb is_byteb l) eqn:E; intros [= <-].
  split; [done|]. apply Forall_forall. intros x Hx. apply is_byteb_spec.
  rewrite forallb_forall in E. apply E. by apply list_elem_of_In.
Qed.

(** Little-endian integers of [n] bytes. *)
Fixpoint le_encode (n : nat) (z : Z) : bytes :=
  match n with
  | O => []
  | S n => Z.land z 255 :: le_encode n (Z.shiftr z 8)
  end.

Fixpoint le_decode (b : bytes) : Z :=
  match b with
  | [] => 0
  | x :: xs => x + 256 * le_decode xs
  end.

(** Two's complement: the value of a [w]-bit pattern read as signed. *)
Definition to_signed (w : Z) (z : Z) : Z :=
  if z <? 2 ^ (w - 1) then z else z - 2 ^ w.

Lemma land_255 z : Z.land z 255 = z mod 256.
Proof. change 255 with (Z.ones 8). by rewrite Z.land_ones by lia. Qed.

Lemma shiftr_8 z : Z.shiftr z 8 = z / 256.
Proof. by rewrite Z.shiftr_div_pow2 by lia. Qed.

Lemma length_le_encode n z : length (le_encode n z) = n.
Proof. revert z; induction n; intros; simpl; [done|]. by rewrite IHn. Qed.

Lemma wf_le_encode n z : wf_bytes (le_encode n z).
Proof.
  revert z; induction n as [|n IH]; intros; simpl; constructor; [|apply IH].
  rewrite land_255. unfold is_byte. apply Z.mod_pos_bound. lia.
Qed.

Lemma pow256_S n : 2 ^ (8 * Z.of_nat (S n)) = 256 * 2 ^ (8 * Z.of_nat n).
Proof.
  replace (8 * Z.of_nat (S n)) with (8 + 8 * Z.of_nat n) by lia.
  by rewrite Z.pow_add_r by lia.
Qed.

Lemma le_decode_encode n z : le_decode (le_encode n z) = z mod 2 ^ (8 * Z.of_nat n).
Proof.
  revert z; induction n as [|n IH]; intros z.
  - simpl. by rewrite Z.mod_1_r.
  - rewrite pow256_S. cbn [le_encode le_decode].
    rewrite IH, land_255, shiftr_8.
    rewrite Z.rem_mul_r; [done|lia|apply Z.pow_pos_nonneg; lia].
Qed.

Lemma le_decode_bound b :
  wf_bytes b → 0 ≤ le_decode b < 2 ^ (8 * Z.of_nat (length b)).
Proof.
  induction 1 as [|x b Hx Hb IH]; [simpl; lia|].
  cbn [length]. rewrite pow256_S. cbn [le_decode]. unfold is_byte in Hx. lia.
Qed.

Lemma le_encode_decode b : wf_bytes b → le_encode (length b) (le_decode b) = b.
Proof.
  induction 1 as [|x b Hx Hb IH]; [done|]. unfold is_byte in Hx.
  cbn [length le_encode le_decode].
  rewrite land_255, shiftr_8.
  replace (x + 256 * le_decode b) with (x + le_decode b * 256) by lia.
  rewrite Z.mod_add by lia. rewrite Z.div_add by lia.
  rewrite Z.mod_small by lia. rewrite Z.div_small by lia. by rewrite Z.add_0_l, IH.
Qed.

Lemma to_signed_mod w z :
  0 < w → - 2 ^ (w - 1) ≤ z < 2 ^ (w - 1) → to_signed w (z mod 2 ^ w) = z.
Proof.
  intros Hw Hz. unfold to_signed.
  assert (2 ^ w = 2 * 2 ^ (w - 1)) as Hp.
  { rewrite <- Z.pow_succ_r by lia. f_equal. lia. }
  destruct (decide (0 ≤ z)).
  - rewrite Z.mod_small by lia. destruct (Z.ltb_spec z (2 ^ (w - 1))); lia.
  - replace (z mod 2 ^ w) with (z + 2 ^ w).
    + destruct (Z.ltb_spec (z + 2 ^ w) (2 ^ (w - 1))); lia.
    + rewrite <- (Z.mod_add z 1) by lia. rewrite Z.mod_small; lia.
Qed.

Lemma to_signed_bound w z :
  0 < w → 0 ≤ z < 2 ^ w → - 2 ^ (w - 1) ≤ to_signed w z < 2 ^ (w - 1).
Proof.
  intros Hw Hz. unfold to_signed.
  assert (2 ^ w = 2 * 2 ^ (w - 1)) as Hp.
  { rewrite <- Z.pow_succ_r by lia. f_equal. lia. }
  destruct (Z.ltb_spec z (2 ^ (w - 1))); lia.
Qed.

(** [b[i:j]] for constants [0 <= i <= j]. *)
Definition slice {A} (i j : nat) (l : list A) : list A := take (j - i) (drop i l).

Lemma wf_slice i j b : wf_bytes b → wf_bytes (slice i j b).
Proof. intros. by apply Forall_take, Forall_drop. Qed.

(** [b.ljust(n, b"\x00")]. *)
Definition ljust0 (n : nat) (b : bytes) : bytes := b ++ replicate (n - length b) 0.

(** ** Shared automation *)

Create HintDb sparq.
Create Rewrite HintDb sparq.
#[export] Hint Resolve wf_le_encode wf_slice Forall_nil_2 : sparq.
#[export] Hint Rewrite length_le_encode le_decode_encode @length_app @length_replicate
  @length_take @length_drop : sparq.

(** Case analysis on the scrutinee of a match or the test of an if. *)
Ltac case_step :=
  match goal with
  | |- context [match ?x with _ => _ end] => destruct x eqn:?
  | H : context [match ?x with _ => _ end] |- _ => destruct x eqn:?
  end.
Ltac cases := repeat (case_step; simplify_eq/=; try done).

(** Turn boolean integer tests in the context into propositions. *)
Ltac bool_to_prop :=
  repeat match goal with
  | H : (_ && _)%bool = true |- _ => apply andb_true_iff in H as [? ?]
  | H : (_ || _)%bool = false |- _ => apply orb_false_iff in H as [? ?]
  | H : negb _ = true |- _ => apply negb_true_iff in H
  | H : negb _ = false |- _ => apply negb_false_iff in H
  | H : (_ =? _) = true |- _ => apply Z.eqb_eq in H
  | H : (_ =? _) = false |- _ => apply Z.eqb_neq in H
  | H : (_ <=? _) = true |- _ => apply Z.leb_le in H
  | H : (_ <=? _) = false |- _ => apply Z.leb_gt in H
  | H : (_ <? _) = true |- _ => apply Z.ltb_lt in H
  | H : (_ <? _) = false |- _ => apply Z.ltb_ge in H
  end.

(** Reflexive-transitive closure of a labelled step: the trace is a list. *)
Section runs.
Context {S E : Type} (step : S → E → S → Prop).

Inductive steps : S → list E → S → Prop :=
  | steps_nil s : steps s [] s
  | steps_cons s e s' es s'' : step s e s' → steps s' es s'' → steps s (e :: es) s''.

Lemma steps_app s es s' es' s'' :
  steps s es s' → steps s' es' s'' → steps s (es ++ es') s''.
Proof. induction 1; simpl; eauto using steps. Qed.

Lemma steps_invariant (I : S → Prop) s es s' :
  (∀ s e s', I s → step s e s' → I s') → I s → steps s es s' → I s'.
Proof. intros Hstep HI. induction 1; eauto. Qed.
End runs.
