(* ===== verification/PyFloat.v ===== *)
(** * Python floats

    A Python [float] is an IEEE 754 binary64 number, which is Rocq's primitive
    [float]; its arithmetic is the kernel's. This file adds what Python does
    on top: division by zero raises, [math.floor] and [int] return unbounded
    integers and raise on infinities and NaN, [%] takes the divisor's sign, and
    ctypes' [c_float] stores the nearest binary32 number.

    The second half is a small theory of the values: every finite binary64
    number is an integer multiple of [2^-1074], so comparison and [floor] are
    those of an integer, [fixval]. *)

From Stdlib Require Export Floats.
From S2P Require Import Prelude.


Definition float64 := PrimFloat.float.

(** [float(z)] for an integer that fits: exact up to [2^53], nearest-even above. *)
Definition Z2F (z : Z) : float := SF2Prim (binary_normalize prec emax z 0 false).

(** [float(z)]: "int too large to convert to float". *)
Definition py_float_of_int (z : Z) : res float :=
  if is_infinity (Z2F z) then Raise OverflowError else Ok (Z2F z).

(** [x / y] *)
Definition py_div (x y : float) : res float :=
  if (y =? 0)%float then Raise ZeroDivisionError else Ok (x / y)%float.

(** [math.floor(x)], and [int(x)], which truncates. *)
Definition py_floor (x : float) : res Z :=
  match Prim2SF x with
  | S754_nan => Raise ValueError
  | S754_infinity _ => Raise OverflowError
  | S754_zero _ => Ok 0
  | S754_finite s m e => Ok (Z.shiftl (cond_Zopp s (Zpos m)) e)
  end.

Definition py_ceil (x : float) : res Z := Z.opp <$> py_floor (- x)%float.

Definition py_int (x : float) : res Z :=
  if (x <? 0)%float then py_ceil x else py_floor x.

(** [round(x)]: to the nearest integer, ties to even. *)
Definition py_round (x : float) : res Z :=
  match Prim2SF x with
  | S754_nan => Raise ValueError
  | S754_infinity _ => Raise OverflowError
  | S754_zero _ => Ok 0
  | S754_finite s m e =>
      Ok (if 0 <=? e then Z.shiftl (cond_Zopp s (Zpos m)) e
          else
            let d := 2 ^ (- e) in
            let q := Zpos m / d in
            let r := Zpos m mod d in
            let up := (d <? 2 * r) || ((2 * r =? d) && Z.odd q) in
            cond_Zopp s (if up then q + 1 else q))
  end.

(** C's [fmod] on finite arguments: exact, with the sign of the dividend. *)
Definition sf_fmod (x y : spec_float) : spec_float :=
  match x, y with
  | S754_finite sx mx ex, S754_finite _ my ey =>
      let e := Z.min ex ey in
      let r := (Z.shiftl (Zpos mx) (ex - e)) mod (Z.shiftl (Zpos my) (ey - e)) in
      binary_normalize prec emax (cond_Zopp sx r) e sx
  | S754_zero s, (S754_finite _ _ _ | S754_infinity _) => S754_zero s
  | S754_finite _ _ _, S754_infinity _ => x
  | _, _ => S754_nan
  end.

(** [x % y] on floats. *)
Definition py_mod (x y : float) : res float :=
  if (y =? 0)%float then Raise ZeroDivisionError
  else
    let r := SF2Prim (sf_fmod (Prim2SF x) (Prim2SF y)) in
    if (r =? 0)%float then Ok (if get_sign y then neg_zero else zero)
    else if Bool.eqb (y <? 0)%float (r <? 0)%float then Ok r else Ok (r + y)%float.

Definition py_isfinite (x : float) : bool := PrimFloat.is_finite x.

(** [math.sqrt] raises on a negative argument. *)
Definition py_sqrt (x : float) : res float :=
  if (x <? 0)%float then Raise ValueError else Ok (PrimFloat.sqrt x).

(** The builtins [max(a, b)] and [min(a, b)] keep the first argument on a tie
    or when the comparison involves a NaN. *)
Definition py_max (a b : float) : float := if (a <? b)%float then b else a.
Definition py_min (a b : float) : float := if (b <? a)%float then b else a.

Definition math_pi : float := 3.141592653589793%float.

(** [math.radians(x)] multiplies by the double [pi / 180.0]. *)
Definition math_radians (x : float) : float := (x * (math_pi / 180))%float.

(** ** ctypes' [c_float] and [c_double] fields: the stored bit patterns *)

Definition sf_bits (p emx : Z) (ebits : Z) (x : spec_float) : Z :=
  let sgn (s : bool) := if s then 2 ^ (p - 1 + ebits) else 0 in
  let emin := 3 - emx - p in
  match x with
  | S754_nan => (2 ^ ebits - 1) * 2 ^ (p - 1) + 2 ^ (p - 2)
  | S754_infinity s => sgn s + (2 ^ ebits - 1) * 2 ^ (p - 1)
  | S754_zero s => sgn s
  | S754_finite s m e =>
      sgn s + (if Zpos m <? 2 ^ (p - 1) then Zpos m
               else (e - emin + 1) * 2 ^ (p - 1) + (Zpos m - 2 ^ (p - 1)))
  end.

Definition sf_of_bits (p emx : Z) (ebits : Z) (b : Z) : spec_float :=
  let emin := 3 - emx - p in
  let s := Z.odd (b / 2 ^ (p - 1 + ebits)) in
  let ex := (b / 2 ^ (p - 1)) mod 2 ^ ebits in
  let f := b mod 2 ^ (p - 1) in
  if ex =? 2 ^ ebits - 1 then (if f =? 0 then S754_infinity s else S754_nan)
  else if ex =? 0 then
    match f with Zpos m => S754_finite s m emin | _ => S754_zero s end
  else
    match f + 2 ^ (p - 1) with
    | Zpos m => S754_finite s m (ex - 1 + emin)
    | _ => S754_nan
    end.

Definition to_binary32 (x : spec_float) : spec_float :=
  match x with
  | S754_finite s m e => binary_round 24 128 s m e
  | _ => x
  end.

Definition to_binary64 (x : spec_float) : spec_float :=
  match x with
  | S754_finite s m e => binary_round prec emax s m e
  | _ => x
  end.

Definition f64_bits (x : float) : Z := sf_bits 53 1024 11 (Prim2SF x).
Definition f64_value (b : Z) : float := SF2Prim (sf_of_bits 53 1024 11 b).
Definition f32_bits (x : float) : Z := sf_bits 24 128 8 (to_binary32 (Prim2SF x)).
Definition f32_value (b : Z) : float := SF2Prim (to_binary64 (sf_of_bits 24 128 8 b)).

(** What a [c_float] or [c_double] field holds after an assignment; the patterns
    always fit their width. *)
Definition c_float (x : float) : Z := f32_bits x mod 2 ^ 32.
Definition c_double (x : float) : Z := f64_bits x mod 2 ^ 64.

(** What such a [c_float] field is read back as: the nearest binary32 number. *)
Definition binary32 (x : float) : float := f32_value (c_float x).

Example f64_bits_ex : map f64_bits [1; -2.5; 0x1p-1074; neg_zero; infinity]%float
  = [0x3FF0000000000000; 0xC004000000000000; 1; 0x8000000000000000; 0x7FF0000000000000].
Proof. vm_compute. reflexivity. Qed.
Example f32_bits_ex : map f32_bits [1; 0.1; -2.5; 0x1p-149; 1e39]%float
  = [0x3F800000; 0x3DCCCCCD; 0xC0200000; 1; 0x7F800000].
Proof. vm_compute. reflexivity. Qed.
Example f32_value_ex : f32_value 0x3DCCCCCD = 0x1.99999ap-4%float.
Proof. vm_compute. reflexivity. Qed.
Example py_mod_ex : map (λ x, py_mod x 2) [7.5; -7.5; -0]%float
  = [Ok 1.5%float; Ok 0.5%float; Ok 0%float].
Proof. vm_compute. reflexivity. Qed.
Example py_floor_ex : map py_floor [2.5; -2.5; 1e22; infinity; nan]%float
  = [Ok 2; Ok (-3); Ok 10000000000000000000000; Raise OverflowError; Raise ValueError].
Proof. vm_compute. reflexivity. Qed.
Example py_round_ex : map py_round [0.5; 1.5; 2.5; -0.5; -1.5; 2.6]%float
  = [Ok 0; Ok 2; Ok 2; Ok 0; Ok (-2); Ok 3].
Proof. vm_compute. reflexivity. Qed.

(** ** The value of a finite number as an integer multiple of [2^-1074] *)

Definition sf_finite (x : spec_float) : bool :=
  match x with S754_finite _ _ _ | S754_zero _ => true | _ => false end.

Definition fixval_sf (x : spec_float) : Z :=
  match x with
  | S754_finite s m e => cond_Zopp s (Zpos m * 2 ^ (e + 1074))
  | _ => 0
  end.

Definition fixval (x : float) : Z := fixval_sf (Prim2SF x).
Definition finite (x : float) : Prop := sf_finite (Prim2SF x) = true.

Lemma digits2_bounds m :
  2 ^ (Zpos (digits2_pos m) - 1) ≤ Zpos m < 2 ^ Zpos (digits2_pos m).
Proof.
  induction m as [m IH|m IH|]; cbn [digits2_pos]; [| |done];
    rewrite Pos2Z.inj_succ, Z.pow_succ_r by lia;
    replace (Z.succ (Zpos (digits2_pos m)) - 1)
      with (Z.succ (Zpos (digits2_pos m) - 1)) by lia;
    rewrite Z.pow_succ_r by lia; lia.
Qed.

(** A canonical mantissa has 53 bits, or the exponent is the least one. *)
Lemma valid_finite s m e :
  valid_binary (S754_finite s m e) = true →
  Zpos m < 2 ^ 53 ∧ -1074 ≤ e ≤ 971 ∧ (-1074 < e → 2 ^ 52 ≤ Zpos m).
Proof.
  unfold valid_binary, SpecFloat.valid_binary, bounded, canonical_mantissa, fexp.
  change (SpecFloat.emin prec emax) with (-1074). change (emax - prec) with 971.
  change prec with 53. intros [H1%Z.eqb_eq H2%Z.leb_le]%andb_true_iff.
  pose proof (digits2_bounds m) as [Hl Hu].
  set (d := Zpos (digits2_pos m)) in *.
  assert (d ≤ 53) by lia. repeat split; try lia.
  - eapply Z.lt_le_trans; [exact Hu|]. apply Z.pow_le_mono_r; lia.
  - intros He. assert (d = 53) by lia. replace 52 with (d - 1) by lia. exact Hl.
Qed.

(** Comparing canonical numbers exponent first compares their values. *)
Lemma fix_lt_of_exp m1 e1 m2 e2 :
  Zpos m1 < 2 ^ 53 → 2 ^ 52 ≤ Zpos m2 → -1074 ≤ e1 < e2 →
  Zpos m1 * 2 ^ (e1 + 1074) < Zpos m2 * 2 ^ (e2 + 1074).
Proof.
  intros H1 H2 He.
  apply Z.lt_le_trans with (2 ^ 53 * 2 ^ (e1 + 1074)).
  { apply Z.mul_lt_mono_pos_r; [|done]. apply Z.pow_pos_nonneg; lia. }
  apply Z.le_trans with (2 ^ 52 * 2 ^ (e2 + 1074)).
  - rewrite <- !Z.pow_add_r by lia. apply Z.pow_le_mono_r; lia.
  - apply Z.mul_le_mono_nonneg_r; [apply Z.pow_nonneg|]; lia.
Qed.

Lemma mag_compare m1 e1 m2 e2 :
  valid_binary (S754_finite false m1 e1) = true →
  valid_binary (S754_finite false m2 e2) = true →
  match Z.compare e1 e2 with
  | Lt => Lt | Gt => Gt | Eq => Pos.compare_cont Eq m1 m2 end
  = (Zpos m1 * 2 ^ (e1 + 1074) ?= Zpos m2 * 2 ^ (e2 + 1074)).
Proof.
  intros (Hm1 & He1 & Hn1)%valid_finite (Hm2 & He2 & Hn2)%valid_finite. symmetry.
  destruct (Z.compare_spec e1 e2) as [->|He|He].
  - assert (0 < 2 ^ (e2 + 1074)) by (apply Z.pow_pos_nonneg; lia).
    change (Pos.compare_cont Eq m1 m2) with (Zpos m1 ?= Zpos m2).
    destruct (Z.compare_spec (Zpos m1) (Zpos m2)) as [->|?|?];
      [apply Z.compare_refl|apply Z.compare_lt_iff|apply Z.compare_gt_iff]; nia.
  - apply Z.compare_lt_iff, fix_lt_of_exp; try done; [apply Hn2|]; lia.
  - apply Z.compare_gt_iff, fix_lt_of_exp; try done; [apply Hn1|]; lia.
Qed.

Lemma valid_neg s m e :
  valid_binary (S754_finite s m e) = valid_binary (S754_finite false m e).
Proof. done. Qed.

Lemma fixval_pos m e : -1074 ≤ e → 0 < Zpos m * 2 ^ (e + 1074).
Proof. intros. apply Z.mul_pos_pos; [lia|]. apply Z.pow_pos_nonneg; lia. Qed.

Lemma SFcompare_fixval x y :
  sf_finite x = true → sf_finite y = true →
  valid_binary x = true → valid_binary y = true →
  SFcompare x y = Some (fixval_sf x ?= fixval_sf y).
Proof.
  destruct x as [s1| | |s1 m1 e1], y as [s2| | |s2 m2 e2]; intros Hfx Hfy Hx Hy;
    try discriminate; cbn [SFcompare fixval_sf]; [done|..]; f_equal;
    try (rewrite valid_neg in Hx; pose proof (valid_finite _ _ _ Hx) as (? & ? & ?);
         pose proof (fixval_pos m1 e1 ltac:(lia)));
    try (rewrite valid_neg in Hy; pose proof (valid_finite _ _ _ Hy) as (? & ? & ?);
         pose proof (fixval_pos m2 e2 ltac:(lia))).
  - destruct s2; cbn [cond_Zopp]; symmetry;
      [apply Z.compare_gt_iff|apply Z.compare_lt_iff]; lia.
  - destruct s1; cbn [cond_Zopp]; symmetry;
      [apply Z.compare_lt_iff|apply Z.compare_gt_iff]; lia.
  - destruct s1, s2; cbn [cond_Zopp].
    + rewrite Z.compare_opp, <- (mag_compare m2 e2 m1 e1) by done.
      change (Pos.compare_cont Eq m1 m2) with (Pos.compare m1 m2).
      change (Pos.compare_cont Eq m2 m1) with (Pos.compare m2 m1).
      rewrite (Z.compare_antisym e1 e2), (Pos.compare_antisym m1 m2).
      by destruct (Z.compare e1 e2); simpl; rewrite ?CompOpp_involutive.
    + symmetry. apply Z.compare_lt_iff. lia.
    + symmetry. apply Z.compare_gt_iff. lia.
    + by apply mag_compare.
Qed.

Lemma ltb_fixval x y : finite x → finite y → (x <? y)%float = (fixval x <? fixval y).
Proof.
  intros Hx Hy. rewrite ltb_spec. unfold SFltb.
  rewrite SFcompare_fixval by (done || apply Prim2SF_valid).
  unfold Z.ltb. fold (fixval x) (fixval y). by destruct (_ ?= _).
Qed.

Lemma leb_fixval x y : finite x → finite y → (x <=? y)%float = (fixval x <=? fixval y).
Proof.
  intros Hx Hy. rewrite leb_spec. unfold SFleb.
  rewrite SFcompare_fixval by (done || apply Prim2SF_valid).
  unfold Z.leb. fold (fixval x) (fixval y). by destruct (_ ?= _).
Qed.

(** ** NaN: an operation with a NaN operand gives NaN *)

Definition not_nan (x : float) : Prop := Prim2SF x ≠ S754_nan.

Lemma not_nan_check x :
  match Prim2SF x with S754_nan => false | _ => true end = true → not_nan x.
Proof. unfold not_nan. by destruct (Prim2SF x). Qed.

Ltac nan_op spec :=
  unfold not_nan; rewrite spec; let H := fresh in intros H;
  contradict H; rewrite H; try done;
  repeat match goal with |- context [Prim2SF ?x] => destruct (Prim2SF x) end; done.

Lemma sub_not_nan_l x y : not_nan (x - y)%float → not_nan x.
Proof. nan_op sub_spec. Qed.
Lemma sub_not_nan_r x y : not_nan (x - y)%float → not_nan y.
Proof. nan_op sub_spec. Qed.
Lemma add_not_nan_l x y : not_nan (x + y)%float → not_nan x.
Proof. nan_op add_spec. Qed.
Lemma mul_not_nan_l x y : not_nan (x * y)%float → not_nan x.
Proof. nan_op mul_spec. Qed.
Lemma div_not_nan_l x y : not_nan (x / y)%float → not_nan x.
Proof. nan_op div_spec. Qed.
Lemma div_not_nan_r x y : not_nan (x / y)%float → not_nan y.
Proof. nan_op div_spec. Qed.
Lemma opp_not_nan x : not_nan (- x)%float → not_nan x.
Proof. nan_op opp_spec. Qed.

Lemma py_floor_not_nan x z : py_floor x = Ok z → not_nan x.
Proof. unfold py_floor, not_nan. by destruct (Prim2SF x). Qed.

(** Comparison is total on the other numbers. *)
Lemma ltb_false_leb x y :
  not_nan x → not_nan y → (x <? y)%float = false → (y <=? x)%float = true.
Proof.
  unfold not_nan. intros Hx Hy.
  destruct (decide (sf_finite (Prim2SF x) = true ∧ sf_finite (Prim2SF y) = true)) as [[Fx Fy]|Hn].
  - rewrite ltb_fixval, leb_fixval by done. intros. bool_to_prop. apply Z.leb_le. lia.
  - rewrite ltb_spec, leb_spec.
    destruct (Prim2SF x) as [?|[]| |?], (Prim2SF y) as [?|[]| |?]; try done;
      exfalso; apply Hn; done.
Qed.

(** A number between two finite ones is finite. *)
Lemma finite_between lo x hi :
  finite lo → finite hi → (lo <=? x)%float = true → (x <=? hi)%float = true → finite x.
Proof.
  unfold finite. rewrite !leb_spec. unfold SFleb, SFcompare.
  destruct (Prim2SF x) as [s|[]| |s m e]; try done;
    destruct (Prim2SF lo) as [?|?| |? ? ?], (Prim2SF hi) as [?|?| |? ? ?]; done.
Qed.

Lemma py_floor_fixval x : finite x → py_floor x = Ok (fixval x / 2 ^ 1074).
Proof.
  unfold finite, py_floor, fixval. pose proof (Prim2SF_valid x) as Hv.
  destruct (Prim2SF x) as [s| | |s m e]; try done; intros _; cbn [fixval_sf].
  f_equal. apply valid_finite in Hv as (_ & He & _).
  replace (cond_Zopp s (Zpos m * 2 ^ (e + 1074)))
    with (cond_Zopp s (Zpos m) * 2 ^ (e + 1074)) by (destruct s; simpl; lia).
  generalize (cond_Zopp s (Zpos m)). intros z.
  destruct (Z.le_ge_cases 0 e).
  - rewrite Z.shiftl_mul_pow2 by lia. rewrite Z.pow_add_r by lia.
    by rewrite Z.mul_assoc, Z.div_mul by (apply Z.pow_nonzero; lia).
  - rewrite Z.shiftl_div_pow2 by lia.
    replace (2 ^ 1074) with (2 ^ (- e) * 2 ^ (e + 1074))
      by (rewrite <- Z.pow_add_r by lia; f_equal; lia).
    rewrite Z.div_mul_cancel_r; [done|apply Z.pow_nonzero; lia..].
Qed.

(** ** Integers below [2^53] convert exactly *)

Lemma digits2_mul_pow2 m k :
  Zpos (digits2_pos (Pos.iter xO m k)) = Zpos (digits2_pos m) + Zpos k.
Proof.
  induction k as [|k IH] using Pos.peano_ind; [simpl; lia|].
  rewrite Pos.iter_succ. cbn [digits2_pos]. lia.
Qed.

Lemma iter_xO m k : Zpos (Pos.iter xO m k) = Zpos m * 2 ^ Zpos k.
Proof.
  induction k as [|k IH] using Pos.peano_ind; [simpl; lia|].
  rewrite Pos.iter_succ, Pos2Z.inj_succ, Z.pow_succ_r by lia. lia.
Qed.

(** An integer whose mantissa is already 53 bits wide is not rounded. *)
Lemma round_aux_canonical s m e :
  digits2_pos m = 53%positive → -1074 ≤ e ≤ 971 →
  binary_round_aux prec emax s (Zpos m) e loc_Exact = S754_finite s m e.
Proof.
  intros Hd He. unfold binary_round_aux, shr_fexp. cbn [Zdigits2]. rewrite Hd.
  assert (fexp prec emax (53 + e) - e = 0) as Hz.
  { unfold fexp. change (SpecFloat.emin prec emax) with (-1074).
    change prec with 53. lia. }
  rewrite Hz. cbn [shr shr_record_of_loc shr_m loc_of_shr_record round_nearest_even].
  cbn [Zdigits2]. rewrite Hd, Hz. cbn [shr shr_record_of_loc shr_m].
  change (emax - prec) with 971. by destruct (Z.leb_spec e 971); [|lia].
Qed.

Lemma binary_round_small s p :
  Zpos p < 2 ^ 53 →
  ∃ m e, binary_round prec emax s p 0 = S754_finite s m e ∧
         valid_binary (S754_finite s m e) = true ∧
         Zpos m * 2 ^ (e + 1074) = Zpos p * 2 ^ 1074.
Proof.
  intros Hp. pose proof (digits2_bounds p) as [Hl Hu].
  assert (Zpos (digits2_pos p) ≤ 53) as Hd.
  { destruct (Z.le_gt_cases (Zpos (digits2_pos p)) 53) as [|Hgt]; [done|].
    pose proof (Z.pow_le_mono_r 2 53 (Zpos (digits2_pos p) - 1)). lia. }
  unfold binary_round, shl_align, fexp.
  change (SpecFloat.emin prec emax) with (-1074). change prec with 53.
  replace (Z.max (Zpos (digits2_pos p) + 0 - 53) (-1074))
    with (Zpos (digits2_pos p) - 53) by lia.
  rewrite Z.sub_0_r.
  assert (∀ m e, digits2_pos m = 53%positive → e = Zpos (digits2_pos p) - 53 →
            valid_binary (S754_finite s m e) = true) as Hval.
  { intros m e Hm ->. unfold valid_binary, SpecFloat.valid_binary, bounded,
      canonical_mantissa, fexp. rewrite Hm.
    change (SpecFloat.emin prec emax) with (-1074).
    change (emax - prec) with 971. change prec with 53.
    apply andb_true_iff. rewrite Z.eqb_eq, Z.leb_le. lia. }
  destruct (Zpos (digits2_pos p) - 53) as [|q|k] eqn:Hk; [|lia|].
  - eexists p, 0. change 53 with prec.
    rewrite round_aux_canonical by lia. repeat split; apply Hval; lia.
  - assert (digits2_pos (Pos.iter xO p k) = 53%positive) as Hd53.
    { pose proof (digits2_mul_pow2 p k). lia. }
    eexists (Pos.iter xO p k), (Zneg k). change 53 with prec.
    rewrite round_aux_canonical by lia. repeat split; [apply Hval; lia|].
    rewrite iter_xO, <- Z.mul_assoc, <- Z.pow_add_r by lia. do 2 f_equal. lia.
Qed.

Lemma Z2F_spec z :
  Z.abs z < 2 ^ 53 → finite (Z2F z) ∧ fixval (Z2F z) = z * 2 ^ 1074.
Proof.
  intros Hz. unfold finite, fixval, Z2F. destruct z as [|p|p]; cbn [binary_normalize].
  - rewrite Prim2SF_SF2Prim by done. done.
  - destruct (binary_round_small false p ltac:(lia)) as (m & e & -> & Hv & E).
    rewrite Prim2SF_SF2Prim by done. done.
  - destruct (binary_round_small true p ltac:(lia)) as (m & e & -> & Hv & E).
    rewrite Prim2SF_SF2Prim by done. split; [done|]. cbn [fixval_sf cond_Zopp].
    rewrite E. lia.
Qed.

(** The test the reflective proofs evaluate with float comparisons only. *)
Lemma py_floor_between z x :
  Z.abs z < 2 ^ 53 - 1 →
  (Z2F z <=? x)%float = true → (x <? Z2F (z + 1))%float = true → py_floor x = Ok z.
Proof.
  intros Hz Hlo Hhi.
  destruct (Z2F_spec z ltac:(lia)) as [Hf Hv].
  destruct (Z2F_spec (z + 1) ltac:(lia)) as [Hf' Hv'].
  assert (finite x) as Hx.
  { apply (finite_between (Z2F z) x (Z2F (z + 1))); try done.
    revert Hhi. rewrite ltb_spec, leb_spec. unfold SFltb, SFleb. by destruct SFcompare as [[]|]. }
  rewrite leb_fixval in Hlo by done. rewrite ltb_fixval in Hhi by done.
  bool_to_prop. rewrite Hv in Hlo. rewrite Hv' in Hhi.
  rewrite py_floor_fixval by done. f_equal.
  assert (0 < 2 ^ 1074) by (apply Z.pow_pos_nonneg; lia).
  symmetry. apply (Z.div_unique_pos _ _ _ (fixval x - z * 2 ^ 1074)); lia.
Qed.

(** ** A double survives a [c_double] field *)

Lemma sf_bits64_split (s : bool) hi lo :
  0 ≤ lo < 2 ^ 52 → 0 ≤ hi < 2 ^ 11 →
  let b := (if s then 2 ^ 63 else 0) + (hi * 2 ^ 52 + lo) in
  0 ≤ b < 2 ^ 64 ∧ Z.odd (b / 2 ^ 63) = s ∧ (b / 2 ^ 52) mod 2 ^ 11 = hi ∧ b mod 2 ^ 52 = lo.
Proof.
  intros Hlo Hhi b.
  assert (b = (((if s then 1 else 0) * 2 ^ 11) + hi) * 2 ^ 52 + lo) as E.
  { unfold b. destruct s; lia. }
  assert (b / 2 ^ 52 = (if s then 1 else 0) * 2 ^ 11 + hi) as E1.
  { rewrite E, Z.div_add_l, (Z.div_small lo) by lia. lia. }
  assert (b / 2 ^ 63 = if s then 1 else 0) as E2.
  { change (2 ^ 63) with (2 ^ 52 * 2 ^ 11). rewrite <- Z.div_div, E1 by lia.
    rewrite Z.div_add_l, (Z.div_small hi) by lia. lia. }
  split_and!.
  - unfold b. destruct s; lia.
  - unfold b. destruct s; lia.
  - rewrite E2. by destruct s.
  - rewrite E1. rewrite Z.add_comm, Z.mod_add, Z.mod_small by lia. done.
  - rewrite E, Z.add_comm, Z.mod_add, Z.mod_small by lia. done.
Qed.

Lemma sf_bits64_finite s m e :
  valid_binary (S754_finite s m e) = true →
  ∃ hi lo, sf_bits 53 1024 11 (S754_finite s m e) =
             (if s then 2 ^ 63 else 0) + (hi * 2 ^ 52 + lo) ∧
    0 ≤ lo < 2 ^ 52 ∧ 0 ≤ hi < 2 ^ 11 - 1 ∧
    (hi = 0 → lo = Zpos m ∧ e = -1074) ∧
    (0 < hi → Zpos m = lo + 2 ^ 52 ∧ e = hi - 1 - 1074).
Proof.
  intros (Hm & He & Hn)%valid_finite. cbn [sf_bits].
  change (53 - 1 + 11) with 63. change (53 - 1) with 52. change (3 - 1024 - 53) with (-1074).
  destruct (Z.ltb_spec (Zpos m) (2 ^ 52)).
  - exists 0, (Zpos m). split_and!; lia.
  - exists (e - -1074 + 1), (Zpos m - 2 ^ 52). split_and!; try lia.
Qed.

Lemma f64_roundtrip x : not_nan x → f64_value (c_double x) = x.
Proof.
  unfold not_nan, f64_value, c_double, f64_bits. intros Hx.
  apply Prim2SF_inj. pose proof (Prim2SF_valid x) as Hv.
  assert (sf_of_bits 53 1024 11 (sf_bits 53 1024 11 (Prim2SF x) mod 2 ^ 64) = Prim2SF x) as ->;
    [|by rewrite Prim2SF_SF2Prim].
  destruct (Prim2SF x) as [[]|[]| |s m e]; try done.
  destruct (sf_bits64_finite s m e Hv) as (hi & lo & -> & Hlo & Hhi & H0 & H1).
  destruct (sf_bits64_split s hi lo Hlo ltac:(lia)) as (Hb & Es & Ehi & Elo).
  rewrite (Z.mod_small _ (2 ^ 64)) by done. unfold sf_of_bits.
  change (53 - 1 + 11) with 63. change (53 - 1) with 52. change (3 - 1024 - 53) with (-1074).
  rewrite Es, Ehi, Elo.
  destruct (Z.eqb_spec hi (2 ^ 11 - 1)); [lia|]. destruct (Z.eqb_spec hi 0) as [->|Hnz].
  - destruct (H0 eq_refl) as [-> ->]. reflexivity.
  - destruct (H1 ltac:(lia)) as [Em Ee]. rewrite <- Em, Ee. f_equal; lia.
Qed.

(** ** Clocks *)

(** The clocks, as functions of how often they were read. *)
Record Clock := {
  ck_monotonic : nat → float;
  ck_unix : nat → float;
  ck_ns : nat → Z;
  ck_reads : nat
}.
Definition read_clock {A} (f : Clock → nat → A) : ST Clock A := λ k,
  (Ok (f k (ck_reads k)),
   {| ck_monotonic := ck_monotonic k; ck_unix := ck_unix k; ck_ns := ck_ns k;
      ck_reads := S (ck_reads k) |}).
