(* ===== verification/PyDict.v ===== *)
(** * Python dictionaries with their iteration order

    A dict iterates in insertion order, and several loops of the program
    depend on it, so a dict is the list of its items. [gmap] serves where order
    does not matter. *)

From stdpp Require Import sorting.
From S2P Require Import Prelude.

Abbreviation dict K V := (list (K * V)).

Lemma NoDup_snoc {A} (l : list A) x : NoDup l → x ∉ l → NoDup (l ++ [x]).
Proof.
  intros Hl Hx. apply NoDup_app. split_and!; [done| |apply NoDup_singleton].
  intros y Hy ->%list_elem_of_singleton. done.
Qed.

Section dict.
Context {K V : Type} `{EqDecision K}.
Implicit Types (d : dict K V) (k : K).

(** [d.get(k)] *)
Fixpoint dict_get k d : option V :=
  match d with
  | [] => None
  | (k', v) :: d => if decide (k = k') then Some v else dict_get k d
  end.

(** [d[k]] *)
Definition dict_index k d : res V :=
  match dict_get k d with Some v => Ok v | None => Raise KeyError end.

(** [k in d] *)
Definition dict_mem k d : bool := bool_decide (is_Some (dict_get k d)).

(** [d[k] = v]: an existing key keeps its place. *)
Fixpoint dict_set k (v : V) d : dict K V :=
  match d with
  | [] => [(k, v)]
  | (k', v') :: d => if decide (k = k') then (k', v) :: d else (k', v') :: dict_set k v d
  end.

(** [del d[k]] on a present key. *)
Fixpoint dict_del k d : dict K V :=
  match d with
  | [] => []
  | (k', v') :: d => if decide (k = k') then d else (k', v') :: dict_del k d
  end.

(** [d.setdefault(k, v)], the dict after it. *)
Definition dict_setdefault k v d : dict K V :=
  match dict_get k d with Some _ => d | None => dict_set k v d end.

Definition dict_keys d : list K := map fst d.
Definition dict_values d : list V := map snd d.

(** [d.update(d')] *)
Definition dict_update d d' : dict K V := foldl (λ d kv, dict_set kv.1 kv.2 d) d d'.

(** [{k: v for k, v in items}]: later items override earlier ones. *)
Definition dict_of (items : list (K * V)) : dict K V :=
  foldl (λ d kv, dict_set kv.1 kv.2 d) [] items.

Definition dict_wf d : Prop := NoDup (dict_keys d).

Lemma dict_get_set_eq k v d : dict_get k (dict_set k v d) = Some v.
Proof.
  induction d as [|[k' v'] d IH]; cbn [dict_set dict_get].
  - by rewrite decide_True.
  - case_decide; cbn [dict_get]; [by rewrite decide_True|by rewrite decide_False].
Qed.

Lemma dict_get_set_ne k k' v d : k ≠ k' → dict_get k (dict_set k' v d) = dict_get k d.
Proof.
  intros Hne. induction d as [|[k1 v1] d IH]; cbn [dict_set dict_get].
  - by rewrite decide_False.
  - case_decide; subst; cbn [dict_get]; [by rewrite !decide_False|].
    by case_decide.
Qed.

Lemma dict_get_set k k' v d :
  dict_get k (dict_set k' v d) = if decide (k = k') then Some v else dict_get k d.
Proof.
  case_decide; subst; [apply dict_get_set_eq|by apply dict_get_set_ne].
Qed.

Lemma dict_get_None k d : dict_get k d = None ↔ k ∉ dict_keys d.
Proof.
  induction d as [|[k' v'] d IH]; cbn [dict_get dict_keys map fst].
  - split; [intros _; apply not_elem_of_nil|done].
  - rewrite not_elem_of_cons. case_decide; [naive_solver|]. rewrite IH. naive_solver.
Qed.

Lemma dict_get_in k v d : dict_get k d = Some v → (k, v) ∈ d.
Proof.
  induction d as [|[k' v'] d IH]; cbn [dict_get]; [done|].
  case_decide; intros; simplify_eq; [left|right; auto].
Qed.

Lemma dict_get_of_in k v d : dict_wf d → (k, v) ∈ d → dict_get k d = Some v.
Proof.
  unfold dict_wf. induction d as [|[k' v'] d IH]; cbn [dict_get dict_keys map fst].
  - by intros _ ?%not_elem_of_nil.
  - intros [Hn Hd]%NoDup_cons [?|Hin]%elem_of_cons; simplify_eq.
    + by rewrite decide_True.
    + rewrite decide_False; [auto|]. intros ->. apply Hn.
      apply list_elem_of_In, in_map_iff. exists (k', v). split; [done|].
      by apply list_elem_of_In.
Qed.

Lemma dict_keys_set k v d :
  dict_keys (dict_set k v d) =
    if decide (k ∈ dict_keys d) then dict_keys d else dict_keys d ++ [k].
Proof.
  induction d as [|[k' v'] d IH]; cbn [dict_set dict_keys map fst app].
  - rewrite decide_False; [done|apply not_elem_of_nil].
  - destruct (decide (k = k')) as [->|Hne]; cbn [map fst].
    + rewrite decide_True; [done|left].
    + fold (dict_keys (dict_set k v d)). rewrite IH. fold (dict_keys d).
      repeat case_decide; set_solver.
Qed.

Lemma dict_wf_set k v d : dict_wf d → dict_wf (dict_set k v d).
Proof.
  unfold dict_wf. intros Hd. rewrite dict_keys_set. case_decide; [done|].
  by apply NoDup_snoc.
Qed.

Lemma dict_wf_of items : dict_wf (dict_of items).
Proof.
  unfold dict_of. assert (dict_wf ([] : dict K V)) as H by constructor.
  revert H. generalize ([] : dict K V).
  induction items as [|[k v] items IH]; intros d Hd; [done|].
  cbn [foldl]. by apply IH, dict_wf_set.
Qed.

Lemma dict_set_in k v k' v' d : (k, v) ∈ dict_set k' v' d → (k, v) = (k', v') ∨ (k, v) ∈ d.
Proof.
  induction d as [|[k1 v1] d IH]; cbn [dict_set]; [rewrite list_elem_of_singleton; auto|].
  case_decide; rewrite !elem_of_cons; naive_solver.
Qed.

Lemma dict_of_in items k v : (k, v) ∈ dict_of items → (k, v) ∈ items.
Proof.
  unfold dict_of. intros H.
  assert ((k, v) ∈ items ∨ (k, v) ∈ ([] : dict K V)) as [|Hn%elem_of_nil]; [|done..].
  revert H. generalize ([] : dict K V). induction items as [|[k1 v1] items IH]; intros d H; [auto|].
  cbn [foldl] in H. rewrite elem_of_cons.
  apply IH in H as [|H]; [auto|]. apply dict_set_in in H as [[= -> ->]|]; auto.
Qed.

Lemma dict_get_del k k' d :
  dict_wf d → dict_get k (dict_del k' d) = if decide (k = k') then None else dict_get k d.
Proof.
  unfold dict_wf. induction d as [|[k1 v1] d IH]; cbn [dict_del dict_get dict_keys map fst].
  - intros _. by case_decide.
  - intros [Hn Hd]%NoDup_cons. destruct (decide (k' = k1)) as [->|Hne].
    + case_decide; subst; [by apply dict_get_None|done].
    + cbn [dict_get]. rewrite IH by done. repeat case_decide; congruence.
Qed.

Lemma dict_get_del_ne k k' d : k ≠ k' → dict_get k (dict_del k' d) = dict_get k d.
Proof.
  intros Hne. induction d as [|[k1 v1] d IH]; cbn [dict_del dict_get]; [done|].
  destruct (decide (k' = k1)) as [->|]; cbn [dict_get].
  - by rewrite decide_False.
  - by rewrite IH.
Qed.

Lemma dict_wf_del k d : dict_wf d → dict_wf (dict_del k d).
Proof.
  unfold dict_wf. induction d as [|[k1 v1] d IH]; cbn [dict_del dict_keys map fst]; [done|].
  intros [Hn Hd]%NoDup_cons. case_decide; [done|]. cbn [map fst].
  apply NoDup_cons. split; [|by apply IH].
  intros Hin. apply Hn. clear -Hin. revert Hin.
  fold (dict_keys (dict_del k d)) (dict_keys d).
  induction d as [|[k2 v2] d IH]; cbn [dict_del dict_keys map fst]; [done|].
  case_decide; [by right|]. cbn [map fst]. rewrite !elem_of_cons.
  intros [->|?]; [by left|right; by apply IH].
Qed.

Lemma dict_wf_update d d' : dict_wf d → dict_wf (dict_update d d').
Proof.
  unfold dict_update. revert d; induction d' as [|[k v] d' IH]; intros d Hd; [done|].
  cbn [foldl]. by apply IH, dict_wf_set.
Qed.

(** Lookup after an update whose right-hand side has unique keys. *)
Lemma dict_get_update k d d' :
  dict_wf d' → dict_get k (dict_update d d') = dict_get k d' ∪ dict_get k d.
Proof.
  unfold dict_wf, dict_update. revert d.
  induction d' as [|[k' v] d' IH]; intros d; cbn [dict_keys map fst].
  - intros _. cbn. by destruct (dict_get k d).
  - intros [Hn Hd]%NoDup_cons. cbn [foldl fst snd]. rewrite IH by done. cbn [dict_get].
    rewrite dict_get_set. case_decide as Hk; [|done]. subst k'.
    assert (dict_get k d' = None) as -> by by apply dict_get_None. by destruct (dict_get k d).
Qed.
End dict.

#[export] Hint Resolve dict_wf_set dict_wf_of dict_wf_del dict_wf_update : sparq.

(** ** [sorted(..., key=...)]: stable, by integer key *)

Fixpoint insert_by {A} (key : A → Z) (x : A) (l : list A) : list A :=
  match l with
  | [] => [x]
  | y :: l' => if key x <=? key y then x :: l else y :: insert_by key x l'
  end.
Definition sorted_by {A} (key : A → Z) (l : list A) : list A := foldr (insert_by key) [] l.


Section sorting.
Context {A : Type} (key : A → Z).

Lemma insert_by_perm x l : insert_by key x l ≡ₚ x :: l.
Proof.
  induction l as [|y l IH]; cbn; [done|]. case_match; [done|].
  rewrite IH. apply Permutation_swap.
Qed.

Lemma sorted_by_perm l : sorted_by key l ≡ₚ l.
Proof. induction l as [|x l IH]; cbn; [done|]. rewrite insert_by_perm. by f_equiv. Qed.

Lemma insert_by_sorted x l :
  Sorted (λ a b, key a ≤ key b) l → Sorted (λ a b, key a ≤ key b) (insert_by key x l).
Proof.
  induction 1 as [|y l Hs IH Hhd]; cbn; [by repeat constructor|].
  destruct (Z.leb_spec (key x) (key y)); [by repeat constructor|].
  constructor; [done|]. destruct l as [|z l]; cbn; [constructor; lia|].
  case_match; constructor; [lia|]. by inversion Hhd.
Qed.

Lemma sorted_by_sorted l : Sorted (λ a b, key a ≤ key b) (sorted_by key l).
Proof. induction l; cbn; [constructor|]. by apply insert_by_sorted. Qed.

(** Entries with one key keep their order. *)
Lemma sorted_by_stable k l :
  filter (λ a, key a = k) (sorted_by key l) = filter (λ a, key a = k) l.
Proof.
  induction l as [|x l IH]; cbn [sorted_by foldr]; [done|]. fold (sorted_by key l).
  rewrite filter_cons, <- IH. clear IH. generalize (sorted_by key l) as m.
  induction m as [|y m IHm]; cbn [insert_by].
  - rewrite filter_cons. done.
  - destruct (Z.leb_spec (key x) (key y)).
    + rewrite (filter_cons _ x). done.
    + rewrite !filter_cons, IHm. repeat case_decide; try done. lia.
Qed.
End sorting.
