(* ===== verification/Numpy.v ===== *)
(** * Arrays of floats

    What the policy processes use of numpy: one-dimensional arrays of dtype
    [float32] or [float64]. An element is the double with its value; an operation
    rounds the double result to the dtype. For [float32] that is what the binary32
    operation gives, since a double has more than twice its precision. A Python float
    among the operands is rounded to the dtype first (numpy 2's promotion). *)

From S2P Require Import Prelude PyFloat.

Abbreviation array := (list float).

(** The dtype of an array: how it rounds. *)
Class DType := { rnd : float → float }.

Definition float32 : DType := {| rnd := binary32 |}.
Definition float64 : DType := {| rnd x := x |}.

(** [l[i]] on a Python list or an array: negative indices count from the end. *)
Definition py_index {A} (l : list A) (i : Z) : res A :=
  let j := if i <? 0 then i + Z.of_nat (length l) else i in
  if j <? 0 then Raise IndexError
  else match l !! Z.to_nat j with Some x => Ok x | None => Raise IndexError end.

(** [l[:n]] *)
Definition py_prefix {A} (l : list A) (n : Z) : list A :=
  take (Z.to_nat (if n <? 0 then n + Z.of_nat (length l) else n)) l.

(** [np.zeros(n, dtype)] *)
Definition np_zeros (n : Z) : res array :=
  if n <? 0 then Raise ValueError else Ok (replicate (Z.to_nat n) 0%float).

Section dtype.
Context {dt : DType}.

(** [np.array(values, dtype)] of a list of floats *)
Definition np_array (values : list float) : array := map rnd values.

(** [a[:] = b]: an array of one element is spread over the others. *)
Definition np_assign (a b : array) : res array :=
  if (length b =? length a)%nat then Ok b
  else match b with
  | [x] => Ok (replicate (length a) x)
  | _ => Raise ValueError
  end.

(** [a + b], [a - b]: likewise. *)
Definition np_map2 (f : float → float → float) (a b : array) : res array :=
  if (length a =? length b)%nat then Ok (zip_with (λ x y, rnd (f x y)) a b)
  else match a, b with
  | [x], _ => Ok (map (λ y, rnd (f x y)) b)
  | _, [y] => Ok (map (λ x, rnd (f x y)) a)
  | _, _ => Raise ValueError
  end.
Definition np_add := np_map2 PrimFloat.add.
Definition np_sub := np_map2 PrimFloat.sub.

(** [a * x], with a Python float [x] *)
Definition np_mul (a x : float) : float := rnd (a * rnd x)%float.
Definition np_scale (a : array) (x : float) : array := map (λ y, np_mul y x) a.

(** [np.clip(a, lo, hi)], with Python floats; NaN stays. *)
Definition np_clip1 (lo hi x : float) : float :=
  let y := if is_nan x || (rnd lo <? x)%float then x else rnd lo in
  if is_nan y || (y <? rnd hi)%float then y else rnd hi.
Definition np_clip (a : array) (lo hi : float) : array := map (np_clip1 lo hi) a.

End dtype.

(** [a[i] = x] for an index of [enumerate] *)
Definition np_store (a : array) (i : nat) (x : float) : res array :=
  if (i <? length a)%nat then Ok (<[i := x]> a) else Raise IndexError.

(** ** Lemmas *)

Lemma length_np_array {dt : DType} l : length (np_array l) = length l.
Proof. apply length_map. Qed.

Lemma np_assign_same a b : length b = length a → np_assign a b = Ok b.
Proof. intros H. unfold np_assign. by rewrite H, Nat.eqb_refl. Qed.

Lemma np_map2_same {dt : DType} f a b :
  length a = length b → np_map2 f a b = Ok (zip_with (λ x y, rnd (f x y)) a b).
Proof. intros H. unfold np_map2. by rewrite H, Nat.eqb_refl. Qed.

Lemma py_index_nat {A} (l : list A) k x : l !! k = Some x → py_index l (Z.of_nat k) = Ok x.
Proof.
  intros H. unfold py_index. rewrite (proj2 (Z.ltb_ge (Z.of_nat k) 0)) by lia.
  rewrite (proj2 (Z.ltb_ge _ _)) by lia. by rewrite Nat2Z.id, H.
Qed.

Lemma mapR_index {A} (l : list A) (idx : list nat) (d : A) :
  Forall (λ k, (k < length l)%nat) idx →
  mapR (py_index l) (map Z.of_nat idx) = Ok (map (λ k, nth k l d) idx).
Proof.
  induction idx as [|k idx IH]; intros H; [done|]. apply Forall_cons in H as [Hk H].
  cbn [map mapR]. destruct (lookup_lt_is_Some_2 l k Hk) as [x Hx].
  rewrite (py_index_nat _ _ _ Hx). cbn [mbind res_bind]. rewrite IH by done. cbn [mbind res_bind].
  by rewrite (nth_lookup_Some _ _ d _ Hx).
Qed.

Lemma py_prefix_all {A} (l : list A) n :
  py_prefix l (Z.of_nat n) = take n l.
Proof. unfold py_prefix. rewrite (proj2 (Z.ltb_ge _ _)) by lia. by rewrite Nat2Z.id. Qed.

Lemma not_nan_spec x : not_nan x → is_nan x = false.
Proof.
  unfold not_nan, is_nan. rewrite eqb_spec. unfold SFeqb, SFcompare.
  destruct (Prim2SF x) as [[]|[]| |[] m e]; try done; intros _;
    by rewrite ?Z.compare_refl, ?Pos.compare_refl.
Qed.

Lemma ltb_leb x y : (x <? y)%float = true → (x <=? y)%float = true.
Proof. rewrite ltb_spec, leb_spec. unfold SFltb, SFleb. by destruct SFcompare as [[]|]. Qed.

Lemma leb_not_nan x y : (x <=? y)%float = true → not_nan x ∧ not_nan y.
Proof.
  rewrite leb_spec. unfold SFleb, not_nan, SFcompare.
  by destruct (Prim2SF x) as [?|[]| |?], (Prim2SF y) as [?|[]| |?].
Qed.

Lemma leb_refl x : not_nan x → (x <=? x)%float = true.
Proof.
  unfold not_nan. rewrite leb_spec. unfold SFleb, SFcompare.
  destruct (Prim2SF x) as [[]|[]| |[] m e]; try done; intros _;
    by rewrite ?Z.compare_refl, ?Pos.compare_refl.
Qed.

(** A number that is not NaN is clipped into a proper interval. *)
Lemma np_clip1_bounds {dt : DType} lo hi x :
  (rnd lo <=? rnd hi)%float = true → not_nan x →
  (rnd lo <=? np_clip1 lo hi x)%float = true ∧ (np_clip1 lo hi x <=? rnd hi)%float = true.
Proof.
  intros Hb Hx. destruct (leb_not_nan _ _ Hb) as [Hl Hh]. unfold np_clip1.
  rewrite (not_nan_spec x Hx). cbn [orb].
  destruct (rnd lo <? x)%float eqn:E.
  - rewrite (not_nan_spec x Hx). cbn [orb]. apply ltb_leb in E.
    destruct (x <? rnd hi)%float eqn:E'.
    + split; [done|by apply ltb_leb].
    + split; [done|by apply leb_refl].
  - rewrite (not_nan_spec _ Hl). cbn [orb].
    destruct (rnd lo <? rnd hi)%float; split; first [done|by apply leb_refl].
Qed.
