(* ===== verification/CStruct.v ===== *)
(** * Packed ctypes structures and the shared-memory segments that hold them

    [robot_controller/shm/cstruct.py] and the code its siblings repeat: a
    [ctypes.Structure] with [_pack_ = 1] is the concatenation of its fields'
    little-endian representations, and a segment of
    [multiprocessing.shared_memory] is a named array of bytes that several
    processes map. Field values are kept as the bit patterns they are stored
    as; [PyFloat.f32_bits] and its siblings convert floats. *)

From S2P Require Import Prelude.

(** ** Field patterns *)

(** Assigning an integer to a [c_uintN]/[c_intN] field keeps its low bits. *)
Definition c_uint (w z : Z) : Z := z mod 2 ^ w.
Definition c_int (w z : Z) : Z := to_signed w (z mod 2 ^ w).

Lemma c_uint_range w z : 0 ≤ w → 0 ≤ c_uint w z < 2 ^ w.
Proof. intros. apply Z.mod_pos_bound, Z.pow_pos_nonneg; lia. Qed.

Lemma c_int_range w z : 0 < w → - 2 ^ (w - 1) ≤ c_int w z < 2 ^ (w - 1).
Proof. intros. apply to_signed_bound; [lia|]. apply Z.mod_pos_bound, Z.pow_pos_nonneg; lia. Qed.

Lemma c_int_small w z : 0 < w → - 2 ^ (w - 1) ≤ z < 2 ^ (w - 1) → c_int w z = z.
Proof. apply to_signed_mod. Qed.

Fixpoint pack_words (sizes : list nat) (ws : list Z) : bytes :=
  match sizes, ws with
  | n :: ns, w :: ws => le_encode n w ++ pack_words ns ws
  | _, _ => []
  end.

Fixpoint unpack_words (sizes : list nat) (b : bytes) : list Z :=
  match sizes with
  | [] => []
  | n :: ns => le_decode (take n b) :: unpack_words ns (drop n b)
  end.

Definition words_in_range (sizes : list nat) (ws : list Z) : Prop :=
  Forall2 (λ n w, 0 ≤ w < 2 ^ (8 * Z.of_nat n)) sizes ws.

Lemma wf_pack_words sizes ws : wf_bytes (pack_words sizes ws).
Proof.
  revert ws; induction sizes as [|n ns IH]; intros [|w ws]; [constructor..|].
  cbn [pack_words]. apply Forall_app. split; [apply wf_le_encode|apply IH].
Qed.

Lemma length_pack_words sizes ws :
  length ws = length sizes → length (pack_words sizes ws) = sum_list sizes.
Proof.
  revert ws; induction sizes as [|n ns IH]; intros [|w ws] Hl; simplify_eq/=; [done|].
  rewrite length_app, length_le_encode. by rewrite IH.
Qed.

Lemma unpack_pack_words sizes ws b :
  words_in_range sizes ws → unpack_words sizes (pack_words sizes ws ++ b) = ws.
Proof.
  intros H; revert b; induction H as [|n w ns ws Hw H IH]; intros b; [done|].
  cbn [pack_words unpack_words]. rewrite <- app_assoc.
  rewrite take_app_length' by (by rewrite length_le_encode).
  rewrite drop_app_length' by (by rewrite length_le_encode).
  by rewrite le_decode_encode, Z.mod_small, IH.
Qed.

Lemma length_unpack_words sizes b : length (unpack_words sizes b) = length sizes.
Proof. revert b; induction sizes; intros; simpl; auto. Qed.

(** ** The interface of a [ctypes.Structure] class *)

Class CStruct (T : Type) := {
  field_sizes : list nat;        (* bytes of each scalar field, in order *)
  to_words : T → list Z;         (* the fields' bit patterns *)
  of_words : list Z → T;
  cs_wf : T → Prop               (* every field holds a value of its C type *)
}.

Class CStructLaws (T : Type) `{CStruct T} := {
  to_words_range t : cs_wf t → words_in_range field_sizes (to_words t);
  of_to_words t : cs_wf t → of_words (to_words t) = t
}.

Section struct.
Context (T : Type) `{CStruct T}.

(** [ctypes.sizeof(T)] *)
Definition sizeof : nat := sum_list (field_sizes (T:=T)).

(** [bytes(value)] *)
Definition to_bytes (t : T) : bytes := pack_words (field_sizes (T:=T)) (to_words t).

(** [T.from_buffer_copy(b)] *)
Definition from_buffer_copy (b : bytes) : res T :=
  if (sizeof <=? length b)%nat
  then Ok (of_words (unpack_words (field_sizes (T:=T)) b))
  else Raise ValueError.
End struct.
Arguments to_bytes {T _} t.

Section struct_laws.
Context {T : Type} `{CStructLaws T}.

Lemma length_to_bytes (t : T) : cs_wf t → length (to_bytes t) = sizeof T.
Proof.
  intros Hwf. apply length_pack_words. symmetry.
  eapply Forall2_length, to_words_range, Hwf.
Qed.

Lemma wf_to_bytes (t : T) : wf_bytes (to_bytes t).
Proof. apply wf_pack_words. Qed.

(** A structure written anywhere reads back as itself. *)
Lemma from_to_bytes (t : T) rest :
  cs_wf t → from_buffer_copy T (to_bytes t ++ rest) = Ok t.
Proof.
  intros Hwf. unfold from_buffer_copy.
  destruct (Nat.leb_spec (sizeof T) (length (to_bytes t ++ rest))) as [_|Hlt].
  - unfold to_bytes. rewrite unpack_pack_words by (by apply to_words_range).
    by rewrite of_to_words.
  - rewrite length_app, length_to_bytes in Hlt by done. lia.
Qed.
End struct_laws.

(** ** Arrays of structures, and structures side by side *)

Section arrays.
Context {T : Type} `{CStructLaws T}.

Definition words_per : nat := length (field_sizes (T:=T)).
Definition array_sizes (n : nat) : list nat := concat (replicate n (field_sizes (T:=T))).
Definition array_words (ts : list T) : list Z := concat (map to_words ts).

Fixpoint array_of_words (n : nat) (ws : list Z) : list T :=
  match n with
  | O => []
  | S n => of_words (take words_per ws) :: array_of_words n (drop words_per ws)
  end.

Lemma length_to_words (t : T) : cs_wf t → length (to_words t) = words_per.
Proof. intros Hw. symmetry. eapply Forall2_length, to_words_range, Hw. Qed.

Lemma array_words_range n ts :
  Forall cs_wf ts → length ts = n → words_in_range (array_sizes n) (array_words ts).
Proof.
  intros Hf; revert n; induction Hf as [|t ts Ht Hf IH]; intros n <-; [constructor|].
  apply Forall2_app; [by apply to_words_range|by apply IH].
Qed.

Lemma array_of_array_words ts rest :
  Forall cs_wf ts → array_of_words (length ts) (array_words ts ++ rest) = ts.
Proof.
  induction 1 as [|t ts Ht Hf IH]; [done|].
  unfold array_words. cbn [length array_of_words map concat]. rewrite <- app_assoc.
  rewrite take_app_length', drop_app_length' by (by rewrite length_to_words).
  f_equal; [by apply of_to_words|apply IH].
Qed.

Lemma length_array_words ts :
  Forall cs_wf ts → length (array_words ts) = (length ts * words_per)%nat.
Proof.
  unfold array_words. induction 1 as [|t ts Ht Hf IH]; [done|].
  cbn [map concat length]. rewrite length_app, length_to_words by done. lia.
Qed.
End arrays.
Arguments array_sizes T {_} n.
Arguments words_per T {_}.

(** The C array initialiser: the given items, then zeros up to the capacity. *)
Definition pad_array {T} (n : nat) (empty : T) (ts : list T) : list T :=
  ts ++ replicate (n - length ts) empty.

Lemma length_pad_array {T} n (e : T) ts : (length ts ≤ n)%nat → length (pad_array n e ts) = n.
Proof. intros. unfold pad_array. rewrite length_app, length_replicate. lia. Qed.

Lemma Forall_pad_array {T} (P : T → Prop) n e ts :
  P e → Forall P ts → Forall P (pad_array n e ts).
Proof. intros. apply Forall_app. split; [done|by apply Forall_replicate]. Qed.

Lemma take_pad_array {T} n (e : T) ts : take (length ts) (pad_array n e ts) = ts.
Proof. apply take_app_length. Qed.

(** ** The namespace of shared-memory segments

    POSIX semantics: a name refers to an object; a mapping keeps its object
    alive after the name is unlinked. A handle is the object's number. *)

Record ShmFs := {
  shm_names : gmap string nat;
  shm_objects : gmap nat bytes;
  shm_next : nat
}.

Definition shm_empty : ShmFs := {| shm_names := ∅; shm_objects := ∅; shm_next := 0 |}.

(** [SharedMemory(name, create=True, size=size)] *)
Definition shm_create (name : string) (size : Z) : ST ShmFs nat := λ fs,
  if size <=? 0 then (Raise ValueError, fs)
  else match shm_names fs !! name with
  | Some _ => (Raise FileExistsError, fs)
  | None =>
      let n := shm_next fs in
      (Ok n, {| shm_names := <[name := n]> (shm_names fs);
                shm_objects := <[n := replicate (Z.to_nat size) 0]> (shm_objects fs);
                shm_next := S n |})
  end.

(** [SharedMemory(name, create=False)] *)
Definition shm_attach (name : string) : ST ShmFs nat := λ fs,
  match shm_names fs !! name with
  | Some n => (Ok n, fs)
  | None => (Raise FileNotFoundError, fs)
  end.

(** [shm.unlink()] *)
Definition shm_unlink (name : string) : ST ShmFs unit := λ fs,
  match shm_names fs !! name with
  | Some _ => (Ok (), {| shm_names := delete name (shm_names fs);
                         shm_objects := shm_objects fs; shm_next := shm_next fs |})
  | None => (Raise FileNotFoundError, fs)
  end.

(** [shm.buf] of an open handle. *)
Definition shm_buf (h : nat) (fs : ShmFs) : bytes := default [] (shm_objects fs !! h).

Definition shm_set_buf (h : nat) (b : bytes) : ST ShmFs unit :=
  modify (λ fs, {| shm_names := shm_names fs;
                   shm_objects := <[h := b]> (shm_objects fs);
                   shm_next := shm_next fs |}).

(** [shm.buf[:len(data)] = data]: a memoryview slice keeps its length, so
    assigning more bytes than the segment has raises. *)
Definition shm_store (h : nat) (data : bytes) : ST ShmFs unit :=
  b ← gets (shm_buf h);
  if (length data <=? length b)%nat
  then shm_set_buf h (data ++ drop (length data) b)
  else raise ValueError.

(** A typed segment object: the attributes [name] and [shm] of the wrappers
    ([shm] is [None] once closed). *)
Record ShmObj := { so_name : string; so_handle : option nat }.

Section typed.
Context (T : Type) `{CStruct T}.

(** [__init__(name, create, size)] of a wrapper. [undersized] is the
    exception its last check ends in: a wrapper that formats
    [len(self.shm.buf)] after [self.close()] has set [self.shm = None] raises
    [AttributeError] there instead of the [RuntimeError] it spells. *)
Definition wrapper_init (undersized : exn) (name : string) (create : bool)
    (size : option Z) : ST ShmFs ShmObj :=
  let required := Z.of_nat (sizeof T) in
  let requested := default required size in
  if requested <? required then raise ValueError
  else
    h ← (if create then shm_create name requested else shm_attach name);
    b ← gets (shm_buf h);
    if Z.of_nat (length b) <? required then raise undersized
    else mret {| so_name := name; so_handle := Some h |}.

(** [clear()] *)
Definition wrapper_clear (o : ShmObj) : ST ShmFs unit :=
  match so_handle o with
  | None => raise AttributeError
  | Some h => b ← gets (shm_buf h); shm_set_buf h (replicate (length b) 0)
  end.

(** [create(name, size)]: a fresh, zeroed segment. *)
Definition wrapper_create (undersized : exn) (name : string) (size : option Z) :
    ST ShmFs ShmObj :=
  o ← wrapper_init undersized name true size;
  _ ← wrapper_clear o;
  mret o.

(** [open_reader(name)] and [open_writer(name)] *)
Definition wrapper_open (undersized : exn) (name : string) : ST ShmFs ShmObj :=
  wrapper_init undersized name false None.

(** [read_relaxed()], and [read_struct()] of [SharedCStruct] *)
Definition wrapper_read (o : ShmObj) : ST ShmFs T :=
  match so_handle o with
  | None => raise AttributeError
  | Some h => b ← gets (shm_buf h); lift (from_buffer_copy T (take (sizeof T) b))
  end.

(** [write(value)], and [write_struct(value)] of [SharedCStruct] *)
Definition wrapper_write (o : ShmObj) (t : T) : ST ShmFs unit :=
  match so_handle o with
  | None => raise AttributeError
  | Some h => shm_store h (to_bytes t)
  end.
End typed.

Lemma wrapper_read_pure T `{CStruct T} fs o : snd (wrapper_read T o fs) = fs.
Proof. unfold wrapper_read. by destruct (so_handle o). Qed.

(** [close()]: the object forgets its mapping; closing twice is harmless. *)
Definition wrapper_close (o : ShmObj) : ShmObj :=
  {| so_name := so_name o; so_handle := None |}.

(** [unlink()] *)
Definition wrapper_unlink (o : ShmObj) : ST ShmFs unit :=
  match so_handle o with
  | None => mret ()
  | Some _ => shm_unlink (so_name o)
  end.

(** No object is numbered beyond the next number. *)
Definition fs_wf (fs : ShmFs) : Prop :=
  ∀ n, (shm_next fs ≤ n)%nat → shm_objects fs !! n = None.

(** ** Properties of the wrappers *)

(** From a well-formed store to one: every object is still there and has not
    shrunk, whatever happened to the names. *)
Definition grows (fs fs' : ShmFs) : Prop :=
  fs_wf fs → fs_wf fs' ∧
  ∀ n b, shm_objects fs !! n = Some b →
    ∃ b', shm_objects fs' !! n = Some b' ∧ (length b ≤ length b')%nat.

#[export] Instance grows_preorder : PreOrder grows.
Proof.
  split; [by intros fs Hw; split; [|eauto]|].
  intros fs1 fs2 fs3 H1 H2 Hw. destruct (H1 Hw) as [Hw2 Ho1]. destruct (H2 Hw2) as [Hw3 Ho2].
  split; [done|]. intros n b Hb. destruct (Ho1 n b Hb) as (b' & Hb' & ?).
  destruct (Ho2 n b' Hb') as (b'' & ? & ?). exists b''. split; [done|lia].
Qed.

Lemma grows_objects fs fs' :
  shm_objects fs' = shm_objects fs → shm_next fs' = shm_next fs → grows fs fs'.
Proof. intros Ho Hn Hw. unfold fs_wf. rewrite Ho, Hn. split; [done|eauto]. Qed.

(** An open wrapper whose segment is large enough. *)
Definition shm_ready (T : Type) `{CStruct T} (fs : ShmFs) (o : ShmObj) : Prop :=
  ∃ h b, so_handle o = Some h ∧ shm_objects fs !! h = Some b ∧ (sizeof T ≤ length b)%nat.

#[export] Instance shm_ready_dec (T : Type) `{CStruct T} fs o : Decision (shm_ready T fs o).
Proof.
  refine (cast_if (decide (default false
    (h ← so_handle o; b ← shm_objects fs !! h; Some (sizeof T <=? length b)%nat) = true)));
    unfold shm_ready; destruct (so_handle o) as [h|]; cbn in *; try naive_solver;
    destruct (shm_objects fs !! h) as [b|] eqn:E; cbn in *; try naive_solver.
  - exists h, b. split_and!; [done|done|by apply Nat.leb_le].
  - intros (h' & b' & [= <-] & Hb & Hl%Nat.leb_le). rewrite E in Hb. by injection Hb as <-.
Defined.

Section wrapper_facts.
Context {T : Type} `{CStructLaws T}.
Implicit Types (fs : ShmFs) (o : ShmObj) (t : T).

Definition written_buf t (b : bytes) : bytes := to_bytes t ++ drop (sizeof T) b.

Lemma wrapper_write_run fs o h b t :
  cs_wf t → so_handle o = Some h → shm_objects fs !! h = Some b →
  (sizeof T ≤ length b)%nat →
  wrapper_write T o t fs =
    (Ok (), {| shm_names := shm_names fs;
               shm_objects := <[h := written_buf t b]> (shm_objects fs);
               shm_next := shm_next fs |}).
Proof.
  intros Hwf Ho Hb Hlen. unfold wrapper_write, shm_store. rewrite Ho.
  st_run. unfold shm_buf. rewrite Hb. cbn [default].
  unfold from_option, id.
  rewrite length_to_bytes by done.
  destruct (Nat.leb_spec (sizeof T) (length b)); [done|lia].
Qed.

(** A write leaves every open wrapper as usable as it was. *)
Lemma wrapper_write_ready fs o t :
  cs_wf t → shm_ready T fs o →
  ∃ fs', wrapper_write T o t fs = (Ok (), fs') ∧ grows fs fs' ∧
    (∀ T' (HT' : CStruct T') o', shm_ready T' fs o' → shm_ready T' fs' o').
Proof.
  intros Hwf (h & b & Hh & Hb & Hlen). eexists.
  split; [by apply (wrapper_write_run fs o h b t)|].
  assert (length (written_buf t b) = length b) as Hl
    by (unfold written_buf; rewrite length_app, length_drop, length_to_bytes by done; lia).
  assert (∀ n b', shm_objects fs !! n = Some b' →
    ∃ b'', <[h := written_buf t b]> (shm_objects fs) !! n = Some b'' ∧
           (length b' ≤ length b'')%nat) as Hobj.
  { intros n b' Hb'. destruct (decide (n = h)) as [->|Hne].
    - rewrite lookup_insert_eq. simplify_eq. eexists. split; [done|]. lia.
    - rewrite lookup_insert_ne by done. eauto. }
  split.
  - intros Hw. split; [|exact Hobj]. intros n Hn. cbn in *.
    rewrite lookup_insert_ne; [by apply Hw|]. intros ->. by rewrite Hw in Hb.
  - intros T' HT' o' (h' & b' & Hh' & Hb' & Hlen'). destruct (Hobj h' b' Hb') as (b'' & ? & ?).
    exists h', b''. split_and!; [done|done|lia].
Qed.

(** A write through another mapping is not seen. *)
Lemma wrapper_write_other {T'} `{CStruct T'} fs fs' o o' t :
  cs_wf t → shm_ready T fs o → so_handle o' ≠ so_handle o →
  wrapper_write T o t fs = (Ok (), fs') →
  fst (wrapper_read T' o' fs') = fst (wrapper_read T' o' fs).
Proof.
  intros Hwf (h & b & Hh & Hb & Hlen) Hne Hw.
  rewrite (wrapper_write_run fs o h b t) in Hw by done. injection Hw as <-.
  unfold wrapper_read. destruct (so_handle o') as [h'|]; [|done]. st_run.
  unfold shm_buf. cbn [shm_objects fst]. rewrite lookup_insert_ne; [done|].
  intros ->. apply Hne. by rewrite Hh.
Qed.

(** What one process writes, every process that maps the segment reads. *)
Lemma write_then_read fs o1 o2 t :
  cs_wf t → so_handle o1 = so_handle o2 → shm_ready T fs o1 →
  ∃ fs', wrapper_write T o1 t fs = (Ok (), fs') ∧ shm_names fs' = shm_names fs ∧
         wrapper_read T o2 fs' = (Ok t, fs').
Proof.
  intros Hwf Ho (h & b & Hh & Hb & Hlen). eexists.
  split; [by apply (wrapper_write_run fs o1 h b t)|]. split; [done|].
  unfold wrapper_read. rewrite <- Ho, Hh. st_run.
  unfold shm_buf. cbn [shm_objects]. rewrite lookup_insert_eq.
  unfold default, from_option, id, written_buf.
  rewrite take_app_length' by (by rewrite length_to_bytes).
  rewrite <- (app_nil_r (to_bytes t)). by rewrite from_to_bytes.
Qed.

(** Opening and creating keep what is there; an opened wrapper is usable. *)
Lemma wrapper_open_ready ue name fs :
  (0 < sizeof T)%nat →
  snd (wrapper_open T ue name fs) = fs ∧
  match fst (wrapper_open T ue name fs) with Ok o => shm_ready T fs o | Raise _ => True end.
Proof.
  intros Hpos. unfold wrapper_open, wrapper_init. cbn [default from_option].
  rewrite Z.ltb_irrefl. st_run. unfold shm_attach.
  destruct (shm_names fs !! name) as [h|]; [|done]. unfold shm_buf.
  destruct (Z.ltb_spec (Z.of_nat (length (default [] (shm_objects fs !! h))))
    (Z.of_nat (sizeof T))) as [|Hle]; [done|].
  split; [done|]. destruct (shm_objects fs !! h) as [b|] eqn:E; cbn in *; [|lia].
  exists h, b. split_and!; [done|done|lia].
Qed.

(** The object is a mapping of what the name stands for. *)
Definition attached (fs : ShmFs) (o : ShmObj) (name : string) : Prop :=
  so_name o = name ∧ so_handle o = shm_names fs !! name ∧ is_Some (so_handle o).

Lemma wrapper_open_attached ue name fs o fs' :
  wrapper_open T ue name fs = (Ok o, fs') →
  fs' = fs ∧ attached fs o name.
Proof.
  unfold wrapper_open, wrapper_init. cbn [default from_option]. rewrite Z.ltb_irrefl.
  intros (h & s1 & Hh & Hk)%st_bind_inv. unfold shm_attach in Hh.
  destruct (shm_names fs !! name) eqn:E; [|done]. injection Hh as <- <-.
  apply st_bind_inv in Hk as (b & s2 & Hb & Hk). st_run. injection Hb as <- <-.
  destruct (_ <? _); [done|]. injection Hk as <- <-. by split; [|split_and!; [| |eexists]].
Qed.

Lemma wrapper_create_grows ue name size : within grows (wrapper_create T ue name size).
Proof.
  intros fs Hw. unfold wrapper_create, wrapper_init.
  destruct (_ <? _); [by split; [|eauto]|]. st_run. unfold shm_create.
  destruct (_ <=? 0); [by split; [|eauto]|].
  destruct (shm_names fs !! name); [by split; [|eauto]|].
  unfold shm_buf. cbn [shm_objects]. rewrite lookup_insert_eq. cbn [default from_option].
  assert (∀ b, fs_wf {| shm_names := <[name := shm_next fs]> (shm_names fs);
                        shm_objects := <[shm_next fs := b]> (shm_objects fs);
                        shm_next := S (shm_next fs) |} ∧
    ∀ n b', shm_objects fs !! n = Some b' →
      ∃ b'', <[shm_next fs := b]> (shm_objects fs) !! n = Some b'' ∧
             (length b' ≤ length b'')%nat) as Hnew.
  { intros b. split.
    - intros n Hn. cbn in *. rewrite lookup_insert_ne by lia. apply Hw. lia.
    - intros n b' Hb'. rewrite lookup_insert_ne; [eauto|]. intros <-. by rewrite Hw in Hb'. }
  destruct (_ <? _); [apply Hnew|]. unfold wrapper_clear. cbn [so_handle]. st_run.
  unfold shm_set_buf, shm_buf, modify. cbn [fst snd shm_names shm_objects shm_next].
  rewrite insert_insert_eq. apply Hnew.
Qed.

(** Creating a segment that does not exist succeeds exactly when the
    requested size holds the structure, and the segment is all zeros. *)
Lemma wrapper_create_fresh ue fs name size :
  shm_names fs !! name = None → shm_objects fs !! shm_next fs = None →
  (0 < sizeof T)%nat → Z.of_nat (sizeof T) ≤ default (Z.of_nat (sizeof T)) size →
  ∃ o fs', wrapper_create T ue name size fs = (Ok o, fs') ∧
    so_name o = name ∧ so_handle o = Some (shm_next fs) ∧
    shm_names fs' = <[name := shm_next fs]> (shm_names fs) ∧
    shm_objects fs' =
      <[shm_next fs := replicate (Z.to_nat (default (Z.of_nat (sizeof T)) size)) 0]>
        (shm_objects fs) ∧
    shm_next fs' = S (shm_next fs).
Proof.
  intros Hn Ho Hpos Hsz. unfold wrapper_create, wrapper_init.
  set (sz := default _ size) in *.
  destruct (Z.ltb_spec sz (Z.of_nat (sizeof T))); [lia|].
  st_run. unfold shm_create.
  destruct (Z.leb_spec sz 0); [lia|]. rewrite Hn.
  st_run. unfold shm_buf. cbn [shm_objects]. rewrite lookup_insert_eq.
  cbn [default]. unfold from_option, id. rewrite length_replicate.
  destruct (Z.ltb_spec (Z.of_nat (Z.to_nat sz)) (Z.of_nat (sizeof T))); [lia|].
  unfold wrapper_clear. st_run.
  unfold shm_buf. cbn [shm_objects so_handle]. rewrite lookup_insert_eq. cbn [default].
  unfold from_option, id, shm_set_buf, modify. cbn [shm_objects shm_names shm_next].
  rewrite length_replicate. do 2 eexists. split; [done|].
  cbn [so_name so_handle shm_objects shm_names shm_next].
  by rewrite insert_insert_eq.
Qed.

Lemma wrapper_create_exists ue fs name size n :
  shm_names fs !! name = Some n →
  is_ok (fst (wrapper_create T ue name size fs)) = false ∧
  snd (wrapper_create T ue name size fs) = fs.
Proof.
  intros Hn. unfold wrapper_create, wrapper_init.
  destruct (_ <? _); [done|]. st_run. unfold shm_create.
  destruct (_ <=? 0); [done|]. by rewrite Hn.
Qed.
End wrapper_facts.
