(* ===== verification/OperatorCommand.v ===== *)
(** * The operator-command segment

    [robot_controller/shm/operator_command.py]: the command codes an operator
    process writes, the structure in shared memory, and the writer that builds
    it. *)

From S2P Require Import Prelude CStruct.

(** [class OperatorCommandCode(IntEnum)] *)
Inductive OperatorCommandCode :=
  | NONE | ENABLE | DISABLE | DAMPING | ZERO_SET | ESTOP | RESET_FAULT | RUN.

#[export] Instance OperatorCommandCode_eq_dec : EqDecision OperatorCommandCode.
Proof. solve_decision. Defined.

Definition code_value (c : OperatorCommandCode) : Z :=
  match c with
  | NONE => 0 | ENABLE => 1 | DISABLE => 2 | DAMPING => 3
  | ZERO_SET => 4 | ESTOP => 5 | RESET_FAULT => 6 | RUN => 7
  end.

(** [OperatorCommandCode(z)] *)
Definition code_of_int (z : Z) : res OperatorCommandCode :=
  match z with
  | 0 => Ok NONE | 1 => Ok ENABLE | 2 => Ok DISABLE | 3 => Ok DAMPING
  | 4 => Ok ZERO_SET | 5 => Ok ESTOP | 6 => Ok RESET_FAULT | 7 => Ok RUN
  | _ => Raise ValueError
  end.

Lemma code_of_value c : code_of_int (code_value c) = Ok c.
Proof. by destruct c. Qed.

Lemma code_of_int_value z c : code_of_int z = Ok c → z = code_value c.
Proof.
  unfold code_of_int. intros H.
  repeat (case_match; simplify_eq/=; try done).
Qed.

Definition OPERATOR_ZERO_TARGET_CAPACITY : nat := 12.
Definition OPERATOR_ZERO_TARGET_MAGIC : Z := 0x5A45524F.

(** ** The structures *)

Record OperatorZeroTargetC := {
  zt_can_id : Z;         (* c_uint32 *)
  zt_offset_count : Z;   (* c_int16 *)
  zt_reserved : Z        (* c_uint16 *)
}.

Record OperatorCommandC := {
  oc_timestamp_ns : Z;       (* c_uint64 *)
  oc_command : Z;            (* c_uint32 *)
  oc_target_mask : Z;        (* c_uint32 *)
  oc_zero_target_count : Z;  (* c_uint32 *)
  oc_zero_target_magic : Z;  (* c_uint32 *)
  oc_zero_targets : list OperatorZeroTargetC
}.

Definition zero_target_empty : OperatorZeroTargetC :=
  {| zt_can_id := 0; zt_offset_count := 0; zt_reserved := 0 |}.

(** [OperatorCommandC()] is all zeros. *)
Definition OperatorCommandC_new : OperatorCommandC :=
  {| oc_timestamp_ns := 0; oc_command := 0; oc_target_mask := 0;
     oc_zero_target_count := 0; oc_zero_target_magic := 0;
     oc_zero_targets := replicate OPERATOR_ZERO_TARGET_CAPACITY zero_target_empty |}.

Definition wf_zero_target (t : OperatorZeroTargetC) : Prop :=
  0 ≤ zt_can_id t < 2 ^ 32 ∧ - 2 ^ 15 ≤ zt_offset_count t < 2 ^ 15 ∧
  0 ≤ zt_reserved t < 2 ^ 16.

Record wf_command (c : OperatorCommandC) : Prop := {
  wfc_timestamp : 0 ≤ oc_timestamp_ns c < 2 ^ 64;
  wfc_command : 0 ≤ oc_command c < 2 ^ 32;
  wfc_mask : 0 ≤ oc_target_mask c < 2 ^ 32;
  wfc_count : 0 ≤ oc_zero_target_count c < 2 ^ 32;
  wfc_magic : 0 ≤ oc_zero_target_magic c < 2 ^ 32;
  wfc_length : length (oc_zero_targets c) = OPERATOR_ZERO_TARGET_CAPACITY;
  wfc_targets : Forall wf_zero_target (oc_zero_targets c)
}.

Definition zero_target_words (t : OperatorZeroTargetC) : list Z :=
  [zt_can_id t; zt_offset_count t mod 2 ^ 16; zt_reserved t].

Fixpoint zero_targets_of_words (ws : list Z) : list OperatorZeroTargetC :=
  match ws with
  | a :: b :: c :: ws =>
      {| zt_can_id := a; zt_offset_count := to_signed 16 b; zt_reserved := c |}
      :: zero_targets_of_words ws
  | _ => []
  end.

#[export] Instance OperatorCommandC_struct : CStruct OperatorCommandC := {
  field_sizes := ([8; 4; 4; 4; 4] ++
    concat (replicate OPERATOR_ZERO_TARGET_CAPACITY [4; 2; 2]))%nat;
  to_words c :=
    [oc_timestamp_ns c; oc_command c; oc_target_mask c; oc_zero_target_count c;
     oc_zero_target_magic c] ++ concat (map zero_target_words (oc_zero_targets c));
  of_words ws :=
    match ws with
    | ts :: cmd :: mask :: cnt :: magic :: ws =>
        {| oc_timestamp_ns := ts; oc_command := cmd; oc_target_mask := mask;
           oc_zero_target_count := cnt; oc_zero_target_magic := magic;
           oc_zero_targets := zero_targets_of_words ws |}
    | _ => OperatorCommandC_new
    end;
  cs_wf := wf_command
}.

Definition OPERATOR_COMMAND_SIZE : nat := sizeof OperatorCommandC.

Lemma OPERATOR_COMMAND_SIZE_value : OPERATOR_COMMAND_SIZE = 120%nat.
Proof. reflexivity. Qed.

Lemma zero_targets_of_to_words ts :
  Forall wf_zero_target ts →
  zero_targets_of_words (concat (map zero_target_words ts)) = ts.
Proof.
  induction 1 as [|[a b c] ts (Ha & Hb & Hc) H IH]; [done|].
  cbn [map concat zero_target_words app zero_targets_of_words zt_can_id
       zt_offset_count zt_reserved] in *.
  by rewrite IH, to_signed_mod by (simpl; lia).
Qed.

Lemma zero_target_words_range ts n :
  Forall wf_zero_target ts → length ts = n →
  words_in_range (concat (replicate n [4; 2; 2]%nat)) (concat (map zero_target_words ts)).
Proof.
  intros H; revert n; induction H as [|[a b c] ts (Ha & Hb & Hc) H IH];
    intros n <-; [constructor|].
  cbn [length replicate map concat]. apply Forall2_app; [|by apply IH].
  cbn [zero_target_words zt_can_id zt_offset_count zt_reserved] in *.
  repeat constructor; try (simpl; lia); apply Z.mod_pos_bound; lia.
Qed.

#[export] Instance OperatorCommandC_laws : CStructLaws OperatorCommandC.
Proof.
  split.
  - intros c []. cbn [field_sizes to_words OperatorCommandC_struct].
    apply Forall2_app; [repeat constructor; simpl; lia|].
    by apply zero_target_words_range.
  - intros [] []. cbn in *. by rewrite zero_targets_of_to_words.
Qed.

(** ** [OperatorCommandShm] *)

Module OperatorCommandShm.
(** The size check of [__init__] formats [len(self.shm.buf)] after
    [self.close()]: [AttributeError], not the [RuntimeError] it spells. *)
Definition init := wrapper_init OperatorCommandC AttributeError.
Definition open_reader := wrapper_open OperatorCommandC AttributeError.
Definition open_writer := wrapper_open OperatorCommandC AttributeError.
Definition create := wrapper_create OperatorCommandC AttributeError.
Definition close := wrapper_close.
Definition unlink := wrapper_unlink.
Definition clear := wrapper_clear.
Definition read_relaxed := wrapper_read OperatorCommandC.
Definition write := wrapper_write OperatorCommandC.

(** The loop body of [_build_command]: range checks, then the stores. *)
Definition build_target (target : Z * Z) : res OperatorZeroTargetC :=
  let '(can_id_int, offset_count_int) := target in
  _ ← guard_ok ((0 <=? can_id_int) && (can_id_int <=? 0x1FFFFFFF)) ValueError;
  _ ← guard_ok ((-32768 <=? offset_count_int) && (offset_count_int <=? 32767)) ValueError;
  Ok {| zt_can_id := c_uint 32 can_id_int;
        zt_offset_count := c_int 16 offset_count_int; zt_reserved := 0 |}.

(** [_build_command(code, target_mask, zero_targets)]; [now_ns] is
    [time.time_ns()]. *)
Definition _build_command (now_ns : Z) (code : Z) (target_mask : Z)
    (targets : list (Z * Z)) : res OperatorCommandC :=
  _ ← guard_ok (length targets <=? OPERATOR_ZERO_TARGET_CAPACITY)%nat ValueError;
  zts ← mapR build_target targets;
  Ok {| oc_timestamp_ns := c_uint 64 now_ns;
        oc_command := c_uint 32 code;
        oc_target_mask := c_uint 32 target_mask;
        oc_zero_target_count := c_uint 32 (Z.of_nat (length targets));
        oc_zero_target_magic :=
          c_uint 32 (if (0 <? length targets)%nat then OPERATOR_ZERO_TARGET_MAGIC else 0);
        oc_zero_targets :=
          zts ++ replicate (OPERATOR_ZERO_TARGET_CAPACITY - length zts) zero_target_empty |}.

(** [publish(code, target_mask)] returns the timestamp it wrote. *)
Definition publish (now_ns : Z) (o : ShmObj) (code : Z) (target_mask : Z) : ST ShmFs Z :=
  command ← lift (_build_command now_ns code target_mask []);
  _ ← write o command;
  mret (oc_timestamp_ns command).

(** [publish_zero_set(targets)] *)
Definition publish_zero_set (now_ns : Z) (o : ShmObj) (targets : list (Z * Z)) :
    ST ShmFs Z :=
  command ← lift (_build_command now_ns (code_value ZERO_SET) 0 targets);
  _ ← write o command;
  mret (oc_timestamp_ns command).
End OperatorCommandShm.

(** ** [OperatorCommandShmWriter]: the dashboard's side *)

Module OperatorCommandShmWriter.
Record flags := {
  arm : bool; clear_fault : bool; estop : bool; damping : bool;
  zero_set : bool; disable : bool; run : bool
}.
Definition no_flags : flags := Build_flags false false false false false false false.

(** The first flag of the [if] chain of [publish] decides the command. *)
Definition publish_code (f : flags) : OperatorCommandCode :=
  if arm f then ENABLE
  else if run f then RUN
  else if clear_fault f then RESET_FAULT
  else if estop f then ESTOP
  else if damping f then DAMPING
  else if zero_set f then ZERO_SET
  else if disable f then DISABLE
  else NONE.

Definition init (name : string) : ST ShmFs ShmObj := OperatorCommandShm.open_writer name.

Definition close := OperatorCommandShm.close.

Definition publish_zero_set := OperatorCommandShm.publish_zero_set.

Definition publish (now_ns : Z) (o : ShmObj) (f : flags) : ST ShmFs Z :=
  match publish_code f with
  | ZERO_SET => publish_zero_set now_ns o []
  | c => OperatorCommandShm.publish now_ns o (code_value c) 0
  end.
End OperatorCommandShmWriter.

(** ** What the writer puts in the segment *)

Definition target_in_range (t : Z * Z) : Prop :=
  0 ≤ t.1 ≤ 0x1FFFFFFF ∧ -32768 ≤ t.2 ≤ 32767.

Definition target_entry (t : Z * Z) : OperatorZeroTargetC :=
  {| zt_can_id := t.1; zt_offset_count := t.2; zt_reserved := 0 |}.

Module OperatorCommandFacts.
Import OperatorCommandShm.

Lemma build_target_spec t :
  build_target t = if decide (target_in_range t) then Ok (target_entry t) else Raise ValueError.
Proof.
  destruct t as [a b]. unfold build_target, target_in_range, target_entry, guard_ok.
  cbn [fst snd]. destruct (decide _) as [[Ha Hb]|Hn].
  - rewrite !(proj2 (Z.leb_le _ _)) by lia. cbn [andb mbind res_bind].
    unfold c_uint, c_int. rewrite Z.mod_small by lia. by rewrite to_signed_mod by lia.
  - destruct (Z.leb_spec 0 a), (Z.leb_spec a 0x1FFFFFFF); try done; cbn [andb mbind res_bind].
    destruct (Z.leb_spec (-32768) b), (Z.leb_spec b 32767); try done.
    exfalso. apply Hn. lia.
Qed.

Lemma build_targets_spec ts :
  mapR build_target ts =
    if decide (Forall target_in_range ts) then Ok (map target_entry ts) else Raise ValueError.
Proof.
  induction ts as [|t ts IH]; [done|]. cbn [mapR map].
  rewrite build_target_spec, IH.
  repeat case_decide; cbn [mbind res_bind]; try done;
    rewrite Forall_cons in *; naive_solver.
Qed.

(** The command the builder makes from valid targets. *)
Definition built (now_ns code mask : Z) (ts : list (Z * Z)) : OperatorCommandC :=
  {| oc_timestamp_ns := c_uint 64 now_ns;
     oc_command := c_uint 32 code;
     oc_target_mask := c_uint 32 mask;
     oc_zero_target_count := Z.of_nat (length ts);
     oc_zero_target_magic :=
       if (0 <? length ts)%nat then OPERATOR_ZERO_TARGET_MAGIC else 0;
     oc_zero_targets := map target_entry ts ++
       replicate (OPERATOR_ZERO_TARGET_CAPACITY - length ts) zero_target_empty |}.

Definition buildable (ts : list (Z * Z)) : Prop :=
  (length ts ≤ OPERATOR_ZERO_TARGET_CAPACITY)%nat ∧ Forall target_in_range ts.

Lemma _build_command_spec now_ns code mask ts :
  _build_command now_ns code mask ts =
    if decide (buildable ts) then Ok (built now_ns code mask ts) else Raise ValueError.
Proof.
  unfold _build_command, buildable. rewrite build_targets_spec.
  destruct (Nat.leb_spec (length ts) OPERATOR_ZERO_TARGET_CAPACITY) as [Hl|Hl];
    cbn [guard_ok mbind res_bind].
  - unfold OPERATOR_ZERO_TARGET_CAPACITY in Hl.
    destruct (decide (Forall _ _)) as [Ht|Ht]; cbn [mbind res_bind];
      rewrite decide_bool_decide; case_bool_decide; try naive_solver.
    unfold built. rewrite length_map. do 2 f_equal.
    + unfold c_uint. apply Z.mod_small. lia.
    + by destruct (0 <? length ts)%nat.
  - rewrite decide_False; [done|]. lia.
Qed.

Lemma built_wf now_ns code mask ts : buildable ts → wf_command (built now_ns code mask ts).
Proof.
  intros [Hl Ht]. pose proof Hl as Hl'. unfold OPERATOR_ZERO_TARGET_CAPACITY in Hl'.
  split; cbn; try (apply c_uint_range; lia); try lia.
  - unfold OPERATOR_ZERO_TARGET_MAGIC. destruct (length ts); lia.
  - rewrite length_app, length_map, length_replicate.
    unfold OPERATOR_ZERO_TARGET_CAPACITY. lia.
  - apply Forall_app. split.
    + apply Forall_map. eapply Forall_impl; [exact Ht|].
      intros [a b] [? ?]. unfold wf_zero_target; cbn in *. lia.
    + apply Forall_replicate. unfold wf_zero_target; cbn. lia.
Qed.
End OperatorCommandFacts.

(** ** Properties *)

Section operator_properties.
Import OperatorCommandFacts.

Lemma publish_built fs o1 o2 now_ns code mask ts :
  shm_ready OperatorCommandC fs o1 → so_handle o1 = so_handle o2 → buildable ts →
  ∃ fs',
    (command ← lift (OperatorCommandShm._build_command now_ns code mask ts);
     _ ← OperatorCommandShm.write o1 command;
     mret (oc_timestamp_ns command)) fs = (Ok (c_uint 64 now_ns), fs') ∧
    OperatorCommandShm.read_relaxed o2 fs' = (Ok (built now_ns code mask ts), fs').
Proof.
  intros Hr Ho Hb.
  destruct (write_then_read fs o1 o2 (built now_ns code mask ts)) as (fs' & Hw & _ & Hrd);
    [by apply built_wf|done|done|].
  exists fs'. rewrite _build_command_spec, decide_True by done. st_run.
  unfold OperatorCommandShm.write, OperatorCommandShm.read_relaxed. by rewrite Hw.
Qed.

(** C12: Operator commands. A zero-set command with acceptable targets (at most
    twelve, 29-bit identifiers, 16-bit offsets) is read by every process that
    maps the segment exactly as it was built, entry by entry; with any other
    targets nothing is written and the call raises. A dashboard command reaches
    the readers as the code of the first flag set in [publish]'s order, without
    targets. *)
Theorem operator_command_delivery fs (o1 o2 : ShmObj) (now_ns : Z) (ts : list (Z * Z))
    (f : OperatorCommandShmWriter.flags) :
  shm_ready OperatorCommandC fs o1 → so_handle o1 = so_handle o2 →
  (buildable ts → ∃ fs',
    OperatorCommandShm.publish_zero_set now_ns o1 ts fs = (Ok (c_uint 64 now_ns), fs') ∧
    OperatorCommandShm.read_relaxed o2 fs' =
      (Ok (built now_ns (code_value ZERO_SET) 0 ts), fs')) ∧
  (¬ buildable ts →
    OperatorCommandShm.publish_zero_set now_ns o1 ts fs = (Raise ValueError, fs)) ∧
  (∃ fs' c,
    OperatorCommandShmWriter.publish now_ns o1 f fs = (Ok (c_uint 64 now_ns), fs') ∧
    OperatorCommandShm.read_relaxed o2 fs' = (Ok c, fs') ∧
    code_of_int (oc_command c) = Ok (OperatorCommandShmWriter.publish_code f) ∧
    oc_zero_target_count c = 0 ∧ oc_zero_target_magic c = 0).
Proof.
  intros Hr Ho. split_and!.
  - intros Hb. by apply publish_built.
  - intros Hn. unfold OperatorCommandShm.publish_zero_set.
    by rewrite _build_command_spec, decide_False.
  - assert (buildable []) as Hb by (split; [simpl; lia|constructor]).
    unfold OperatorCommandShmWriter.publish.
    destruct (OperatorCommandShmWriter.publish_code f);
      match goal with
      | |- context [OperatorCommandShm.publish _ _ ?c ?m] =>
          destruct (publish_built fs o1 o2 now_ns c m [] Hr Ho Hb) as (fs' & H1 & H2)
      | _ => destruct (publish_built fs o1 o2 now_ns (code_value ZERO_SET) 0 [] Hr Ho Hb)
               as (fs' & H1 & H2)
      end; exists fs'; eexists; (split; [exact H1|]); (split; [exact H2|]);
      vm_compute; done.
Qed.
End operator_properties.

Definition example_segment : ShmFs :=
  {| shm_names := {["op"%string := 0%nat]}; shm_objects := {[0%nat := replicate 120 0]};
     shm_next := 1 |}.

Lemma operator_command_delivery_witness :
  let o := {| so_name := "op"%string; so_handle := Some 0%nat |} in
  ∃ fs', OperatorCommandShm.publish_zero_set 5 o [(0x141, -250); (0x142, 3)] example_segment
           = (Ok (c_uint 64 5), fs') ∧
         OperatorCommandShm.read_relaxed o fs' =
           (Ok (OperatorCommandFacts.built 5 (code_value ZERO_SET) 0 [(0x141, -250); (0x142, 3)]),
            fs').
Proof.
  intros o.
  assert (shm_ready OperatorCommandC example_segment o) as Hr.
  { exists 0%nat, (replicate 120 0). split; [reflexivity|]. split; [reflexivity|].
    change (sizeof OperatorCommandC) with 120%nat. rewrite length_replicate. reflexivity. }
  apply (operator_command_delivery example_segment o o 5 [(0x141, -250); (0x142, 3)]
    OperatorCommandShmWriter.no_flags Hr eq_refl).
  split; [by apply Nat.leb_le|]. repeat constructor; simpl; lia.
Defined.
