(* ===== verification/StateMachine.v ===== *)
(** * The controller state machine

    [robot_controller/state_machine.py]: which [ControllerMode] the controller
    is in, and how an operator command and the clock move it. *)

From S2P Require Import Prelude PyFloat CStruct OperatorCommand.

Module Mode.
(** [class ControllerMode(IntEnum)] *)
Inductive ControllerMode :=
  | DISABLED | ENABLING | NORMAL | DAMPING | ZERO_SETTING | ESTOP.

#[global] Instance ControllerMode_eq_dec : EqDecision ControllerMode.
Proof. solve_decision. Defined.

Definition value (m : ControllerMode) : Z :=
  match m with
  | DISABLED => 0 | ENABLING => 1 | NORMAL => 2
  | DAMPING => 3 | ZERO_SETTING => 4 | ESTOP => 5
  end.
End Mode.
Abbreviation ControllerMode := Mode.ControllerMode.

(** [class ControllerStateMachine] *)
Record ControllerStateMachine := {
  sm_enable_duration_s : float;
  sm_mode : ControllerMode;
  sm_mode_enter_time : float
}.

(** [__init__] and [__post_init__]; [now] is [time.monotonic()]. *)
Definition sm_init (enable_duration_s : float) (mode : ControllerMode)
    (mode_enter_time now : float) : res ControllerStateMachine :=
  if (enable_duration_s <? 0)%float then Raise ValueError
  else Ok {| sm_enable_duration_s := enable_duration_s; sm_mode := mode;
             sm_mode_enter_time :=
               if (mode_enter_time <=? 0)%float then now else mode_enter_time |}.

Definition enter (s : ControllerStateMachine) (mode : ControllerMode) (now : float) :
    ControllerStateMachine :=
  if decide (sm_mode s = mode) then s
  else {| sm_enable_duration_s := sm_enable_duration_s s;
          sm_mode := mode; sm_mode_enter_time := now |}.

(** The code [update] acts on: [NONE] without a command, or for a number that
    is no [OperatorCommandCode]. *)
Definition command_code (command : option OperatorCommandC) : OperatorCommandCode :=
  match command with
  | None => NONE
  | Some c => match code_of_int (oc_command c) with Ok code => code | Raise _ => NONE end
  end.

(** The last test of [update]. *)
Definition enabling_timeout (s : ControllerStateMachine) (now : float) :
    ControllerStateMachine :=
  if decide (sm_mode s = Mode.ENABLING) then
    if (sm_enable_duration_s s <=? now - sm_mode_enter_time s)%float
    then enter s Mode.DAMPING now else s
  else s.

(** [update] for a decoded command; the early returns of the source are the
    leaves of the [if] chain. *)
Definition update_code (s : ControllerStateMachine) (code : OperatorCommandCode)
    (now : float) : ControllerStateMachine :=
  let mode := sm_mode s in
  if decide (code = ESTOP) then enter s Mode.ESTOP now
  else if decide (mode = Mode.ESTOP) then
    if decide (code = RESET_FAULT) then enter s Mode.DISABLED now else s
  else if decide (code = DISABLE) then enter s Mode.DISABLED now
  else if decide (code = ENABLE ∧ (mode = Mode.DISABLED ∨ mode = Mode.ZERO_SETTING)) then
    enter s Mode.ENABLING now
  else if decide (code = ENABLE ∧ mode ≠ Mode.ENABLING) then s
  else if decide (code = RUN ∧ mode = Mode.DAMPING) then enter s Mode.NORMAL now
  else if decide (code = RUN ∧ mode = Mode.NORMAL) then s
  else if decide (code = DAMPING) then enter s Mode.DAMPING now
  else if decide (code = ZERO_SET) then enter s Mode.ZERO_SETTING now
  else if decide (code = RESET_FAULT) then enter s Mode.DISABLED now
  else if decide (mode = Mode.ZERO_SETTING ∧ code = NONE) then enter s Mode.DISABLED now
  else enabling_timeout s now.

(** [update(command, now)] returns the new [self.mode]. *)
Definition update (s : ControllerStateMachine) (command : option OperatorCommandC)
    (now : float) : ControllerMode * ControllerStateMachine :=
  let s' := update_code s (command_code command) now in (sm_mode s', s').

(** ** Specification: the transition table

    [elapsed] says that the enable duration has passed since the mode was
    entered. The code is a refinement of this table. *)

Definition next_mode (mode : ControllerMode) (code : OperatorCommandCode) (elapsed : bool) :
    ControllerMode :=
  match code, mode with
  | ESTOP, _ => Mode.ESTOP
  | RESET_FAULT, _ => Mode.DISABLED
  | _, Mode.ESTOP => Mode.ESTOP
  | DISABLE, _ => Mode.DISABLED
  | DAMPING, _ => Mode.DAMPING
  | ZERO_SET, _ => Mode.ZERO_SETTING
  | ENABLE, (Mode.DISABLED | Mode.ZERO_SETTING) => Mode.ENABLING
  | RUN, Mode.DAMPING => Mode.NORMAL
  | NONE, Mode.ZERO_SETTING => Mode.DISABLED
  | _, Mode.ENABLING => if elapsed then Mode.DAMPING else Mode.ENABLING
  | _, _ => mode
  end.

Definition elapsed (s : ControllerStateMachine) (now : float) : bool :=
  (sm_enable_duration_s s <=? now - sm_mode_enter_time s)%float.

Section update_facts.
Implicit Types (s : ControllerStateMachine) (code : OperatorCommandCode).

Lemma enter_mode s m now : sm_mode (enter s m now) = m.
Proof. unfold enter. by case_decide. Qed.

Lemma enter_duration s m now :
  sm_enable_duration_s (enter s m now) = sm_enable_duration_s s.
Proof. unfold enter. by case_decide. Qed.

Lemma enter_time s m now :
  sm_mode_enter_time (enter s m now) =
    if decide (sm_mode s = m) then sm_mode_enter_time s else now.
Proof. unfold enter. by case_decide. Qed.

(** Every branch leaves the state as it is or goes through [enter]. *)
Lemma update_code_enter s code now :
  update_code s code now = enter s (next_mode (sm_mode s) code (elapsed s now)) now.
Proof.
  destruct s as [d m t]. unfold update_code, enabling_timeout, elapsed.
  cbn [sm_mode sm_enable_duration_s sm_mode_enter_time].
  destruct code, m; cbn; try done; by destruct (d <=? now - t)%float.
Qed.
End update_facts.

#[export] Hint Rewrite enter_mode enter_duration update_code_enter : sparq.

(** ** Runs of the state machine: one event per tick *)

Definition sm_event : Type := option OperatorCommandC * float.

Definition sm_run (s : ControllerStateMachine) (es : list sm_event) : ControllerStateMachine :=
  foldl (λ s e, snd (update s e.1 e.2)) s es.

Lemma sm_run_app s es es' : sm_run s (es ++ es') = sm_run (sm_run s es) es'.
Proof. apply foldl_app. Qed.

Lemma sm_run_snoc s es e :
  sm_mode (sm_run s (es ++ [e])) =
    next_mode (sm_mode (sm_run s es)) (command_code e.1) (elapsed (sm_run s es) e.2).
Proof.
  rewrite sm_run_app. unfold sm_run at 1. cbn [foldl update snd].
  by rewrite update_code_enter, enter_mode.
Qed.

(** ** Properties *)

(** C2: Refinement. One call of [update] is one step of the transition table: the new mode is
    the table's for the old mode, the decoded command (an absent command or an
    unknown number counts as NONE) and the enable timer; the entry time moves
    to [now] exactly when the mode changes, and the duration never changes. *)
Theorem update_refines_table s command now :
  let m' := next_mode (sm_mode s) (command_code command) (elapsed s now) in
  let '(returned, s') := update s command now in
  returned = m' ∧ sm_mode s' = m' ∧
  sm_mode_enter_time s' =
    (if decide (sm_mode s = m') then sm_mode_enter_time s else now) ∧
  sm_enable_duration_s s' = sm_enable_duration_s s.
Proof.
  unfold update. rewrite update_code_enter, enter_mode, enter_time, enter_duration. done.
Qed.

Definition is_estop (e : sm_event) : Prop := command_code e.1 = ESTOP.
Definition is_reset (e : sm_event) : Prop := command_code e.1 = RESET_FAULT.

Lemma estop_latched_run s es :
  sm_mode s = Mode.ESTOP → Forall (λ e, ¬ is_reset e) es → sm_run s es = s.
Proof.
  intros Hm H; induction H as [|e es He H IH]; [done|].
  unfold sm_run. cbn [foldl].
  assert (snd (update s e.1 e.2) = s) as ->; [|exact IH].
  unfold is_reset in He. cbn [update snd]. rewrite update_code_enter. unfold enter.
  rewrite decide_True; [done|]. rewrite Hm. unfold next_mode.
  by destruct (command_code e.1).
Qed.

(** C8: E-stop is immediate and latched: after an ESTOP command in any state, whatever
    commands follow, the mode is ESTOP until the first RESET_FAULT, which
    leads to DISABLED and nowhere else. *)
Theorem estop_latches s estop es reset :
  is_estop estop → Forall (λ e, ¬ is_reset e) es → is_reset reset →
  sm_mode (sm_run s (estop :: es)) = Mode.ESTOP ∧
  sm_mode (sm_run s (estop :: es ++ [reset])) = Mode.DISABLED.
Proof.
  intros He Hes Hr.
  assert (sm_mode (sm_run s [estop]) = Mode.ESTOP) as H1.
  { change [estop] with ([] ++ [estop]). rewrite sm_run_snoc, He. done. }
  change (estop :: es ++ [reset]) with (([estop] ++ es) ++ [reset]).
  change (estop :: es) with ([estop] ++ es).
  rewrite sm_run_snoc, sm_run_app. rewrite estop_latched_run by done.
  rewrite Hr. split; [done|]. by destruct (sm_mode _).
Qed.

Definition cmd (c : OperatorCommandCode) : option OperatorCommandC :=
  Some {| oc_timestamp_ns := 1; oc_command := code_value c; oc_target_mask := 0;
          oc_zero_target_count := 0; oc_zero_target_magic := 0;
          oc_zero_targets := oc_zero_targets OperatorCommandC_new |}.

Definition sm_start : ControllerStateMachine :=
  {| sm_enable_duration_s := 0.5%float; sm_mode := Mode.DISABLED;
     sm_mode_enter_time := 1%float |}.

Lemma estop_latches_witness :
  sm_mode (sm_run sm_start ([(cmd ESTOP, 2%float); (cmd ENABLE, 3%float)])) = Mode.ESTOP ∧
  sm_mode (sm_run sm_start
    ((cmd ESTOP, 2%float) :: [(cmd ENABLE, 3%float)] ++ [(cmd RESET_FAULT, 4%float)]))
    = Mode.DISABLED.
Proof.
  apply (estop_latches sm_start (cmd ESTOP, 2%float) [(cmd ENABLE, 3%float)]
           (cmd RESET_FAULT, 4%float)).
  - reflexivity.
  - constructor; [|constructor]. intros H. discriminate H.
  - reflexivity.
Defined.

(** The commands that leave NORMAL alone. *)
Definition keeps_normal (e : sm_event) : Prop :=
  command_code e.1 = NONE ∨ command_code e.1 = ENABLE ∨ command_code e.1 = RUN.

Lemma next_mode_normal m c b :
  next_mode m c b = Mode.NORMAL →
  (m = Mode.DAMPING ∧ c = RUN) ∨ (m = Mode.NORMAL ∧ (c = NONE ∨ c = ENABLE ∨ c = RUN)).
Proof. destruct m, c, b; cbn; intros; naive_solver. Qed.

(** Policy output needs an explicit RUN. If a run that starts outside NORMAL ends in
    NORMAL, then the run contains a RUN command received in DAMPING, and every
    later command is NONE, ENABLE or RUN; any other command leaves NORMAL. *)
Theorem normal_needs_run s es :
  sm_mode s ≠ Mode.NORMAL → sm_mode (sm_run s es) = Mode.NORMAL →
  ∃ es1 e es2, es = es1 ++ e :: es2 ∧
    sm_mode (sm_run s es1) = Mode.DAMPING ∧ command_code e.1 = RUN ∧
    Forall keeps_normal es2.
Proof.
  intros Hs. induction es as [|e es IH] using rev_ind; intros Hn; [done|].
  rewrite sm_run_snoc in Hn. apply next_mode_normal in Hn as [[Hm Hc]|[Hm Hc]].
  - exists es, e, []. split_and!; [done..|constructor].
  - destruct (IH Hm) as (es1 & e' & es2 & -> & Hd & Hr & Hk).
    exists es1, e', (es2 ++ [e]). split_and!; [by rewrite <- app_assoc|done..|].
    apply Forall_app. split; [done|]. by constructor.
Qed.

Lemma normal_needs_run_witness :
  ∃ es1 e es2,
    [(cmd ENABLE, 2); (None, 3); (cmd RUN, 3.5); (None, 4)]%float = es1 ++ e :: es2 ∧
    sm_mode (sm_run sm_start es1) = Mode.DAMPING ∧ command_code e.1 = RUN ∧
    Forall keeps_normal es2.
Proof.
  apply (normal_needs_run sm_start
    [(cmd ENABLE, 2%float); (None, 3%float); (cmd RUN, 3.5%float); (None, 4%float)]).
  - discriminate.
  - vm_compute. reflexivity.
Defined.

(** Events that cannot leave ENABLING: no command, ENABLE again, or RUN. *)
Definition idle (e : sm_event) : Prop := keeps_normal e.

Lemma enabling_idle_step s e :
  sm_mode s = Mode.ENABLING → idle e →
  snd (update s e.1 e.2) = enter s (if elapsed s e.2 then Mode.DAMPING else Mode.ENABLING) e.2.
Proof.
  intros Hm Hi. cbn [update snd]. rewrite update_code_enter, Hm.
  unfold idle, keeps_normal in Hi. by destruct Hi as [->|[->| ->]].
Qed.

Lemma enabling_waits s es :
  sm_mode s = Mode.ENABLING → Forall idle es →
  Forall (λ e, elapsed s e.2 = false) es → sm_run s es = s.
Proof.
  intros Hm Hi; induction Hi as [|e es He Hi IH]; intros Ht; [done|].
  apply Forall_cons in Ht as [Ht1 Ht]. unfold sm_run. cbn [foldl].
  rewrite enabling_idle_step, Ht1 by done. unfold enter. rewrite decide_True by done.
  by apply IH.
Qed.


