(* ===== verification/CanBus.v ===== *)
(** * CAN frames and the bus

    [hal/can_bus/frame.py] and [bus.py]: a frame, the abstract [CANBus], and
    its SocketCAN implementation, which packs a frame as the kernel's
    [struct can_frame] ("=IB3x8s": on the little-endian hosts the program runs
    on, four bytes of identifier, the length, three pad bytes, eight data bytes). *)

From S2P Require Import Prelude.

(** [class CANFrame]; [class ExtendedCANFrame] has the same fields. *)
Record CANFrame := { can_id : Z; data : bytes }.

#[export] Instance CANFrame_eq_dec : EqDecision CANFrame.
Proof. solve_decision. Defined.

Definition dlc (f : CANFrame) : Z := Z.of_nat (length (data f)).

(** ** struct.pack and struct.unpack of "=IB3x8s" *)

Definition CLASSIC_CAN_FRAME_SIZE : nat := 16.

Definition pack_IB3x8s (id dlc : Z) (payload : bytes) : res bytes :=
  if (0 <=? id) && (id <? 2 ^ 32) && (0 <=? dlc) && (dlc <? 256)
  then Ok (le_encode 4 id ++ le_encode 1 dlc ++ [0; 0; 0] ++
           take 8 (ljust0 8 payload))
  else Raise StructError.

Definition unpack_IB3x8s (raw : bytes) : res (Z * Z * bytes) :=
  if (length raw =? CLASSIC_CAN_FRAME_SIZE)%nat
  then Ok (le_decode (slice 0 4 raw), le_decode (slice 4 5 raw), slice 8 16 raw)
  else Raise StructError.

Lemma unpack_pack_IB3x8s id n payload :
  0 ≤ id < 2 ^ 32 → 0 ≤ n < 256 →
  (pack_IB3x8s id n payload ≫= unpack_IB3x8s) = Ok (id, n, take 8 (ljust0 8 payload)).
Proof.
  intros Hid Hn. unfold pack_IB3x8s.
  rewrite !(proj2 (Z.leb_le _ _)), !(proj2 (Z.ltb_lt _ _)) by lia.
  cbn [andb mbind res_bind]. unfold unpack_IB3x8s.
  assert (length (take 8 (ljust0 8 payload)) = 8%nat) as H8.
  { unfold ljust0. rewrite length_take, length_app, length_replicate. lia. }
  rewrite !length_app, !length_le_encode, H8. cbn [length].
  change (4 + (1 + (3 + 8)) =? CLASSIC_CAN_FRAME_SIZE)%nat with true. cbv iota.
  unfold slice. rewrite drop_0.
  rewrite take_app_length' by (by rewrite length_le_encode).
  rewrite drop_app_length' by (by rewrite length_le_encode).
  rewrite take_app_length' by (by rewrite length_le_encode).
  rewrite (app_assoc (le_encode 1 n)), (app_assoc (le_encode 4 id)).
  rewrite drop_app_length' by (by rewrite !length_app, !length_le_encode).
  rewrite (take_ge _ (16 - 8)) by lia.
  rewrite !le_decode_encode, !Z.mod_small by (simpl; lia). done.
Qed.

(** ** The abstract bus, and SocketCAN *)

(** [class CANBus(ABC)]: the methods a bus in state [B] implements. *)
Class CANBus (B : Type) := {
  bus_send_frame : CANFrame → ST B unit;
  bus_recv_frame : ST B (option CANFrame);
  bus_close : ST B unit
}.

(** A raw CAN socket as the program sees it: what was written, what [recv]
    will deliver next (a timeout and an I/O error are exceptions), and whether
    it is closed. [sk_send_fails] is the kernel's answer to the next sends. *)
Record CanSocket := {
  sk_sent : list bytes;
  sk_send_fails : list (option exn);
  sk_incoming : list (res bytes);
  sk_closed : bool
}.

Definition socket_send (raw : bytes) : ST CanSocket unit := λ s,
  if sk_closed s then (Raise OSError, s)
  else match sk_send_fails s with
  | Some e :: es =>
      (Raise e, {| sk_sent := sk_sent s; sk_send_fails := es;
                   sk_incoming := sk_incoming s; sk_closed := sk_closed s |})
  | es =>
      (Ok (), {| sk_sent := sk_sent s ++ [raw]; sk_send_fails := drop 1 es;
                 sk_incoming := sk_incoming s; sk_closed := sk_closed s |})
  end.

Definition socket_recv : ST CanSocket bytes := λ s,
  if sk_closed s then (Raise OSError, s)
  else match sk_incoming s with
  | [] => (Raise TimeoutError, s)
  | r :: rs =>
      (r, {| sk_sent := sk_sent s; sk_send_fails := sk_send_fails s;
             sk_incoming := rs; sk_closed := sk_closed s |})
  end.

Module SocketCANBus.
Definition CAN_SFF_MASK : Z := 0x7FF.

(** What [send_frame] hands to the socket. *)
Definition frame_bytes (frame : CANFrame) : res bytes :=
  if (8 <? length (data frame))%nat then Raise ValueError
  else pack_IB3x8s (can_id frame) (dlc frame) (ljust0 8 (data frame)).

Definition send_frame (frame : CANFrame) : ST CanSocket unit :=
  raw ← lift (frame_bytes frame);
  socket_send raw.

(** The second half of [recv_frame]: the flag bits are masked away and the
    data is cut to the length. *)
Definition parse_raw (raw : bytes) : res CANFrame :=
  x ← unpack_IB3x8s raw;
  let '(id, n, d) := x in
  Ok {| can_id := Z.land id CAN_SFF_MASK; data := take (Z.to_nat n) d |}.

(** [recv_frame(timeout)]: [None] when [recv] times out or fails. *)
Definition recv_frame : ST CanSocket (option CANFrame) :=
  raw ← try_except (Some <$> socket_recv)
          (λ e, if isinstance e OSError then mret None else raise e);
  match raw with
  | None => mret None
  | Some raw => f ← lift (parse_raw raw); mret (Some f)
  end.

Definition close : ST CanSocket unit :=
  modify (λ s, {| sk_sent := sk_sent s; sk_send_fails := sk_send_fails s;
                  sk_incoming := sk_incoming s; sk_closed := true |}).
End SocketCANBus.

#[export] Instance SocketCANBus_bus : CANBus CanSocket := {
  bus_send_frame := SocketCANBus.send_frame;
  bus_recv_frame := SocketCANBus.recv_frame;
  bus_close := SocketCANBus.close
}.

(** ** Properties *)

Definition standard_frame (f : CANFrame) : Prop :=
  0 ≤ can_id f < 2 ^ 11 ∧ (length (data f) ≤ 8)%nat.

Lemma take_ljust0 (b : bytes) : (length b ≤ 8)%nat →
  take (Z.to_nat (Z.of_nat (length b))) (take 8 (ljust0 8 (ljust0 8 b))) = b.
Proof.
  intros Hl. unfold ljust0. rewrite Nat2Z.id, <- app_assoc, take_take.
  by rewrite take_app_le, take_ge by lia.
Qed.

Lemma land_sff id : Z.land id SocketCANBus.CAN_SFF_MASK = id mod 2 ^ 11.
Proof. change SocketCANBus.CAN_SFF_MASK with (Z.ones 11). by rewrite Z.land_ones by lia. Qed.

Lemma frame_bytes_parse id d :
  0 ≤ id < 2 ^ 32 → (length d ≤ 8)%nat →
  (SocketCANBus.frame_bytes {| can_id := id; data := d |} ≫= SocketCANBus.parse_raw)
    = Ok {| can_id := id mod 2 ^ 11; data := d |}.
Proof.
  intros Hid Hd. unfold SocketCANBus.frame_bytes, dlc. cbn [can_id data].
  destruct (Nat.ltb_spec 8 (length d)); [lia|].
  pose proof (unpack_pack_IB3x8s id (Z.of_nat (length d)) (ljust0 8 d) Hid ltac:(lia)) as H1.
  unfold SocketCANBus.parse_raw.
  destruct (pack_IB3x8s _ _ _) as [raw|e]; cbn [mbind res_bind] in *; [|done].
  rewrite H1. cbn [mbind res_bind]. by rewrite land_sff, take_ljust0.
Qed.

(** C38: Wire round trip. A standard frame (an 11-bit identifier, at most eight bytes)
    becomes sixteen bytes that [recv_frame] parses back to the same frame; a
    longer payload is refused with ValueError before anything is written. *)
Theorem socketcan_roundtrip f s :
  standard_frame f → sk_closed s = false → sk_send_fails s = [] →
  ∃ raw, SocketCANBus.send_frame f s =
           (Ok (), {| sk_sent := sk_sent s ++ [raw]; sk_send_fails := [];
                      sk_incoming := sk_incoming s; sk_closed := false |}) ∧
         length raw = CLASSIC_CAN_FRAME_SIZE ∧
         SocketCANBus.parse_raw raw = Ok f ∧
         (∀ g, (8 < length (data g))%nat → SocketCANBus.send_frame g s = (Raise ValueError, s)).
Proof.
  intros [Hid Hd] Hc Hf. destruct f as [id d]. cbn [can_id data] in *.
  pose proof (frame_bytes_parse id d ltac:(lia) Hd) as H.
  destruct (SocketCANBus.frame_bytes _) as [raw|e] eqn:E; [|done].
  cbn [mbind res_bind] in H. rewrite Z.mod_small in H by lia.
  exists raw. split_and!; [| |done|].
  - unfold SocketCANBus.send_frame. rewrite E. st_run. unfold socket_send.
    by rewrite Hc, Hf.
  - destruct (decide (length raw = CLASSIC_CAN_FRAME_SIZE)) as [|Hn]; [done|].
    unfold SocketCANBus.parse_raw, unpack_IB3x8s in H.
    by rewrite (proj2 (Nat.eqb_neq _ _) Hn) in H.
  - intros g Hg. unfold SocketCANBus.send_frame, SocketCANBus.frame_bytes.
    by rewrite (proj2 (Nat.ltb_lt _ _) Hg).
Qed.

Definition ex_socket : CanSocket :=
  {| sk_sent := []; sk_send_fails := []; sk_incoming := []; sk_closed := false |}.

Lemma socketcan_roundtrip_witness :
  ∃ raw, SocketCANBus.send_frame {| can_id := 0x141; data := [0xC1; 0; 255] |} ex_socket =
           (Ok (), {| sk_sent := [] ++ [raw]; sk_send_fails := [];
                      sk_incoming := []; sk_closed := false |}) ∧
         length raw = CLASSIC_CAN_FRAME_SIZE ∧
         SocketCANBus.parse_raw raw = Ok {| can_id := 0x141; data := [0xC1; 0; 255] |} ∧
         (∀ g, (8 < length (data g))%nat →
            SocketCANBus.send_frame g ex_socket = (Raise ValueError, ex_socket)).
Proof.
  apply (socketcan_roundtrip {| can_id := 0x141; data := [0xC1; 0; 255] |} ex_socket).
  - split; vm_compute; [split; [discriminate|reflexivity]|repeat constructor].
  - reflexivity.
  - reflexivity.
Defined.

(** An extended or remote frame is taken for a data frame of the identifier's
    low 11 bits: the receiver drops the flag bits without testing them. *)
Example extended_frame_aliases :
  (SocketCANBus.frame_bytes {| can_id := 0x80000000 + 0x18000141; data := [0xC1] |}
     ≫= SocketCANBus.parse_raw) = Ok {| can_id := 0x141; data := [0xC1] |}.
Proof. vm_compute. reflexivity. Qed.
