(* ===== verification/Dispatcher.v ===== *)
(** * The CAN dispatcher

    [hal/can_bus/dispatcher.py]: callbacks registered per CAN identifier and
    for every frame. A callback is a value with a decidable identity (what
    [list.remove] compares) whose call runs in the state of its owner and may
    raise; the dispatcher isolates such exceptions. The lock makes each
    operation atomic, so an operation is one function of the state. *)

From S2P Require Import Prelude PyDict CanBus.

(** [CANFrameCallback]: how the callbacks [CB] run over the owner's state [S]. *)
Class Callback (CB S : Type) := invoke : CB → CANFrame → ST S unit.

Section dispatcher.
Context {CB : Type} `{EqDecision CB}.

(** [class CANDispatcher] *)
Record CANDispatcher := {
  callbacks_by_id : dict Z (list CB);
  wildcard_callbacks : list CB
}.

Definition dispatcher_init : CANDispatcher :=
  {| callbacks_by_id := []; wildcard_callbacks := [] |}.

(** [self._callbacks_by_id[can_id].append(callback)] on a defaultdict *)
Definition register (cid : Z) (cb : CB) (d : CANDispatcher) : CANDispatcher :=
  {| callbacks_by_id :=
       dict_set cid (default [] (dict_get cid (callbacks_by_id d)) ++ [cb]) (callbacks_by_id d);
     wildcard_callbacks := wildcard_callbacks d |}.

(** [list.remove]: the first equal item, or [None] for [ValueError]. *)
Fixpoint list_remove (cb : CB) (l : list CB) : option (list CB) :=
  match l with
  | [] => None
  | x :: l => if decide (cb = x) then Some l else (cons x <$> list_remove cb l)
  end.

Definition unregister (cid : Z) (cb : CB) (d : CANDispatcher) : CANDispatcher :=
  match dict_get cid (callbacks_by_id d) with
  | None => d
  | Some callbacks =>
      match list_remove cb callbacks with
      | None => d
      | Some callbacks =>
          {| callbacks_by_id :=
               match callbacks with
               | [] => dict_del cid (callbacks_by_id d)
               | _ => dict_set cid callbacks (callbacks_by_id d)
               end;
             wildcard_callbacks := wildcard_callbacks d |}
      end
  end.

Definition register_wildcard (cb : CB) (d : CANDispatcher) : CANDispatcher :=
  {| callbacks_by_id := callbacks_by_id d;
     wildcard_callbacks := wildcard_callbacks d ++ [cb] |}.

Definition unregister_wildcard (cb : CB) (d : CANDispatcher) : CANDispatcher :=
  match list_remove cb (wildcard_callbacks d) with
  | None => d
  | Some l => {| callbacks_by_id := callbacks_by_id d; wildcard_callbacks := l |}
  end.

Definition clear (d : CANDispatcher) : CANDispatcher := dispatcher_init.

Definition registered_ids (d : CANDispatcher) : list Z := dict_keys (callbacks_by_id d).

(** The callbacks a frame reaches, in the order they are called. *)
Definition targets (frame : CANFrame) (d : CANDispatcher) : list CB :=
  default [] (dict_get (can_id frame) (callbacks_by_id d)) ++ wildcard_callbacks d.

(** One loop of [dispatch]: an exception is logged and not counted. *)
Fixpoint call_all {St} `{Callback CB St} (frame : CANFrame) (cbs : list CB) (called_count : Z) :
    ST St Z :=
  match cbs with
  | [] => mret called_count
  | cb :: cbs =>
      n ← try_except (_ ← invoke cb frame; mret (called_count + 1))
            (λ _, mret called_count);
      call_all frame cbs n
  end.

(** [dispatch(frame)]: both lists are copied before the first call, so
    registrations a callback makes take effect from the next frame on. *)
Definition dispatch {St} `{Callback CB St} (d : CANDispatcher) (frame : CANFrame) : ST St Z :=
  let callbacks := default [] (dict_get (can_id frame) (callbacks_by_id d)) in
  let wildcard := wildcard_callbacks d in
  n ← call_all frame callbacks 0;
  call_all frame wildcard n.

(** *** Invariant and laws *)

(** Keys are unique and no identifier is left with an empty list. *)
Definition dispatcher_wf (d : CANDispatcher) : Prop :=
  dict_wf (callbacks_by_id d) ∧
  (∀ cid l, dict_get cid (callbacks_by_id d) = Some l → l ≠ []).

Lemma list_remove_spec cb l :
  match list_remove cb l with
  | None => cb ∉ l
  | Some l' => ∃ l1 l2, l = l1 ++ cb :: l2 ∧ cb ∉ l1 ∧ l' = l1 ++ l2
  end.
Proof.
  induction l as [|x l IH]; cbn [list_remove]; [apply not_elem_of_nil|].
  case_decide as Hd; subst; [exists [], l; split_and!; [done|apply not_elem_of_nil|done]|].
  destruct (list_remove cb l) as [l'|]; cbn [fmap option_fmap option_map].
  - destruct IH as (l1 & l2 & -> & Hn & ->). exists (x :: l1), l2.
    split_and!; [done| |done]. rewrite not_elem_of_cons. done.
  - rewrite not_elem_of_cons. done.
Qed.

Lemma call_all_app {St} `{Callback CB St} frame l1 l2 n s :
  call_all frame (l1 ++ l2) n s = (call_all frame l1 n ≫= call_all frame l2) s.
Proof.
  revert n s; induction l1 as [|cb l1 IH]; intros n s; [done|].
  cbn [app call_all]. unfold mbind, ST_bind. fold (@mbind (ST St) ST_bind).
  destruct (try_except _ _ s) as [[m|e] s']; [|done]. apply IH.
Qed.

(** The callbacks registered for an identifier. *)
Definition routed (cid : Z) (d : CANDispatcher) : list CB :=
  default [] (dict_get cid (callbacks_by_id d)).

Lemma dispatcher_wf_register cid cb d : dispatcher_wf d → dispatcher_wf (register cid cb d).
Proof.
  intros [Hw He]. split; cbn [register callbacks_by_id]; [auto with sparq|].
  intros cid' l. rewrite dict_get_set. case_decide; [|eauto].
  intros [= <-]. by destruct (default _ _).
Qed.

Lemma dispatcher_wf_unregister cid cb d : dispatcher_wf d → dispatcher_wf (unregister cid cb d).
Proof.
  intros [Hw He]. unfold unregister.
  destruct (dict_get cid (callbacks_by_id d)) as [l|] eqn:E; [|done].
  destruct (list_remove cb l) as [[|x l']|]; [| |done];
    split; cbn [callbacks_by_id]; try auto with sparq; intros cid' l''.
  - rewrite dict_get_del by done. case_decide; [done|eauto].
  - rewrite dict_get_set. case_decide; [by intros [= <-]|eauto].
Qed.

Lemma routed_unregister cid cb d cid' :
  dispatcher_wf d →
  routed cid' (unregister cid cb d) =
    if decide (cid' = cid) then default (routed cid d) (list_remove cb (routed cid d))
    else routed cid' d.
Proof.
  intros [Hw He]. unfold unregister, routed.
  destruct (dict_get cid (callbacks_by_id d)) as [l|] eqn:E.
  - destruct (list_remove cb l) as [[|x l']|] eqn:Er; cbn [callbacks_by_id];
      rewrite ?dict_get_del, ?dict_get_set by done;
      case_decide; subst; rewrite ?E; simpl; rewrite ?Er; done.
  - case_decide; subst; [|done]. by rewrite E.
Qed.
End dispatcher.
Arguments CANDispatcher CB : clear implicits.


(** ** Properties *)

Section dispatch_spec.
Context {CB St : Type} `{EqDecision CB} `{Callback CB St}.

(** What calling [cbs] in order does, an exception not stopping the rest. *)
Definition call_spec (frame : CANFrame) (cbs : list CB) (start : St * Z) : St * Z :=
  foldl (λ '(s, n) cb,
    match invoke cb frame s with
    | (Ok _, s') => (s', n + 1)
    | (Raise _, s') => (s', n)
    end) start cbs.

Lemma call_all_spec frame cbs n s :
  call_all frame cbs n s =
    let '(s', n') := call_spec frame cbs (s, n) in (Ok n', s').
Proof.
  revert n s; induction cbs as [|cb cbs IH]; intros n s; [done|].
  cbn [call_all]. unfold try_except. st_run. unfold call_spec. cbn [foldl].
  destruct (invoke cb frame s) as [[[]|e] s']; apply IH.
Qed.

(** C32: Exception isolation. [dispatch] never raises: it calls every callback
    registered for the frame's identifier and then every wildcard callback, each
    once, in registration order and in the state the previous one left,
    whether or not that one raised, and returns how many returned normally. *)
Theorem dispatch_isolates (d : CANDispatcher CB) frame s :
  dispatch d frame s =
    let '(s', n) := call_spec frame (targets frame d) (s, 0) in (Ok n, s').
Proof.
  unfold targets. rewrite <- call_all_spec, call_all_app. done.
Qed.
End dispatch_spec.

Section routing.
Context {CB : Type} `{EqDecision CB}.

(** Registration. Starting from a well-formed dispatcher (every identifier listed once,
    none with an empty list), each operation keeps it well formed and changes
    only its own list: [register] appends to the identifier's, [unregister]
    removes the first equal entry of the identifier's and does nothing when
    there is none, so it undoes a [register] of a new callback. *)
Theorem registration_routes (d : CANDispatcher CB) cid cb :
  dispatcher_wf d →
  dispatcher_wf (register cid cb d) ∧ dispatcher_wf (unregister cid cb d) ∧
  (∀ cid', routed cid' (register cid cb d) =
     if decide (cid' = cid) then routed cid d ++ [cb] else routed cid' d) ∧
  (∀ cid', routed cid' (unregister cid cb d) =
     if decide (cid' = cid) then default (routed cid d) (list_remove cb (routed cid d))
     else routed cid' d) ∧
  (cb ∉ routed cid d →
     ∀ cid', routed cid' (unregister cid cb (register cid cb d)) = routed cid' d).
Proof.
  intros Hw.
  assert (∀ cid', routed cid' (register cid cb d) =
     if decide (cid' = cid) then routed cid d ++ [cb] else routed cid' d) as Hr.
  { intros cid'. unfold routed, register. cbn [callbacks_by_id].
    rewrite dict_get_set. by case_decide. }
  split_and!; [by apply dispatcher_wf_register|by apply dispatcher_wf_unregister|done| |].
  - intros cid'. by apply routed_unregister.
  - intros Hn cid'. rewrite routed_unregister by by apply dispatcher_wf_register.
    rewrite !Hr. rewrite (decide_True (P:=cid = cid)) by done.
    case_decide; subst; [|done].
    pose proof (list_remove_spec cb (routed cid d ++ [cb])) as Hl.
    destruct (list_remove _ _) as [l'|]; cbn [default from_option].
    + destruct Hl as (l1 & l2 & Heq & Hn1 & ->). unfold id.
      destruct l2 as [|y l2] using rev_ind.
      * apply app_inj_tail in Heq as [-> _]. by rewrite app_nil_r.
      * exfalso. rewrite app_comm_cons, app_assoc in Heq.
        apply app_inj_tail in Heq as [Heq _]. apply Hn. rewrite Heq. set_solver.
    + exfalso. apply Hl. set_solver.
Qed.

Lemma dispatcher_wf_init : dispatcher_wf (dispatcher_init (CB:=CB)).
Proof. split; [constructor|done]. Qed.
End routing.

Lemma registration_routes_witness :
  dispatcher_wf (register 0x141 1%nat dispatcher_init) ∧
  dispatcher_wf (unregister 0x141 1%nat dispatcher_init) ∧
  (∀ cid', routed cid' (register 0x141 1%nat dispatcher_init) =
     if decide (cid' = 0x141) then routed 0x141 dispatcher_init ++ [1%nat]
     else routed cid' dispatcher_init) ∧
  (∀ cid', routed cid' (unregister 0x141 1%nat dispatcher_init) =
     if decide (cid' = 0x141)
     then default (routed 0x141 dispatcher_init)
            (list_remove 1%nat (routed 0x141 dispatcher_init))
     else routed cid' dispatcher_init) ∧
  (1%nat ∉ routed 0x141 dispatcher_init →
     ∀ cid', routed cid' (unregister 0x141 1%nat (register 0x141 1%nat dispatcher_init))
            = routed cid' dispatcher_init).
Proof. apply (registration_routes dispatcher_init 0x141 1%nat). apply dispatcher_wf_init. Defined.
