(* ===== verification/Wire.v ===== *)
(** * The wire format between the CAN daemon and its clients

    One JSON object per line over a Unix socket ([hal/can_bus/process_client.py]
    and [robot_controller/subprocesses/can_daemon/main.py]). A line is the JSON
    value it holds: [json.loads] undoes [json.dumps] on the values exchanged.
    Payloads travel as hexadecimal text. *)

From stdpp Require Import pretty.
From Stdlib Require Import Ascii.
From S2P Require Import Prelude PyFloat PyDict CanBus.
Open Scope Z_scope.

Inductive json :=
  | JNull
  | JBool (b : bool)
  | JInt (z : Z)
  | JFloat (x : float)
  | JStr (s : string)
  | JList (l : list json)
  | JObj (d : list (string * json)).

(** [bool(value)] *)
Definition json_truthy (j : json) : bool :=
  match j with
  | JNull => false
  | JBool b => b
  | JInt z => negb (z =? 0)
  | JFloat x => negb (x =? 0)%float
  | JStr s => negb (bool_decide (s = ""%string))
  | JList l => negb (bool_decide (length l = 0%nat))
  | JObj d => negb (bool_decide (length d = 0%nat))
  end.

(** ** Hexadecimal text *)

Definition hex_digit (z : Z) : ascii :=
  ascii_of_nat (Z.to_nat (if z <? 10 then 48 + z else 87 + z)).

Definition digit_value (c : ascii) : option Z :=
  let n := Z.of_nat (nat_of_ascii c) in
  if (48 <=? n) && (n <=? 57) then Some (n - 48)
  else if (97 <=? n) && (n <=? 102) then Some (n - 87)
  else if (65 <=? n) && (n <=? 70) then Some (n - 55)
  else None.

(** [b.hex()] *)
Fixpoint bytes_hex (b : bytes) : string :=
  match b with
  | [] => ""
  | x :: b => String (hex_digit (x / 16)) (String (hex_digit (x mod 16)) (bytes_hex b))
  end.

(** ASCII whitespace, which [bytes.fromhex] skips between bytes. *)
Definition is_space (c : ascii) : bool :=
  let n := nat_of_ascii c in bool_decide (n = 32 ∨ (9 ≤ n ≤ 13))%nat.

(** [bytes.fromhex(s)] *)
Fixpoint bytes_fromhex (s : string) : res bytes :=
  match s with
  | EmptyString => Ok []
  | String c s =>
      if is_space c then bytes_fromhex s
      else match s with
      | EmptyString => Raise ValueError
      | String c' s' =>
          match digit_value c, digit_value c' with
          | Some h, Some l => rest ← bytes_fromhex s'; Ok (16 * h + l :: rest)
          | _, _ => Raise ValueError
          end
      end
  end.

Lemma hex_digit_value z : 0 ≤ z < 16 →
  digit_value (hex_digit z) = Some z ∧ is_space (hex_digit z) = false.
Proof.
  intros Hz. assert (z = 0 ∨ z = 1 ∨ z = 2 ∨ z = 3 ∨ z = 4 ∨ z = 5 ∨ z = 6 ∨ z = 7 ∨ z = 8 ∨
    z = 9 ∨ z = 10 ∨ z = 11 ∨ z = 12 ∨ z = 13 ∨ z = 14 ∨ z = 15) as H by lia.
  repeat (destruct H as [->|H]; [by vm_compute|]). subst z. by vm_compute.
Qed.

Lemma bytes_hex_fromhex b : wf_bytes b → bytes_fromhex (bytes_hex b) = Ok b.
Proof.
  induction 1 as [|x b Hx Hb IH]; [done|]. unfold is_byte in Hx.
  cbn [bytes_hex bytes_fromhex].
  destruct (hex_digit_value (x / 16)) as [-> ->].
  { split; [apply Z.div_pos|apply Z.div_lt_upper_bound]; lia. }
  destruct (hex_digit_value (x mod 16)) as [-> _]; [apply Z.mod_pos_bound; lia|].
  rewrite IH. cbn [mbind res_bind]. do 2 f_equal. rewrite <- Z.div_mod; [done|lia].
Qed.

(** ** [int()] and [str()] on message fields *)

(** [int(text)]: decimal digits with an optional sign, blanks around them and
    single underscores between them. *)
Definition is_digit (c : ascii) : option Z :=
  let n := Z.of_nat (nat_of_ascii c) in
  if (48 <=? n) && (n <=? 57) then Some (n - 48) else None.

(** [after_digit] says whether an underscore may come next. *)
Fixpoint digits_value (acc : Z) (after_digit : bool) (l : list ascii) : option Z :=
  match l with
  | [] => if after_digit then Some acc else None
  | c :: l =>
      match is_digit c with
      | Some d => digits_value (10 * acc + d) true l
      | None => if after_digit && bool_decide (c = "_"%char) then digits_value acc false l else None
      end
  end.

Fixpoint lstrip (l : list ascii) : list ascii :=
  match l with
  | c :: l' => if is_space c then lstrip l' else l
  | [] => []
  end.
Definition strip (l : list ascii) : list ascii := rev (lstrip (rev (lstrip l))).

Definition py_int_of_string (s : string) : res Z :=
  let r :=
    match strip (String.list_ascii_of_string s) with
    | "+"%char :: l => digits_value 0 false l
    | "-"%char :: l => Z.opp <$> digits_value 0 false l
    | l => digits_value 0 false l
    end in
  match r with Some z => Ok z | None => Raise ValueError end.

(** [int(value)] of a JSON value *)
Definition json_int (j : json) : res Z :=
  match j with
  | JInt z => Ok z
  | JBool b => Ok (if b then 1 else 0)
  | JFloat x => py_int x
  | JStr s => py_int_of_string s
  | _ => Raise TypeError
  end.

(** [bytes.fromhex(str(value))]: the text of a list, an object, [None], a bool
    or a float always holds a character that is not a hexadecimal digit. *)
Definition json_fromhex (j : json) : res bytes :=
  match j with
  | JStr s => bytes_fromhex s
  | JInt z => bytes_fromhex (pretty z)
  | _ => Raise ValueError
  end.

Example py_int_of_string_ex :
  map py_int_of_string ["12"; " -7 "; "1_000"; ""; "1__0"; "_1"; "0x10"]%string
  = [Ok 12; Ok (-7); Ok 1000; Raise ValueError; Raise ValueError; Raise ValueError;
     Raise ValueError].
Proof. vm_compute. reflexivity. Qed.

Example bytes_fromhex_ex :
  map bytes_fromhex ["c0 FF"; "0"; "0g"; " "]%string
  = [Ok [192; 255]; Raise ValueError; Raise ValueError; Ok []].
Proof. vm_compute. reflexivity. Qed.

(** ** Lines *)

(** What [readline()] delivers: a JSON value, bytes that are no JSON text, the
    end of the stream, or an error of the socket. *)
Inductive line := Line (j : json) | BadLine | Eof | SocketError.

(** [_read_json_line]: the same function in the client and in the daemon. *)
Definition read_json_line (l : line) : res (dict string json) :=
  match l with
  | Line (JObj d) => Ok d
  | Line _ => Raise RuntimeError
  | BadLine => Raise ValueError
  | Eof => Raise OSError
  | SocketError => Raise OSError
  end.

(** [message.get("type") == text] *)
Definition type_is (text : string) (message : dict string json) : bool :=
  match dict_get "type"%string message with
  | Some (JStr s) => bool_decide (s = text)
  | _ => false
  end.

(** ** Messages that carry a frame *)

Definition frame_message (type : string) (frame : CANFrame) : json :=
  JObj [("type"%string, JStr type); ("can_id"%string, JInt (can_id frame));
        ("data"%string, JStr (bytes_hex (data frame)))].

(** [CANFrame(can_id=int(message["can_id"]), data=bytes.fromhex(str(message["data"])))] *)
Definition message_frame (message : dict string json) : res CANFrame :=
  cid ← dict_index "can_id"%string message;
  cid ← json_int cid;
  d ← dict_index "data"%string message;
  d ← json_fromhex d;
  Ok {| can_id := cid; data := d |}.

Lemma message_frame_message type frame :
  wf_bytes (data frame) →
  (read_json_line (Line (frame_message type frame)) ≫= message_frame) = Ok frame ∧
  (read_json_line (Line (frame_message type frame)) ≫= λ m, Ok (type_is type m)) = Ok true.
Proof.
  intros Hw. unfold frame_message. cbn [read_json_line mbind res_bind].
  unfold message_frame, dict_index, type_is. cbn [dict_get].
  repeat first [rewrite decide_True by done | rewrite decide_False by done].
  cbn [mbind res_bind json_int json_fromhex]. rewrite bytes_hex_fromhex by done.
  cbn [mbind res_bind]. rewrite bool_decide_eq_true_2 by done. by destruct frame.
Qed.
