(* ===== verification/CanDaemon.v ===== *)
(** * The CAN daemon

    [hal/can_bus/daemon.py] and the subprocess around it,
    [robot_controller/subprocesses/can_daemon/main.py]: a bounded transmit queue
    drained by one thread, a receive thread that dispatches to callbacks, the
    subscribers of the receive stream, and the handler of transmit requests.
    The threads share only the queue and the dispatcher's tables, both behind
    locks, so an execution is a sequence of loop iterations and requests. *)

From S2P Require Import Prelude PyDict CanBus Dispatcher Wire.

(** ** [class CANDaemon] *)

Section daemon.
Context {B CB St : Type} `{CANBus B} `{EqDecision CB} `{Callback CB St}.

Record CANDaemon := {
  can_bus : B;
  dispatcher : CANDispatcher CB;
  callback_state : St;                (* what the callbacks act on *)
  max_tx_queue_size : Z;
  tx_queue : list CANFrame;
  started : bool;
  stop_event : bool
}.

Definition daemon_init (bus : B) (cs : St) (max_tx_queue_size : Z) : CANDaemon :=
  {| can_bus := bus; dispatcher := dispatcher_init; callback_state := cs;
     max_tx_queue_size := max_tx_queue_size; tx_queue := []; started := false;
     stop_event := false |}.

Definition with_dispatcher (d : CANDaemon) (x : CANDispatcher CB) : CANDaemon :=
  {| can_bus := can_bus d; dispatcher := x; callback_state := callback_state d;
     max_tx_queue_size := max_tx_queue_size d; tx_queue := tx_queue d;
     started := started d; stop_event := stop_event d |}.

Definition register_callback (cid : Z) (cb : CB) (d : CANDaemon) : CANDaemon :=
  with_dispatcher d (register cid cb (dispatcher d)).
Definition unregister_callback (cid : Z) (cb : CB) (d : CANDaemon) : CANDaemon :=
  with_dispatcher d (unregister cid cb (dispatcher d)).
Definition register_wildcard_callback (cb : CB) (d : CANDaemon) : CANDaemon :=
  with_dispatcher d (register_wildcard cb (dispatcher d)).

Definition with_flags (d : CANDaemon) (st stop : bool) : CANDaemon :=
  {| can_bus := can_bus d; dispatcher := dispatcher d; callback_state := callback_state d;
     max_tx_queue_size := max_tx_queue_size d; tx_queue := tx_queue d;
     started := st; stop_event := stop |}.

(** [start()] and [stop()]; the joins only wait. *)
Definition start (d : CANDaemon) : CANDaemon := if started d then d else with_flags d true false.
Definition stop (d : CANDaemon) : CANDaemon := if started d then with_flags d false true else d.

Definition with_queue (d : CANDaemon) (q : list CANFrame) : CANDaemon :=
  {| can_bus := can_bus d; dispatcher := dispatcher d; callback_state := callback_state d;
     max_tx_queue_size := max_tx_queue_size d; tx_queue := q;
     started := started d; stop_event := stop_event d |}.

(** [queue.Queue(maxsize)] is unbounded when [maxsize <= 0]. *)
Definition queue_full (d : CANDaemon) : bool :=
  (0 <? max_tx_queue_size d) && (max_tx_queue_size d <=? Z.of_nat (length (tx_queue d))).

(** [send(frame)] when its [put] is decided: a blocking put waits for room
    first, and reports [Full] when its timeout ends with none. *)
Definition send (frame : CANFrame) (d : CANDaemon) : bool * CANDaemon :=
  if queue_full d then (false, d) else (true, with_queue d (tx_queue d ++ [frame])).

(** What one iteration of a loop did. *)
Inductive iteration :=
  | Idle                                     (* timeout, or the loop has ended *)
  | RxFailed (e : exn)
  | Dispatched (frame : CANFrame) (r : res Z)
  | Transmitted (frame : CANFrame) (r : res unit).

(** One iteration of [_rx_loop] *)
Definition rx_iteration (d : CANDaemon) : iteration * CANDaemon :=
  if stop_event d then (Idle, d)
  else
    let '(r, bus) := bus_recv_frame (can_bus d) in
    let set st :=
      {| can_bus := bus; dispatcher := dispatcher d; callback_state := st;
         max_tx_queue_size := max_tx_queue_size d; tx_queue := tx_queue d;
         started := started d; stop_event := stop_event d |} in
    match r with
    | Raise e => (RxFailed e, set (callback_state d))
    | Ok None => (Idle, set (callback_state d))
    | Ok (Some frame) =>
        let '(n, st) := dispatch (dispatcher d) frame (callback_state d) in
        (Dispatched frame n, set st)
    end.

(** One iteration of [_tx_loop] *)
Definition tx_iteration (d : CANDaemon) : iteration * CANDaemon :=
  if stop_event d then (Idle, d)
  else match tx_queue d with
  | [] => (Idle, d)
  | frame :: q =>
      let '(r, bus) := bus_send_frame frame (can_bus d) in
      (Transmitted frame r,
       {| can_bus := bus; dispatcher := dispatcher d; callback_state := callback_state d;
          max_tx_queue_size := max_tx_queue_size d; tx_queue := q;
          started := started d; stop_event := stop_event d |})
  end.

(** *** Executions: requests, iterations, stops and starts in any order *)

Inductive action := ASend (frame : CANFrame) | ATx | ARx | AStart | AStop.

(** What an observer records: the frames accepted or refused, and what the
    iterations did. *)
Inductive observation := Accepted (frame : CANFrame) | Refused (frame : CANFrame)
  | Iterated (i : iteration) | Quiet.

Definition act (a : action) (d : CANDaemon) : observation * CANDaemon :=
  match a with
  | ASend f => let '(ok, d') := send f d in ((if ok then Accepted f else Refused f), d')
  | ATx => let '(i, d') := tx_iteration d in (Iterated i, d')
  | ARx => let '(i, d') := rx_iteration d in (Iterated i, d')
  | AStart => (Quiet, start d)
  | AStop => (Quiet, stop d)
  end.

Fixpoint execute (l : list action) (d : CANDaemon) : list observation * CANDaemon :=
  match l with
  | [] => ([], d)
  | a :: l =>
      let '(o, d1) := act a d in
      let '(os, d2) := execute l d1 in (o :: os, d2)
  end.

Definition accepted (os : list observation) : list CANFrame :=
  omap (λ o, match o with Accepted f => Some f | _ => None end) os.

Definition transmitted (os : list observation) : list CANFrame :=
  omap (λ o, match o with Iterated (Transmitted f _) => Some f | _ => None end) os.

(** Frames reach the bus in the order they were accepted, each once. *)
Lemma act_fifo a d o d' :
  act a d = (o, d') → tx_queue d ++ accepted [o] = transmitted [o] ++ tx_queue d'.
Proof.
  destruct a; cbn [act].
  - unfold send. destruct (queue_full d); intros [= <- <-]; cbn; by rewrite ?app_nil_r.
  - unfold tx_iteration. destruct (stop_event d); [intros [= <- <-]; cbn; by rewrite app_nil_r|].
    destruct (tx_queue d) as [|f q] eqn:E; [intros [= <- <-]; cbn; by rewrite E|].
    destruct (bus_send_frame f (can_bus d)) as [r bus]. intros [= <- <-]. cbn.
    by rewrite app_nil_r.
  - unfold rx_iteration. destruct (stop_event d); [intros [= <- <-]; cbn; by rewrite app_nil_r|].
    destruct (bus_recv_frame (can_bus d)) as [[[f|]|e] bus].
    + destruct (dispatch _ _ _) as [n st]. intros [= <- <-]. cbn. by rewrite app_nil_r.
    + intros [= <- <-]. cbn. by rewrite app_nil_r.
    + intros [= <- <-]. cbn. by rewrite app_nil_r.
  - unfold start. destruct (started d); intros [= <- <-]; cbn; by rewrite app_nil_r.
  - unfold stop. destruct (started d); intros [= <- <-]; cbn; by rewrite app_nil_r.
Qed.

Definition queue_bounded (d : CANDaemon) : Prop :=
  0 < max_tx_queue_size d → Z.of_nat (length (tx_queue d)) ≤ max_tx_queue_size d.

Lemma act_bounded a d o d' :
  queue_bounded d → act a d = (o, d') →
  queue_bounded d' ∧ max_tx_queue_size d' = max_tx_queue_size d.
Proof.
  unfold queue_bounded. intros Hb. destruct a; cbn [act].
  - unfold send, queue_full.
    destruct (Z.ltb_spec 0 (max_tx_queue_size d)); cbn [andb];
      [destruct (Z.leb_spec (max_tx_queue_size d) (Z.of_nat (length (tx_queue d))))|];
      intros [= _ <-]; cbn; rewrite ?length_app; cbn [length]; lia.
  - unfold tx_iteration. destruct (stop_event d); [by intros [= _ <-]|].
    destruct (tx_queue d) as [|f q] eqn:E; [intros [= _ <-]; by rewrite E|].
    destruct (bus_send_frame f (can_bus d)) as [r bus]. intros [= _ <-]. cbn in *. lia.
  - unfold rx_iteration. destruct (stop_event d); [by intros [= _ <-]|].
    destruct (bus_recv_frame (can_bus d)) as [[[f|]|e] bus];
      [destruct (dispatch _ _ _) as [n st]|..]; intros [= _ <-]; cbn; auto.
  - unfold start. destruct (started d); intros [= _ <-]; cbn; auto.
  - unfold stop. destruct (started d); intros [= _ <-]; cbn; auto.
Qed.

Lemma execute_spec l : ∀ d,
  queue_bounded d →
  let '(os, d') := execute l d in
  tx_queue d ++ accepted os = transmitted os ++ tx_queue d' ∧ queue_bounded d' ∧
  max_tx_queue_size d' = max_tx_queue_size d.
Proof.
  induction l as [|a l IH]; intros d Hb; cbn [execute].
  - cbn. by rewrite app_nil_r.
  - destruct (act a d) as [o d1] eqn:E1.
    destruct (act_bounded a d o d1 Hb E1) as [Hb1 Hm]. pose proof (act_fifo a d o d1 E1) as Hf.
    specialize (IH d1 Hb1). destruct (execute l d1) as [os d2]. destruct IH as (IH & Hb2 & Hm2).
    split; [|split; [done|congruence]].
    assert (accepted (o :: os) = accepted [o] ++ accepted os) as ->.
    { unfold accepted. change (o :: os) with ([o] ++ os). apply omap_app. }
    assert (transmitted (o :: os) = transmitted [o] ++ transmitted os) as ->.
    { unfold transmitted. change (o :: os) with ([o] ++ os). apply omap_app. }
    by rewrite app_assoc, Hf, <- app_assoc, IH, app_assoc.
Qed.

(** Transmit order. In every execution of requests, receive and transmit
    iterations, starts and stops, the frames handed to the bus are exactly the
    accepted ones in the order of acceptance, none lost, repeated or
    overtaken: what was accepted is what was transmitted followed by what is
    still queued, whatever errors the bus and the callbacks raised; the queue
    never exceeds its size, and a refused request leaves it unchanged. *)
Theorem daemon_tx_fifo (bus : B) (cs : St) (size : Z) (l : list action) :
  let '(os, d) := execute l (daemon_init bus cs size) in
  accepted os = transmitted os ++ tx_queue d ∧
  (0 < size → Z.of_nat (length (tx_queue d)) ≤ size) ∧
  (∀ f, queue_full d = true → send f d = (false, d)).
Proof.
  assert (queue_bounded (daemon_init bus cs size)) as Hb by (unfold queue_bounded; cbn; lia).
  pose proof (execute_spec l _ Hb) as Hex.
  destruct (execute l (daemon_init bus cs size)) as [os d]. destruct Hex as (H1 & H2 & Hm).
  split; [done|]. split.
  - intros Hs. unfold queue_bounded in H2. rewrite Hm in H2. by apply H2.
  - intros f Hf. unfold send. by rewrite Hf.
Qed.
End daemon.

(** ** [class RxSubscribers]: the clients of the receive stream *)

(** Sockets are numbers; [rx_streams] is what each has been sent, and a socket
    in [rx_broken] fails on [sendall]. *)
Record RxSubscribers := {
  subscribers : gset nat;
  rx_streams : gmap nat (list json);
  rx_broken : gset nat;
  rx_closed : gset nat
}.

Definition subscribers_init : RxSubscribers :=
  {| subscribers := ∅; rx_streams := ∅; rx_broken := ∅; rx_closed := ∅ |}.

Definition sub_add (sock : nat) (s : RxSubscribers) : RxSubscribers :=
  {| subscribers := {[sock]} ∪ subscribers s; rx_streams := rx_streams s;
     rx_broken := rx_broken s; rx_closed := rx_closed s |}.

(** [set.discard] *)
Definition sub_remove (sock : nat) (s : RxSubscribers) : RxSubscribers :=
  {| subscribers := subscribers s ∖ {[sock]}; rx_streams := rx_streams s;
     rx_broken := rx_broken s; rx_closed := rx_closed s |}.

Definition sub_close (sock : nat) (s : RxSubscribers) : RxSubscribers :=
  {| subscribers := subscribers s; rx_streams := rx_streams s; rx_broken := rx_broken s;
     rx_closed := {[sock]} ∪ rx_closed s |}.

Definition stream (sock : nat) (s : RxSubscribers) : list json :=
  default [] (rx_streams s !! sock).

(** [sock.sendall(payload)] *)
Definition sendall (sock : nat) (payload : json) : ST RxSubscribers unit := λ s,
  if decide (sock ∈ rx_broken s ∪ rx_closed s) then (Raise OSError, s)
  else (Ok (), {| subscribers := subscribers s;
                  rx_streams := <[sock := stream sock s ++ [payload]]> (rx_streams s);
                  rx_broken := rx_broken s; rx_closed := rx_closed s |}).

(** The loop body of [publish]; a set is iterated in some order. *)
Definition publish_one (payload : json) (sock : nat) : ST RxSubscribers unit :=
  try_except (sendall sock payload)
    (λ e, if isinstance e OSError then modify (λ s, sub_close sock (sub_remove sock s))
          else raise e).

Definition sub_publish (frame : CANFrame) : ST RxSubscribers unit :=
  subs ← gets subscribers;
  for_each (elements subs) (publish_one (frame_message "rx" frame)).

(** [register_wildcard_callback(self.subscribers.publish)]: the daemon's only
    callback. *)
#[export] Instance publish_callback : Callback unit RxSubscribers := λ _ frame, sub_publish frame.

(** A socket that fails when written to. *)
Definition dead (s : RxSubscribers) (sock : nat) : Prop := sock ∈ rx_broken s ∪ rx_closed s.
#[export] Instance dead_dec s sock : Decision (dead s sock) := decide (sock ∈ rx_broken s ∪ rx_closed s).

Lemma publish_one_dead payload sock s :
  dead s sock → publish_one payload sock s = (Ok (), sub_close sock (sub_remove sock s)).
Proof.
  intros Hd. unfold publish_one, try_except, sendall. by rewrite decide_True.
Qed.

Lemma publish_one_live payload sock s :
  ¬ dead s sock →
  publish_one payload sock s =
    (Ok (), {| subscribers := subscribers s;
               rx_streams := <[sock := stream sock s ++ [payload]]> (rx_streams s);
               rx_broken := rx_broken s; rx_closed := rx_closed s |}).
Proof.
  intros Hd. unfold publish_one, try_except, sendall. by rewrite decide_False.
Qed.

Lemma publish_all payload l : ∀ s,
  NoDup l →
  ∃ s', for_each l (publish_one payload) s = (Ok (), s') ∧
    (∀ k, dead s' k ↔ dead s k) ∧
    (∀ k, k ∈ subscribers s' ↔ k ∈ subscribers s ∧ ¬ (k ∈ l ∧ dead s k)) ∧
    (∀ k, stream k s' =
       if decide (k ∈ l ∧ ¬ dead s k) then stream k s ++ [payload] else stream k s).
Proof.
  induction l as [|sock l IH]; intros s Hnd.
  - exists s. split_and!; [done|done|set_solver|]. intros k. rewrite decide_False; [done|].
    intros [Hk _]. by apply not_elem_of_nil in Hk.
  - apply NoDup_cons in Hnd as [Hn Hnd]. cbn [for_each]. st_run.
    destruct (decide (dead s sock)) as [Hd|Hd].
    + rewrite publish_one_dead by done.
      destruct (IH (sub_close sock (sub_remove sock s)) Hnd) as (s' & Hs & Hdead & Hsub & Hstr).
      assert (∀ k, dead (sub_close sock (sub_remove sock s)) k ↔ dead s k) as Hsame.
      { unfold dead in *. cbn. set_solver. }
      exists s'. split_and!; [done|by intros k; rewrite Hdead| |].
      * intros k. rewrite Hsub, Hsame. cbn. rewrite elem_of_cons. unfold dead in *. set_solver.
      * intros k. rewrite Hstr. cbn [stream sub_close sub_remove rx_streams].
        apply decide_ext. rewrite Hsame, elem_of_cons. naive_solver.
    + rewrite publish_one_live by done. set (s1 := Build_RxSubscribers _ _ _ _).
      destruct (IH s1 Hnd) as (s' & Hs & Hdead & Hsub & Hstr).
      exists s'. split_and!; [done|done| |].
      * intros k. rewrite Hsub. rewrite elem_of_cons. unfold dead in *. cbn. naive_solver.
      * intros k. rewrite Hstr. change (dead s1 k) with (dead s k).
        assert (stream k s1 = if decide (k = sock) then stream k s ++ [payload] else stream k s)
          as ->.
        { unfold stream. cbn. case_decide as E; [subst; by rewrite lookup_insert_eq|].
          by rewrite lookup_insert_ne. }
        destruct (decide (k = sock)) as [->|Hne].
        -- rewrite decide_False by tauto. rewrite decide_True; [done|]. split; [left|done].
        -- apply decide_ext. rewrite elem_of_cons. naive_solver.
Qed.

(** Receive fan-out. Publishing a frame never raises: every subscriber whose
    socket works gets exactly one message for it, after those it already had,
    nobody else gets anything, and the subscribers whose sockets fail are
    dropped and keep being dropped. *)
Theorem publish_reaches_subscribers (frame : CANFrame) (s : RxSubscribers) :
  ∃ s', sub_publish frame s = (Ok (), s') ∧
    (∀ k, stream k s' =
       if decide (k ∈ subscribers s ∧ ¬ dead s k)
       then stream k s ++ [frame_message "rx" frame] else stream k s) ∧
    (∀ k, k ∈ subscribers s' ↔ k ∈ subscribers s ∧ ¬ dead s k) ∧
    (∀ k, dead s' k ↔ dead s k).
Proof.
  unfold sub_publish. st_run.
  destruct (publish_all (frame_message "rx" frame) (elements (subscribers s)) s)
    as (s' & Hs & Hd & Hsub & Hstr); [apply NoDup_elements|].
  exists s'. split_and!; [done| | |done].
  - intros k. rewrite Hstr. apply decide_ext. by rewrite elem_of_elements.
  - intros k. rewrite Hsub, elem_of_elements. naive_solver.
Qed.

(** ** [class CANSubprocessDaemon]: the client handlers *)

Section handlers.
Context {B : Type} `{CANBus B}.
(** [str(exc)]: the messages of exceptions are not modelled. *)
Context (str_exc : exn → string).

Abbreviation Daemon := (@CANDaemon B unit RxSubscribers).

Definition tx_result (ok : bool) : json :=
  JObj [("type"%string, JStr "tx_result"); ("ok"%string, JBool ok)].
Definition tx_error (ok : bool) (error : string) : json :=
  JObj [("type"%string, JStr "tx_result"); ("ok"%string, JBool ok);
        ("error"%string, JStr error)].

(** One iteration of [_handle_tx_client]: the response written, or the
    exception that ends the handler; [attached] is
    [self._can_daemon is not None]. *)
Definition handle_tx_message (attached : bool) (l : line) (d : Daemon) : res json * Daemon :=
  match read_json_line l with
  | Raise e => (Raise e, d)
  | Ok message =>
      if negb (type_is "tx" message) then (Ok (tx_error false "expected tx"), d)
      else match message_frame message with
      | Raise e => (Ok (tx_error false (str_exc e)), d)
      | Ok frame =>
          if attached then let '(ok, d') := send frame d in (Ok (tx_result ok), d')
          else (Ok (tx_error false (str_exc AssertionError)), d)
      end
  end.

(** The hello exchange of [_handle_client]: the acknowledgement is written
    before the role is examined. *)
Inductive client_role := TxClient | RxClient.

Definition hello_ack : json := JObj [("type"%string, JStr "hello_ack"); ("ok"%string, JBool true)].

Definition handle_hello (l : line) : list json * res client_role :=
  match read_json_line l with
  | Raise e => ([], Raise e)
  | Ok hello =>
      if negb (type_is "hello" hello) then ([], Raise RuntimeError)
      else
        ([hello_ack],
         match dict_get "role"%string hello with
         | Some (JStr role) =>
             if bool_decide (role = "tx"%string) then Ok TxClient
             else if bool_decide (role = "rx"%string) then Ok RxClient
             else Raise RuntimeError
         | _ => Raise RuntimeError
         end)
  end.

(** [_start_can]: the bus, the daemon and its one wildcard callback. *)
Definition start_can (bus : B) (size : Z) : Daemon :=
  start (register_wildcard_callback tt (daemon_init bus subscribers_init size)).
End handlers.

Definition quiet_socket : CanSocket :=
  {| sk_sent := []; sk_send_fails := [Some OSError]; sk_incoming := []; sk_closed := false |}.

(** A queue of one frame: the second request is refused, and the first frame
    leaves the queue although the bus fails to send it. *)
Lemma daemon_tx_fifo_witness :
  let f1 := {| can_id := 1; data := [1] |} in
  let f2 := {| can_id := 2; data := [] |} in
  let l := [ASend f1; ASend f2; ATx; ASend f2; ARx] in
  let '(os, d) := execute l (daemon_init (CB:=unit) quiet_socket subscribers_init 1) in
  accepted os = [f1; f2] ∧ transmitted os ++ tx_queue d = [f1; f2].
Proof.
  intros f1 f2 l.
  pose proof (daemon_tx_fifo (CB:=unit) quiet_socket subscribers_init 1 l) as Hf.
  destruct (execute l _) as [os d] eqn:E. destruct Hf as (Hf & _). rewrite <- Hf.
  split; vm_compute in E; injection E as <- _; vm_compute; reflexivity.
Defined.
