(* ===== verification/CanTransport.v ===== *)
(** * The client side of the CAN daemon

    [hal/can_bus/process_client.py] and [process_transport.py]: connecting with
    retries, sending a frame as a request and an answer, the receive thread, and
    the transport that remembers what it sent so that the bus's echo of a
    command is not taken for feedback. What the daemon answers and whether a
    connection attempt succeeds come from the state's oracles. *)

From S2P Require Import Prelude PyFloat PyDict CanBus Dispatcher Wire CanDaemon.

(** One try of [_connect_role("tx")] and [_connect_role("rx")], and the clock
    read after a failure. *)
Record attempt := { at_tx : res unit; at_rx : res unit; at_now : float }.

(** [_connect_role(role)], given how connecting the socket ends and the daemon's answer:
    what it writes, and its outcome. *)
Definition hello_message (role : string) : json :=
  JObj [("type"%string, JStr "hello"); ("role"%string, JStr role)].

Definition check_hello_ack (answer : line) : res unit :=
  response ← read_json_line answer;
  if negb (type_is "hello_ack" response) ||
     negb (match dict_get "ok"%string response with
           | Some j => json_truthy j | None => false end)
  then Raise RuntimeError
  else Ok ().

Definition _connect_role (role : string) (connected : res unit) (answer : line) :
    list json * res unit :=
  match connected with
  | Raise e => ([], Raise e)
  | Ok _ => ([hello_message role], check_hello_ack answer)
  end.

(** A try whose two connections go, and are answered, in the given ways. *)
Definition try_roles (tx_connected : res unit) (tx_answer : line) (rx_connected : res unit)
    (rx_answer : line) (now : float) : attempt :=
  {| at_tx := snd (_connect_role "tx" tx_connected tx_answer);
     at_rx := snd (_connect_role "rx" rx_connected rx_answer); at_now := now |}.

Section client.
Context {CB : Type} `{EqDecision CB}.

(** [class CANProcessClient] *)
Record CANProcessClient := {
  cl_connect_timeout_s : float;
  rx_enabled : bool;
  cl_dispatcher : CANDispatcher CB;
  tx_open : bool;
  rx_open : bool;
  rx_running : bool
}.

Definition client_init (connect_timeout_s : float) (rx_enabled : bool) : CANProcessClient :=
  {| cl_connect_timeout_s := connect_timeout_s; rx_enabled := rx_enabled;
     cl_dispatcher := dispatcher_init; tx_open := false; rx_open := false;
     rx_running := false |}.

Definition with_links (c : CANProcessClient) (tx rx running : bool) : CANProcessClient :=
  {| cl_connect_timeout_s := cl_connect_timeout_s c; rx_enabled := rx_enabled c;
     cl_dispatcher := cl_dispatcher c; tx_open := tx; rx_open := rx; rx_running := running |}.

(** [close()] *)
Definition client_close (c : CANProcessClient) : CANProcessClient := with_links c false false false.

Definition client_register_callback (cid : Z) (cb : CB) (c : CANProcessClient) :
    CANProcessClient :=
  {| cl_connect_timeout_s := cl_connect_timeout_s c; rx_enabled := rx_enabled c;
     cl_dispatcher := register cid cb (cl_dispatcher c); tx_open := tx_open c;
     rx_open := rx_open c; rx_running := rx_running c |}.

Definition client_register_wildcard_callback (cb : CB) (c : CANProcessClient) :
    CANProcessClient :=
  {| cl_connect_timeout_s := cl_connect_timeout_s c; rx_enabled := rx_enabled c;
     cl_dispatcher := register_wildcard cb (cl_dispatcher c); tx_open := tx_open c;
     rx_open := rx_open c; rx_running := rx_running c |}.

(** The body of the [try] of [connect]. *)
Definition try_connect (a : attempt) (c : CANProcessClient) : res unit * CANProcessClient :=
  match at_tx a with
  | Raise e => (Raise e, c)
  | Ok _ =>
      if rx_enabled c then
        match at_rx a with
        | Raise e => (Raise e, with_links c true (rx_open c) (rx_running c))
        | Ok _ => (Ok (), with_links c true true true)
        end
      else (Ok (), with_links c true (rx_open c) (rx_running c))
  end.

(** The loop of [connect]: an [OSError] closes the client and is raised again
    once the deadline has passed; any other exception leaves at once. The list
    holds the attempts that are decided before the deadline: when it ends, the
    next attempt fails with the deadline passed. *)
Fixpoint connect_loop (deadline : float) (l : list attempt) (c : CANProcessClient) :
    res unit * CANProcessClient * list attempt :=
  match l with
  | [] => (Raise OSError, client_close c, [])
  | a :: l =>
      match try_connect a c with
      | (Ok _, c') => (Ok (), c', l)
      | (Raise e, c') =>
          if isinstance e OSError then
            let c'' := client_close c' in
            if (deadline <=? at_now a)%float then (Raise e, c'', l)
            else connect_loop deadline l c''
          else (Raise e, c', l)
      end
  end.

(** A connected client has its transmit link, and its receive link and thread
    when it asked for one; a failed one on a socket error has none. *)
Lemma connect_loop_spec deadline l c :
  tx_open c = false → rx_open c = false → rx_running c = false →
  let '(r, c', _) := connect_loop deadline l c in
  rx_enabled c' = rx_enabled c ∧ cl_dispatcher c' = cl_dispatcher c ∧
  match r with
  | Ok _ => tx_open c' = true ∧ rx_open c' = rx_enabled c ∧ rx_running c' = rx_enabled c
  | Raise e => isinstance e OSError = true → tx_open c' = false ∧ rx_open c' = false ∧
                                              rx_running c' = false
  end.
Proof.
  revert c; induction l as [|a l IH]; intros c Ht Hr Hn; cbn [connect_loop]; [done|].
  unfold try_connect.
  destruct (at_tx a) as [[]|e].
  - destruct (rx_enabled c) eqn:E; [|by cbn; rewrite E, Hr, Hn].
    destruct (at_rx a) as [[]|e]; [by cbn|].
    destruct (isinstance e OSError) eqn:Ei; [|by cbn; rewrite Ei].
    destruct (_ <=? _)%float; [by cbn|].
    specialize (IH (client_close (with_links c true (rx_open c) (rx_running c)))
      eq_refl eq_refl eq_refl).
    destruct (connect_loop deadline l _) as [[r c'] l']. cbn in IH. by rewrite E in IH.
  - destruct (isinstance e OSError) eqn:Ei; [|by cbn; rewrite Ei].
    destruct (_ <=? _)%float; [by cbn|].
    specialize (IH (client_close c) eq_refl eq_refl eq_refl).
    by destruct (connect_loop deadline l _) as [[r c'] l'].
Qed.

(** [send(frame)], given the daemon's answer. *)
Definition client_send (c : CANProcessClient) (response : line) : res bool :=
  if negb (tx_open c) then Raise RuntimeError
  else
    response ← read_json_line response;
    if negb (type_is "tx_result" response) then Raise RuntimeError
    else if negb (match dict_get "ok"%string response with
                  | Some j => json_truthy j | None => false end)
    then Raise RuntimeError
    else Ok true.

(** [_rx_loop] over the lines that arrive: [EndOfFile] when it returns on a
    socket error, [Died] when an exception leaves it. *)
Inductive rx_state := Reading | EndOfFile | Died (e : exn).

Context {St : Type} `{Callback CB St}.

Definition rx_step (d : CANDispatcher CB) (l : line) (st : St) : rx_state * St :=
  match read_json_line l with
  | Raise e => ((if isinstance e OSError then EndOfFile else Died e), st)
  | Ok message =>
      if negb (type_is "rx" message) then (Reading, st)
      else match message_frame message with
      | Raise e => (Died e, st)
      | Ok frame =>
          match dispatch d frame st with
          | (Ok _, st') => (Reading, st')
          | (Raise e, st') => (Died e, st')
          end
      end
  end.

Fixpoint rx_loop (d : CANDispatcher CB) (lines : list line) (st : St) : rx_state * St :=
  match lines with
  | [] => (Reading, st)
  | l :: lines =>
      match rx_step d l st with
      | (Reading, st') => rx_loop d lines st'
      | (r, st') => (r, st')
      end
  end.

(** The state the callbacks leave after the frames, in order. *)
Definition dispatch_all (d : CANDispatcher CB) (frames : list CANFrame) (st : St) : St :=
  foldl (λ st f, snd (dispatch d f st)) st frames.

(** Lines that carry frames are dispatched, in order. *)
Lemma rx_step_frame (d : CANDispatcher CB) f st :
  wf_bytes (data f) →
  rx_step d (Line (frame_message "rx" f)) st = (Reading, snd (dispatch d f st)).
Proof.
  intros Hf. destruct (message_frame_message "rx" f Hf) as [Hm Ht].
  unfold rx_step. unfold frame_message in *. cbn [read_json_line] in *.
  cbn [mbind res_bind] in Hm. clear Ht. rewrite Hm.
  match goal with |- context [type_is "rx" ?m] => change (type_is "rx" m) with true end.
  cbn [negb].
  pose proof (call_all_spec f (targets f d) 0 st) as Hc.
  assert (dispatch d f st = call_all f (targets f d) 0 st) as ->
    by (unfold dispatch, targets; by rewrite call_all_app).
  rewrite Hc. by destruct (call_spec f (targets f d) (st, 0)).
Qed.

Lemma rx_loop_frames (d : CANDispatcher CB) l rest : ∀ st,
  Forall (λ f, wf_bytes (data f)) l →
  rx_loop d (map (λ f, Line (frame_message "rx" f)) l ++ rest) st =
  rx_loop d rest (dispatch_all d l st).
Proof.
  induction l as [|f l IH]; intros st Hl; [done|].
  apply Forall_cons in Hl as [Hf Hl]. cbn [map app rx_loop]. rewrite rx_step_frame by done.
  by rewrite IH.
Qed.

(** Receive stream. A client that reads what the daemon writes for
    well-formed frames dispatches exactly those frames, in order, and its
    receive loop keeps running, whatever its callbacks raise; messages of any
    other type in between are skipped. *)
Theorem rx_stream_delivered (d : CANDispatcher CB) (frames : list CANFrame) (st : St)
    (other : dict string json) (l1 l2 : list CANFrame) :
  Forall (λ f, wf_bytes (data f)) frames → frames = l1 ++ l2 → type_is "rx" other = false →
  rx_loop d (map (λ f, Line (frame_message "rx" f)) l1 ++ Line (JObj other) ::
             map (λ f, Line (frame_message "rx" f)) l2) st
    = (Reading, dispatch_all d frames st).
Proof.
  intros Hw -> Ho. apply Forall_app in Hw as [H1 H2].
  rewrite rx_loop_frames by done. cbn [rx_loop]. unfold rx_step. cbn [read_json_line]. rewrite Ho.
  cbn [negb]. rewrite <- (app_nil_r (map _ l2)), rx_loop_frames by done. cbn [rx_loop].
  unfold dispatch_all. by rewrite foldl_app.
Qed.
End client.
Arguments CANProcessClient CB : clear implicits.

(** ** [class CANProcessTransport] *)

Definition CAN_SFF_MASK : Z := 0x7FF.
Definition TX_ECHO_REJECT_WINDOW_S : float := 0.25.
Definition RECENT_MAXLEN : nat := 512.

Section transport.
Context {CB : Type} `{EqDecision CB}.

(** An entry of the deque: when it was sent, its identifier, its data. *)
Definition tx_entry : Type := float * Z * bytes.
Definition entry_time (e : tx_entry) : float := fst (fst e).
Definition entry_frame (e : tx_entry) : CANFrame :=
  {| can_id := snd (fst e); data := snd e |}.

(** [tr_requests] is what was written to the daemon, [tr_replies] what it will
    answer, and [tr_attempts] how connecting will go. *)
Record CANProcessTransport := {
  connect_timeout_s : float;
  client : option (CANProcessClient CB);
  recent_tx_frames : list tx_entry;
  tr_attempts : list attempt;
  tr_replies : list line;
  tr_requests : list json
}.

Definition transport_init (connect_timeout_s : float) (attempts : list attempt)
    (replies : list line) : CANProcessTransport :=
  {| connect_timeout_s := connect_timeout_s; client := None; recent_tx_frames := [];
     tr_attempts := attempts; tr_replies := replies; tr_requests := [] |}.

Definition with_client (t : CANProcessTransport) (c : option (CANProcessClient CB))
    (attempts : list attempt) : CANProcessTransport :=
  {| connect_timeout_s := connect_timeout_s t; client := c;
     recent_tx_frames := recent_tx_frames t; tr_attempts := attempts;
     tr_replies := tr_replies t; tr_requests := tr_requests t |}.

(** [connect()]: the client object is stored before it connects, and stays
    stored when connecting raises. *)
Definition connect (now : float) : ST CANProcessTransport unit := λ t,
  match client t with
  | Some _ => (Ok (), t)
  | None =>
      let '(r, c, rest) :=
        connect_loop (now + connect_timeout_s t)%float (tr_attempts t)
          (client_init (connect_timeout_s t) true) in
      (r, with_client t (Some c) rest)
  end.

Definition close (t : CANProcessTransport) : CANProcessTransport :=
  with_client t None (tr_attempts t).

Definition is_connected (t : CANProcessTransport) : bool :=
  match client t with Some _ => true | None => false end.

Definition register_callback (cid : Z) (cb : CB) : ST CANProcessTransport unit := λ t,
  match client t with
  | None => (Raise RuntimeError, t)
  | Some c => (Ok (), with_client t (Some (client_register_callback cid cb c)) (tr_attempts t))
  end.

(** [registered_ids()] *)
Definition transport_registered_ids (t : CANProcessTransport) : list Z :=
  match client t with
  | None => []
  | Some c => sorted_by (λ z, z) (registered_ids (cl_dispatcher c))
  end.

(** [self.client.send(frame)]: one request, one answer. *)
Definition client_exchange (frame : CANFrame) : ST CANProcessTransport bool := λ t,
  match client t with
  | None => (Raise AssertionError, t)
  | Some c =>
      if tx_open c then
        let reply := match tr_replies t with l :: _ => l | [] => Eof end in
        (client_send c reply,
         {| connect_timeout_s := connect_timeout_s t; client := client t;
            recent_tx_frames := recent_tx_frames t; tr_attempts := tr_attempts t;
            tr_replies := drop 1 (tr_replies t);
            tr_requests := tr_requests t ++ [frame_message "tx" frame] |})
      else (client_send c Eof, t)
  end.

(** [deque(maxlen=512).append] *)
Definition deque_append (e : tx_entry) (q : list tx_entry) : list tx_entry :=
  let q' := q ++ [e] in drop (length q' - RECENT_MAXLEN) q'.

Definition with_recent (t : CANProcessTransport) (q : list tx_entry) : CANProcessTransport :=
  {| connect_timeout_s := connect_timeout_s t; client := client t; recent_tx_frames := q;
     tr_attempts := tr_attempts t; tr_replies := tr_replies t; tr_requests := tr_requests t |}.

Definition remember_tx_frame (now : float) (frame : CANFrame) (t : CANProcessTransport) :
    CANProcessTransport :=
  with_recent t (deque_append (now, can_id frame, data frame) (recent_tx_frames t)).

(** [send_frame(frame)]; the clock is read by [connect] and after the send. *)
Definition send_frame (now now' : float) (frame : CANFrame) : ST CANProcessTransport unit :=
  _ ← lift (guard_ok (negb ((can_id frame <? 0) || (CAN_SFF_MASK <? can_id frame))) ValueError);
  _ ← connect now;
  _ ← client_exchange frame;
  modify (remember_tx_frame now' frame).

Definition expired (now : float) (e : tx_entry) : bool :=
  (TX_ECHO_REJECT_WINDOW_S <? now - entry_time e)%float.

(** The [popleft] loop. *)
Fixpoint drop_expired (now : float) (q : list tx_entry) : list tx_entry :=
  match q with
  | [] => []
  | e :: q' => if expired now e then drop_expired now q' else q
  end.

(** [is_recent_tx_echo(frame)] *)
Definition is_recent_tx_echo (now : float) (frame : CANFrame) (t : CANProcessTransport) :
    bool * CANProcessTransport :=
  let q := drop_expired now (recent_tx_frames t) in
  (existsb (λ e, bool_decide (entry_frame e = frame)) q, with_recent t q).

(** *** Properties *)

Lemma send_frame_ok now now' frame t u t' :
  send_frame now now' frame t = (Ok u, t') →
  0 ≤ can_id frame ≤ CAN_SFF_MASK ∧
  tr_requests t' = tr_requests t ++ [frame_message "tx" frame] ∧
  recent_tx_frames t' = deque_append (now', can_id frame, data frame) (recent_tx_frames t) ∧
  is_connected t' = true.
Proof.
  unfold send_frame. st_run. unfold guard_ok.
  destruct ((can_id frame <? 0) || (CAN_SFF_MASK <? can_id frame)) eqn:Er; [done|].
  cbn [negb]. bool_to_prop. intros Hs. split; [lia|]. revert Hs.
  assert (tr_requests (snd (connect now t)) = tr_requests t ∧
          recent_tx_frames (snd (connect now t)) = recent_tx_frames t) as [Hq Hr].
  { unfold connect. destruct (client t); [done|]. by destruct (connect_loop _ _ _) as [[r c] l]. }
  destruct (connect now t) as [[[]|e] t1]; [|done]. cbn [snd] in *.
  unfold client_exchange. destruct (client t1) as [c|] eqn:Ec; [|done].
  destruct (tx_open c) eqn:Eo.
  - destruct (client_send c _) as [b|e]; [|done]. intros [= _ <-].
    cbn. by rewrite Hq, Hr.
  - unfold client_send. by rewrite Eo.
Qed.

Lemma send_frame_fails now now' frame t e t' :
  send_frame now now' frame t = (Raise e, t') → recent_tx_frames t' = recent_tx_frames t.
Proof.
  unfold send_frame. st_run. unfold guard_ok.
  destruct (_ || _); cbn [negb]; [by intros [= _ <-]|].
  assert (recent_tx_frames (snd (connect now t)) = recent_tx_frames t) as Hr.
  { unfold connect. destruct (client t); [done|]. by destruct (connect_loop _ _ _) as [[r c] l]. }
  destruct (connect now t) as [[[]|e'] t1]; cbn [snd] in *; [|by intros [= _ <-]].
  unfold client_exchange. destruct (client t1) as [c|]; [|by intros [= _ <-]].
  destruct (tx_open c); destruct (client_send c _) as [b|e']; try done;
    intros [= _ <-]; done.
Qed.

Lemma drop_expired_suffix now q : ∃ p, q = p ++ drop_expired now q.
Proof.
  induction q as [|e q [p IH]]; [by exists []|]. cbn [drop_expired].
  destruct (expired now e); [|by exists []]. exists (e :: p). cbn. by f_equal.
Qed.

Lemma drop_expired_keeps now q e : e ∈ q → expired now e = false → e ∈ drop_expired now q.
Proof.
  intros Hin He. induction q as [|e' q IH]; [done|]. cbn [drop_expired].
  destruct (expired now e') eqn:E'; [|done].
  apply elem_of_cons in Hin as [->|Hin]; [congruence|auto].
Qed.

(** C31: Echo rejection. A received frame is taken for the echo of a command
    whenever an identical frame was sent within the last 0.25 s and is still
    among the last 512; it never is when no identical frame is remembered; and
    asking does not forget any entry that is still inside the window. A frame
    is remembered exactly when it was sent: the daemon was asked once to send
    it and confirmed, and its identifier has eleven bits. *)
Theorem echo_rejection now frame (t : CANProcessTransport) :
  ((∃ e, e ∈ recent_tx_frames t ∧ entry_frame e = frame ∧ expired now e = false) →
     fst (is_recent_tx_echo now frame t) = true) ∧
  ((∀ e, e ∈ recent_tx_frames t → entry_frame e ≠ frame) →
     fst (is_recent_tx_echo now frame t) = false) ∧
  (∀ e, e ∈ recent_tx_frames t → expired now e = false →
     e ∈ recent_tx_frames (snd (is_recent_tx_echo now frame t))) ∧
  (∀ now1 now2, let '(r, t') := send_frame now1 now2 frame t in
     match r with
     | Ok _ => 0 ≤ can_id frame ≤ CAN_SFF_MASK ∧
               tr_requests t' = tr_requests t ++ [frame_message "tx" frame] ∧
               recent_tx_frames t' =
                 deque_append (now2, can_id frame, data frame) (recent_tx_frames t)
     | Raise _ => recent_tx_frames t' = recent_tx_frames t
     end).
Proof.
  unfold is_recent_tx_echo. cbn [fst snd]. split_and!.
  - intros (e & Hin & Hf & He). apply existsb_exists. exists e. split.
    + apply list_elem_of_In. by apply drop_expired_keeps.
    + by apply bool_decide_eq_true.
  - intros Hn. destruct (existsb _ _) eqn:E; [|done].
    apply existsb_exists in E as (e & Hin & He%bool_decide_eq_true).
    exfalso. apply (Hn e); [|done].
    destruct (drop_expired_suffix now (recent_tx_frames t)) as [p ->].
    apply elem_of_app. right. by apply list_elem_of_In.
  - intros e Hin He. by apply drop_expired_keeps.
  - intros now1 now2. destruct (send_frame now1 now2 frame t) as [[[]|e] t'] eqn:E.
    + apply send_frame_ok in E as (H1 & H2 & H3 & _). done.
    + by eapply send_frame_fails.
Qed.
End transport.
Arguments CANProcessTransport CB : clear implicits.

(** ** Witnesses *)

Lemma rx_stream_delivered_witness :
  let f1 := {| can_id := 0x141; data := [1; 2] |} in
  let f2 := {| can_id := 0x2A1; data := [255] |} in
  let d := register_wildcard tt dispatcher_init in
  let st := sub_add 3 subscribers_init in
  rx_loop d [Line (frame_message "rx" f1); Line (tx_result true); Line (frame_message "rx" f2)] st
    = (Reading, dispatch_all d [f1; f2] st).
Proof.
  intros f1 f2 d st.
  apply (rx_stream_delivered d [f1; f2] st
    [("type"%string, JStr "tx_result"); ("ok"%string, JBool true)] [f1] [f2]).
  - apply (bool_decide_unpack _). vm_compute. exact I.
  - reflexivity.
  - reflexivity.
Defined.

Lemma echo_rejection_witness :
  let f := {| can_id := 0x141; data := [0x76] |} in
  let t := remember_tx_frame 1 f (transport_init (CB:=unit) 5 [] []) in
  fst (is_recent_tx_echo 1.125 f t) = true ∧
  fst (is_recent_tx_echo 1.125 {| can_id := 0x141; data := [] |} t) = false.
Proof.
  intros f t.
  destruct (echo_rejection 1.125 f t) as (H1 & _).
  destruct (echo_rejection 1.125 {| can_id := 0x141; data := [] |} t) as (_ & H2 & _).
  split.
  - apply H1. exists (1%float, 0x141, [0x76]). split; [left|]. split; vm_compute; reflexivity.
  - apply H2. intros e He. change (recent_tx_frames t) with [(1%float, 0x141, [0x76])] in He.
    apply list_elem_of_singleton in He as ->. discriminate.
Defined.
