(* ===== verification/CanProcess.v ===== *)
(** * The process around the CAN daemon

    [subprocesses/can_daemon/main.py], [class CANSubprocessDaemon]: the socket it
    listens on, a thread per client, the daemon between them and the bus, its start
    and its end. An execution is a sequence of what happens to the process, in any
    order; the threads meet at the daemon's queue and at the subscribers. *)

From S2P Require Import Prelude PyDict CanBus Dispatcher Wire CanDaemon CanTransport.
Open Scope Z_scope.

Section process.
Context {B : Type} `{CANBus B}.
Context (str_exc : exn → string).

Abbreviation Daemon := (@CANDaemon B unit RxSubscribers).

(** What the thread of a client is doing. *)
Inductive Phase := Greeting | Serving (role : client_role) | Closed.

(** [class CANSubprocessDaemon]. The daemon outlives the attribute that refers to
    it, which [shutdown] clears; its subscribers are the process's. *)
Record Process := {
  pr_replace_existing_socket : bool;
  pr_max_tx_queue_size : Z;
  pr_daemon : option Daemon;
  pr_attached : bool;                 (* [self._can_daemon is not None] *)
  pr_bus_open : bool;                 (* [self._can_bus is not None] *)
  pr_listening : bool;                (* [self._server_sock is not None] *)
  pr_path_exists : bool;              (* the file of the socket *)
  pr_stop_event : bool;
  pr_threads : gmap nat Phase
}.

Definition process_init (replace_existing_socket : bool) (max_tx_queue_size : Z)
    (path_exists : bool) : Process :=
  {| pr_replace_existing_socket := replace_existing_socket;
     pr_max_tx_queue_size := max_tx_queue_size; pr_daemon := None; pr_attached := false;
     pr_bus_open := false; pr_listening := false; pr_path_exists := path_exists;
     pr_stop_event := false; pr_threads := ∅ |}.

Definition with_daemon (d : option Daemon) (attached bus_open : bool) (p : Process) : Process :=
  {| pr_replace_existing_socket := pr_replace_existing_socket p;
     pr_max_tx_queue_size := pr_max_tx_queue_size p; pr_daemon := d; pr_attached := attached;
     pr_bus_open := bus_open; pr_listening := pr_listening p; pr_path_exists := pr_path_exists p;
     pr_stop_event := pr_stop_event p; pr_threads := pr_threads p |}.

Definition with_server (listening path_exists stop_event : bool) (p : Process) : Process :=
  {| pr_replace_existing_socket := pr_replace_existing_socket p;
     pr_max_tx_queue_size := pr_max_tx_queue_size p; pr_daemon := pr_daemon p;
     pr_attached := pr_attached p; pr_bus_open := pr_bus_open p; pr_listening := listening;
     pr_path_exists := path_exists; pr_stop_event := stop_event; pr_threads := pr_threads p |}.

Definition with_thread (i : nat) (ph : Phase) (d : Daemon) (p : Process) : Process :=
  {| pr_replace_existing_socket := pr_replace_existing_socket p;
     pr_max_tx_queue_size := pr_max_tx_queue_size p; pr_daemon := Some d;
     pr_attached := pr_attached p; pr_bus_open := pr_bus_open p; pr_listening := pr_listening p;
     pr_path_exists := pr_path_exists p; pr_stop_event := pr_stop_event p;
     pr_threads := <[i := ph]> (pr_threads p) |}.

(** ** Starting and stopping *)

(** [_start_can]: [open_bus] is [SocketCANBus(interface)], [disabled] the outcome of
    [_disable_recv_own_messages]. *)
Definition _start_can (open_bus : res B) (disabled : res unit) : ST Process unit :=
  bus ← lift open_bus;
  _ ← modify (with_daemon None false true);
  _ ← lift disabled;
  modify (λ p, with_daemon (Some (start_can bus (pr_max_tx_queue_size p))) true true p).

(** [_start_server]: [listen] is the outcome of making the directory, binding and
    listening. *)
Definition _start_server (listen : res unit) : ST Process unit :=
  p ← get;
  _ ← (if pr_path_exists p then
         if negb (pr_replace_existing_socket p) then raise RuntimeError
         else modify (with_server (pr_listening p) false (pr_stop_event p))
       else mret ());
  _ ← lift listen;
  modify (λ p, with_server true true (pr_stop_event p) p).

(** [self._can_daemon.stop(...)] and [self._can_bus.close()]. *)
Definition stop_and_close (d : Daemon) : Daemon :=
  let d := stop d in
  {| can_bus := snd (bus_close (can_bus d)); dispatcher := dispatcher d;
     callback_state := callback_state d; max_tx_queue_size := max_tx_queue_size d;
     tx_queue := tx_queue d; started := started d; stop_event := stop_event d |}.

Definition shutdown (p : Process) : Process :=
  let d := if pr_attached p then stop_and_close <$> pr_daemon p else pr_daemon p in
  with_daemon d false false (with_server false false true p).

(** ** Clients *)

Definition with_subs (subs : RxSubscribers) (d : Daemon) : Daemon :=
  {| can_bus := can_bus d; dispatcher := dispatcher d; callback_state := subs;
     max_tx_queue_size := max_tx_queue_size d; tx_queue := tx_queue d;
     started := started d; stop_event := stop_event d |}.

(** The [finally] of [_handle_client]. *)
Definition leave (i : nat) (d : Daemon) : Daemon :=
  with_subs (sub_close i (sub_remove i (callback_state d))) d.

(** [_write_json_line]: into the stream of the client's socket. *)
Definition _write_json_line (i : nat) (message : json) (d : Daemon) : bool * Daemon :=
  let '(r, subs) := sendall i message (callback_state d) in (is_ok r, with_subs subs d).

(** [_handle_client] up to the role. *)
Definition _handle_client (i : nat) (hello : line) (d : Daemon) : Phase * Daemon :=
  match handle_hello hello with
  | (ack :: _, role) =>
      let '(written, d) := _write_json_line i ack d in
      match role with
      | Ok TxClient => if written then (Serving TxClient, d) else (Closed, leave i d)
      | Ok RxClient =>
          if written then (Serving RxClient, with_subs (sub_add i (callback_state d)) d)
          else (Closed, leave i d)
      | Raise _ => (Closed, leave i d)
      end
  | ([], _) => (Closed, leave i d)
  end.

(** A line of a transmitting client. A failed write is answered by a second one,
    which fails in the same way. *)
Definition tx_line (attached : bool) (i : nat) (l : line) (d : Daemon) :
    res json * (Phase * Daemon) :=
  match handle_tx_message str_exc attached l d with
  | (Raise e, d) => (Raise e, (Closed, leave i d))
  | (Ok response, d) =>
      let '(written, d) := _write_json_line i response d in
      (Ok response, if written then (Serving TxClient, d) else (Closed, leave i d))
  end.

(** What [recv(1, MSG_PEEK)] says to the thread of a receiving client. *)
Definition rx_peek (i : nat) (r : res bytes) (d : Daemon) : Phase * Daemon :=
  match r with
  | Ok [] => (Closed, leave i d)
  | Ok _ => (Serving RxClient, d)
  | Raise e => if isinstance e TimeoutError then (Serving RxClient, d) else (Closed, leave i d)
  end.

(** ** What can happen *)

Inductive event :=
  | Connects (i : nat)                  (* [accept] returns the socket [i] *)
  | Reads (i : nat) (l : line)          (* the thread of [i] reads a line *)
  | Peeks (i : nat) (r : res bytes)     (* the thread of [i] looks at its socket *)
  | Breaks (i : nat)                    (* writing to [i] fails from now on *)
  | RxRound | TxRound                   (* an iteration of a loop of the daemon *)
  | Signal.                             (* SIGINT or SIGTERM *)

Inductive record :=
  | Request (i : nat) (l : line) (response : res json)
  | Received (frame : CANFrame)
  | SentOut (frame : CANFrame) (r : res unit)
  | Nothing.

Definition break (i : nat) (s : RxSubscribers) : RxSubscribers :=
  {| subscribers := subscribers s; rx_streams := rx_streams s;
     rx_broken := {[i]} ∪ rx_broken s; rx_closed := rx_closed s |}.

Definition on_daemon (f : Daemon → Daemon) (p : Process) : Process :=
  with_daemon (f <$> pr_daemon p) (pr_attached p) (pr_bus_open p) p.

Definition observe (i : iteration) : record :=
  match i with
  | Dispatched frame _ => Received frame
  | Transmitted frame r => SentOut frame r
  | _ => Nothing
  end.

Definition happen (e : event) (p : Process) : record * Process :=
  match pr_daemon p with
  | None => (Nothing, p)
  | Some d =>
      match e with
      | Connects i =>
          if pr_listening p && negb (pr_stop_event p) && negb (bool_decide (is_Some (pr_threads p !! i)))
          then (Nothing, with_thread i Greeting d p) else (Nothing, p)
      | Reads i l =>
          match pr_threads p !! i with
          | Some Greeting =>
              let '(ph, d) := _handle_client i l d in (Nothing, with_thread i ph d p)
          | Some (Serving TxClient) =>
              if pr_stop_event p then (Nothing, with_thread i Closed (leave i d) p)
              else let '(response, (ph, d)) := tx_line (pr_attached p) i l d in
                   (Request i l response, with_thread i ph d p)
          | _ => (Nothing, p)
          end
      | Peeks i r =>
          match pr_threads p !! i with
          | Some (Serving RxClient) =>
              let '(ph, d) := if pr_stop_event p then (Closed, leave i d) else rx_peek i r d in
              (Nothing, with_thread i ph d p)
          | _ => (Nothing, p)
          end
      | Breaks i => (Nothing, on_daemon (λ d, with_subs (break i (callback_state d)) d) p)
      | RxRound => let '(it, d) := rx_iteration d in (observe it, on_daemon (λ _, d) p)
      | TxRound => let '(it, d) := tx_iteration d in (observe it, on_daemon (λ _, d) p)
      | Signal => (Nothing, with_server (pr_listening p) (pr_path_exists p) true p)
      end
  end.

Fixpoint serve (es : list event) (p : Process) : list record * Process :=
  match es with
  | [] => ([], p)
  | e :: es =>
      let '(o, p1) := happen e p in let '(os, p2) := serve es p1 in (o :: os, p2)
  end.

Definition serving (es : list event) : ST Process (list record) := λ p,
  let '(os, p) := serve es p in (Ok os, p).

(** [run()]: the accept loop ends at a signal or at an error of [accept], after the
    events [es]; what happens afterwards is [serve] again. *)
Definition run (open_bus : res B) (disabled listen : res unit) (es : list event) :
    ST Process (list record) :=
  _ ← _start_can open_bus disabled;
  _ ← _start_server listen;
  os ← serving es;
  _ ← modify shutdown;
  mret os.

(** ** What a client's operation touches *)

Implicit Types (d : Daemon) (p : Process) (cs : RxSubscribers).

(** Only the socket [k] is affected. *)
Record touches (k : nat) cs cs' : Prop := {
  to_stream : ∀ i, i ≠ k → stream i cs' = stream i cs;
  to_dead : ∀ i, i ≠ k → dead cs' i ↔ dead cs i;
  to_subscribers : ∀ i, i ≠ k → i ∈ subscribers cs' ↔ i ∈ subscribers cs;
  to_dies : dead cs k → dead cs' k
}.

Lemma touches_refl k cs : touches k cs cs.
Proof. by split. Qed.

Lemma touches_trans k cs1 cs2 cs3 : touches k cs1 cs2 → touches k cs2 cs3 → touches k cs1 cs3.
Proof.
  intros [H1 H2 H3 H4] [H1' H2' H3' H4'].
  split; intros; rewrite ?H1', ?H2', ?H3' by done; auto.
Qed.

Lemma touches_leave k d : touches k (callback_state d) (callback_state (leave k d)).
Proof.
  split; intros; unfold dead, leave in *; cbn; unfold stream; cbn; try done; set_solver.
Qed.

Lemma dead_leave k d : dead (callback_state (leave k d)) k.
Proof. unfold dead, leave. cbn. set_solver. Qed.

Lemma touches_add k cs : touches k cs (sub_add k cs).
Proof. split; intros; unfold dead, sub_add, stream in *; cbn; try done; set_solver. Qed.

Lemma touches_break k cs : touches k cs (break k cs).
Proof. split; intros; unfold dead, break, stream in *; cbn; try done; set_solver. Qed.

Lemma write_spec k msg d :
  let '(written, d') := _write_json_line k msg d in
  written = bool_decide (¬ dead (callback_state d) k) ∧
  touches k (callback_state d) (callback_state d') ∧
  (∀ i, dead (callback_state d') i ↔ dead (callback_state d) i) ∧
  subscribers (callback_state d') = subscribers (callback_state d) ∧
  stream k (callback_state d') =
    stream k (callback_state d) ++ (if written then [msg] else []) ∧
  d' = with_subs (callback_state d') d.
Proof.
  unfold _write_json_line, sendall. fold (dead (callback_state d) k).
  destruct (decide (dead (callback_state d) k)) as [Hd|Hd]; cbn [is_ok].
  - rewrite bool_decide_eq_false_2 by tauto. rewrite app_nil_r.
    split; [done|]. split; [apply touches_refl|]. done.
  - rewrite bool_decide_eq_true_2 by done. cbn [callback_state with_subs].
    split; [done|]. split; [|split; [done|split; [done|split; [|done]]]].
    + split; try done. intros i Hi. unfold stream. cbn. by rewrite lookup_insert_ne.
    + unfold stream at 1. cbn. by rewrite lookup_insert_eq.
Qed.

(** ** The process while it serves *)

(** The daemon dispatches to the subscribers only; they are the receiving clients
    whose sockets work. *)
Record serves p d : Prop := {
  se_daemon : pr_daemon p = Some d;
  se_dispatcher : dispatcher d = register_wildcard tt dispatcher_init;
  se_subscribed : ∀ i, i ∈ subscribers (callback_state d) → pr_threads p !! i = Some (Serving RxClient);
  se_receiving : ∀ i, pr_threads p !! i = Some (Serving RxClient) →
    ¬ dead (callback_state d) i → i ∈ subscribers (callback_state d);
  se_closed : ∀ i, pr_threads p !! i = Some Closed → dead (callback_state d) i
}.

Lemma with_thread_serves p d k ph d' :
  serves p d → touches k (callback_state d) (callback_state d') → dispatcher d' = dispatcher d →
  (k ∈ subscribers (callback_state d') → ph = Serving RxClient) →
  (ph = Serving RxClient → ¬ dead (callback_state d') k → k ∈ subscribers (callback_state d')) →
  (ph = Closed → dead (callback_state d') k) →
  serves (with_thread k ph d' p) d'.
Proof.
  intros [Hd Hdisp Hsub Hrx Hcl] Ht Hdisp' H1 H2 H3.
  split; cbn [pr_daemon pr_threads with_thread]; [done|congruence|..]; intros i;
    (destruct (decide (i = k)) as [->|Hne];
      [rewrite lookup_insert_eq|rewrite lookup_insert_ne by done]).
  - intros Hk. f_equal. auto.
  - rewrite (to_subscribers _ _ _ Ht) by done. apply Hsub.
  - intros [= ->]. auto.
  - rewrite (to_dead _ _ _ Ht), (to_subscribers _ _ _ Ht) by done. apply Hrx.
  - intros [= ->]. auto.
  - rewrite (to_dead _ _ _ Ht) by done. apply Hcl.
Qed.

(** ** What was asked, granted and sent *)

Definition requested (l : line) : option CANFrame :=
  match read_json_line l with
  | Ok message =>
      if type_is "tx" message then
        match message_frame message with Ok frame => Some frame | Raise _ => None end
      else None
  | Raise _ => None
  end.

Definition tx_ok (response : json) : bool :=
  match response with
  | JObj m => match dict_get "ok"%string m with Some (JBool b) => b | _ => false end
  | _ => false
  end.

Definition granted_by (o : record) : option CANFrame :=
  match o with Request _ l (Ok r) => if tx_ok r then requested l else None | _ => None end.
Definition granted (os : list record) : list CANFrame := omap granted_by os.

Definition sent_out (os : list record) : list CANFrame :=
  omap (λ o, match o with SentOut f _ => Some f | _ => None end) os.
Definition received (os : list record) : list CANFrame :=
  omap (λ o, match o with Received f => Some f | _ => None end) os.

(** What a record makes the process write to a client, by its role. *)
Definition writes (role : client_role) (i : nat) (o : record) : option json :=
  match role, o with
  | TxClient, Request k _ (Ok r) => if decide (k = i) then Some r else None
  | RxClient, Received f => Some (frame_message "rx" f)
  | _, _ => None
  end.

Lemma handle_tx_spec attached i l d :
  let '(r, d1) := handle_tx_message str_exc attached l d in
  callback_state d1 = callback_state d ∧ dispatcher d1 = dispatcher d ∧
  tx_queue d1 = tx_queue d ++ granted [Request i l r].
Proof.
  unfold handle_tx_message, granted, granted_by, requested. cbn [omap list_omap].
  destruct (read_json_line l) as [m|e]; [|by rewrite app_nil_r].
  destruct (type_is "tx" m); cbn [negb]; [|by rewrite app_nil_r].
  destruct (message_frame m) as [f|e]; [|by rewrite app_nil_r].
  destruct attached; [|by rewrite app_nil_r]. unfold send.
  destruct (queue_full d); cbn; by rewrite ?app_nil_r.
Qed.

(** What one event leaves of the promises to the clients. *)
Record kept p d p' d' (o : record) : Prop := {
  kp_serves : serves p' d';
  kp_fifo : tx_queue d ++ granted [o] = sent_out [o] ++ tx_queue d';
  kp_dead : ∀ i, dead (callback_state d) i → dead (callback_state d') i;
  kp_stream : ∀ i role, pr_threads p !! i = Some (Serving role) →
    ¬ dead (callback_state d') i →
    pr_threads p' !! i = Some (Serving role) ∧
    stream i (callback_state d') = stream i (callback_state d) ++ omap (writes role i) [o]
}.

(** An event of one client's thread. *)
Lemma kept_thread p d k ph d' o :
  serves p d → touches k (callback_state d) (callback_state d') → dispatcher d' = dispatcher d →
  (k ∈ subscribers (callback_state d') → ph = Serving RxClient) →
  (ph = Serving RxClient → ¬ dead (callback_state d') k → k ∈ subscribers (callback_state d')) →
  (ph = Closed → dead (callback_state d') k) →
  tx_queue d ++ granted [o] = tx_queue d' → sent_out [o] = [] → received [o] = [] →
  (∀ i l r, o = Request i l r → i = k) →
  (∀ role, pr_threads p !! k = Some (Serving role) → ¬ dead (callback_state d') k →
     ph = Serving role ∧
     stream k (callback_state d') = stream k (callback_state d) ++ omap (writes role k) [o]) →
  kept p d (with_thread k ph d' p) d' o.
Proof.
  intros Hs Ht Hdisp H1 H2 H3 Hq Hso Hre Ho Hk. split.
  - by eapply with_thread_serves.
  - by rewrite Hso.
  - intros i Hi. destruct (decide (i = k)) as [->|Hne]; [by apply (to_dies _ _ _ Ht)|].
    by apply (to_dead _ _ _ Ht).
  - intros i role Hi Hdead. cbn [pr_threads with_thread].
    destruct (decide (i = k)) as [->|Hne].
    + rewrite lookup_insert_eq. destruct (Hk role Hi Hdead) as [-> Hst]. done.
    + rewrite lookup_insert_ne by done. split; [done|]. rewrite (to_stream _ _ _ Ht) by done.
      assert (omap (writes role i) [o] = []) as ->; [|by rewrite app_nil_r].
      cbn. destruct role, o as [k' l [r|e]|f|f r|]; cbn; try done.
      rewrite (Ho _ _ _ eq_refl). by rewrite decide_False.
Qed.

(** The thread of [k] ends, after what it did in [d1]. *)
Lemma kept_leave p d d1 k o :
  serves p d → touches k (callback_state d) (callback_state d1) → dispatcher d1 = dispatcher d →
  tx_queue d ++ granted [o] = tx_queue d1 → sent_out [o] = [] → received [o] = [] →
  (∀ i l r, o = Request i l r → i = k) →
  kept p d (with_thread k Closed (leave k d1) p) (leave k d1) o.
Proof.
  intros Hs Ht Hdisp Hq Hso Hre Ho.
  apply kept_thread; try done.
  - eapply touches_trans; [exact Ht|apply touches_leave].
  - unfold leave. cbn. set_solver.
  - intros _. apply dead_leave.
  - intros role _ Hn. destruct Hn. apply dead_leave.
Qed.

Lemma kept_gone p d k :
  serves p d → kept p d (with_thread k Closed (leave k d) p) (leave k d) Nothing.
Proof.
  intros Hs. apply kept_leave; try done.
  cbn. by rewrite app_nil_r.
Qed.

(** Without effect. *)
Lemma writes_nothing role i : omap (writes role i) [Nothing] = [].
Proof. by destruct role. Qed.

Lemma kept_nothing p d : serves p d → kept p d p d Nothing.
Proof.
  intros Hs. split; [done|by rewrite app_nil_r|done|]. intros. by rewrite writes_nothing, app_nil_r.
Qed.

Lemma not_subscribed p d k ph :
  serves p d → pr_threads p !! k = Some ph → ph ≠ Serving RxClient →
  k ∉ subscribers (callback_state d).
Proof. intros Hs Hk Hne Hin. apply (se_subscribed _ _ Hs) in Hin. congruence. Qed.

Lemma kept_hello p d k l :
  serves p d → pr_threads p !! k = Some Greeting →
  let '(ph, d') := _handle_client k l d in kept p d (with_thread k ph d' p) d' Nothing.
Proof.
  intros Hs Hk. pose proof (not_subscribed _ _ _ _ Hs Hk ltac:(done)) as Hns.
  pose proof (kept_gone p d k Hs) as Hgone.
  unfold _handle_client. destruct (handle_hello l) as [[|ack rest] role]; [exact Hgone|].
  pose proof (write_spec k ack d) as Hw. destruct (_write_json_line k ack d) as [written d1].
  destruct Hw as (Hwr & Ht & Hdead & Hsub & _ & Hd1).
  assert (tx_queue d ++ granted [Nothing] = tx_queue d1) as Hq
    by (rewrite Hd1; cbn; by rewrite app_nil_r).
  assert (dispatcher d1 = dispatcher d) as Hdisp by by rewrite Hd1.
  assert (kept p d (with_thread k Closed (leave k d1) p) (leave k d1) Nothing) as Hleft
    by by apply kept_leave.
  destruct role as [[]|e]; [| |exact Hleft]; (destruct written; [|exact Hleft]).
  - apply kept_thread; try done; [by rewrite Hsub|]. intros role Hrole. congruence.
  - apply kept_thread; try done.
    + eapply touches_trans; [exact Ht|apply touches_add].
    + intros _ _. cbn. set_solver.
    + intros role Hrole. congruence.
Qed.

Lemma kept_tx p d k l :
  serves p d → pr_threads p !! k = Some (Serving TxClient) →
  let '(response, (ph, d')) := tx_line (pr_attached p) k l d in
  kept p d (with_thread k ph d' p) d' (Request k l response).
Proof.
  intros Hs Hk. pose proof (not_subscribed _ _ _ _ Hs Hk ltac:(done)) as Hns.
  unfold tx_line. pose proof (handle_tx_spec (pr_attached p) k l d) as Hm.
  destruct (handle_tx_message str_exc (pr_attached p) l d) as [[r|e] d1]; destruct Hm as (Hcs & Hdisp & Hq).
  2: { apply kept_leave; try done; [rewrite Hcs; apply touches_refl|by intros i l' r [= <-]]. }
  pose proof (write_spec k r d1) as Hw. destruct (_write_json_line k r d1) as [written d2].
  destruct Hw as (Hwr & Ht & Hdead & Hsub & Hst & Hd2). rewrite Hcs in Ht, Hdead, Hsub, Hst, Hwr.
  assert (dispatcher d2 = dispatcher d) as Hdisp2 by by rewrite Hd2.
  assert (tx_queue d ++ granted [Request k l (Ok r)] = tx_queue d2) as Hq2
    by by rewrite Hd2, <-Hq.
  destruct written.
  - apply kept_thread; try done.
    + by rewrite Hsub.
    + by intros i l' r' [= <-].
    + intros role Hrole _. assert (role = TxClient) as -> by congruence. split; [done|].
      rewrite Hst. cbn. by rewrite decide_True.
  - apply kept_leave; try done. by intros i l' r' [= <-].
Qed.

Lemma kept_peek p d k r :
  serves p d → pr_threads p !! k = Some (Serving RxClient) →
  let '(ph, d') := if pr_stop_event p then (Closed, leave k d) else rx_peek k r d in
  kept p d (with_thread k ph d' p) d' Nothing.
Proof.
  intros Hs Hk.
  pose proof (kept_gone p d k Hs) as Hgone.
  assert (kept p d (with_thread k (Serving RxClient) d p) d Nothing) as Hstay.
  { apply kept_thread; try done.
    - intros _. by apply (se_receiving _ _ Hs).
    - cbn. by rewrite app_nil_r.
    - intros role Hrole _. split; [congruence|by rewrite writes_nothing, app_nil_r]. }
  destruct (pr_stop_event p); [exact Hgone|]. unfold rx_peek.
  destruct r as [[|]|e]; [exact Hgone|exact Hstay|].
  destruct (isinstance e TimeoutError); [exact Hstay|exact Hgone].
Qed.

Lemma dispatch_publish frame cs :
  dispatch (register_wildcard tt dispatcher_init) frame cs =
    (fst (dispatch (register_wildcard tt dispatcher_init) frame cs), snd (sub_publish frame cs)).
Proof.
  unfold dispatch, register_wildcard, dispatcher_init. cbn [callbacks_by_id dict_get default
    from_option wildcard_callbacks app call_all]. st_run. unfold try_except, invoke, publish_callback.
  destruct (publish_reaches_subscribers frame cs) as (cs' & -> & _). reflexivity.
Qed.

Lemma dispatch_subscribers p d frame :
  serves p d →
  dispatch (dispatcher d) frame (callback_state d) =
    (fst (dispatch (dispatcher d) frame (callback_state d)), snd (sub_publish frame (callback_state d))).
Proof. intros Hs. rewrite (se_dispatcher _ _ Hs). apply dispatch_publish. Qed.

(** What the daemon's loops do, the threads apart. *)
Lemma kept_daemon p d d' o :
  serves p d → dispatcher d' = dispatcher d →
  tx_queue d ++ granted [o] = sent_out [o] ++ tx_queue d' →
  (∀ i, dead (callback_state d) i → dead (callback_state d') i) →
  (∀ i, i ∈ subscribers (callback_state d') → i ∈ subscribers (callback_state d)) →
  (∀ i, i ∈ subscribers (callback_state d) → ¬ dead (callback_state d') i →
     i ∈ subscribers (callback_state d')) →
  (∀ i role, pr_threads p !! i = Some (Serving role) → ¬ dead (callback_state d') i →
     stream i (callback_state d') = stream i (callback_state d) ++ omap (writes role i) [o]) →
  kept p d (on_daemon (λ _, d') p) d' o.
Proof.
  intros Hs Hdisp Hq Hdead H1 H2 H3. split; [|done|done|].
  - split; cbn [pr_daemon pr_threads on_daemon with_daemon].
    + by rewrite (se_daemon _ _ Hs).
    + rewrite Hdisp. apply (se_dispatcher _ _ Hs).
    + intros i Hi. by apply (se_subscribed _ _ Hs), H1.
    + intros i Hi Hn. apply H2; [|done]. apply (se_receiving _ _ Hs); auto.
    + intros i Hi. by apply Hdead, (se_closed _ _ Hs).
  - intros i role Hi Hn. split; [done|by apply H3].
Qed.

Lemma kept_rx_round p d :
  serves p d →
  let '(it, d') := rx_iteration d in kept p d (on_daemon (λ _, d') p) d' (observe it).
Proof.
  intros Hs.
  assert (∀ bus, let d' := {| can_bus := bus; dispatcher := dispatcher d;
      callback_state := callback_state d; max_tx_queue_size := max_tx_queue_size d;
      tx_queue := tx_queue d; started := started d; stop_event := stop_event d |} in
    kept p d (on_daemon (λ _, d') p) d' Nothing) as Hidle.
  { intros bus d'. apply kept_daemon; try done; [cbn; by rewrite app_nil_r|].
    intros. by rewrite writes_nothing, app_nil_r. }
  unfold rx_iteration. destruct (stop_event d) as [] eqn:Estop in |- * at 1.
  { specialize (Hidle (can_bus d)). by destruct d. }
  destruct (bus_recv_frame (can_bus d)) as [[[f|]|e] bus]; try apply Hidle.
  rewrite (dispatch_subscribers p d f Hs). cbn [observe].
  destruct (publish_reaches_subscribers f (callback_state d)) as (cs' & -> & Hst & Hsub & Hdead).
  cbn [snd]. apply kept_daemon; cbn [callback_state dispatcher tx_queue]; try done.
  - by rewrite app_nil_r.
  - intros i. by rewrite Hdead.
  - intros i. rewrite Hsub. tauto.
  - intros i Hi. rewrite Hsub, Hdead. done.
  - intros i role Hi Hn. rewrite Hdead in Hn. rewrite Hst. destruct role; cbn.
    + rewrite decide_False, app_nil_r; [done|]. intros [Hin _].
      apply (se_subscribed _ _ Hs) in Hin. congruence.
    + rewrite decide_True; [done|]. split; [|done]. by apply (se_receiving _ _ Hs).
Qed.

Lemma kept_tx_round p d :
  serves p d →
  let '(it, d') := tx_iteration d in kept p d (on_daemon (λ _, d') p) d' (observe it).
Proof.
  intros Hs. assert (kept p d (on_daemon (λ _, d) p) d Nothing) as Hidle.
  { apply kept_daemon; try done; [cbn; by rewrite app_nil_r|].
    intros. by rewrite writes_nothing, app_nil_r. }
  unfold tx_iteration. destruct (stop_event d) eqn:Estop; [exact Hidle|].
  destruct (tx_queue d) as [|f q] eqn:Eq; [exact Hidle|].
  destruct (bus_send_frame f (can_bus d)) as [r bus]. cbn [observe].
  apply kept_daemon; cbn [callback_state dispatcher tx_queue]; try done.
  - by rewrite Eq, app_nil_r.
  - intros i role Hi Hn. destruct role; cbn; by rewrite app_nil_r.
Qed.

Lemma kept_break p d k :
  serves p d →
  kept p d (on_daemon (λ d, with_subs (break k (callback_state d)) d) p)
    (with_subs (break k (callback_state d)) d) Nothing.
Proof.
  intros Hs.
  assert (on_daemon (λ d, with_subs (break k (callback_state d)) d) p =
    on_daemon (λ _, with_subs (break k (callback_state d)) d) p) as ->
    by (unfold on_daemon; by rewrite (se_daemon _ _ Hs)).
  apply kept_daemon; try done.
  - cbn. by rewrite app_nil_r.
  - intros i. unfold dead. cbn. set_solver.
  - intros i role Hi Hn. by rewrite writes_nothing, app_nil_r.
Qed.

Lemma happen_kept e p d :
  serves p d → ∃ d', kept p d (snd (happen e p)) d' (fst (happen e p)).
Proof.
  intros Hs. unfold happen. rewrite (se_daemon _ _ Hs).
  destruct e as [k|k l|k r|k| | |].
  - destruct (_ && _) eqn:E; [|exists d; by apply kept_nothing].
    apply andb_true_iff in E as [_ E]. apply negb_true_iff, bool_decide_eq_false in E.
    exists d. cbn [fst snd]. apply kept_thread; try done.
    + intros Hin. apply (se_subscribed _ _ Hs) in Hin. rewrite Hin in E. by destruct E.
    + cbn. by rewrite app_nil_r.
    + intros role Hrole. rewrite Hrole in E. by destruct E.
  - destruct (pr_threads p !! k) as [[|[]|]|] eqn:Ek; try (exists d; by apply kept_nothing).
    + pose proof (kept_hello p d k l Hs Ek) as H1.
      destruct (_handle_client k l d) as [ph d']. by exists d'.
    + destruct (pr_stop_event p); [exists (leave k d); by apply kept_gone|].
      pose proof (kept_tx p d k l Hs Ek) as H1.
      destruct (tx_line _ k l d) as [response [ph d']]. by exists d'.
  - destruct (pr_threads p !! k) as [[|[]|]|] eqn:Ek; try (exists d; by apply kept_nothing).
    pose proof (kept_peek p d k r Hs Ek) as H1.
    destruct (if pr_stop_event p then _ else _) as [ph d']. by exists d'.
  - eexists. by apply kept_break.
  - pose proof (kept_rx_round p d Hs) as H1. destruct (rx_iteration d) as [it d']. by exists d'.
  - pose proof (kept_tx_round p d Hs) as H1. destruct (tx_iteration d) as [it d']. by exists d'.
  - exists d. destruct (kept_nothing p d Hs) as [[] H2 H3 H4]. by split; [split|..].
Qed.

(** ** The daemon's flags *)

Definition flags d : bool * bool := (started d, stop_event d).

Lemma flags_write k msg d : flags (snd (_write_json_line k msg d)) = flags d.
Proof. unfold _write_json_line. by destruct (sendall _ _ _). Qed.

Lemma flags_hello k l d : flags (snd (_handle_client k l d)) = flags d.
Proof.
  unfold _handle_client. destruct (handle_hello l) as [[|ack rest] role]; [done|].
  pose proof (flags_write k ack d) as Hw. destruct (_write_json_line k ack d) as [written d1].
  by destruct role as [[]|], written.
Qed.

Lemma flags_tx attached k l d : flags (snd (snd (tx_line attached k l d))) = flags d.
Proof.
  unfold tx_line.
  assert (flags (snd (handle_tx_message str_exc attached l d)) = flags d) as Hm.
  { unfold handle_tx_message. destruct (read_json_line l); [|done]. destruct (negb _); [done|].
    destruct (message_frame _); [|done]. destruct attached; [|done]. unfold send.
    by destruct (queue_full d). }
  destruct (handle_tx_message str_exc attached l d) as [[r|e] d1]; [|done].
  pose proof (flags_write k r d1) as Hw. destruct (_write_json_line k r d1) as [[] d2];
    cbn [snd] in *; by rewrite <-Hm.
Qed.

Lemma flags_rounds d :
  flags (snd (rx_iteration d)) = flags d ∧ flags (snd (tx_iteration d)) = flags d.
Proof.
  unfold rx_iteration, tx_iteration, flags. split; (destruct (stop_event d) eqn:E; [by cbn; rewrite E|]).
  - destruct (bus_recv_frame _) as [[[f|]|e] bus]; try done. by destruct (dispatch _ _ _).
  - destruct (tx_queue d); [by cbn; rewrite E|]. by destruct (bus_send_frame _ _).
Qed.

Lemma happen_flags e p d :
  pr_daemon p = Some d →
  ∃ d', pr_daemon (snd (happen e p)) = Some d' ∧ flags d' = flags d.
Proof.
  intros Hd. unfold happen. rewrite Hd. destruct e as [k|k l|k r|k| | |].
  - destruct (_ && _); eauto.
  - destruct (pr_threads p !! k) as [[|[]|]|]; try by eauto.
    + pose proof (flags_hello k l d) as H1. destruct (_handle_client k l d); eauto.
    + destruct (pr_stop_event p); [by eexists|].
      pose proof (flags_tx (pr_attached p) k l d) as H1.
      destruct (tx_line _ k l d) as [r' [ph d1]]; eauto.
  - destruct (pr_threads p !! k) as [[|[]|]|]; try by eauto.
    destruct (pr_stop_event p); [by eexists|]. unfold rx_peek.
    destruct r as [[|]|e]; [by eexists..|]. destruct (isinstance e TimeoutError); by eexists.
  - eexists. cbn [snd pr_daemon on_daemon with_daemon]. rewrite Hd. by split.
  - destruct (flags_rounds d) as [H1 _]. destruct (rx_iteration d) as [it d1].
    cbn [snd pr_daemon on_daemon with_daemon]. rewrite Hd. cbn. eauto.
  - destruct (flags_rounds d) as [_ H1]. destruct (tx_iteration d) as [it d1].
    cbn [snd pr_daemon on_daemon with_daemon]. rewrite Hd. cbn. eauto.
  - eauto.
Qed.

Lemma serve_flags es : ∀ p d,
  pr_daemon p = Some d → ∃ d', pr_daemon (snd (serve es p)) = Some d' ∧ flags d' = flags d.
Proof.
  induction es as [|e es IH]; intros p d Hd; [by exists d|]. cbn [serve].
  destruct (happen_flags e p d Hd) as (d1 & Hd1 & Hf1). destruct (happen e p) as [o p1].
  destruct (IH p1 d1 Hd1) as (d2 & Hd2 & Hf2). destruct (serve es p1) as [os p2].
  exists d2. split; [done|congruence].
Qed.

(** A stopped daemon does nothing. *)
Lemma stopped_silent es : ∀ p d,
  pr_daemon p = Some d → stop_event d = true →
  sent_out (fst (serve es p)) = [] ∧ received (fst (serve es p)) = [].
Proof.
  induction es as [|e es IH]; intros p d Hd Hst; [done|]. cbn [serve].
  destruct (happen_flags e p d Hd) as (d1 & Hd1 & Hf1).
  assert (sent_out [fst (happen e p)] = [] ∧ received [fst (happen e p)] = []) as [Ho1 Ho2].
  { unfold happen. rewrite Hd. destruct e as [k|k l|k r|k| | |]; try done.
    - by destruct (_ && _).
    - destruct (pr_threads p !! k) as [[|[]|]|]; try done.
      + by destruct (_handle_client k l d).
      + destruct (pr_stop_event p); [done|]. by destruct (tx_line _ k l d) as [r' [ph d2]].
    - destruct (pr_threads p !! k) as [[|[]|]|]; try done. by destruct (if pr_stop_event p then _ else _).
    - unfold rx_iteration. by rewrite Hst.
    - unfold tx_iteration. by rewrite Hst. }
  destruct (happen e p) as [o p1].
  assert (stop_event d1 = true) as Hst1 by (unfold flags in Hf1; congruence).
  destruct (IH p1 d1 Hd1 Hst1) as [H1 H2]. destruct (serve es p1) as [os p2]. cbn [fst] in *.
  unfold sent_out, received in *. change (o :: os) with ([o] ++ os). rewrite !omap_app.
  by rewrite Ho1, Ho2, H1, H2.
Qed.

(** ** Answers *)

Lemma response_shape attached l d r :
  fst (handle_tx_message str_exc attached l d) = Ok r →
  (r = tx_result true ∧ is_Some (requested l)) ∨ r = tx_result false ∨ ∃ text, r = tx_error false text.
Proof.
  unfold handle_tx_message, requested. destruct (read_json_line l) as [m|]; [|done].
  destruct (type_is "tx" m); cbn [negb]; [|intros [= <-]; by eauto].
  destruct (message_frame m) as [f|e]; [|intros [= <-]; by eauto].
  destruct attached; [|intros [= <-]; by eauto]. unfold send.
  destruct (queue_full d); intros [= <-]; [by eauto|left; split; [done|by eexists]].
Qed.

(** An answer to a request of a client: it is positive for a frame that was
    accepted, and what the client's [send] makes of it. *)
Definition answered {CB} (o : record) : Prop :=
  ∀ i l r, o = Request i l (Ok r) →
    (tx_ok r = true → r = tx_result true ∧ is_Some (requested l)) ∧
    ∀ c : CANProcessClient CB, tx_open c = true →
      client_send c (Line r) = if tx_ok r then Ok true else Raise RuntimeError.

Lemma happen_answered {CB} e p : answered (CB:=CB) (fst (happen e p)).
Proof.
  intros i l r. unfold happen. destruct (pr_daemon p) as [d|]; [|done].
  destruct e as [k|k l'|k r'|k| | |]; try done.
  - by destruct (_ && _).
  - destruct (pr_threads p !! k) as [[|[]|]|]; try done.
    + by destruct (_handle_client k l' d).
    + destruct (pr_stop_event p); [done|]. unfold tx_line.
      pose proof (response_shape (pr_attached p) l' d) as Hr.
      destruct (handle_tx_message str_exc (pr_attached p) l' d) as [[r'|e] d1]; [|done].
      destruct (_write_json_line k r' d1) as [[] d2]; cbn [fst]; intros [= -> -> ->];
        destruct (Hr r eq_refl) as [[-> Hf]|[->|[text ->]]]; (split; [try done|]);
        intros c Hc; unfold client_send; by rewrite Hc.
  - destruct (pr_threads p !! k) as [[|[]|]|]; try done. by destruct (if pr_stop_event p then _ else _).
  - by destruct (rx_iteration d) as [[] d'].
  - by destruct (tx_iteration d) as [[] d'].
Qed.

Lemma granted_cons o os : granted (o :: os) = granted [o] ++ granted os.
Proof. apply (omap_app granted_by [o] os). Qed.
Lemma sent_out_cons o os : sent_out (o :: os) = sent_out [o] ++ sent_out os.
Proof. unfold sent_out. apply (omap_app _ [o] os). Qed.

Lemma serve_kept es : ∀ p d,
  serves p d →
  let '(os, p') := serve es p in
  ∃ d', serves p' d' ∧ tx_queue d ++ granted os = sent_out os ++ tx_queue d' ∧
    (∀ i, dead (callback_state d) i → dead (callback_state d') i) ∧
    (∀ i role, pr_threads p !! i = Some (Serving role) → ¬ dead (callback_state d') i →
       pr_threads p' !! i = Some (Serving role) ∧
       stream i (callback_state d') = stream i (callback_state d) ++ omap (writes role i) os).
Proof.
  induction es as [|e es IH]; intros p d Hs; cbn [serve].
  { exists d. split_and!; try done; [by rewrite app_nil_r|]. intros. by rewrite app_nil_r. }
  destruct (happen_kept e p d Hs) as (d1 & [Hs1 Hq1 Hd1 Hst1]).
  destruct (happen e p) as [o p1]. cbn [fst snd] in *. specialize (IH p1 d1 Hs1).
  destruct (serve es p1) as [os p2]. destruct IH as (d2 & Hs2 & Hq2 & Hd2 & Hst2).
  exists d2. split; [done|]. split; [|split; [auto|]].
  - by rewrite granted_cons, sent_out_cons, app_assoc, Hq1, <-app_assoc, Hq2, app_assoc.
  - intros i role Hi Hn. destruct (Hst1 i role Hi) as [Hi1 E1]; [auto|].
    destruct (Hst2 i role Hi1 Hn) as [Hi2 E2]. split; [done|].
    rewrite E2, E1, <-app_assoc. f_equal. symmetry. apply (omap_app _ [o] os).
Qed.

Lemma serve_answered {CB} es : ∀ p, Forall (answered (CB:=CB)) (fst (serve es p)).
Proof.
  induction es as [|e es IH]; intros p; cbn [serve]; [apply Forall_nil_2|].
  pose proof (happen_answered (CB:=CB) e p) as Ho. destruct (happen e p) as [o p1].
  specialize (IH p1). destruct (serve es p1) as [os p2]. by apply Forall_cons.
Qed.

(** What a receiving client is sent is a stream of frames. *)
Lemma writes_rx i os : omap (writes RxClient i) os = map (frame_message "rx") (received os).
Proof.
  induction os as [|o os IH]; [done|]. unfold received in *. cbn.
  destruct o; cbn; by rewrite IH.
Qed.


(** ** Start and end *)

Lemma start_can_serves bus size replace listening path stop :
  serves {| pr_replace_existing_socket := replace; pr_max_tx_queue_size := size;
            pr_daemon := Some (start_can bus size); pr_attached := true; pr_bus_open := true;
            pr_listening := listening; pr_path_exists := path; pr_stop_event := stop;
            pr_threads := ∅ |} (start_can bus size).
Proof.
  split; cbn [pr_daemon pr_threads]; try done; intros i; rewrite ?lookup_empty; try done.
Qed.

Lemma happen_attached e p : pr_attached (snd (happen e p)) = pr_attached p.
Proof.
  unfold happen. destruct (pr_daemon p) as [d|]; [|done].
  destruct e as [k|k l'|k r'|k| | |]; try done.
  - by destruct (_ && _).
  - destruct (pr_threads p !! k) as [[|[]|]|]; try done.
    + by destruct (_handle_client k l' d).
    + destruct (pr_stop_event p); [done|]. by destruct (tx_line _ k l' d) as [r' [ph d1]].
  - destruct (pr_threads p !! k) as [[|[]|]|]; try done. by destruct (if pr_stop_event p then _ else _).
  - by destruct (rx_iteration d).
  - by destruct (tx_iteration d).
Qed.

Lemma serve_attached es : ∀ p, pr_attached (snd (serve es p)) = pr_attached p.
Proof.
  induction es as [|e es IH]; intros p; [done|]. cbn [serve].
  pose proof (happen_attached e p) as H1. destruct (happen e p) as [o p1].
  specialize (IH p1). destruct (serve es p1) as [os p2]. cbn [snd] in *. congruence.
Qed.

(** What a process that serves has done when it is shut down. *)
Lemma shutdown_after es p d :
  serves p d → pr_attached p = true → flags d = (true, false) → tx_queue d = [] →
  let '(os, p') := serve es p in
  ∃ d', pr_daemon (shutdown p') = Some d' ∧ granted os = sent_out os ++ tx_queue d' ∧
    flags d' = (false, true).
Proof.
  intros Hs Ha Hf Hq. pose proof (serve_kept es p d Hs) as Hk.
  pose proof (serve_attached es p) as Ha'. destruct (serve_flags es p d (se_daemon _ _ Hs)) as (d1 & Hd1 & Hf1).
  destruct (serve es p) as [os p']. cbn [snd] in *. destruct Hk as (d2 & Hs2 & Hq2 & _).
  rewrite (se_daemon _ _ Hs2) in Hd1. injection Hd1 as <-. rewrite Hq in Hq2.
  exists (stop_and_close d2). rewrite Hf in Hf1. injection Hf1 as Hst Hev.
  unfold shutdown. rewrite Ha', Ha, (se_daemon _ _ Hs2). split; [done|].
  unfold stop_and_close, stop, flags. rewrite Hst. by split.
Qed.

(** A run of the CAN process. When the bus opens and the socket can be bound, the
    process serves whatever happens, from an empty queue; when the accept loop ends
    the daemon's loops are stopped, the bus and the socket are closed and the
    socket's file is gone, and nothing that still happens reaches the bus or a
    client. *)
Theorem process_run bus (replace path : bool) (size : Z) (es : list event) :
  replace = true ∨ path = false →
  let '(r, p') := run (Ok bus) (Ok ()) (Ok ()) es (process_init replace size path) in
  ∃ os d', r = Ok os ∧ granted os = sent_out os ++ tx_queue d' ∧
    pr_daemon p' = Some d' ∧ flags d' = (false, true) ∧
    pr_stop_event p' = true ∧ pr_listening p' = false ∧ pr_path_exists p' = false ∧
    pr_attached p' = false ∧ pr_bus_open p' = false ∧
    ∀ later, sent_out (fst (serve later p')) = [] ∧ received (fst (serve later p')) = [].
Proof.
  intros Hpath. unfold run, _start_can, _start_server, serving. st_run.
  pose proof (start_can_serves bus size replace true true false) as Hs.
  set (p1 := Build_Process _ _ _ _ _ _ _ _ _) in Hs.
  pose proof (shutdown_after es p1 (start_can bus size) Hs eq_refl eq_refl eq_refl) as Hend.
  destruct path; [destruct Hpath as [->|]; [|done]|]; cbn;
    (match goal with |- context [serve es ?q] => change q with p1 end);
    destruct (serve es p1) as [os p2]; destruct Hend as (d' & Hd & Hq & Hf);
    exists os, d'; split_and!; try done;
    intros later; (apply (stopped_silent _ _ d'); [exact Hd|unfold flags in Hf; congruence]).
Qed.

(** ** Connecting *)

Lemma serve_app es es' : ∀ p,
  serve (es ++ es') p =
    (let '(os, p1) := serve es p in let '(os', p2) := serve es' p1 in (os ++ os', p2)).
Proof.
  induction es as [|e es IH]; intros p; cbn [app serve]; [by destruct (serve es' p)|].
  destruct (happen e p) as [o p1]. rewrite IH. destruct (serve es p1) as [os p2].
  by destruct (serve es' p2).
Qed.

(** A hello on a new socket is acknowledged on it, and its thread serves the role; the
    other sockets are not touched. *)
Lemma greet_role i role r d p :
  handle_hello (Line (hello_message role)) = ([hello_ack], Ok r) →
  pr_daemon p = Some d → pr_listening p = true → pr_stop_event p = false →
  pr_threads p !! i = None → ¬ dead (callback_state d) i →
  ∃ d', serve [Connects i; Reads i (Line (hello_message role))] p =
      ([Nothing; Nothing], with_thread i (Serving r) d' (with_thread i Greeting d p)) ∧
    stream i (callback_state d') = stream i (callback_state d) ++ [hello_ack] ∧
    (r = RxClient → i ∈ subscribers (callback_state d')) ∧
    (∀ j, dead (callback_state d') j ↔ dead (callback_state d) j) ∧
    (∀ j, j ≠ i → stream j (callback_state d') = stream j (callback_state d)) ∧
    subscribers (callback_state d) ⊆ subscribers (callback_state d').
Proof.
  intros Hh Hd Hl Hs Ht Hdead. cbn [serve]. unfold happen at 1. rewrite Hd, Hl, Hs, Ht.
  cbn [negb andb]. rewrite bool_decide_false by (by intros []). cbn [andb negb].
  unfold happen. cbn [with_thread pr_daemon pr_threads]. rewrite lookup_insert_eq.
  unfold _handle_client. rewrite Hh. unfold _write_json_line, sendall.
  rewrite decide_False by exact Hdead. cbn [is_ok].
  destruct r; eexists; (split; [reflexivity|]); unfold stream, dead; cbn;
    rewrite lookup_insert_eq; (split; [done|]); (split; [set_solver|]); (split; [done|]);
    (split; [intros j Hj; by rewrite lookup_insert_ne|set_solver]).
Qed.

(** Connecting. A client that opens its two sockets and says hello on each is served in
    its two roles, its receiving socket is subscribed, and what it reads on them makes its
    [connect] return, both links open. *)
Theorem client_connects {CB} `{EqDecision CB} (c : CANProcessClient CB) deadline now l i j p d :
  pr_daemon p = Some d → pr_listening p = true → pr_stop_event p = false → i ≠ j →
  (∀ k, k = i ∨ k = j → pr_threads p !! k = None ∧ ¬ dead (callback_state d) k ∧
                        stream k (callback_state d) = []) →
  rx_enabled c = true →
  let p' := snd (serve [Connects i; Reads i (Line (hello_message "tx"));
                        Connects j; Reads j (Line (hello_message "rx"))] p) in
  pr_threads p' !! i = Some (Serving TxClient) ∧ pr_threads p' !! j = Some (Serving RxClient) ∧
  ∃ d' ack_i ack_j, pr_daemon p' = Some d' ∧ j ∈ subscribers (callback_state d') ∧
    stream i (callback_state d') = [ack_i] ∧ stream j (callback_state d') = [ack_j] ∧
    connect_loop deadline (try_roles (Ok ()) (Line ack_i) (Ok ()) (Line ack_j) now :: l) c =
      (Ok (), with_links c true true true, l).
Proof.
  intros Hd Hl Hs Hij Hnew Hrx.
  destruct (Hnew i) as (Hti & Hdi & Hsi); [by left|].
  destruct (Hnew j) as (Htj & Hdj & Hsj); [by right|].
  destruct (greet_role i "tx" TxClient d p eq_refl Hd Hl Hs Hti Hdi)
    as (d1 & E1 & Hi1 & _ & Hdead1 & Hst1 & _).
  set (p1 := with_thread i (Serving TxClient) d1 (with_thread i Greeting d p)) in *.
  destruct (greet_role j "rx" RxClient d1 p1 eq_refl eq_refl Hl Hs)
    as (d2 & E2 & Hj2 & Hsub2 & _ & Hst2 & _).
  { cbn. by rewrite !lookup_insert_ne. }
  { by rewrite Hdead1. }
  change [Connects i; Reads i (Line (hello_message "tx")); Connects j;
          Reads j (Line (hello_message "rx"))]
    with ([Connects i; Reads i (Line (hello_message "tx"))] ++
          [Connects j; Reads j (Line (hello_message "rx"))]).
  rewrite serve_app, E1. cbn [snd]. rewrite E2. cbn [snd].
  split; [cbn; rewrite lookup_insert_ne by done; rewrite lookup_insert_ne by done;
          by rewrite lookup_insert_eq|].
  split; [cbn; by rewrite lookup_insert_eq|].
  exists d2, hello_ack, hello_ack. split; [done|]. split; [by apply Hsub2|].
  split; [by rewrite Hst2, Hi1, Hsi by done|].
  split; [by rewrite Hj2, Hst1, Hsj by done|].
  cbn. unfold try_connect. cbn. by rewrite Hrx.
Qed.

(** C30: A start that fails. When the file of the socket exists and may not be
    replaced, the process raises, and leaves the daemon's two threads behind: they
    are no daemon threads, and nothing that can still happen to the process, a
    signal included, stops them, so that the process does not end. *)
Theorem failed_start_never_ends bus (size : Z) (listen : res unit) (es later : list event) :
  let '(r, p') := run (Ok bus) (Ok ()) listen es (process_init false size true) in
  r = Raise RuntimeError ∧
  ∃ d', pr_daemon (snd (serve later p')) = Some d' ∧ started d' = true ∧ stop_event d' = false.
Proof.
  unfold run, _start_can, _start_server. st_run. cbn. split; [done|].
  match goal with |- context [serve later ?p] =>
    destruct (serve_flags later p (start_can bus size) eq_refl) as (d' & Hd & Hf) end.
  exists d'. injection Hf as H1 H2. done.
Qed.
End process.

(** ** The witnesses: a controller connected to the process *)

(** A bus on which one frame arrives. *)
Definition talking_socket : CanSocket :=
  {| sk_sent := []; sk_send_fails := [];
     sk_incoming := [Ok [0x41; 1; 0; 0; 2; 0; 0; 0; 0xC1; 7; 0; 0; 0; 0; 0; 0]]; sk_closed := false |}.

Definition no_text (e : exn) : string := "".

Definition hello_line (role : string) : line := Line (hello_message role).

(** A process that serves, with a transmitting and a receiving client. *)
Definition serving_process : Process (B:=CanSocket) :=
  snd (serve no_text [Connects 0; Reads 0 (hello_line "tx"); Connects 1; Reads 1 (hello_line "rx")]
    {| pr_replace_existing_socket := true; pr_max_tx_queue_size := 8;
       pr_daemon := Some (start_can talking_socket 8); pr_attached := true; pr_bus_open := true;
       pr_listening := true; pr_path_exists := true; pr_stop_event := false; pr_threads := ∅ |}).

Definition enable_frame : CANFrame := {| can_id := 0x141; data := [0xC1] |}.


Lemma process_run_witness :
  let '(r, p') := run no_text (Ok talking_socket) (Ok ()) (Ok ()) [Connects 0; Signal]
                    (process_init true 8 true) in
  is_ok r = true ∧ pr_path_exists p' = false.
Proof.
  pose proof (process_run no_text talking_socket true true 8 [Connects 0; Signal] (or_introl eq_refl))
    as H.
  destruct (run _ _ _ _ _ _) as [r p']. destruct H as (os & d' & -> & _ & _ & _ & _ & _ & Hp & _).
  split; [reflexivity|exact Hp].
Defined.
