(* ===== verification/CommManager.v ===== *)
(** * Communication freshness and transactions

    [hal/hardware/can/device_comm_manager.py]. Each method runs under the
    manager's lock, so it is one function of the state; [now] is the value its
    call of [time.monotonic()] returns. *)

From S2P Require Import Prelude PyFloat.

(** ** [BestEffortCommManager] *)

(** [class FreshnessStatus] *)
Record FreshnessStatus := {
  is_online : bool;
  is_stale : bool;
  rx_count : Z;
  timeout_count : Z;
  decode_error_count : Z;
  last_rx_t : float;
  last_fault_t : float
}.

Definition FreshnessStatus_new : FreshnessStatus :=
  {| is_online := false; is_stale := true; rx_count := 0; timeout_count := 0;
     decode_error_count := 0; last_rx_t := 0; last_fault_t := 0 |}.

(** [class BestEffortCommManager] *)
Record BestEffortCommManager := { timeout : float; status : FreshnessStatus }.

Definition comm_init (timeout : float) : BestEffortCommManager :=
  {| timeout := timeout; status := FreshnessStatus_new |}.

Definition with_status (m : BestEffortCommManager) (st : FreshnessStatus) :=
  {| timeout := timeout m; status := st |}.

(** [mark_rx(rx_time)]: [now] is used when no time is given. *)
Definition mark_rx (rx_time : option float) (now : float) (m : BestEffortCommManager) :
    BestEffortCommManager :=
  let st := status m in
  with_status m
    {| is_online := true; is_stale := false; rx_count := rx_count st + 1;
       timeout_count := timeout_count st; decode_error_count := decode_error_count st;
       last_rx_t := default now rx_time; last_fault_t := last_fault_t st |}.

Definition mark_decode_error (now : float) (m : BestEffortCommManager) :
    BestEffortCommManager :=
  let st := status m in
  with_status m
    {| is_online := is_online st; is_stale := is_stale st; rx_count := rx_count st;
       timeout_count := timeout_count st; decode_error_count := decode_error_count st + 1;
       last_rx_t := last_rx_t st; last_fault_t := now |}.

(** [update_fault_flags()] returns a copy of the status it leaves. *)
Definition update_fault_flags (now : float) (m : BestEffortCommManager) :
    FreshnessStatus * BestEffortCommManager :=
  let st := status m in
  let was_stale := is_stale st in
  let st' :=
    if (last_rx_t st <=? 0)%float then
      {| is_online := false; is_stale := true; rx_count := rx_count st;
         timeout_count := if was_stale then timeout_count st else timeout_count st + 1;
         decode_error_count := decode_error_count st; last_rx_t := last_rx_t st;
         last_fault_t := if was_stale then last_fault_t st else now |}
    else
      let stale := (timeout m <? now - last_rx_t st)%float in
      {| is_online := negb stale; is_stale := stale; rx_count := rx_count st;
         timeout_count :=
           if stale && negb was_stale then timeout_count st + 1 else timeout_count st;
         decode_error_count := decode_error_count st; last_rx_t := last_rx_t st;
         last_fault_t := if stale && negb was_stale then now else last_fault_t st |}
  in (st', with_status m st').

Definition get_status (m : BestEffortCommManager) : FreshnessStatus := status m.

Definition is_fresh (now : float) (m : BestEffortCommManager) : bool * BestEffortCommManager :=
  let '(st, m') := update_fault_flags now m in (negb (is_stale st), m').

(** *** The manager as a step relation: what its owner calls, in any order *)

Inductive comm_event :=
  | EvRx (rx_time : option float) (now : float)
  | EvDecodeError (now : float)
  | EvUpdate (now : float).

Definition comm_step (m : BestEffortCommManager) (e : comm_event) : BestEffortCommManager :=
  match e with
  | EvRx t now => mark_rx t now m
  | EvDecodeError now => mark_decode_error now m
  | EvUpdate now => snd (update_fault_flags now m)
  end.

Definition comm_run := foldl comm_step.

(** The receptions and the decode errors of a run. *)
Definition is_rx (e : comm_event) : bool := match e with EvRx _ _ => true | _ => false end.
Definition is_error (e : comm_event) : bool :=
  match e with EvDecodeError _ => true | _ => false end.
Definition count (p : comm_event → bool) (es : list comm_event) : Z :=
  Z.of_nat (length (filter (λ e, p e = true) es)).

(** How often a run goes from fresh to stale. *)
Fixpoint went_stale (m : BestEffortCommManager) (es : list comm_event) : Z :=
  match es with
  | [] => 0
  | e :: es =>
      let m' := comm_step m e in
      (if negb (is_stale (status m)) && is_stale (status m') then 1 else 0) + went_stale m' es
  end.

(** The reception time an update compares with the clock. *)
Fixpoint last_reception (t : float) (es : list comm_event) : float :=
  match es with
  | [] => t
  | EvRx rx now :: es => last_reception (default now rx) es
  | _ :: es => last_reception t es
  end.

Lemma count_cons p e es : count p (e :: es) = (if p e then 1 else 0) + count p es.
Proof.
  unfold count. rewrite filter_cons. destruct (p e); simpl; lia.
Qed.

Lemma comm_step_spec m e :
  let st := status m in let st' := status (comm_step m e) in
  timeout (comm_step m e) = timeout m ∧
  rx_count st' = rx_count st + (if is_rx e then 1 else 0) ∧
  decode_error_count st' = decode_error_count st + (if is_error e then 1 else 0) ∧
  timeout_count st' =
    timeout_count st + (if negb (is_stale st) && is_stale st' then 1 else 0) ∧
  last_rx_t st' = last_reception (last_rx_t st) [e] ∧
  (is_online st = negb (is_stale st) → is_online st' = negb (is_stale st')).
Proof.
  destruct m as [t [on st rx tc de lr lf]], e as [tm now|now|now]; cbn [comm_step].
  - destruct st; cbn; split_and!; try done; lia.
  - destruct st; cbn; split_and!; try done; lia.
  - unfold update_fault_flags.
    destruct st; cbn; destruct (lr <=? 0)%float; cbn;
      try destruct (t <? now - lr)%float; cbn; split_and!; try done; lia.
Qed.

Lemma comm_run_spec es m :
  let st := status m in let st' := status (comm_run m es) in
  timeout (comm_run m es) = timeout m ∧
  rx_count st' = rx_count st + count is_rx es ∧
  decode_error_count st' = decode_error_count st + count is_error es ∧
  timeout_count st' = timeout_count st + went_stale m es ∧
  last_rx_t st' = last_reception (last_rx_t st) es ∧
  (is_online st = negb (is_stale st) → is_online st' = negb (is_stale st')).
Proof.
  revert m; induction es as [|e es IH]; intros m; cbv zeta.
  - unfold count. cbn. split_and!; try done; lia.
  - cbn [comm_run foldl went_stale]. rewrite !count_cons.
    destruct (comm_step_spec m e) as (H0 & H1 & H2 & H3 & H4 & H5).
    destruct (IH (comm_step m e)) as (I0 & I1 & I2 & I3 & I4 & I5). unfold comm_run in *.
    repeat (apply conj); [by rewrite I0| | | | |by auto].
    + rewrite I1, H1. lia.
    + rewrite I2, H2. lia.
    + rewrite I3, H3. lia.
    + rewrite I4, H4. by destruct e.
Qed.

(** Freshness accounting. Whatever a driver calls, in whatever order and
    whatever the clock does: [is_online] is the negation of [is_stale]; every
    reception and every decode error is counted once; [timeout_count] is the
    number of times the value went from fresh to stale, so a value that stays
    stale is counted once; and after an update the value is fresh exactly when
    the latest reception has a positive time at most [timeout] ago. *)
Theorem freshness_accounting (tmo now : float) (es : list comm_event) :
  let m := comm_run (comm_init tmo) es in
  let last := last_reception 0 es in
  is_online (status m) = negb (is_stale (status m)) ∧
  rx_count (status m) = count is_rx es ∧
  decode_error_count (status m) = count is_error es ∧
  timeout_count (status m) = went_stale (comm_init tmo) es ∧
  fst (is_fresh now m) = negb (last <=? 0)%float && negb (tmo <? now - last)%float.
Proof.
  destruct (comm_run_spec es (comm_init tmo)) as (H0 & H1 & H2 & H3 & H4 & H5).
  cbv zeta. split_and!; [by auto|by rewrite H1|by rewrite H2|by rewrite H3|].
  unfold is_fresh, update_fault_flags. rewrite H4, H0. cbn [comm_init timeout status].
  cbn [FreshnessStatus_new last_rx_t].
  destruct (last_reception 0 es <=? 0)%float; [done|].
  by destruct (tmo <? now - last_reception 0 es)%float.
Qed.

(** *** [TransactionManager]

    [start_transaction] hands its [PendingTransaction] to the caller, and
    [wait] keeps a reference while other threads replace or clear the pending
    one, so transactions live in a store and the manager holds an index. *)

Record PendingTransaction := {
  expected_ids : gset Z;
  received_ids : gset Z;
  created_t : float;
  pt_timeout : float;
  event : bool                       (* threading.Event: its flag *)
}.

Record TransactionManager := {
  transactions : list PendingTransaction;
  pending : option nat
}.

Definition tx_init : TransactionManager := {| transactions := []; pending := None |}.

Definition start_transaction (expected : gset Z) (timeout now : float)
    (m : TransactionManager) : nat * TransactionManager :=
  let tx := {| expected_ids := expected; received_ids := ∅; created_t := now;
               pt_timeout := timeout; event := false |} in
  (length (transactions m),
   {| transactions := transactions m ++ [tx]; pending := Some (length (transactions m)) |}).

(** [pending.received_ids.add(can_id)] and the test that sets the event *)
Definition receive (cid : Z) (tx : PendingTransaction) : PendingTransaction :=
  let received := {[cid]} ∪ received_ids tx in
  {| expected_ids := expected_ids tx; received_ids := received;
     created_t := created_t tx; pt_timeout := pt_timeout tx;
     event := event tx || bool_decide (expected_ids tx ⊆ received) |}.

Definition tx_mark_rx (cid : Z) (m : TransactionManager) : TransactionManager :=
  match pending m with
  | None => m
  | Some h => {| transactions := alter (receive cid) h (transactions m); pending := pending m |}
  end.

Definition pending_tx (m : TransactionManager) : option PendingTransaction :=
  h ← pending m; transactions m !! h.

Definition is_done (m : TransactionManager) : bool :=
  match pending_tx m with
  | None => false
  | Some tx => bool_decide (expected_ids tx ⊆ received_ids tx)
  end.

Definition is_expired (now : float) (m : TransactionManager) : bool :=
  match pending_tx m with
  | None => false
  | Some tx => (pt_timeout tx <? now - created_t tx)%float
  end.

Definition tx_clear (m : TransactionManager) : TransactionManager :=
  {| transactions := transactions m; pending := None |}.

(** What other threads do to the manager. *)
Inductive tx_op :=
  | OpStart (expected : gset Z) (timeout now : float)
  | OpRx (cid : Z)
  | OpClear.

Definition tx_apply (m : TransactionManager) (o : tx_op) : TransactionManager :=
  match o with
  | OpStart e t now => snd (start_transaction e t now m)
  | OpRx cid => tx_mark_rx cid m
  | OpClear => tx_clear m
  end.

Definition tx_run := foldl tx_apply.

(** [wait()]: the reference is taken first; [during] is what the other threads
    do until the event is set or the timeout ends, and the answer is the flag. *)
Definition tx_wait (during : list tx_op) (m : TransactionManager) : bool :=
  match pending m with
  | None => false
  | Some h =>
      match transactions (tx_run m during) !! h with Some tx => event tx | None => false end
  end.

Lemma tx_run_rx ids m h tx :
  pending m = Some h → transactions m !! h = Some tx →
  pending (tx_run m (OpRx <$> ids)) = Some h ∧
  transactions (tx_run m (OpRx <$> ids)) !! h = Some (foldl (λ t c, receive c t) tx ids).
Proof.
  revert m tx; induction ids as [|c ids IH]; intros m tx Hp Ht; [done|].
  cbn [fmap list_fmap tx_run foldl tx_apply]. apply IH; unfold tx_mark_rx; rewrite Hp.
  - done.
  - cbn [transactions]. by rewrite list_lookup_alter, decide_True, Ht by done.
Qed.

Lemma foldl_receive ids tx :
  let tx' := foldl (λ t c, receive c t) tx ids in
  expected_ids tx' = expected_ids tx ∧
  received_ids tx' = received_ids tx ∪ list_to_set ids ∧
  event tx' = event tx || (bool_decide (expected_ids tx ⊆ received_ids tx ∪ list_to_set ids)
                           && negb (bool_decide (ids = []))).
Proof.
  revert tx; induction ids as [|c ids IH]; intros tx; cbv zeta.
  - cbn. rewrite andb_false_r, orb_false_r. split_and!; [done|set_solver|done].
  - cbn [foldl]. destruct (IH (receive c tx)) as (-> & -> & ->).
    change (expected_ids (receive c tx)) with (expected_ids tx).
    change (received_ids (receive c tx)) with ({[c]} ∪ received_ids tx).
    change (event (receive c tx)) with
      (event tx || bool_decide (expected_ids tx ⊆ {[c]} ∪ received_ids tx)).
    split_and!; [done|set_solver|]. rewrite <- orb_assoc. f_equal.
    rewrite (bool_decide_eq_false_2 (c :: ids = [])) by done. cbn [negb]. rewrite andb_true_r.
    rewrite (bool_decide_ext (expected_ids tx ⊆ _ ∪ list_to_set (c :: ids))
      (expected_ids tx ⊆ {[c]} ∪ received_ids tx ∪ list_to_set ids)) by set_solver.
    destruct ids as [|c' ids].
    + cbn. rewrite andb_false_r, orb_false_r. apply bool_decide_ext. set_solver.
    + rewrite (bool_decide_eq_false_2 (c' :: ids = [])) by done. cbn [negb]. rewrite andb_true_r.
      destruct (bool_decide (_ ⊆ {[c]} ∪ received_ids tx)) eqn:E; [|done].
      apply bool_decide_eq_true in E. symmetry. cbn [orb]. apply bool_decide_eq_true. set_solver.
Qed.

Lemma tx_run_app m l1 l2 : tx_run m (l1 ++ l2) = tx_run (tx_run m l1) l2.
Proof. apply foldl_app. Qed.

Lemma tx_run_cons m o l : tx_run m (o :: l) = tx_run (tx_apply m o) l.
Proof. done. Qed.

(** A transaction that is no longer the pending one does not change again. *)
Lemma tx_run_frame ops m h :
  pending m ≠ Some h → (h < length (transactions m))%nat →
  transactions (tx_run m ops) !! h = transactions m !! h.
Proof.
  revert m; induction ops as [|o ops IH]; intros m Hp Hl; [done|].
  cbn [tx_run foldl] in *. destruct o as [e t now|c|]; cbn [tx_apply].
  - rewrite IH; cbn; [by rewrite lookup_app_l| |rewrite length_app; lia].
    intros [= ?]. lia.
  - unfold tx_mark_rx. destruct (pending m) as [h'|] eqn:E; [|apply IH; [congruence|done]].
    rewrite IH; cbn; [|congruence|by rewrite length_alter].
    rewrite list_lookup_alter, decide_False by congruence. done.
  - rewrite IH; [done|done|done].
Qed.

(** Transactions. After [start_transaction(expected)] and the receptions
    [ids], [is_done] holds exactly when every expected identifier is among
    them; [wait] answers the same provided at least one frame came; and once the
    transaction is cleared or replaced, nothing that happens later changes the
    answer of a thread still waiting for it. *)
Theorem transaction_completes (m : TransactionManager) (expected : gset Z) timeout now
    (ids : list Z) :
  let m1 := snd (start_transaction expected timeout now m) in
  is_done (tx_run m1 (OpRx <$> ids)) = bool_decide (expected ⊆ list_to_set ids) ∧
  tx_wait (OpRx <$> ids) m1 =
    bool_decide (expected ⊆ list_to_set ids) && negb (bool_decide (ids = [])) ∧
  (∀ later, tx_wait ((OpRx <$> ids) ++ OpClear :: later) m1 = tx_wait (OpRx <$> ids) m1) ∧
  (∀ e t n later, tx_wait ((OpRx <$> ids) ++ OpStart e t n :: later) m1
                = tx_wait (OpRx <$> ids) m1).
Proof.
  intros m1. set (h := length (transactions m)).
  set (tx := {| expected_ids := expected; received_ids := ∅; created_t := now;
                pt_timeout := timeout; event := false |}).
  assert (transactions m1 !! h = Some tx) as Ht.
  { unfold m1. cbn. rewrite lookup_app_r by lia. by rewrite Nat.sub_diag. }
  destruct (tx_run_rx ids m1 h tx eq_refl Ht) as [Hp Hl].
  destruct (foldl_receive ids tx) as (He & Hr & Hv). revert He Hr Hv Hl.
  set (tx' := foldl _ tx ids). intros He Hr Hv Hl. cbn in He, Hr, Hv.
  rewrite (left_id_L ∅ (∪)) in Hr, Hv.
  assert (h < length (transactions (tx_run m1 (OpRx <$> ids))))%nat as Hlt
    by by apply lookup_lt_Some in Hl.
  split_and!.
  - unfold is_done, pending_tx. rewrite Hp. unfold mbind, option_bind. by rewrite Hl, He, Hr.
  - unfold tx_wait. change (pending m1) with (Some h). cbv iota. rewrite Hl. apply Hv.
  - intros later. unfold tx_wait. change (pending m1) with (Some h). cbv iota.
    rewrite tx_run_app, tx_run_cons, tx_run_frame; done.
  - intros e t n later. unfold tx_wait. change (pending m1) with (Some h). cbv iota.
    rewrite tx_run_app, tx_run_cons.
    set (m2 := tx_run m1 (OpRx <$> ids)) in *. rewrite tx_run_frame; cbn.
    + by rewrite lookup_app_l.
    + injection 1. lia.
    + rewrite length_app. lia.
Qed.
