(* ===== verification/ActuatorDriver.v ===== *)
(** * The generic CAN actuator: state, protocol interface, driver

    [hal/hardware/can/actuator/{state,protocol,driver}.py] with
    [device_protocol.py] and [device_driver.py]. A product's protocol is an
    instance of the class [ActuatorProtocol]; the driver is written, and its
    theorems proved, against that class alone. *)

From S2P Require Import Prelude PyFloat PyDict CanBus CommManager.

(** ** State containers *)

(** The values of a [raw] dict that the program stores. *)
Inductive RawValue := RInt (z : Z) | RFloat (x : float).

(** [class ActuatorState]: every field but the time is optional, since a frame
    carries a part of the state. *)
Record ActuatorState := {
  position_rad : option float;
  velocity_rad_s : option float;
  torque_nm : option float;
  current_a : option float;
  temperature_c : option float;
  voltage_v : option float;
  fault_code : option Z;
  is_enabled : option bool;
  as_mode : option string;
  last_feedback_t : float;
  raw : dict string RawValue
}.

Definition ActuatorState_new : ActuatorState :=
  {| position_rad := None; velocity_rad_s := None; torque_nm := None; current_a := None;
     temperature_c := None; voltage_v := None; fault_code := None; is_enabled := None;
     as_mode := None; last_feedback_t := 0; raw := [] |}.

(** [class ActuatorCommand] *)
Record ActuatorCommand := {
  ac_position_rad : option float;
  ac_velocity_rad_s : option float;
  ac_torque_nm : option float;
  ac_kp : option float;
  ac_kd : option float;
  ac_current_a : option float;
  ac_mode : option string
}.

(** ** [class ActuatorProtocolBase] *)

Class ActuatorProtocol (P : Type) := {
  rx_can_ids : P → list Z;
  (** [decode_frame(frame)]; [now] is what [time.monotonic()] returns in it. *)
  decode_frame : P → float → CANFrame → res (option ActuatorState);
  encode_enable_frame : P → res CANFrame;
  encode_disable_frame : P → res CANFrame;
  encode_damping_frame : P → res CANFrame;
  encode_clear_fault_frame : P → res CANFrame;
  encode_zero_position_frame : P → float → res CANFrame;
  encode_torque_command_frame : P → float → res CANFrame;
  encode_velocity_command_frame : P → float → res CANFrame;
  encode_position_command_frame : P → float → option float → res CANFrame;
  encode_impedance_command_frame : P → float → float → float → float → float → res CANFrame;
  encode_MIT_command_frame : P → float → float → float → float → float → res CANFrame;
  encode_command_frame : P → ActuatorCommand → res CANFrame
}.

(** The base class's encoders, which a protocol inherits when it does not
    override them. *)
Module ActuatorProtocolBase.
Definition encode_damping_frame : res CANFrame := Raise NotImplementedError.
Definition encode_velocity_command_frame (velocity_rad_s : float) : res CANFrame :=
  Raise NotImplementedError.
Definition encode_position_command_frame (position_rad : float)
    (velocity_rad_s : option float) : res CANFrame := Raise NotImplementedError.
Definition encode_MIT_command_frame (position_rad velocity_rad_s kp kd torque_ff_nm : float) :
    res CANFrame := Raise NotImplementedError.
Definition encode_command_frame (command : ActuatorCommand) : res CANFrame :=
  Raise NotImplementedError.

(** [is_feedback_frame] *)
Definition is_feedback_frame `{ActuatorProtocol P} (p : P) (frame : CANFrame) : bool :=
  bool_decide (can_id frame ∈ rx_can_ids p).
End ActuatorProtocolBase.

(** ** [class ActuatorDriver] *)

(** [new if new is not None else old] on each field of a partial state *)
Definition merge_fields (partial_state state : ActuatorState) : ActuatorState :=
  {| position_rad := position_rad partial_state ∪ position_rad state;
     velocity_rad_s := velocity_rad_s partial_state ∪ velocity_rad_s state;
     torque_nm := torque_nm partial_state ∪ torque_nm state;
     current_a := current_a partial_state ∪ current_a state;
     temperature_c := temperature_c partial_state ∪ temperature_c state;
     voltage_v := voltage_v partial_state ∪ voltage_v state;
     fault_code := fault_code partial_state ∪ fault_code state;
     is_enabled := is_enabled partial_state ∪ is_enabled state;
     as_mode := as_mode partial_state ∪ as_mode state;
     last_feedback_t :=
       if (0 <? last_feedback_t partial_state)%float then last_feedback_t partial_state
       else last_feedback_t state;
     raw := dict_update (raw state) (raw partial_state) |}.

Section driver.
Context `{ActuatorProtocol P}.

Record ActuatorDriver := {
  ad_name : string;
  ad_protocol : P;
  ad_comm : BestEffortCommManager;
  ad_transactions : TransactionManager;
  ad_state : ActuatorState
}.

(** [__init__] without injected managers *)
Definition actuator_driver_init (name : string) (protocol : P) (feedback_timeout : float) :
    ActuatorDriver :=
  {| ad_name := name; ad_protocol := protocol; ad_comm := comm_init feedback_timeout;
     ad_transactions := tx_init; ad_state := ActuatorState_new |}.

Definition driver_rx_can_ids (d : ActuatorDriver) : list Z := rx_can_ids (ad_protocol d).

Definition with_comm (d : ActuatorDriver) (c : BestEffortCommManager) : ActuatorDriver :=
  {| ad_name := ad_name d; ad_protocol := ad_protocol d; ad_comm := c;
     ad_transactions := ad_transactions d; ad_state := ad_state d |}.

(** [_merge_state]; [now] is the clock read by [mark_rx()] when the partial
    state has no time of its own. *)
Definition _merge_state (partial_state : ActuatorState) (now : float) (d : ActuatorDriver) :
    ActuatorDriver :=
  {| ad_name := ad_name d; ad_protocol := ad_protocol d;
     ad_comm :=
       if (0 <? last_feedback_t partial_state)%float
       then mark_rx (Some (last_feedback_t partial_state)) now (ad_comm d)
       else mark_rx None now (ad_comm d);
     ad_transactions := ad_transactions d;
     ad_state := merge_fields partial_state (ad_state d) |}.

Definition tx_received (cid : Z) (d : ActuatorDriver) : ActuatorDriver :=
  {| ad_name := ad_name d; ad_protocol := ad_protocol d; ad_comm := ad_comm d;
     ad_transactions := tx_mark_rx cid (ad_transactions d); ad_state := ad_state d |}.

(** [on_frame(frame)]: the clock reads [now] in the decoder (or in
    [mark_decode_error]) and [now'] after it. *)
Definition on_frame (now now' : float) (frame : CANFrame) (d : ActuatorDriver) :
    ActuatorDriver :=
  match decode_frame (ad_protocol d) now frame with
  | Raise _ => with_comm d (mark_decode_error now' (ad_comm d))
  | Ok None => d
  | Ok (Some partial_state) =>
      tx_received (can_id frame) (_merge_state partial_state now' d)
  end.

(** *** Frame makers *)
Definition make_enable_frame (d : ActuatorDriver) := encode_enable_frame (ad_protocol d).
Definition make_disable_frame (d : ActuatorDriver) := encode_disable_frame (ad_protocol d).
Definition make_damping_frame (d : ActuatorDriver) := encode_damping_frame (ad_protocol d).
Definition make_clear_fault_frame (d : ActuatorDriver) :=
  encode_clear_fault_frame (ad_protocol d).
Definition make_zero_position_frame (d : ActuatorDriver) (offset_deg : float) :=
  encode_zero_position_frame (ad_protocol d) offset_deg.
Definition make_torque_command_frame (d : ActuatorDriver) (torque_nm : float) :=
  encode_torque_command_frame (ad_protocol d) torque_nm.
Definition make_velocity_command_frame (d : ActuatorDriver) (velocity_rad_s : float) :=
  encode_velocity_command_frame (ad_protocol d) velocity_rad_s.
Definition make_position_command_frame (d : ActuatorDriver) (position_rad : float)
    (velocity_rad_s : option float) :=
  encode_position_command_frame (ad_protocol d) position_rad velocity_rad_s.
Definition make_impedance_command_frame (d : ActuatorDriver)
    (position_rad velocity_rad_s kp kd torque_ff_nm : float) :=
  encode_impedance_command_frame (ad_protocol d)
    position_rad velocity_rad_s kp kd torque_ff_nm.
Definition make_command_frame (d : ActuatorDriver) (command : ActuatorCommand) :=
  encode_command_frame (ad_protocol d) command.

(** *** Status *)
Definition get_state (d : ActuatorDriver) : ActuatorState := ad_state d.
Definition driver_update_fault_flags (now : float) (d : ActuatorDriver) :
    FreshnessStatus * ActuatorDriver :=
  let '(st, c) := update_fault_flags now (ad_comm d) in (st, with_comm d c).
Definition get_comm_status (d : ActuatorDriver) : FreshnessStatus := get_status (ad_comm d).
Definition driver_is_fresh (now : float) (d : ActuatorDriver) : bool * ActuatorDriver :=
  let '(b, c) := is_fresh now (ad_comm d) in (b, with_comm d c).

(** *** Transactions *)
Definition driver_start_transaction (expected : gset Z) (timeout now : float)
    (d : ActuatorDriver) : nat * ActuatorDriver :=
  let '(h, t) := start_transaction expected timeout now (ad_transactions d) in
  (h, {| ad_name := ad_name d; ad_protocol := ad_protocol d; ad_comm := ad_comm d;
         ad_transactions := t; ad_state := ad_state d |}).
Definition wait_transaction (during : list tx_op) (d : ActuatorDriver) : bool :=
  tx_wait during (ad_transactions d).
Definition clear_transaction (d : ActuatorDriver) : ActuatorDriver :=
  {| ad_name := ad_name d; ad_protocol := ad_protocol d; ad_comm := ad_comm d;
     ad_transactions := tx_clear (ad_transactions d); ad_state := ad_state d |}.
End driver.
Arguments ActuatorDriver P : clear implicits.

(** ** What the driver's theorems rely on

    A frame for another identifier is not decoded, and a decoded [raw] has one
    entry per key. Each protocol discharges this for itself. *)
Class ActuatorProtocolLaws P `{ActuatorProtocol P} := {
  decode_foreign p now f : can_id f ∉ rx_can_ids p → decode_frame p now f = Ok None;
  decode_raw_wf p now f st : decode_frame p now f = Ok (Some st) → dict_wf (raw st)
}.

Section driver_spec.
Context `{ActuatorProtocolLaws P}.

(** A received frame with the two clock readings of its [on_frame]. *)
Record rx_event := { ev_now : float; ev_now' : float; ev_frame : CANFrame }.

Definition driver_run : ActuatorDriver P → list rx_event → ActuatorDriver P :=
  foldl (λ d ev, on_frame (ev_now ev) (ev_now' ev) (ev_frame ev) d).

Definition decode_event (p : P) (ev : rx_event) : res (option ActuatorState) :=
  decode_frame p (ev_now ev) (ev_frame ev).

(** The partial states a sequence of frames decodes to. *)
Definition partials (p : P) (evs : list rx_event) : list ActuatorState :=
  omap (λ ev, match decode_event p ev with Ok st => st | Raise _ => None end) evs.

Definition decode_failures (p : P) (evs : list rx_event) : Z :=
  Z.of_nat (length (filter (λ ev, is_ok (decode_event p ev) = false) evs)).

Lemma driver_run_protocol evs d : ad_protocol (driver_run d evs) = ad_protocol d.
Proof.
  revert d; induction evs as [|ev evs IH]; intros d; [done|].
  cbn [driver_run foldl]. fold driver_run. rewrite IH. unfold on_frame.
  by destruct (decode_frame _ _ _) as [[?|]|?].
Qed.

Lemma last_omap_cons {A B} (f : A → option B) x l o :
  last (omap f (x :: l)) ∪ o = last (omap f l) ∪ (f x ∪ o).
Proof.
  cbn [omap list_omap]. destruct (f x) as [b|]; [|by destruct (last _), o].
  cbn [last]. destruct (omap f l) as [|c l'] eqn:E; cbn [last]; [by destruct o|].
  destruct (last (c :: l')) eqn:E'; [by destruct o|].
  by apply last_None in E'.
Qed.

(** A field that [_merge_state] overwrites when present holds the value of
    the last frame that carried it. *)
Lemma driver_run_field {A} (f : ActuatorState → option A) d evs :
  (∀ st st', dict_wf (raw st) → f (merge_fields st st') = f st ∪ f st') →
  f (ad_state (driver_run d evs)) =
    last (omap f (partials (ad_protocol d) evs)) ∪ f (ad_state d).
Proof.
  intros Hf. revert d; induction evs as [|ev evs IH]; intros d.
  - cbn. by destruct (f (ad_state d)).
  - cbn [driver_run foldl]. fold driver_run. rewrite IH. unfold on_frame, partials.
    cbn [omap list_omap]. fold (decode_event (ad_protocol d) ev).
    destruct (decode_event (ad_protocol d) ev) as [[st|]|e] eqn:E;
      cbn [ad_state ad_protocol tx_received _merge_state with_comm]; [|done|done].
    rewrite last_omap_cons, Hf by by eapply decode_raw_wf. done.
Qed.

Lemma driver_run_counts d evs :
  rx_count (status (ad_comm (driver_run d evs))) =
    rx_count (status (ad_comm d)) + Z.of_nat (length (partials (ad_protocol d) evs)) ∧
  decode_error_count (status (ad_comm (driver_run d evs))) =
    decode_error_count (status (ad_comm d)) + decode_failures (ad_protocol d) evs.
Proof.
  revert d; induction evs as [|ev evs IH]; intros d; [unfold decode_failures; cbn; lia|].
  cbn [driver_run foldl]. fold driver_run. destruct (IH (on_frame (ev_now ev) (ev_now' ev)
    (ev_frame ev) d)) as [-> ->].
  unfold partials, decode_failures. rewrite filter_cons. cbn [omap list_omap].
  unfold on_frame. fold (decode_event (ad_protocol d) ev).
  destruct (decode_event (ad_protocol d) ev) as [[st|]|e] eqn:E;
    cbn [is_ok]; rewrite ?decide_True, ?decide_False by done;
    cbn [ad_state ad_protocol tx_received _merge_state with_comm ad_comm length
         mark_decode_error with_status status rx_count decode_error_count]; try lia.
  destruct (0 <? last_feedback_t st)%float;
    cbn [mark_rx with_status status rx_count decode_error_count]; lia.
Qed.

End driver_spec.
