(* ===== verification/SpgProtocol.v ===== *)
(** * The SPG actuator protocol

    [qhrr0_hw/actuators/dongilc_protocol.py]: scaling of floats to integer
    codes, encoder counts, the frames the controller sends and the feedback it
    decodes; with [actuator_specs.py], [spg_actuator.py], [calibration.py],
    [joint_map.py] of the same package. *)

From Stdlib Require Import Uint63.
From S2P Require Import Prelude PyFloat PyDict CanBus CommManager ActuatorDriver.

Definition ENC_MOD : Z := 16384.
Definition ENC_HALF : Z := ENC_MOD / 2.
Definition CNT2RAD : float := (2 * math_pi / 16384)%float.

(** ** Utility functions *)

Definition require_range (x lo hi : float) : res unit :=
  if (x <? lo)%float || (hi <? x)%float then Raise ValueError else Ok ().

Definition round_half_away_from_zero (x : float) : res Z :=
  if (0 <=? x)%float then py_floor (x + 0.5)%float else py_ceil (x - 0.5)%float.

Definition float_to_uint (x x_min x_max : float) (bits : Z) : res Z :=
  _ ← require_range x x_min x_max;
  let span := (x_max - x_min)%float in
  let max_int := Z.shiftl 1 bits - 1 in
  q ← py_div ((x - x_min) * Z2F max_int)%float span;
  round_half_away_from_zero q.

Definition wrap_u14 (x : Z) : Z := Z.land x 0x3FFF.

Definition shortest_delta_u14 (curr_u16 prev_u16 : Z) : Z :=
  let curr := wrap_u14 curr_u16 in
  let prev := wrap_u14 prev_u16 in
  let delta := curr - prev in
  if ENC_HALF <? delta then delta - ENC_MOD
  else if delta <? - ENC_HALF then delta + ENC_MOD
  else delta.

Definition u14_count_to_rad (cnt : Z) : float := (Z2F (wrap_u14 cnt) * CNT2RAD)%float.

Definition rad_to_u14_count (rad : float) : res Z :=
  rad_wrapped ← py_mod rad (2 * math_pi)%float;
  n ← round_half_away_from_zero (rad_wrapped / (2 * math_pi) * Z2F ENC_MOD)%float;
  Ok (n mod ENC_MOD).

(** The signed count [signed_u14_count_to_rad] scales. *)
Definition signed_u14 (cnt : Z) : Z :=
  let value := wrap_u14 cnt in
  if ENC_HALF <=? value then value - ENC_MOD else value.

Definition signed_u14_count_to_rad (cnt : Z) : float := (Z2F (signed_u14 cnt) * CNT2RAD)%float.

(** ** Data containers *)

Record SPGMITConfig := {
  p_max : float;
  v_max : float;
  kp_max : float;
  kd_max : float;
  tau_max : float;
  feedback_position_max : float
}.

Definition SPGMITConfig_default : SPGMITConfig :=
  {| p_max := 12.5; v_max := 45; kp_max := 500; kd_max := 5; tau_max := 33;
     feedback_position_max := 12.56 |}.

Record SPGMITStatus := {
  st_temp_c : Z; iq_counts : Z; speed_dps : Z; mit_position_i16 : Z }.

Record SPGEncoderData := {
  enc_temp_c : Z; encoder_position_u16 : Z; encoder_original_u16 : Z; encoder_offset_u16 : Z }.

Record SPGMITParams := {
  v_max_rad_s : Z; tau_max_nm : Z; kt_out_nm_per_a : float; mp_gear_ratio : float }.

(** [struct.unpack] of "<H", "<h" and "b" *)
Definition unpack_H (b : bytes) : res Z :=
  if (length b =? 2)%nat then Ok (le_decode b) else Raise StructError.
Definition unpack_h (b : bytes) : res Z :=
  if (length b =? 2)%nat then Ok (to_signed 16 (le_decode b)) else Raise StructError.
Definition unpack_b (b : bytes) : res Z :=
  if (length b =? 1)%nat then Ok (to_signed 8 (le_decode b)) else Raise StructError.

(** [b[i]] *)
Definition byte_at (i : nat) (b : bytes) : res Z :=
  match b !! i with Some x => Ok x | None => Raise IndexError end.

Definition CMD_MIT_CONTROL : Z := 0xC0.
Definition CMD_MIT_ENTER : Z := 0xC1.
Definition CMD_MIT_EXIT : Z := 0xC2.
Definition CMD_MIT_SET_ZERO : Z := 0xC3.
Definition CMD_READ_MIT_PARAMS : Z := 0xC4.
Definition CMD_WRITE_MIT_PARAMS : Z := 0xC5.
Definition CMD_READ_ENCODER_DATA : Z := 0x90.
Definition CMD_WRITE_CURRENT_POS_AS_ZERO : Z := 0x19.
Definition CMD_WRITE_ENCODER_OFFSET : Z := 0x91.
Definition CMD_CLEAR_ERROR_FLAG : Z := 0x9B.

(** ** [class SPGActuatorProtocol] *)

Record SPGActuatorProtocol := {
  command_id : Z;
  feedback_id : Z;
  mit_config : SPGMITConfig;
  gear_ratio : float;
  feedback_speed_is_motor_side : bool;
  expose_single_turn_position : bool;
  iq_count_to_amp : option float;
  torque_constant_nm_per_a : option float;
  gear_efficiency : float
}.

Definition spg_init (command_id : Z) (feedback_id : option Z) (mit_config : option SPGMITConfig)
    (gear_ratio : float) (feedback_speed_is_motor_side expose_single_turn_position : bool)
    (iq_count_to_amp torque_constant_nm_per_a : option float) (gear_efficiency : float) :
    res SPGActuatorProtocol :=
  if (gear_ratio <=? 0)%float then Raise ValueError
  else match feedback_id, mit_config with
  | None, _ => Raise ValueError
  | Some _, None => Raise ValueError
  | Some fid, Some cfg =>
      Ok {| command_id := command_id; feedback_id := fid; mit_config := cfg;
            gear_ratio := gear_ratio;
            feedback_speed_is_motor_side := feedback_speed_is_motor_side;
            expose_single_turn_position := expose_single_turn_position;
            iq_count_to_amp := iq_count_to_amp;
            torque_constant_nm_per_a := torque_constant_nm_per_a;
            gear_efficiency := gear_efficiency |}
  end.

(** *** Parsers *)

Definition _parse_mit_status_v14 (payload8 : bytes) : res SPGMITStatus :=
  if negb (length payload8 =? 8)%nat then Raise ValueError
  else
    cmd ← byte_at 0 payload8;
    if negb (cmd =? CMD_MIT_CONTROL) then Raise ValueError
    else
      temp_c ← unpack_b (slice 1 2 payload8);
      iq ← unpack_h (slice 2 4 payload8);
      speed ← unpack_h (slice 4 6 payload8);
      pos ← unpack_h (slice 6 8 payload8);
      Ok {| st_temp_c := temp_c; iq_counts := iq; speed_dps := speed;
            mit_position_i16 := pos |}.

Definition _parse_encoder_data (payload8 : bytes) : res SPGEncoderData :=
  if negb (length payload8 =? 8)%nat then Raise ValueError
  else
    cmd ← byte_at 0 payload8;
    if negb (cmd =? CMD_READ_ENCODER_DATA) then Raise ValueError
    else
      temp_c ← unpack_b (slice 1 2 payload8);
      pos ← unpack_H (slice 2 4 payload8);
      orig ← unpack_H (slice 4 6 payload8);
      off ← unpack_H (slice 6 8 payload8);
      Ok {| enc_temp_c := temp_c; encoder_position_u16 := wrap_u14 pos;
            encoder_original_u16 := wrap_u14 orig; encoder_offset_u16 := wrap_u14 off |}.

Definition _parse_mit_params (payload8 : bytes) : res SPGMITParams :=
  if negb (length payload8 =? 8)%nat then Raise ValueError
  else
    cmd ← byte_at 0 payload8;
    if negb (cmd =? CMD_READ_MIT_PARAMS) then Raise ValueError
    else
      kt ← unpack_H (slice 3 5 payload8);
      gear ← unpack_H (slice 5 7 payload8);
      v ← byte_at 1 payload8;
      tau ← byte_at 2 payload8;
      Ok {| v_max_rad_s := v; tau_max_nm := tau;
            kt_out_nm_per_a := (Z2F kt * 0.001)%float;
            mp_gear_ratio := (Z2F gear * 0.01)%float |}.

(** *** Decoders; [now] is [time.monotonic()] *)

Definition _decode_mit_status (p : SPGActuatorProtocol) (now : float) (payload8 : bytes) :
    res ActuatorState :=
  status ← _parse_mit_status_v14 payload8;
  let radians := math_radians (Z2F (speed_dps status)) in
  velocity ← (if feedback_speed_is_motor_side p then py_div radians (gear_ratio p)
              else Ok radians);
  let position_output_rad :=
    (Z2F (mit_position_i16 status) / 32767 * feedback_position_max (mit_config p))%float in
  let current := (λ k, (Z2F (iq_counts status) * k)%float) <$> iq_count_to_amp p in
  let torque :=
    match current, torque_constant_nm_per_a p with
    | Some a, Some kt => Some (a * kt * gear_ratio p * gear_efficiency p)%float
    | _, _ => None
    end in
  Ok {| position_rad := if expose_single_turn_position p then Some position_output_rad else None;
        velocity_rad_s := Some velocity; torque_nm := torque; current_a := current;
        temperature_c := Some (Z2F (st_temp_c status)); voltage_v := None;
        fault_code := None; is_enabled := None; as_mode := None; last_feedback_t := now;
        raw := [("cmd"%string, RInt CMD_MIT_CONTROL);
                ("iq_counts"%string, RInt (iq_counts status));
                ("speed_dps"%string, RInt (speed_dps status));
                ("position_i16"%string, RInt (mit_position_i16 status));
                ("mit_position_i16"%string, RInt (mit_position_i16 status));
                ("feedback_position_max_rad"%string,
                  RFloat (feedback_position_max (mit_config p)));
                ("position_output_rad"%string, RFloat position_output_rad);
                ("mit_position_rad"%string, RFloat position_output_rad)] |}.

Definition _decode_encoder_data (p : SPGActuatorProtocol) (now : float) (payload8 : bytes) :
    res ActuatorState :=
  enc ← _parse_encoder_data payload8;
  position ← (if expose_single_turn_position p
              then Some <$> py_div (signed_u14_count_to_rad (encoder_position_u16 enc))
                              (gear_ratio p)
              else Ok None);
  Ok {| position_rad := position; velocity_rad_s := None; torque_nm := None;
        current_a := None; temperature_c := Some (Z2F (enc_temp_c enc)); voltage_v := None;
        fault_code := None; is_enabled := None; as_mode := None; last_feedback_t := now;
        raw := [("cmd"%string, RInt CMD_READ_ENCODER_DATA);
                ("encoder_position_u16"%string, RInt (encoder_position_u16 enc));
                ("encoder_original_u16"%string, RInt (encoder_original_u16 enc));
                ("encoder_offset_u16"%string, RInt (encoder_offset_u16 enc));
                ("encoder_position_rad_signed_motor"%string,
                  RFloat (signed_u14_count_to_rad (encoder_position_u16 enc)));
                ("encoder_original_rad_motor"%string,
                  RFloat (u14_count_to_rad (encoder_original_u16 enc)));
                ("encoder_offset_rad_motor"%string,
                  RFloat (u14_count_to_rad (encoder_offset_u16 enc)))] |}.

Definition _decode_mit_params (now : float) (payload8 : bytes) : res ActuatorState :=
  params ← _parse_mit_params payload8;
  Ok {| position_rad := None; velocity_rad_s := None; torque_nm := None; current_a := None;
        temperature_c := None; voltage_v := None; fault_code := None; is_enabled := None;
        as_mode := Some "MIT_PARAMS"%string; last_feedback_t := now;
        raw := [("cmd"%string, RInt CMD_READ_MIT_PARAMS);
                ("v_max_rad_s"%string, RInt (v_max_rad_s params));
                ("tau_max_nm"%string, RInt (tau_max_nm params));
                ("kt_out_nm_per_a"%string, RFloat (kt_out_nm_per_a params));
                ("gear_ratio"%string, RFloat (mp_gear_ratio params))] |}.

Definition _ack_enabled_hint (cmd : Z) : option bool :=
  if cmd =? CMD_MIT_ENTER then Some true
  else if (cmd =? CMD_MIT_EXIT) || (cmd =? CMD_CLEAR_ERROR_FLAG) then Some false
  else None.

Definition _ack_mode (cmd : Z) : option string :=
  if cmd =? CMD_MIT_ENTER then Some "MIT_ENTER_ACK"%string
  else if cmd =? CMD_MIT_EXIT then Some "MIT_EXIT_ACK"%string
  else if cmd =? CMD_MIT_SET_ZERO then Some "MIT_SET_ZERO_ACK"%string
  else if cmd =? CMD_CLEAR_ERROR_FLAG then Some "CLEAR_ERROR_ACK"%string
  else if cmd =? CMD_WRITE_CURRENT_POS_AS_ZERO then Some "WRITE_CURRENT_POS_AS_ZERO_ACK"%string
  else if cmd =? CMD_WRITE_ENCODER_OFFSET then Some "WRITE_ENCODER_OFFSET_ACK"%string
  else None.

(** The command-specific part of an acknowledgement's [raw]. *)
Definition ack_raw (cmd : Z) (payload8 : bytes) : res (dict string RawValue) :=
  if cmd =? CMD_MIT_SET_ZERO then
    offset_i16 ← unpack_h (slice 6 8 payload8);
    let offset_deg := (Z2F offset_i16 * 0.01)%float in
    Ok [("offset_i16"%string, RInt offset_i16); ("offset_deg"%string, RFloat offset_deg);
        ("offset_rad"%string, RFloat (math_radians offset_deg))]
  else if (cmd =? CMD_WRITE_CURRENT_POS_AS_ZERO) || (cmd =? CMD_WRITE_ENCODER_OFFSET) then
    offset_u16 ← unpack_H (slice 6 8 payload8);
    Ok [("encoder_offset_u16"%string, RInt offset_u16);
        ("encoder_offset_rad_motor"%string, RFloat (u14_count_to_rad offset_u16))]
  else if cmd =? CMD_CLEAR_ERROR_FLAG then
    b ← byte_at 1 payload8;
    Ok [("fault_code_after_clear"%string, RInt b)]
  else Ok [].

Definition _decode_ack_like_frame (now : float) (payload8 : bytes) : res ActuatorState :=
  if negb (length payload8 =? 8)%nat then Raise ValueError
  else
    cmd ← byte_at 0 payload8;
    extra ← ack_raw cmd payload8;
    fault ← (if cmd =? CMD_CLEAR_ERROR_FLAG then Some <$> byte_at 1 payload8 else Ok None);
    Ok {| position_rad := None; velocity_rad_s := None; torque_nm := None; current_a := None;
          temperature_c := None; voltage_v := None; fault_code := fault;
          is_enabled := _ack_enabled_hint cmd; as_mode := _ack_mode cmd;
          last_feedback_t := now; raw := ("cmd"%string, RInt cmd) :: extra |}.

Definition spg_decode_frame (p : SPGActuatorProtocol) (now : float) (frame : CANFrame) :
    res (option ActuatorState) :=
  if negb (can_id frame =? feedback_id p) then Ok None
  else if negb (length (data frame) =? 8)%nat then Raise ValueError
  else
    cmd ← byte_at 0 (data frame);
    if cmd =? CMD_MIT_CONTROL then Some <$> _decode_mit_status p now (data frame)
    else if cmd =? CMD_READ_ENCODER_DATA then Some <$> _decode_encoder_data p now (data frame)
    else if cmd =? CMD_READ_MIT_PARAMS then Some <$> _decode_mit_params now (data frame)
    else if bool_decide (cmd ∈ [CMD_MIT_ENTER; CMD_MIT_EXIT; CMD_WRITE_CURRENT_POS_AS_ZERO;
                                CMD_WRITE_ENCODER_OFFSET; CMD_MIT_SET_ZERO;
                                CMD_CLEAR_ERROR_FLAG])
    then Some <$> _decode_ack_like_frame now (data frame)
    else Ok None.

(** *** Encoders *)

(** A frame whose payload is one opcode. *)
Definition opcode_frame (p : SPGActuatorProtocol) (cmd : Z) : res CANFrame :=
  payload ← py_bytes [cmd; 0; 0; 0; 0; 0; 0; 0];
  Ok {| can_id := command_id p; data := payload |}.

Definition spg_encode_enable_frame p := opcode_frame p CMD_MIT_ENTER.
Definition spg_encode_disable_frame p := opcode_frame p CMD_MIT_EXIT.
Definition spg_encode_clear_fault_frame p := opcode_frame p CMD_CLEAR_ERROR_FLAG.
Definition encode_read_mit_params_frame p := opcode_frame p CMD_READ_MIT_PARAMS.
Definition encode_read_encoder_data_frame p := opcode_frame p CMD_READ_ENCODER_DATA.
Definition encode_write_current_position_as_zero_frame p :=
  opcode_frame p CMD_WRITE_CURRENT_POS_AS_ZERO.

(** The eight bytes of a MIT command, from the five integer codes. *)
Definition mit_bytes (p_u v_u kp_u kd_u t_u : Z) : bytes :=
  [CMD_MIT_CONTROL;
   Z.land (Z.shiftr p_u 8) 0xFF;
   Z.land p_u 0xFF;
   Z.land (Z.shiftr v_u 4) 0xFF;
   Z.lor (Z.shiftl (Z.land v_u 0x0F) 4) (Z.land (Z.shiftr kp_u 8) 0x0F);
   Z.land kp_u 0xFF;
   Z.land kd_u 0xFF;
   Z.land t_u 0xFF].

Definition _pack_mit_payload (cfg : SPGMITConfig)
    (position_rad velocity_rad_s kp kd torque_ff_nm : float) : res bytes :=
  _ ← require_range position_rad (- p_max cfg) (p_max cfg);
  _ ← require_range velocity_rad_s (- v_max cfg) (v_max cfg);
  _ ← require_range kp 0 (kp_max cfg);
  _ ← require_range kd 0 (kd_max cfg);
  _ ← require_range torque_ff_nm (- tau_max cfg) (tau_max cfg);
  p_u ← float_to_uint position_rad (- p_max cfg) (p_max cfg) 16;
  v_u ← float_to_uint velocity_rad_s (- v_max cfg) (v_max cfg) 12;
  kp_u ← float_to_uint kp 0 (kp_max cfg) 12;
  kd_u ← float_to_uint kd 0 (kd_max cfg) 8;
  t_u ← float_to_uint torque_ff_nm (- tau_max cfg) (tau_max cfg) 8;
  py_bytes (mit_bytes p_u v_u kp_u kd_u t_u).

Definition spg_encode_impedance_command_frame (p : SPGActuatorProtocol)
    (position_rad velocity_rad_s kp kd torque_ff_nm : float) : res CANFrame :=
  payload ← _pack_mit_payload (mit_config p) position_rad velocity_rad_s kp kd torque_ff_nm;
  Ok {| can_id := command_id p; data := payload |}.

Definition spg_encode_torque_command_frame (p : SPGActuatorProtocol) (torque_nm : float) :
    res CANFrame :=
  payload ← _pack_mit_payload (mit_config p) 0 0 0 0 torque_nm;
  Ok {| can_id := command_id p; data := payload |}.

(** [offset_raw.to_bytes(2, "little", signed=True)] after its range test *)
Definition _pack_mit_set_zero_payload (offset_deg : float) : res bytes :=
  offset_raw ← round_half_away_from_zero (offset_deg * 100)%float;
  if negb ((-32768 <=? offset_raw) && (offset_raw <=? 32767)) then Raise ValueError
  else py_bytes ([CMD_MIT_SET_ZERO; 0; 0; 0; 0; 0] ++ le_encode 2 offset_raw).

Definition encode_mit_set_zero_frame (p : SPGActuatorProtocol) (offset_deg : float) :
    res CANFrame :=
  payload ← _pack_mit_set_zero_payload offset_deg;
  Ok {| can_id := command_id p; data := payload |}.

Definition spg_encode_zero_position_frame (p : SPGActuatorProtocol) (offset_deg : float) :
    res CANFrame := encode_mit_set_zero_frame p offset_deg.

Definition encode_write_mit_params_frame (p : SPGActuatorProtocol) (v_max tau_max : Z)
    (kt_input_nm_per_a ratio : float) : res CANFrame :=
  if negb ((0 <=? v_max) && (v_max <=? 255)) then Raise ValueError
  else if negb ((0 <=? tau_max) && (tau_max <=? 255)) then Raise ValueError
  else
    kt_raw ← round_half_away_from_zero (kt_input_nm_per_a * 1000)%float;
    gear_ratio_raw ← round_half_away_from_zero (ratio * 100)%float;
    if negb ((0 <=? kt_raw) && (kt_raw <=? 0xFFFF)) then Raise ValueError
    else if negb ((0 <=? gear_ratio_raw) && (gear_ratio_raw <=? 0xFFFF)) then Raise ValueError
    else
      payload ← py_bytes ([CMD_WRITE_MIT_PARAMS; Z.land v_max 0xFF; Z.land tau_max 0xFF] ++
                          le_encode 2 kt_raw ++ le_encode 2 gear_ratio_raw ++ [0]);
      Ok {| can_id := command_id p; data := payload |}.

Definition encode_write_encoder_offset_frame (p : SPGActuatorProtocol) (offset_u16 : Z) :
    res CANFrame :=
  let offset_u16 := Z.land offset_u16 0xFFFF in
  payload ← py_bytes [CMD_WRITE_ENCODER_OFFSET; 0; 0; 0; 0; 0;
                      Z.land offset_u16 0xFF; Z.land (Z.shiftr offset_u16 8) 0xFF];
  Ok {| can_id := command_id p; data := payload |}.

Definition encode_set_current_position_as_rad_frame (p : SPGActuatorProtocol)
    (original_u16 : Z) (desired_rad : float) : res CANFrame :=
  let original_cnt := wrap_u14 original_u16 in
  desired_cnt ← rad_to_u14_count desired_rad;
  let offset_cnt := (desired_cnt - original_cnt) mod ENC_MOD in
  encode_write_encoder_offset_frame p offset_cnt.

#[export] Instance spg_protocol : ActuatorProtocol SPGActuatorProtocol := {
  rx_can_ids p := [feedback_id p];
  decode_frame := spg_decode_frame;
  encode_enable_frame := spg_encode_enable_frame;
  encode_disable_frame := spg_encode_disable_frame;
  encode_damping_frame _ := ActuatorProtocolBase.encode_damping_frame;
  encode_clear_fault_frame := spg_encode_clear_fault_frame;
  encode_zero_position_frame := spg_encode_zero_position_frame;
  encode_torque_command_frame := spg_encode_torque_command_frame;
  encode_velocity_command_frame _ := ActuatorProtocolBase.encode_velocity_command_frame;
  encode_position_command_frame _ := ActuatorProtocolBase.encode_position_command_frame;
  encode_impedance_command_frame := spg_encode_impedance_command_frame;
  encode_MIT_command_frame _ := ActuatorProtocolBase.encode_MIT_command_frame;
  encode_command_frame _ := ActuatorProtocolBase.encode_command_frame
}.

(** ** [actuator_specs.py], [calibration.py], [joint_map.py], [spg_actuator.py] *)

Record QHRR0ActuatorSpec := {
  spec_name : string;
  spec_can_id : Z;
  joint_index : Z;
  joint_name : string;
  sign : float;
  offset_rad : float;
  enabled : bool
}.

Definition can_id_order (specs : list QHRR0ActuatorSpec) : list Z := map spec_can_id specs.
Definition joint_names (specs : list QHRR0ActuatorSpec) : list string := map joint_name specs.

Definition apply_joint_calibration (position : float) (spec : QHRR0ActuatorSpec) : float :=
  (sign spec * position + offset_rad spec)%float.

Definition remove_joint_calibration (position : float) (spec : QHRR0ActuatorSpec) : res float :=
  py_div (position - offset_rad spec) (sign spec).

Definition create_spg_actuator_driver (spec : QHRR0ActuatorSpec) (cfg : SPGMITConfig)
    (feedback_timeout_s : float) (motor_side : bool) (iq : option float) :
    res (ActuatorDriver SPGActuatorProtocol) :=
  p ← spg_init (spec_can_id spec) (Some (spec_can_id spec)) (Some cfg) 1 motor_side true
        iq None 1;
  Ok (actuator_driver_init (spec_name spec) p feedback_timeout_s).

(** ** The protocol interface holds *)

Lemma ack_raw_keys cmd payload8 d :
  ack_raw cmd payload8 = Ok d → dict_wf (("cmd"%string, RInt cmd) :: d).
Proof.
  unfold ack_raw, unpack_h, unpack_H, byte_at.
  repeat case_match; intros; simplify_eq/=;
    apply (bool_decide_unpack _); vm_compute; exact I.
Qed.

Lemma bind_Ok_inv {A B} (m : res A) (f : A → res B) b :
  m ≫= f = Ok b → ∃ a, m = Ok a ∧ f a = Ok b.
Proof. apply res_bind_Ok. Qed.

(** Take a successful computation apart. *)
Ltac run_ok H :=
  repeat match type of H with
  | _ ≫= _ = Ok _ =>
      let a := fresh "a" in let Ha := fresh "Ha" in
      apply bind_Ok_inv in H as (a & Ha & H)
  | (if ?b then _ else _) = Ok _ => destruct b eqn:?; try discriminate H
  end.

Lemma fmap_Ok_inv {A B} (f : A → B) (m : res A) b :
  f <$> m = Ok b → ∃ a, m = Ok a ∧ b = f a.
Proof. destruct m; intros [= <-]. eauto. Qed.

#[export] Instance spg_protocol_laws : ActuatorProtocolLaws SPGActuatorProtocol.
Proof.
  split.
  - intros p now f Hf. cbn. unfold spg_decode_frame.
    destruct (Z.eqb_spec (can_id f) (feedback_id p)) as [E|]; [|done].
    exfalso. apply Hf. rewrite E. apply list_elem_of_here.
  - intros p now f st H. cbn in H. unfold spg_decode_frame in H.
    run_ok H; simplify_eq; apply fmap_Ok_inv in H as (s & H & [= ->]);
      unfold _decode_mit_status, _decode_encoder_data, _decode_mit_params,
        _decode_ack_like_frame in H; run_ok H; injection H as <-; cbn [raw];
      try (apply (bool_decide_unpack _); vm_compute; exact I); by eapply ack_raw_keys.
Qed.

(** ** Bit fields *)

Lemma land_F z : Z.land z 0x0F = z mod 16.
Proof. change 0x0F with (Z.ones 4). by rewrite Z.land_ones by lia. Qed.

Lemma wrap_u14_mod z : wrap_u14 z = z mod ENC_MOD.
Proof. unfold wrap_u14. change 0x3FFF with (Z.ones 14). by rewrite Z.land_ones by lia. Qed.

Lemma wrap_u14_bound z : 0 ≤ wrap_u14 z < ENC_MOD.
Proof. rewrite wrap_u14_mod. apply Z.mod_pos_bound. done. Qed.

Lemma lor_nibbles a b : 0 ≤ a → 0 ≤ b < 16 → Z.lor (Z.shiftl a 4) b = a * 16 + b.
Proof.
  intros Ha Hb. rewrite Z.shiftl_mul_pow2 by lia. change 16 with (2 ^ 4) in Hb |- *.
  assert (Z.land (a * 2 ^ 4) b = 0) as E.
  { apply Z.bits_inj_iff'. intros n Hn. rewrite Z.land_spec, Z.bits_0.
    destruct (Z.lt_ge_cases n 4); [by rewrite Z.mul_pow2_bits_low|].
    rewrite <- (Z.mod_small b (2 ^ 4)) by done.
    by rewrite Z.mod_pow2_bits_high, andb_false_r by lia. }
  pose proof (Z.add_lor_land (a * 2 ^ 4) b). lia.
Qed.

Lemma div_mod_join z m k : 0 < m → 0 < k → (z / m) mod k * m + z mod m = z mod (m * k).
Proof. intros. rewrite Z.rem_mul_r by lia. lia. Qed.

(** The fields a MIT command is read back as: opcode, position, velocity, kp,
    kd, torque. *)
Definition mit_fields (d : bytes) : option (Z * Z * Z * Z * Z * Z) :=
  match d with
  | [c; p1; p0; v1; vk; k0; kd; t] =>
      Some (c, p1 * 256 + p0, v1 * 16 + vk / 16, vk mod 16 * 256 + k0, kd, t)
  | _ => None
  end.

Lemma mit_fields_bytes p v kp kd t :
  wf_bytes (mit_bytes p v kp kd t) ∧
  mit_fields (mit_bytes p v kp kd t) =
    Some (CMD_MIT_CONTROL, p mod 2 ^ 16, v mod 2 ^ 12, kp mod 2 ^ 12, kd mod 2 ^ 8,
          t mod 2 ^ 8).
Proof.
  unfold mit_bytes. rewrite !land_255, !land_F, !shiftr_8, Z.shiftr_div_pow2 by lia.
  change (2 ^ 4) with 16.
  rewrite lor_nibbles by (apply Z.mod_pos_bound; lia).
  pose proof (Z.mod_pos_bound (kp / 256) 16). pose proof (Z.mod_pos_bound v 16).
  split.
  - repeat constructor; try (apply Z.mod_pos_bound; lia); unfold is_byte; try lia.
    all: unfold CMD_MIT_CONTROL; lia.
  - cbn [mit_fields].
    rewrite Z.div_add_l, (Z.div_small ((kp / 256) mod 16)), Z.add_0_r by lia.
    rewrite (Z.add_comm (v mod 16 * 16)), Z.mod_add, (Z.mod_small ((kp / 256) mod 16)) by lia.
    rewrite !div_mod_join by lia. done.
Qed.

(** ** A code that is computed comes from a number inside its range *)

Lemma float_to_uint_Ok x lo hi bits n :
  float_to_uint x lo hi bits = Ok n →
  (lo <=? x)%float = true ∧ (x <=? hi)%float = true.
Proof.
  unfold float_to_uint, require_range, py_div, round_half_away_from_zero. intros H.
  destruct ((x <? lo)%float || (hi <? x)%float) eqn:Hr; [done|].
  apply orb_false_iff in Hr as [Hlo Hhi]. cbn [mbind res_bind] in H.
  destruct (_ =? 0)%float; [done|]. cbn [mbind res_bind] in H.
  assert (not_nan ((x - lo) * Z2F (Z.shiftl 1 bits - 1) / (hi - lo))%float) as Hq.
  { destruct (0 <=? _)%float.
    - eapply add_not_nan_l, py_floor_not_nan, H.
    - apply fmap_Ok_inv in H as (m & H & _). apply py_floor_not_nan in H.
      by eapply sub_not_nan_l, opp_not_nan. }
  pose proof (div_not_nan_l _ _ Hq) as Hm%mul_not_nan_l.
  pose proof (div_not_nan_r _ _ Hq) as Hs.
  split; apply ltb_false_leb; try done.
  - by eapply sub_not_nan_l.
  - by eapply sub_not_nan_r.
  - by eapply sub_not_nan_l.
  - by eapply sub_not_nan_l.
Qed.

(** [float_to_uint]'s argument lies between its bounds. *)
Definition in_range (x lo hi : float) : Prop :=
  (lo <=? x)%float = true ∧ (x <=? hi)%float = true.

(** ** Properties *)



(** ** Zero offsets in hundredths of a degree *)

(** [0.01] does not divide exactly, so that [i * 0.01 * 100.0] rounds back to
    [i] is checked for every 16-bit count, with float comparisons only. *)
Definition count_ok (x nx : float) : bool :=
  let c := (x * 0.01 * 100)%float in
  (0 <=? c)%float && (x <=? c + 0.5)%float && (c + 0.5 <? nx)%float.

Definition neg_count_ok (x nx : float) : bool :=
  let c := (- x * 0.01 * 100)%float in
  negb (0 <=? c)%float && (x <=? - (c - 0.5))%float && (- (c - 0.5) <? nx)%float.

(** [check k i] tests the [2^k] numbers whose leading bits are [i]. *)
Fixpoint check_counts (k : nat) (i : int) : bool :=
  match k with
  | O => count_ok (PrimFloat.of_uint63 i) (PrimFloat.of_uint63 (i + 1)) &&
         neg_count_ok (PrimFloat.of_uint63 (i + 1)) (PrimFloat.of_uint63 (i + 2))
  | S k => check_counts k (2 * i)%uint63 && check_counts k (2 * i + 1)%uint63
  end.

Lemma check_counts_all : check_counts 15 0 = true.
Proof. vm_compute. reflexivity. Qed.

Lemma Z2F_of_uint63 i : PrimFloat.of_uint63 i = Z2F (Uint63.to_Z i).
Proof. unfold Z2F. rewrite <- of_uint63_spec. symmetry. apply SF2Prim_Prim2SF. Qed.

Lemma check_counts_sound k : ∀ i n,
  check_counts k i = true → (Uint63.to_Z i + 1) * 2 ^ Z.of_nat k ≤ 2 ^ 16 →
  Uint63.to_Z i * 2 ^ Z.of_nat k ≤ n < (Uint63.to_Z i + 1) * 2 ^ Z.of_nat k →
  count_ok (Z2F n) (Z2F (n + 1)) = true ∧
  neg_count_ok (Z2F (n + 1)) (Z2F (n + 2)) = true.
Proof.
  induction k as [|k IH]; intros i n H Hb Hn; cbn [check_counts] in H;
    apply andb_true_iff in H as [H1 H2]; pose proof (Uint63.to_Z_bounded i) as Hi.
  - change (2 ^ Z.of_nat 0) with 1 in Hn, Hb. assert (n = Uint63.to_Z i) as -> by lia.
    assert (∀ c, 0 ≤ Uint63.to_Z c < 3 → Uint63.to_Z (i + c) = Uint63.to_Z i + Uint63.to_Z c)
      as Hadd.
    { intros c Hc. rewrite Uint63.add_spec. apply Z.mod_small.
      change wB with (2 ^ 63). lia. }
    rewrite !Z2F_of_uint63, (Hadd 1%uint63) in H1 by (vm_compute; split; congruence).
    rewrite !Z2F_of_uint63, (Hadd 1%uint63), (Hadd 2%uint63) in H2
      by (vm_compute; split; congruence).
    by split.
  - rewrite Nat2Z.inj_succ, Z.pow_succ_r in Hn, Hb by lia.
    assert (0 < 2 ^ Z.of_nat k) by (apply Z.pow_pos_nonneg; lia).
    assert (Uint63.to_Z (2 * i)%uint63 = 2 * Uint63.to_Z i) as Hd.
    { rewrite Uint63.mul_spec. apply Z.mod_small. change (Uint63.to_Z 2) with 2.
      change wB with (2 ^ 63). nia. }
    assert (Uint63.to_Z (2 * i + 1)%uint63 = 2 * Uint63.to_Z i + 1) as Hd1.
    { rewrite Uint63.add_spec, Hd. apply Z.mod_small. change (Uint63.to_Z 1) with 1.
      change wB with (2 ^ 63). nia. }
    destruct (Z.lt_ge_cases n ((2 * Uint63.to_Z i + 1) * 2 ^ Z.of_nat k)).
    + apply (IH _ _ H1); rewrite Hd; nia.
    + apply (IH _ _ H2); rewrite Hd1; nia.
Qed.

Lemma counts_ok n : 0 ≤ n < 32768 →
  count_ok (Z2F n) (Z2F (n + 1)) = true ∧ neg_count_ok (Z2F (n + 1)) (Z2F (n + 2)) = true.
Proof.
  intros Hn. apply (check_counts_sound 15 0 n check_counts_all); change (Uint63.to_Z 0) with 0;
    vm_compute Z.pow; lia.
Qed.

Lemma binary_round_opp p : binary_round prec emax true p 0 = SFopp (binary_round prec emax false p 0).
Proof.
  unfold binary_round. destruct (shl_align _ _ _) as [m e]. unfold binary_round_aux.
  destruct (shr_fexp _ _ _ _ _) as [r e']. destruct (shr_fexp _ _ _ _ _) as [r' e''].
  destruct (shr_m r') as [|q|q]; [done| |done]. by destruct (_ <=? _).
Qed.

Lemma Z2F_opp n : 0 < n < 2 ^ 53 → Z2F (- n) = (- Z2F n)%float.
Proof.
  intros Hn. destruct n as [|p|p]; try lia. cbn [Z.opp].
  destruct (binary_round_small false p ltac:(lia)) as (m & e & E & Hv & _).
  apply Prim2SF_inj. rewrite opp_spec. unfold Z2F.
  change (binary_normalize prec emax (- Zpos p) 0 false) with (binary_round prec emax true p 0).
  change (binary_normalize prec emax (Zpos p) 0 false) with (binary_round prec emax false p 0).
  rewrite binary_round_opp, E. rewrite (Prim2SF_SF2Prim (S754_finite false m e)) by done.
  by apply Prim2SF_SF2Prim.
Qed.

Lemma opp_involutive x : (- - x)%float = x.
Proof.
  apply Prim2SF_inj. rewrite !opp_spec. destruct (Prim2SF x) as [[]|[]| |[]]; done.
Qed.

(** Every 16-bit count survives the scaling to degrees and back. *)
Lemma round_scaled_count z :
  -32768 ≤ z ≤ 32767 → round_half_away_from_zero (Z2F z * 0.01 * 100)%float = Ok z.
Proof.
  intros Hz. unfold round_half_away_from_zero. destruct (Z.lt_ge_cases z 0) as [Hneg|Hpos].
  - destruct (counts_ok (- z - 1) ltac:(lia)) as [_ H]. unfold neg_count_ok in H.
    replace (- z - 1 + 1) with (- z) in H by lia. replace (- z - 1 + 2) with (- z + 1) in H by lia.
    apply andb_true_iff in H as [[H1 H2]%andb_true_iff H3]. apply negb_true_iff in H1.
    assert (Z2F z = (- Z2F (- z))%float) as E.
    { rewrite <- Z2F_opp by (simpl; lia). f_equal. lia. }
    rewrite E, H1. unfold py_ceil.
    rewrite (py_floor_between (- z)); [|simpl; lia|done|done].
    cbn [fmap res_fmap]. f_equal. lia.
  - destruct (counts_ok z ltac:(lia)) as [H _]. unfold count_ok in H.
    apply andb_true_iff in H as [[-> H2]%andb_true_iff H3].
    apply py_floor_between; [simpl; lia|done|done].
Qed.

Lemma le_decode_signed z :
  -32768 ≤ z ≤ 32767 → to_signed 16 (le_decode (le_encode 2 z)) = z.
Proof. intros. rewrite le_decode_encode. apply to_signed_mod; simpl; lia. Qed.

(** What an echoed set-zero payload is decoded to. *)
Lemma decode_zero_ack p now z :
  -32768 ≤ z ≤ 32767 →
  decode_frame p now {| can_id := feedback_id p;
                        data := [CMD_MIT_SET_ZERO; 0; 0; 0; 0; 0] ++ le_encode 2 z |} =
    Ok (Some {| position_rad := None; velocity_rad_s := None; torque_nm := None;
                current_a := None; temperature_c := None; voltage_v := None;
                fault_code := None; is_enabled := None;
                as_mode := Some "MIT_SET_ZERO_ACK"%string; last_feedback_t := now;
                raw := [("cmd"%string, RInt CMD_MIT_SET_ZERO); ("offset_i16"%string, RInt z);
                        ("offset_deg"%string, RFloat (Z2F z * 0.01));
                        ("offset_rad"%string, RFloat (math_radians (Z2F z * 0.01)))] |}).
Proof.
  intros Hz. pose proof (le_decode_signed z Hz) as Hd.
  cbn [decode_frame spg_protocol]. unfold spg_decode_frame. cbn [can_id data].
  rewrite Z.eqb_refl. cbn [negb].
  set (l := le_encode 2 z) in *. assert (length l = 2%nat) as Hl by apply length_le_encode.
  assert (unpack_h l = Ok z) as Hu by (unfold unpack_h; rewrite Hl, Hd; done).
  destruct l as [|b0 [|b1 [|]]]; try done.
  cbn -[unpack_h]. unfold _decode_ack_like_frame. cbn -[unpack_h]. by rewrite Hu.
Qed.

(** The set-zero frame of an offset that rounds to the count [z]. *)
Lemma encode_zero_offset (p : SPGActuatorProtocol) offset_deg z :
  round_half_away_from_zero (offset_deg * 100)%float = Ok z →
  encode_zero_position_frame p offset_deg =
    if (-32768 <=? z) && (z <=? 32767)
    then Ok {| can_id := command_id p;
               data := [CMD_MIT_SET_ZERO; 0; 0; 0; 0; 0] ++ le_encode 2 z |}
    else Raise ValueError.
Proof.
  intros Hz. cbn [encode_zero_position_frame spg_protocol].
  unfold spg_encode_zero_position_frame, encode_mit_set_zero_frame, _pack_mit_set_zero_payload.
  rewrite Hz. cbn [mbind res_bind].
  destruct ((-32768 <=? z) && (z <=? 32767)); cbn [negb mbind res_bind]; [|done].
  rewrite py_bytes_Ok; [done|]. apply Forall_app_2; [|apply wf_le_encode].
  repeat constructor; unfold is_byte; unfold CMD_MIT_SET_ZERO; lia.
Qed.

Lemma encode_zero_count (p : SPGActuatorProtocol) z :
  -32768 ≤ z ≤ 32767 →
  encode_zero_position_frame p (Z2F z * 0.01)%float =
    Ok {| can_id := command_id p; data := [CMD_MIT_SET_ZERO; 0; 0; 0; 0; 0] ++ le_encode 2 z |}.
Proof.
  intros Hz. rewrite (encode_zero_offset p _ z) by by apply round_scaled_count.
  by rewrite (proj2 (Z.leb_le (-32768) z)), (proj2 (Z.leb_le z 32767)) by lia.
Qed.

(** Zero offsets. A set-zero command is built exactly when [offset_deg * 100]
    rounds to a 16-bit count, and its echo decodes to that count; and every count
    is reachable: the offset an acknowledgement reports, sent again, encodes the
    same count, for all 65536 of them. *)
Theorem zero_offset_roundtrip (p : SPGActuatorProtocol) (now : float) :
  (∀ offset_deg z,
     round_half_away_from_zero (offset_deg * 100)%float = Ok z →
     encode_zero_position_frame p offset_deg =
       if (-32768 <=? z) && (z <=? 32767)
       then Ok {| can_id := command_id p;
                  data := [CMD_MIT_SET_ZERO; 0; 0; 0; 0; 0] ++ le_encode 2 z |}
       else Raise ValueError) ∧
  (∀ z, -32768 ≤ z ≤ 32767 →
     ∃ f st,
       encode_zero_position_frame p (Z2F z * 0.01)%float = Ok f ∧
       decode_frame p now {| can_id := feedback_id p; data := data f |} = Ok (Some st) ∧
       dict_get "offset_i16" (raw st) = Some (RInt z) ∧
       dict_get "offset_deg" (raw st) = Some (RFloat (Z2F z * 0.01)%float)).
Proof.
  split; [intros; by apply encode_zero_offset|]. intros z Hz. rewrite encode_zero_count by done.
  do 2 eexists. split; [reflexivity|]. cbn [data]. split; [by apply decode_zero_ack|done].
Qed.

Definition example_spg : SPGActuatorProtocol :=
  {| command_id := 0x141; feedback_id := 0x141; mit_config := SPGMITConfig_default;
     gear_ratio := 1; feedback_speed_is_motor_side := true; expose_single_turn_position := true;
     iq_count_to_amp := None; torque_constant_nm_per_a := None; gear_efficiency := 1 |}.

Lemma zero_offset_roundtrip_witness :
  ∃ f st,
    encode_zero_position_frame example_spg (Z2F (-12345) * 0.01)%float = Ok f ∧
    decode_frame example_spg 1%float {| can_id := 0x141; data := data f |} = Ok (Some st) ∧
    dict_get "offset_i16" (raw st) = Some (RInt (-12345)) ∧
    dict_get "offset_deg" (raw st) = Some (RFloat (Z2F (-12345) * 0.01)%float).
Proof.
  apply (proj2 (zero_offset_roundtrip example_spg 1%float) (-12345)). lia.
Defined.

(** ** Encoder counts *)

(** Shortest encoder difference. For any two counts, the result is congruent
    to their difference modulo one turn, lies within half a turn, and no other
    congruent number is closer to zero; exchanging the counts negates it. *)
Theorem shortest_delta_minimal curr prev :
  let delta := shortest_delta_u14 curr prev in
  (delta - (curr - prev)) mod ENC_MOD = 0 ∧
  - ENC_HALF ≤ delta ≤ ENC_HALF ∧
  (∀ k, Z.abs delta ≤ Z.abs (delta + k * ENC_MOD)) ∧
  shortest_delta_u14 prev curr = - delta.
Proof.
  cbv zeta. unfold shortest_delta_u14.
  pose proof (wrap_u14_bound curr) as Hc. pose proof (wrap_u14_bound prev) as Hp.
  assert ((wrap_u14 curr - wrap_u14 prev - (curr - prev)) mod ENC_MOD = 0) as Hm.
  { rewrite !wrap_u14_mod. rewrite (Z.mod_eq curr), (Z.mod_eq prev) by done.
    replace (_ - _ - _) with ((prev / ENC_MOD - curr / ENC_MOD) * ENC_MOD) by lia.
    by apply Z.mod_mul. }
  apply Z.mod_divide in Hm as [q Hq]; [|done].
  set (c := wrap_u14 curr) in *. set (d := wrap_u14 prev) in *.
  change (- ENC_HALF) with (-8192). change ENC_HALF with 8192. unfold ENC_MOD in *.
  split_and!.
  - apply Z.mod_divide; [done|].
    destruct (8192 <? c - d); [exists (q - 1); lia|].
    destruct (c - d <? -8192); [exists (q + 1); lia|exists q; lia].
  - destruct (Z.ltb_spec 8192 (c - d)), (Z.ltb_spec (c - d) (-8192)); lia.
  - destruct (Z.ltb_spec 8192 (c - d)), (Z.ltb_spec (c - d) (-8192)); lia.
  - intros k. destruct (Z.ltb_spec 8192 (c - d)), (Z.ltb_spec (c - d) (-8192)); nia.
  - destruct (Z.ltb_spec 8192 (c - d)), (Z.ltb_spec (c - d) (-8192)),
      (Z.ltb_spec 8192 (d - c)), (Z.ltb_spec (d - c) (-8192)); lia.
Qed.

(** Setting the encoder position. When the desired angle converts to a count,
    the write-offset frame is built, its echo decodes to the same offset, and
    that offset added to the original count gives the desired count. *)
Theorem set_position_offset (p : SPGActuatorProtocol) (now : float) (original_u16 : Z)
    (desired_rad : float) (desired_cnt : Z) :
  rad_to_u14_count desired_rad = Ok desired_cnt →
  ∃ f st offset,
    encode_set_current_position_as_rad_frame p original_u16 desired_rad = Ok f ∧
    can_id f = command_id p ∧
    decode_frame p now {| can_id := feedback_id p; data := data f |} = Ok (Some st) ∧
    dict_get "encoder_offset_u16" (raw st) = Some (RInt offset) ∧
    0 ≤ offset < ENC_MOD ∧
    wrap_u14 (original_u16 + offset) = desired_cnt.
Proof.
  intros Hd. unfold encode_set_current_position_as_rad_frame. rewrite Hd. cbn [mbind res_bind].
  assert (0 ≤ desired_cnt < ENC_MOD) as Hdb.
  { unfold rad_to_u14_count in Hd. run_ok Hd. injection Hd as <-. by apply Z.mod_pos_bound. }
  set (offset := (desired_cnt - wrap_u14 original_u16) mod ENC_MOD).
  assert (0 ≤ offset < ENC_MOD) as Ho by by apply Z.mod_pos_bound.
  unfold encode_write_encoder_offset_frame. change 0xFFFF with (Z.ones 16).
  change ENC_MOD with 16384 in Ho.
  rewrite Z.land_ones by lia. change (2 ^ 16) with 65536. rewrite (Z.mod_small offset) by lia.
  set (b0 := Z.land offset 0xFF). set (b1 := Z.land (Z.shiftr offset 8) 0xFF).
  assert (is_byte b0 ∧ is_byte b1 ∧ le_decode [b0; b1] = offset) as (Hb0 & Hb1 & Hv).
  { subst b0 b1. rewrite !land_255, shiftr_8. unfold is_byte.
    split_and!; try (apply Z.mod_pos_bound; lia). cbn [le_decode].
    rewrite (Z.mod_small (offset / 256)).
    - pose proof (Z.div_mod offset 256). lia.
    - split; [apply Z.div_pos|apply Z.div_lt_upper_bound]; lia. }
  rewrite py_bytes_Ok.
  2:{ repeat constructor; unfold is_byte in *; unfold CMD_WRITE_ENCODER_OFFSET; lia. }
  cbn [mbind res_bind].
  assert (unpack_H [b0; b1] = Ok offset) as Hu by (unfold unpack_H; by rewrite Hv).
  do 2 eexists. exists offset. split_and!; [reflexivity|done| | |lia|unfold ENC_MOD; lia|].
  - cbn [decode_frame spg_protocol data can_id]. unfold spg_decode_frame.
    cbn [can_id data]. rewrite Z.eqb_refl. cbn -[unpack_H].
    unfold _decode_ack_like_frame. cbn -[unpack_H]. rewrite Hu. reflexivity.
  - reflexivity.
  - rewrite wrap_u14_mod. unfold offset. rewrite wrap_u14_mod.
    rewrite Zplus_mod_idemp_r. rewrite Z.add_sub_assoc, Zminus_mod_idemp_r.
    replace (original_u16 + desired_cnt - original_u16) with desired_cnt by lia.
    by apply Z.mod_small.
Qed.

Lemma set_position_offset_witness :
  rad_to_u14_count (-1.5) = Ok 12473 ∧
  ∃ f st offset,
    encode_set_current_position_as_rad_frame example_spg 15000 (-1.5) = Ok f ∧
    can_id f = 0x141 ∧
    decode_frame example_spg 2%float {| can_id := 0x141; data := data f |} = Ok (Some st) ∧
    dict_get "encoder_offset_u16" (raw st) = Some (RInt offset) ∧
    0 ≤ offset < ENC_MOD ∧
    wrap_u14 (15000 + offset) = 12473.
Proof.
  assert (rad_to_u14_count (-1.5) = Ok 12473) as H by (vm_compute; reflexivity).
  split; [exact H|]. exact (set_position_offset example_spg 2%float 15000 (-1.5)%float 12473 H).
Defined.

(** ** MIT status feedback *)

(** The status frame the firmware sends for given readings. *)
Definition mit_status_bytes (temp iq speed pos : Z) : bytes :=
  [CMD_MIT_CONTROL; temp mod 256] ++ le_encode 2 iq ++ le_encode 2 speed ++ le_encode 2 pos.

Lemma parse_mit_status temp iq speed pos :
  -128 ≤ temp ≤ 127 → -32768 ≤ iq ≤ 32767 → -32768 ≤ speed ≤ 32767 → -32768 ≤ pos ≤ 32767 →
  _parse_mit_status_v14 (mit_status_bytes temp iq speed pos) =
    Ok {| st_temp_c := temp; iq_counts := iq; speed_dps := speed; mit_position_i16 := pos |}.
Proof.
  intros Ht Hi Hs Hp. pose proof (le_decode_signed iq Hi) as Ei.
  pose proof (le_decode_signed speed Hs) as Es. pose proof (le_decode_signed pos Hp) as Ep.
  assert (to_signed 8 (temp mod 256) = temp) as Et.
  { change 256 with (2 ^ 8). apply to_signed_mod; simpl; lia. }
  unfold mit_status_bytes, _parse_mit_status_v14.
  pose proof (length_le_encode 2 iq). pose proof (length_le_encode 2 speed).
  pose proof (length_le_encode 2 pos).
  destruct (le_encode 2 iq) as [|i0 [|i1 [|]]], (le_encode 2 speed) as [|s0 [|s1 [|]]],
    (le_encode 2 pos) as [|p0 [|p1 [|]]]; try done.
  cbn -[to_signed le_decode Z.modulo]. unfold unpack_b, unpack_h.
  cbn -[to_signed le_decode Z.modulo]. rewrite Ei, Es, Ep. cbn [le_decode].
  by rewrite Z.mul_0_r, Z.add_0_r, Et.
Qed.

(** C11: MIT feedback. For every reading the firmware can send, the status frame
    updates the actuator state with exactly those readings: the temperature, the
    raw counts, the position scaled by 1/32767 of the configured range, and the
    speed in rad/s, divided by the gear ratio when it is motor-side; a frame of
    this opcode with a length other than 8 is an error. *)
Theorem mit_feedback_decodes (p : SPGActuatorProtocol) now temp iq speed pos (bad : bytes) :
  -128 ≤ temp ≤ 127 → -32768 ≤ iq ≤ 32767 → -32768 ≤ speed ≤ 32767 → -32768 ≤ pos ≤ 32767 →
  (gear_ratio p =? 0)%float = false → length bad ≠ 8%nat →
  decode_frame p now {| can_id := feedback_id p; data := bad |} = Raise ValueError ∧
  ∃ st,
    decode_frame p now {| can_id := feedback_id p; data := mit_status_bytes temp iq speed pos |}
      = Ok (Some st) ∧
    temperature_c st = Some (Z2F temp) ∧
    velocity_rad_s st = Some (if feedback_speed_is_motor_side p
                              then math_radians (Z2F speed) / gear_ratio p
                              else math_radians (Z2F speed))%float ∧
    position_rad st =
      (if expose_single_turn_position p
       then Some (Z2F pos / 32767 * feedback_position_max (mit_config p))%float else None) ∧
    current_a st = (λ k, (Z2F iq * k)%float) <$> iq_count_to_amp p ∧
    last_feedback_t st = now ∧ is_enabled st = None ∧ fault_code st = None ∧
    dict_get "iq_counts" (raw st) = Some (RInt iq) ∧
    dict_get "speed_dps" (raw st) = Some (RInt speed) ∧
    dict_get "mit_position_i16" (raw st) = Some (RInt pos).
Proof.
  intros Ht Hi Hs Hp Hg Hb.
  cbn [decode_frame spg_protocol]. unfold spg_decode_frame. cbn [can_id data].
  rewrite Z.eqb_refl. cbn [negb].
  split; [by rewrite (proj2 (Nat.eqb_neq _ _))|].
  assert (length (mit_status_bytes temp iq speed pos) = 8%nat) as ->.
  { unfold mit_status_bytes. by rewrite !length_app, !length_le_encode. }
  cbn [Nat.eqb negb]. change (byte_at 0 (mit_status_bytes temp iq speed pos))
    with (Ok CMD_MIT_CONTROL : res Z). cbn [mbind res_bind]. rewrite Z.eqb_refl.
  unfold _decode_mit_status. rewrite parse_mit_status by done. cbn [mbind res_bind].
  unfold py_div. cbn [speed_dps]. rewrite Hg.
  destruct (feedback_speed_is_motor_side p); eexists; split; try reflexivity;
    split_and!; reflexivity.
Qed.

Lemma mit_feedback_decodes_witness :
  ∃ st,
    decode_frame example_spg 3%float
      {| can_id := 0x141; data := mit_status_bytes 31 (-200) 90 (-16384) |} = Ok (Some st) ∧
    temperature_c st = Some 31%float ∧ dict_get "iq_counts" (raw st) = Some (RInt (-200)).
Proof.
  destruct (mit_feedback_decodes example_spg 3%float 31 (-200) 90 (-16384) []
    ltac:(lia) ltac:(lia) ltac:(lia) ltac:(lia) ltac:(vm_compute; reflexivity) ltac:(done))
    as (_ & st & H1 & H2 & _ & _ & _ & _ & _ & _ & H3 & _).
  exists st. split; [exact H1|]. split; [exact H2|exact H3].
Defined.

