(* ===== verification/ControlCommand.v ===== *)
(** * The policy and gamepad segments

    [robot_controller/shm/control_command.py] and [aux_command.py]: the targets
    a policy process writes for the controller, and the gamepad state the aux
    reader writes for the policy. A [c_float] field is the pattern it stores;
    [f32_value] is the float Python reads from it. *)

From S2P Require Import Prelude PyFloat PyDict CStruct.

(** ** control_command.py *)

Definition MAX_CONTROL_TARGETS : nat := 12.

Record ControlTargetC := {
  ct_can_id : Z; ct_q : Z; ct_dq : Z; ct_kp : Z; ct_kd : Z; ct_tau : Z }.

Definition ControlTargetC_new : ControlTargetC :=
  {| ct_can_id := 0; ct_q := 0; ct_dq := 0; ct_kp := 0; ct_kd := 0; ct_tau := 0 |}.

#[export] Instance ControlTargetC_struct : CStruct ControlTargetC := {
  field_sizes := [4; 4; 4; 4; 4; 4]%nat;
  to_words t := [ct_can_id t; ct_q t; ct_dq t; ct_kp t; ct_kd t; ct_tau t];
  of_words ws :=
    match ws with
    | [a; b; c; d; e; f] =>
        {| ct_can_id := a; ct_q := b; ct_dq := c; ct_kp := d; ct_kd := e; ct_tau := f |}
    | _ => ControlTargetC_new
    end;
  cs_wf t := Forall (λ z, 0 ≤ z < 2 ^ 32)
    [ct_can_id t; ct_q t; ct_dq t; ct_kp t; ct_kd t; ct_tau t]
}.

#[export] Instance ControlTargetC_laws : CStructLaws ControlTargetC.
Proof.
  split; intros [] H; [|done]. unfold cs_wf in H. cbn in H.
  rewrite !Forall_cons in H. repeat constructor; simpl in *; lia.
Qed.

Record ControlCommandC := {
  cc_timestamp_ns : Z; cc_num_targets : Z; cc_targets : list ControlTargetC }.

Record wf_control_command (c : ControlCommandC) : Prop := {
  wcc_timestamp : 0 ≤ cc_timestamp_ns c < 2 ^ 64;
  wcc_num : 0 ≤ cc_num_targets c < 2 ^ 32;
  wcc_length : length (cc_targets c) = MAX_CONTROL_TARGETS;
  wcc_targets : Forall cs_wf (cc_targets c)
}.

#[export] Instance ControlCommandC_struct : CStruct ControlCommandC := {
  field_sizes := [8; 4]%nat ++ array_sizes ControlTargetC MAX_CONTROL_TARGETS;
  to_words c := [cc_timestamp_ns c; cc_num_targets c] ++ array_words (cc_targets c);
  of_words ws :=
    {| cc_timestamp_ns := nth 0 ws 0; cc_num_targets := nth 1 ws 0;
       cc_targets := array_of_words MAX_CONTROL_TARGETS (drop 2 ws) |};
  cs_wf := wf_control_command
}.

#[export] Instance ControlCommandC_laws : CStructLaws ControlCommandC.
Proof.
  split; intros c []; cbn [field_sizes to_words of_words ControlCommandC_struct].
  - apply Forall2_app; [repeat constructor; simpl; lia|]. by apply array_words_range.
  - destruct c as [ts n l]. cbn in wcc_length0, wcc_targets0. cbn [cc_targets cc_timestamp_ns
      cc_num_targets app nth drop]. f_equal.
    rewrite <- wcc_length0, <- (app_nil_r (array_words l)). by apply array_of_array_words.
Qed.

Lemma CONTROL_COMMAND_SIZE_value : sizeof ControlCommandC = 300%nat.
Proof. reflexivity. Qed.

(** [class ControlTarget] *)
Record ControlTarget := {
  t_can_id : Z; t_q : float; t_dq : float; t_kp : float; t_kd : float; t_tau : float }.

(** One iteration of [write_targets]. *)
Definition store_target (t : ControlTarget) : ControlTargetC :=
  {| ct_can_id := c_uint 32 (t_can_id t); ct_q := c_float (t_q t); ct_dq := c_float (t_dq t);
     ct_kp := c_float (t_kp t); ct_kd := c_float (t_kd t); ct_tau := c_float (t_tau t) |}.

Module ControlCommandShm.
Definition init := wrapper_init ControlCommandC RuntimeError.
Definition open_reader := wrapper_open ControlCommandC RuntimeError.
Definition open_writer := wrapper_open ControlCommandC RuntimeError.
Definition create := wrapper_create ControlCommandC RuntimeError.
Definition close := wrapper_close.
Definition unlink := wrapper_unlink.
Definition clear := wrapper_clear.
Definition read_relaxed := wrapper_read ControlCommandC.
Definition write := wrapper_write ControlCommandC.

Definition targets_command (now_ns : Z) (targets : list ControlTarget) : ControlCommandC :=
  {| cc_timestamp_ns := c_uint 64 now_ns; cc_num_targets := Z.of_nat (length targets);
     cc_targets := pad_array MAX_CONTROL_TARGETS ControlTargetC_new
                     (map store_target targets) |}.

(** [write_targets(targets)]; [now_ns] is [time.time_ns()]. *)
Definition write_targets (now_ns : Z) (o : ShmObj) (targets : list ControlTarget) :
    ST ShmFs unit :=
  if (MAX_CONTROL_TARGETS <? length targets)%nat then raise ValueError
  else write o (targets_command now_ns targets).
End ControlCommandShm.

(** The command the controller reads back, target by target. *)
Definition load_target (t : ControlTargetC) : ControlTarget :=
  {| t_can_id := ct_can_id t; t_q := f32_value (ct_q t); t_dq := f32_value (ct_dq t);
     t_kp := f32_value (ct_kp t); t_kd := f32_value (ct_kd t); t_tau := f32_value (ct_tau t) |}.

Lemma c_float_range x : 0 ≤ c_float x < 2 ^ 32.
Proof. by apply Z.mod_pos_bound. Qed.

Lemma c_double_range x : 0 ≤ c_double x < 2 ^ 64.
Proof. by apply Z.mod_pos_bound. Qed.

Lemma store_target_wf t : cs_wf (store_target t).
Proof.
  cbn. repeat (apply Forall_cons_2; [first [apply c_float_range|by apply (c_uint_range 32)]|]).
  constructor.
Qed.

Lemma targets_command_wf now_ns targets :
  (length targets ≤ MAX_CONTROL_TARGETS)%nat →
  wf_control_command (ControlCommandShm.targets_command now_ns targets).
Proof.
  intros Hl. split; unfold ControlCommandShm.targets_command;
    cbn [cc_timestamp_ns cc_num_targets cc_targets].
  - by apply (c_uint_range 64).
  - unfold MAX_CONTROL_TARGETS in Hl. lia.
  - apply length_pad_array. by rewrite length_map.
  - apply Forall_pad_array.
    { cbn. rewrite !Forall_cons. split_and!; try lia. constructor. }
    clear Hl. induction targets; constructor; [apply store_target_wf|done].
Qed.

(** What is written is read back rounded, with the segment ready as before. *)
Definition rounded_target (t : ControlTarget) : ControlTarget :=
  {| t_can_id := t_can_id t mod 2 ^ 32; t_q := binary32 (t_q t); t_dq := binary32 (t_dq t);
     t_kp := binary32 (t_kp t); t_kd := binary32 (t_kd t); t_tau := binary32 (t_tau t) |}.

Lemma write_targets_read fs (o1 o2 : ShmObj) (now_ns : Z) (ts : list ControlTarget) :
  shm_ready ControlCommandC fs o1 → so_handle o1 = so_handle o2 →
  (length ts ≤ MAX_CONTROL_TARGETS)%nat →
  ∃ fs' c,
    ControlCommandShm.write_targets now_ns o1 ts fs = (Ok (), fs') ∧
    ControlCommandShm.read_relaxed o2 fs' = (Ok c, fs') ∧
    cc_num_targets c = Z.of_nat (length ts) ∧
    map load_target (take (Z.to_nat (cc_num_targets c)) (cc_targets c)) = map rounded_target ts.
Proof.
  intros Hr Ho Hl. unfold ControlCommandShm.write_targets.
  rewrite (proj2 (Nat.ltb_ge _ _)) by done.
  destruct (write_then_read fs o1 o2 (ControlCommandShm.targets_command now_ns ts))
    as (fs' & Hw & _ & Hrd); [by apply targets_command_wf|done|done|].
  exists fs'. eexists. split_and!; [exact Hw|exact Hrd|done|].
  cbn [cc_num_targets cc_targets ControlCommandShm.targets_command].
  rewrite Nat2Z.id. rewrite <- (length_map store_target ts) at 1.
  by rewrite take_pad_array, map_map.
Qed.

(** C13: Policy commands. Up to twelve targets written by a policy are read by the
    controller in order, identifiers modulo 2^32 and every number rounded to the
    nearest binary32, with the count of the valid ones; more than twelve raise and
    leave the previous command in place. *)
Theorem control_command_delivery fs (o1 o2 : ShmObj) (now_ns : Z) (ts : list ControlTarget) :
  shm_ready ControlCommandC fs o1 → so_handle o1 = so_handle o2 →
  ((length ts ≤ MAX_CONTROL_TARGETS)%nat →
     ∃ fs' c,
       ControlCommandShm.write_targets now_ns o1 ts fs = (Ok (), fs') ∧
       ControlCommandShm.read_relaxed o2 fs' = (Ok c, fs') ∧
       cc_num_targets c = Z.of_nat (length ts) ∧
       map load_target (take (Z.to_nat (cc_num_targets c)) (cc_targets c)) =
         map rounded_target ts) ∧
  ((MAX_CONTROL_TARGETS < length ts)%nat →
     ControlCommandShm.write_targets now_ns o1 ts fs = (Raise ValueError, fs)).
Proof.
  intros Hr Ho. split; intros Hl; [by eapply write_targets_read|].
  unfold ControlCommandShm.write_targets. by rewrite (proj2 (Nat.ltb_lt _ _)).
Qed.

Lemma control_command_delivery_witness :
  let o := {| so_name := "cmd"%string; so_handle := Some 0%nat |} in
  let fs := {| shm_names := ∅; shm_objects := {[0%nat := replicate 300 0]}; shm_next := 1 |} in
  let t := {| t_can_id := 0x141; t_q := 0.25; t_dq := 0; t_kp := 30; t_kd := 1; t_tau := 0 |} in
  ∃ fs' c,
    ControlCommandShm.write_targets 9 o [t] fs = (Ok (), fs') ∧
    ControlCommandShm.read_relaxed o fs' = (Ok c, fs') ∧
    cc_num_targets c = 1 ∧
    map load_target (take (Z.to_nat (cc_num_targets c)) (cc_targets c)) = [t].
Proof.
  intros o fs t.
  assert (shm_ready ControlCommandC fs o) as Hr.
  { exists 0%nat, (replicate 300 0). split; [reflexivity|]. split; [reflexivity|].
    rewrite length_replicate. reflexivity. }
  destruct (proj1 (control_command_delivery fs o o 9 [t] Hr eq_refl)) as (fs' & c & H1 & H2 & H3 & H4).
  { apply Nat.leb_le. reflexivity. }
  exists fs', c. split; [exact H1|]. split; [exact H2|]. split; [exact H3|].
  rewrite H4. vm_compute. reflexivity.
Defined.

(** ** aux_command.py *)

Definition BUTTON_FIELDS : list string :=
  ["a_button"; "b_button"; "x_button"; "y_button"; "lb_button"; "rb_button"; "back_button";
   "start_button"; "guide_button"; "l3_button"; "r3_button"]%string.

Record AuxCommandC := {
  ax_timestamp_ns : Z;
  ax_lin_vel_target : list Z;
  ax_ang_vel_target : list Z;
  ax_button_mask : Z
}.

Record wf_aux_command (c : AuxCommandC) : Prop := {
  wax_timestamp : 0 ≤ ax_timestamp_ns c < 2 ^ 64;
  wax_lin : length (ax_lin_vel_target c) = 3%nat;
  wax_ang : length (ax_ang_vel_target c) = 3%nat;
  wax_lin_range : Forall (λ z, 0 ≤ z < 2 ^ 32) (ax_lin_vel_target c);
  wax_ang_range : Forall (λ z, 0 ≤ z < 2 ^ 32) (ax_ang_vel_target c);
  wax_mask : 0 ≤ ax_button_mask c < 2 ^ 32
}.

#[export] Instance AuxCommandC_struct : CStruct AuxCommandC := {
  field_sizes := [8; 4; 4; 4; 4; 4; 4; 4]%nat;
  to_words c :=
    [ax_timestamp_ns c] ++ ax_lin_vel_target c ++ ax_ang_vel_target c ++ [ax_button_mask c];
  of_words ws :=
    {| ax_timestamp_ns := nth 0 ws 0; ax_lin_vel_target := take 3 (drop 1 ws);
       ax_ang_vel_target := take 3 (drop 4 ws); ax_button_mask := nth 7 ws 0 |};
  cs_wf := wf_aux_command
}.

#[export] Instance AuxCommandC_laws : CStructLaws AuxCommandC.
Proof.
  split; intros [ts lin ang mask] [H1 H2 H3 H4 H5 H6]; cbn in *;
    destruct lin as [|l0 [|l1 [|l2 [|]]]], ang as [|a0 [|a1 [|a2 [|]]]]; try done.
  rewrite !Forall_cons in H4, H5. repeat constructor; simpl; lia.
Qed.

(** [bool(buttons.get(name, False))] *)
Definition pressed (name : string) (d : dict string bool) : bool :=
  match dict_get name d with Some b => b | None => false end.

(** [buttons_to_mask(buttons)] *)
Definition buttons_to_mask (buttons : dict string bool) : Z :=
  foldl (λ mask '(index, name),
           if pressed name buttons
           then Z.lor mask (Z.shiftl 1 index) else mask)
    0 (zip (seqZ 0 (Z.of_nat (length BUTTON_FIELDS))) BUTTON_FIELDS).

(** [mask_to_buttons(mask)] *)
Definition mask_to_buttons (mask : Z) : dict string bool :=
  dict_of (map (λ '(index, name),
                  (name, negb (Z.land mask (Z.shiftl 1 index) =? 0)))
    (zip (seqZ 0 (Z.of_nat (length BUTTON_FIELDS))) BUTTON_FIELDS)).

(** [l[0]], [l[1]], [l[2]] of a Python list *)
Definition first3 (l : list float) : res (list float) :=
  match l with
  | x :: y :: z :: _ => Ok [x; y; z]
  | _ => Raise IndexError
  end.

Module AuxCommandShm.
Definition init := wrapper_init AuxCommandC RuntimeError.
Definition open_reader := wrapper_open AuxCommandC RuntimeError.
Definition open_writer := wrapper_open AuxCommandC RuntimeError.
Definition create := wrapper_create AuxCommandC RuntimeError.
Definition close := wrapper_close.
Definition unlink := wrapper_unlink.
Definition clear := wrapper_clear.
Definition read_relaxed := wrapper_read AuxCommandC.
Definition write := wrapper_write AuxCommandC.

Definition aux_command (now_ns : Z) (lin ang : list float) (buttons : dict string bool) :
    AuxCommandC :=
  {| ax_timestamp_ns := c_uint 64 now_ns; ax_lin_vel_target := map c_float lin;
     ax_ang_vel_target := map c_float ang;
     ax_button_mask := c_uint 32 (buttons_to_mask buttons) |}.

(** [publish(lin_vel_target, ang_vel_target, buttons)] *)
Definition publish (now_ns : Z) (o : ShmObj) (lin_vel_target ang_vel_target : list float)
    (buttons : dict string bool) : ST ShmFs Z :=
  lin ← lift (first3 lin_vel_target);
  ang ← lift (first3 ang_vel_target);
  let command := aux_command now_ns lin ang buttons in
  _ ← write o command;
  mret (ax_timestamp_ns command).
End AuxCommandShm.

(** The mask as a function of the eleven states, checked on all of them. *)
Definition mask_of_states (bs : list bool) : Z :=
  foldl (λ mask '(index, b), if (b : bool) then Z.lor mask (Z.shiftl 1 index) else mask)
    0 (zip (seqZ 0 11) bs).

Fixpoint all_states (n : nat) : list (list bool) :=
  match n with
  | O => [[]]
  | S n => map (cons true) (all_states n) ++ map (cons false) (all_states n)
  end.

Definition mask_ok (bs : list bool) : bool :=
  bool_decide (map (Z.testbit (mask_of_states bs)) (seqZ 0 11) = bs) &&
  (0 <=? mask_of_states bs) && (mask_of_states bs <? 2 ^ 11).

Lemma all_states_complete bs : In bs (all_states (length bs)).
Proof.
  induction bs as [|[] bs IH]; [by left|..]; cbn [length all_states];
    apply in_or_app; [left|right]; by apply in_map.
Qed.

Lemma mask_ok_all : forallb mask_ok (all_states 11) = true.
Proof. vm_compute. reflexivity. Qed.

Lemma buttons_to_mask_states buttons :
  buttons_to_mask buttons = mask_of_states (map (λ name, pressed name buttons) BUTTON_FIELDS).
Proof. reflexivity. Qed.

Lemma buttons_to_mask_bits buttons :
  map (Z.testbit (buttons_to_mask buttons)) (seqZ 0 11) =
    map (λ name, pressed name buttons) BUTTON_FIELDS ∧
  0 ≤ buttons_to_mask buttons < 2 ^ 11.
Proof.
  rewrite buttons_to_mask_states. set (bs := map _ BUTTON_FIELDS).
  pose proof (proj1 (forallb_forall _ _) mask_ok_all bs (all_states_complete bs)) as H.
  apply andb_true_iff in H as [[H%bool_decide_eq_true H0]%andb_true_iff H1].
  bool_to_prop. done.
Qed.

Lemma land_bit_testbit m i : 0 ≤ i → negb (Z.land m (Z.shiftl 1 i) =? 0) = Z.testbit m i.
Proof.
  intros Hi. rewrite Z.shiftl_mul_pow2, Z.mul_1_l by done.
  destruct (Z.testbit m i) eqn:E.
  - apply negb_true_iff, Z.eqb_neq. intros Hz. apply (f_equal (λ z, Z.testbit z i)) in Hz.
    by rewrite Z.land_spec, Z.pow2_bits_true, E, Z.bits_0 in Hz by done.
  - apply negb_false_iff, Z.eqb_eq, Z.bits_inj'. intros n Hn.
    rewrite Z.land_spec, Z.bits_0. destruct (Z.eq_dec n i) as [->|Hne]; [by rewrite E|].
    by rewrite Z.pow2_bits_false, andb_false_r by done.
Qed.

Lemma mask_to_buttons_bits m :
  map (λ name, pressed name (mask_to_buttons m)) BUTTON_FIELDS = map (Z.testbit m) (seqZ 0 11).
Proof.
  unfold mask_to_buttons, BUTTON_FIELDS. cbn [length].
  change (seqZ 0 (Z.of_nat 11)) with [0;1;2;3;4;5;6;7;8;9;10].
  change (seqZ 0 11) with [0;1;2;3;4;5;6;7;8;9;10]. cbn [zip zip_with map].
  rewrite !land_bit_testbit by lia.
  repeat match goal with
  | |- context [Z.testbit m ?i] => generalize (Z.testbit m i); intros ?
  end.
  reflexivity.
Qed.

Lemma map_eq_elem {A B} (f g : A → B) l x : map f l = map g l → x ∈ l → f x = g x.
Proof.
  induction l as [|y l IH]; [by intros _ ?%not_elem_of_nil|].
  intros [= E1 E2] [->|Hin]%elem_of_cons; auto.
Qed.

(** Buttons. Whatever the gamepad dict holds, the mask it is published as
    fits eleven bits and [mask_to_buttons] reads the same buttons back; and a
    reader sees every button of a published command. *)
Theorem buttons_roundtrip (buttons : dict string bool) fs (o1 o2 : ShmObj) (now_ns : Z)
    (lin ang : list float) :
  (∀ name, name ∈ BUTTON_FIELDS →
     pressed name (mask_to_buttons (buttons_to_mask buttons)) = pressed name buttons) ∧
  0 ≤ buttons_to_mask buttons < 2 ^ 11 ∧
  (shm_ready AuxCommandC fs o1 → so_handle o1 = so_handle o2 →
   length lin = 3%nat → length ang = 3%nat →
   ∃ fs' c,
     AuxCommandShm.publish now_ns o1 lin ang buttons fs = (Ok (c_uint 64 now_ns), fs') ∧
     shm_ready AuxCommandC fs' o1 ∧
     AuxCommandShm.read_relaxed o2 fs' = (Ok c, fs') ∧
     ax_lin_vel_target c = map c_float lin ∧ ax_ang_vel_target c = map c_float ang ∧
     ax_button_mask c = buttons_to_mask buttons).
Proof.
  destruct (buttons_to_mask_bits buttons) as [Hb Hm]. split; [|split; [done|]].
  - intros name. apply (map_eq_elem (λ n, pressed n (mask_to_buttons (buttons_to_mask buttons)))
      (λ n, pressed n buttons)). by rewrite mask_to_buttons_bits.
  - intros Hr Ho Hl Ha.
    destruct lin as [|l0 [|l1 [|l2 [|]]]], ang as [|a0 [|a1 [|a2 [|]]]]; try done.
    assert (wf_aux_command (AuxCommandShm.aux_command now_ns [l0; l1; l2] [a0; a1; a2] buttons))
      as Hwf.
    { split; unfold AuxCommandShm.aux_command; cbn [ax_timestamp_ns ax_lin_vel_target
        ax_ang_vel_target ax_button_mask map length]; try done;
        try (apply (c_uint_range 64); lia); try (apply (c_uint_range 32); lia);
        repeat (apply Forall_cons_2; [apply c_float_range|]); constructor. }
    destruct (write_then_read fs o1 o2
      (AuxCommandShm.aux_command now_ns [l0; l1; l2] [a0; a1; a2] buttons)) as (fs' & Hw & _ & Hrd);
      [exact Hwf|done|done|].
    destruct (wrapper_write_ready fs o1
      (AuxCommandShm.aux_command now_ns [l0; l1; l2] [a0; a1; a2] buttons))
      as (fs2 & Hw2 & _ & Hk); [exact Hwf|exact Hr|].
    rewrite Hw in Hw2. injection Hw2 as <-.
    exists fs'. eexists. split_and!; [|exact (Hk _ _ _ Hr)|exact Hrd|done|done|].
    + unfold AuxCommandShm.publish. st_run. cbn [first3].
      unfold AuxCommandShm.write. by rewrite Hw.
    + cbn. unfold c_uint. apply Z.mod_small. lia.
Qed.

Lemma buttons_roundtrip_witness :
  pressed "lb_button"
    (mask_to_buttons (buttons_to_mask [("lb_button"%string, true); ("x_button"%string, false)]))
  = true.
Proof.
  apply (proj1 (buttons_roundtrip [("lb_button"%string, true); ("x_button"%string, false)]
    shm_empty {| so_name := ""; so_handle := None |} {| so_name := ""; so_handle := None |}
    0 [] []) "lb_button"%string).
  apply (bool_decide_unpack _). reflexivity.
Defined.
