(* ===== verification/RobotState.v ===== *)
(** * The robot-state segment

    [robot_controller/shm/robot_state.py]: the structure the controller
    publishes, and the dict readers make of it. A dict with fixed keys is a
    record; [None] is [option]. *)

From Stdlib Require Import Floats.
From stdpp Require Import pretty.
From S2P Require Import Prelude PyFloat PyDict CStruct ControlCommand.

Definition MAX_ROBOT_STATE_ACTUATORS : nat := 12.

Definition COMMAND_OUTPUT_SOURCE_NAMES : dict Z string :=
  [(0, "NONE"%string); (1, "ENABLE"%string); (2, "DISABLE"%string); (3, "ZERO_SET"%string);
   (4, "DAMPING"%string); (5, "POLICY"%string)].

Definition COMMAND_OUTPUT_SOURCE_VALUES : dict string Z :=
  dict_of (map (λ '(value, name), (name, value)) COMMAND_OUTPUT_SOURCE_NAMES).

Definition u32 (z : Z) : Prop := 0 ≤ z < 2 ^ 32.
Definition u64 (z : Z) : Prop := 0 ≤ z < 2 ^ 64.
Definition u8 (z : Z) : Prop := 0 ≤ z < 2 ^ 8.
Definition i32 (z : Z) : Prop := - 2 ^ 31 ≤ z < 2 ^ 31.

(** ** The structures; float fields hold their bit patterns *)

Record ActuatorStateC := {
  as_can_id : Z;
  as_position_rad : Z;
  as_velocity_rad_s : Z;
  as_torque_nm : Z;
  as_current_a : Z;
  as_temperature_c : Z;
  as_fault_code : Z;
  as_is_enabled : Z;
  as_last_feedback_t : Z;
  as_age_s : Z;
  as_online : Z;
  as_stale : Z;
  as_pad : Z * Z
}.

Definition ActuatorStateC_new : ActuatorStateC :=
  {| as_can_id := 0; as_position_rad := 0; as_velocity_rad_s := 0; as_torque_nm := 0;
     as_current_a := 0; as_temperature_c := 0; as_fault_code := 0; as_is_enabled := 0;
     as_last_feedback_t := 0; as_age_s := 0; as_online := 0; as_stale := 0; as_pad := (0, 0) |}.

Definition wf_actuator_state (a : ActuatorStateC) : Prop :=
  u32 (as_can_id a) ∧ u32 (as_position_rad a) ∧ u32 (as_velocity_rad_s a) ∧
  u32 (as_torque_nm a) ∧ u32 (as_current_a a) ∧ u32 (as_temperature_c a) ∧
  i32 (as_fault_code a) ∧ i32 (as_is_enabled a) ∧ u64 (as_last_feedback_t a) ∧
  u32 (as_age_s a) ∧ u8 (as_online a) ∧ u8 (as_stale a) ∧ u8 (as_pad a).1 ∧ u8 (as_pad a).2.

#[export] Instance ActuatorStateC_struct : CStruct ActuatorStateC := {
  field_sizes := [4; 4; 4; 4; 4; 4; 4; 4; 8; 4; 1; 1; 1; 1]%nat;
  to_words a :=
    [as_can_id a; as_position_rad a; as_velocity_rad_s a; as_torque_nm a; as_current_a a;
     as_temperature_c a; as_fault_code a mod 2 ^ 32; as_is_enabled a mod 2 ^ 32;
     as_last_feedback_t a; as_age_s a; as_online a; as_stale a; (as_pad a).1; (as_pad a).2];
  of_words ws :=
    match ws with
    | [a; b; c; d; e; f; g; h; i; j; k; l; m; n] =>
        {| as_can_id := a; as_position_rad := b; as_velocity_rad_s := c; as_torque_nm := d;
           as_current_a := e; as_temperature_c := f; as_fault_code := to_signed 32 g;
           as_is_enabled := to_signed 32 h; as_last_feedback_t := i; as_age_s := j;
           as_online := k; as_stale := l; as_pad := (m, n) |}
    | _ => ActuatorStateC_new
    end;
  cs_wf := wf_actuator_state
}.

#[export] Instance ActuatorStateC_laws : CStructLaws ActuatorStateC.
Proof.
  split; intros [? ? ? ? ? ? fc en ? ? ? ? [? ?]] H; cbn in H;
    unfold wf_actuator_state, u32, i32, u64, u8 in H; cbn in H.
  - repeat (apply Forall2_cons; split); try apply Forall2_nil; simpl; try lia;
      apply Z.mod_pos_bound; lia.
  - cbn. by rewrite !to_signed_mod by (simpl; lia).
Qed.

Record ImuStateC := {
  im_quat_xyzw : Z * Z * Z * Z;
  im_projected_gravity_b : Z * Z * Z;
  im_angular_velocity_rad_s : Z * Z * Z;
  im_last_quat_t : Z;
  im_last_gyro_t : Z;
  im_quat_online : Z;
  im_gyro_online : Z;
  im_quat_stale : Z;
  im_gyro_stale : Z
}.

Definition ImuStateC_new : ImuStateC :=
  {| im_quat_xyzw := (0, 0, 0, 0); im_projected_gravity_b := (0, 0, 0);
     im_angular_velocity_rad_s := (0, 0, 0); im_last_quat_t := 0; im_last_gyro_t := 0;
     im_quat_online := 0; im_gyro_online := 0; im_quat_stale := 0; im_gyro_stale := 0 |}.

Definition imu_words (m : ImuStateC) : list Z :=
  let '(q0, q1, q2, q3) := im_quat_xyzw m in
  let '(g0, g1, g2) := im_projected_gravity_b m in
  let '(w0, w1, w2) := im_angular_velocity_rad_s m in
  [q0; q1; q2; q3; g0; g1; g2; w0; w1; w2; im_last_quat_t m; im_last_gyro_t m;
   im_quat_online m; im_gyro_online m; im_quat_stale m; im_gyro_stale m].

Definition imu_sizes : list nat := [4; 4; 4; 4; 4; 4; 4; 4; 4; 4; 8; 8; 1; 1; 1; 1]%nat.

#[export] Instance ImuStateC_struct : CStruct ImuStateC := {
  field_sizes := imu_sizes;
  to_words := imu_words;
  of_words ws :=
    match ws with
    | [a; b; c; d; e; f; g; h; i; j; k; l; m; n; o; p] =>
        {| im_quat_xyzw := (a, b, c, d); im_projected_gravity_b := (e, f, g);
           im_angular_velocity_rad_s := (h, i, j); im_last_quat_t := k; im_last_gyro_t := l;
           im_quat_online := m; im_gyro_online := n; im_quat_stale := o; im_gyro_stale := p |}
    | _ => ImuStateC_new
    end;
  cs_wf m := words_in_range imu_sizes (imu_words m)
}.

#[export] Instance ImuStateC_laws : CStructLaws ImuStateC.
Proof. split; [done|]. by intros [[[[? ?] ?] ?] [[? ?] ?] [[? ?] ?] ? ? ? ? ? ?] _. Qed.

(** [CommandTargetStateC] has the layout of [ControlTargetC] under other names. *)
Record CommandTargetStateC := {
  cts_can_id : Z; cts_p_target_rad : Z; cts_v_target_rad_s : Z;
  cts_kp : Z; cts_kd : Z; cts_tau_target_nm : Z }.

Definition CommandTargetStateC_new : CommandTargetStateC :=
  {| cts_can_id := 0; cts_p_target_rad := 0; cts_v_target_rad_s := 0; cts_kp := 0;
     cts_kd := 0; cts_tau_target_nm := 0 |}.

Definition wf_command_target (t : CommandTargetStateC) : Prop :=
  u32 (cts_can_id t) ∧ u32 (cts_p_target_rad t) ∧ u32 (cts_v_target_rad_s t) ∧
  u32 (cts_kp t) ∧ u32 (cts_kd t) ∧ u32 (cts_tau_target_nm t).

#[export] Instance CommandTargetStateC_struct : CStruct CommandTargetStateC := {
  field_sizes := [4; 4; 4; 4; 4; 4]%nat;
  to_words t := [cts_can_id t; cts_p_target_rad t; cts_v_target_rad_s t; cts_kp t; cts_kd t;
                 cts_tau_target_nm t];
  of_words ws :=
    match ws with
    | [a; b; c; d; e; f] =>
        {| cts_can_id := a; cts_p_target_rad := b; cts_v_target_rad_s := c; cts_kp := d;
           cts_kd := e; cts_tau_target_nm := f |}
    | _ => CommandTargetStateC_new
    end;
  cs_wf := wf_command_target
}.

#[export] Instance CommandTargetStateC_laws : CStructLaws CommandTargetStateC.
Proof.
  split; intros [] H; [|done]. unfold cs_wf in H. cbn in H.
  unfold wf_command_target, u32 in H. cbn in H.
  repeat (apply Forall2_cons; split); try apply Forall2_nil; simpl; lia.
Qed.

Record CommandOutputStateC := {
  co_timestamp_monotonic : Z;
  co_source : Z;
  co_target_count : Z;
  co_targets : list CommandTargetStateC
}.

Record RobotStateC := {
  rs_timestamp_ns : Z;
  rs_timestamp_monotonic : Z;
  rs_timestamp_unix : Z;
  rs_controller_mode : Z;
  rs_actuator_count : Z;
  rs_imu : ImuStateC;
  rs_actuators : list ActuatorStateC;
  rs_command_output : CommandOutputStateC
}.

(** [RobotStateC()] *)
Definition RobotStateC_new : RobotStateC :=
  {| rs_timestamp_ns := 0; rs_timestamp_monotonic := 0; rs_timestamp_unix := 0;
     rs_controller_mode := 0; rs_actuator_count := 0; rs_imu := ImuStateC_new;
     rs_actuators := replicate MAX_ROBOT_STATE_ACTUATORS ActuatorStateC_new;
     rs_command_output :=
       {| co_timestamp_monotonic := 0; co_source := 0; co_target_count := 0;
          co_targets := replicate MAX_ROBOT_STATE_ACTUATORS CommandTargetStateC_new |} |}.

Record wf_robot_state (s : RobotStateC) : Prop := {
  wrs_ns : u64 (rs_timestamp_ns s);
  wrs_mono : u64 (rs_timestamp_monotonic s);
  wrs_unix : u64 (rs_timestamp_unix s);
  wrs_mode : u32 (rs_controller_mode s);
  wrs_count : u32 (rs_actuator_count s);
  wrs_imu : cs_wf (rs_imu s);
  wrs_actuators_len : length (rs_actuators s) = MAX_ROBOT_STATE_ACTUATORS;
  wrs_actuators : Forall cs_wf (rs_actuators s);
  wrs_co_mono : u64 (co_timestamp_monotonic (rs_command_output s));
  wrs_co_source : u32 (co_source (rs_command_output s));
  wrs_co_count : u32 (co_target_count (rs_command_output s));
  wrs_targets_len : length (co_targets (rs_command_output s)) = MAX_ROBOT_STATE_ACTUATORS;
  wrs_targets : Forall cs_wf (co_targets (rs_command_output s))
}.

(** Where the parts of the word list start. *)
Definition imu_at : nat := 5.
Definition actuators_at : nat := imu_at + words_per ImuStateC.
Definition output_at : nat :=
  actuators_at + MAX_ROBOT_STATE_ACTUATORS * words_per ActuatorStateC.

#[export] Instance RobotStateC_struct : CStruct RobotStateC := {
  field_sizes := ([8; 8; 8; 4; 4] ++ field_sizes (T:=ImuStateC) ++
    array_sizes ActuatorStateC MAX_ROBOT_STATE_ACTUATORS ++ [8; 4; 4] ++
    array_sizes CommandTargetStateC MAX_ROBOT_STATE_ACTUATORS)%nat;
  to_words s :=
    [rs_timestamp_ns s; rs_timestamp_monotonic s; rs_timestamp_unix s; rs_controller_mode s;
     rs_actuator_count s] ++ to_words (rs_imu s) ++ array_words (rs_actuators s) ++
    [co_timestamp_monotonic (rs_command_output s); co_source (rs_command_output s);
     co_target_count (rs_command_output s)] ++ array_words (co_targets (rs_command_output s));
  of_words ws :=
    {| rs_timestamp_ns := nth 0 ws 0; rs_timestamp_monotonic := nth 1 ws 0;
       rs_timestamp_unix := nth 2 ws 0; rs_controller_mode := nth 3 ws 0;
       rs_actuator_count := nth 4 ws 0;
       rs_imu := of_words (take (words_per ImuStateC) (drop imu_at ws));
       rs_actuators := array_of_words MAX_ROBOT_STATE_ACTUATORS (drop actuators_at ws);
       rs_command_output :=
         {| co_timestamp_monotonic := nth 0 (drop output_at ws) 0;
            co_source := nth 1 (drop output_at ws) 0;
            co_target_count := nth 2 (drop output_at ws) 0;
            co_targets := array_of_words MAX_ROBOT_STATE_ACTUATORS
                            (drop 3 (drop output_at ws)) |} |};
  cs_wf := wf_robot_state
}.

#[export] Instance RobotStateC_laws : CStructLaws RobotStateC.
Proof.
  split; intros s []; cbn [field_sizes to_words of_words RobotStateC_struct].
  - unfold u64, u32 in *.
    apply Forall2_app; [repeat (apply Forall2_cons; split); try apply Forall2_nil; simpl; lia|].
    apply Forall2_app; [by apply to_words_range|].
    apply Forall2_app; [by apply array_words_range|].
    apply Forall2_app; [repeat (apply Forall2_cons; split); try apply Forall2_nil; simpl; lia|].
    by apply array_words_range.
  - destruct s as [ns mono unix mode cnt imu acts [cm cs cc cts]].
    cbn [rs_imu rs_actuators rs_command_output rs_timestamp_ns rs_timestamp_monotonic
         rs_timestamp_unix rs_controller_mode rs_actuator_count co_timestamp_monotonic co_source
         co_target_count co_targets] in *.
    set (tail := [cm; cs; cc] ++ array_words cts).
    set (head := [ns; mono; unix; mode; cnt]).
    assert (drop imu_at (head ++ to_words imu ++ array_words acts ++ tail) =
              to_words imu ++ array_words acts ++ tail) as -> by done.
    assert (drop actuators_at (head ++ to_words imu ++ array_words acts ++ tail) =
              array_words acts ++ tail) as ->.
    { rewrite app_assoc, drop_app_length'; [done|].
      by rewrite length_app, length_to_words. }
    assert (drop output_at (head ++ to_words imu ++ array_words acts ++ tail) = tail) as ->.
    { rewrite (app_assoc (to_words imu)), app_assoc, drop_app_length'; [done|].
      rewrite !length_app, length_to_words, length_array_words by done. unfold output_at.
      rewrite wrs_actuators_len0. done. }
    rewrite take_app_length' by (by rewrite length_to_words).
    rewrite of_to_words by done.
    assert (array_of_words MAX_ROBOT_STATE_ACTUATORS (array_words acts ++ tail) = acts) as ->
      by (rewrite <- wrs_actuators_len0; by apply array_of_array_words).
    assert (array_of_words MAX_ROBOT_STATE_ACTUATORS (drop 3 tail) = cts) as ->.
    { rewrite <- wrs_targets_len0. change (drop 3 tail) with (array_words cts).
      rewrite <- (app_nil_r (array_words cts)). by apply array_of_array_words. }
    done.
Qed.

Lemma ROBOT_STATE_SIZE_value : sizeof RobotStateC = 972%nat.
Proof. reflexivity. Qed.

(** ** [RobotStateShm] *)

Definition COMMAND_OUTPUT_SOURCE_NAMES_get (source : Z) : string :=
  match dict_get source COMMAND_OUTPUT_SOURCE_NAMES with
  | Some name => name
  | None => ("SOURCE_" ++ pretty source)%string
  end.

Definition _mode_name (value : Z) : string :=
  match dict_get value [(0, "DISABLED"%string); (1, "ENABLING"%string); (2, "NORMAL"%string);
                        (3, "DAMPING"%string); (4, "ZERO_SETTING"%string);
                        (5, "ESTOP"%string)] with
  | Some name => name
  | None => ("MODE_" ++ pretty value)%string
  end.

(** The dicts the reader builds. *)
Record ActuatorDict := {
  ad_can_id : Z;
  ad_position_rad : option float;
  ad_velocity_rad_s : option float;
  ad_torque_nm : option float;
  ad_current_a : option float;
  ad_temperature_c : option float;
  ad_fault_code : option Z;
  ad_is_enabled : option bool;
  ad_last_feedback_t : float;
  ad_age_s : option float;
  ad_online : bool;
  ad_stale : bool
}.

Definition py_bool (z : Z) : bool := negb (z =? 0).

Definition _actuator_to_dict (item : ActuatorStateC) : ActuatorDict :=
  let has_feedback := (0 <? f64_value (as_last_feedback_t item))%float in
  let opt x := if has_feedback then Some (f32_value x) else None in
  {| ad_can_id := as_can_id item;
     ad_position_rad := opt (as_position_rad item);
     ad_velocity_rad_s := opt (as_velocity_rad_s item);
     ad_torque_nm := opt (as_torque_nm item);
     ad_current_a := opt (as_current_a item);
     ad_temperature_c := opt (as_temperature_c item);
     ad_fault_code := if as_fault_code item <? 0 then None else Some (as_fault_code item);
     ad_is_enabled := if as_is_enabled item <? 0 then None else Some (py_bool (as_is_enabled item));
     ad_last_feedback_t := f64_value (as_last_feedback_t item);
     ad_age_s := if (f32_value (as_age_s item) <? 0)%float then None
                 else Some (f32_value (as_age_s item));
     ad_online := py_bool (as_online item); ad_stale := py_bool (as_stale item) |}.

(** The [can_id] of a target dict is the string [f"0x{can_id:X}"]; the number is
    kept here. *)
Record CommandTargetDict := {
  td_can_id : Z; td_p_target_rad : float; td_v_target_rad_s : float;
  td_kp : float; td_kd : float; td_tau_target_nm : float }.

Definition _command_target_to_dict (item : CommandTargetStateC) : CommandTargetDict :=
  {| td_can_id := cts_can_id item; td_p_target_rad := f32_value (cts_p_target_rad item);
     td_v_target_rad_s := f32_value (cts_v_target_rad_s item); td_kp := f32_value (cts_kp item);
     td_kd := f32_value (cts_kd item); td_tau_target_nm := f32_value (cts_tau_target_nm item) |}.

Record CommandOutputDict := {
  cod_status : string;
  cod_source : string;
  cod_timestamp_monotonic : float;
  cod_age_s : option float;
  cod_target_count : Z;
  cod_targets : list CommandTargetDict
}.

(** [now] is [time.monotonic()]. *)
Definition _command_output_to_dict (now : float) (item : CommandOutputStateC) :
    CommandOutputDict :=
  let target_count := Z.min (co_target_count item) (Z.of_nat MAX_ROBOT_STATE_ACTUATORS) in
  let t := f64_value (co_timestamp_monotonic item) in
  let online := (0 <? t)%float in
  {| cod_status := (if online then "online" else "waiting")%string;
     cod_source := COMMAND_OUTPUT_SOURCE_NAMES_get (co_source item);
     cod_timestamp_monotonic := t;
     cod_age_s := if online then Some (py_max 0 (now - t)) else None;
     cod_target_count := target_count;
     cod_targets := map _command_target_to_dict (take (Z.to_nat target_count) (co_targets item)) |}.

Record ImuDict := {
  id_quat_xyzw : float * float * float * float;
  id_projected_gravity_b : float * float * float;
  id_angular_velocity_rad_s : float * float * float;
  id_last_quat_t : float;
  id_last_gyro_t : float;
  id_quat_online : bool;
  id_gyro_online : bool;
  id_quat_stale : bool;
  id_gyro_stale : bool
}.

Definition map3 {A B} (f : A → B) (v : A * A * A) : B * B * B :=
  let '(a, b, c) := v in (f a, f b, f c).
Definition map4 {A B} (f : A → B) (v : A * A * A * A) : B * B * B * B :=
  let '(a, b, c, d) := v in (f a, f b, f c, f d).

Definition imu_to_dict (imu : ImuStateC) : ImuDict :=
  {| id_quat_xyzw := map4 f32_value (im_quat_xyzw imu);
     id_projected_gravity_b := map3 f32_value (im_projected_gravity_b imu);
     id_angular_velocity_rad_s := map3 f32_value (im_angular_velocity_rad_s imu);
     id_last_quat_t := f64_value (im_last_quat_t imu);
     id_last_gyro_t := f64_value (im_last_gyro_t imu);
     id_quat_online := py_bool (im_quat_online imu);
     id_gyro_online := py_bool (im_gyro_online imu);
     id_quat_stale := py_bool (im_quat_stale imu);
     id_gyro_stale := py_bool (im_gyro_stale imu) |}.

Record RobotStateDict := {
  rd_timestamp_monotonic : float;
  rd_timestamp_unix : float;
  rd_controller_state : string;
  rd_imu : ImuDict;
  rd_actuators : list ActuatorDict;
  rd_command_output : CommandOutputDict
}.

Definition robot_state_to_dict (now : float) (state : RobotStateC) : RobotStateDict :=
  let actuator_count :=
    Z.min (rs_actuator_count state) (Z.of_nat MAX_ROBOT_STATE_ACTUATORS) in
  {| rd_timestamp_monotonic := f64_value (rs_timestamp_monotonic state);
     rd_timestamp_unix := f64_value (rs_timestamp_unix state);
     rd_controller_state := _mode_name (rs_controller_mode state);
     rd_imu := imu_to_dict (rs_imu state);
     rd_actuators := map _actuator_to_dict (take (Z.to_nat actuator_count) (rs_actuators state));
     rd_command_output := _command_output_to_dict now (rs_command_output state) |}.

(** [new_robot_state(mode)] with the three clocks it reads. *)
Definition new_robot_state (now_ns : Z) (mono unix : float) (mode : Z) : RobotStateC :=
  {| rs_timestamp_ns := c_uint 64 now_ns; rs_timestamp_monotonic := c_double mono;
     rs_timestamp_unix := c_double unix; rs_controller_mode := c_uint 32 mode;
     rs_actuator_count := 0; rs_imu := ImuStateC_new;
     rs_actuators := replicate MAX_ROBOT_STATE_ACTUATORS ActuatorStateC_new;
     rs_command_output := rs_command_output RobotStateC_new |}.

Module RobotStateShm.
(** Its undersized check, like [OperatorCommandShm]'s, reads [self.shm.buf]
    after [self.close()]. *)
Definition init := wrapper_init RobotStateC AttributeError.
Definition open_reader := wrapper_open RobotStateC AttributeError.
Definition open_writer := wrapper_open RobotStateC AttributeError.
Definition create := wrapper_create RobotStateC AttributeError.
Definition close := wrapper_close.
Definition unlink := wrapper_unlink.
Definition clear := wrapper_clear.
Definition read_relaxed := wrapper_read RobotStateC.
Definition write := wrapper_write RobotStateC.

(** [read_latest()]: [None] until something was published. *)
Definition read_latest (now : float) (o : ShmObj) : ST ShmFs (option RobotStateDict) :=
  state ← read_relaxed o;
  mret (if rs_timestamp_ns state =? 0 then None else Some (robot_state_to_dict now state)).
End RobotStateShm.
