(* ===== verification/Telemetry.v ===== *)
(** * Telemetry: snapshots and their publication

    [robot_controller/telemetry/{robot_snapshot,shm_state_publisher,
    dashboard_publisher}.py]. *)

From S2P Require Import Prelude PyFloat PyDict CStruct OperatorCommand StateMachine ControlCommand.
From S2P Require Import RobotState.

(** ** robot_snapshot.py *)

Record ActuatorSnapshot := {
  sn_can_id : Z;
  sn_position_rad : option float;
  sn_velocity_rad_s : option float;
  sn_torque_nm : option float;
  sn_current_a : option float;
  sn_temperature_c : option float;
  sn_fault_code : option Z;
  sn_is_enabled : option bool;
  sn_last_feedback_t : float;
  sn_age_s : option float;
  sn_online : bool;
  sn_stale : bool
}.

Record ImuSnapshot := {
  si_quat_xyzw : option (float * float * float * float);
  si_projected_gravity_b : option (float * float * float);
  si_angular_velocity_rad_s : option (float * float * float);
  si_last_quat_t : float;
  si_last_gyro_t : float;
  si_quat_online : bool;
  si_gyro_online : bool;
  si_quat_stale : bool;
  si_gyro_stale : bool
}.

Record CommandTargetSnapshot := {
  tg_can_id : Z; tg_p_target_rad : float; tg_v_target_rad_s : float;
  tg_kp : float; tg_kd : float; tg_tau_target_nm : float }.

Record CommandOutputSnapshot := {
  so_source : string;
  so_timestamp_monotonic : float;
  so_targets : list CommandTargetSnapshot
}.

Record RobotSnapshot := {
  sn_mode : ControllerMode;
  sn_timestamp_monotonic : float;
  sn_timestamp_unix : float;
  sn_actuators : list ActuatorSnapshot;
  sn_imu : ImuSnapshot;
  sn_command_output : CommandOutputSnapshot
}.

(** ** shm_state_publisher.py *)

Definition _float_or_zero (value : option float) : float :=
  match value with
  | Some x => if py_isfinite x then x else 0%float
  | None => 0%float
  end.

Definition int_of_bool (b : bool) : Z := if b then 1 else 0.

Definition store_actuator (item : ActuatorSnapshot) : ActuatorStateC :=
  {| as_can_id := c_uint 32 (sn_can_id item);
     as_position_rad := c_float (_float_or_zero (sn_position_rad item));
     as_velocity_rad_s := c_float (_float_or_zero (sn_velocity_rad_s item));
     as_torque_nm := c_float (_float_or_zero (sn_torque_nm item));
     as_current_a := c_float (_float_or_zero (sn_current_a item));
     as_temperature_c := c_float (_float_or_zero (sn_temperature_c item));
     as_fault_code := c_int 32 (match sn_fault_code item with None => -1 | Some z => z end);
     as_is_enabled :=
       c_int 32 (match sn_is_enabled item with None => -1 | Some b => int_of_bool b end);
     as_last_feedback_t := c_double (sn_last_feedback_t item);
     as_age_s := c_float (match sn_age_s item with None => (-1)%float | Some x => x end);
     as_online := c_uint 8 (int_of_bool (sn_online item));
     as_stale := c_uint 8 (int_of_bool (sn_stale item));
     as_pad := (0, 0) |}.

Definition store_command_target (item : CommandTargetSnapshot) : CommandTargetStateC :=
  {| cts_can_id := c_uint 32 (tg_can_id item);
     cts_p_target_rad := c_float (_float_or_zero (Some (tg_p_target_rad item)));
     cts_v_target_rad_s := c_float (_float_or_zero (Some (tg_v_target_rad_s item)));
     cts_kp := c_float (_float_or_zero (Some (tg_kp item)));
     cts_kd := c_float (_float_or_zero (Some (tg_kd item)));
     cts_tau_target_nm := c_float (_float_or_zero (Some (tg_tau_target_nm item))) |}.

(** [_fill_array(target, values, fallback)] *)
Definition fill {A} (values : option A) (fallback : A) : A :=
  match values with Some v => v | None => fallback end.

Definition store_imu (imu : ImuSnapshot) : ImuStateC :=
  {| im_quat_xyzw := map4 c_float (fill (si_quat_xyzw imu) (0, 0, 0, 1)%float);
     im_projected_gravity_b := map3 c_float (fill (si_projected_gravity_b imu) (0, 0, -1)%float);
     im_angular_velocity_rad_s :=
       map3 c_float (fill (si_angular_velocity_rad_s imu) (0, 0, 0)%float);
     im_last_quat_t := c_double (si_last_quat_t imu);
     im_last_gyro_t := c_double (si_last_gyro_t imu);
     im_quat_online := c_uint 8 (int_of_bool (si_quat_online imu));
     im_gyro_online := c_uint 8 (int_of_bool (si_gyro_online imu));
     im_quat_stale := c_uint 8 (int_of_bool (si_quat_stale imu));
     im_gyro_stale := c_uint 8 (int_of_bool (si_gyro_stale imu)) |}.

Definition source_value (source : string) : Z :=
  match dict_get source COMMAND_OUTPUT_SOURCE_VALUES with Some z => z | None => 0 end.

(** [snapshot_to_cstruct(snapshot)]; [now_ns] is [time.time_ns()]. *)
Definition snapshot_to_cstruct (now_ns : Z) (snapshot : RobotSnapshot) : RobotStateC :=
  let actuators := take MAX_ROBOT_STATE_ACTUATORS (sn_actuators snapshot) in
  let out := sn_command_output snapshot in
  let targets := take MAX_ROBOT_STATE_ACTUATORS (so_targets out) in
  {| rs_timestamp_ns := c_uint 64 now_ns;
     rs_timestamp_monotonic := c_double (sn_timestamp_monotonic snapshot);
     rs_timestamp_unix := c_double (sn_timestamp_unix snapshot);
     rs_controller_mode := c_uint 32 (Mode.value (sn_mode snapshot));
     rs_actuator_count :=
       Z.min (Z.of_nat (length (sn_actuators snapshot))) (Z.of_nat MAX_ROBOT_STATE_ACTUATORS);
     rs_imu := store_imu (sn_imu snapshot);
     rs_actuators :=
       pad_array MAX_ROBOT_STATE_ACTUATORS ActuatorStateC_new (map store_actuator actuators);
     rs_command_output :=
       {| co_timestamp_monotonic := c_double (so_timestamp_monotonic out);
          co_source := c_uint 32 (source_value (so_source out));
          co_target_count :=
            Z.min (Z.of_nat (length (so_targets out))) (Z.of_nat MAX_ROBOT_STATE_ACTUATORS);
          co_targets := pad_array MAX_ROBOT_STATE_ACTUATORS CommandTargetStateC_new
                          (map store_command_target targets) |} |}.

(** [class ShmStatePublisher], and [DashboardPublisher], which wraps one. *)
Record ShmStatePublisher := {
  sp_writer : ShmObj;
  publish_period_s : float;
  last_publish_t : float
}.

Definition publisher_init (shm_name : string) (publish_hz : float) :
    ST ShmFs ShmStatePublisher :=
  w ← RobotStateShm.open_writer shm_name;
  period ← lift (py_div 1 publish_hz);
  mret {| sp_writer := w; publish_period_s := period; last_publish_t := 0 |}.

Definition publisher_close (p : ShmStatePublisher) : ShmStatePublisher :=
  {| sp_writer := wrapper_close (sp_writer p); publish_period_s := publish_period_s p;
     last_publish_t := last_publish_t p |}.

(** [publish(snapshot, force)]; [now] is [time.monotonic()]. *)
Definition publish (now : float) (now_ns : Z) (p : ShmStatePublisher)
    (snapshot : RobotSnapshot) (force : bool) : ST ShmFs ShmStatePublisher :=
  if negb force && (now - last_publish_t p <? publish_period_s p)%float then mret p
  else
    _ ← RobotStateShm.write (sp_writer p) (snapshot_to_cstruct now_ns snapshot);
    mret {| sp_writer := sp_writer p; publish_period_s := publish_period_s p;
            last_publish_t := now |}.

Module DashboardPublisher.
Definition init := publisher_init.
Definition close := publisher_close.
Definition publish := publish.
End DashboardPublisher.

(** ** What a reader sees of a snapshot *)

Definition view_actuator (a : ActuatorSnapshot) : ActuatorDict :=
  let opt x := if (0 <? sn_last_feedback_t a)%float then Some (binary32 (_float_or_zero x))
               else None in
  let age := binary32 (match sn_age_s a with None => (-1)%float | Some x => x end) in
  {| ad_can_id := sn_can_id a mod 2 ^ 32;
     ad_position_rad := opt (sn_position_rad a);
     ad_velocity_rad_s := opt (sn_velocity_rad_s a);
     ad_torque_nm := opt (sn_torque_nm a);
     ad_current_a := opt (sn_current_a a);
     ad_temperature_c := opt (sn_temperature_c a);
     ad_fault_code := sn_fault_code a;
     ad_is_enabled := sn_is_enabled a;
     ad_last_feedback_t := sn_last_feedback_t a;
     ad_age_s := if (age <? 0)%float then None else Some age;
     ad_online := sn_online a; ad_stale := sn_stale a |}.

Definition view_target (t : CommandTargetSnapshot) : CommandTargetDict :=
  let f x := binary32 (_float_or_zero (Some x)) in
  {| td_can_id := tg_can_id t mod 2 ^ 32; td_p_target_rad := f (tg_p_target_rad t);
     td_v_target_rad_s := f (tg_v_target_rad_s t); td_kp := f (tg_kp t); td_kd := f (tg_kd t);
     td_tau_target_nm := f (tg_tau_target_nm t) |}.

Definition view_imu (m : ImuSnapshot) : ImuDict :=
  {| id_quat_xyzw := map4 binary32 (fill (si_quat_xyzw m) (0, 0, 0, 1)%float);
     id_projected_gravity_b := map3 binary32 (fill (si_projected_gravity_b m) (0, 0, -1)%float);
     id_angular_velocity_rad_s :=
       map3 binary32 (fill (si_angular_velocity_rad_s m) (0, 0, 0)%float);
     id_last_quat_t := si_last_quat_t m; id_last_gyro_t := si_last_gyro_t m;
     id_quat_online := si_quat_online m; id_gyro_online := si_gyro_online m;
     id_quat_stale := si_quat_stale m; id_gyro_stale := si_gyro_stale m |}.

Definition mode_string (m : ControllerMode) : string :=
  match m with
  | Mode.DISABLED => "DISABLED" | Mode.ENABLING => "ENABLING" | Mode.NORMAL => "NORMAL"
  | Mode.DAMPING => "DAMPING" | Mode.ZERO_SETTING => "ZERO_SETTING" | Mode.ESTOP => "ESTOP"
  end%string.

(** The snapshots the controller makes: times are numbers, fault codes are
    non-negative 32-bit, the source is one of the known names. *)
Definition actuator_snapshot_ok (a : ActuatorSnapshot) : Prop :=
  not_nan (sn_last_feedback_t a) ∧
  match sn_fault_code a with Some z => 0 ≤ z < 2 ^ 31 | None => True end.

Record snapshot_ok (s : RobotSnapshot) : Prop := {
  sok_mono : not_nan (sn_timestamp_monotonic s);
  sok_unix : not_nan (sn_timestamp_unix s);
  sok_quat : not_nan (si_last_quat_t (sn_imu s));
  sok_gyro : not_nan (si_last_gyro_t (sn_imu s));
  sok_out : not_nan (so_timestamp_monotonic (sn_command_output s));
  sok_source : so_source (sn_command_output s) ∈ dict_values COMMAND_OUTPUT_SOURCE_NAMES;
  sok_actuators : Forall actuator_snapshot_ok (sn_actuators s);
  sok_count : (length (sn_actuators s) ≤ MAX_ROBOT_STATE_ACTUATORS)%nat;
  sok_targets : (length (so_targets (sn_command_output s)) ≤ MAX_ROBOT_STATE_ACTUATORS)%nat
}.

(** Close the range goals of stored fields. *)
Ltac field_range :=
  first [apply c_float_range | apply c_double_range | by apply (c_uint_range 8)
        | by apply (c_uint_range 32) | by apply (c_uint_range 64) | by apply (c_int_range 32)
        | by split].

Ltac range_conj :=
  lazymatch goal with
  | |- _ ∧ _ => split; [field_range|range_conj]
  | _ => field_range
  end.

Lemma store_actuator_wf a : cs_wf (store_actuator a).
Proof.
  change (wf_actuator_state (store_actuator a)). unfold wf_actuator_state, store_actuator.
  cbn [as_can_id as_position_rad as_velocity_rad_s as_torque_nm as_current_a as_temperature_c
    as_fault_code as_is_enabled as_last_feedback_t as_age_s as_online as_stale as_pad fst snd].
  range_conj.
Qed.

Lemma store_command_target_wf t : cs_wf (store_command_target t).
Proof.
  change (wf_command_target (store_command_target t)).
  unfold wf_command_target, store_command_target. cbn [cts_can_id cts_p_target_rad
    cts_v_target_rad_s cts_kp cts_kd cts_tau_target_nm]. range_conj.
Qed.

Lemma actuator_zero_wf : cs_wf ActuatorStateC_new.
Proof. change (wf_actuator_state ActuatorStateC_new). unfold wf_actuator_state. range_conj. Qed.

Lemma command_target_zero_wf : cs_wf CommandTargetStateC_new.
Proof. change (wf_command_target CommandTargetStateC_new). unfold wf_command_target. range_conj. Qed.

Lemma store_imu_wf m : cs_wf (store_imu m).
Proof.
  unfold cs_wf, ImuStateC_struct, imu_words, store_imu.
  destruct (fill (si_quat_xyzw m) _) as [[[? ?] ?] ?], (fill (si_projected_gravity_b m) _)
    as [[? ?] ?], (fill (si_angular_velocity_rad_s m) _) as [[? ?] ?].
  cbn -[c_uint c_double c_float Z.pow].
  change (words_in_range imu_sizes) with
    (Forall2 (λ n w, 0 ≤ w < 2 ^ (8 * Z.of_nat n)) imu_sizes).
  unfold imu_sizes.
  repeat (apply Forall2_cons; split;
    [cbv beta; first [apply c_float_range|apply c_double_range|by apply (c_uint_range 8)]|]).
  constructor.
Qed.

Lemma min_count_u32 n : u32 (Z.min (Z.of_nat n) (Z.of_nat MAX_ROBOT_STATE_ACTUATORS)).
Proof. unfold u32, MAX_ROBOT_STATE_ACTUATORS. lia. Qed.

Lemma snapshot_to_cstruct_wf now_ns s : cs_wf (snapshot_to_cstruct now_ns s).
Proof.
  assert (∀ {A} (l : list A), (length (take MAX_ROBOT_STATE_ACTUATORS l)
    ≤ MAX_ROBOT_STATE_ACTUATORS)%nat) as Ht by (intros; rewrite length_take; lia).
  split; unfold snapshot_to_cstruct; cbn [rs_timestamp_ns rs_timestamp_monotonic
    rs_timestamp_unix rs_controller_mode rs_actuator_count rs_imu rs_actuators
    rs_command_output co_timestamp_monotonic co_source co_target_count co_targets];
    try field_range; try apply min_count_u32.
  - apply store_imu_wf.
  - apply length_pad_array. by rewrite length_map.
  - apply Forall_pad_array; [apply actuator_zero_wf|].
    induction (take _ (sn_actuators s)); constructor; [apply store_actuator_wf|done].
  - apply length_pad_array. by rewrite length_map.
  - apply Forall_pad_array; [apply command_target_zero_wf|].
    induction (take _ _); constructor; [apply store_command_target_wf|done].
Qed.

(** *** Each stored part reads back as its view *)

Lemma actuator_view a :
  actuator_snapshot_ok a → _actuator_to_dict (store_actuator a) = view_actuator a.
Proof.
  intros [Ht Hf]. unfold _actuator_to_dict, view_actuator, store_actuator. cbn [as_can_id
    as_position_rad as_velocity_rad_s as_torque_nm as_current_a as_temperature_c as_fault_code
    as_is_enabled as_last_feedback_t as_age_s as_online as_stale as_pad].
  rewrite f64_roundtrip by done. unfold binary32, c_uint.
  assert (∀ b, py_bool (int_of_bool b mod 2 ^ 8) = b) as Hb by by intros [].
  rewrite !Hb. f_equal.
  - destruct (sn_fault_code a) as [z|]; [|done].
    rewrite c_int_small by (simpl; lia). by rewrite (proj2 (Z.ltb_ge z 0)) by lia.
  - by destruct (sn_is_enabled a) as [[]|].
Qed.

Lemma target_view t : _command_target_to_dict (store_command_target t) = view_target t.
Proof. done. Qed.

Lemma imu_view m :
  not_nan (si_last_quat_t m) → not_nan (si_last_gyro_t m) → imu_to_dict (store_imu m) = view_imu m.
Proof.
  intros Hq Hg. unfold imu_to_dict, view_imu, store_imu. cbn [im_quat_xyzw
    im_projected_gravity_b im_angular_velocity_rad_s im_last_quat_t im_last_gyro_t
    im_quat_online im_gyro_online im_quat_stale im_gyro_stale].
  rewrite !f64_roundtrip by done.
  assert (∀ b, py_bool (c_uint 8 (int_of_bool b)) = b) as Hb by by intros [].
  rewrite !Hb. destruct (fill (si_quat_xyzw m) _) as [[[? ?] ?] ?],
    (fill (si_projected_gravity_b m) _) as [[? ?] ?],
    (fill (si_angular_velocity_rad_s m) _) as [[? ?] ?]. done.
Qed.

Lemma mode_view m : _mode_name (c_uint 32 (Mode.value m)) = mode_string m.
Proof. by destruct m. Qed.

Lemma source_view s :
  s ∈ dict_values COMMAND_OUTPUT_SOURCE_NAMES →
  COMMAND_OUTPUT_SOURCE_NAMES_get (c_uint 32 (source_value s)) = s.
Proof.
  unfold dict_values, COMMAND_OUTPUT_SOURCE_NAMES. cbn [map snd].
  rewrite !elem_of_cons. intros [->|[->|[->|[->|[->|[->|H]]]]]]; try reflexivity.
  by apply not_elem_of_nil in H.
Qed.

Lemma take_stored {A B} (f : A → B) (e : B) l :
  (length l ≤ MAX_ROBOT_STATE_ACTUATORS)%nat →
  take (Z.to_nat (Z.min (Z.min (Z.of_nat (length l)) (Z.of_nat MAX_ROBOT_STATE_ACTUATORS))
                        (Z.of_nat MAX_ROBOT_STATE_ACTUATORS)))
    (pad_array MAX_ROBOT_STATE_ACTUATORS e (map f (take MAX_ROBOT_STATE_ACTUATORS l))) = map f l.
Proof.
  intros Hl. rewrite (take_ge l) by done.
  replace (Z.to_nat _) with (length (map f l)) by (rewrite length_map; lia).
  apply take_pad_array.
Qed.

(** C20: Telemetry. A publication that is due (or forced) is read by every process
    that maps the segment as the snapshot itself: the mode, the times, the
    inertial readings, and for every actuator and command target, in order, the
    readings rounded to binary32, with absent fault codes and enable flags absent
    again and readings hidden until a first feedback. One that is not due writes
    nothing. *)
Theorem telemetry_delivery fs (pub : ShmStatePublisher) (reader : ShmObj) (snap : RobotSnapshot)
    (now now' : float) (now_ns : Z) (force : bool) :
  shm_ready RobotStateC fs (sp_writer pub) → so_handle (sp_writer pub) = so_handle reader →
  snapshot_ok snap → 0 < now_ns < 2 ^ 64 →
  let due := force || negb (now - last_publish_t pub <? publish_period_s pub)%float in
  (due = true → ∃ fs' pub' d,
     publish now now_ns pub snap force fs = (Ok pub', fs') ∧ last_publish_t pub' = now ∧
     RobotStateShm.read_latest now' reader fs' = (Ok (Some d), fs') ∧
     rd_controller_state d = mode_string (sn_mode snap) ∧
     rd_timestamp_monotonic d = sn_timestamp_monotonic snap ∧
     rd_timestamp_unix d = sn_timestamp_unix snap ∧
     rd_imu d = view_imu (sn_imu snap) ∧
     rd_actuators d = map view_actuator (sn_actuators snap) ∧
     cod_source (rd_command_output d) = so_source (sn_command_output snap) ∧
     cod_timestamp_monotonic (rd_command_output d) =
       so_timestamp_monotonic (sn_command_output snap) ∧
     cod_targets (rd_command_output d) = map view_target (so_targets (sn_command_output snap))) ∧
  (due = false → publish now now_ns pub snap force fs = (Ok pub, fs)).
Proof.
  intros Hr Ho Hok Hns. cbv zeta. unfold publish. split; intros Hdue.
  - destruct (write_then_read fs (sp_writer pub) reader (snapshot_to_cstruct now_ns snap))
      as (fs' & Hw & _ & Hrd); [apply snapshot_to_cstruct_wf|done|done|].
    assert (negb force && (now - last_publish_t pub <? publish_period_s pub)%float = false) as ->.
    { destruct force; [done|]. by apply negb_true_iff in Hdue. }
    exists fs'. do 2 eexists. st_run. unfold RobotStateShm.write. rewrite Hw.
    split; [reflexivity|]. split; [done|]. unfold RobotStateShm.read_latest.
    unfold RobotStateShm.read_relaxed. st_run. rewrite Hrd.
    assert (rs_timestamp_ns (snapshot_to_cstruct now_ns snap) =? 0 = false) as ->.
    { apply Z.eqb_neq. cbn. unfold c_uint. rewrite Z.mod_small; lia. }
    split; [reflexivity|]. destruct Hok. unfold robot_state_to_dict, snapshot_to_cstruct.
    cbn [rd_controller_state rd_timestamp_monotonic rd_timestamp_unix rd_imu rd_actuators
      rd_command_output rs_controller_mode rs_timestamp_monotonic rs_timestamp_unix rs_imu
      rs_actuators rs_actuator_count rs_command_output cod_source cod_timestamp_monotonic
      cod_targets _command_output_to_dict co_source co_timestamp_monotonic co_target_count
      co_targets].
    rewrite mode_view, !f64_roundtrip, imu_view, source_view, !take_stored by done.
    split_and!; try done; [|by rewrite map_map].
    rewrite map_map. apply map_ext_Forall. eapply Forall_impl; [done|]. apply actuator_view.
  - apply orb_false_iff in Hdue as [-> Hdue]. by apply negb_false_iff in Hdue as ->.
Qed.

Definition example_snapshot : RobotSnapshot :=
  {| sn_mode := Mode.DAMPING; sn_timestamp_monotonic := 10; sn_timestamp_unix := 1000;
     sn_actuators :=
       [{| sn_can_id := 0x141; sn_position_rad := Some 0.5%float; sn_velocity_rad_s := None;
           sn_torque_nm := None; sn_current_a := None; sn_temperature_c := Some 30%float;
           sn_fault_code := Some 2; sn_is_enabled := Some true; sn_last_feedback_t := 9.5;
           sn_age_s := Some 0.5%float; sn_online := true; sn_stale := false |}];
     sn_imu :=
       {| si_quat_xyzw := None; si_projected_gravity_b := None;
          si_angular_velocity_rad_s := None; si_last_quat_t := 0; si_last_gyro_t := 0;
          si_quat_online := false; si_gyro_online := false; si_quat_stale := true;
          si_gyro_stale := true |};
     sn_command_output :=
       {| so_source := "DAMPING"; so_timestamp_monotonic := 9.9; so_targets := [] |} |}.

Lemma telemetry_delivery_witness :
  let o := {| so_name := "st"%string; so_handle := Some 0%nat |} in
  let fs := {| shm_names := ∅; shm_objects := {[0%nat := replicate 4096 0]}; shm_next := 1 |} in
  let pub := {| sp_writer := o; publish_period_s := 0.01; last_publish_t := 9.98 |} in
  ∃ fs' pub' d,
    publish 10 7 pub example_snapshot false fs = (Ok pub', fs') ∧
    RobotStateShm.read_latest 11 o fs' = (Ok (Some d), fs') ∧
    rd_controller_state d = "DAMPING"%string ∧
    map ad_position_rad (rd_actuators d) = [Some 0.5%float].
Proof.
  intros o fs pub.
  assert (shm_ready RobotStateC fs o) as Hr.
  { exists 0%nat, (replicate 4096 0). split; [reflexivity|]. split; [reflexivity|].
    rewrite length_replicate. apply Nat.leb_le. vm_compute. reflexivity. }
  assert (snapshot_ok example_snapshot) as Hok.
  { split; try (apply not_nan_check; vm_compute; reflexivity).
    - apply list_elem_of_In. simpl. tauto.
    - apply Forall_cons_2; [|constructor].
      split; [apply not_nan_check; vm_compute; reflexivity|simpl; lia].
    - apply Nat.leb_le. reflexivity.
    - apply Nat.leb_le. reflexivity. }
  destruct (proj1 (telemetry_delivery fs pub o example_snapshot 10 11 7 false Hr eq_refl Hok
    ltac:(lia)) ltac:(vm_compute; reflexivity))
    as (fs' & pub' & d & H1 & _ & H2 & H3 & _ & _ & _ & H4 & _).
  exists fs', pub', d. split; [exact H1|]. split; [exact H2|]. split; [exact H3|].
  rewrite H4. vm_compute. reflexivity.
Defined.
