(* ===== verification/Imu.v ===== *)
(** * The IMU: protocol interface, E2Box decoder, driver

    [hal/hardware/can/imu/{state,protocol,driver}.py] and
    [qhrr0_hw/imu/{e2box_protocol,imu_specs,robot_state}.py]. The vector
    arithmetic is written once over any operations, used on floats by the
    decoder and on rationals by the theorem about the rotation. *)

From Stdlib Require Import QArith.
From S2P Require Import Prelude PyFloat CanBus CommManager.
Open Scope Z_scope.

Definition vec3 F : Type := F * F * F.
Definition quat F : Type := F * F * F * F.       (* x, y, z, w *)

(** [class RobotPoseState] *)
Record RobotPoseState := {
  quat_xyzw : option (quat float);
  angular_velocity_rad_s : option (vec3 float);
  projected_gravity_b : option (vec3 float);
  last_quat_t : float;
  last_gyro_t : float
}.

Definition RobotPoseState_new : RobotPoseState :=
  {| quat_xyzw := None; angular_velocity_rad_s := None; projected_gravity_b := None;
     last_quat_t := 0; last_gyro_t := 0 |}.

(** [class IMUProtocolBase] *)
Class IMUProtocol (P : Type) := {
  imu_rx_can_ids : P → list Z;
  encode_request_quat : P → res CANFrame;
  encode_request_gyro : P → res CANFrame;
  encode_request_all : P → res CANFrame;
  (** [decode_frame(frame)]; the float is [time.monotonic()] in it. *)
  imu_decode_frame : P → float → CANFrame → res (option RobotPoseState);
  is_quat_frame : P → CANFrame → bool;
  is_gyro_frame : P → CANFrame → bool
}.

(** ** [class IMUDriver] *)

Section imu_driver.
Context `{IMUProtocol P}.

Record IMUDriver := {
  imu_name : string;
  imu_protocol : P;
  quat_comm : BestEffortCommManager;
  gyro_comm : BestEffortCommManager;
  imu_state : RobotPoseState
}.

Definition imu_driver_init (name : string) (protocol : P) (quat_timeout gyro_timeout : float) :
    IMUDriver :=
  {| imu_name := name; imu_protocol := protocol; quat_comm := comm_init quat_timeout;
     gyro_comm := comm_init gyro_timeout; imu_state := RobotPoseState_new |}.

Definition make_request_quat_frame (d : IMUDriver) := encode_request_quat (imu_protocol d).
Definition make_request_gyro_frame (d : IMUDriver) := encode_request_gyro (imu_protocol d).
Definition make_request_all_frame (d : IMUDriver) := encode_request_all (imu_protocol d).

Definition with_comms (d : IMUDriver) (q g : BestEffortCommManager) : IMUDriver :=
  {| imu_name := imu_name d; imu_protocol := imu_protocol d; quat_comm := q; gyro_comm := g;
     imu_state := imu_state d |}.

(** [_merge_state]: the quaternion group and the gyro group separately. Both
    receptions carry their own time, so the clock of [mark_rx] is not read. *)
Definition merge_quat (p : RobotPoseState) (d : IMUDriver) : IMUDriver :=
  match quat_xyzw p with
  | None => d
  | Some q =>
      let st := imu_state d in
      {| imu_name := imu_name d; imu_protocol := imu_protocol d;
         quat_comm := mark_rx (Some (last_quat_t p)) 0 (quat_comm d); gyro_comm := gyro_comm d;
         imu_state :=
           {| quat_xyzw := Some q; angular_velocity_rad_s := angular_velocity_rad_s st;
              projected_gravity_b := projected_gravity_b p; last_quat_t := last_quat_t p;
              last_gyro_t := last_gyro_t st |} |}
  end.

Definition merge_gyro (p : RobotPoseState) (d : IMUDriver) : IMUDriver :=
  match angular_velocity_rad_s p with
  | None => d
  | Some w =>
      let st := imu_state d in
      {| imu_name := imu_name d; imu_protocol := imu_protocol d; quat_comm := quat_comm d;
         gyro_comm := mark_rx (Some (last_gyro_t p)) 0 (gyro_comm d);
         imu_state :=
           {| quat_xyzw := quat_xyzw st; angular_velocity_rad_s := Some w;
              projected_gravity_b := projected_gravity_b st; last_quat_t := last_quat_t st;
              last_gyro_t := last_gyro_t p |} |}
  end.

Definition imu_merge_state (p : RobotPoseState) (d : IMUDriver) : IMUDriver :=
  merge_gyro p (merge_quat p d).

(** [_mark_decode_error(frame)]; the clock reads [now] and then [now']. *)
Definition _mark_decode_error (now now' : float) (frame : CANFrame) (d : IMUDriver) :
    IMUDriver :=
  if is_quat_frame (imu_protocol d) frame then
    with_comms d (mark_decode_error now (quat_comm d)) (gyro_comm d)
  else if is_gyro_frame (imu_protocol d) frame then
    with_comms d (quat_comm d) (mark_decode_error now (gyro_comm d))
  else if bool_decide (can_id frame ∈ imu_rx_can_ids (imu_protocol d)) then
    with_comms d (mark_decode_error now (quat_comm d)) (mark_decode_error now' (gyro_comm d))
  else d.

Definition imu_on_frame (now now' : float) (frame : CANFrame) (d : IMUDriver) : IMUDriver :=
  match imu_decode_frame (imu_protocol d) now frame with
  | Raise _ => _mark_decode_error now now' frame d
  | Ok None => d
  | Ok (Some p) => imu_merge_state p d
  end.

(** [update_fault_flags()] *)
Definition imu_update_fault_flags (now now' : float) (d : IMUDriver) : IMUDriver :=
  with_comms d (snd (update_fault_flags now (quat_comm d)))
               (snd (update_fault_flags now' (gyro_comm d))).

Definition imu_is_fresh (now now' : float) (d : IMUDriver) : bool * IMUDriver :=
  let '(q, qc) := update_fault_flags now (quat_comm d) in
  let '(g, gc) := update_fault_flags now' (gyro_comm d) in
  (negb (is_stale q) && negb (is_stale g), with_comms d qc gc).

Definition imu_get_state (d : IMUDriver) : RobotPoseState := imu_state d.
Definition imu_get_comm_status (d : IMUDriver) : FreshnessStatus * FreshnessStatus :=
  (get_status (quat_comm d), get_status (gyro_comm d)).
End imu_driver.
Arguments IMUDriver P : clear implicits.

(** ** Projected gravity over any arithmetic *)

Section gravity.
Context {F : Type} (zero two minus_one : F) (add sub mul : F → F → F).
Local Infix "+'" := add (at level 50, left associativity).
Local Infix "-'" := sub (at level 50, left associativity).
Local Infix "*'" := mul (at level 40, left associativity).

(** [_projected_gravity_from_xyzw] *)
Definition projected_gravity_from_xyzw (q : quat F) : vec3 F :=
  let '(qx, qy, qz, qw) := q in
  let vx := zero in let vy := zero in let vz := minus_one in
  let tx := two *' (qy *' vz -' qz *' vy) in
  let ty := two *' (qz *' vx -' qx *' vz) in
  let tz := two *' (qx *' vy -' qy *' vx) in
  let vpx := vx -' qw *' tx +' (qy *' tz -' qz *' ty) in
  let vpy := vy -' qw *' ty +' (qz *' tx -' qx *' tz) in
  let vpz := vz -' qw *' tz +' (qx *' ty -' qy *' tx) in
  (vpy, vpx, vpz).
End gravity.

(** ** [class E2BoxIMUProtocol] *)

Record E2BoxIMUProtocol := {
  request_id : Z;
  quat_id : Z;
  gyro_id : Z;
  cmd_get_quat : Z;
  cmd_get_gyro : Z;
  cmd_get_all : Z;
  quat_scale : float;
  gyro_scale : float;
  normalize_quat : bool
}.

(** [struct.unpack("<hhhh", data)] *)
Definition unpack_hhhh (data : bytes) : res (Z * Z * Z * Z) :=
  if (length data =? 8)%nat then
    Ok (to_signed 16 (le_decode (slice 0 2 data)), to_signed 16 (le_decode (slice 2 4 data)),
        to_signed 16 (le_decode (slice 4 6 data)), to_signed 16 (le_decode (slice 6 8 data)))
  else Raise StructError.

Module E2Box.
Definition encode_request (p : E2BoxIMUProtocol) (cmd : Z) : res CANFrame :=
  payload ← py_bytes [cmd];
  Ok {| can_id := request_id p; data := payload |}.

Definition _normalize_quat (q : quat float) : res (quat float) :=
  let '(qx, qy, qz, qw) := q in
  n ← py_sqrt (qx * qx + qy * qy + qz * qz + qw * qw)%float;
  if (n <? 1e-12)%float then Ok (0, 0, 0, 1)%float
  else
    x ← py_div qx n; y ← py_div qy n; z ← py_div qz n; w ← py_div qw n;
    Ok (x, y, z, w).

Definition _projected_gravity (q : quat float) : vec3 float :=
  projected_gravity_from_xyzw 0%float 2%float (-1)%float
    PrimFloat.add PrimFloat.sub PrimFloat.mul q.

Definition _decode_quat (p : E2BoxIMUProtocol) (now : float) (data : bytes) :
    res RobotPoseState :=
  if negb (length data =? 8)%nat then Raise ValueError
  else
    r ← unpack_hhhh data;
    let '(qz_raw, qy_raw, qx_raw, qw_raw) := r in
    qz ← py_div (Z2F qz_raw) (quat_scale p);
    qy ← py_div (Z2F qy_raw) (quat_scale p);
    qx ← py_div (Z2F qx_raw) (quat_scale p);
    qw ← py_div (Z2F qw_raw) (quat_scale p);
    let q := ((- qx)%float, qy, qz, qw) in
    q ← (if normalize_quat p then _normalize_quat q else Ok q);
    Ok {| quat_xyzw := Some q; angular_velocity_rad_s := None;
          projected_gravity_b := Some (_projected_gravity q);
          last_quat_t := now; last_gyro_t := 0 |}.

Definition gyro_axis (p : E2BoxIMUProtocol) (raw : Z) : res float :=
  x ← py_div (Z2F raw) (gyro_scale p);
  Ok (x * math_pi / 180)%float.

Definition _decode_gyro (p : E2BoxIMUProtocol) (now : float) (data : bytes) :
    res RobotPoseState :=
  if negb (length data =? 8)%nat then Raise ValueError
  else
    r ← unpack_hhhh data;
    let '(gx_raw, gy_raw, gz_raw, _) := r in
    gx ← gyro_axis p gx_raw;
    gy ← gyro_axis p gy_raw;
    gz ← gyro_axis p gz_raw;
    Ok {| quat_xyzw := None; angular_velocity_rad_s := Some (gy, gx, gz);
          projected_gravity_b := None; last_quat_t := 0; last_gyro_t := now |}.

Definition decode_frame (p : E2BoxIMUProtocol) (now : float) (frame : CANFrame) :
    res (option RobotPoseState) :=
  if can_id frame =? quat_id p then Some <$> _decode_quat p now (data frame)
  else if can_id frame =? gyro_id p then Some <$> _decode_gyro p now (data frame)
  else Ok None.
End E2Box.

(** The two frame tests are the base class's, which answer [False]. *)
#[export] Instance e2box_protocol : IMUProtocol E2BoxIMUProtocol := {
  imu_rx_can_ids p := [quat_id p; gyro_id p];
  encode_request_quat p := E2Box.encode_request p (cmd_get_quat p);
  encode_request_gyro p := E2Box.encode_request p (cmd_get_gyro p);
  encode_request_all p := E2Box.encode_request p (cmd_get_all p);
  imu_decode_frame := E2Box.decode_frame;
  is_quat_frame _ _ := false;
  is_gyro_frame _ _ := false
}.

(** [class QHRR0ImuSpec] *)
Record QHRR0ImuSpec := {
  is_name : string;
  is_request_id : Z;
  is_quat_id : Z;
  is_gyro_id : Z;
  is_cmd_get_quat : Z;
  is_cmd_get_gyro : Z;
  is_cmd_get_all : Z;
  is_quat_scale : float;
  is_gyro_scale : float;
  is_normalize_quat : bool
}.

(** [RobotController._create_imu_driver]; both timeouts are
    [config.can.command_timeout_s]. *)
Definition create_imu_driver (spec : QHRR0ImuSpec) (command_timeout_s : float) :
    IMUDriver E2BoxIMUProtocol :=
  imu_driver_init (is_name spec)
    {| request_id := is_request_id spec; quat_id := is_quat_id spec;
       gyro_id := is_gyro_id spec; cmd_get_quat := is_cmd_get_quat spec;
       cmd_get_gyro := is_cmd_get_gyro spec; cmd_get_all := is_cmd_get_all spec;
       quat_scale := is_quat_scale spec; gyro_scale := is_gyro_scale spec;
       normalize_quat := is_normalize_quat spec |}
    command_timeout_s command_timeout_s.

(** ** Properties *)

(** Four signed 16-bit readings as the sensor sends them. *)
Definition hhhh_bytes (a b c d : Z) : bytes :=
  le_encode 2 a ++ le_encode 2 b ++ le_encode 2 c ++ le_encode 2 d.

Definition i16 (z : Z) : Prop := -32768 ≤ z ≤ 32767.

Lemma unpack_hhhh_bytes a b c d :
  i16 a → i16 b → i16 c → i16 d → unpack_hhhh (hhhh_bytes a b c d) = Ok (a, b, c, d).
Proof.
  unfold i16. intros Ha Hb Hc Hd.
  assert (∀ z, -32768 ≤ z ≤ 32767 → to_signed 16 (le_decode (le_encode 2 z)) = z) as Hs.
  { intros z Hz. rewrite le_decode_encode. apply to_signed_mod; simpl; lia. }
  pose proof (Hs a Ha) as Ea. pose proof (Hs b Hb) as Eb.
  pose proof (Hs c Hc) as Ec. pose proof (Hs d Hd) as Ed.
  pose proof (length_le_encode 2 a). pose proof (length_le_encode 2 b).
  pose proof (length_le_encode 2 c). pose proof (length_le_encode 2 d).
  unfold hhhh_bytes, unpack_hhhh.
  destruct (le_encode 2 a) as [|a0 [|a1 [|]]], (le_encode 2 b) as [|b0 [|b1 [|]]],
    (le_encode 2 c) as [|c0 [|c1 [|]]], (le_encode 2 d) as [|d0 [|d1 [|]]]; try done.
  cbn -[to_signed le_decode]. by rewrite Ea, Eb, Ec, Ed.
Qed.

Lemma length_hhhh_bytes a b c d : length (hhhh_bytes a b c d) = 8%nat.
Proof. unfold hhhh_bytes. by rewrite !length_app, !length_le_encode. Qed.

Lemma py_div_nz x y : (y =? 0)%float = false → py_div x y = Ok (x / y)%float.
Proof. intros H. unfold py_div. by rewrite H. Qed.


Definition example_imu : IMUDriver E2BoxIMUProtocol :=
  create_imu_driver
    {| is_name := "e2box"; is_request_id := 0x221; is_quat_id := 0x222; is_gyro_id := 0x223;
       is_cmd_get_quat := 1; is_cmd_get_gyro := 2; is_cmd_get_all := 3;
       is_quat_scale := 10000; is_gyro_scale := 100; is_normalize_quat := false |} 0.1%float.


(** Projected gravity. The formula of the decoder, over the rationals, gives a
    vector of unit length whenever the quaternion has unit length; in general
    the squared lengths satisfy [|g|^2 = 1 + 4 (x^2 + y^2) (|q|^2 - 1)], so an
    unnormalised quaternion distorts it by no more than that. The upright
    quaternion projects to straight down. *)
Theorem projected_gravity_unit (x y z w : Q) :
  let '(gx, gy, gz) :=
    projected_gravity_from_xyzw 0%Q 2%Q (-1)%Q Qplus Qminus Qmult (x, y, z, w) in
  (gx * gx + gy * gy + gz * gz ==
     1 + 4 * (x * x + y * y) * (x * x + y * y + z * z + w * w - 1))%Q ∧
  (x * x + y * y + z * z + w * w == 1 → gx * gx + gy * gy + gz * gz == 1)%Q ∧
  E2Box._projected_gravity (0, 0, 0, 1)%float = (0, 0, -1)%float.
Proof.
  unfold projected_gravity_from_xyzw.
  match goal with |- ?P ∧ _ => assert P as H by ring end.
  split; [exact H|]. split; [|vm_compute; reflexivity].
  intros Hu. rewrite H, Hu. ring.
Qed.

Lemma projected_gravity_unit_witness :
  let q := (3 # 5, 0, 4 # 5, 0)%Q in
  let '(gx, gy, gz) := projected_gravity_from_xyzw 0%Q 2%Q (-1)%Q Qplus Qminus Qmult q in
  (gx * gx + gy * gy + gz * gz == 1)%Q.
Proof.
  cbv zeta. exact (proj1 (proj2 (projected_gravity_unit (3 # 5) 0 (4 # 5) 0)) ltac:(reflexivity)).
Defined.
