(* ===== verification/Config.v ===== *)
(** * Configuration

    [robot_controller/core/{platform_config,config}.py]: the YAML mappings the
    robot is configured from, parsed into dataclasses. A YAML document is a
    [json] value (mappings with string keys). What is not the program's own is a
    parameter: reading a YAML file, resolving a path, and Python's conversions
    between floats and text. *)

From Stdlib Require Import Ascii.
From stdpp Require Import pretty.
From S2P Require Import Prelude PyFloat PyDict CanBus Wire SpgProtocol Imu CommManager.
From S2P Require Import ActuatorDriver.

Abbreviation mapping := (dict string json).

(** ** Dataclasses *)

Record PlatformRobotAssetConfig := {
  model_path : string; policy_config_dir : string; pd_config_path : string }.

Record PlatformCanConfig := {
  pc_interface : string; pc_bitrate : Z; pc_daemon_socket : string }.

Record PlatformShmConfig := {
  ps_mit_command : string;
  ps_aux_command : string;
  ps_operator_command : string;
  ps_control_state : string;
  ps_dashboard_state : string
}.

Record PlatformImuConfig := {
  pi_type : string;
  pi_request_id : Z;
  pi_quat_id : Z;
  pi_gyro_id : Z;
  pi_cmd_get_quat : Z;
  pi_cmd_get_gyro : Z;
  pi_cmd_get_all : Z;
  pi_quat_scale : float;
  pi_gyro_scale : float;
  pi_normalize_quat : bool
}.

Record PlatformSpgMitConfig := {
  p_max_rad : float;
  pm_v_max_rad_s : float;
  pm_kp_max : float;
  pm_kd_max : float;
  pm_tau_max_nm : float;
  feedback_position_max_rad : float;
  iq_full_scale_count : float;
  iq_full_scale_current_a : float
}.

Record PlatformActuatorConfig := {
  pa_name : string;
  pa_enabled : bool;
  pa_can_id : Z;
  pa_mujoco_joint : string;
  pa_mujoco_actuator : string;
  pa_sign : float;
  pa_offset_rad : float
}.

Record PlatformConfig := {
  pf_path : string;
  pf_robot_name : string;                          (* PlatformRobotConfig *)
  pf_robots : dict string PlatformRobotAssetConfig;
  pf_can : PlatformCanConfig;
  pf_shm : PlatformShmConfig;
  pf_imu : PlatformImuConfig;
  pf_spg_mit : PlatformSpgMitConfig;
  pf_actuators : list PlatformActuatorConfig
}.

Definition enabled_actuators (p : PlatformConfig) : list PlatformActuatorConfig :=
  filter (λ a, pa_enabled a = true) (pf_actuators p).

(** ** Reading values *)

(** [int(text, 0)]: a prefix gives the base; a decimal number has no leading
    zero. *)
Definition digit_in (base : Z) (c : ascii) : option Z :=
  let n := Z.of_nat (nat_of_ascii c) in
  let v :=
    if (48 <=? n) && (n <=? 57) then n - 48
    else if (97 <=? n) && (n <=? 122) then n - 87
    else if (65 <=? n) && (n <=? 90) then n - 55
    else 99 in
  if v <? base then Some v else None.

Fixpoint based_value (base acc : Z) (after_digit : bool) (l : list ascii) : option Z :=
  match l with
  | [] => if after_digit then Some acc else None
  | c :: l =>
      match digit_in base c with
      | Some d => based_value base (base * acc + d) true l
      | None =>
          if after_digit && bool_decide (c = "_"%char) then based_value base acc false l else None
      end
  end.

Definition is_one_of (c : ascii) (a b : ascii) : bool := bool_decide (c = a ∨ c = b).

Definition unsigned_value (l : list ascii) : option Z :=
  match l with
  | "0"%char :: c :: l' =>
      if is_one_of c "x" "X" then
        based_value 16 0 false (match l' with "_"%char :: l'' => l'' | _ => l' end)
      else if is_one_of c "o" "O" then
        based_value 8 0 false (match l' with "_"%char :: l'' => l'' | _ => l' end)
      else if is_one_of c "b" "B" then
        based_value 2 0 false (match l' with "_"%char :: l'' => l'' | _ => l' end)
      else
        match based_value 10 0 true (c :: l') with
        | Some 0 => Some 0                          (* only zeros *)
        | _ => None
        end
  | _ => based_value 10 0 false l
  end.

Definition py_int0 (s : string) : res Z :=
  let r :=
    match strip (String.list_ascii_of_string s) with
    | "+"%char :: l => unsigned_value l
    | "-"%char :: l => Z.opp <$> unsigned_value l
    | l => unsigned_value l
    end in
  match r with Some z => Ok z | None => Raise ValueError end.

Example py_int0_ex :
  map py_int0 ["0x141"; "321"; "010"; "0"; "-0b101"; " 0o17 "; "0x"; ""]%string
  = [Ok 0x141; Ok 321; Raise ValueError; Ok 0; Ok (-5); Ok 15; Raise ValueError;
     Raise ValueError].
Proof. vm_compute. reflexivity. Qed.

(** [parse_int(value)] *)
Definition parse_int (j : json) : res Z :=
  match j with JStr s => py_int0 s | _ => json_int j end.

(** [require_key(mapping, key, path)] and its relatives; [err] is
    [PlatformConfigError] in platform_config.py and [ConfigError] in config.py. *)
Definition require_key (err : exn) (m : mapping) (key : string) : res json :=
  match dict_get key m with Some v => Ok v | None => Raise err end.

Definition require_mapping (err : exn) (m : mapping) (key : string) : res mapping :=
  v ← require_key err m key;
  match v with JObj d => Ok d | _ => Raise err end.

Definition require_list (err : exn) (m : mapping) (key : string) : res (list json) :=
  v ← require_key err m key;
  match v with JList l => Ok l | _ => Raise err end.

(** Those of config.py. *)
Definition _require_key : mapping → string → res json := require_key ConfigError.
Definition _require_mapping : mapping → string → res mapping := require_mapping ConfigError.
Definition _require_list : mapping → string → res (list json) := require_list ConfigError.

Definition _require_bool (m : mapping) (key : string) : res bool :=
  v ← _require_key m key;
  match v with JBool b => Ok b | _ => Raise ConfigError end.

Definition _require_int (m : mapping) (key : string) : res Z :=
  v ← _require_key m key; json_int v.

Definition _require_int_list (m : mapping) (key : string) : res (list Z) :=
  v ← _require_list m key; mapR parse_int v.

(** Python's text of a float, its parser of one, the YAML reader and
    [(Path(base).parent / value).resolve()]. *)
Record Platform := {
  str_of_float : float → string;
  float_of_string : string → res float;
  str_of_json : json → string;                (* [str()] of lists and mappings *)
  read_yaml : string → res json;
  resolve_path : string → string → string
}.

Section loading.
Context (py : Platform).

(** [str(value)] *)
Definition py_str (j : json) : string :=
  match j with
  | JStr s => s
  | JInt z => pretty z
  | JBool b => if b then "True" else "False"
  | JNull => "None"
  | JFloat x => str_of_float py x
  | _ => str_of_json py j
  end%string.

(** [float(value)] *)
Definition py_float (j : json) : res float :=
  match j with
  | JFloat x => Ok x
  | JInt z => py_float_of_int z
  | JBool b => Ok (if b then 1 else 0)%float
  | JStr s => float_of_string py s
  | _ => Raise TypeError
  end.

Definition key_str (err : exn) (m : mapping) (key : string) : res string :=
  v ← require_key err m key; Ok (py_str v).
Definition key_float (err : exn) (m : mapping) (key : string) : res float :=
  v ← require_key err m key; py_float v.
Definition key_int (err : exn) (m : mapping) (key : string) : res Z :=
  v ← require_key err m key; json_int v.
Definition key_parse_int (err : exn) (m : mapping) (key : string) : res Z :=
  v ← require_key err m key; parse_int v.
Definition key_bool (err : exn) (m : mapping) (key : string) : res bool :=
  v ← require_key err m key; Ok (json_truthy v).

Definition _require_float := key_float ConfigError.

(** [load_yaml_mapping(path)] *)
Definition load_yaml_mapping (path : string) : res mapping :=
  raw ← read_yaml py path;
  match raw with JObj d => Ok d | _ => Raise PlatformConfigError end.

(** [resolve_config_path(base_path, value, path)] *)
Definition resolve_config_path (base_path value : string) : res string :=
  if decide (value = ""%string) then Raise PlatformConfigError
  else Ok (resolve_path py base_path value).

(** ** platform_config.py *)

Definition parse_robot_asset (item : json) : res PlatformRobotAssetConfig :=
  match item with
  | JObj d =>
      a ← key_str PlatformConfigError d "model_path";
      b ← key_str PlatformConfigError d "policy_config_dir";
      c ← key_str PlatformConfigError d "pd_config_path";
      Ok {| model_path := a; policy_config_dir := b; pd_config_path := c |}
  | _ => Raise PlatformConfigError
  end.

Fixpoint parse_robots (robots : dict string PlatformRobotAssetConfig) (l : mapping) :
    res (dict string PlatformRobotAssetConfig) :=
  match l with
  | [] => Ok robots
  | (name, item) :: l => a ← parse_robot_asset item; parse_robots (dict_set name a robots) l
  end.

(** [parse_robot_assets(raw)] *)
Definition parse_robot_assets (raw : mapping) : res (dict string PlatformRobotAssetConfig) :=
  robots ← parse_robots [] raw;
  if bool_decide (length robots = 0%nat) then Raise PlatformConfigError else Ok robots.

(** One iteration of [parse_actuators], after the names and identifiers seen. *)
Definition parse_actuator (seen_names : list string) (seen_can_ids : list Z) (item : json) :
    res PlatformActuatorConfig :=
  match item with
  | JObj d =>
      name ← key_str PlatformConfigError d "name";
      can_id ← key_parse_int PlatformConfigError d "can_id";
      if bool_decide (name ∈ seen_names) then Raise PlatformConfigError
      else if bool_decide (can_id ∈ seen_can_ids) then Raise PlatformConfigError
      else
        enabled ← key_bool PlatformConfigError d "enabled";
        joint ← key_str PlatformConfigError d "mujoco_joint";
        act ← key_str PlatformConfigError d "mujoco_actuator";
        sign ← key_float PlatformConfigError d "sign";
        off ← key_float PlatformConfigError d "offset_rad";
        Ok {| pa_name := name; pa_enabled := enabled; pa_can_id := can_id;
              pa_mujoco_joint := joint; pa_mujoco_actuator := act; pa_sign := sign;
              pa_offset_rad := off |}
  | _ => Raise PlatformConfigError
  end.

(** The loop; the two [seen] sets hold the names and identifiers of [acc]. *)
Fixpoint parse_actuator_items (acc : list PlatformActuatorConfig) (raw : list json) :
    res (list PlatformActuatorConfig) :=
  match raw with
  | [] => Ok acc
  | item :: raw =>
      a ← parse_actuator (map pa_name acc) (map pa_can_id acc) item;
      parse_actuator_items (acc ++ [a]) raw
  end.

(** [parse_actuators(raw)] *)
Definition parse_actuators (raw : list json) : res (list PlatformActuatorConfig) :=
  actuators ← parse_actuator_items [] raw;
  if bool_decide (length actuators = 0%nat) then Raise PlatformConfigError
  else if negb (existsb pa_enabled actuators) then Raise PlatformConfigError
  else Ok actuators.

(** [load_platform_config(path)]; [path] is resolved already. *)
Definition load_platform_config (path : string) : res PlatformConfig :=
  let err := PlatformConfigError in
  raw ← load_yaml_mapping path;
  robot_raw ← require_mapping err raw "robot";
  can_raw ← require_mapping err raw "can";
  shm_raw ← require_mapping err raw "shm";
  imu_raw ← require_mapping err raw "imu";
  spg_raw ← require_mapping err raw "spg_mit";
  robot_name ← key_str err robot_raw "name";
  robots_raw ← require_mapping err raw "robots";
  robots ← parse_robot_assets robots_raw;
  interface ← key_str err can_raw "interface";
  bitrate ← key_int err can_raw "bitrate";
  daemon_socket ← key_str err can_raw "daemon_socket";
  mit_command ← key_str err shm_raw "mit_command";
  aux_command ← key_str err shm_raw "aux_command";
  operator_command ← key_str err shm_raw "operator_command";
  control_state ← key_str err shm_raw "control_state";
  dashboard_state ← key_str err shm_raw "dashboard_state";
  imu_type ← key_str err imu_raw "type";
  request_id ← key_parse_int err imu_raw "request_id";
  quat_id ← key_parse_int err imu_raw "quat_id";
  gyro_id ← key_parse_int err imu_raw "gyro_id";
  cmd_get_quat ← key_parse_int err imu_raw "cmd_get_quat";
  cmd_get_gyro ← key_parse_int err imu_raw "cmd_get_gyro";
  cmd_get_all ← key_parse_int err imu_raw "cmd_get_all";
  quat_scale ← key_float err imu_raw "quat_scale";
  gyro_scale ← key_float err imu_raw "gyro_scale";
  normalize_quat ← key_bool err imu_raw "normalize_quat";
  p_max ← key_float err spg_raw "p_max_rad";
  v_max ← key_float err spg_raw "v_max_rad_s";
  kp_max ← key_float err spg_raw "kp_max";
  kd_max ← key_float err spg_raw "kd_max";
  tau_max ← key_float err spg_raw "tau_max_nm";
  feedback_max ← key_float err spg_raw "feedback_position_max_rad";
  iq_count ← key_float err spg_raw "iq_full_scale_count";
  iq_current ← key_float err spg_raw "iq_full_scale_current_a";
  actuators_raw ← require_list err raw "actuators";
  actuators ← parse_actuators actuators_raw;
  if negb (dict_mem robot_name robots) then Raise PlatformConfigError
  else Ok
    {| pf_path := path; pf_robot_name := robot_name; pf_robots := robots;
       pf_can := {| pc_interface := interface; pc_bitrate := bitrate;
                    pc_daemon_socket := daemon_socket |};
       pf_shm :=
         {| ps_mit_command := mit_command; ps_aux_command := aux_command;
            ps_operator_command := operator_command; ps_control_state := control_state;
            ps_dashboard_state := dashboard_state |};
       pf_imu :=
         {| pi_type := imu_type; pi_request_id := request_id; pi_quat_id := quat_id;
            pi_gyro_id := gyro_id; pi_cmd_get_quat := cmd_get_quat;
            pi_cmd_get_gyro := cmd_get_gyro; pi_cmd_get_all := cmd_get_all;
            pi_quat_scale := quat_scale; pi_gyro_scale := gyro_scale;
            pi_normalize_quat := normalize_quat |};
       pf_spg_mit :=
         {| p_max_rad := p_max; pm_v_max_rad_s := v_max; pm_kp_max := kp_max;
            pm_kd_max := kd_max; pm_tau_max_nm := tau_max;
            feedback_position_max_rad := feedback_max; iq_full_scale_count := iq_count;
            iq_full_scale_current_a := iq_current |};
       pf_actuators := actuators |}.
End loading.

(** ** config.py *)

Record ProcessConfig := {
  pr_name : string;
  pr_command : list string;
  pr_start_order : Z;
  pr_stop_order : Z;
  pr_new_terminal : bool;
  pr_terminal_command : list string;
  pr_working_dir : string;
  pr_env : dict string string
}.

Record MitCommandShmConfig := { mc_name : string; target_count : Z }.
Record RobotStateShmConfig := { rc_name : string; rc_size_bytes : Z; rc_publish_hz : float }.
Record OperatorCommandShmConfig := { opc_name : string; opc_size_bytes : Z }.

Record ShmConfig := {
  cleanup_stale_on_start : bool;
  unlink_on_shutdown : bool;
  mit_command : MitCommandShmConfig;
  aux_command : RobotStateShmConfig;
  operator_command : OperatorCommandShmConfig;
  control_state : RobotStateShmConfig;
  dashboard_state : RobotStateShmConfig
}.

Record MotorConfig := {
  mo_can_ids : list Z; enter_on_start : bool; exit_on_shutdown : bool; set_zero_on_start : bool }.

Record ImuConfig := {
  imu_enabled : bool;
  request_all_on_start : bool;
  request_all_each_tick : bool;
  startup_request_count : Z;
  startup_request_delay_s : float
}.

Record CANDaemonConfig := {
  rx_timeout_s : float;
  tx_timeout_s : float;
  join_timeout_s : float;
  cd_max_tx_queue_size : Z;
  send_block : bool;
  send_timeout_s : option float;
  ipc_socket_path : string;
  cd_connect_timeout_s : float
}.

Record MitProtocolRangeConfig := {
  mr_position_rad : float;
  mr_velocity_rad_s : float;
  mr_kp : float;
  mr_kd : float;
  mr_torque_ff_nm : float;
  mr_feedback_position_rad : float
}.

Record CanConfig := {
  cc_interface : string;
  command_timeout_s : float;
  bringup_delay_s : float;
  cc_daemon : CANDaemonConfig;
  cc_motors : MotorConfig;
  cc_imu : ImuConfig;
  mit_protocol_range : MitProtocolRangeConfig
}.

Record RobotControllerCoreConfig := {
  core_name : string; control_hz : float; shutdown_timeout_s : float }.

Record HardwareSafetyConfig := {
  allow_real_can : bool;
  require_manual_arm : bool;
  require_estop : bool;
  allow_enable_on_start : bool;
  allowed_can_interfaces : list string
}.

Record SafetyPolicyConfig := {
  velocity_damping_kd : float;
  damping_timeout_s : float;
  command_loss_action : string;
  feedback_stale_action : string
}.

Record RobotControllerConfig := {
  cfg_platform : PlatformConfig;
  cfg_runtime_mode : string;                       (* RuntimeModeConfig *)
  cfg_hardware : HardwareSafetyConfig;
  cfg_safety : SafetyPolicyConfig;
  cfg_enable_duration_s : float;                   (* StateMachineConfig *)
  cfg_core : RobotControllerCoreConfig;
  cfg_shm : ShmConfig;
  cfg_can : CanConfig;
  cfg_processes : list ProcessConfig
}.

Section config_loading.
Context (py : Platform).

(** [_optional_float_or_none] *)
Definition _optional_float_or_none (m : mapping) (key : string) : res (option float) :=
  v ← _require_key m key;
  match v with JNull => Ok None | _ => Some <$> py_float py v end.

(** [_process_config(item, index)] *)
Definition _process_config (item : json) : res ProcessConfig :=
  match item with
  | JObj d =>
      command ← _require_list d "command";
      if bool_decide (length command = 0%nat) then Raise ConfigError
      else
        env ← _require_mapping d "env";
        name ← key_str py ConfigError d "name";
        start_order ← _require_int d "start_order";
        stop_order ← _require_int d "stop_order";
        new_terminal ← _require_bool d "new_terminal";
        terminal_command ← _require_list d "terminal_command";
        working_dir ← key_str py ConfigError d "working_dir";
        Ok {| pr_name := name; pr_command := map (py_str py) command;
              pr_start_order := start_order; pr_stop_order := stop_order;
              pr_new_terminal := new_terminal;
              pr_terminal_command := map (py_str py) terminal_command;
              pr_working_dir := working_dir;
              pr_env := dict_of (map (λ '(k, v), (k, py_str py v)) env) |}
  | _ => Raise ConfigError
  end.

Definition _load_processes (path : string) : res (list ProcessConfig) :=
  raw ← load_yaml_mapping py path;
  items ← _require_list raw "processes";
  mapR _process_config items.

Definition load_state_shm (raw : mapping) (name : string) : res RobotStateShmConfig :=
  size ← _require_int raw "size_bytes";
  hz ← _require_float py raw "publish_hz";
  Ok {| rc_name := name; rc_size_bytes := size; rc_publish_hz := hz |}.

Definition load_hardware (raw : mapping) : res HardwareSafetyConfig :=
  real ← _require_bool raw "allow_real_can";
  arm ← _require_bool raw "require_manual_arm";
  estop ← _require_bool raw "require_estop";
  enable ← _require_bool raw "allow_enable_on_start";
  ifs ← _require_list raw "allowed_can_interfaces";
  Ok {| allow_real_can := real; require_manual_arm := arm; require_estop := estop;
        allow_enable_on_start := enable; allowed_can_interfaces := map (py_str py) ifs |}.

Definition load_safety (raw : mapping) : res SafetyPolicyConfig :=
  kd ← _require_float py raw "velocity_damping_kd";
  t ← _require_float py raw "damping_timeout_s";
  loss ← key_str py ConfigError raw "command_loss_action";
  stale ← key_str py ConfigError raw "feedback_stale_action";
  Ok {| velocity_damping_kd := kd; damping_timeout_s := t; command_loss_action := loss;
        feedback_stale_action := stale |}.

Definition load_core (raw : mapping) : res RobotControllerCoreConfig :=
  name ← key_str py ConfigError raw "name";
  hz ← _require_float py raw "control_hz";
  t ← _require_float py raw "shutdown_timeout_s";
  Ok {| core_name := name; control_hz := hz; shutdown_timeout_s := t |}.

Definition load_daemon (raw : mapping) (p : PlatformConfig) : res CANDaemonConfig :=
  rx ← _require_float py raw "rx_timeout_s";
  tx ← _require_float py raw "tx_timeout_s";
  join ← _require_float py raw "join_timeout_s";
  size ← _require_int raw "max_tx_queue_size";
  block ← _require_bool raw "send_block";
  timeout ← _optional_float_or_none raw "send_timeout_s";
  conn ← _require_float py raw "connect_timeout_s";
  Ok {| rx_timeout_s := rx; tx_timeout_s := tx; join_timeout_s := join;
        cd_max_tx_queue_size := size; send_block := block; send_timeout_s := timeout;
        ipc_socket_path := pc_daemon_socket (pf_can p); cd_connect_timeout_s := conn |}.

Definition load_motors (raw : mapping) (p : PlatformConfig) : res MotorConfig :=
  enter ← _require_bool raw "enter_on_start";
  exit_ ← _require_bool raw "exit_on_shutdown";
  zero ← _require_bool raw "set_zero_on_start";
  Ok {| mo_can_ids := map pa_can_id (enabled_actuators p); enter_on_start := enter;
        exit_on_shutdown := exit_; set_zero_on_start := zero |}.

Definition load_imu (raw : mapping) : res ImuConfig :=
  en ← _require_bool raw "enabled";
  start ← _require_bool raw "request_all_on_start";
  tick ← _require_bool raw "request_all_each_tick";
  count ← _require_int raw "startup_request_count";
  delay ← _require_float py raw "startup_request_delay_s";
  Ok {| imu_enabled := en; request_all_on_start := start; request_all_each_tick := tick;
        startup_request_count := count; startup_request_delay_s := delay |}.

Definition mit_range (s : PlatformSpgMitConfig) : MitProtocolRangeConfig :=
  {| mr_position_rad := p_max_rad s; mr_velocity_rad_s := pm_v_max_rad_s s;
     mr_kp := pm_kp_max s; mr_kd := pm_kd_max s; mr_torque_ff_nm := pm_tau_max_nm s;
     mr_feedback_position_rad := feedback_position_max_rad s |}.

(** [load_robot_controller_config(path)]: the call of [_validate_config] at its
    end is commented out. *)
Definition load_robot_controller_config (config_path : string) : res RobotControllerConfig :=
  let err := ConfigError in
  raw ← load_yaml_mapping py config_path;
  platform_value ← key_str py err raw "platform_config";
  platform_path ← resolve_config_path py config_path platform_value;
  platform ← load_platform_config py platform_path;
  runtime_raw ← _require_mapping raw "runtime";
  hardware_raw ← _require_mapping raw "hardware";
  safety_raw ← _require_mapping raw "safety";
  state_machine_raw ← _require_mapping raw "state_machine";
  core_raw ← _require_mapping raw "robot_controller";
  shm_raw ← _require_mapping raw "shm";
  aux_raw ← _require_mapping shm_raw "aux_command";
  operator_raw ← _require_mapping shm_raw "operator_command";
  control_raw ← _require_mapping shm_raw "control_state";
  dashboard_raw ← _require_mapping shm_raw "dashboard_state";
  can_raw ← _require_mapping raw "can";
  daemon_raw ← _require_mapping can_raw "daemon";
  motors_raw ← _require_mapping can_raw "motors";
  imu_raw ← _require_mapping can_raw "imu";
  processes_value ← key_str py err raw "processes_config";
  processes_path ← resolve_config_path py config_path processes_value;
  processes ← _load_processes processes_path;
  mode ← key_str py err runtime_raw "mode";
  hardware ← load_hardware hardware_raw;
  safety ← load_safety safety_raw;
  enable_duration ← _require_float py state_machine_raw "enable_duration_s";
  core ← load_core core_raw;
  cleanup ← _require_bool shm_raw "cleanup_stale_on_start";
  unlink ← _require_bool shm_raw "unlink_on_shutdown";
  aux ← load_state_shm aux_raw (ps_aux_command (pf_shm platform));
  op_size ← _require_int operator_raw "size_bytes";
  control ← load_state_shm control_raw (ps_control_state (pf_shm platform));
  dashboard ← load_state_shm dashboard_raw (ps_dashboard_state (pf_shm platform));
  command_timeout ← _require_float py can_raw "command_timeout_s";
  bringup ← _require_float py can_raw "bringup_delay_s";
  daemon ← load_daemon daemon_raw platform;
  motors ← load_motors motors_raw platform;
  imu ← load_imu imu_raw;
  Ok {| cfg_platform := platform; cfg_runtime_mode := mode; cfg_hardware := hardware;
        cfg_safety := safety; cfg_enable_duration_s := enable_duration; cfg_core := core;
        cfg_shm :=
          {| cleanup_stale_on_start := cleanup; unlink_on_shutdown := unlink;
             mit_command :=
               {| mc_name := ps_mit_command (pf_shm platform);
                  target_count := Z.of_nat (length (enabled_actuators platform)) |};
             aux_command := aux;
             operator_command :=
               {| opc_name := ps_operator_command (pf_shm platform);
                  opc_size_bytes := op_size |};
             control_state := control; dashboard_state := dashboard |};
        cfg_can :=
          {| cc_interface := pc_interface (pf_can platform);
             command_timeout_s := command_timeout; bringup_delay_s := bringup;
             cc_daemon := daemon; cc_motors := motors; cc_imu := imu;
             mit_protocol_range := mit_range (pf_spg_mit platform) |};
        cfg_processes := processes |}.
End config_loading.

(** [_validate_config(config)]: each [if ...: raise ConfigError] is a check that
    must hold. Comparisons with NaN are false, as in Python. *)
Definition require (b : bool) : res unit := guard_ok b ConfigError.

Definition nonempty {A} (l : list A) : bool := negb (bool_decide (length l = 0%nat)).
Definition shm_names_of (s : ShmConfig) : list string :=
  [mc_name (mit_command s); rc_name (aux_command s); opc_name (operator_command s);
   rc_name (control_state s); rc_name (dashboard_state s)].

Definition validate_safety (c : RobotControllerConfig) : res unit :=
  let s := cfg_safety c in
  let actions := ["damping"; "disable"; "fault"]%string in
  _ ← require (bool_decide (cfg_runtime_mode c ∈ ["simulation"; "hardware"]%string));
  _ ← require (nonempty (allowed_can_interfaces (cfg_hardware c)));
  _ ← require (negb (velocity_damping_kd s <? 0)%float);
  _ ← require (negb (damping_timeout_s s <=? 0)%float);
  _ ← require (bool_decide (command_loss_action s ∈ actions));
  _ ← require (bool_decide (feedback_stale_action s ∈ actions));
  _ ← require (negb (control_hz (cfg_core c) <=? 0)%float);
  _ ← require (negb (shutdown_timeout_s (cfg_core c) <? 0)%float);
  require (negb (cfg_enable_duration_s c <? 0)%float).

Definition validate_shm (s : ShmConfig) : res unit :=
  _ ← require (0 <? target_count (mit_command s));
  _ ← require (4096 <=? rc_size_bytes (control_state s));
  _ ← require (negb (rc_publish_hz (control_state s) <=? 0)%float);
  _ ← require (4096 <=? rc_size_bytes (aux_command s));
  _ ← require (negb (rc_publish_hz (aux_command s) <=? 0)%float);
  _ ← require (4096 <=? opc_size_bytes (operator_command s));
  _ ← require (4096 <=? rc_size_bytes (dashboard_state s));
  _ ← require (negb (rc_publish_hz (dashboard_state s) <=? 0)%float);
  require (bool_decide (NoDup (shm_names_of s))).

Definition validate_can (c : RobotControllerConfig) : res unit :=
  let can := cfg_can c in
  let d := cc_daemon can in
  let r := mit_protocol_range can in
  let ids := mo_can_ids (cc_motors can) in
  _ ← require (negb (command_timeout_s can <=? 0)%float);
  _ ← require (negb (bringup_delay_s can <? 0)%float);
  _ ← require (negb (rx_timeout_s d <? 0)%float);
  _ ← require (negb (tx_timeout_s d <? 0)%float);
  _ ← require (negb (join_timeout_s d <? 0)%float);
  _ ← require (0 <? cd_max_tx_queue_size d);
  _ ← require (match send_timeout_s d with Some t => negb (t <? 0)%float | None => true end);
  _ ← require (negb (bool_decide (ipc_socket_path d = ""%string)));
  _ ← require (negb (cd_connect_timeout_s d <=? 0)%float);
  _ ← require (nonempty ids);
  _ ← require (bool_decide (NoDup ids));
  _ ← require (target_count (mit_command (cfg_shm c)) =? Z.of_nat (length ids));
  _ ← require (0 <=? startup_request_count (cc_imu can));
  _ ← require (negb (startup_request_delay_s (cc_imu can) <? 0)%float);
  _ ← require (negb (mr_position_rad r <=? 0)%float);
  _ ← require (negb (mr_velocity_rad_s r <=? 0)%float);
  _ ← require (negb (mr_kp r <? 0)%float);
  _ ← require (negb (mr_kd r <? 0.5)%float);
  _ ← require (negb (mr_torque_ff_nm r <=? 0)%float);
  _ ← require (negb (mr_feedback_position_rad r <=? 0)%float);
  require (negb (mr_kd r <? velocity_damping_kd (cfg_safety c))%float).

Definition validate_process (p : ProcessConfig) : res unit :=
  _ ← require (negb (bool_decide (pr_working_dir p = ""%string)));
  require (negb (pr_new_terminal p) || nonempty (pr_terminal_command p)).

Definition validate_processes (l : list ProcessConfig) : res unit :=
  let names := map pr_name l in
  _ ← require (bool_decide (NoDup names));
  _ ← require (bool_decide ("can_daemon"%string ∈ names));
  _ ← mapR validate_process l;
  Ok ().

Definition _validate_config (c : RobotControllerConfig) : res unit :=
  _ ← validate_safety c;
  _ ← validate_shm (cfg_shm c);
  _ ← validate_can c;
  validate_processes (cfg_processes c).

(** ** actuator_specs.py and imu_specs.py: the specs the controller builds *)

Fixpoint specs_from (index : Z) (l : list PlatformActuatorConfig) : list QHRR0ActuatorSpec :=
  match l with
  | [] => []
  | a :: l =>
      if pa_enabled a then
        {| spec_name := pa_name a; spec_can_id := pa_can_id a; joint_index := index;
           joint_name := pa_mujoco_joint a; sign := pa_sign a; offset_rad := pa_offset_rad a;
           enabled := pa_enabled a |} :: specs_from (index + 1) l
      else specs_from (index + 1) l
  end.

Definition actuator_specs_from_platform (p : PlatformConfig) : list QHRR0ActuatorSpec :=
  specs_from 0 (pf_actuators p).

Definition imu_spec_from_platform (p : PlatformConfig) : QHRR0ImuSpec :=
  let m := pf_imu p in
  {| is_name := pi_type m; is_request_id := pi_request_id m; is_quat_id := pi_quat_id m;
     is_gyro_id := pi_gyro_id m; is_cmd_get_quat := pi_cmd_get_quat m;
     is_cmd_get_gyro := pi_cmd_get_gyro m; is_cmd_get_all := pi_cmd_get_all m;
     is_quat_scale := pi_quat_scale m; is_gyro_scale := pi_gyro_scale m;
     is_normalize_quat := pi_normalize_quat m |}.

(** [class QHRR0RobotSpec] *)
Record QHRR0RobotSpec := { rs_actuators : list QHRR0ActuatorSpec; rs_imu : QHRR0ImuSpec }.

Definition robot_spec_from_platform (p : PlatformConfig) : QHRR0RobotSpec :=
  {| rs_actuators := actuator_specs_from_platform p; rs_imu := imu_spec_from_platform p |}.

Definition robot_can_ids (s : QHRR0RobotSpec) : list Z := map spec_can_id (rs_actuators s).

(** ** Properties *)

Ltac run_res H :=
  repeat match type of H with
  | _ ≫= _ = Ok _ =>
      let a := fresh "a" in let Ha := fresh "Ha" in
      apply res_bind_Ok in H as (a & Ha & H)
  | (if ?b then _ else _) = Ok _ => let E := fresh "E" in destruct b eqn:E; try discriminate H
  end.

(** Names and identifiers are unique so far. *)
Definition actuators_distinct (l : list PlatformActuatorConfig) : Prop :=
  NoDup (map pa_name l) ∧ NoDup (map pa_can_id l).

Lemma parse_actuator_fresh py names ids item a :
  parse_actuator py names ids item = Ok a → pa_name a ∉ names ∧ pa_can_id a ∉ ids.
Proof.
  unfold parse_actuator. intros H. destruct item; try done. run_res H.
  apply bool_decide_eq_false in E, E0. by injection H as <-.
Qed.

(** The loop keeps the entries distinct and drops none. *)
Lemma parse_items_spec py raw : ∀ acc l,
  actuators_distinct acc → parse_actuator_items py acc raw = Ok l →
  actuators_distinct l ∧ length l = (length acc + length raw)%nat.
Proof.
  induction raw as [|item raw IH]; intros acc l Hd H; cbn [parse_actuator_items] in H.
  - injection H as <-. split; [done|]. cbn. lia.
  - run_res H. apply parse_actuator_fresh in Ha as [Hn Hi].
    apply IH in H as [H1 H2].
    + split; [done|]. rewrite H2, length_app. cbn [length]. lia.
    + destruct Hd as [Hd1 Hd2]. unfold actuators_distinct. rewrite !map_app. cbn [map].
      by split; apply NoDup_snoc.
Qed.

Lemma specs_from_can_ids l index :
  map spec_can_id (specs_from index l) = map pa_can_id (filter (λ a, pa_enabled a = true) l).
Proof.
  revert index; induction l as [|a l IH]; intros index; [done|].
  cbn [specs_from]. rewrite filter_cons.
  destruct (pa_enabled a) eqn:E; [rewrite decide_True by done|rewrite decide_False by done].
  - cbn [map]. by rewrite IH.
  - apply IH.
Qed.

Lemma specs_from_index l index s :
  s ∈ specs_from index l →
  index ≤ joint_index s ∧
  ∃ a, l !! Z.to_nat (joint_index s - index) = Some a ∧ pa_enabled a = true ∧
       spec_can_id s = pa_can_id a ∧ joint_name s = pa_mujoco_joint a ∧ sign s = pa_sign a ∧
       offset_rad s = pa_offset_rad a ∧ spec_name s = pa_name a.
Proof.
  revert index; induction l as [|a l IH]; intros index H; [by apply not_elem_of_nil in H|].
  cbn [specs_from] in H.
  assert (s ∈ specs_from (index + 1) l → index ≤ joint_index s ∧
    ∃ a0, (a :: l) !! Z.to_nat (joint_index s - index) = Some a0 ∧ pa_enabled a0 = true ∧
       spec_can_id s = pa_can_id a0 ∧ joint_name s = pa_mujoco_joint a0 ∧ sign s = pa_sign a0 ∧
       offset_rad s = pa_offset_rad a0 ∧ spec_name s = pa_name a0) as Htail.
  { intros Hin. destruct (IH _ Hin) as (Hi & a0 & Hl & Hrest). split; [lia|]. exists a0.
    split; [|done].
    replace (Z.to_nat (joint_index s - index)) with (S (Z.to_nat (joint_index s - (index + 1))))
      by lia. done. }
  destruct (pa_enabled a) eqn:E; [|auto].
  apply elem_of_cons in H as [->|H]; [|auto].
  cbn. split; [lia|]. exists a. by rewrite Z.sub_diag.
Qed.

Lemma NoDup_map_filter {A B} (f : A → B) (P : A → Prop) `{∀ x, Decision (P x)} l :
  NoDup (map f l) → NoDup (map f (filter P l)).
Proof.
  induction l as [|x l IH]; [done|]. cbn [map]. intros [Hn Hd]%NoDup_cons.
  rewrite filter_cons. case_decide; [|auto]. cbn [map]. apply NoDup_cons.
  split; [|auto]. intros Hin. apply Hn.
  apply list_elem_of_In, in_map_iff in Hin as (y & Hy & Hin). apply list_elem_of_In in Hin.
  apply list_elem_of_filter in Hin as [_ Hin].
  apply list_elem_of_In, in_map_iff. exists y. split; [done|]. by apply list_elem_of_In.
Qed.

(** Actuator table. A platform file's actuator list is accepted only when
    every entry is kept, names and CAN identifiers are pairwise distinct and at
    least one actuator is enabled; the specs the controller builds list exactly
    the enabled ones in order, and each spec's joint index points back to its
    entry. *)
Theorem actuator_table_sound (py : Platform) (raw : list json) l p :
  parse_actuators py raw = Ok l → pf_actuators p = l →
  length l = length raw ∧ NoDup (map pa_name l) ∧ NoDup (map pa_can_id l) ∧
  map spec_can_id (actuator_specs_from_platform p) = map pa_can_id (enabled_actuators p) ∧
  actuator_specs_from_platform p ≠ [] ∧ NoDup (map spec_can_id (actuator_specs_from_platform p)) ∧
  (∀ s, s ∈ actuator_specs_from_platform p →
     ∃ a, l !! Z.to_nat (joint_index s) = Some a ∧ pa_enabled a = true ∧
       spec_can_id s = pa_can_id a ∧ joint_name s = pa_mujoco_joint a ∧
       sign s = pa_sign a ∧ offset_rad s = pa_offset_rad a).
Proof.
  intros H Hp. unfold parse_actuators in H. run_res H. injection H as ->.
  apply negb_false_iff in E0. apply parse_items_spec in Ha as [[Hn Hi] Hl];
    [|split; constructor].
  assert (map spec_can_id (actuator_specs_from_platform p) = map pa_can_id (enabled_actuators p))
    as Hspec by apply specs_from_can_ids.
  split; [done|]. split; [done|]. split; [done|]. split; [done|].
  unfold enabled_actuators in Hspec. rewrite Hp in Hspec. split; [|split].
  - intros Hnil. rewrite Hnil in Hspec. apply existsb_exists in E0 as (x & Hx & Hxe).
    assert (x ∈ filter (λ a, pa_enabled a = true) l) as Hin.
    { apply list_elem_of_filter. split; [done|]. by apply list_elem_of_In. }
    destruct (filter _ l); [by apply not_elem_of_nil in Hin|done].
  - rewrite Hspec. by apply NoDup_map_filter.
  - intros s Hs. apply specs_from_index in Hs as (_ & x & Hx & H1 & H2 & H3 & H4 & H5 & _).
    rewrite Z.sub_0_r, Hp in Hx. by exists x.
Qed.

(** A Python without files or text conversions beyond what the examples use. *)
Definition example_platform : Platform :=
  {| str_of_float _ := "?"; float_of_string _ := Raise ValueError; str_of_json _ := "?";
     read_yaml _ := Raise FileNotFoundError; resolve_path _ v := v |}%string.

Definition actuator_entry (name : string) (can_id : json) (enabled : bool) : json :=
  JObj [("name"%string, JStr name); ("enabled"%string, JBool enabled); ("can_id"%string, can_id);
        ("mujoco_joint"%string, JStr name); ("mujoco_actuator"%string, JStr (name ++ "_motor"));
        ("sign"%string, JFloat 1); ("offset_rad"%string, JFloat 0)].

Definition example_table : list json :=
  [actuator_entry "FL_HR" (JInt 1) true; actuator_entry "FL_HP" (JStr "0x02") false;
   actuator_entry "FL_KP" (JInt 3) true].

Definition platform_of (l : list PlatformActuatorConfig) : PlatformConfig :=
  {| pf_path := ""; pf_robot_name := ""; pf_robots := [];
     pf_can := {| pc_interface := ""; pc_bitrate := 0; pc_daemon_socket := "" |};
     pf_shm := {| ps_mit_command := ""; ps_aux_command := ""; ps_operator_command := "";
                  ps_control_state := ""; ps_dashboard_state := "" |};
     pf_imu := {| pi_type := ""; pi_request_id := 0; pi_quat_id := 0; pi_gyro_id := 0;
                  pi_cmd_get_quat := 0; pi_cmd_get_gyro := 0; pi_cmd_get_all := 0;
                  pi_quat_scale := 1; pi_gyro_scale := 1; pi_normalize_quat := false |};
     pf_spg_mit := {| p_max_rad := 1; pm_v_max_rad_s := 1; pm_kp_max := 1; pm_kd_max := 1;
                      pm_tau_max_nm := 1; feedback_position_max_rad := 1;
                      iq_full_scale_count := 1; iq_full_scale_current_a := 1 |};
     pf_actuators := l |}.

Lemma actuator_table_sound_witness :
  ∃ l, parse_actuators example_platform example_table = Ok l ∧ length l = 3%nat ∧
       NoDup (map pa_can_id l) ∧
       map spec_can_id (actuator_specs_from_platform (platform_of l)) = [1; 3].
Proof.
  destruct (parse_actuators example_platform example_table) as [l|e] eqn:E;
    [|exfalso; revert E; vm_compute; discriminate].
  destruct (actuator_table_sound example_platform example_table l (platform_of l) E eq_refl)
    as (H1 & _ & H2 & _).
  exists l. split; [reflexivity|]. split; [exact H1|]. split; [exact H2|].
  revert E. vm_compute. intros [= <-]. reflexivity.
Defined.

Lemma load_platform_spec py path p :
  load_platform_config py path = Ok p →
  dict_mem (pf_robot_name p) (pf_robots p) = true ∧
  ∃ raw, parse_actuators py raw = Ok (pf_actuators p).
Proof.
  unfold load_platform_config. intros H. run_res H. injection H as <-.
  apply negb_false_iff in E. split; [done|]. eexists. done.
Qed.

Lemma load_state_shm_name py raw name s : load_state_shm py raw name = Ok s → rc_name s = name.
Proof. unfold load_state_shm. intros H. run_res H. by injection H as <-. Qed.

Lemma load_motors_ids raw p m :
  load_motors raw p = Ok m → mo_can_ids m = map pa_can_id (enabled_actuators p).
Proof. unfold load_motors. intros H. run_res H. by injection H as <-. Qed.

Lemma load_daemon_socket py raw p d :
  load_daemon py raw p = Ok d → ipc_socket_path d = pc_daemon_socket (pf_can p).
Proof. unfold load_daemon. intros H. run_res H. by injection H as <-. Qed.

Lemma parsed_ids_distinct py raw p :
  parse_actuators py raw = Ok (pf_actuators p) →
  NoDup (map pa_can_id (enabled_actuators p)) ∧ map pa_can_id (enabled_actuators p) ≠ [].
Proof.
  intros H. unfold parse_actuators in H. run_res H. injection H as ->.
  apply parse_items_spec in Ha as [[_ Hi] _]; [|split; constructor].
  apply negb_false_iff, existsb_exists in E0 as (x & Hx & Hxe).
  split; [by apply NoDup_map_filter|]. unfold enabled_actuators. intros Hnil.
  assert (x ∈ filter (λ a, pa_enabled a = true) (pf_actuators p)) as Hin.
  { apply list_elem_of_filter. split; [done|]. by apply list_elem_of_In. }
  destruct (filter _ _); [by apply not_elem_of_nil in Hin|done].
Qed.

(** C26: Loaded configuration. Whatever the files hold, a configuration that loads
    is consistent with its platform file: the motor identifiers and the target
    count are those of the enabled actuators, which are distinct and not empty,
    the configured robot has an entry, the segment names, interface and socket
    are the platform's, and the MIT ranges are the firmware's. *)
Theorem loaded_config_consistent (py : Platform) (path : string) (c : RobotControllerConfig) :
  load_robot_controller_config py path = Ok c →
  let p := cfg_platform c in
  mo_can_ids (cc_motors (cfg_can c)) = map pa_can_id (enabled_actuators p) ∧
  target_count (mit_command (cfg_shm c)) = Z.of_nat (length (mo_can_ids (cc_motors (cfg_can c)))) ∧
  NoDup (mo_can_ids (cc_motors (cfg_can c))) ∧ mo_can_ids (cc_motors (cfg_can c)) ≠ [] ∧
  dict_mem (pf_robot_name p) (pf_robots p) = true ∧
  shm_names_of (cfg_shm c) =
    [ps_mit_command (pf_shm p); ps_aux_command (pf_shm p); ps_operator_command (pf_shm p);
     ps_control_state (pf_shm p); ps_dashboard_state (pf_shm p)] ∧
  cc_interface (cfg_can c) = pc_interface (pf_can p) ∧
  ipc_socket_path (cc_daemon (cfg_can c)) = pc_daemon_socket (pf_can p) ∧
  mit_protocol_range (cfg_can c) = mit_range (pf_spg_mit p).
Proof.
  unfold load_robot_controller_config. intros H. run_res H. injection H as <-.
  repeat match goal with
  | E : load_platform_config _ _ = Ok _ |- _ => apply load_platform_spec in E as [Hmem [raw Hraw]]
  | E : load_state_shm _ _ _ = Ok _ |- _ => apply load_state_shm_name in E
  | E : load_motors _ _ = Ok _ |- _ => apply load_motors_ids in E
  | E : load_daemon _ _ _ = Ok _ |- _ => apply load_daemon_socket in E
  end.
  apply parsed_ids_distinct in Hraw as [Hd Hne].
  unfold shm_names_of. cbn [cfg_platform cfg_can cfg_shm cc_motors cc_daemon cc_interface
    mit_protocol_range mit_command aux_command operator_command control_state dashboard_state
    target_count mc_name opc_name].
  repeat match goal with E : _ = _ |- _ => rewrite E end.
  rewrite length_map. split_and!; done.
Qed.
