(* ===== verification/ShippedConfig.v ===== *)
(** * The configuration in the repository

    [config/app_config/{platform,robot_controller,processes,dashboard}.yaml] as the YAML
    reader delivers them, and what the loader makes of them. *)

From S2P Require Import Prelude PyFloat PyDict Wire Config.

Definition obj (l : list (string * json)) : json := JObj l.
Definition str (s : string) : json := JStr s.

Section yaml.
Local Open Scope string_scope.

Definition actuator_yaml (name : string) (can_id : Z) : json :=
  obj [("name", str name); ("enabled", JBool true); ("can_id", JInt can_id);
       ("mujoco_joint", str name); ("mujoco_actuator", str (name ++ "_motor"));
       ("sign", JFloat 1); ("offset_rad", JFloat 0)].

Definition platform_yaml : json :=
  obj [("robot", obj [("name", str "SPARQ")]);
       ("robots", obj [("SPARQ", obj
          [("model_path", str "third_party/mujoco/model/SPARQ/sparq_environment.xml");
           ("policy_config_dir", str "config/policy_config/SPARQ");
           ("pd_config_path", str "config/policy_config/SPARQ/SPARQ/pd_config.yaml")])]);
       ("can", obj [("interface", str "vcan0"); ("bitrate", JInt 1000000);
                    ("daemon_socket", str "/tmp/qhrr_can_daemon.sock")]);
       ("shm", obj [("mit_command", str "qhrr_mit_command");
                    ("aux_command", str "qhrr_aux_command");
                    ("operator_command", str "qhrr_operator_command");
                    ("control_state", str "qhrr_control_state");
                    ("dashboard_state", str "qhrr_dashboard_state")]);
       ("imu", obj [("type", str "e2box"); ("request_id", JInt 0x221); ("quat_id", JInt 0x2A1);
                    ("gyro_id", JInt 0x321); ("cmd_get_quat", JInt 1);
                    ("cmd_get_gyro", JInt 2); ("cmd_get_all", JInt 3);
                    ("quat_scale", JFloat 10000); ("gyro_scale", JFloat 100);
                    ("normalize_quat", JBool true)]);
       ("spg_mit", obj [("p_max_rad", JFloat 12.5); ("v_max_rad_s", JFloat 45);
                        ("kp_max", JFloat 500); ("kd_max", JFloat 5);
                        ("tau_max_nm", JFloat 33); ("feedback_position_max_rad", JFloat 12.56);
                        ("iq_full_scale_count", JFloat 2048);
                        ("iq_full_scale_current_a", JFloat 33)]);
       ("actuators", JList
          [actuator_yaml "FL_HR" 0x01; actuator_yaml "FL_HP" 0x02; actuator_yaml "FL_KP" 0x03;
           actuator_yaml "FR_HR" 0x21; actuator_yaml "FR_HP" 0x22; actuator_yaml "FR_KP" 0x23;
           actuator_yaml "RL_HR" 0x11; actuator_yaml "RL_HP" 0x12; actuator_yaml "RL_KP" 0x13;
           actuator_yaml "RR_HR" 0x31; actuator_yaml "RR_HP" 0x32; actuator_yaml "RR_KP" 0x33])].

Definition robot_controller_yaml : json :=
  obj [("platform_config", str "platform.yaml"); ("processes_config", str "processes.yaml");
       ("runtime", obj [("mode", str "simulation")]);
       ("hardware", obj
          [("allow_real_can", JBool true); ("require_manual_arm", JBool true);
           ("require_estop", JBool true); ("allow_enable_on_start", JBool false);
           ("allowed_can_interfaces",
             JList [str "vcan0"; str "vcan1"; str "vcan2"; str "vcan3"; str "can0"])]);
       ("safety", obj
          [("velocity_damping_kd", JFloat 0.5); ("damping_timeout_s", JFloat 1);
           ("command_loss_action", str "damping"); ("feedback_stale_action", str "fault")]);
       ("state_machine", obj [("enable_duration_s", JFloat 0.5)]);
       ("robot_controller", obj
          [("name", str "qhrr_robot_controller"); ("control_hz", JInt 500);
           ("shutdown_timeout_s", JFloat 2)]);
       ("shm", obj
          [("cleanup_stale_on_start", JBool true); ("unlink_on_shutdown", JBool true);
           ("aux_command", obj [("size_bytes", JInt 4096); ("publish_hz", JInt 100)]);
           ("operator_command", obj [("size_bytes", JInt 4096)]);
           ("control_state", obj [("size_bytes", JInt 16384); ("publish_hz", JInt 500)]);
           ("dashboard_state", obj [("size_bytes", JInt 65536); ("publish_hz", JInt 10)])]);
       ("can", obj
          [("command_timeout_s", JFloat 0.05); ("bringup_delay_s", JFloat 0.1);
           ("daemon", obj
              [("rx_timeout_s", JFloat 0.001); ("tx_timeout_s", JFloat 0.001);
               ("join_timeout_s", JFloat 1); ("max_tx_queue_size", JInt 4096);
               ("send_block", JBool false); ("send_timeout_s", JNull);
               ("connect_timeout_s", JFloat 5)]);
           ("motors", obj
              [("enter_on_start", JBool false); ("exit_on_shutdown", JBool true);
               ("set_zero_on_start", JBool false)]);
           ("imu", obj
              [("enabled", JBool true); ("request_all_on_start", JBool true);
               ("request_all_each_tick", JBool true); ("startup_request_count", JInt 3);
               ("startup_request_delay_s", JFloat 0.01)])])].

Definition terminal : json := JList [str "gnome-terminal"; str "--wait"; str "--"].

Definition process_yaml (name : string) (command : list string) (start stop : Z)
    (env : list (string * json)) : json :=
  obj [("name", str name); ("command", JList (map str command)); ("start_order", JInt start);
       ("stop_order", JInt stop); ("new_terminal", JBool true); ("terminal_command", terminal);
       ("working_dir", str "."); ("env", obj env)].

(** The entry of [can_daemon] is commented out in the file. *)
Definition can_daemon_yaml : json :=
  process_yaml "can_daemon"
    ["python3"; "-m"; "robot_controller.subprocesses.can_daemon.main"; "--config";
     "config/app_config/robot_controller.yaml"; "--replace-existing-socket"] 0 100 [].

Definition shipped_processes : list json :=
  [process_yaml "sparq_can" ["python3"; "-m"; "robot_controller.subprocesses.sparq_can.main"]
     10 90 [];
   process_yaml "aux_reader"
     ["python3"; "-m"; "robot_controller.subprocesses.aux_reader.main"; "--controller-config";
      "config/app_config/robot_controller.yaml"; "--joystick-dev"; "/dev/input/js0"] 20 80 [];
   process_yaml "task_controller"
     ["python3"; "-m"; "robot_controller.subprocesses.task_controller.main"] 30 70
     [("ROBOT_CONTROLLER_CONFIG", str "config/app_config/robot_controller.yaml");
      ("QHRR_PROJECT_ROOT", str "."); ("TASK_CONTROL_HZ", str "50.0");
      ("TASK_RATE_LOG_INTERVAL_S", str "1.0")];
   process_yaml "dashboard"
     ["python3"; "-m"; "robot_controller.subprocesses.dashboard.main"] 99 99
     [("DASHBOARD_CONFIG", str "config/app_config/dashboard.yaml")]].

Definition transmit_yaml (label actuator : string) : json :=
  obj [("label", str label); ("actuator", str actuator); ("payload", str "C100000000000000")].
Definition preset_target_yaml (actuator : string) (deg : float) : json :=
  obj [("actuator", str actuator); ("offset_deg", JFloat deg)].
Definition channel_yaml (name iface : string) : json :=
  obj [("name", str name); ("iface", str iface); ("bitrate", JInt 1000000)].

Definition dashboard_yaml : json :=
  obj [("platform_config", str "platform.yaml");
       ("robot_controller_config", str "robot_controller.yaml");
       ("dashboard", obj
          [("host", str "127.0.0.1"); ("port", JInt 8000); ("state_hz", JInt 24);
           ("transmit_ids", JList
              [transmit_yaml "RL hip roll" "RL_HR"; transmit_yaml "RL hip pitch" "RL_HP";
               transmit_yaml "RL knee pitch" "RL_KP"]);
           ("zero_set_presets", JList
              [obj [("id", str "qhrr");
                    ("label", str "Hip Roll 82.5 / Hip Pitch -100 / Knee Pitch 20");
                    ("targets", JList
                       [preset_target_yaml "RL_HR" 82.5; preset_target_yaml "RL_HP" (-100);
                        preset_target_yaml "RL_KP" 20])]])]);
       ("robot_controller_state", obj
          [("enabled", JBool true); ("stale_timeout_s", JFloat 0.5)]);
       ("can", obj
          [("display_channels", JList
              [channel_yaml "CAN 0" "vcan0"; channel_yaml "CAN 1" "vcan1";
               channel_yaml "CAN 2" "vcan2"; channel_yaml "CAN 3" "vcan3"]);
           ("bus_window_s", JFloat 1); ("heartbeat_window_s", JFloat 1);
           ("node_timeout_s", JFloat 0.25); ("stuff_factor", JFloat 1.15)]);
       ("can_daemon", obj [("connect_timeout_s", JFloat 1)]);
       ("spg", obj [("default_mit_poll_hz", JInt 500)]);
       ("safety", obj [("tx_enabled_by_default", JBool false);
                       ("allow_actuator_commands", JBool true)])].

(** A reader that serves the four files, with the given process entries. *)
Definition shipped_platform (processes : list json) : Platform :=
  {| str_of_float _ := ""; float_of_string _ := Raise ValueError; str_of_json _ := "";
     read_yaml path :=
       if decide (path = "robot_controller.yaml") then Ok robot_controller_yaml
       else if decide (path = "platform.yaml") then Ok platform_yaml
       else if decide (path = "dashboard.yaml") then Ok dashboard_yaml
       else if decide (path = "processes.yaml") then
         Ok (obj [("processes", JList processes)])
       else Raise FileNotFoundError;
     resolve_path _ value := value |}.

Definition load_shipped (processes : list json) : res RobotControllerConfig :=
  load_robot_controller_config (shipped_platform processes) "robot_controller.yaml".
End yaml.


Lemma loaded_config_consistent_witness :
  ∃ c, load_shipped shipped_processes = Ok c ∧
       mo_can_ids (cc_motors (cfg_can c)) = map pa_can_id (enabled_actuators (cfg_platform c)) ∧
       NoDup (mo_can_ids (cc_motors (cfg_can c))).
Proof.
  destruct (load_shipped shipped_processes) as [c|e] eqn:E;
    [|exfalso; revert E; vm_compute; discriminate].
  destruct (loaded_config_consistent _ _ c E) as (H1 & _ & H2 & _).
  exists c. split; [reflexivity|]. split; [exact H1|exact H2].
Defined.
