(* ===== verification/ShmManager.v ===== *)
(** * The segments of a controller run

    [robot_controller/shm/manager.py]: the five segments the controller creates
    for its children, after removing what an earlier run left, and removes when
    it ends. *)

From S2P Require Import Prelude PyFloat PyDict CStruct OperatorCommand ControlCommand RobotState.
From S2P Require Import Config.

Section manager.
Context (config : ShmConfig).

Definition _segment_names : list string := shm_names_of config.

(** One iteration of [cleanup_stale] and of [unlink_all]: attach, close,
    unlink; a missing segment is skipped. *)
Definition remove_segment (name : string) : ST ShmFs unit :=
  try_except (_ ← shm_attach name; shm_unlink name)
    (λ e, if isinstance e FileNotFoundError then mret () else raise e).

Definition cleanup_stale : ST ShmFs unit := for_each _segment_names remove_segment.
Definition unlink_all : ST ShmFs unit := for_each _segment_names remove_segment.

(** [create_all()]: the handles it keeps in [_segments]. *)
Definition create_all : ST ShmFs (dict string ShmObj) :=
  control ← ControlCommandShm.create (mc_name (mit_command config)) None;
  aux ← AuxCommandShm.create (rc_name (aux_command config))
          (Some (rc_size_bytes (aux_command config)));
  operator ← OperatorCommandShm.create (opc_name (operator_command config))
               (Some (opc_size_bytes (operator_command config)));
  state ← RobotStateShm.create (rc_name (control_state config))
            (Some (rc_size_bytes (control_state config)));
  dash ← RobotStateShm.create (rc_name (dashboard_state config))
           (Some (rc_size_bytes (dashboard_state config)));
  mret (dict_of [(mc_name (mit_command config), control); (rc_name (aux_command config), aux);
                 (opc_name (operator_command config), operator);
                 (rc_name (control_state config), state);
                 (rc_name (dashboard_state config), dash)]).

(** [close_all()] *)
Definition close_all (segments : dict string ShmObj) : dict string ShmObj := [].
End manager.

(** ** The namespace *)

(** The segment [name] holds [n] zero bytes. *)
Definition segment_zeroed (fs : ShmFs) (name : string) (n : Z) : Prop :=
  ∃ h, shm_names fs !! name = Some h ∧ shm_objects fs !! h = Some (replicate (Z.to_nat n) 0).

Lemma remove_segment_spec name fs :
  ∃ fs', remove_segment name fs = (Ok (), fs') ∧
    shm_names fs' = delete name (shm_names fs) ∧
    shm_objects fs' = shm_objects fs ∧ shm_next fs' = shm_next fs.
Proof.
  unfold remove_segment, try_except. st_run. unfold shm_attach, shm_unlink.
  destruct (shm_names fs !! name) as [h|] eqn:E; cbn.
  - eexists. split; [by rewrite E|done].
  - exists fs. rewrite delete_id by done. done.
Qed.

Lemma remove_segments_spec names : ∀ fs,
  ∃ fs', for_each names remove_segment fs = (Ok (), fs') ∧
    shm_names fs' = foldl (λ m n, delete n m) (shm_names fs) names ∧
    shm_objects fs' = shm_objects fs ∧ shm_next fs' = shm_next fs.
Proof.
  induction names as [|n names IH]; intros fs; [by exists fs|].
  cbn [for_each foldl]. st_run. destruct (remove_segment_spec n fs) as (fs1 & -> & Hn & Ho & Hx).
  destruct (IH fs1) as (fs' & Hf & Hn' & Ho' & Hx').
  exists fs'. rewrite Hf, Hn', Hn, Ho', Hx', Ho, Hx. done.
Qed.

Lemma delete_all_lookup (m : gmap string nat) names k :
  foldl (λ m n, delete n m) m names !! k = if decide (k ∈ names) then None else m !! k.
Proof.
  revert m; induction names as [|n names IH]; intros m; cbn [foldl].
  - rewrite decide_False; [done|]. apply not_elem_of_nil.
  - rewrite IH. destruct (decide (k ∈ names)) as [Hin|Hn].
    + rewrite decide_True; [done|]. by right.
    + destruct (decide (k = n)) as [->|Hne].
      * rewrite lookup_delete_eq, decide_True; [done|left].
      * rewrite lookup_delete_ne by done. rewrite decide_False; [done|]. set_solver.
Qed.

(** One creation in a namespace without the name: it adds a zeroed segment and
    leaves the others alone. *)
Lemma create_step T `{CStructLaws T} ue fs name size :
  fs_wf fs → shm_names fs !! name = None → (0 < sizeof T)%nat →
  Z.of_nat (sizeof T) ≤ default (Z.of_nat (sizeof T)) size →
  ∃ o fs', wrapper_create T ue name size fs = (Ok o, fs') ∧ fs_wf fs' ∧
    (∀ k, shm_names fs' !! k =
       if decide (k = name) then Some (shm_next fs) else shm_names fs !! k) ∧
    segment_zeroed fs' name (default (Z.of_nat (sizeof T)) size) ∧
    (∀ k n, k ≠ name → (∃ h, shm_names fs !! k = Some h ∧ (h < shm_next fs)%nat) →
       segment_zeroed fs k n → segment_zeroed fs' k n) ∧
    shm_next fs' = S (shm_next fs) ∧ shm_ready T fs' o.
Proof.
  intros Hwf Hn Hpos Hsz.
  destruct (wrapper_create_fresh ue fs name size Hn (Hwf _ (le_n _)) Hpos Hsz)
    as (o & fs' & Hc & _ & Hh & Hnames & Hobjs & Hnext).
  exists o, fs'. split; [done|]. rewrite Hnames.
  split_and!; [| | | |done|].
  - intros n Hle. rewrite Hnext in Hle. rewrite Hobjs, lookup_insert_ne by lia.
    apply Hwf. lia.
  - intros k. case_decide; [subst; by rewrite lookup_insert_eq|by rewrite lookup_insert_ne].
  - exists (shm_next fs). rewrite Hnames, Hobjs, !lookup_insert_eq. done.
  - intros k n Hk (h & Hkh & Hlt) (h' & Hh' & Hb). exists h'.
    rewrite Hnames, Hobjs, lookup_insert_ne by done. split; [done|].
    rewrite lookup_insert_ne; [done|]. simplify_eq. lia.
  - exists (shm_next fs). eexists. rewrite Hobjs, lookup_insert_eq.
    split_and!; [done|done|]. rewrite length_replicate. lia.
Qed.

(** Every name refers to an object numbered so far. *)
Definition names_wf (fs : ShmFs) : Prop :=
  ∀ k h, shm_names fs !! k = Some h → (h < shm_next fs)%nat.

(** What a sequence of creations from [fs0] has made: the segments [l], each
    zeroed at its size, and nothing else. *)
Record created (fs0 fs : ShmFs) (l : list (string * Z)) : Prop := {
  cr_fs_wf : fs_wf fs;
  cr_names_wf : names_wf fs;
  cr_zeroed : ∀ k n, (k, n) ∈ l → segment_zeroed fs k n;
  cr_others : ∀ k, k ∉ map fst l → shm_names fs !! k = shm_names fs0 !! k
}.

Lemma created_step T `{CStructLaws T} ue fs0 fs l name size :
  created fs0 fs l → name ∉ map fst l → shm_names fs0 !! name = None →
  (0 < sizeof T)%nat → Z.of_nat (sizeof T) ≤ default (Z.of_nat (sizeof T)) size →
  ∃ o fs', wrapper_create T ue name size fs = (Ok o, fs') ∧
    created fs0 fs' (l ++ [(name, default (Z.of_nat (sizeof T)) size)]).
Proof.
  intros [Hf Hn Hz Ho] Hl Hfree Hpos Hsz.
  destruct (create_step T ue fs name size Hf ltac:(by rewrite Ho) Hpos Hsz)
    as (o & fs' & Hc & Hf' & Hnames & Hnew & Hold & Hnext & _).
  exists o, fs'. split; [done|]. split; [done| | |].
  - intros k h. rewrite Hnames, Hnext. case_decide; [intros [= <-]; lia|].
    intros Hk%Hn. lia.
  - intros k n [Hin|Hin]%elem_of_app.
    + apply Hold; [|destruct (Hz _ _ Hin) as (h & Hh & _); eauto|by apply Hz].
      intros ->. apply Hl. apply list_elem_of_In, in_map_iff. exists (name, n).
      split; [done|]. by apply list_elem_of_In.
    + apply list_elem_of_singleton in Hin as [= -> ->]. done.
  - intros k Hk. rewrite map_app in Hk. cbn in Hk. rewrite Hnames.
    rewrite decide_False by set_solver. apply Ho. set_solver.
Qed.

(** The structure each segment holds, and its size. *)
Definition sizes_ok (c : ShmConfig) : Prop :=
  Z.of_nat (sizeof AuxCommandC) ≤ rc_size_bytes (aux_command c) ∧
  Z.of_nat (sizeof OperatorCommandC) ≤ opc_size_bytes (operator_command c) ∧
  Z.of_nat (sizeof RobotStateC) ≤ rc_size_bytes (control_state c) ∧
  Z.of_nat (sizeof RobotStateC) ≤ rc_size_bytes (dashboard_state c).

(** The five segments, where none of their names is in use. *)
Lemma create_all_fresh (c : ShmConfig) (fs1 : ShmFs) :
  fs_wf fs1 → names_wf fs1 → NoDup (_segment_names c) → sizes_ok c →
  (∀ k, k ∈ _segment_names c → shm_names fs1 !! k = None) →
  ∃ segs fs2, create_all c fs1 = (Ok segs, fs2) ∧
    created fs1 fs2
      [(mc_name (mit_command c), Z.of_nat (sizeof ControlCommandC));
       (rc_name (aux_command c), rc_size_bytes (aux_command c));
       (opc_name (operator_command c), opc_size_bytes (operator_command c));
       (rc_name (control_state c), rc_size_bytes (control_state c));
       (rc_name (dashboard_state c), rc_size_bytes (dashboard_state c))].
Proof.
  intros Hf Hw Hnd (Ha & Hop & Hst & Hda) Hnone.
  assert (created fs1 fs1 []) as Hc0.
  { split; [done..| |done]. intros k n Hin. by apply not_elem_of_nil in Hin. }
  unfold _segment_names, shm_names_of in Hnd.
  repeat apply NoDup_cons in Hnd as [? Hnd].
  unfold _segment_names, shm_names_of in Hnone.
  destruct (created_step ControlCommandC RuntimeError fs1 fs1 [] (mc_name (mit_command c)) None
    Hc0) as (o1 & f1 & E1 & C1); [cbn; set_solver|apply Hnone; set_solver|by apply Nat.ltb_lt|done|].
  destruct (created_step AuxCommandC RuntimeError fs1 f1 _ (rc_name (aux_command c))
    (Some (rc_size_bytes (aux_command c))) C1) as (o2 & f2 & E2 & C2);
    [cbn; set_solver|apply Hnone; set_solver|by apply Nat.ltb_lt|done|].
  destruct (created_step OperatorCommandC AttributeError fs1 f2 _ (opc_name (operator_command c))
    (Some (opc_size_bytes (operator_command c))) C2) as (o3 & f3 & E3 & C3);
    [cbn; set_solver|apply Hnone; set_solver|by apply Nat.ltb_lt|done|].
  destruct (created_step RobotStateC AttributeError fs1 f3 _ (rc_name (control_state c))
    (Some (rc_size_bytes (control_state c))) C3) as (o4 & f4 & E4 & C4);
    [cbn; set_solver|apply Hnone; set_solver|by apply Nat.ltb_lt|done|].
  destruct (created_step RobotStateC AttributeError fs1 f4 _ (rc_name (dashboard_state c))
    (Some (rc_size_bytes (dashboard_state c))) C4) as (o5 & f5 & E5 & C5);
    [cbn; set_solver|apply Hnone; set_solver|by apply Nat.ltb_lt|done|].
  eexists. exists f5. split; [|exact C5].
  unfold create_all. st_run. unfold ControlCommandShm.create. rewrite E1.
  unfold AuxCommandShm.create. rewrite E2. unfold OperatorCommandShm.create. rewrite E3.
  unfold RobotStateShm.create. rewrite E4, E5. reflexivity.
Qed.


