(* ===== verification/Supervisor.v ===== *)
(** * The process supervisor

    [robot_controller/supervisor/process_supervisor.py] and the part of POSIX it
    relies on: child processes, signals, process groups, the clock and the
    pidfiles. How each child reacts to a signal, how starting one goes and what
    the clock shows are data of the operating-system state, so that a theorem
    quantifies over all of them. *)

From Stdlib Require Import Ascii.
From stdpp Require Import sorting.
From S2P Require Import Prelude PyFloat PyDict Wire Config.

(** ** The operating system *)

Inductive signal := SIGTERM | SIGKILL.

#[export] Instance signal_eq_dec : EqDecision signal.
Proof. solve_decision. Defined.

(** What [subprocess.Popen] was called with. *)
Record Launch := {
  la_argv : list string; la_cwd : string; la_env : dict string string; la_logged : bool }.

(** A process: [px_left] counts the sleeps until it exits ([Some 0]: it has
    exited, [None]: it runs on); [px_on_term] and [px_on_kill] say how many
    sleeps a signal leaves it ([px_on_term = None]: it ignores SIGTERM). An
    exited child of ours stays a zombie until it is reaped. *)
Record Proc := {
  px_group : Z;
  px_left : option nat;
  px_on_term : option nat;
  px_on_kill : nat;
  px_owned : bool;
  px_child : bool;
  px_reaped : bool
}.

(** What the next [Popen] will give. *)
Record Child := { ch_left : option nat; ch_on_term : option nat; ch_on_kill : nat }.

(** [os_clock]: what the next readings of [time.monotonic()] return; after them
    the clock is past every deadline. *)
Record OS := {
  os_procs : gmap Z Proc;
  os_next_pid : Z;
  os_files : gmap string string;
  os_clock : list float;
  os_children : list (res Child);
  os_launches : list Launch;
  os_signals : list (Z * signal)
}.

Definition with_procs (o : OS) (m : gmap Z Proc) : OS :=
  {| os_procs := m; os_next_pid := os_next_pid o; os_files := os_files o;
     os_clock := os_clock o; os_children := os_children o; os_launches := os_launches o;
     os_signals := os_signals o |}.
Definition with_clock (o : OS) (l : list float) : OS :=
  {| os_procs := os_procs o; os_next_pid := os_next_pid o; os_files := os_files o;
     os_clock := l; os_children := os_children o; os_launches := os_launches o;
     os_signals := os_signals o |}.
Definition with_files (o : OS) (m : gmap string string) : OS :=
  {| os_procs := os_procs o; os_next_pid := os_next_pid o; os_files := m;
     os_clock := os_clock o; os_children := os_children o; os_launches := os_launches o;
     os_signals := os_signals o |}.
Definition with_signal (o : OS) (m : gmap Z Proc) (l : list (Z * signal)) : OS :=
  {| os_procs := m; os_next_pid := os_next_pid o; os_files := os_files o;
     os_clock := os_clock o; os_children := os_children o; os_launches := os_launches o;
     os_signals := os_signals o ++ l |}.

Definition px_dead (p : Proc) : bool := bool_decide (px_left p = Some 0%nat).
Definition px_exists (p : Proc) : bool := negb (px_dead p && (negb (px_child p) || px_reaped p)).

Definition with_left (p : Proc) (l : option nat) : Proc :=
  {| px_group := px_group p; px_left := l; px_on_term := px_on_term p;
     px_on_kill := px_on_kill p; px_owned := px_owned p; px_child := px_child p;
     px_reaped := px_reaped p |}.
Definition reap (p : Proc) : Proc :=
  {| px_group := px_group p; px_left := px_left p; px_on_term := px_on_term p;
     px_on_kill := px_on_kill p; px_owned := px_owned p; px_child := px_child p;
     px_reaped := true |}.

Definition min_left (a b : option nat) : option nat :=
  match a, b with Some m, Some n => Some (Nat.min m n) | None, x | x, None => x end.

(** A signal shortens what is left of the process. *)
Definition deliver (s : signal) (p : Proc) : Proc :=
  with_left p (min_left (px_left p)
    (match s with SIGTERM => px_on_term p | SIGKILL => Some (px_on_kill p) end)).

(** [time.monotonic()] *)
Definition monotonic : ST OS float := λ o,
  match os_clock o with
  | t :: l => (Ok t, with_clock o l)
  | [] => (Ok infinity, o)
  end.

(** [time.sleep()]: every process gets one step nearer to its exit. *)
Definition elapse (p : Proc) : Proc := with_left p (pred <$> px_left p).
Definition sleep : ST OS unit := modify (λ o, with_procs o (elapse <$> os_procs o)).

(** [os.kill(pid, signum)]; a number that is no C int is refused. *)
Definition os_kill (pid : Z) (s : signal) : ST OS unit := λ o,
  if 2 ^ 31 <=? pid then (Raise OverflowError, o) else
  match os_procs o !! pid with
  | Some p =>
      if negb (px_exists p) then (Raise ProcessLookupError, o)
      else if negb (px_owned p) then (Raise PermissionError, o)
      else (Ok (), with_signal o (<[pid := deliver s p]> (os_procs o)) [(pid, s)])
  | None => (Raise ProcessLookupError, o)
  end.

(** [os.kill(pid, 0)] *)
Definition os_probe (pid : Z) : ST OS unit := λ o,
  if 2 ^ 31 <=? pid then (Raise OverflowError, o) else
  match os_procs o !! pid with
  | Some p =>
      if negb (px_exists p) then (Raise ProcessLookupError, o)
      else if negb (px_owned p) then (Raise PermissionError, o)
      else (Ok (), o)
  | None => (Raise ProcessLookupError, o)
  end.

(** [os.killpg(os.getpgid(pid), signum)]: every member of the group that may be
    signalled is; an error when none is left or none may be. *)
Definition in_group (g : Z) (p : Proc) : bool := (px_group p =? g) && px_exists p.

Definition os_killpg (pid : Z) (s : signal) : ST OS unit := λ o,
  match os_procs o !! pid with
  | Some p =>
      if negb (px_exists p) then (Raise ProcessLookupError, o)
      else
        let targets := filter (λ kv : Z * Proc, in_group (px_group p) kv.2 && px_owned kv.2 = true)
                         (map_to_list (os_procs o)) in
        if bool_decide (length targets = 0%nat) then (Raise PermissionError, o)
        else
          (Ok (), with_signal o
             ((λ q, if in_group (px_group p) q && px_owned q then deliver s q else q)
                <$> os_procs o)
             (map (λ kv, (kv.1, s)) targets))
  | None => (Raise ProcessLookupError, o)
  end.

(** [Popen.poll()]: reaps an exited child; [true] when it has exited. *)
Definition popen_poll (pid : Z) : ST OS bool := λ o,
  match os_procs o !! pid with
  | Some p =>
      if px_dead p then (Ok true, with_procs o (<[pid := reap p]> (os_procs o)))
      else (Ok false, o)
  | None => (Ok true, o)
  end.

(** [Popen.wait(timeout)]: the standard library polls until the end time. *)
Fixpoint wait_until (pid : Z) (endtime : float) (clock : list float) : ST OS unit :=
  exited ← popen_poll pid;
  if exited : bool then mret ()
  else match clock with
  | [] => raise TimeoutExpired
  | _ :: clock =>
      now ← monotonic;
      if (endtime - now <=? 0)%float then raise TimeoutExpired
      else _ ← sleep; wait_until pid endtime clock
  end.

Definition popen_wait (pid : Z) (timeout : float) : ST OS unit :=
  start ← monotonic;
  clock ← gets os_clock;
  wait_until pid (start + timeout)%float clock.

(** [Popen.terminate()] and [Popen.kill()] *)
Definition popen_send_signal (pid : Z) (s : signal) : ST OS unit :=
  exited ← popen_poll pid;
  if exited : bool then mret ()
  else try_except (os_kill pid s)
         (λ e, if isinstance e ProcessLookupError then mret () else raise e).

(** [subprocess.Popen(..., start_new_session=True)] *)
Definition popen (l : Launch) : ST OS Z := λ o,
  match os_children o with
  | Ok c :: rest =>
      let pid := os_next_pid o in
      (Ok pid,
       {| os_procs := <[pid := {| px_group := pid; px_left := ch_left c;
                                  px_on_term := ch_on_term c; px_on_kill := ch_on_kill c;
                                  px_owned := true; px_child := true; px_reaped := false |}]>
                        (os_procs o);
          os_next_pid := pid + 1; os_files := os_files o; os_clock := os_clock o;
          os_children := rest; os_launches := os_launches o ++ [l];
          os_signals := os_signals o |})
  | Raise e :: rest =>
      (Raise e, {| os_procs := os_procs o; os_next_pid := os_next_pid o;
                   os_files := os_files o; os_clock := os_clock o; os_children := rest;
                   os_launches := os_launches o; os_signals := os_signals o |})
  | [] => (Raise OSError, o)
  end.

(** ** Quoting for the shell *)

Definition quote_char : ascii := "'".
Definition dquote_char : ascii := "034".

(** The characters [shlex.quote] leaves unquoted: [\w] and [@%+=:,./-]. *)
Definition safe_char (c : ascii) : bool :=
  let n := Z.of_nat (nat_of_ascii c) in
  ((48 <=? n) && (n <=? 57)) || ((65 <=? n) && (n <=? 90)) || ((97 <=? n) && (n <=? 122)) ||
  bool_decide (c ∈ String.list_ascii_of_string "_@%+=:,./-"%string).

(** [s.replace("'", "'\"'\"'")] *)
Definition escape (c : ascii) : list ascii :=
  if decide (c = quote_char) then [quote_char; dquote_char; quote_char; dquote_char; quote_char]
  else [c].

(** [shlex.quote] and [shlex.join] *)
Definition quote_chars (l : list ascii) : list ascii :=
  if bool_decide (l = []) then [quote_char; quote_char]
  else if forallb safe_char l then l
  else [quote_char] ++ concat (map escape l) ++ [quote_char].

Definition shlex_quote (s : string) : string :=
  String.string_of_list_ascii (quote_chars (String.list_ascii_of_string s)).

Fixpoint join_chars (l : list (list ascii)) : list ascii :=
  match l with
  | [] => []
  | [w] => w
  | w :: l => w ++ " "%char :: join_chars l
  end.

Definition shlex_join (l : list string) : string :=
  String.string_of_list_ascii
    (join_chars (map (λ s, quote_chars (String.list_ascii_of_string s)) l)).

(** ** [class _ProcessSupervisorBase] *)

Record ProcessSupervisor := {
  process_configs : dict string ProcessConfig;
  processes : dict string Z;              (* the [Popen] objects, by pid *)
  ps_pid_dir : string;
  ps_log_dir : string;
  _log_handles : list string;             (* the names with an open handle *)
  _pidfiles : dict string string
}.

Definition sup_init (pid_dir log_dir : string) (configs : list ProcessConfig) :
    ProcessSupervisor :=
  let by_name := dict_of (map (λ c, (pr_name c, c)) configs) in
  {| process_configs := by_name; processes := []; ps_pid_dir := pid_dir; ps_log_dir := log_dir;
     _log_handles := [];
     _pidfiles := map (λ n, (n, pid_dir +:+ "/" +:+ n +:+ ".pid")%string) (dict_keys by_name) |}.

Definition with_processes (p : ProcessSupervisor) (d : dict string Z) (h : list string) :
    ProcessSupervisor :=
  {| process_configs := process_configs p; processes := d; ps_pid_dir := ps_pid_dir p;
     ps_log_dir := ps_log_dir p; _log_handles := h; _pidfiles := _pidfiles p |}.

Definition _log_file_for (p : ProcessSupervisor) (name : string) : string :=
  (ps_log_dir p +:+ "/" +:+ name +:+ ".log")%string.

(** The supervisor acts on itself and on the operating system. *)
Abbreviation SupSt := (ProcessSupervisor * OS)%type.
Definition in_os {A} (m : ST OS A) : ST SupSt A := zoom snd (λ o s, (fst s, o)) m.
Definition in_sup {A} (m : ST ProcessSupervisor A) : ST SupSt A := zoom fst (λ p s, (p, snd s)) m.

(** [_read_pidfile(pidfile)] *)
Definition _read_pidfile (pidfile : option string) (o : OS) : option Z :=
  match pidfile ≫= λ f, os_files o !! f with
  | None => None
  | Some text =>
      match py_int_of_string text with
      | Ok value => if 1 <? value then Some value else None
      | Raise _ => None
      end
  end.

(** [_pid_is_running(pid)] *)
Definition _pid_is_running (pid : Z) : ST OS bool :=
  try_except (_ ← os_probe pid; mret true)
    (λ e, if isinstance e ProcessLookupError then mret false
          else if isinstance e PermissionError then mret true else raise e).

(** [_terminate_pid(pid, signum)] *)
Definition _terminate_pid (pid : Z) (s : signal) : ST OS unit :=
  try_except (os_kill pid s)
    (λ e, if isinstance e ProcessLookupError || isinstance e PermissionError then mret ()
          else raise e).

(** [_terminate_process_group(process, signum)] *)
Definition _terminate_process_group (pid : Z) (s : signal) : ST OS unit :=
  try_except (os_killpg pid s)
    (λ e, if isinstance e ProcessLookupError then mret ()
          else if isinstance e PermissionError then popen_send_signal pid s
          else raise e).

(** [_wait_pid_exit(pid, deadline)] over the readings to come: at their end the
    deadline has passed. *)
Fixpoint wait_exit (pid : Z) (deadline : float) (clock : list float) : ST OS unit :=
  now ← monotonic;
  if negb (now <? deadline)%float then mret ()
  else match clock with
  | [] => mret ()
  | _ :: clock =>
      running ← _pid_is_running pid;
      if negb running then mret ()
      else _ ← sleep; wait_exit pid deadline clock
  end.

Definition _wait_pid_exit (pid : Z) (deadline : float) : ST OS unit :=
  clock ← gets os_clock; wait_exit pid deadline clock.

(** [_cleanup_pidfile(pidfile)] *)
Definition _cleanup_pidfile (pidfile : option string) : ST OS unit :=
  match pidfile with
  | None => mret ()
  | Some f => modify (λ o, with_files o (delete f (os_files o)))
  end.

(** [_close_log_handle(name)] *)
Definition _close_log_handle (name : string) : ST ProcessSupervisor unit :=
  modify (λ p, with_processes p (processes p) (filter (λ n, n ≠ name) (_log_handles p))).

(** [is_alive(name)] *)
Definition is_alive (name : string) : ST SupSt bool :=
  process ← gets (λ s, dict_get name (processes (fst s)));
  exited ← (match process with
            | Some pid => in_os (popen_poll pid)
            | None => mret true
            end);
  if negb exited then mret true
  else
    managed ← gets (λ s, _read_pidfile (dict_get name (_pidfiles (fst s))) (snd s));
    match managed with
    | None => mret false
    | Some pid => in_os (_pid_is_running pid)
    end.

(** [if managed_pid is not None: ...], and the test of [process.poll()] *)
Definition signal_managed (managed : option Z) (s : signal) : ST SupSt unit :=
  match managed with Some m => in_os (_terminate_pid m s) | None => mret () end.
Definition wait_managed (managed : option Z) (deadline : float) : ST SupSt unit :=
  match managed with Some m => in_os (_wait_pid_exit m deadline) | None => mret () end.
Definition signal_process (process : option Z) (s : signal) : ST SupSt unit :=
  match process with
  | Some pid =>
      in_os (exited ← popen_poll pid;
             whenM (negb exited) (_terminate_process_group pid s))
  | None => mret ()
  end.

Section supervisor.
(** [os.environ], and [Path(...).resolve()]. *)
Context (environ : dict string string) (resolve : string → string).

(** [_process_env(config)] *)
Definition _process_env (config : ProcessConfig) : dict string string :=
  dict_update environ (pr_env config).

(** The text bash is given in [_launch_command]. *)
Definition shell_command (config : ProcessConfig) (pidfile log_file : string) : string :=
  let dq := String dquote_char EmptyString in
  ("cd " +:+ shlex_quote (resolve (pr_working_dir config)) +:+ " && " +:+
   "printf '%s\n' " +:+ dq +:+ "$$" +:+ dq +:+ " > " +:+ shlex_quote pidfile +:+ " && " +:+
   "exec > >(tee -a " +:+ shlex_quote log_file +:+ ") 2>&1 && " +:+
   "printf '[process_supervisor] log file: %s\n' " +:+ shlex_quote log_file +:+ " && " +:+
   "exec " +:+ shlex_join (pr_command config))%string.

Definition _launch_command (config : ProcessConfig) (pidfile log_file : string) :
    res (list string) :=
  if negb (pr_new_terminal config) then Ok (pr_command config)
  else if bool_decide (length (pr_terminal_command config) = 0%nat) then Raise ValueError
  else Ok (pr_terminal_command config ++
           ["bash"; "-lc"; shell_command config pidfile log_file]%string).

(** [start_by_name(name)] *)
Definition start_by_name (name : string) : ST SupSt unit :=
  if decide (name = ""%string) then raise ValueError
  else
    config ← gets (λ s, dict_get name (process_configs (fst s)));
    match config with
    | None => raise KeyError
    | Some config =>
        alive ← is_alive name;
        if alive : bool then mret ()
        else if bool_decide (length (pr_command config) = 0%nat) then raise ValueError
        else
          pidfile ← gets (λ s, dict_get name (_pidfiles (fst s)));
          pidfile ← lift (match pidfile with Some f => Ok f | None => Raise KeyError end);
          _ ← in_os (_cleanup_pidfile (Some pidfile));
          log_file ← gets (λ s, _log_file_for (fst s) name);
          _ ← whenM (negb (pr_new_terminal config))
                (in_sup (modify (λ p, with_processes p (processes p)
                   (if bool_decide (name ∈ _log_handles p) then _log_handles p
                    else _log_handles p ++ [name]))));
          argv ← lift (_launch_command config pidfile log_file);
          pid ← in_os (popen {| la_argv := argv; la_cwd := pr_working_dir config;
                                la_env := _process_env config;
                                la_logged := negb (pr_new_terminal config) |});
          in_sup (modify (λ p, with_processes p (dict_set name pid (processes p))
                                 (_log_handles p)))
    end.

(** [start_all()] *)
Definition start_all : ST SupSt unit :=
  configs ← gets (λ s, sorted_by pr_start_order (dict_values (process_configs (fst s))));
  for_each configs (λ config, start_by_name (pr_name config)).

(** [stop_by_name(name, timeout_s)] *)
Definition stop_by_name (name : string) (timeout_s : float) : ST SupSt unit :=
  process ← gets (λ s, dict_get name (processes (fst s)));
  pidfile ← gets (λ s, dict_get name (_pidfiles (fst s)));
  managed ← gets (λ s, _read_pidfile pidfile (snd s));
  if bool_decide (process = None ∧ managed = None) then mret ()
  else
    _ ← signal_managed managed SIGTERM;
    _ ← signal_process process SIGTERM;
    now ← in_os monotonic;
    let deadline := (now + timeout_s)%float in
    _ ← wait_managed managed deadline;
    match process with
    | None =>
        match managed with
        | Some m =>
            running ← in_os (_pid_is_running m);
            _ ← whenM running
                  (_ ← in_os (_terminate_pid m SIGKILL);
                   now ← in_os monotonic;
                   in_os (_wait_pid_exit m (now + timeout_s)%float));
            in_os (_cleanup_pidfile pidfile)
        | None => in_os (_cleanup_pidfile pidfile)
        end
    | Some pid =>
        try_finally
          (try_except
             (now ← in_os monotonic;
              in_os (popen_wait pid (py_max 0 (deadline - now)%float)))
             (λ e,
                if isinstance e TimeoutExpired then
                  _ ← signal_managed managed SIGKILL;
                  _ ← in_os (_terminate_process_group pid SIGKILL);
                  in_os (popen_wait pid timeout_s)
                else raise e))
          (_ ← in_os (_cleanup_pidfile pidfile); in_sup (_close_log_handle name))
    end.

(** [stop_all(timeout_s)] *)
Definition stop_all (timeout_s : float) : ST SupSt unit :=
  names ← gets (λ s, map fst (sorted_by (λ kc, pr_stop_order (snd kc))
                                (process_configs (fst s))));
  for_each names (λ name, stop_by_name name timeout_s).

(** [status()]. The number [poll()] returns is not modelled; whether it is one is. *)
Record ProcessStatus := {
  st_proc_config : ProcessConfig;
  st_pid : option Z;
  st_managed_pid : option Z;
  st_alive : bool;
  st_exited : option bool;
  st_log_file : string
}.

Definition process_status (name : string) (config : ProcessConfig) : ST SupSt ProcessStatus :=
  pid ← gets (λ s, dict_get name (processes (fst s)));
  managed_pid ← gets (λ s, _read_pidfile (dict_get name (_pidfiles (fst s))) (snd s));
  alive ← is_alive name;
  exited ← (match pid with
            | Some p => x ← in_os (popen_poll p); mret (Some x)
            | None => mret None
            end);
  log_file ← gets (λ s, _log_file_for (fst s) name);
  mret {| st_proc_config := config; st_pid := pid; st_managed_pid := managed_pid;
          st_alive := alive; st_exited := exited; st_log_file := log_file |}.

Fixpoint status_of (l : list (string * ProcessConfig)) : ST SupSt (dict string ProcessStatus) :=
  match l with
  | [] => mret []
  | (name, config) :: l =>
      x ← process_status name config;
      rest ← status_of l;
      mret ((name, x) :: rest)
  end.

Definition status : ST SupSt (dict string ProcessStatus) :=
  configs ← gets (λ s, process_configs (fst s));
  status_of configs.

(** [ProcessSupervisor.health()]: can daemon, task controller, aux reader,
    dashboard. *)
Definition health : ST SupSt (bool * bool * bool * bool) :=
  can_daemon ← is_alive "can_daemon";
  task_controller ← is_alive "task_controller";
  aux_reader ← is_alive "aux_reader";
  dashboard ← is_alive "dashboard";
  mret (can_daemon, task_controller, aux_reader, dashboard).
End supervisor.

(** ** What the operations leave alone *)

(** A later state of the operating system, as far as process [pid] and the files
    are concerned: its owner and its reaction to SIGKILL stay, and an exit is
    final. *)
Record later (pid : Z) (o o' : OS) : Prop := {
  la_files : os_files o' = os_files o;
  la_proc : ∀ p, os_procs o !! pid = Some p →
    ∃ p', os_procs o' !! pid = Some p' ∧ px_owned p' = px_owned p ∧
          px_on_kill p' = px_on_kill p ∧ (px_dead p = true → px_dead p' = true)
}.

#[export] Instance later_preorder pid : PreOrder (later pid).
Proof.
  split.
  - intros o. split; [done|]. intros p Hp. by exists p.
  - intros o1 o2 o3 [F1 P1] [F2 P2]. split; [congruence|]. intros p Hp.
    destruct (P1 p Hp) as (q & Hq & ? & ? & ?). destruct (P2 q Hq) as (r & Hr & ? & ? & ?).
    exists r. split_and!; [done|congruence|congruence|auto].
Qed.

Abbreviation quiet pid m := (within (later pid) m).
(** A computation that never raises. *)
Definition total {A} (m : ST OS A) : Prop := ∀ o, ∃ a, fst (m o) = Ok a.

Section quiet.
Context (pid : Z).

Lemma quiet_monotonic : quiet pid monotonic.
Proof.
  intros o. unfold monotonic. destruct (os_clock o); [done|]. split; [done|].
  intros p Hp. by exists p.
Qed.

Lemma px_dead_deliver s p : px_dead p = true → px_dead (deliver s p) = true.
Proof.
  unfold px_dead. rewrite !bool_decide_eq_true. unfold deliver, with_left. cbn [px_left].
  intros ->. by destruct (match s with SIGTERM => _ | SIGKILL => _ end).
Qed.

(** A map of the processes that keeps owners, SIGKILL and exits. *)
Lemma later_fmap o (f : Proc → Proc) l :
  (∀ p, px_owned (f p) = px_owned p ∧ px_on_kill (f p) = px_on_kill p ∧
        (px_dead p = true → px_dead (f p) = true)) →
  later pid o (with_signal o (f <$> os_procs o) l).
Proof.
  intros Hf. split; [done|]. intros p Hp. exists (f p).
  cbn [with_signal os_procs]. rewrite lookup_fmap, Hp. split; [done|apply Hf].
Qed.

Lemma later_insert o pid' q q' :
  os_procs o !! pid' = Some q →
  px_owned q' = px_owned q → px_on_kill q' = px_on_kill q →
  (px_dead q = true → px_dead q' = true) →
  ∀ l, later pid o (with_signal o (<[pid' := q']> (os_procs o)) l).
Proof.
  intros Hq Ho Hk Hd l. split; [done|]. intros p Hp. cbn [with_signal os_procs].
  destruct (decide (pid' = pid)) as [->|Hne].
  - rewrite lookup_insert_eq. simplify_eq. by exists q'.
  - rewrite lookup_insert_ne by done. by exists p.
Qed.

Lemma quiet_sleep : quiet pid sleep.
Proof.
  intros o. unfold sleep, modify. cbn [snd].
  assert (with_procs o (elapse <$> os_procs o) =
          with_signal o (elapse <$> os_procs o) []) as ->
    by (unfold with_procs, with_signal; by rewrite app_nil_r).
  apply later_fmap. intros p. split_and!; [done|done|].
  unfold px_dead, elapse, with_left. cbn [px_left]. rewrite !bool_decide_eq_true. by intros ->.
Qed.

Lemma quiet_kill pid' s : quiet pid (os_kill pid' s).
Proof.
  intros o. unfold os_kill. destruct (_ <=? _); [done|].
  destruct (os_procs o !! pid') as [q|] eqn:E; [|done].
  destruct (negb (px_exists q)); [done|]. destruct (negb (px_owned q)); [done|].
  cbn [snd]. eapply later_insert; [exact E|done|done|apply px_dead_deliver].
Qed.

Lemma quiet_probe pid' : quiet pid (os_probe pid').
Proof.
  intros o. unfold os_probe. destruct (_ <=? _); [done|].
  destruct (os_procs o !! pid') as [q|]; [|done].
  destruct (negb (px_exists q)); [done|]. by destruct (negb (px_owned q)).
Qed.

Lemma quiet_killpg pid' s : quiet pid (os_killpg pid' s).
Proof.
  intros o. unfold os_killpg. destruct (os_procs o !! pid') as [q|]; [|done].
  destruct (negb (px_exists q)); [done|]. cbv zeta. case_bool_decide; [done|].
  apply later_fmap. intros p. destruct (_ && _); [|done].
  split_and!; [done|done|apply px_dead_deliver].
Qed.

Lemma quiet_poll pid' : quiet pid (popen_poll pid').
Proof.
  intros o. unfold popen_poll. destruct (os_procs o !! pid') as [q|] eqn:E; [|done].
  destruct (px_dead q) eqn:Ed; [|done]. cbn [snd].
  assert (with_procs o (<[pid' := reap q]> (os_procs o)) =
          with_signal o (<[pid' := reap q]> (os_procs o)) []) as ->
    by (unfold with_procs, with_signal; by rewrite app_nil_r).
  eapply later_insert; [exact E|done|done|done].
Qed.
End quiet.

#[export] Hint Resolve quiet_monotonic quiet_sleep quiet_kill quiet_probe quiet_killpg
  quiet_poll : within.

Section quiet_ops.
Context (pid : Z).

Lemma quiet_send_signal pid' s : quiet pid (popen_send_signal pid' s).
Proof. unfold popen_send_signal. auto 8 with within. Qed.
Lemma quiet_running pid' : quiet pid (_pid_is_running pid').
Proof. unfold _pid_is_running. auto 8 with within. Qed.
Lemma quiet_terminate_pid pid' s : quiet pid (_terminate_pid pid' s).
Proof. unfold _terminate_pid. auto 8 with within. Qed.
Hint Resolve quiet_send_signal quiet_running : within.
Lemma quiet_terminate_group pid' s : quiet pid (_terminate_process_group pid' s).
Proof. unfold _terminate_process_group. auto 10 with within. Qed.

Lemma quiet_wait_exit pid' deadline clock : quiet pid (wait_exit pid' deadline clock).
Proof.
  induction clock as [|t clock IH]; cbn [wait_exit]; auto 15 with within.
Qed.
Lemma quiet_wait_until pid' endtime clock : quiet pid (wait_until pid' endtime clock).
Proof.
  induction clock as [|t clock IH]; cbn [wait_until]; auto 15 with within.
Qed.
End quiet_ops.
#[export] Hint Resolve quiet_send_signal quiet_running quiet_terminate_pid quiet_terminate_group
  quiet_wait_exit quiet_wait_until : within.

(** A process of ours that SIGKILL ends at once, and one that has exited. *)
Definition killable (pid : Z) (o : OS) : Prop :=
  ∃ p, os_procs o !! pid = Some p ∧ px_owned p = true ∧ px_on_kill p = 0%nat.
Definition exited (pid : Z) (o : OS) : Prop :=
  ∃ p, os_procs o !! pid = Some p ∧ px_dead p = true.

Lemma later_killable pid o o' : later pid o o' → killable pid o → killable pid o'.
Proof.
  intros [_ H] (p & Hp & Ho & Hk). destruct (H p Hp) as (p' & Hp' & ? & ? & _).
  exists p'. split_and!; [done|congruence|congruence].
Qed.

Lemma later_exited pid o o' : later pid o o' → exited pid o → exited pid o'.
Proof.
  intros [_ H] (p & Hp & Hd). destruct (H p Hp) as (p' & Hp' & _ & _ & Hd'). exists p'. auto.
Qed.

Lemma running_total m o : m < 2 ^ 31 → ∃ b, _pid_is_running m o = (Ok b, o).
Proof.
  intros Hm. unfold _pid_is_running, try_except. st_run. unfold os_probe.
  rewrite (proj2 (Z.leb_gt _ _)) by lia.
  destruct (os_procs o !! m) as [q|]; cbn; [|eauto].
  destruct (negb (px_exists q)); cbn; [eauto|]. destruct (negb (px_owned q)); cbn; eauto.
Qed.

Lemma terminate_pid_total m s o : m < 2 ^ 31 → ∃ o', _terminate_pid m s o = (Ok (), o').
Proof.
  intros Hm. unfold _terminate_pid, try_except, os_kill.
  rewrite (proj2 (Z.leb_gt _ _)) by lia.
  destruct (os_procs o !! m) as [q|]; cbn; [|eauto].
  destruct (negb (px_exists q)); cbn; [eauto|]. destruct (negb (px_owned q)); cbn; eauto.
Qed.

Lemma wait_exit_total m deadline clock : m < 2 ^ 31 →
  ∀ o, ∃ o', wait_exit m deadline clock o = (Ok (), o').
Proof.
  intros Hm. induction clock as [|t clock IH]; intros o; cbn [wait_exit]; st_run;
    unfold monotonic.
  - destruct (os_clock o); cbn; destruct (negb _); eauto.
  - destruct (os_clock o) as [|x l]; cbn;
      (destruct (negb _); [by eauto|]);
      match goal with |- context [_pid_is_running m ?o1] =>
        destruct (running_total m o1 Hm) as [b ->] end;
      (destruct (negb b); [by eauto|]); apply IH.
Qed.

Lemma killpg_spec pid s o :
  killable pid o →
  (∃ o', os_killpg pid s o = (Ok (), o') ∧ (s = SIGKILL → exited pid o')) ∨
  (os_killpg pid s o = (Raise ProcessLookupError, o) ∧ exited pid o).
Proof.
  intros (p & Hp & Ho & Hk). unfold os_killpg. rewrite Hp.
  destruct (px_exists p) eqn:Hx; cbn [negb]; [left|right].
  - case_bool_decide as Hl.
    + exfalso. apply length_zero_iff_nil in Hl. apply (not_elem_of_nil (pid, p)).
      rewrite <- Hl. apply list_elem_of_filter. split; [|by apply elem_of_map_to_list].
      cbn. unfold in_group. by rewrite Hx, Ho, Z.eqb_refl.
    + eexists. split; [done|]. intros ->. exists (deliver SIGKILL p).
      cbn [with_signal os_procs]. rewrite lookup_fmap, Hp. cbn.
      unfold in_group. rewrite Hx, Ho, Z.eqb_refl. cbn. split; [done|].
      unfold px_dead, deliver, with_left. cbn [px_left]. rewrite Hk. apply bool_decide_eq_true.
      destruct (px_left p); cbn; [|done]. by rewrite Nat.min_0_r.
  - split; [done|]. exists p. split; [done|]. unfold px_exists in Hx. by destruct (px_dead p).
Qed.

(** Signalling the group of a process that we own reaches it. *)
Lemma terminate_group_spec pid s o :
  killable pid o →
  ∃ o', _terminate_process_group pid s o = (Ok (), o') ∧ later pid o o' ∧
        (s = SIGKILL → exited pid o').
Proof.
  intros Hk. pose proof (quiet_killpg pid pid s o) as Hq.
  unfold _terminate_process_group, try_except.
  destruct (killpg_spec pid s o Hk) as [(o' & E & Hd)|[E Hd]]; rewrite E in *; cbn in *.
  - by exists o'.
  - by exists o.
Qed.

Lemma poll_exited pid o : exited pid o →
  ∃ o', popen_poll pid o = (Ok true, o') ∧ exited pid o'.
Proof.
  intros (p & Hp & Hd). unfold popen_poll. rewrite Hp, Hd. eexists. split; [done|].
  exists (reap p). cbn. by rewrite lookup_insert_eq.
Qed.

(** [Popen.wait] returns only when the process has exited, and at once when it
    already has; otherwise it raises [TimeoutExpired]. *)
Lemma wait_until_spec pid endtime clock : ∀ o,
  (∃ p, os_procs o !! pid = Some p) →
  (exited pid o → fst (wait_until pid endtime clock o) = Ok ()) ∧
  match wait_until pid endtime clock o with
  | (Ok _, o') => exited pid o'
  | (Raise e, _) => e = TimeoutExpired
  end.
Proof.
  induction clock as [|t clock IH]; intros o (p & Hp); cbn [wait_until]; st_run;
    unfold popen_poll; rewrite Hp; destruct (px_dead p) eqn:Hd; cbn.
  1,3: split; [done|]; exists (reap p); cbn; by rewrite lookup_insert_eq.
  - split; [|done]. intros (q & Hq & Hqd). congruence.
  - split; [intros (q & Hq & Hqd); congruence|].
    pose proof (quiet_monotonic pid o) as Hm.
    destruct (monotonic o) as [[now|e] o1] eqn:E; cbn in Hm.
    + destruct (endtime - now <=? 0)%float; [done|].
      apply IH. destruct (la_proc _ _ _ Hm p Hp) as (p1 & Hp1 & _).
      destruct (la_proc _ _ _ (quiet_sleep pid o1) p1 Hp1) as (p2 & Hp2 & _). eauto.
    + unfold monotonic in E. by destruct (os_clock o).
Qed.

Lemma popen_wait_spec pid timeout o :
  (∃ p, os_procs o !! pid = Some p) →
  later pid o (snd (popen_wait pid timeout o)) ∧
  (exited pid o → fst (popen_wait pid timeout o) = Ok ()) ∧
  match popen_wait pid timeout o with
  | (Ok _, o') => exited pid o'
  | (Raise e, _) => e = TimeoutExpired
  end.
Proof.
  intros Hp. split; [by apply (within_bind (later pid) monotonic); auto with within|].
  unfold popen_wait. st_run.
  pose proof (quiet_monotonic pid o) as Hm.
  destruct (monotonic o) as [[now|e] o1] eqn:E; cbn in Hm.
  - assert (∃ p, os_procs o1 !! pid = Some p) as Hp1.
    { destruct Hp as [p Hp]. destruct (la_proc _ _ _ Hm p Hp) as (p1 & Hp1 & _). eauto. }
    destruct (wait_until_spec pid (now + timeout)%float (os_clock o1) o1 Hp1) as [H1 H2].
    split; [|done]. intros Hx. apply H1. by eapply later_exited.
  - unfold monotonic in E. by destruct (os_clock o).
Qed.

Definition managed_ok (managed : option Z) : Prop :=
  match managed with Some m => m < 2 ^ 31 | None => True end.

Lemma signal_managed_spec pid managed s p o : managed_ok managed →
  ∃ o', signal_managed managed s (p, o) = (Ok (), (p, o')) ∧ later pid o o'.
Proof.
  intros Hm. destruct managed as [m|]; cbn in *; [|by exists o].
  pose proof (quiet_terminate_pid pid m s o) as Hq.
  destruct (terminate_pid_total m s o Hm) as [o' E]. rewrite E in Hq.
  exists o'. unfold signal_managed, in_os, zoom. cbn. by rewrite E.
Qed.

Lemma signal_process_spec pid s p o : killable pid o →
  ∃ o', signal_process (Some pid) s (p, o) = (Ok (), (p, o')) ∧ later pid o o'.
Proof.
  intros Hk. unfold signal_process, in_os, zoom. st_run. cbn.
  pose proof (quiet_poll pid pid o) as Hq. unfold popen_poll in *.
  destruct Hk as (q & Hq' & Hko). rewrite Hq' in *. destruct (px_dead q); cbn in *.
  - eauto.
  - destruct (terminate_group_spec pid s o) as (o' & -> & Hl & _); [by exists q|]. eauto.
Qed.

Lemma wait_managed_spec pid managed deadline p o : managed_ok managed →
  ∃ o', wait_managed managed deadline (p, o) = (Ok (), (p, o')) ∧ later pid o o'.
Proof.
  intros Hm. destruct managed as [m|]; cbn in *; [|by exists o].
  unfold wait_managed, in_os, zoom, _wait_pid_exit. st_run. cbn.
  pose proof (quiet_wait_exit pid m deadline (os_clock o) o) as Hq.
  destruct (wait_exit_total m deadline (os_clock o) Hm o) as [o' E]. rewrite E in *. eauto.
Qed.

Lemma monotonic_spec pid p o :
  ∃ now o', in_os monotonic (p, o) = (Ok now, (p, o')) ∧ later pid o o'.
Proof.
  pose proof (quiet_monotonic pid o) as Hq. unfold in_os, zoom, monotonic in *. cbn.
  destruct (os_clock o); eauto.
Qed.

Lemma killable_exists pid o : killable pid o → ∃ q, os_procs o !! pid = Some q.
Proof. intros (q & ? & _). eauto. Qed.

(** Waiting for the process and, when it has not exited in time, killing it. *)
Lemma wait_or_kill pid managed deadline timeout_s p o :
  managed_ok managed → killable pid o →
  ∃ o', try_except
          (now ← in_os monotonic;
           in_os (popen_wait pid (py_max 0 (deadline - now)%float)))
          (λ e,
             if isinstance e TimeoutExpired then
               _ ← signal_managed managed SIGKILL;
               _ ← in_os (_terminate_process_group pid SIGKILL);
               in_os (popen_wait pid timeout_s)
             else raise e) (p, o) = (Ok (), (p, o')) ∧ later pid o o' ∧ exited pid o'.
Proof.
  intros Hm Hk. unfold try_except. st_run.
  destruct (monotonic_spec pid p o) as (now & o1 & -> & L1).
  pose proof (later_killable _ _ _ L1 Hk) as Hk1.
  destruct (popen_wait_spec pid (py_max 0 (deadline - now)) o1 (killable_exists _ _ Hk1))
    as (L2 & _ & Hw).
  unfold in_os at 1, zoom. cbn [fst snd].
  destruct (popen_wait pid _ o1) as [[[]|e] o2]; cbn [fst snd] in *.
  { exists o2. split_and!; [done|by etrans|done]. }
  subst e. change (isinstance TimeoutExpired TimeoutExpired) with true. cbv iota.
  pose proof (later_killable _ _ _ L2 Hk1) as Hk2.
  destruct (signal_managed_spec pid managed SIGKILL p o2 Hm) as (o3 & -> & L3).
  pose proof (later_killable _ _ _ L3 Hk2) as Hk3.
  unfold in_os, zoom. cbn [fst snd].
  destruct (terminate_group_spec pid SIGKILL o3 Hk3) as (o4 & -> & L4 & Hx4).
  pose proof (later_killable _ _ _ L4 Hk3) as Hk4. cbn [fst snd].
  destruct (popen_wait_spec pid timeout_s o4 (killable_exists _ _ Hk4)) as (L5 & Hok & Hx5).
  specialize (Hok (Hx4 eq_refl)).
  destruct (popen_wait pid timeout_s o4) as [r o5]; cbn [fst snd] in *. subst r.
  exists o5. split_and!; [done| |done]. by repeat (etrans; [eassumption|]).
Qed.

Lemma is_alive_stopped name pid p o :
  dict_get name (processes p) = Some pid → exited pid o →
  _read_pidfile (dict_get name (_pidfiles p)) o = None →
  fst (is_alive name (p, o)) = Ok false.
Proof.
  intros Hp Hx Hf. unfold is_alive. st_run. cbn [fst snd]. rewrite Hp.
  unfold in_os, zoom. cbn [fst snd]. destruct Hx as (q & Hq & Hd).
  unfold popen_poll. rewrite Hq, Hd. cbn [negb fst snd].
  assert (_read_pidfile (dict_get name (_pidfiles p)) (with_procs o (<[pid:=reap q]> (os_procs o)))
          = None) as -> by exact Hf. done.
Qed.


(** ** Quoting is safe *)

(** How a POSIX shell splits text into words, on the part of its grammar that
    quoted text uses; anything a shell could act on makes it fail. *)
Inductive quoting := Bare | Single | Double.

Fixpoint shell_words (st : quoting) (cur : option (list ascii)) (l : list ascii) :
    option (list (list ascii)) :=
  match l with
  | [] =>
      match st, cur with
      | Bare, None => Some []
      | Bare, Some w => Some [w]
      | _, _ => None
      end
  | c :: l =>
      let here := default [] cur in
      match st with
      | Bare =>
          if decide (c = quote_char) then shell_words Single (Some here) l
          else if decide (c = dquote_char) then shell_words Double (Some here) l
          else if decide (c = " "%char) then
            match cur with
            | None => shell_words Bare None l
            | Some w => cons w <$> shell_words Bare None l
            end
          else if safe_char c then shell_words Bare (Some (here ++ [c])) l
          else None
      | Single =>
          if decide (c = quote_char) then shell_words Bare (Some here) l
          else shell_words Single (Some (here ++ [c])) l
      | Double =>
          if decide (c = dquote_char) then shell_words Bare (Some here) l
          else if bool_decide (c ∈ ["$"; "`"; "\"; "!"]%char) then None
          else shell_words Double (Some (here ++ [c])) l
      end
  end.

Lemma words_single w : ∀ u rest,
  shell_words Single (Some u) (concat (map escape w) ++ quote_char :: rest) =
  shell_words Bare (Some (u ++ w)) rest.
Proof.
  induction w as [|c w IH]; intros u rest; cbn [map concat app].
  - cbn [shell_words]. rewrite decide_True by done. cbn. by rewrite app_nil_r.
  - unfold escape at 1. destruct (decide (c = quote_char)) as [->|Hc].
    + change (u ++ quote_char :: w) with (u ++ [quote_char] ++ w). rewrite app_assoc, <- IH. done.
    + cbn [app shell_words]. rewrite decide_False by done. cbn [default from_option].
      unfold id. rewrite IH, <- app_assoc. done.
Qed.

Lemma safe_char_plain c : safe_char c = true →
  c ≠ quote_char ∧ c ≠ dquote_char ∧ c ≠ " "%char.
Proof. intros H. split_and!; intros ->; by vm_compute in H. Qed.

Lemma words_safe w : forallb safe_char w = true → ∀ u rest,
  shell_words Bare (Some u) (w ++ rest) = shell_words Bare (Some (u ++ w)) rest.
Proof.
  induction w as [|c w IH]; intros Hs u rest; cbn [app].
  - by rewrite app_nil_r.
  - cbn [forallb] in Hs. apply andb_true_iff in Hs as [Hc Hs].
    destruct (safe_char_plain c Hc) as (? & ? & ?). cbn [shell_words].
    rewrite !decide_False, Hc by done. cbn. by rewrite IH, <- app_assoc.
Qed.

Lemma words_quoted w rest :
  shell_words Bare None (quote_chars w ++ rest) = shell_words Bare (Some w) rest.
Proof.
  unfold quote_chars. case_bool_decide as Hn; [by subst|].
  destruct (forallb safe_char w) eqn:Hs.
  - destruct w as [|c w]; [done|]. cbn [forallb] in Hs.
    apply andb_true_iff in Hs as [Hc Hs].
    destruct (safe_char_plain c Hc) as (? & ? & ?). cbn [app shell_words].
    rewrite !decide_False, Hc by done. cbn. rewrite words_safe by done. done.
  - rewrite <- !app_assoc. cbn [app]. cbn [shell_words]. rewrite decide_True by done.
    cbn [default from_option]. by rewrite words_single.
Qed.

(** Quoting. Whatever characters the command of a process contains, the shell
    text [shlex.join] makes of it is split by a shell into exactly the words of
    the command; none of it is left for the shell to interpret. *)
Theorem join_quoting (command : list string) :
  shell_words Bare None (String.list_ascii_of_string (shlex_join command)) =
    Some (map String.list_ascii_of_string command).
Proof.
  unfold shlex_join. rewrite String.list_ascii_of_string_of_list_ascii.
  induction command as [|w command IH]; [done|].
  cbn [map join_chars]. destruct command as [|v command]; cbn [map] in *.
  - rewrite <- (app_nil_r (quote_chars _)), words_quoted. done.
  - rewrite words_quoted. cbn [shell_words]. rewrite !decide_False by done.
    rewrite decide_True by done. by rewrite IH.
Qed.

(** ** Starting *)

Section start.
Context (environ : dict string string) (resolve : string → string).

(** What [start_by_name] launches for a configuration. *)
Definition launch_of (p : ProcessSupervisor) (c : ProcessConfig) (pidfile : string) :
    res Launch :=
  argv ← _launch_command resolve c pidfile (_log_file_for p (pr_name c));
  Ok {| la_argv := argv; la_cwd := pr_working_dir c; la_env := _process_env environ c;
        la_logged := negb (pr_new_terminal c) |}.

(** A configuration that can be started and is not running: no process of it,
    no pidfile on disk. *)
Record startable (p : ProcessSupervisor) (o : OS) (c : ProcessConfig) (l : Launch) : Prop := {
  st_config : dict_get (pr_name c) (process_configs p) = Some c;
  st_name : pr_name c ≠ ""%string;
  st_stopped : dict_get (pr_name c) (processes p) = None;
  st_pidfile : ∃ f, dict_get (pr_name c) (_pidfiles p) = Some f ∧ os_files o !! f = None ∧
                    launch_of p c f = Ok l;
  st_command : pr_command c ≠ []
}.

Lemma start_startable p o c l ch rest :
  startable p o c l → os_children o = Ok ch :: rest →
  ∃ p' o', start_by_name environ resolve (pr_name c) (p, o) = (Ok (), (p', o')) ∧
    processes p' = dict_set (pr_name c) (os_next_pid o) (processes p) ∧
    process_configs p' = process_configs p ∧ _pidfiles p' = _pidfiles p ∧
    ps_log_dir p' = ps_log_dir p ∧
    os_launches o' = os_launches o ++ [l] ∧ os_files o' = os_files o ∧
    os_children o' = rest ∧ os_next_pid o' = os_next_pid o + 1 ∧
    (∃ q, os_procs o' !! os_next_pid o = Some q ∧ px_left q = ch_left ch) ∧
    (∀ pid, pid ≠ os_next_pid o → os_procs o' !! pid = os_procs o !! pid).
Proof.
  intros [Hc Hn Hs (f & Hf & Hof & Hl) Hcmd] Hch.
  unfold start_by_name. rewrite decide_False by done. st_run. cbn [fst snd]. rewrite Hc.
  unfold is_alive. st_run. cbn [fst snd]. rewrite Hs. cbn [negb fst snd].
  unfold _read_pidfile. rewrite Hf. cbn [mbind option_bind]. rewrite Hof. cbn [fst snd].
  rewrite bool_decide_false by (by intros ?%length_zero_iff_nil).
  unfold in_os, in_sup, zoom. cbn [fst snd _cleanup_pidfile modify].
  unfold launch_of in Hl. apply res_bind_Ok in Hl as (argv & Ha & [= <-]).
  destruct (pr_new_terminal c) eqn:Et; cbn [negb whenM]; st_run; cbn [fst snd];
    rewrite Hf; cbn [fst snd];
    [rewrite Ha|unfold _launch_command in *; rewrite Et in *; cbn [negb] in *; simplify_eq];
    unfold popen; cbn [fst snd]; cbn [os_children with_files]; rewrite Hch;
    eexists _, _; (split; [done|]); cbn; rewrite delete_id by done;
    (split_and!; try done); [eexists; by rewrite lookup_insert_eq| |
                             eexists; by rewrite lookup_insert_eq|];
    intros pid Hpid; by rewrite lookup_insert_ne.
Qed.

(** A process that runs: its name is known and polling finds it alive. *)
Definition running (p : ProcessSupervisor) (o : OS) (c : ProcessConfig) : Prop :=
  pr_name c ≠ ""%string ∧ dict_get (pr_name c) (process_configs p) = Some c ∧
  ∃ pid q, dict_get (pr_name c) (processes p) = Some pid ∧ os_procs o !! pid = Some q ∧
           px_dead q = false ∧ pid < os_next_pid o.

Lemma start_running p o c : running p o c →
  start_by_name environ resolve (pr_name c) (p, o) = (Ok (), (p, o)).
Proof.
  intros (Hn & Hc & pid & q & Hp & Hq & Hd & _).
  unfold start_by_name. rewrite decide_False by done. st_run. cbn [fst snd]. rewrite Hc.
  unfold is_alive. st_run. cbn [fst snd]. rewrite Hp. unfold in_os, zoom, popen_poll.
  cbn [fst snd]. by rewrite Hq, Hd.
Qed.

Lemma start_running_all p o cs : Forall (running p o) cs →
  for_each cs (λ c, start_by_name environ resolve (pr_name c)) (p, o) = (Ok (), (p, o)).
Proof.
  induction 1 as [|c cs Hc Hcs IH]; [done|]. cbn [for_each]. st_run.
  by rewrite start_running by done.
Qed.

Lemma start_list cs : ∀ p o ls chs rest,
  NoDup (map pr_name cs) → Forall2 (startable p o) cs ls →
  os_children o = map Ok chs ++ rest → length chs = length cs →
  Forall (λ ch, ch_left ch ≠ Some 0%nat) chs →
  ∃ p' o', for_each cs (λ c, start_by_name environ resolve (pr_name c)) (p, o)
             = (Ok (), (p', o')) ∧
    os_launches o' = os_launches o ++ ls ∧ process_configs p' = process_configs p ∧
    Forall (running p' o') cs ∧
    (∀ c, running p o c → pr_name c ∉ map pr_name cs → running p' o' c).
Proof.
  induction cs as [|c cs IH]; intros p o ls chs rest Hnd Hst Hch Hlen Hrun.
  - apply Forall2_nil_inv_l in Hst as ->. exists p, o. rewrite app_nil_r. by split_and!.
  - apply Forall2_cons_inv_l in Hst as (l & ls' & Hl & Hst & ->).
    destruct chs as [|ch chs]; [done|]. cbn [map app] in Hch.
    apply NoDup_cons in Hnd as [Hnew Hnd]. apply Forall_cons in Hrun as [Hleft Hrun].
    destruct (start_startable p o c l ch _ Hl Hch) as
      (p1 & o1 & E & Hps & Hcf & Hpf & Hld & Hla & Hfi & Hch1 & Hnx & (q & Hq & Hql) & Hoth).
    assert (∀ c', running p o c' → pr_name c' ≠ pr_name c → running p1 o1 c') as Hkeep.
    { intros c' (? & ? & pid & q' & ? & ? & ? & ?) Hne. split; [done|]. rewrite Hcf, Hps, Hnx.
      split; [done|]. exists pid, q'. rewrite dict_get_set_ne by done.
      rewrite Hoth by lia. split_and!; try done. lia. }
    destruct (IH p1 o1 ls' chs rest Hnd) as (p2 & o2 & E2 & Hla2 & Hcf2 & Hr2 & Hk2);
      [|done|by injection Hlen|done|].
    + apply Forall2_same_length_lookup_2; [by eapply Forall2_length|].
      intros i c' l' Hi Hj.
      destruct (Forall2_lookup_lr _ _ _ _ _ _ Hst Hi Hj) as [? ? ? (f & Hf & Hof & Hlf) ?].
      apply list_elem_of_lookup_2 in Hi as Hin.
      split; [by rewrite Hcf|done| |exists f; rewrite Hpf, Hfi|done].
      * rewrite Hps, dict_get_set_ne; [done|]. intros Heq. apply Hnew. rewrite <- Heq.
        by apply list_elem_of_fmap_2.
      * split_and!; [done|done|]. unfold launch_of, _log_file_for in *. by rewrite Hld.
    + exists p2, o2. cbn [for_each]. st_run. rewrite E. split; [done|].
      rewrite Hla2, Hla, <- app_assoc. split; [done|]. split; [congruence|]. split.
      * apply Forall_cons. split; [|done]. apply Hk2; [|done].
        destruct Hl. split; [done|]. rewrite Hcf, Hps, Hnx. split; [done|].
        exists (os_next_pid o), q. rewrite dict_get_set_eq. split_and!; [done|done| |lia].
        apply bool_decide_false. by rewrite Hql.
      * intros c' Hc' Hn'. cbn [map] in Hn'. apply Hk2; [apply Hkeep|]; set_solver.
Qed.

(** C23: Starting in order. When every configured process can be started and none
    is running, [start_all] launches each exactly once, by increasing
    [start_order] and in the order of the configuration where it is equal;
    afterwards all of them run, and a second [start_all] changes nothing. *)
Theorem start_all_in_order (p : ProcessSupervisor) (o : OS) (ls : list Launch)
    (chs : list Child) (rest : list (res Child)) :
  let cs := sorted_by pr_start_order (dict_values (process_configs p)) in
  NoDup (map pr_name cs) → Forall2 (startable p o) cs ls →
  os_children o = map Ok chs ++ rest → length chs = length cs →
  Forall (λ ch, ch_left ch ≠ Some 0%nat) chs →
  Sorted (λ a b, pr_start_order a ≤ pr_start_order b) cs ∧
  cs ≡ₚ dict_values (process_configs p) ∧
  (∀ k, filter (λ c, pr_start_order c = k) cs =
        filter (λ c, pr_start_order c = k) (dict_values (process_configs p))) ∧
  ∃ p' o', start_all environ resolve (p, o) = (Ok (), (p', o')) ∧
    os_launches o' = os_launches o ++ ls ∧ Forall (running p' o') cs ∧
    start_all environ resolve (p', o') = (Ok (), (p', o')).
Proof.
  intros cs Hnd Hst Hch Hlen Hrun. split; [apply sorted_by_sorted|].
  split; [apply sorted_by_perm|]. split; [intros k; apply sorted_by_stable|].
  destruct (start_list cs p o ls chs rest Hnd Hst Hch Hlen Hrun)
    as (p' & o' & E & Hla & Hcf & Hr & _).
  exists p', o'. unfold start_all. st_run. cbn [fst snd]. split_and!; [done|done|done|].
  rewrite Hcf. by apply start_running_all.
Qed.
End start.

(** ** Concrete runs *)

Definition example_process (name : string) (order : Z) : ProcessConfig :=
  {| pr_name := name; pr_command := ["python3"; "main.py"]%string; pr_start_order := order;
     pr_stop_order := - order; pr_new_terminal := false; pr_terminal_command := [];
     pr_working_dir := "."; pr_env := [] |}.

Definition example_sup : ProcessSupervisor :=
  sup_init "/tmp/p" "/tmp/l" [example_process "aux_reader" 2; example_process "can_daemon" 1].

Definition example_child : Child := {| ch_left := None; ch_on_term := None; ch_on_kill := 0 |}.

Definition example_os : OS :=
  {| os_procs := ∅; os_next_pid := 1000; os_files := ∅; os_clock := [1; 2; 3; 4; 5]%float;
     os_children := [Ok example_child; Ok example_child]; os_launches := []; os_signals := [] |}.

Definition example_launch : Launch :=
  {| la_argv := ["python3"; "main.py"]%string; la_cwd := "."; la_env := []; la_logged := true |}.

Lemma start_all_in_order_witness :
  ∃ p' o', start_all [] (λ s, s) (example_sup, example_os) = (Ok (), (p', o')) ∧
    os_launches o' = [example_launch; example_launch] ∧
    start_all [] (λ s, s) (p', o') = (Ok (), (p', o')).
Proof.
  destruct (start_all_in_order [] (λ s, s) example_sup example_os
    [example_launch; example_launch] [example_child; example_child] [])
    as (_ & _ & _ & p' & o' & E & Hl & _ & E2).
  - vm_compute. repeat constructor; set_solver.
  - change (Forall2 (startable [] (λ s, s) example_sup example_os)
      [example_process "can_daemon" 1; example_process "aux_reader" 2]
      [example_launch; example_launch]).
    repeat (apply Forall2_cons_2 || apply Forall2_nil_2); split;
      try (eexists; split_and!); by try reflexivity.
  - reflexivity.
  - reflexivity.
  - by repeat constructor.
  - by exists p', o'.
Defined.


(** The escalation: SIGTERM first, then SIGKILL once the deadline has passed. *)
Example stop_escalates :
  let p := with_processes example_sup [("can_daemon", 7)]%string ["can_daemon"]%string in
  let o := with_procs example_os
    {[7 := {| px_group := 7; px_left := None; px_on_term := None; px_on_kill := 0;
              px_owned := true; px_child := true; px_reaped := false |}]} in
  os_signals (snd (snd (stop_by_name "can_daemon" 2 (p, o)))) = [(7, SIGTERM); (7, SIGKILL)].
Proof. vm_compute. reflexivity. Qed.

(** ** What the supervisor promises to the controller *)

Class ProcessControl (S : Type) := {
  pc_start_by_name : string → ST S unit;
  pc_start_all : ST S unit;
  pc_stop_all : float → ST S unit
}.

Definition supervisor_control (environ : dict string string) (resolve : string → string) :
    ProcessControl SupSt := {|
  pc_start_by_name := start_by_name environ resolve;
  pc_start_all := start_all environ resolve;
  pc_stop_all := stop_all
|}.
