(* ===== verification/Controller.v ===== *)
(** * The robot controller

    [robot_controller/controller.py] (with [core/state.py] and the [main] of
    [main.py]): the object that owns the drivers, the state machine, the
    segments and the child processes; its start, control tick and shutdown. The
    components are the ones of the other files; what stops and starts processes
    is any implementation of [ProcessControl]. *)

From S2P Require Import Prelude PyFloat PyDict CStruct OperatorCommand StateMachine ControlCommand.
From S2P Require Import RobotState Telemetry CanBus Dispatcher Wire CanDaemon CanTransport.
From S2P Require Import CommManager ActuatorDriver SpgProtocol Imu Config ShmManager Supervisor.

(** [class RobotControllerState(Enum)] *)
Module Phase.
Inductive RobotControllerState :=
  | CREATED | INIT_SHM | START_CAN_DAEMON | BRINGUP_IMU | START_CHILD_PROCESSES
  | RUNNING | SHUTTING_DOWN | STOPPED | ERROR.

#[global] Instance RobotControllerState_eq_dec : EqDecision RobotControllerState.
Proof. solve_decision. Defined.
End Phase.
Abbreviation RobotControllerState := Phase.RobotControllerState.

(** The callbacks the controller registers: the lambda of an actuator's driver,
    named by its key in [self.actuators], and [self.imu.on_frame]. *)
Inductive ControllerCallback := ActuatorCb (key : Z) | ImuCb.

#[export] Instance ControllerCallback_eq_dec : EqDecision ControllerCallback.
Proof. solve_decision. Defined.

Abbreviation Transport := (CANProcessTransport ControllerCallback).
Abbreviation Actuator := (ActuatorDriver SPGActuatorProtocol).

(** The last output the controller recorded. *)
Record OutputRecord := {
  _last_output_source : string;
  _last_output_t : float;
  _last_output_targets : list CommandTargetSnapshot
}.

(** The operator timestamps it has consumed and warned about. *)
Record ConsumedRecord := {
  _last_consumed_operator_timestamp_ns : option Z;
  _last_ignored_operator_timestamp_ns : option Z
}.

(** [class RobotController] *)
Record RobotController := {
  rc_config : RobotControllerConfig;
  controller_state : RobotControllerState;
  rc_can : Transport;
  rc_actuators : dict Z Actuator;
  rc_imu : IMUDriver E2BoxIMUProtocol;
  rc_segments : dict string ShmObj;               (* [ShmManager._segments] *)
  control_cmd_shm : option ShmObj;
  operator_cmd_shm : option ShmObj;
  state_machine : ControllerStateMachine;
  shm_state_publisher : option ShmStatePublisher;
  dashboard_publisher : option ShmStatePublisher;
  rc_output : OutputRecord;
  rc_consumed : ConsumedRecord;
  _running : bool
}.

Section setters.
Context (c : RobotController).
Definition with_phase (x : RobotControllerState) (run : bool) : RobotController :=
  {| rc_config := rc_config c; controller_state := x; rc_can := rc_can c;
     rc_actuators := rc_actuators c; rc_imu := rc_imu c; rc_segments := rc_segments c;
     control_cmd_shm := control_cmd_shm c; operator_cmd_shm := operator_cmd_shm c;
     state_machine := state_machine c; shm_state_publisher := shm_state_publisher c;
     dashboard_publisher := dashboard_publisher c; rc_output := rc_output c;
     rc_consumed := rc_consumed c; _running := run |}.
Definition with_devices (t : Transport) (a : dict Z Actuator) (i : IMUDriver E2BoxIMUProtocol) :
    RobotController :=
  {| rc_config := rc_config c; controller_state := controller_state c; rc_can := t;
     rc_actuators := a; rc_imu := i; rc_segments := rc_segments c;
     control_cmd_shm := control_cmd_shm c; operator_cmd_shm := operator_cmd_shm c;
     state_machine := state_machine c; shm_state_publisher := shm_state_publisher c;
     dashboard_publisher := dashboard_publisher c; rc_output := rc_output c;
     rc_consumed := rc_consumed c; _running := _running c |}.
Definition with_segments (s : dict string ShmObj) (control operator : option ShmObj) :
    RobotController :=
  {| rc_config := rc_config c; controller_state := controller_state c; rc_can := rc_can c;
     rc_actuators := rc_actuators c; rc_imu := rc_imu c; rc_segments := s;
     control_cmd_shm := control; operator_cmd_shm := operator;
     state_machine := state_machine c; shm_state_publisher := shm_state_publisher c;
     dashboard_publisher := dashboard_publisher c; rc_output := rc_output c;
     rc_consumed := rc_consumed c; _running := _running c |}.
Definition with_publishers (p q : option ShmStatePublisher) : RobotController :=
  {| rc_config := rc_config c; controller_state := controller_state c; rc_can := rc_can c;
     rc_actuators := rc_actuators c; rc_imu := rc_imu c; rc_segments := rc_segments c;
     control_cmd_shm := control_cmd_shm c; operator_cmd_shm := operator_cmd_shm c;
     state_machine := state_machine c; shm_state_publisher := p; dashboard_publisher := q;
     rc_output := rc_output c; rc_consumed := rc_consumed c; _running := _running c |}.
Definition with_decision (m : ControllerStateMachine) (o : OutputRecord) (d : ConsumedRecord) :
    RobotController :=
  {| rc_config := rc_config c; controller_state := controller_state c; rc_can := rc_can c;
     rc_actuators := rc_actuators c; rc_imu := rc_imu c; rc_segments := rc_segments c;
     control_cmd_shm := control_cmd_shm c; operator_cmd_shm := operator_cmd_shm c;
     state_machine := m; shm_state_publisher := shm_state_publisher c;
     dashboard_publisher := dashboard_publisher c; rc_output := o; rc_consumed := d;
     _running := _running c |}.
End setters.

Definition with_can c t := with_devices c t (rc_actuators c) (rc_imu c).
Definition with_actuators c a := with_devices c (rc_can c) a (rc_imu c).
Definition with_imu c i := with_devices c (rc_can c) (rc_actuators c) i.
Definition with_state_machine c m := with_decision c m (rc_output c) (rc_consumed c).
Definition with_output c o := with_decision c (state_machine c) o (rc_consumed c).
Definition with_consumed c d := with_decision c (state_machine c) (rc_output c) d.

(** ** [__init__] *)

(** [_create_actuator_drivers()] *)
Definition mit_config_of (config : RobotControllerConfig) : SPGMITConfig :=
  let r := mit_protocol_range (cfg_can config) in
  {| p_max := mr_position_rad r; v_max := mr_velocity_rad_s r; kp_max := mr_kp r;
     kd_max := mr_kd r; tau_max := mr_torque_ff_nm r;
     feedback_position_max := mr_feedback_position_rad r |}.

Fixpoint create_drivers (cfg : SPGMITConfig) (timeout iq : float)
    (specs : list QHRR0ActuatorSpec) (acc : dict Z Actuator) : res (dict Z Actuator) :=
  match specs with
  | [] => Ok acc
  | spec :: specs =>
      d ← create_spg_actuator_driver spec cfg timeout true (Some iq);
      create_drivers cfg timeout iq specs (dict_set (spec_can_id spec) d acc)
  end.

Definition _create_actuator_drivers (config : RobotControllerConfig) : res (dict Z Actuator) :=
  let spg := pf_spg_mit (cfg_platform config) in
  let count := iq_full_scale_count spg in
  if (count <=? 0)%float then Raise ValueError
  else
    iq_count_to_amp ← py_div (iq_full_scale_current_a spg) count;
    create_drivers (mit_config_of config) (command_timeout_s (cfg_can config)) iq_count_to_amp
      (rs_actuators (robot_spec_from_platform (cfg_platform config))) [].

(** [__init__]; [now] is read by the state machine, [attempts] and [replies] are
    the daemon's side of the connection. *)
Definition controller_init (config : RobotControllerConfig) (attempts : list attempt)
    (replies : list line) (now : float) : res RobotController :=
  let spec := robot_spec_from_platform (cfg_platform config) in
  actuators ← _create_actuator_drivers config;
  sm ← sm_init (cfg_enable_duration_s config) Mode.DISABLED 0 now;
  Ok {| rc_config := config; controller_state := Phase.CREATED;
        rc_can := transport_init (cd_connect_timeout_s (cc_daemon (cfg_can config)))
                    attempts replies;
        rc_actuators := actuators;
        rc_imu := create_imu_driver (rs_imu spec) (command_timeout_s (cfg_can config));
        rc_segments := []; control_cmd_shm := None; operator_cmd_shm := None;
        state_machine := sm; shm_state_publisher := None; dashboard_publisher := None;
        rc_output := {| _last_output_source := "NONE"; _last_output_t := 0;
                        _last_output_targets := [] |};
        rc_consumed := {| _last_consumed_operator_timestamp_ns := None;
                          _last_ignored_operator_timestamp_ns := None |};
        _running := false |}.

(** [_zero_set_offsets_by_can_id(command)] *)
Definition add_offset (offsets : dict Z Z) (target : OperatorZeroTargetC) : dict Z Z :=
  if zt_can_id target =? 0 then offsets
  else dict_set (zt_can_id target) (zt_offset_count target) offsets.

Definition _zero_set_offsets_by_can_id (command : option OperatorCommandC) : res (dict Z Z) :=
  match command with
  | None => Ok []
  | Some c =>
      let count := oc_zero_target_count c in
      if count =? 0 then Ok []
      else if negb (oc_zero_target_magic c =? OPERATOR_ZERO_TARGET_MAGIC) then Raise RuntimeError
      else if Z.of_nat (length (oc_zero_targets c)) <? count then Raise RuntimeError
      else Ok (foldl add_offset [] (take (Z.to_nat count) (oc_zero_targets c)))
  end.

(** [_consume_operator_command(command)] *)
Definition released (command : OperatorCommandC) : OperatorCommandC :=
  {| oc_timestamp_ns := oc_timestamp_ns command; oc_command := code_value NONE;
     oc_target_mask := 0; oc_zero_target_count := 0; oc_zero_target_magic := 0;
     oc_zero_targets := replicate OPERATOR_ZERO_TARGET_CAPACITY zero_target_empty |}.

Definition _consume_operator_command (command : OperatorCommandC) (d : ConsumedRecord) :
    OperatorCommandC * ConsumedRecord :=
  match code_of_int (oc_command command) with
  | Raise _ | Ok NONE => (command, d)
  | Ok _ =>
      let ts := oc_timestamp_ns command in
      if decide (Some ts = _last_consumed_operator_timestamp_ns d) then
        (released command,
         {| _last_consumed_operator_timestamp_ns := _last_consumed_operator_timestamp_ns d;
            _last_ignored_operator_timestamp_ns := Some ts |})
      else (command, {| _last_consumed_operator_timestamp_ns := Some ts;
                        _last_ignored_operator_timestamp_ns := None |})
  end.

Definition command_target (t : ControlTargetC) : CommandTargetSnapshot :=
  {| tg_can_id := ct_can_id t; tg_p_target_rad := f32_value (ct_q t);
     tg_v_target_rad_s := f32_value (ct_dq t); tg_kp := f32_value (ct_kp t);
     tg_kd := f32_value (ct_kd t); tg_tau_target_nm := f32_value (ct_tau t) |}.

Definition damping_target (kd : float) (can_id : Z) : CommandTargetSnapshot :=
  {| tg_can_id := can_id; tg_p_target_rad := 0; tg_v_target_rad_s := 0; tg_kp := 0; tg_kd := kd;
     tg_tau_target_nm := 0 |}.

Definition sorted_keys {V} (d : dict Z V) : list Z := sorted_by (λ z, z) (dict_keys d).

(** ** Effects *)

Section controller.
Context {PS : Type} `{ProcessControl PS}.

(** The controller and what it acts on. *)
Record System := {
  sys_ctl : RobotController;
  sys_shm : ShmFs;
  sys_procs : PS;
  sys_clock : Clock
}.

Definition put_ctl (c : RobotController) (s : System) : System :=
  {| sys_ctl := c; sys_shm := sys_shm s; sys_procs := sys_procs s; sys_clock := sys_clock s |}.
Definition put_shm (f : ShmFs) (s : System) : System :=
  {| sys_ctl := sys_ctl s; sys_shm := f; sys_procs := sys_procs s; sys_clock := sys_clock s |}.
Definition put_procs (p : PS) (s : System) : System :=
  {| sys_ctl := sys_ctl s; sys_shm := sys_shm s; sys_procs := p; sys_clock := sys_clock s |}.
Definition put_clock (k : Clock) (s : System) : System :=
  {| sys_ctl := sys_ctl s; sys_shm := sys_shm s; sys_procs := sys_procs s; sys_clock := k |}.

Definition in_shm {A} (m : ST ShmFs A) : ST System A := zoom sys_shm put_shm m.
Definition in_procs {A} (m : ST PS A) : ST System A := zoom sys_procs put_procs m.
Definition in_can {A} (m : ST Transport A) : ST System A :=
  zoom (λ s, rc_can (sys_ctl s)) (λ t s, put_ctl (with_can (sys_ctl s) t) s) m.
Definition ctl {A} (f : RobotController → A) : ST System A := gets (λ s, f (sys_ctl s)).
Definition set_ctl (f : RobotController → RobotController) : ST System unit :=
  modify (λ s, put_ctl (f (sys_ctl s)) s).

Definition time_monotonic : ST System float := zoom sys_clock put_clock (read_clock ck_monotonic).
Definition time_unix : ST System float := zoom sys_clock put_clock (read_clock ck_unix).
Definition time_ns : ST System Z := zoom sys_clock put_clock (read_clock ck_ns).

(** [self.can.send_frame(frame)] *)
Definition can_send (frame : CANFrame) : ST System unit :=
  now ← time_monotonic;
  now' ← time_monotonic;
  in_can (send_frame now now' frame).

(** [_record_output_command(source, targets)] *)
Definition _record_output_command (source : string) (targets : list CommandTargetSnapshot) :
    ST System unit :=
  now ← time_monotonic;
  set_ctl (λ c, with_output c {| _last_output_source := source; _last_output_t := now;
                                 _last_output_targets := targets |}).

(** *** Sending *)

(** [_send_disable_all()] and [_send_enable_all()] *)
Definition _send_disable_all : ST System unit :=
  _ ← _record_output_command "DISABLE" [];
  actuators ← ctl (λ c, dict_values (rc_actuators c));
  for_each actuators (λ a, f ← lift (make_disable_frame a); can_send f).

Definition _send_enable_all : ST System unit :=
  _ ← _record_output_command "ENABLE" [];
  actuators ← ctl (λ c, dict_values (rc_actuators c));
  for_each actuators (λ a, f ← lift (make_enable_frame a); can_send f).

(** [_send_zero_set_all(command)] *)
Definition zero_offset_deg (offsets : dict Z Z) (can_id : Z) : float :=
  (Z2F (default 0%Z (dict_get can_id offsets)) * 0.01)%float.

Definition _send_zero_set_all (command : option OperatorCommandC) : ST System unit :=
  offsets ← lift (_zero_set_offsets_by_can_id command);
  known ← ctl (λ c, sorted_keys (rc_actuators c));
  let ids := if bool_decide (length offsets = 0%nat) then known else sorted_keys offsets in
  _ ← _record_output_command "ZERO_SET" [];
  for_each ids (λ can_id,
    actuator ← ctl (λ c, dict_get can_id (rc_actuators c));
    match actuator with
    | None => mret ()
    | Some a =>
        f ← lift (make_zero_position_frame a (zero_offset_deg offsets can_id));
        can_send f
    end).

(** [_send_damping_all()] *)
Definition impedance_frame (a : Actuator) (t : CommandTargetSnapshot) : res CANFrame :=
  make_impedance_command_frame a (tg_p_target_rad t) (tg_v_target_rad_s t) (tg_kp t) (tg_kd t)
    (tg_tau_target_nm t).

Definition _send_damping_all : ST System unit :=
  kd ← ctl (λ c, velocity_damping_kd (cfg_safety (rc_config c)));
  ids ← ctl (λ c, sorted_keys (rc_actuators c));
  _ ← _record_output_command "DAMPING" (map (damping_target kd) ids);
  for_each ids (λ can_id,
    actuator ← ctl (λ c, dict_get can_id (rc_actuators c));
    match actuator with
    | None => raise KeyError
    | Some a => f ← lift (impedance_frame a (damping_target kd can_id)); can_send f
    end).

(** [_send_policy_command(cmd)]: the loop, which sends as it collects. *)
Fixpoint send_targets (ts : list ControlTargetC) (acc : list CommandTargetSnapshot) :
    ST System (list CommandTargetSnapshot) :=
  match ts with
  | [] => mret acc
  | t :: ts =>
      actuator ← ctl (λ c, dict_get (ct_can_id t) (rc_actuators c));
      match actuator with
      | None => send_targets ts acc
      | Some a =>
          f ← lift (impedance_frame a (command_target t));
          _ ← can_send f;
          send_targets ts (acc ++ [command_target t])
      end
  end.

Definition _send_policy_command (cmd : ControlCommandC) : ST System unit :=
  let n := Z.min (cc_num_targets cmd) (Z.of_nat (length (cc_targets cmd))) in
  targets ← send_targets (take (Z.to_nat n) (cc_targets cmd)) [];
  _record_output_command "POLICY" targets.

(** *** The IMU *)

Definition _request_imu_on_tick : ST System unit :=
  imu ← ctl (λ c, cc_imu (cfg_can (rc_config c)));
  if imu_enabled imu && request_all_each_tick imu then
    f ← ctl (λ c, make_request_all_frame (rc_imu c)); f ← lift f; can_send f
  else mret ().

(** [_bringup_imu()]; its [time.sleep] only lets time pass. *)
Definition _bringup_imu : ST System unit :=
  imu ← ctl (λ c, cc_imu (cfg_can (rc_config c)));
  if negb (imu_enabled imu) || negb (request_all_on_start imu) then mret ()
  else
    for_each (replicate (Z.to_nat (startup_request_count imu)) ()) (λ _,
      f ← ctl (λ c, make_request_all_frame (rc_imu c)); f ← lift f; can_send f).

(** *** Snapshots *)

Definition actuator_snapshot (now : float) (can_id : Z) (st : ActuatorState)
    (comm : FreshnessStatus) : ActuatorSnapshot :=
  {| sn_can_id := can_id; sn_position_rad := position_rad st;
     sn_velocity_rad_s := velocity_rad_s st; sn_torque_nm := torque_nm st;
     sn_current_a := current_a st; sn_temperature_c := temperature_c st;
     sn_fault_code := fault_code st; sn_is_enabled := is_enabled st;
     sn_last_feedback_t := last_feedback_t st;
     sn_age_s := if (last_feedback_t st <=? 0)%float then None
                 else Some (py_max 0 (now - last_feedback_t st)%float);
     sn_online := is_online comm; sn_stale := is_stale comm |}.

Fixpoint snapshot_actuators (now : float) (l : list (Z * Actuator)) :
    ST System (list ActuatorSnapshot) :=
  match l with
  | [] => mret []
  | (can_id, driver) :: l =>
      t ← time_monotonic;
      let '(comm, driver') := driver_update_fault_flags t driver in
      _ ← set_ctl (λ c, with_actuators c (dict_set can_id driver' (rc_actuators c)));
      rest ← snapshot_actuators now l;
      mret (actuator_snapshot now can_id (get_state driver) comm :: rest)
  end.

Definition imu_snapshot (d : IMUDriver E2BoxIMUProtocol) : ImuSnapshot :=
  let st := imu_get_state d in
  let '(q, g) := imu_get_comm_status d in
  {| si_quat_xyzw := quat_xyzw st; si_projected_gravity_b := projected_gravity_b st;
     si_angular_velocity_rad_s := angular_velocity_rad_s st;
     si_last_quat_t := last_quat_t st; si_last_gyro_t := last_gyro_t st;
     si_quat_online := is_online q; si_gyro_online := is_online g;
     si_quat_stale := is_stale q; si_gyro_stale := is_stale g |}.

Definition output_snapshot (o : OutputRecord) : CommandOutputSnapshot :=
  {| so_source := _last_output_source o; so_timestamp_monotonic := _last_output_t o;
     so_targets := _last_output_targets o |}.

Definition _make_snapshot : ST System RobotSnapshot :=
  now ← time_monotonic;
  t ← time_monotonic;
  t' ← time_monotonic;
  _ ← set_ctl (λ c, with_imu c (imu_update_fault_flags t t' (rc_imu c)));
  imu ← ctl (λ c, imu_snapshot (rc_imu c));
  drivers ← ctl (λ c, sorted_by fst (rc_actuators c));
  actuators ← snapshot_actuators now drivers;
  mode ← ctl (λ c, sm_mode (state_machine c));
  unix ← time_unix;
  output ← ctl (λ c, output_snapshot (rc_output c));
  mret {| sn_mode := mode; sn_timestamp_monotonic := now; sn_timestamp_unix := unix;
          sn_actuators := actuators; sn_imu := imu; sn_command_output := output |}.

(** One publisher of [_publish_state]. *)
Definition publish_to (p : option ShmStatePublisher) (snapshot : RobotSnapshot) (force : bool) :
    ST System (option ShmStatePublisher) :=
  match p with
  | None => mret None
  | Some p =>
      now ← time_monotonic;
      ns ← time_ns;
      p' ← in_shm (publish now ns p snapshot force);
      mret (Some p')
  end.

Definition _publish_state (force : bool) : ST System RobotSnapshot :=
  snapshot ← _make_snapshot;
  p ← ctl shm_state_publisher;
  p' ← publish_to p snapshot force;
  _ ← set_ctl (λ c, with_publishers c p' (dashboard_publisher c));
  q ← ctl dashboard_publisher;
  q' ← publish_to q snapshot force;
  _ ← set_ctl (λ c, with_publishers c (shm_state_publisher c) q');
  mret snapshot.

(** ** [tick()] *)

(** What is sent in a mode, from the command consumed in this tick. *)
Definition send_for_mode (mode : ControllerMode) (op : OperatorCommandC) : ST System unit :=
  match mode with
  | Mode.ESTOP | Mode.DISABLED => _send_disable_all
  | Mode.ENABLING => _send_enable_all
  | Mode.ZERO_SETTING => _send_zero_set_all (Some op)
  | Mode.DAMPING => _send_damping_all
  | Mode.NORMAL =>
      o ← ctl control_cmd_shm;
      o ← lift (match o with Some o => Ok o | None => Raise AssertionError end);
      cmd ← in_shm (ControlCommandShm.read_relaxed o);
      _send_policy_command cmd
  end.

Definition consume (op : OperatorCommandC) : ST System OperatorCommandC :=
  d ← ctl rc_consumed;
  let '(op', d') := _consume_operator_command op d in
  _ ← set_ctl (λ c, with_consumed c d');
  mret op'.

(** Up to [self.state_machine.update(op, now)]. *)
Definition tick_decide : ST System (ControllerMode * OperatorCommandC) :=
  now ← time_monotonic;
  _ ← _request_imu_on_tick;
  o ← ctl operator_cmd_shm;
  o ← lift (match o with Some o => Ok o | None => Raise AssertionError end);
  op ← in_shm (OperatorCommandShm.read_relaxed o);
  op ← consume op;
  sm ← ctl state_machine;
  let '(mode, sm') := update sm (Some op) now in
  _ ← set_ctl (λ c, with_state_machine c sm');
  mret (mode, op).

Definition tick : ST System RobotSnapshot :=
  r ← tick_decide;
  _ ← send_for_mode r.1 r.2;
  _publish_state false.

Definition run_once : ST System RobotSnapshot := tick.

(** [get_actuator_states()], [get_imu_state()] *)
Definition get_actuator_states : ST System (dict Z ActuatorState) :=
  gets (λ s, map (λ kd, (kd.1, get_state kd.2)) (rc_actuators (sys_ctl s))).
Definition get_imu_state : ST System RobotPoseState :=
  gets (λ s, imu_get_state (rc_imu (sys_ctl s))).

(** ** Reception *)

(** [driver.on_frame(frame)] on the driver that the callback holds. *)
Definition driver_on_frame (key : Z) (frame : CANFrame) : ST System unit :=
  now ← time_monotonic;
  now' ← time_monotonic;
  set_ctl (λ c,
    match dict_get key (rc_actuators c) with
    | Some d => with_actuators c (dict_set key (on_frame now now' frame d) (rc_actuators c))
    | None => c
    end).

(** [_on_actuator_frame(driver, frame)] *)
Definition _on_actuator_frame (key : Z) (frame : CANFrame) : ST System unit :=
  now ← time_monotonic;
  echo ← in_can (λ t, let '(b, t') := is_recent_tx_echo now frame t in (Ok b, t'));
  if echo : bool then mret () else driver_on_frame key frame.

Definition imu_frame (frame : CANFrame) : ST System unit :=
  now ← time_monotonic;
  now' ← time_monotonic;
  set_ctl (λ c, with_imu c (imu_on_frame now now' frame (rc_imu c))).

#[export] Instance controller_callback : Callback ControllerCallback System := λ cb frame,
  match cb with
  | ActuatorCb key => _on_actuator_frame key frame
  | ImuCb => imu_frame frame
  end.

(** A frame the client's receive thread hands to its dispatcher. *)
Definition receive (frame : CANFrame) : ST System unit :=
  client ← ctl (λ c, client (rc_can c));
  match client with
  | Some cl => _ ← dispatch (cl_dispatcher cl) frame; mret ()
  | None => mret ()
  end.

(** [_register_callbacks()] *)
Definition _register_callbacks : ST System unit :=
  actuators ← ctl rc_actuators;
  _ ← for_each actuators (λ kd,
        for_each (driver_rx_can_ids kd.2) (λ can_id,
          in_can (register_callback can_id (ActuatorCb kd.1))));
  ids ← ctl (λ c, imu_rx_can_ids (imu_protocol (rc_imu c)));
  for_each ids (λ can_id, in_can (register_callback can_id ImuCb)).

(** ** Start and shutdown *)

Definition set_phase (x : RobotControllerState) : ST System unit :=
  set_ctl (λ c, with_phase c x (_running c)).

(** [_close_runtime()] *)
Definition close_runtime (c : RobotController) : RobotController :=
  let c := with_publishers c (publisher_close <$> shm_state_publisher c)
             (DashboardPublisher.close <$> dashboard_publisher c) in
  let c := with_segments c (close_all (rc_segments c))
             (wrapper_close <$> control_cmd_shm c) (wrapper_close <$> operator_cmd_shm c) in
  with_can c (CanTransport.close (rc_can c)).

Definition shutdown : ST System unit :=
  phase ← ctl controller_state;
  if decide (phase = Phase.STOPPED) then mret ()
  else
    _ ← set_ctl (λ c, with_phase c Phase.SHUTTING_DOWN false);
    connected ← ctl (λ c, is_connected (rc_can c));
    _ ← try_except (whenM connected _send_disable_all) (λ _, mret ());
    config ← ctl rc_config;
    _ ← in_procs (pc_stop_all (shutdown_timeout_s (cfg_core config)));
    _ ← _publish_state true;
    _ ← set_ctl close_runtime;
    _ ← whenM (unlink_on_shutdown (cfg_shm config)) (in_shm (unlink_all (cfg_shm config)));
    set_phase Phase.STOPPED.

Definition open_segments (shm : ShmConfig) : ST System unit :=
  segments ← in_shm (create_all shm);
  _ ← set_ctl (λ c, with_segments c segments (control_cmd_shm c) (operator_cmd_shm c));
  control ← in_shm (ControlCommandShm.open_reader (mc_name (mit_command shm)));
  _ ← set_ctl (λ c, with_segments c (rc_segments c) (Some control) (operator_cmd_shm c));
  operator ← in_shm (OperatorCommandShm.open_reader (opc_name (operator_command shm)));
  _ ← set_ctl (λ c, with_segments c (rc_segments c) (control_cmd_shm c) (Some operator));
  p ← in_shm (publisher_init (rc_name (control_state shm)) (rc_publish_hz (control_state shm)));
  _ ← set_ctl (λ c, with_publishers c (Some p) (dashboard_publisher c));
  q ← in_shm (DashboardPublisher.init (rc_name (dashboard_state shm))
                (rc_publish_hz (dashboard_state shm)));
  set_ctl (λ c, with_publishers c (shm_state_publisher c) (Some q)).

(** The body of the [try] of [start()]. *)
Definition start_body : ST System unit :=
  _ ← set_phase Phase.INIT_SHM;
  shm ← ctl (λ c, cfg_shm (rc_config c));
  _ ← whenM (cleanup_stale_on_start shm) (in_shm (cleanup_stale shm));
  _ ← open_segments shm;
  _ ← set_phase Phase.START_CAN_DAEMON;
  _ ← in_procs (pc_start_by_name "can_daemon");
  now ← time_monotonic;
  _ ← in_can (connect now);
  _ ← _register_callbacks;
  _ ← set_phase Phase.BRINGUP_IMU;
  _ ← _bringup_imu;
  _ ← set_phase Phase.START_CHILD_PROCESSES;
  _ ← in_procs pc_start_all;
  _ ← set_ctl (λ c, with_phase c Phase.RUNNING true);
  _ ← _publish_state true;
  mret ().

Definition start : ST System unit :=
  try_except start_body (λ e,
    _ ← set_phase Phase.ERROR;
    _ ← shutdown;
    raise e).

Definition request_stop : ST System unit :=
  set_ctl (λ c, with_phase c (controller_state c) false).

(** ** [run()] *)

(** What other threads and processes do between two ticks. *)
Inductive outside :=
  | RxFrame (frame : CANFrame)
  | StopRequest
  | ShmChange (f : ShmFs → ShmFs)
  | ProcsChange (f : PS → PS).

Definition happen (e : outside) : ST System unit :=
  match e with
  | RxFrame frame => receive frame
  | StopRequest => request_stop
  | ShmChange f => modify (λ s, put_shm (f (sys_shm s)) s)
  | ProcsChange f => modify (λ s, put_procs (f (sys_procs s)) s)
  end.

(** The loop of [run] over what happens before each of its ticks. *)
Fixpoint run_loop (schedule : list (list outside)) : ST System unit :=
  match schedule with
  | [] => mret ()
  | es :: schedule =>
      running ← ctl _running;
      if negb running then mret ()
      else
        _ ← for_each es happen;
        running ← ctl _running;
        if negb running then mret ()
        else _ ← tick; run_loop schedule
  end.

(** [run()]; its sleeps only let time pass. *)
Definition run (schedule : list (list outside)) : ST System unit :=
  hz ← ctl (λ c, control_hz (cfg_core (rc_config c)));
  _ ← lift (py_div 1 hz);
  run_loop schedule.

(** [main()]: start, run, and shutdown whatever happened. *)
Definition main (schedule : list (list outside)) : ST System unit :=
  try_finally (_ ← start; run schedule) shutdown.
End controller.
Arguments System PS : clear implicits.

(** The pacing of [run]: when the tick after the one that ended at [now] is due. *)
Definition pace (control_period_s next_t now : float) : float :=
  let next_t := (next_t + control_period_s)%float in
  if (next_t <? now)%float then (now + control_period_s)%float else next_t.
