(* ===== verification/ControllerFacts.v ===== *)
(** * Reasoning about what the controller sends

    The frames a piece of the controller hands to the CAN daemon are described by
    a plan: the frames it builds, in order, an encoder's exception included. The
    rules of this file compute the plan of each sending method; a run sends a
    prefix of its plan, and all of it when it returns normally. *)

From S2P Require Import Prelude PyFloat PyDict CStruct OperatorCommand StateMachine ControlCommand.
From S2P Require Import RobotState Telemetry CanBus Dispatcher Wire CanDaemon CanTransport.
From S2P Require Import CommManager ActuatorDriver SpgProtocol Imu Config ShmManager Supervisor.
From S2P Require Import Controller.

Abbreviation plan := (list (res CANFrame)).

(** ** Plans of the sending methods *)

Definition disable_plan (c : RobotController) : plan :=
  map make_disable_frame (dict_values (rc_actuators c)).
Definition enable_plan (c : RobotController) : plan :=
  map make_enable_frame (dict_values (rc_actuators c)).

(** A frame for a known actuator, nothing for an unknown identifier. *)
Definition for_actuator (c : RobotController) (id : Z) (f : Actuator → res CANFrame) : plan :=
  match dict_get id (rc_actuators c) with Some a => [f a] | None => [] end.

Definition zero_ids (c : RobotController) (offsets : dict Z Z) : list Z :=
  if bool_decide (length offsets = 0%nat) then sorted_keys (rc_actuators c)
  else sorted_keys offsets.

Definition zero_plan (c : RobotController) (op : OperatorCommandC) : plan :=
  match _zero_set_offsets_by_can_id (Some op) with
  | Raise e => [Raise e]
  | Ok offsets =>
      concat (map (λ id, for_actuator c id (λ a,
                make_zero_position_frame a (zero_offset_deg offsets id))) (zero_ids c offsets))
  end.

Definition damping_plan (c : RobotController) : plan :=
  let kd := velocity_damping_kd (cfg_safety (rc_config c)) in
  concat (map (λ id, match dict_get id (rc_actuators c) with
                     | Some a => [impedance_frame a (damping_target kd id)]
                     | None => [Raise KeyError]
                     end) (sorted_keys (rc_actuators c))).

Definition used_targets (cmd : ControlCommandC) : list ControlTargetC :=
  take (Z.to_nat (Z.min (cc_num_targets cmd) (Z.of_nat (length (cc_targets cmd)))))
    (cc_targets cmd).

Definition policy_plan (c : RobotController) (cmd : ControlCommandC) : plan :=
  concat (map (λ t, for_actuator c (ct_can_id t) (λ a, impedance_frame a (command_target t)))
            (used_targets cmd)).

Definition imu_plan (c : RobotController) : plan :=
  let imu := cc_imu (cfg_can (rc_config c)) in
  if imu_enabled imu && request_all_each_tick imu then [make_request_all_frame (rc_imu c)]
  else [].

(** ** Sending follows a plan *)

Section plans.
Context {PS : Type} `{ProcessControl PS}.
Implicit Types (s : System PS) (p : plan).

Definition requests s : list json := tr_requests (rc_can (sys_ctl s)).
Definition sent s s' (l : list CANFrame) : Prop :=
  requests s' = requests s ++ map (frame_message "tx") l.

(** Everything but the transport, the recorded output and the clock. *)
Record same s s' : Prop := {
  same_config : rc_config (sys_ctl s') = rc_config (sys_ctl s);
  same_phase : controller_state (sys_ctl s') = controller_state (sys_ctl s);
  same_actuators : rc_actuators (sys_ctl s') = rc_actuators (sys_ctl s);
  same_imu : rc_imu (sys_ctl s') = rc_imu (sys_ctl s);
  same_control : control_cmd_shm (sys_ctl s') = control_cmd_shm (sys_ctl s);
  same_operator : operator_cmd_shm (sys_ctl s') = operator_cmd_shm (sys_ctl s);
  same_sm : state_machine (sys_ctl s') = state_machine (sys_ctl s);
  same_pub : shm_state_publisher (sys_ctl s') = shm_state_publisher (sys_ctl s);
  same_dash : dashboard_publisher (sys_ctl s') = dashboard_publisher (sys_ctl s);
  same_consumed : rc_consumed (sys_ctl s') = rc_consumed (sys_ctl s);
  same_running : _running (sys_ctl s') = _running (sys_ctl s);
  same_shm : sys_shm s' = sys_shm s;
  same_procs : sys_procs s' = sys_procs s
}.

#[export] Instance same_preorder : PreOrder same.
Proof.
  split; [by intros s; split|].
  intros s1 s2 s3 [] []. split; congruence.
Qed.

(** The daemon accepts the next [n] frames. *)
Definition answering (n : nat) (t : Transport) : Prop :=
  ∃ c rs rest, client t = Some c ∧ tx_open c = true ∧ tr_replies t = rs ++ rest ∧
    length rs = n ∧ Forall (λ r, client_send c r = Ok true) rs.

Lemma answering_client n (t : Transport) c : client t = Some c →
  answering n t ↔ tx_open c = true ∧ (n ≤ length (tr_replies t))%nat ∧
                  Forall (λ r, client_send c r = Ok true) (take n (tr_replies t)).
Proof.
  unfold answering. intros ->. split.
  - intros (c' & rs & rest & [= <-] & Ho & -> & <- & Hf). rewrite length_app, take_app_length.
    split_and!; [done|lia|done].
  - intros (Ho & Hl & Hf). exists c, (take n (tr_replies t)), (drop n (tr_replies t)).
    rewrite take_drop, length_take. split_and!; [done..|lia|done].
Qed.

#[export] Instance answering_dec n t : Decision (answering n t).
Proof.
  refine (match client t as x return client t = x → _ with
          | Some c => λ E, cast_if (decide (tx_open c = true ∧ (n ≤ length (tr_replies t))%nat ∧
                Forall (λ r, client_send c r = Ok true) (take n (tr_replies t))))
          | None => λ E, right _
          end eq_refl).
  - by apply (answering_client n t c).
  - by rewrite (answering_client n t c).
  - unfold answering. rewrite E. naive_solver.
Defined.

(** A frame that was built and has a standard identifier. *)
Definition sendable (r : res CANFrame) : Prop :=
  match r with Ok f => 0 ≤ can_id f ≤ CAN_SFF_MASK | Raise _ => False end.

Definition completes {A} s (m : ST (System PS) A) p : Prop :=
  ∀ n, answering (length p + n) (rc_can (sys_ctl s)) → Forall sendable p →
    is_ok (fst (m s)) = true ∧ answering n (rc_can (sys_ctl (snd (m s)))).

(** From [s], [m] sends a prefix of [p], all of it when it returns, and returns
    when all of it can be sent. *)
Definition follows {A} s (m : ST (System PS) A) p : Prop :=
  (∃ l, sent s (snd (m s)) l ∧ map Ok l `prefix_of` p ∧
        (is_ok (fst (m s)) = true → map Ok l = p) ∧ same s (snd (m s))) ∧
  completes s m p.

Lemma sent_nil s s' : requests s' = requests s → sent s s' [].
Proof. intros E. unfold sent. by rewrite E, app_nil_r. Qed.

Lemma sent_app s1 s2 s3 l1 l2 : sent s1 s2 l1 → sent s2 s3 l2 → sent s1 s3 (l1 ++ l2).
Proof. unfold sent. intros H1 H2. by rewrite H2, H1, map_app, app_assoc. Qed.

(** A computation that returns, sends nothing and changes nothing but the clock
    and the recorded output. *)
Definition silent {A} s (m : ST (System PS) A) : Prop :=
  is_ok (fst (m s)) = true ∧ rc_can (sys_ctl (snd (m s))) = rc_can (sys_ctl s) ∧
  same s (snd (m s)).

Lemma follows_silent {A} s (m : ST (System PS) A) : silent s m → follows s m [].
Proof.
  intros (Hok & Hr & Hs). split.
  - exists []. split_and!; [|apply prefix_nil|done|done].
    apply sent_nil. unfold requests. by rewrite Hr.
  - intros n Hn _. by rewrite Hr.
Qed.

Lemma follows_eq {A} s (m m' : ST (System PS) A) p : m s = m' s → follows s m' p → follows s m p.
Proof. unfold follows, completes. by intros ->. Qed.

Lemma follows_raise {A} s e : follows s (raise (A:=A) e) [Raise e].
Proof.
  split.
  - exists []. split_and!; [by apply sent_nil|apply prefix_nil|done|done].
  - intros n _ Hp. apply Forall_cons in Hp as [[] _].
Qed.

Lemma follows_bind {A B} s (m : ST (System PS) A) (f : A → ST (System PS) B) p q :
  follows s m p →
  (∀ a s', m s = (Ok a, s') → same s s' → follows s' (f a) q) →
  follows s (m ≫= f) (p ++ q).
Proof.
  intros [(l & Hl & Hp & Hok & Hs) Hc] Hf. unfold follows, completes, mbind, ST_bind in *.
  destruct (m s) as [[a|e] s'] eqn:E; cbn [fst snd is_ok] in *.
  - destruct (Hf a s' eq_refl Hs) as [(l' & Hl' & Hp' & Hok' & Hs') Hc'].
    specialize (Hok eq_refl). split.
    + exists (l ++ l'). rewrite map_app, Hok. split_and!.
      * by eapply sent_app.
      * by apply prefix_app.
      * intros Hr. by rewrite Hok'.
      * by etrans.
    + intros n Hn [Hsp Hsq]%Forall_app. rewrite length_app, <- Nat.add_assoc in Hn.
      destruct (Hc _ Hn Hsp) as [_ Hn']. by apply Hc'.
  - split.
    + exists l. split_and!; [done|by apply prefix_app_r|done|done].
    + intros n Hn [Hsp Hsq]%Forall_app. rewrite length_app, <- Nat.add_assoc in Hn.
      by destruct (Hc _ Hn Hsp).
Qed.

(** The first part sends nothing. *)
Lemma follows_bind_silent {A B} s (m : ST (System PS) A) (f : A → ST (System PS) B) q :
  silent s m → (∀ a s', m s = (Ok a, s') → same s s' → follows s' (f a) q) →
  follows s (m ≫= f) q.
Proof. intros Hm Hf. apply (follows_bind s m f [] q); [by apply follows_silent|done]. Qed.

Lemma silent_ctl {A} s (f : RobotController → A) : silent s (ctl f).
Proof. by split. Qed.
Lemma silent_ret {A} s (a : A) : silent s (mret a).
Proof. by split. Qed.
Lemma silent_clock s : silent s time_monotonic.
Proof. split; [done|]. split; [done|]. by split. Qed.
Lemma silent_record s src ts : silent s (_record_output_command src ts).
Proof. split; [done|]. split; [done|]. by split. Qed.

Lemma ctl_eq {A} s (f : RobotController → A) a s' :
  ctl f s = (Ok a, s') → a = f (sys_ctl s) ∧ s' = s.
Proof. by intros [= <- <-]. Qed.

Lemma ctl_run {A} s (f : RobotController → A) : ctl f s = (Ok (f (sys_ctl s)), s).
Proof. done. Qed.

(** A result that may be an exception, and what follows it. *)
Lemma follows_lift {A B} s (r : res A) (f : A → ST (System PS) B) (q : A → plan) :
  (∀ a, r = Ok a → follows s (f a) (q a)) →
  follows s (lift r ≫= f) (match r with Ok a => q a | Raise e => [Raise e] end).
Proof.
  intros Hf. destruct r as [a|e].
  - apply (follows_bind_silent s (lift (Ok a))); [by split|]. intros a' s' [= <- <-] _. by apply Hf.
  - apply follows_raise.
Qed.

(** What the transport does with one frame. *)
Lemma transport_follows now now' f (t : Transport) :
  (∃ l, tr_requests (snd (send_frame now now' f t)) = tr_requests t ++ map (frame_message "tx") l ∧
       map Ok l `prefix_of` [Ok f] ∧
       (is_ok (fst (send_frame now now' f t)) = true → map (@Ok _) l = [Ok f])) ∧
  (∀ n, answering (S n) t → sendable (Ok f) →
     is_ok (fst (send_frame now now' f t)) = true ∧
     answering n (snd (send_frame now now' f t))).
Proof.
  assert (∀ b c : Transport, tr_requests b = tr_requests c →
    tr_requests b = tr_requests c ++ map (frame_message "tx") []) as Hnil
    by (intros ? ? ->; by rewrite app_nil_r).
  split.
  - unfold send_frame. st_run.
    destruct (guard_ok _ _) as [[]|e]; cbn [fst snd is_ok].
    2: { exists []. split; [by apply Hnil|]. split; [apply prefix_nil|done]. }
    assert (tr_requests (snd (connect now t)) = tr_requests t) as Hc.
    { unfold connect. destruct (client t); [done|]. by destruct (connect_loop _ _ _) as [[? ?] ?]. }
    destruct (connect now t) as [[[]|e] t1]; cbn [fst snd is_ok] in *.
    2: { exists []. split; [by apply Hnil|]. split; [apply prefix_nil|done]. }
    rewrite <- Hc. unfold client_exchange. destruct (client t1) as [c|].
    2: { exists []. split; [by apply Hnil|]. split; [apply prefix_nil|done]. }
    destruct (tx_open c) eqn:Eo.
    + exists [f]. destruct (client_send c _) as [b|e]; cbn; (split; [done|]);
        split; [done|done|done|done].
    + unfold client_send. rewrite Eo. cbn. exists [].
      split; [by rewrite app_nil_r|]. split; [apply prefix_nil|done].
  - intros n (c & rs & rest & Hc & Ho & Hr & Hlen & Hrs) Hf. cbn in Hf.
    destruct rs as [|r rs]; [done|]. injection Hlen as Hlen. apply Forall_cons in Hrs as [H1 Hrs].
    unfold send_frame, guard_ok. rewrite (proj2 (Z.ltb_ge _ _)), (proj2 (Z.ltb_ge _ _)) by lia.
    cbn [orb negb]. st_run. unfold connect. rewrite Hc. unfold client_exchange.
    rewrite Hc, Ho, Hr. cbn [app]. rewrite H1. cbn [fst snd is_ok]. split; [done|].
    exists c, rs, rest. done.
Qed.

Lemma can_send_follows s f : follows s (can_send f) [Ok f].
Proof.
  unfold can_send. apply follows_bind_silent; [apply silent_clock|]. intros now s1 _ _.
  apply follows_bind_silent; [apply silent_clock|]. intros now' s2 _ _.
  destruct (transport_follows now now' f (rc_can (sys_ctl s2))) as [(l & Hl & Hp & Hok) Hc].
  unfold follows, completes, in_can, zoom, sent, requests.
  destruct (send_frame now now' f (rc_can (sys_ctl s2))) as [r t]; cbn in *. split.
  - exists l. split_and!; [done|done|done|]. by split.
  - intros n Hn [Hf _]%Forall_cons. by apply Hc.
Qed.

(** An encoded frame, then the send. *)
Lemma encode_send_follows s (r : res CANFrame) :
  follows s (f ← lift r; can_send f) [r].
Proof.
  assert ([r] = match r with Ok f => [Ok f] | Raise e => [Raise e] end) as -> by by destruct r.
  apply follows_lift. intros f _. apply can_send_follows.
Qed.

Lemma follows_for_each {A} (xs : list A) (body : A → ST (System PS) unit) (g : A → plan) : ∀ s,
  (∀ s' x, same s s' → x ∈ xs → follows s' (body x) (g x)) →
  follows s (for_each xs body) (concat (map g xs)).
Proof.
  induction xs as [|x xs IH]; intros s Hb; cbn [for_each map concat].
  - apply follows_silent, silent_ret.
  - apply follows_bind; [apply Hb; [done|left]|]. intros _ s' _ Hs.
    apply IH. intros s'' y Hs' Hy. apply Hb; [by etrans|by right].
Qed.

(** *** The sending methods follow their plans *)

Lemma concat_singletons {A B} (f : A → B) l : concat (map (λ x, [f x]) l) = map f l.
Proof. induction l; cbn; [done|by f_equal]. Qed.

Lemma disable_follows s : follows s _send_disable_all (disable_plan (sys_ctl s)).
Proof.
  unfold _send_disable_all. apply follows_bind_silent; [apply silent_record|].
  intros _ s1 _ H1. apply follows_bind_silent; [apply silent_ctl|].
  intros a s2 [-> ->]%ctl_eq _. unfold disable_plan.
  rewrite <- (same_actuators _ _ H1), <- concat_singletons.
  apply follows_for_each. intros s' x _ _. apply encode_send_follows.
Qed.

Lemma enable_follows s : follows s _send_enable_all (enable_plan (sys_ctl s)).
Proof.
  unfold _send_enable_all. apply follows_bind_silent; [apply silent_record|].
  intros _ s1 _ H1. apply follows_bind_silent; [apply silent_ctl|].
  intros a s2 [-> ->]%ctl_eq _. unfold enable_plan.
  rewrite <- (same_actuators _ _ H1), <- concat_singletons.
  apply follows_for_each. intros s' x _ _. apply encode_send_follows.
Qed.

Lemma imu_follows s : follows s _request_imu_on_tick (imu_plan (sys_ctl s)).
Proof.
  unfold _request_imu_on_tick, imu_plan.
  apply follows_bind_silent; [apply silent_ctl|]. intros imu s1 [-> ->]%ctl_eq _.
  destruct (_ && _); [|apply follows_silent, silent_ret].
  apply follows_bind_silent; [apply silent_ctl|]. intros f s2 [-> ->]%ctl_eq _.
  apply encode_send_follows.
Qed.

Lemma zero_follows s op : follows s (_send_zero_set_all (Some op)) (zero_plan (sys_ctl s) op).
Proof.
  unfold _send_zero_set_all, zero_plan.
  apply follows_lift. intros offsets _.
  apply follows_bind_silent; [apply silent_ctl|]. intros known s1 [-> ->]%ctl_eq _.
  apply follows_bind_silent; [apply silent_record|]. intros _ s2 _ H2.
  fold (zero_ids (sys_ctl s) offsets). apply follows_for_each. intros s' id Hs _.
  apply follows_bind_silent; [apply silent_ctl|]. intros a s3 [-> ->]%ctl_eq _.
  rewrite (same_actuators _ _ Hs), (same_actuators _ _ H2). unfold for_actuator.
  destruct (dict_get id _); [apply encode_send_follows|apply follows_silent, silent_ret].
Qed.

Lemma damping_follows s : follows s _send_damping_all (damping_plan (sys_ctl s)).
Proof.
  unfold _send_damping_all, damping_plan.
  apply follows_bind_silent; [apply silent_ctl|]. intros kd s1 [-> ->]%ctl_eq _.
  apply follows_bind_silent; [apply silent_ctl|]. intros ids s1 [-> ->]%ctl_eq _.
  apply follows_bind_silent; [apply silent_record|]. intros _ s2 _ H2.
  apply follows_for_each. intros s' id Hs _.
  apply follows_bind_silent; [apply silent_ctl|]. intros a s3 [-> ->]%ctl_eq _.
  rewrite (same_actuators _ _ Hs), (same_actuators _ _ H2).
  destruct (dict_get id _); [apply encode_send_follows|apply follows_raise].
Qed.

Lemma targets_follow c ts : ∀ s acc, rc_actuators (sys_ctl s) = rc_actuators c →
  follows s (send_targets ts acc)
    (concat (map (λ t, for_actuator c (ct_can_id t) (λ a, impedance_frame a (command_target t)))
               ts)).
Proof.
  induction ts as [|t ts IH]; intros s acc Hc; cbn [send_targets map concat].
  - apply follows_silent, silent_ret.
  - apply follows_bind_silent; [apply silent_ctl|]. intros a s1 [-> ->]%ctl_eq _.
    unfold for_actuator at 1. rewrite Hc. destruct (dict_get (ct_can_id t) _) as [a|];
      [|by apply IH].
    set (r := impedance_frame a (command_target t)).
    apply (follows_eq _ _ ((f ← lift r; can_send f) ≫= λ _,
      send_targets ts (acc ++ [command_target t]))); [st_run; by destruct r|].
    apply follows_bind; [apply encode_send_follows|].
    intros _ s2 _ H2. apply IH. rewrite <- Hc. apply H2.
Qed.

Lemma policy_follows s cmd : follows s (_send_policy_command cmd) (policy_plan (sys_ctl s) cmd).
Proof.
  unfold _send_policy_command, policy_plan. rewrite <- (app_nil_r (concat _)).
  apply follows_bind; [by apply targets_follow|]. intros ts s' _ _.
  apply follows_silent, silent_record.
Qed.
End plans.

(** ** The decision of a tick, and its plan *)

Section decision.
Context {PS : Type} `{ProcessControl PS}.
Implicit Types (s : System PS).

(** The mode a tick enters and the command it acts on: what the operator
    segment holds, once consumed, at the time of its first clock reading. *)
Definition first_now s : float := ck_monotonic (sys_clock s) (ck_reads (sys_clock s)).

Definition read_operator s : res OperatorCommandC :=
  match operator_cmd_shm (sys_ctl s) with
  | None => Raise AssertionError
  | Some o => fst (OperatorCommandShm.read_relaxed o (sys_shm s))
  end.

Definition consumed_operator s (op : OperatorCommandC) : OperatorCommandC :=
  fst (_consume_operator_command op (rc_consumed (sys_ctl s))).

Definition decided s : res (ControllerMode * OperatorCommandC) :=
  op ← read_operator s;
  let op := consumed_operator s op in
  Ok (fst (update (state_machine (sys_ctl s)) (Some op) (first_now s)), op).

Definition read_policy s : res ControlCommandC :=
  match control_cmd_shm (sys_ctl s) with
  | None => Raise AssertionError
  | Some o => fst (ControlCommandShm.read_relaxed o (sys_shm s))
  end.

(** The frames of a mode. *)
Definition mode_plan s (mode : ControllerMode) (op : OperatorCommandC) : plan :=
  let c := sys_ctl s in
  match mode with
  | Mode.ESTOP | Mode.DISABLED => disable_plan c
  | Mode.ENABLING => enable_plan c
  | Mode.ZERO_SETTING => zero_plan c op
  | Mode.DAMPING => damping_plan c
  | Mode.NORMAL => match read_policy s with Ok cmd => policy_plan c cmd | Raise e => [Raise e] end
  end.

Definition tick_plan s : plan :=
  imu_plan (sys_ctl s) ++
  match decided s with Ok (mode, op) => mode_plan s mode op | Raise e => [Raise e] end.

(** What the mode's frames depend on, the IMU driver and the publishers. *)
Record same_inputs s s' : Prop := {
  si_config : rc_config (sys_ctl s') = rc_config (sys_ctl s);
  si_actuators : rc_actuators (sys_ctl s') = rc_actuators (sys_ctl s);
  si_control : control_cmd_shm (sys_ctl s') = control_cmd_shm (sys_ctl s);
  si_shm : sys_shm s' = sys_shm s;
  si_imu : rc_imu (sys_ctl s') = rc_imu (sys_ctl s);
  si_pub : shm_state_publisher (sys_ctl s') = shm_state_publisher (sys_ctl s);
  si_dash : dashboard_publisher (sys_ctl s') = dashboard_publisher (sys_ctl s)
}.

Lemma same_same_inputs s s' : same s s' → same_inputs s s'.
Proof. by intros []. Qed.

Lemma mode_plan_same s s' mode op : same_inputs s s' → mode_plan s' mode op = mode_plan s mode op.
Proof.
  intros [Hc Ha Hs Hm _ _ _]. unfold mode_plan, read_policy.
  assert (∀ id f, for_actuator (sys_ctl s') id f = for_actuator (sys_ctl s) id f) as Hf
    by (intros; unfold for_actuator; by rewrite Ha).
  destruct mode; unfold disable_plan, enable_plan, zero_plan, zero_ids, damping_plan, policy_plan;
    rewrite ?Ha, ?Hc, ?Hs, ?Hm; try done.
  - destruct (match control_cmd_shm _ with Some _ => _ | None => _ end); [|done].
    f_equal. apply map_ext. intros. apply Hf.
  - destruct (_zero_set_offsets_by_can_id _); [|done].
    f_equal. apply map_ext. intros. apply Hf.
Qed.

(** Reading a segment changes nothing. *)
Lemma read_shm_run {T} `{CStruct T} s (o : ShmObj) :
  in_shm (wrapper_read T o) s = (fst (wrapper_read T o (sys_shm s)), s).
Proof.
  unfold in_shm, zoom, wrapper_read. destruct s as [c m p k].
  by destruct (so_handle o) as [h|].
Qed.

Lemma mode_follows s mode op : follows s (send_for_mode mode op) (mode_plan s mode op).
Proof.
  destruct mode; cbn [send_for_mode mode_plan].
  - apply disable_follows.
  - apply enable_follows.
  - apply (follows_eq _ _ (cmd ← lift (read_policy s); _send_policy_command cmd)).
    + st_run. rewrite ctl_run. unfold read_policy.
      destruct (control_cmd_shm (sys_ctl s)) as [o|]; [|done].
      cbn [fst snd]. unfold ControlCommandShm.read_relaxed. rewrite read_shm_run.
      by destruct (fst _).
    + apply follows_lift. intros cmd _. apply policy_follows.
  - apply damping_follows.
  - apply zero_follows.
  - apply disable_follows.
Qed.

(** [tick_decide] sends the IMU request and takes the decision. *)
Lemma tick_decide_spec s :
  (∃ l, sent s (snd (tick_decide s)) l ∧ map Ok l `prefix_of` imu_plan (sys_ctl s) ∧
    same_inputs s (snd (tick_decide s)) ∧
    match fst (tick_decide s) with
    | Ok (mode, op) =>
        map Ok l = imu_plan (sys_ctl s) ∧ decided s = Ok (mode, op) ∧
        sm_mode (state_machine (sys_ctl (snd (tick_decide s)))) = mode
    | Raise _ => state_machine (sys_ctl (snd (tick_decide s))) = state_machine (sys_ctl s)
    end) ∧
  (∀ n, answering (length (imu_plan (sys_ctl s)) + n) (rc_can (sys_ctl s)) →
     Forall sendable (imu_plan (sys_ctl s)) → is_ok (decided s) = true →
     is_ok (fst (tick_decide s)) = true ∧
     answering n (rc_can (sys_ctl (snd (tick_decide s))))).
Proof.
  set (s0 := snd (time_monotonic s)).
  assert (imu_plan (sys_ctl s0) = imu_plan (sys_ctl s)) as Hp by done.
  destruct (imu_follows s0) as [(l & Hl & Hpre & Hok & Hs) Hcomp]. rewrite Hp in *.
  unfold completes in Hcomp. unfold tick_decide. st_run.
  assert (time_monotonic s = (Ok (first_now s), s0)) as -> by done.
  destruct (_request_imu_on_tick s0) as [[[]|e] s1]; cbn [fst snd is_ok] in *.
  all: assert (same s s1) as Hs1 by (etrans; [|exact Hs]; by split).
  2: { split; [|intros n Hn Hsd _; by destruct (Hcomp n Hn Hsd)]. exists l.
       split; [done|]. split; [done|]. split; [by apply same_same_inputs|apply Hs1]. }
  specialize (Hok eq_refl).
  assert (read_operator s = match operator_cmd_shm (sys_ctl s1) with
    | None => Raise AssertionError
    | Some o => fst (OperatorCommandShm.read_relaxed o (sys_shm s1)) end) as Hread.
  { unfold read_operator. by rewrite (same_operator _ _ Hs1), (same_shm _ _ Hs1). }
  unfold decided. rewrite Hread. rewrite ctl_run. cbn [fst snd].
  assert (∀ e, (∃ l, sent s s1 l ∧ map Ok l `prefix_of` imu_plan (sys_ctl s) ∧
    same_inputs s s1 ∧ state_machine (sys_ctl s1) = state_machine (sys_ctl s)) ∧
    (∀ n, answering (length (imu_plan (sys_ctl s)) + n) (rc_can (sys_ctl s)) →
     Forall sendable (imu_plan (sys_ctl s)) →
     is_ok (Raise (A:=ControllerMode * OperatorCommandC) e) = true →
     is_ok (Raise (A:=ControllerMode * OperatorCommandC) e) = true ∧
     answering n (rc_can (sys_ctl s1)))) as Hraise.
  { intros e. split; [|done]. exists l. split; [done|]. split; [done|].
    split; [by apply same_same_inputs|apply Hs1]. }
  destruct (operator_cmd_shm (sys_ctl s1)) as [o|]; cbn [fst snd]; [|exact (Hraise _)].
  unfold OperatorCommandShm.read_relaxed. rewrite read_shm_run.
  destruct (fst (wrapper_read OperatorCommandC o (sys_shm s1))) as [op|e]; cbn [fst snd];
    [|exact (Hraise _)].
  unfold consumed_operator. rewrite <- (same_consumed _ _ Hs1), <- (same_sm _ _ Hs1).
  unfold consume, ctl, gets, set_ctl, modify. st_run. cbn [mbind res_bind].
  destruct (_consume_operator_command op (rc_consumed (sys_ctl s1))) as [op' d'].
  cbn [fst snd sys_ctl put_ctl with_consumed with_decision state_machine].
  unfold update. cbn [fst snd]. split; [exists l; split; [exact Hl|]; split; [exact Hpre|]|].
  - split; [by destruct Hs1|]. by split.
  - intros n Hn Hsd _. split; [done|]. by apply (Hcomp n Hn Hsd).
Qed.

(** *** Publishing sends nothing and decides nothing *)

Record published s s' : Prop := {
  pb_can : rc_can (sys_ctl s') = rc_can (sys_ctl s);
  pb_config : rc_config (sys_ctl s') = rc_config (sys_ctl s);
  pb_phase : controller_state (sys_ctl s') = controller_state (sys_ctl s);
  pb_control : control_cmd_shm (sys_ctl s') = control_cmd_shm (sys_ctl s);
  pb_operator : operator_cmd_shm (sys_ctl s') = operator_cmd_shm (sys_ctl s);
  pb_sm : state_machine (sys_ctl s') = state_machine (sys_ctl s);
  pb_output : rc_output (sys_ctl s') = rc_output (sys_ctl s);
  pb_consumed : rc_consumed (sys_ctl s') = rc_consumed (sys_ctl s);
  pb_running : _running (sys_ctl s') = _running (sys_ctl s);
  pb_procs : sys_procs s' = sys_procs s
}.

#[export] Instance published_preorder : PreOrder published.
Proof.
  split; [by intros s; split|]. intros s1 s2 s3 [] []. split; congruence.
Qed.

Lemma published_clock : within published time_monotonic.
Proof. by intros s. Qed.
Lemma published_set f :
  (∀ s, published s (put_ctl (f (sys_ctl s)) s)) → within published (set_ctl f).
Proof. intros Hf s. apply Hf. Qed.
Hint Resolve published_clock : within.

Lemma published_snapshot_actuators now l : within published (snapshot_actuators now l).
Proof.
  induction l as [|[id d] l IH]; cbn [snapshot_actuators]; [auto with within|].
  apply within_bind; [apply _|auto with within|]. intros t.
  destruct (driver_update_fault_flags t d) as [comm d'].
  apply within_bind; [apply _|apply published_set; by intros|]. intros [].
  auto with within.
Qed.

Lemma published_make_snapshot : within published _make_snapshot.
Proof.
  unfold _make_snapshot. do 3 (apply within_bind; [apply _|auto with within|intros]).
  apply within_bind; [apply _|apply published_set; by intros|]. intros [].
  apply within_bind; [apply _|apply within_gets; apply _|]. intros imu.
  apply within_bind; [apply _|apply within_gets; apply _|]. intros l.
  apply within_bind; [apply _|apply published_snapshot_actuators|]. intros snap.
  apply within_bind; [apply _|apply within_gets; apply _|]. intros mode.
  apply within_bind; [apply _|by intros s|]. intros unix.
  apply within_bind; [apply _|apply within_gets; apply _|]. intros out. auto with within.
Qed.

Lemma published_publish_to p snap force : within published (publish_to p snap force).
Proof.
  destruct p as [p|]; cbn [publish_to]; [|auto with within].
  apply within_bind; [apply _|auto with within|]. intros now.
  apply within_bind; [apply _|by intros s|]. intros ns.
  apply within_bind; [apply _| |auto with within].
  intros s. unfold in_shm, zoom. by destruct (publish _ _ _ _ _ _).
Qed.

Lemma published_publish_state force : within published (_publish_state force).
Proof.
  unfold _publish_state.
  apply within_bind; [apply _|apply published_make_snapshot|]. intros snap.
  apply within_bind; [apply _|apply within_gets; apply _|]. intros p.
  apply within_bind; [apply _|apply published_publish_to|]. intros p'.
  apply within_bind; [apply _|apply published_set; by intros|]. intros [].
  apply within_bind; [apply _|apply within_gets; apply _|]. intros q.
  apply within_bind; [apply _|apply published_publish_to|]. intros q'.
  apply within_bind; [apply _|apply published_set; by intros|]. intros []. auto with within.
Qed.

(** A publisher that can write. *)
Definition pub_ready (fs : ShmFs) (p : option ShmStatePublisher) : Prop :=
  match p with Some p => shm_ready RobotStateC fs (sp_writer p) | None => True end.

#[export] Instance pub_ready_dec fs p : Decision (pub_ready fs p).
Proof. destruct p; unfold pub_ready; apply _. Defined.

Definition pubs_ready s : Prop :=
  pub_ready (sys_shm s) (shm_state_publisher (sys_ctl s)) ∧
  pub_ready (sys_shm s) (dashboard_publisher (sys_ctl s)).

#[export] Instance pubs_ready_dec s : Decision (pubs_ready s).
Proof. unfold pubs_ready. apply _. Defined.

Lemma publish_to_ok p snap force s :
  pub_ready (sys_shm s) p →
  ∃ p' s', publish_to p snap force s = (Ok p', s') ∧ sys_ctl s' = sys_ctl s ∧
    pub_ready (sys_shm s') p' ∧ grows (sys_shm s) (sys_shm s') ∧
    (∀ q, pub_ready (sys_shm s) q → pub_ready (sys_shm s') q).
Proof.
  destruct p as [p|]; cbn [publish_to]; intros Hr; [|by exists None, s].
  st_run. unfold in_shm, time_monotonic, time_ns, zoom, read_clock, publish. cbn [fst snd].
  match goal with |- context [if ?b then _ else _] => destruct b end.
  { do 2 eexists. split; [reflexivity|]. by split. }
  unfold RobotStateShm.write.
  match goal with |- context [snapshot_to_cstruct ?n snap] =>
    destruct (wrapper_write_ready (sys_shm s) (sp_writer p) (snapshot_to_cstruct n snap))
      as (fs' & Hw & Hg & Hk); [apply snapshot_to_cstruct_wf|done|] end.
  st_run. cbn [sys_shm put_clock]. rewrite Hw. do 2 eexists. split; [done|].
  split; [done|]. split; [by apply (Hk RobotStateC)|]. split; [exact Hg|]. intros [q|] Hq; [|done].
  by apply (Hk RobotStateC).
Qed.

Lemma snapshot_actuators_ok now l : ∀ s,
  ∃ r s', snapshot_actuators now l s = (Ok r, s') ∧ sys_shm s' = sys_shm s ∧
    shm_state_publisher (sys_ctl s') = shm_state_publisher (sys_ctl s) ∧
    dashboard_publisher (sys_ctl s') = dashboard_publisher (sys_ctl s).
Proof.
  induction l as [|[id d] l IH]; intros s; cbn [snapshot_actuators]; [by do 2 eexists|].
  st_run. unfold time_monotonic, zoom, read_clock. cbn [fst snd].
  destruct (driver_update_fault_flags _ d) as [comm d'].
  unfold set_ctl, modify.
  match goal with |- context [snapshot_actuators now l ?s1] => destruct (IH s1)
    as (r & s' & -> & Hs & Hp & Hq) end.
  do 2 eexists. split; [done|]. by rewrite Hs, Hp, Hq.
Qed.

Lemma publish_state_ok force s : pubs_ready s →
  is_ok (fst (_publish_state force s)) = true ∧ pubs_ready (snd (_publish_state force s)) ∧
  grows (sys_shm s) (sys_shm (snd (_publish_state force s))).
Proof.
  intros [Hp Hq]. unfold _publish_state, _make_snapshot. st_run.
  unfold time_monotonic, zoom, read_clock, set_ctl, modify. rewrite !ctl_run. cbn [fst snd].
  match goal with |- context [snapshot_actuators ?n ?l ?s1] =>
    destruct (snapshot_actuators_ok n l s1) as (r & s2 & -> & Hs & Ep & Eq) end.
  cbn [sys_shm sys_ctl put_ctl put_clock with_imu with_devices shm_state_publisher
       dashboard_publisher] in Hs, Ep, Eq.
  rewrite !ctl_run. unfold time_unix, zoom, read_clock. rewrite !ctl_run.
  cbn [fst snd sys_ctl put_clock]. rewrite Ep.
  match goal with |- context [publish_to _ ?snap force ?s3] =>
    destruct (publish_to_ok (shm_state_publisher (sys_ctl s)) snap force s3)
      as (p' & s4 & -> & Hc & Hp' & Hg & Hk); [cbn; by rewrite Hs|] end.
  rewrite ctl_run. cbn [fst snd sys_ctl put_ctl with_publishers dashboard_publisher].
  rewrite Hc. cbn [sys_ctl put_clock]. rewrite Eq.
  match goal with |- context [publish_to _ ?snap force ?s5] =>
    destruct (publish_to_ok (dashboard_publisher (sys_ctl s)) snap force s5)
      as (q' & s6 & -> & Hc' & Hq' & Hg' & Hk') end.
  { cbn. apply Hk. cbn. by rewrite Hs. }
  cbn [fst snd is_ok]. split; [done|]. split; [split; cbn; [|done]|].
  - rewrite Hc'. cbn. by apply Hk'.
  - cbn. cbn in Hg, Hg'. rewrite <- Hs. by etrans.
Qed.

(** *** A tick *)

Lemma tick_spec s :
  let sm' := state_machine (sys_ctl (snd (tick s))) in
  ∃ l, sent s (snd (tick s)) l ∧ map Ok l `prefix_of` tick_plan s ∧
    ((sm' = state_machine (sys_ctl s) ∧ map Ok l `prefix_of` imu_plan (sys_ctl s) ∧
        is_ok (fst (tick s)) = false) ∨
     ∃ op, decided s = Ok (sm_mode sm', op)) ∧
    (is_ok (fst (tick s)) = true → map Ok l = tick_plan s).
Proof.
  destruct (tick_decide_spec s) as [(l & Hl & Hpre & Hsi & Hd) _].
  unfold tick, tick_plan. st_run.
  destruct (tick_decide s) as [[[mode op]|e] s1]; cbn [fst snd] in *.
  2: { exists l. split_and!; [done|by apply prefix_app_r|by left|done]. }
  destruct Hd as (Hall & Hdec & Hm). rewrite Hdec, <- (mode_plan_same _ _ _ _ Hsi).
  destruct (mode_follows s1 mode op) as [(l' & Hl' & Hpre' & Hok & Hs) _].
  destruct (send_for_mode mode op s1) as [[[]|e] s2]; cbn [fst snd is_ok] in *.
  - specialize (Hok eq_refl). pose proof (published_publish_state false s2) as Hpub.
    exists (l ++ l'). rewrite map_app, Hall, Hok. split; [|split; [done|split; [|done]]].
    + unfold sent, requests in *. rewrite (pb_can _ _ Hpub). by eapply sent_app.
    + right. exists op. by rewrite (pb_sm _ _ Hpub), (same_sm _ _ Hs), Hm.
  - exists (l ++ l'). rewrite map_app, Hall. split; [by eapply sent_app|].
    split; [by apply prefix_app|]. split; [|done].
    right. exists op. by rewrite (same_sm _ _ Hs), Hm.
Qed.

(** A tick whose frames can all be built and are all accepted returns. *)
Lemma tick_ok s :
  pubs_ready s → Forall sendable (tick_plan s) →
  answering (length (tick_plan s)) (rc_can (sys_ctl s)) →
  is_ok (fst (tick s)) = true.
Proof.
  intros Hpub [Hi Hm]%Forall_app Hans. unfold tick_plan in Hans. rewrite length_app in Hans.
  destruct (tick_decide_spec s) as [(l & _ & _ & Hsi & Hd) Hcomp].
  assert (is_ok (decided s) = true) as Hdec
    by (destruct (decided s); [done|by apply Forall_cons in Hm as [[] _]]).
  destruct (Hcomp _ Hans Hi Hdec) as [Hok Hans'].
  assert (pubs_ready (snd (tick_decide s))) as Hpub'
    by (unfold pubs_ready; by rewrite (si_pub _ _ Hsi), (si_dash _ _ Hsi), (si_shm _ _ Hsi)).
  unfold tick. st_run.
  destruct (tick_decide s) as [[[mode op]|e] s1]; cbn [fst snd] in *; [|done].
  destruct Hd as (_ & Hdm & _). rewrite Hdm in Hm, Hans'.
  rewrite <- (mode_plan_same _ _ mode op Hsi) in Hm, Hans'.
  destruct (mode_follows s1 mode op) as [(_ & _ & _ & _ & Hs) Hc].
  rewrite <- (Nat.add_0_r (length _)) in Hans'. destruct (Hc _ Hans' Hm) as [Hok2 _].
  destruct (send_for_mode mode op s1) as [[[]|e] s2]; cbn [fst snd is_ok] in *; [|done].
  apply publish_state_ok. unfold pubs_ready.
  by rewrite (same_pub _ _ Hs), (same_dash _ _ Hs), (same_shm _ _ Hs).
Qed.
End decision.

(** ** What every callback keeps, reception keeps *)

Lemma within_receive {PS} (R : System PS → System PS → Prop) `{!PreOrder R} :
  (∀ cb frame, within R (invoke cb frame)) → ∀ frame, within R (receive frame).
Proof.
  intros Hcb frame. unfold receive.
  apply within_bind; [done|by intros s|]. intros [cl|]; [|by apply within_ret].
  assert (∀ cbs n, within R (call_all frame cbs n)) as Hc.
  { induction cbs as [|cb cbs IH]; intros n; cbn [call_all]; [by apply within_ret|].
    apply within_bind; [done| |done]. apply within_try; [done| |by intros; apply within_ret].
    apply within_bind; [done|apply Hcb|by intros; apply within_ret]. }
  apply within_bind; [done| |by intros; apply within_ret]. unfold dispatch.
  apply within_bind; [done|apply Hc|]. intros n. apply Hc.
Qed.

(** ** What never changes *)

Section evolution.
Context {PS : Type} `{ProcessControl PS}.
Implicit Types (s : System PS).

(** The identifiers of the drivers and their protocols. *)
Definition protocols (c : RobotController) : dict Z SPGActuatorProtocol :=
  map (λ kd, (kd.1, ad_protocol kd.2)) (rc_actuators c).

(** A well-formed dict of drivers stays well formed, and the identifiers, the
    protocols and the configuration stay what they are. *)
Record unchanged s s' : Prop := {
  un_wf : dict_wf (rc_actuators (sys_ctl s'));
  un_protocols : protocols (sys_ctl s') = protocols (sys_ctl s);
  un_config : rc_config (sys_ctl s') = rc_config (sys_ctl s);
  un_imu : imu_protocol (rc_imu (sys_ctl s')) = imu_protocol (rc_imu (sys_ctl s))
}.
Definition evolves s s' : Prop := dict_wf (rc_actuators (sys_ctl s)) → unchanged s s'.

#[export] Instance evolves_preorder : PreOrder evolves.
Proof.
  split; [by intros s Hw; split|]. intros s1 s2 s3 H1 H2 Hw.
  destruct (H1 Hw) as [Hw2 ? ? ?]. destruct (H2 Hw2). split; congruence.
Qed.

(** A change that keeps drivers, configuration and protocols as they are. *)
Lemma evolves_keep s s' :
  rc_actuators (sys_ctl s') = rc_actuators (sys_ctl s) →
  rc_config (sys_ctl s') = rc_config (sys_ctl s) →
  imu_protocol (rc_imu (sys_ctl s')) = imu_protocol (rc_imu (sys_ctl s)) →
  evolves s s'.
Proof. intros Ha ? ? Hw. unfold protocols. split; unfold protocols; by rewrite ?Ha. Qed.

Lemma same_evolves s s' : same s s' → evolves s s'.
Proof. intros []. apply evolves_keep; congruence. Qed.

Lemma protocols_get (c : RobotController) k :
  dict_get k (protocols c) = ad_protocol <$> dict_get k (rc_actuators c).
Proof.
  unfold protocols. induction (rc_actuators c) as [|[k' d] l IH]; cbn; [done|].
  by case_decide.
Qed.

(** Replacing a driver by one with its protocol. *)
Lemma protocols_set c k (d d0 : Actuator) :
  dict_get k (rc_actuators c) = Some d0 → ad_protocol d = ad_protocol d0 →
  protocols (with_actuators c (dict_set k d (rc_actuators c))) = protocols c.
Proof.
  unfold protocols, with_actuators. cbn [rc_actuators with_devices].
  induction (rc_actuators c) as [|[k' d'] l IH]; cbn; [done|].
  intros Hg Hp. case_decide; cbn; [simplify_eq; by rewrite Hp|by rewrite IH].
Qed.

Lemma evolves_set_driver s k (d d0 : Actuator) :
  dict_get k (rc_actuators (sys_ctl s)) = Some d0 → ad_protocol d = ad_protocol d0 →
  evolves s (put_ctl (with_actuators (sys_ctl s) (dict_set k d (rc_actuators (sys_ctl s)))) s).
Proof.
  intros Hg Hp Hw. cbn [sys_ctl put_ctl].
  split; [by apply dict_wf_set|by eapply protocols_set|done|done].
Qed.

Lemma evolves_snapshot_actuators now l : ∀ s,
  (∀ kd, kd ∈ l → dict_get kd.1 (protocols (sys_ctl s)) = Some (ad_protocol kd.2)) →
  evolves s (snd (snapshot_actuators now l s)).
Proof.
  induction l as [|[id d] l IH]; intros s Hl; cbn [snapshot_actuators]; [done|].
  st_run. set (s1 := snd (time_monotonic s)).
  assert (∃ t, time_monotonic s = (Ok t, s1)) as (t & ->) by by eexists.
  destruct (driver_update_fault_flags t d) as [comm d'] eqn:Ed.
  assert (ad_protocol d' = ad_protocol d) as Hd'.
  { unfold driver_update_fault_flags in Ed. destruct (update_fault_flags _ _).
    by injection Ed as <- <-. }
  assert (evolves s s1) as H1 by by apply evolves_keep.
  pose proof (Hl (id, d) ltac:(by left)) as Hg. cbn [fst snd] in Hg.
  change (sys_ctl s) with (sys_ctl s1) in Hg. rewrite protocols_get in Hg.
  destruct (dict_get id (rc_actuators (sys_ctl s1))) as [d0|] eqn:E0; [|done].
  cbn in Hg. injection Hg as Hg.
  unfold set_ctl at 1. unfold modify. set (s2 := put_ctl _ s1).
  assert (evolves s1 s2) as H2 by (eapply evolves_set_driver; [exact E0|congruence]).
  assert (evolves s2 (snd (snapshot_actuators now l s2))) as H3.
  { apply IH. intros kd Hkd. unfold s2. cbn [sys_ctl put_ctl].
    rewrite (protocols_set _ _ _ _ E0) by congruence. apply Hl. by right. }
  destruct (snapshot_actuators now l s2) as [[rest|e] s3]; cbn in *;
    (etrans; [exact H1|]; etrans; [exact H2|exact H3]).
Qed.

Lemma evolves_clock {A} (f : Clock → nat → A) :
  within evolves (zoom sys_clock (put_clock (PS:=PS)) (read_clock f)).
Proof. intros s. by apply evolves_keep. Qed.
Lemma evolves_set f :
  (∀ s, evolves s (put_ctl (f (sys_ctl s)) s)) → within evolves (set_ctl f).
Proof. intros Hf s. apply Hf. Qed.
Lemma evolves_ctl {A} (f : RobotController → A) : within evolves (ctl f).
Proof. by intros s. Qed.
Lemma evolves_in_shm {A} (m : ST ShmFs A) : within evolves (in_shm m).
Proof. intros s. unfold in_shm, zoom. destruct (m (sys_shm s)). by apply evolves_keep. Qed.
Lemma evolves_in_procs {A} (m : ST PS A) : within evolves (in_procs m).
Proof. intros s. unfold in_procs, zoom. destruct (m (sys_procs s)). by apply evolves_keep. Qed.
Lemma evolves_in_can {A} (m : ST Transport A) : within evolves (in_can m).
Proof. intros s. unfold in_can, zoom. destruct (m _). by apply evolves_keep. Qed.
Lemma evolves_follows {A} s (m : ST (System PS) A) p : follows s m p → evolves s (snd (m s)).
Proof. intros [(l & _ & _ & _ & Hs) _]. by apply same_evolves. Qed.

Hint Resolve evolves_ctl evolves_in_shm evolves_in_procs evolves_in_can : within.
Hint Extern 1 (within evolves time_monotonic) => apply (evolves_clock ck_monotonic) : within.
Hint Extern 1 (within evolves time_unix) => apply (evolves_clock ck_unix) : within.
Hint Extern 1 (within evolves time_ns) => apply (evolves_clock ck_ns) : within.
Hint Extern 2 (within evolves (set_ctl _)) =>
  apply evolves_set; intros; by apply evolves_keep : within.

Lemma evolves_make_snapshot : within evolves _make_snapshot.
Proof.
  unfold _make_snapshot. do 4 (apply within_bind; [apply _|auto with within|intros]).
  apply within_bind; [apply _|auto with within|]. intros imu.
  intros s. st_run. rewrite ctl_run.
  assert (evolves s (snd (snapshot_actuators a (sorted_by fst (rc_actuators (sys_ctl s))) s))) as Hs.
  { intros Hw. apply evolves_snapshot_actuators; [|done]. intros kd Hkd.
    rewrite protocols_get. rewrite (sorted_by_perm fst) in Hkd. destruct kd as [k d].
    by rewrite (dict_get_of_in k d). }
  destruct (snapshot_actuators _ _ s) as [[l|e] s1]; cbn in *; [|done].
  etrans; [exact Hs|]. by apply evolves_keep.
Qed.

Lemma evolves_publish_state force : within evolves (_publish_state force).
Proof.
  unfold _publish_state. apply within_bind; [apply _|apply evolves_make_snapshot|]. intros snap.
  assert (∀ p, within evolves (publish_to p snap force)) as Hp.
  { intros [p|]; cbn [publish_to]; auto 10 with within. }
  auto 15 with within.
Qed.

Lemma evolves_tick : within evolves tick.
Proof.
  intros s. unfold tick. st_run. destruct (tick_decide_spec s) as [(l & _ & _ & Hsi & _) _].
  assert (evolves s (snd (tick_decide s))) as H1
    by (destruct Hsi as [? ? ? ? Hi _ _]; apply evolves_keep; [done|done|by rewrite Hi]).
  destruct (tick_decide s) as [[[mode op]|e] s1]; cbn [fst snd] in *; [|done].
  pose proof (evolves_follows _ _ _ (mode_follows s1 mode op)) as H2.
  destruct (send_for_mode mode op s1) as [[[]|e] s2]; cbn [fst snd] in *; [|by etrans].
  etrans; [exact H1|]. etrans; [exact H2|]. apply evolves_publish_state.
Qed.

(** *** Reception *)

Lemma on_frame_protocol now now' f (d : Actuator) :
  ad_protocol (on_frame now now' f d) = ad_protocol d.
Proof. unfold on_frame. by destruct (decode_frame _ _ _) as [[?|]|?]. Qed.

Lemma imu_on_frame_protocol now now' f (d : IMUDriver E2BoxIMUProtocol) :
  imu_protocol (imu_on_frame now now' f d) = imu_protocol d.
Proof.
  unfold imu_on_frame, _mark_decode_error.
  destruct (imu_decode_frame _ _ _) as [[p|]|e]; [|done|].
  - unfold imu_merge_state, merge_gyro, merge_quat.
    destruct (quat_xyzw p), (angular_velocity_rad_s p); done.
  - cbn. by case_bool_decide.
Qed.

Lemma evolves_callback cb frame : within evolves (invoke cb frame).
Proof.
  destruct cb as [key|].
  - change (within evolves (_on_actuator_frame key frame)). unfold _on_actuator_frame.
    apply within_bind; [apply _|auto with within|]. intros now.
    apply within_bind; [apply _|auto with within|]. intros [|]; [auto with within|].
    unfold driver_on_frame. do 2 (apply within_bind; [apply _|auto with within|intros]).
    apply evolves_set. intros s.
    destruct (dict_get key (rc_actuators (sys_ctl s))) as [d|] eqn:E; [|by apply evolves_keep].
    eapply evolves_set_driver; [exact E|]. apply on_frame_protocol.
  - change (within evolves (imu_frame frame)). unfold imu_frame.
    do 2 (apply within_bind; [apply _|auto with within|intros]).
    apply evolves_set. intros s. apply evolves_keep; [done|done|]. apply imu_on_frame_protocol.
Qed.

Lemma evolves_receive frame : within evolves (receive frame).
Proof. apply within_receive; [apply _|apply evolves_callback]. Qed.
End evolution.

#[export] Hint Resolve evolves_ctl evolves_in_shm evolves_in_procs evolves_in_can : within.

(** ** Reception sends nothing and decides nothing *)

Section undecided.
Context {PS : Type} `{ProcessControl PS}.
Implicit Types (s : System PS).

Record undecided s s' : Prop := {
  ud_requests : requests s' = requests s;
  ud_sm : state_machine (sys_ctl s') = state_machine (sys_ctl s);
  ud_consumed : rc_consumed (sys_ctl s') = rc_consumed (sys_ctl s);
  ud_operator : operator_cmd_shm (sys_ctl s') = operator_cmd_shm (sys_ctl s);
  ud_control : control_cmd_shm (sys_ctl s') = control_cmd_shm (sys_ctl s)
}.

#[export] Instance undecided_preorder : PreOrder undecided.
Proof. split; [by intros s; split|]. intros s1 s2 s3 [] []. split; congruence. Qed.

Lemma undecided_set f : (∀ s, undecided s (put_ctl (f (sys_ctl s)) s)) →
  within undecided (set_ctl f).
Proof. intros Hf s. apply Hf. Qed.
Lemma undecided_clock : within undecided time_monotonic.
Proof. by intros s. Qed.
Hint Resolve undecided_clock : within.

Lemma undecided_callback cb frame : within undecided (invoke cb frame).
Proof.
  destruct cb as [key|].
  - change (within undecided (_on_actuator_frame key frame)). unfold _on_actuator_frame.
    apply within_bind; [apply _|auto with within|]. intros now.
    apply within_bind; [apply _|intros s|].
    { unfold in_can, zoom, is_recent_tx_echo. by split. }
    intros [|]; [auto with within|].
    unfold driver_on_frame. do 2 (apply within_bind; [apply _|auto with within|intros]).
    apply undecided_set. intros s. by destruct (dict_get key _).
  - change (within undecided (imu_frame frame)). unfold imu_frame.
    do 2 (apply within_bind; [apply _|auto with within|intros]). by apply undecided_set.
Qed.

Lemma undecided_receive frame : within undecided (receive frame).
Proof. apply within_receive; [apply _|apply undecided_callback]. Qed.
End undecided.

(** ** Histories *)

Section histories.
Context {PS : Type} `{ProcessControl PS}.
Implicit Types (s : System PS).

(** What [run] does, one step at a time: a tick, or something from outside. *)
Inductive event := Tick | Outside (e : outside (PS:=PS)).

Definition exec (e : event) : ST (System PS) unit :=
  match e with Tick => _ ← tick; mret () | Outside e => happen e end.

Definition after s (es : list event) : System PS := foldl (λ s e, snd (exec e s)) s es.

(** [P] holds of what each tick decides on. *)
Fixpoint at_ticks (P : System PS → Prop) s (es : list event) : Prop :=
  match es with
  | [] => True
  | e :: es => (match e with Tick => P s | Outside _ => True end) ∧
               at_ticks P (snd (exec e s)) es
  end.

Lemma exec_tick s : snd (exec Tick s) = snd (tick s).
Proof. unfold exec. st_run. by destruct (tick s) as [[]]. Qed.

Lemma exec_evolves e : within evolves (exec e).
Proof.
  destruct e as [|[frame| |f|f]]; cbn [exec happen].
  - apply within_bind; [apply _|apply evolves_tick|auto with within].
  - apply evolves_receive.
  - intros s. by apply evolves_keep.
  - intros s. by apply evolves_keep.
  - intros s. by apply evolves_keep.
Qed.

Lemma after_evolves s es : evolves s (after s es).
Proof.
  revert s. induction es as [|e es IH]; intros s; [done|]. cbn [after foldl].
  etrans; [apply (exec_evolves e)|apply IH].
Qed.

Lemma outside_undecided e : within undecided (exec (Outside e)).
Proof.
  destruct e as [frame| |f|f]; cbn [exec happen]; [apply undecided_receive|..];
    intros s; by split.
Qed.
End histories.
