(* ===== verification/ControllerSpec.v ===== *)
(** * What the controller guarantees

    Properties of [Controller]: which frames a tick sends, that motors stay off
    until an operator command asks otherwise, that each command acts once, what a
    zero-set and a policy command become on the bus, and how a run ends. *)

From S2P Require Import Prelude PyFloat PyDict CStruct OperatorCommand StateMachine ControlCommand.
From S2P Require Import RobotState Telemetry CanBus Dispatcher Wire CanDaemon CanTransport.
From S2P Require Import CommManager ActuatorDriver SpgProtocol Imu Config ShmManager Supervisor.
From S2P Require Import Controller ControllerFacts.

(** ** One tick *)

Section ticks.
Context {PS : Type} `{ProcessControl PS}.
Implicit Types (s : System PS).

(** C3: What a tick sends. The frames a tick hands to the daemon are those of its
    plan, in order: the IMU request when configured, then the frames of the mode
    that the state machine enters on the command read from the operator segment
    (disable frames in DISABLED and ESTOP, enable frames in ENABLING, zero-set
    frames in ZERO_SETTING, damping frames in DAMPING, the policy's impedance
    frames in NORMAL). A tick that raises has sent a prefix of them, one that
    returns has sent them all. *)
Theorem tick_sends_plan s :
  let mode' := sm_mode (state_machine (sys_ctl (snd (tick s)))) in
  ∃ l, sent s (snd (tick s)) l ∧ map Ok l `prefix_of` tick_plan s ∧
    (is_ok (fst (tick s)) = true →
       ∃ op, decided s = Ok (mode', op) ∧
             map Ok l = imu_plan (sys_ctl s) ++ mode_plan s mode' op).
Proof.
  destruct (tick_spec s) as (l & Hl & Hp & Hd & Hok). exists l. split_and!; [done|done|].
  intros Hr. destruct Hd as [(_ & _ & Hf)|(op & Hd)]; [congruence|].
  exists op. split; [done|]. rewrite Hok by done. unfold tick_plan. by rewrite Hd.
Qed.

(** *** Off means off *)

Definition off_mode (m : ControllerMode) : Prop := m = Mode.DISABLED ∨ m = Mode.ESTOP.

(** The command a tick acts on. *)
Definition tick_code s : OperatorCommandCode :=
  match read_operator s with
  | Ok op => command_code (Some (consumed_operator s op))
  | Raise _ => NONE
  end.

(** The commands that take the controller out of DISABLED. *)
Definition starts_motion (code : OperatorCommandCode) : bool :=
  bool_decide (code ∈ [ENABLE; DAMPING; ZERO_SET]).

(** An IMU request or a disable frame of one of the drivers. *)
Definition harmless s (f : CANFrame) : Prop :=
  Ok f = make_request_all_frame (rc_imu (sys_ctl s)) ∨
  ∃ k p, (k, p) ∈ protocols (sys_ctl s) ∧ Ok f = encode_disable_frame p.

Lemma imu_plan_elem s f : Ok f ∈ imu_plan (sys_ctl s) → harmless s f.
Proof.
  unfold imu_plan. destruct (_ && _); intros Hf.
  - apply list_elem_of_singleton in Hf. by left.
  - by apply not_elem_of_nil in Hf.
Qed.

Lemma disable_plan_elem s f : Ok f ∈ disable_plan (sys_ctl s) → harmless s f.
Proof.
  unfold disable_plan, dict_values. intros (d & Hd & Hin)%list_elem_of_fmap_1.
  apply list_elem_of_fmap_1 in Hin as ([k d'] & -> & Hin).
  right. exists k, (ad_protocol d'). split; [|done].
  exact (list_elem_of_fmap_2 (λ kd : Z * Actuator, (kd.1, ad_protocol kd.2)) _ _ Hin).
Qed.

Lemma harmless_unchanged s s' f : unchanged s s' → harmless s' f → harmless s f.
Proof.
  intros [_ Hp _ Hi]. unfold harmless, make_request_all_frame.
  rewrite Hp, Hi. tauto.
Qed.

Lemma decided_mode s m op : decided s = Ok (m, op) →
  m = next_mode (sm_mode (state_machine (sys_ctl s))) (tick_code s)
        (elapsed (state_machine (sys_ctl s)) (first_now s)) ∧
  command_code (Some op) = tick_code s.
Proof.
  unfold decided, tick_code. destruct (read_operator s) as [op0|e]; [|done].
  cbn [mbind res_bind]. intros [= <- <-]. split; [|done].
  unfold update. cbn [fst]. by rewrite update_code_enter, enter_mode.
Qed.

(** In an off mode a tick without such a command stays off and sends only
    harmless frames. *)
Lemma tick_off s :
  off_mode (sm_mode (state_machine (sys_ctl s))) → starts_motion (tick_code s) = false →
  off_mode (sm_mode (state_machine (sys_ctl (snd (tick s))))) ∧
  ∃ l, sent s (snd (tick s)) l ∧ Forall (harmless s) l.
Proof.
  intros Hoff Hcode. destruct (tick_spec s) as (l & Hl & Hp & Hd & _).
  apply bool_decide_eq_false in Hcode.
  destruct Hd as [(-> & Himu & _)|(op & Hd)].
  - split; [done|]. exists l. split; [done|]. apply Forall_forall. intros f Hf.
    apply imu_plan_elem. destruct Himu as [k ->]. set_solver.
  - apply decided_mode in Hd as Hm. destruct Hm as [Hm _].
    assert (off_mode (sm_mode (state_machine (sys_ctl (snd (tick s)))))) as Hoff'.
    { rewrite Hm. unfold off_mode in *.
      destruct Hoff as [->| ->], (tick_code s); cbn; auto; exfalso; apply Hcode; set_solver. }
    split; [done|]. exists l. split; [done|]. apply Forall_forall. intros f Hf.
    unfold tick_plan in Hp. rewrite Hd in Hp.
    assert (Ok f ∈ imu_plan (sys_ctl s) ++
      mode_plan s (sm_mode (state_machine (sys_ctl (snd (tick s))))) op) as Hin.
    { destruct Hp as [k ->]. apply elem_of_app. left. by apply list_elem_of_fmap_2. }
    apply elem_of_app in Hin as [Hin|Hin]; [by apply imu_plan_elem|].
    apply disable_plan_elem. by destruct Hoff' as [E|E]; rewrite E in Hin.
Qed.

(** C1: No motion without a command. From DISABLED or ESTOP, and through any
    history of ticks, received frames, changes of the segments and of the
    processes, as long as no tick acts on an ENABLE, DAMPING or ZERO_SET command
    the controller stays in DISABLED or ESTOP and every frame it sends is an IMU
    request or a disable frame of one of its actuators, even when ticks raise. *)
Theorem no_motion_without_command s (es : list event) :
  dict_wf (rc_actuators (sys_ctl s)) →
  off_mode (sm_mode (state_machine (sys_ctl s))) →
  at_ticks (λ s, starts_motion (tick_code s) = false) s es →
  off_mode (sm_mode (state_machine (sys_ctl (after s es)))) ∧
  ∃ l, sent s (after s es) l ∧ Forall (harmless s) l.
Proof.
  revert s. induction es as [|e es IH]; intros s Hw Hoff Hes.
  - split; [done|]. exists []. split; [by apply sent_nil|constructor].
  - destruct Hes as [He Hes]. cbn [after foldl]. fold (after (snd (exec e s)) es).
    pose proof (exec_evolves e s Hw) as Hun.
    assert (off_mode (sm_mode (state_machine (sys_ctl (snd (exec e s))))) ∧
            ∃ l, sent s (snd (exec e s)) l ∧ Forall (harmless s) l) as [Hoff' (l & Hl & Hf)].
    { destruct e as [|e].
      - rewrite exec_tick. by apply tick_off.
      - pose proof (outside_undecided e s) as Hu. rewrite (ud_sm _ _ Hu).
        split; [done|]. exists []. split; [|constructor].
        apply sent_nil, (ud_requests _ _ Hu). }
    destruct (IH _ (un_wf _ _ Hun) Hoff' Hes) as [Hoff'' (l' & Hl' & Hf')].
    split; [done|]. exists (l ++ l'). split; [by eapply sent_app|].
    apply Forall_app. split; [done|].
    eapply Forall_impl; [exact Hf'|]. intros f. by apply harmless_unchanged.
Qed.
End ticks.

(** ** Each command acts once *)

Section consumption.
(** What the ticks act on, for the commands they read. *)
Fixpoint consume_run (d : ConsumedRecord) (ops : list OperatorCommandC) :
    list OperatorCommandC :=
  match ops with
  | [] => []
  | op :: ops =>
      let '(op', d') := _consume_operator_command op d in op' :: consume_run d' ops
  end.

Definition active (op : OperatorCommandC) : bool :=
  negb (bool_decide (command_code (Some op) = NONE)).

(** The commands whose timestamp differs from that of the one before. *)
Fixpoint fresh_commands (last : option Z) (ops : list OperatorCommandC) :
    list OperatorCommandC :=
  match ops with
  | [] => []
  | op :: ops =>
      if decide (Some (oc_timestamp_ns op) = last) then fresh_commands last ops
      else op :: fresh_commands (Some (oc_timestamp_ns op)) ops
  end.

Lemma consume_inactive op d : active op = false → _consume_operator_command op d = (op, d).
Proof.
  unfold active, command_code, _consume_operator_command.
  destruct (code_of_int (oc_command op)) as [[]|e]; done.
Qed.

Lemma consume_active op d : active op = true →
  _consume_operator_command op d =
    if decide (Some (oc_timestamp_ns op) = _last_consumed_operator_timestamp_ns d)
    then (released op,
          {| _last_consumed_operator_timestamp_ns := _last_consumed_operator_timestamp_ns d;
             _last_ignored_operator_timestamp_ns := Some (oc_timestamp_ns op) |})
    else (op, {| _last_consumed_operator_timestamp_ns := Some (oc_timestamp_ns op);
                 _last_ignored_operator_timestamp_ns := None |}).
Proof.
  unfold active, command_code, _consume_operator_command.
  destruct (code_of_int (oc_command op)) as [[]|e]; done.
Qed.

(** C9: Commands act once. Of the commands that successive ticks read from the
    operator segment, the active ones that are acted on are exactly those whose
    timestamp differs from the active command before them: a command that stays
    in the segment acts in one tick, and none with a new timestamp is lost. In
    every other tick the controller sees either an inactive command as it is, or
    NONE without targets. *)
Theorem commands_act_once (d : ConsumedRecord) (ops : list OperatorCommandC) :
  filter (λ op, active op = true) (consume_run d ops) =
    fresh_commands (_last_consumed_operator_timestamp_ns d)
      (filter (λ op, active op = true) ops) ∧
  Forall2 (λ op op', op' = op ∨
             op' = released op ∧ command_code (Some op') = NONE ∧ oc_zero_target_count op' = 0)
    ops (consume_run d ops).
Proof.
  revert d. induction ops as [|op ops IH]; intros d; [by split|].
  cbn [consume_run]. rewrite (filter_cons _ op).
  destruct (active op) eqn:Ea; [rewrite decide_True by done|rewrite decide_False by done].
  - rewrite consume_active by done. cbn [fresh_commands]. case_decide as Ht.
    + destruct (IH {| _last_consumed_operator_timestamp_ns :=
                        _last_consumed_operator_timestamp_ns d;
                      _last_ignored_operator_timestamp_ns := Some (oc_timestamp_ns op) |})
        as [H1 H2].
      split; [|constructor; [by right|done]].
      rewrite filter_cons, decide_False by done. exact H1.
    + destruct (IH {| _last_consumed_operator_timestamp_ns := Some (oc_timestamp_ns op);
                      _last_ignored_operator_timestamp_ns := None |}) as [H1 H2].
      split; [|constructor; [by left|done]].
      rewrite filter_cons, decide_True by done. by f_equal.
  - rewrite consume_inactive by done. destruct (IH d) as [H1 H2].
    split; [|constructor; [by left|done]]. by rewrite filter_cons, decide_False, H1 by congruence.
Qed.
End consumption.

(** ** From an operator's zero-set to the bus *)

Lemma sorted_by_map {A B} (f : A → B) (key : B → Z) l :
  sorted_by key (map f l) = map f (sorted_by (λ a, key (f a)) l).
Proof.
  induction l as [|x l IH]; [done|]. cbn [map sorted_by foldr].
  change (foldr (insert_by key) [] (map f l)) with (sorted_by key (map f l)). rewrite IH.
  change (foldr (insert_by (λ a, key (f a))) [] l) with (sorted_by (λ a, key (f a)) l).
  generalize (sorted_by (λ a, key (f a)) l) as m. induction m as [|y m IHm]; [done|].
  cbn [map insert_by]. destruct (key (f x) <=? key (f y)); [done|]. cbn [map]. by rewrite IHm.
Qed.

Lemma dict_set_new {V} k (v : V) (d : dict Z V) : k ∉ map fst d → dict_set k v d = d ++ [(k, v)].
Proof.
  induction d as [|[k' v'] d IH]; intros Hk; [done|]. cbn [map fst] in Hk. cbn [dict_set].
  rewrite decide_False by (intros ->; apply Hk; left). cbn [app]. rewrite IH; [done|].
  intros Hin. apply Hk. by right.
Qed.

Lemma add_offsets ts : ∀ acc,
  NoDup (map fst (acc ++ ts)) → Forall (λ t, t.1 ≠ 0) ts →
  foldl add_offset acc (map target_entry ts) = acc ++ ts.
Proof.
  induction ts as [|[k v] ts IH]; intros acc Hnd Hnz; cbn [map foldl]; [by rewrite app_nil_r|].
  apply Forall_cons in Hnz as [Hk Hnz]. cbn [fst] in Hk. unfold add_offset at 2.
  cbn [target_entry zt_can_id zt_offset_count fst snd]. rewrite (proj2 (Z.eqb_neq _ _)) by done.
  rewrite map_app in Hnd. apply NoDup_app in Hnd as (Ha & Hdisj & Hts).
  rewrite dict_set_new.
  - change ((k, v) :: ts) with ([(k, v)] ++ ts). rewrite app_assoc. apply IH; [|done].
    rewrite <- app_assoc, map_app. apply NoDup_app. done.
  - intros Hin. apply (Hdisj k Hin). left.
Qed.

(** The set-zero frames of targets, for the known identifiers. *)
Definition zero_frames (ps : dict Z SPGActuatorProtocol) (ts : list (Z * Z)) : plan :=
  concat (map (λ t, match dict_get t.1 ps with
                    | Some p =>
                        [Ok {| can_id := command_id p;
                               data := [CMD_MIT_SET_ZERO; 0; 0; 0; 0; 0] ++ le_encode 2 t.2 |}]
                    | None => []
                    end) ts).

(** Targets as the controller accepts them: buildable, one per identifier, none
    for the identifier 0, which it skips. *)
Record zero_request (ts : list (Z * Z)) : Prop := {
  zr_buildable : OperatorCommandFacts.buildable ts;
  zr_distinct : NoDup (map fst ts);
  zr_nonzero : Forall (λ t, t.1 ≠ 0) ts
}.

Lemma built_offsets now_ns ts :
  zero_request ts →
  _zero_set_offsets_by_can_id
    (Some (OperatorCommandFacts.built now_ns (code_value ZERO_SET) 0 ts)) = Ok ts.
Proof.
  intros [[Hl Hr] Hd Hz]. unfold _zero_set_offsets_by_can_id, OperatorCommandFacts.built.
  cbn [oc_zero_target_count oc_zero_target_magic oc_zero_targets].
  destruct ts as [|t ts]; [done|]. set (l := t :: ts) in *.
  rewrite (proj2 (Z.eqb_neq _ _)) by (cbn; lia).
  change (0 <? length l)%nat with true. rewrite Z.eqb_refl. cbn [negb].
  rewrite (proj2 (Z.ltb_ge _ _)) by (rewrite length_app, length_map; lia).
  f_equal. rewrite Nat2Z.id, take_app_le, take_ge by (rewrite length_map; lia).
  by apply (add_offsets l []).
Qed.

Lemma zero_plan_frames (c : RobotController) now_ns ts :
  zero_request ts →
  zero_plan c (OperatorCommandFacts.built now_ns (code_value ZERO_SET) 0 ts) =
    zero_frames (protocols c)
      (if bool_decide (ts = []) then map (λ k, (k, 0)) (sorted_keys (rc_actuators c))
       else sorted_by fst ts).
Proof.
  intros Hz. unfold zero_plan. rewrite (built_offsets now_ns ts Hz). unfold zero_ids, zero_frames.
  assert (∀ k v, dict_get k ts = Some v ∨ dict_get k ts = None ∧ v = 0 → -32768 ≤ v ≤ 32767 →
    for_actuator c k (λ a, make_zero_position_frame a (zero_offset_deg ts k)) =
    match dict_get k (protocols c) with
    | Some p => [Ok {| can_id := command_id p;
                       data := [CMD_MIT_SET_ZERO; 0; 0; 0; 0; 0] ++ le_encode 2 v |}]
    | None => []
    end) as Hone.
  { intros k v Hk Hv. unfold for_actuator. rewrite protocols_get.
    destruct (dict_get k (rc_actuators c)) as [a|]; [|done]. cbn [fmap option_fmap option_map].
    f_equal. unfold make_zero_position_frame, zero_offset_deg.
    assert (default 0 (dict_get k ts) = v) as -> by by destruct Hk as [->|[-> ->]].
    by apply encode_zero_count. }
  destruct Hz as [[_ Hr] Hd _]. case_bool_decide as He.
  - apply length_zero_iff_nil in He. rewrite bool_decide_true by done. rewrite map_map.
    f_equal. apply map_ext. intros k. apply (Hone k 0); [|lia]. right. by subst.
  - rewrite bool_decide_false by (intros ->; done). unfold sorted_keys, dict_keys.
    rewrite (sorted_by_map fst), map_map. f_equal. apply map_ext_Forall.
    apply Forall_forall. intros [k v] Hin. rewrite (sorted_by_perm fst) in Hin.
    apply (Hone k v); [left; by apply dict_get_of_in|].
    rewrite Forall_forall in Hr. specialize (Hr (k, v) Hin). unfold target_in_range in Hr.
    cbn in *. lia.
Qed.

Section zero_set.
Context {PS : Type} `{ProcessControl PS}.
Implicit Types (s : System PS).

End zero_set.
