(* ===== verification/ControllerRun.v ===== *)
(** * From the policy to the bus, and how a run ends

    The composition of the policy's segment with the controller's tick, and the
    guarantees of shutdown: whatever happened before, it ends with the motors told
    to stop, the processes stopped and the segments gone. *)

From S2P Require Import Prelude PyFloat PyDict CStruct OperatorCommand StateMachine ControlCommand.
From S2P Require Import RobotState Telemetry CanBus Dispatcher Wire CanDaemon CanTransport.
From S2P Require Import CommManager ActuatorDriver SpgProtocol Imu Config ShmManager Supervisor.
From S2P Require Import Controller ControllerFacts.

(** ** Policy targets become impedance frames *)

(** The impedance frame of a target as the controller reads it: the identifier
    modulo 2^32, the numbers rounded to binary32. Unknown identifiers are skipped. *)
Definition policy_frames (ps : dict Z SPGActuatorProtocol) (ts : list ControlTarget) : plan :=
  concat (map (λ t, match dict_get (t_can_id t mod 2 ^ 32) ps with
                    | Some p =>
                        [spg_encode_impedance_command_frame p (binary32 (t_q t))
                           (binary32 (t_dq t)) (binary32 (t_kp t)) (binary32 (t_kd t))
                           (binary32 (t_tau t))]
                    | None => []
                    end) ts).

Lemma policy_plan_frames (c : RobotController) now_ns ts :
  (length ts ≤ MAX_CONTROL_TARGETS)%nat →
  policy_plan c (ControlCommandShm.targets_command now_ns ts) = policy_frames (protocols c) ts.
Proof.
  intros Hl. unfold policy_plan, used_targets, policy_frames.
  cbn [ControlCommandShm.targets_command cc_num_targets cc_targets].
  assert (length (pad_array MAX_CONTROL_TARGETS ControlTargetC_new (map store_target ts))
          = MAX_CONTROL_TARGETS) as Hp by (apply length_pad_array; by rewrite length_map).
  rewrite Hp, Z.min_l by lia. rewrite Nat2Z.id.
  rewrite <- (length_map store_target ts) at 1. rewrite take_pad_array, map_map.
  f_equal. apply map_ext. intros t. unfold for_actuator. rewrite protocols_get.
  cbn [store_target ct_can_id]. unfold c_uint.
  by destruct (dict_get (t_can_id t mod 2 ^ 32) (rc_actuators c)).
Qed.

Section policy.
Context {PS : Type} `{ProcessControl PS}.
Implicit Types (s : System PS).

(** What a policy's write changes for the next tick: the segments stay ready, the
    decision is the same, and in NORMAL the plan has the frames of the targets. *)
Lemma policy_written s (w o : ShmObj) (now_ns : Z) (ts : list ControlTarget)
    (op : OperatorCommandC) :
  control_cmd_shm (sys_ctl s) = Some o → so_handle w = so_handle o →
  shm_ready ControlCommandC (sys_shm s) w →
  (∀ o', operator_cmd_shm (sys_ctl s) = Some o' → so_handle o' ≠ so_handle w) →
  (length ts ≤ MAX_CONTROL_TARGETS)%nat →
  decided s = Ok (Mode.NORMAL, op) →
  ∃ fs', let s' := put_shm fs' s in
    ControlCommandShm.write_targets now_ns w ts (sys_shm s) = (Ok (), fs') ∧
    decided s' = Ok (Mode.NORMAL, op) ∧
    tick_plan s' = imu_plan (sys_ctl s) ++ policy_frames (protocols (sys_ctl s)) ts ∧
    (pubs_ready s → pubs_ready s').
Proof.
  intros Ho Hw Hr Hop Hl Hdec.
  assert (cs_wf (ControlCommandShm.targets_command now_ns ts)) as Hwf
    by exact (targets_command_wf now_ns ts Hl).
  destruct (wrapper_write_ready (sys_shm s) w _ Hwf Hr) as (fs' & Hpub & _ & Hk).
  destruct (write_then_read (sys_shm s) w o _ Hwf Hw Hr) as (fs'' & Hpub' & _ & Hread).
  rewrite Hpub in Hpub'. injection Hpub' as <-. exists fs'. cbv zeta. set (s' := put_shm fs' s).
  assert (decided s' = Ok (Mode.NORMAL, op)) as Hdec'.
  { rewrite <- Hdec. unfold decided, read_operator, s'. cbn [sys_ctl sys_shm put_shm].
    destruct (operator_cmd_shm (sys_ctl s)) as [o'|]; [|done].
    unfold OperatorCommandShm.read_relaxed.
    by rewrite (wrapper_write_other (sys_shm s) fs' w o' _ Hwf Hr (Hop o' eq_refl) Hpub). }
  split; [|split; [exact Hdec'|split]].
  - unfold ControlCommandShm.write_targets. by rewrite (proj2 (Nat.ltb_ge _ _)).
  - unfold tick_plan. rewrite Hdec'. cbn [mode_plan]. unfold read_policy, s'.
    cbn [sys_ctl sys_shm put_shm]. rewrite Ho.
    unfold ControlCommandShm.read_relaxed. rewrite Hread. cbn [fst].
    by rewrite policy_plan_frames.
  - intros [Hp1 Hp2].
    assert (∀ p, pub_ready (sys_shm s) p → pub_ready fs' p) as Hp
      by (intros [p|] Hpr; [by apply (Hk RobotStateC)|done]).
    split; by apply Hp.
Qed.

(** C5: Policy, end to end. When a policy writes up to twelve targets and the next
    tick is in NORMAL, the tick sends, after the IMU request, one impedance frame
    per target of a known actuator, in the policy's order, for the values rounded
    to binary32; targets of unknown identifiers are skipped. The write cannot
    change what the tick decides; an unencodable target stops the tick after the
    frames before it; and when every frame can be built and the daemon accepts
    them, the tick returns. *)
Theorem policy_reaches_bus s (w o : ShmObj) (now_ns : Z) (ts : list ControlTarget)
    (op : OperatorCommandC) :
  control_cmd_shm (sys_ctl s) = Some o → so_handle w = so_handle o →
  shm_ready ControlCommandC (sys_shm s) w →
  (∀ o', operator_cmd_shm (sys_ctl s) = Some o' → so_handle o' ≠ so_handle w) →
  (length ts ≤ MAX_CONTROL_TARGETS)%nat →
  decided s = Ok (Mode.NORMAL, op) →
  ∃ fs' l,
    let s' := put_shm fs' s in
    let frames := imu_plan (sys_ctl s) ++ policy_frames (protocols (sys_ctl s)) ts in
    ControlCommandShm.write_targets now_ns w ts (sys_shm s) = (Ok (), fs') ∧
    decided s' = Ok (Mode.NORMAL, op) ∧
    sent s' (snd (tick s')) l ∧ map Ok l `prefix_of` frames ∧
    (is_ok (fst (tick s')) = true → map Ok l = frames) ∧
    (pubs_ready s → Forall sendable frames → answering (length frames) (rc_can (sys_ctl s)) →
       is_ok (fst (tick s')) = true).
Proof.
  intros Ho Hw Hr Hop Hl Hdec.
  destruct (policy_written s w o now_ns ts op Ho Hw Hr Hop Hl Hdec)
    as (fs' & Hwr & Hdec' & Hplan & Hpubs).
  destruct (tick_spec (put_shm fs' s)) as (l & Hs & Hp & _ & Hall). rewrite Hplan in Hp, Hall.
  exists fs', l. cbv zeta. split; [exact Hwr|]. split; [exact Hdec'|]. split; [exact Hs|].
  split; [exact Hp|]. split; [exact Hall|].
  intros Hready Hsend Hans. apply tick_ok; [by apply Hpubs|by rewrite Hplan|by rewrite Hplan].
Qed.
End policy.

(** ** Shutdown *)

Section shutdown.
Context {PS : Type} `{ProcessControl PS}.
Implicit Types (s : System PS).

(** The segment handles the controller holds. *)
Definition handles (c : RobotController) : list ShmObj :=
  omap id [control_cmd_shm c; operator_cmd_shm c; sp_writer <$> shm_state_publisher c;
           sp_writer <$> dashboard_publisher c].

(** What [shutdown] leaves. *)
Record shut_down s : Prop := {
  sd_phase : controller_state (sys_ctl s) = Phase.STOPPED;
  sd_running : _running (sys_ctl s) = false;
  sd_client : client (rc_can (sys_ctl s)) = None;
  sd_segments : rc_segments (sys_ctl s) = [];
  sd_handles : Forall (λ o, so_handle o = None) (handles (sys_ctl s));
  sd_names : unlink_on_shutdown (cfg_shm (rc_config (sys_ctl s))) = true →
    ∀ k, k ∈ _segment_names (cfg_shm (rc_config (sys_ctl s))) → shm_names (sys_shm s) !! k = None
}.

(** The disable frames of [shutdown]: an exception is swallowed. *)
Lemma shutdown_disable s :
  ∃ s' l, try_except (whenM (is_connected (rc_can (sys_ctl s))) _send_disable_all)
            (λ _, mret ()) s = (Ok (), s') ∧
    same s s' ∧ sent s s' l ∧ map Ok l `prefix_of` disable_plan (sys_ctl s) ∧
    (is_connected (rc_can (sys_ctl s)) = false → l = []) ∧
    (Forall sendable (disable_plan (sys_ctl s)) →
     answering (length (disable_plan (sys_ctl s))) (rc_can (sys_ctl s)) →
     map Ok l = disable_plan (sys_ctl s)).
Proof.
  destruct (is_connected (rc_can (sys_ctl s))) eqn:Ec; unfold try_except, whenM; cbn [whenM].
  - destruct (disable_follows s) as [(l & Hl & Hp & Hok & Hs) Hc].
    exists (snd (_send_disable_all s)), l. split.
    { by destruct (_send_disable_all s) as [[[]|e] s']. }
    split_and!; [done|done|done|done|]. intros Hsend Hans. apply Hok.
    by apply (Hc 0%nat); [rewrite Nat.add_0_r|].
  - exists s, []. split_and!; [done|done|by apply sent_nil|apply prefix_nil|done|].
    intros _ (c & rs & rest & Hc & _). unfold is_connected in Ec. by rewrite Hc in Ec.
Qed.

Lemma close_runtime_closed (c : RobotController) :
  client (rc_can (close_runtime c)) = None ∧ rc_segments (close_runtime c) = [] ∧
  Forall (λ o, so_handle o = None) (handles (close_runtime c)) ∧
  tr_requests (rc_can (close_runtime c)) = tr_requests (rc_can c).
Proof.
  split_and!; [done|done| |done]. unfold handles, close_runtime.
  cbn [with_can with_devices with_segments with_publishers control_cmd_shm operator_cmd_shm
       shm_state_publisher dashboard_publisher].
  destruct (control_cmd_shm c), (operator_cmd_shm c), (shm_state_publisher c),
    (dashboard_publisher c); repeat constructor.
Qed.

(** The last step but one removes the segments when it is asked to. *)
Lemma unlink_at_end s (c : ShmConfig) :
  ∃ s', whenM (unlink_on_shutdown c) (in_shm (unlink_all c)) s = (Ok (), s') ∧
    sys_ctl s' = sys_ctl s ∧ sys_procs s' = sys_procs s ∧
    (unlink_on_shutdown c = true →
     ∀ k, k ∈ _segment_names c → shm_names (sys_shm s') !! k = None).
Proof.
  destruct (unlink_on_shutdown _); cbn [whenM]; [|by exists s].
  unfold in_shm, zoom, unlink_all.
  destruct (remove_segments_spec (_segment_names c) (sys_shm s)) as (fs & -> & Hnm & _).
  eexists. split_and!; [done|done|done|]. intros _ k Hk. cbn [sys_shm put_shm].
  by rewrite Hnm, delete_all_lookup, decide_True.
Qed.

Lemma shutdown_ends s :
  let t := shutdown_timeout_s (cfg_core (rc_config (sys_ctl s))) in
  controller_state (sys_ctl s) ≠ Phase.STOPPED → pubs_ready s →
  is_ok (fst (pc_stop_all t (sys_procs s))) = true →
  ∃ s' l, shutdown s = (Ok (), s') ∧ shut_down s' ∧
    rc_config (sys_ctl s') = rc_config (sys_ctl s) ∧
    sys_procs s' = snd (pc_stop_all t (sys_procs s)) ∧
    sent s s' l ∧ map Ok l `prefix_of` disable_plan (sys_ctl s) ∧
    (is_connected (rc_can (sys_ctl s)) = false → l = []) ∧
    (Forall sendable (disable_plan (sys_ctl s)) →
     answering (length (disable_plan (sys_ctl s))) (rc_can (sys_ctl s)) →
     map Ok l = disable_plan (sys_ctl s)).
Proof.
  intros t Hphase Hpub Hstop. unfold shutdown. st_run. rewrite ctl_run.
  rewrite decide_False by done. unfold set_ctl, modify. rewrite ctl_run.
  set (s1 := put_ctl (with_phase _ _ _) s).
  match goal with |- context [try_except ?a ?b s1] =>
    change (try_except a b s1) with
      (try_except (whenM (is_connected (rc_can (sys_ctl s1))) _send_disable_all)
         (λ _, mret ()) s1) end.
  destruct (shutdown_disable s1) as (s2 & l & -> & Hs & Hl & Hp & Hn & Hall).
  rewrite ctl_run. rewrite (same_config _ _ Hs).
  unfold in_procs, zoom. rewrite (same_procs _ _ Hs).
  change (sys_procs s1) with (sys_procs s). change (rc_config (sys_ctl s1)) with
    (rc_config (sys_ctl s)). fold t.
  destruct (pc_stop_all t (sys_procs s)) as [[[]|e] ps]; [|done]. cbn [fst snd].
  set (s3 := put_procs ps s2).
  destruct (publish_state_ok true s3) as (Hok & _).
  { unfold pubs_ready, s3. cbn [sys_ctl sys_shm put_procs].
    by rewrite (same_pub _ _ Hs), (same_dash _ _ Hs), (same_shm _ _ Hs). }
  pose proof (published_publish_state true s3) as Hpb.
  destruct (_publish_state true s3) as [[snap|e] s4]; [|done]. cbn [fst snd] in Hpb.
  set (s5 := put_ctl (close_runtime (sys_ctl s4)) s4).
  assert (rc_config (sys_ctl s5) = rc_config (sys_ctl s)) as Hcfg
    by exact (eq_trans (pb_config _ _ Hpb) (same_config _ _ Hs)).
  destruct (unlink_at_end s5 (cfg_shm (rc_config (sys_ctl s)))) as (s6 & -> & Hc6 & Hp6 & Hn6).
  unfold set_phase, set_ctl, modify. do 2 eexists. split; [reflexivity|].
  destruct (close_runtime_closed (sys_ctl s4)) as (Hcl & Hseg & Hh & Hq).
  assert (_running (sys_ctl s6) = false) as Hrun.
  { rewrite Hc6. change (_running (sys_ctl s4) = false).
    rewrite (pb_running _ _ Hpb). exact (same_running _ _ Hs). }
  split; [|split_and!; try done].
  - split; cbn [sys_ctl put_ctl with_phase controller_state _running rc_can rc_segments
                rc_config sys_shm]; rewrite ?Hc6; try done.
    + by rewrite <- Hc6.
    + rewrite Hcfg. exact Hn6.
  - cbn [sys_ctl put_ctl with_phase rc_config]. by rewrite Hc6.
  - cbn [sys_procs put_ctl]. rewrite Hp6. change (sys_procs s4 = ps).
    by rewrite (pb_procs _ _ Hpb).
  - unfold sent, requests in *. cbn [sys_ctl put_ctl with_phase rc_can]. rewrite Hc6.
    cbn [s5 sys_ctl put_ctl]. rewrite Hq, (pb_can _ _ Hpb). exact Hl.
Qed.

Lemma shutdown_stopped s : controller_state (sys_ctl s) = Phase.STOPPED → shutdown s = (Ok (), s).
Proof. intros Hp. unfold shutdown. st_run. by rewrite ctl_run, decide_True. Qed.

End shutdown.

(** ** The whole run *)

Section whole_run.
Context {PS : Type} `{ProcessControl PS}.
Implicit Types (s : System PS).

(** The store is well formed and the publishers can write. *)
Definition sound s : Prop := fs_wf (sys_shm s) ∧ pubs_ready s.

Record keeps s s' : Prop := {
  kp_config : rc_config (sys_ctl s') = rc_config (sys_ctl s);
  kp_phase : controller_state (sys_ctl s) ≠ Phase.STOPPED →
             controller_state (sys_ctl s') ≠ Phase.STOPPED;
  kp_sound : sound s → sound s'
}.

#[export] Instance keeps_preorder : PreOrder keeps.
Proof. split; [by intros s; split|]. intros s1 s2 s3 [] []. split; [congruence|auto..]. Qed.

Lemma grows_ready T `{CStruct T} fs fs' o :
  fs_wf fs → grows fs fs' → shm_ready T fs o → shm_ready T fs' o.
Proof.
  intros Hw Hg (h & b & Hh & Hb & Hl). destruct (Hg Hw) as [_ Ho].
  destruct (Ho h b Hb) as (b' & Hb' & ?). exists h, b'. split_and!; [done|done|lia].
Qed.

Lemma keeps_grows s s' : sys_ctl s' = sys_ctl s → grows (sys_shm s) (sys_shm s') → keeps s s'.
Proof.
  intros Hc Hg. split; rewrite ?Hc; [done|done|]. intros [Hw [Hp Hq]].
  split; [by apply Hg|]. unfold pubs_ready. rewrite Hc.
  assert (∀ p, pub_ready (sys_shm s) p → pub_ready (sys_shm s') p) as Hr
    by (intros [p|]; [by apply grows_ready|done]).
  split; by apply Hr.
Qed.

(** A change of the controller that keeps what matters here. *)
Lemma keeps_put s c :
  rc_config c = rc_config (sys_ctl s) → controller_state c = controller_state (sys_ctl s) →
  shm_state_publisher c = shm_state_publisher (sys_ctl s) →
  dashboard_publisher c = dashboard_publisher (sys_ctl s) → keeps s (put_ctl c s).
Proof.
  intros Hc Hp H1 H2. split; [done|by rewrite <- Hp|]. intros [Hw Hr]. split; [done|].
  unfold pubs_ready. cbn [sys_ctl sys_shm put_ctl]. by rewrite H1, H2.
Qed.

Lemma same_keeps s s' : same s s' → keeps s s'.
Proof.
  intros Hs. split; [apply Hs|by rewrite (same_phase _ _ Hs)|]. unfold sound, pubs_ready.
  by rewrite (same_shm _ _ Hs), (same_pub _ _ Hs), (same_dash _ _ Hs).
Qed.

Lemma keeps_follows {A} (m : ST (System PS) A) (p : System PS → plan) :
  (∀ s, follows s m (p s)) → within keeps m.
Proof. intros Hf s. destruct (Hf s) as [(l & _ & _ & _ & Hs) _]. by apply same_keeps. Qed.

Lemma keeps_ctl {A} (f : RobotController → A) : within keeps (ctl f).
Proof. by intros s. Qed.
Lemma keeps_clock {A} (f : Clock → nat → A) :
  within keeps (zoom sys_clock (put_clock (PS:=PS)) (read_clock f)).
Proof. intros s. by apply keeps_grows. Qed.
Lemma keeps_in_procs {A} (m : ST PS A) : within keeps (in_procs m).
Proof. intros s. unfold in_procs, zoom. destruct (m (sys_procs s)). by apply keeps_grows. Qed.
Lemma keeps_in_can {A} (m : ST Transport A) : within keeps (in_can m).
Proof. intros s. unfold in_can, zoom. destruct (m _). by apply keeps_put. Qed.
Lemma keeps_in_shm {A} (m : ST ShmFs A) : within grows m → within keeps (in_shm m).
Proof.
  intros Hm s. specialize (Hm (sys_shm s)). unfold in_shm, zoom.
  destruct (m (sys_shm s)). by apply keeps_grows.
Qed.
Lemma keeps_set f : (∀ s, keeps s (put_ctl (f (sys_ctl s)) s)) → within keeps (set_ctl f).
Proof. intros Hf s. apply Hf. Qed.
Lemma keeps_phase x run : x ≠ Phase.STOPPED → ∀ s,
  keeps s (put_ctl (with_phase (sys_ctl s) x run) s).
Proof. by intros Hx s. Qed.

Hint Resolve keeps_ctl keeps_in_procs keeps_in_can keeps_in_shm : within.
Hint Extern 1 (within keeps time_monotonic) => apply (keeps_clock ck_monotonic) : within.
Hint Extern 2 (within keeps (set_ctl _)) =>
  apply keeps_set; intros; first [by apply keeps_phase | by apply keeps_put] : within.

(** *** The segments *)

Lemma grows_open T `{CStructLaws T} ue name :
  (0 < sizeof T)%nat → within grows (wrapper_open T ue name).
Proof. intros Hp fs. by rewrite (proj1 (wrapper_open_ready ue name fs Hp)). Qed.

Lemma grows_remove names : within grows (for_each names remove_segment).
Proof.
  intros fs. destruct (remove_segments_spec names fs) as (fs' & -> & _ & Ho & Hn).
  by apply grows_objects.
Qed.

Lemma grows_create_all shm : within grows (create_all shm).
Proof.
  unfold create_all. do 5 (apply within_bind; [apply _|apply wrapper_create_grows|intros]).
  apply within_ret, _.
Qed.

Lemma publisher_init_ready name hz fs :
  snd (publisher_init name hz fs) = fs ∧
  match fst (publisher_init name hz fs) with
  | Ok p => shm_ready RobotStateC fs (sp_writer p)
  | Raise _ => True
  end.
Proof.
  unfold publisher_init, RobotStateShm.open_writer. st_run.
  match goal with |- context [wrapper_open RobotStateC ?ue name fs] =>
    destruct (wrapper_open_ready (T:=RobotStateC) ue name fs) as [Hs Hr];
      [by apply Nat.ltb_lt|]; destruct (wrapper_open RobotStateC ue name fs) as [[o|e] fs'] end;
    cbn [fst snd] in *; subst; [|done].
  by destruct (py_div 1 hz).
Qed.

Lemma keeps_publisher name hz (k : ShmStatePublisher → ST (System PS) unit) :
  (∀ p s, shm_ready RobotStateC (sys_shm s) (sp_writer p) → keeps s (snd (k p s))) →
  within keeps (in_shm (publisher_init name hz) ≫= k).
Proof.
  intros Hk s. st_run. unfold in_shm, zoom.
  destruct (publisher_init_ready name hz (sys_shm s)) as [Hs Hp].
  destruct (publisher_init name hz (sys_shm s)) as [[p|e] fs]; cbn [fst snd] in *; subst fs;
    (replace (put_shm (sys_shm s) s) with s by by destruct s); [|done]. by apply Hk.
Qed.

Lemma keeps_set_publishers (f : RobotController → option ShmStatePublisher)
    (g : RobotController → option ShmStatePublisher) s :
  (pubs_ready s → pub_ready (sys_shm s) (f (sys_ctl s)) ∧ pub_ready (sys_shm s) (g (sys_ctl s))) →
  keeps s (put_ctl (with_publishers (sys_ctl s) (f (sys_ctl s)) (g (sys_ctl s))) s).
Proof. intros Hr. split; [done|done|]. intros [Hw Hp]. split; [done|]. by apply Hr. Qed.

Lemma keeps_open_segments shm : within keeps (open_segments shm).
Proof.
  unfold open_segments.
  apply within_bind; [apply _|apply keeps_in_shm, grows_create_all|]. intros segs.
  apply within_bind; [apply _|auto with within|]. intros _.
  apply within_bind; [apply _|apply keeps_in_shm, (grows_open ControlCommandC); by apply Nat.ltb_lt|].
  intros control.
  apply within_bind; [apply _|auto with within|]. intros _.
  apply within_bind; [apply _|apply keeps_in_shm, (grows_open OperatorCommandC); by apply Nat.ltb_lt|].
  intros operator.
  apply within_bind; [apply _|auto with within|]. intros _.
  apply keeps_publisher. intros p s Hp.
  etrans; [apply (keeps_set_publishers (λ _, Some p) dashboard_publisher); by intros []|].
  apply keeps_publisher. intros q s' Hq.
  apply (keeps_set_publishers shm_state_publisher (λ _, Some q)). by intros [].
Qed.

Lemma keeps_publish_state force : within keeps (_publish_state force).
Proof.
  intros s. pose proof (published_publish_state force s) as Hp. split.
  - apply (pb_config _ _ Hp).
  - by rewrite (pb_phase _ _ Hp).
  - intros [Hw Hr]. destruct (publish_state_ok force s Hr) as (_ & Hr' & Hg).
    split; [by apply Hg|done].
Qed.

Lemma keeps_can_send frame : within keeps (can_send frame).
Proof. apply (keeps_follows _ (λ _, [Ok frame])). intros s. apply can_send_follows. Qed.
Hint Resolve keeps_publish_state keeps_open_segments keeps_can_send grows_remove : within.

(** *** Ticks, and what happens between them *)

Lemma keeps_tick : within keeps tick.
Proof.
  unfold tick. apply within_bind; [apply _| |].
  - unfold tick_decide. apply within_bind; [apply _|auto with within|]. intros now.
    apply within_bind; [apply _|apply (keeps_follows _ _ imu_follows)|]. intros _.
    apply within_bind; [apply _|auto with within|]. intros o.
    apply within_bind; [apply _|apply within_lift, _|]. intros o'.
    apply within_bind; [apply _| |].
    + intros s. unfold OperatorCommandShm.read_relaxed. by rewrite read_shm_run.
    + intros op. unfold consume. apply within_bind; [apply _| |].
      * apply within_bind; [apply _|auto with within|]. intros d.
        destruct (_consume_operator_command op d). auto with within.
      * intros op'. apply within_bind; [apply _|auto with within|]. intros sm.
        destruct (update sm (Some op') now). auto with within.
  - intros [mode op]. apply within_bind; [apply _| |auto with within].
    apply (keeps_follows _ (λ s, mode_plan s mode op)). intros s. apply mode_follows.
Qed.

Lemma keeps_callback cb frame : within keeps (invoke cb frame).
Proof.
  destruct cb as [key|].
  - change (within keeps (_on_actuator_frame key frame)). unfold _on_actuator_frame.
    apply within_bind; [apply _|auto with within|]. intros now.
    apply within_bind; [apply _|auto with within|]. intros [|]; [auto with within|].
    unfold driver_on_frame. do 2 (apply within_bind; [apply _|auto with within|intros]).
    apply keeps_set. intros s. destruct (dict_get key _); by apply keeps_put.
  - change (within keeps (imu_frame frame)). unfold imu_frame.
    do 2 (apply within_bind; [apply _|auto with within|intros]). auto with within.
Qed.

(** What the other processes do keeps the segments the controller has mapped:
    they may write, create and unlink, but cannot shrink a mapped segment. *)
Definition benign (e : outside (PS:=PS)) : Prop :=
  match e with ShmChange f => ∀ fs, grows fs (f fs) | _ => True end.

Lemma keeps_happen e : benign e → within keeps (happen e).
Proof.
  destruct e as [frame| |f|f]; intros He; cbn [happen].
  - apply within_receive; [apply _|apply keeps_callback].
  - apply keeps_set. intros s. by apply keeps_put.
  - intros s. by apply keeps_grows.
  - intros s. by apply keeps_grows.
Qed.

Lemma keeps_run schedule : Forall (Forall benign) schedule → within keeps (run schedule).
Proof.
  intros Hbenign. unfold run. apply within_bind; [apply _|auto with within|]. intros hz.
  apply within_bind; [apply _|auto with within|]. intros _.
  induction Hbenign as [|es schedule Hes _ IH]; cbn [run_loop]; [auto with within|].
  apply within_bind; [apply _|auto with within|]. intros [|]; cbn [negb]; [|auto with within].
  apply within_bind; [apply _| |].
  - induction Hes as [|e es He _ IHes]; cbn [for_each]; [auto with within|].
    apply within_bind; [apply _|by apply keeps_happen|done].
  - intros _. apply within_bind; [apply _|auto with within|].
    intros [|]; cbn [negb]; [|auto with within].
    apply within_bind; [apply _|apply keeps_tick|done].
Qed.

(** *** Starting *)

Lemma keeps_start_body : within keeps start_body.
Proof.
  unfold start_body, set_phase.
  do 3 (apply within_bind; [apply _|auto with within|intros]).
  { apply within_when; [apply _|]. apply keeps_in_shm, grows_remove. }
  do 5 (apply within_bind; [apply _|auto with within|intros]).
  apply within_bind; [apply _| |].
  { unfold _register_callbacks. auto 12 with within. }
  intros _. apply within_bind; [apply _|auto with within|]. intros _.
  apply within_bind; [apply _| |].
  { unfold _bringup_imu. apply within_bind; [apply _|auto with within|]. intros imu.
    apply within_if; [auto with within|]. apply within_for_each; [apply _|]. intros _.
    auto with within. }
  intros _. auto 12 with within.
Qed.

(** [start] either returns a running system or has shut it down. *)
Lemma start_ends s :
  (∀ t p, is_ok (fst (pc_stop_all t p)) = true) →
  sound s → controller_state (sys_ctl s) ≠ Phase.STOPPED →
  rc_config (sys_ctl (snd (start s))) = rc_config (sys_ctl s) ∧
  match fst (start s) with
  | Ok _ => sound (snd (start s)) ∧ controller_state (sys_ctl (snd (start s))) ≠ Phase.STOPPED
  | Raise e => shut_down (snd (start s)) ∧ fst (start_body s) = Raise e
  end.
Proof.
  intros Hstop Hs Hp. unfold start, try_except. pose proof (keeps_start_body s) as Hk.
  destruct (start_body s) as [[[]|e] s1]; cbn [fst snd] in *.
  - split_and!; [apply Hk|by apply Hk|by apply Hk].
  - st_run. unfold set_phase, set_ctl, modify.
    match goal with |- context [shutdown ?x] => set (s2 := x) end.
    assert (keeps s1 s2) as Hk2 by by apply keeps_phase.
    destruct (shutdown_ends s2) as (s3 & l & -> & Hd & Hc & _);
      [done|apply Hk2, Hk, Hs|apply Hstop|]. cbn [fst snd].
    split_and!; [|done|done]. rewrite Hc. exact (kp_config _ _ Hk).
Qed.

End whole_run.
