(* ===== verification/AuxReader.v ===== *)
(** * The gamepad reader

    [robot_controller/subprocesses/aux_reader/main.py]: joystick events from the
    kernel are folded into the axes and buttons, which are published after every
    event that changes them, for the policy to read. *)

From S2P Require Import Prelude PyFloat PyDict CStruct ActuatorDriver ControlCommand.
Open Scope Z_scope.

Definition JS_EVENT_BUTTON : Z := 0x01.
Definition JS_EVENT_AXIS : Z := 0x02.
Definition JS_EVENT_INIT : Z := 0x80.
(** [struct.Struct("IhBB")] *)
Definition JS_EVENT_SIZE : nat := 8.

Definition _axis_value (value : Z) : res float :=
  q ← py_div (Z2F value) 32767; Ok (py_max (-1) (py_min 1 q)).

Definition _deadband (value threshold : float) : float :=
  if (abs value <? threshold)%float then 0%float else value.

(** [axes[axis]] *)
Definition axis (axes : list float) (n : nat) : res float :=
  match axes !! n with Some x => Ok x | None => Raise IndexError end.

(** [_axis_targets(axes)], its loop over the three mappings unrolled: every one
    inverts the axis, has scale 1 and deadband 0.05. *)
Definition _axis_targets (axes : list float) : res (list float * list float) :=
  let target (n : nat) := (x ← axis axes n; Ok (- _deadband x 0.05 * 1)%float) in
  a ← target 1%nat;
  b ← target 0%nat;
  c ← target 3%nat;
  Ok ([a; b; 0%float], [0%float; 0%float; c]).

(** [_button_targets(buttons)]: its field names are [BUTTON_FIELDS], in order. *)
Definition _button_targets (buttons : list bool) : res (dict string bool) :=
  mapR (λ '(index, field),
    match buttons !! index with Some b => Ok (field, b) | None => Raise IndexError end)
    (zip (seq 0 11) BUTTON_FIELDS).

(** ** The process *)

Record Pad := { axes : list float; buttons : list bool }.

Definition neutral : Pad := {| axes := replicate 32 0%float; buttons := replicate 32 false |}.

Record AuxState := { ar_pad : Pad; ar_shm : ShmFs; ar_clock : Clock }.

Definition in_aux_shm {A} (m : ST ShmFs A) : ST AuxState A :=
  zoom ar_shm (λ f s, {| ar_pad := ar_pad s; ar_shm := f; ar_clock := ar_clock s |}) m.
Definition aux_time_ns : ST AuxState Z :=
  zoom ar_clock (λ k s, {| ar_pad := ar_pad s; ar_shm := ar_shm s; ar_clock := k |})
    (read_clock ck_ns).
Definition set_pad (p : Pad) : ST AuxState unit :=
  modify (λ s, {| ar_pad := p; ar_shm := ar_shm s; ar_clock := ar_clock s |}).

(** [_publish(writer, axes, buttons)] *)
Definition _publish (writer : ShmObj) : ST AuxState unit :=
  pad ← gets ar_pad;
  targets ← lift (_axis_targets (axes pad));
  pressed ← lift (_button_targets (buttons pad));
  now_ns ← aux_time_ns;
  _ ← in_aux_shm (AuxCommandShm.publish now_ns writer targets.1 targets.2 pressed);
  mret ().

(** [JS_EVENT_STRUCT.unpack(packet)] without the time stamp, and the cleared
    flag: value, type, number. *)
Definition unpack_event (packet : bytes) : Z * Z * Z :=
  (to_signed 16 (le_decode (slice 4 6 packet)),
   Z.land (le_decode (slice 6 7 packet)) (Z.lnot JS_EVENT_INIT),
   le_decode (slice 7 8 packet)).

(** What an event makes of the pad, if anything. *)
Definition apply_event (event : Z * Z * Z) (p : Pad) : res (option Pad) :=
  let '(value, event_type, number) := event in
  if (event_type =? JS_EVENT_AXIS) && (number <? Z.of_nat (length (axes p))) then
    x ← _axis_value value;
    Ok (Some {| axes := <[Z.to_nat number := x]> (axes p); buttons := buttons p |})
  else if (event_type =? JS_EVENT_BUTTON) && (number <? Z.of_nat (length (buttons p))) then
    Ok (Some {| axes := axes p; buttons := <[Z.to_nat number := negb (value =? 0)]> (buttons p) |})
  else Ok None.

(** What [os.read] gives: bytes, nothing yet (the loop sleeps), or an error. *)
Inductive pad_read := Packet (packet : bytes) | NoEvent | ReadFailed.

Definition loop_step (writer : ShmObj) (r : pad_read) : ST AuxState unit :=
  match r with
  | NoEvent => mret ()
  | ReadFailed => raise OSError
  | Packet packet =>
      if negb (length packet =? JS_EVENT_SIZE)%nat then raise RuntimeError
      else
        pad ← gets ar_pad;
        change ← lift (apply_event (unpack_event packet) pad);
        match change with
        | Some pad => _ ← set_pad pad; _publish writer
        | None => mret ()
        end
  end.

(** [main()] from the opened segment and device on, over what is read until a
    signal ends the loop; and the whole of it. *)
Definition aux_loop (writer : ShmObj) (reads : list pad_read) : ST AuxState unit :=
  _ ← _publish writer;
  for_each reads (loop_step writer).

Definition aux_main (shm_name : string) (device : res unit) (reads : list pad_read) :
    ST AuxState ShmObj :=
  writer ← in_aux_shm (AuxCommandShm.open_writer shm_name);
  _ ← lift device;
  _ ← aux_loop writer reads;
  mret (AuxCommandShm.close writer).

(** ** What the policy reads *)

Definition pad_wf (p : Pad) : Prop := length (axes p) = 32%nat ∧ length (buttons p) = 32%nat.

(** The value an event gives an axis, or a button. *)
Definition axis_event (n : nat) (r : pad_read) : option float :=
  match r with
  | Packet packet =>
      let '(value, event_type, number) := unpack_event packet in
      if (event_type =? JS_EVENT_AXIS) && (number =? Z.of_nat n)
      then match _axis_value value with Ok x => Some x | Raise _ => None end else None
  | _ => None
  end.
Definition button_event (n : nat) (r : pad_read) : option bool :=
  match r with
  | Packet packet =>
      let '(value, event_type, number) := unpack_event packet in
      if (event_type =? JS_EVENT_BUTTON) && (number =? Z.of_nat n)
      then Some (negb (value =? 0)) else None
  | _ => None
  end.

(** A read that does not end the process: an event of eight bytes, or nothing. *)
Definition harmless_read (r : pad_read) : Prop :=
  match r with
  | Packet packet => length packet = JS_EVENT_SIZE ∧ wf_bytes packet
  | NoEvent => True
  | ReadFailed => False
  end.

(** What a pad is published as. *)
Definition shows (p : Pad) (c : AuxCommandC) : Prop :=
  (∃ x0 x1 x3, axes p !! 0%nat = Some x0 ∧ axes p !! 1%nat = Some x1 ∧
     axes p !! 3%nat = Some x3 ∧
     ax_lin_vel_target c =
       map c_float [- _deadband x1 0.05 * 1; - _deadband x0 0.05 * 1; 0]%float ∧
     ax_ang_vel_target c = map c_float [0; 0; - _deadband x3 0.05 * 1]%float) ∧
  ∀ i name, BUTTON_FIELDS !! i = Some name →
    buttons p !! i = Some (pressed name (mask_to_buttons (ax_button_mask c))).

Lemma axis_value_ok value : ∃ x, _axis_value value = Ok x.
Proof. unfold _axis_value, py_div. eauto. Qed.

Lemma targets_total ax :
  length ax = 32%nat →
  ∃ x0 x1 x3, ax !! 0%nat = Some x0 ∧ ax !! 1%nat = Some x1 ∧ ax !! 3%nat = Some x3 ∧
    _axis_targets ax = Ok ([- _deadband x1 0.05 * 1; - _deadband x0 0.05 * 1; 0]%float,
                           [0; 0; - _deadband x3 0.05 * 1]%float).
Proof.
  destruct ax as [|x0 [|x1 [|x2 [|x3 ax]]]]; try done. intros _. by exists x0, x1, x3.
Qed.

Lemma buttons_total bs :
  length bs = 32%nat →
  ∃ d, _button_targets bs = Ok d ∧
    ∀ i name, BUTTON_FIELDS !! i = Some name → bs !! i = Some (pressed name d).
Proof.
  intros Hl. do 11 (destruct bs as [|? bs]; [done|]).
  eexists. split; [reflexivity|]. intros i name Hi.
  do 11 (destruct i as [|i]; [injection Hi as <-; reflexivity|]). done.
Qed.

Lemma publish_shows s writer reader :
  pad_wf (ar_pad s) → shm_ready AuxCommandC (ar_shm s) writer →
  so_handle writer = so_handle reader →
  ∃ s' c, _publish writer s = (Ok (), s') ∧ ar_pad s' = ar_pad s ∧
    shm_ready AuxCommandC (ar_shm s') writer ∧
    AuxCommandShm.read_relaxed reader (ar_shm s') = (Ok c, ar_shm s') ∧ shows (ar_pad s) c.
Proof.
  intros [Ha Hb] Hr Ho. destruct s as [[ax bs] fs k]. cbn [ar_pad ar_shm axes buttons] in *.
  destruct (targets_total ax) as (x0 & x1 & x3 & H0 & H1 & H3 & Ht); [done|].
  destruct (buttons_total bs) as (d & Hd & Hp); [done|].
  destruct (buttons_roundtrip d fs writer reader (ck_ns k (ck_reads k))
    [- _deadband x1 0.05 * 1; - _deadband x0 0.05 * 1; 0]%float
    [0; 0; - _deadband x3 0.05 * 1]%float) as (Hbits & _ & Hpub).
  destruct Hpub as (fs' & c & Hpub & Hready & Hrd & Hlin & Hang & Hmask); [done..|].
  unfold _publish, gets. st_run. cbn [ar_pad axes buttons]. rewrite Ht, Hd.
  unfold aux_time_ns, zoom, read_clock, in_aux_shm, zoom. cbn [ar_clock ar_shm fst snd].
  rewrite Hpub. do 2 eexists. split; [reflexivity|]. cbn [ar_pad ar_shm].
  split; [done|]. split; [done|]. split; [exact Hrd|]. split.
  - exists x0, x1, x3. by rewrite Hlin, Hang.
  - intros i name Hi. rewrite Hmask, Hbits; [by apply Hp|]. by eapply list_elem_of_lookup_2.
Qed.

(** *** The loop *)

(** What an event leaves on an axis, or a button, after [o]. *)
Lemma event_applied packet p :
  pad_wf p → wf_bytes packet →
  ∃ change, apply_event (unpack_event packet) p = Ok change ∧
    let p' := default p change in
    pad_wf p' ∧
    ∀ n, (n < 32)%nat →
      axes p' !! n = axis_event n (Packet packet) ∪ axes p !! n ∧
      buttons p' !! n = button_event n (Packet packet) ∪ buttons p !! n.
Proof.
  intros [Ha Hb] Hw. unfold apply_event, axis_event, button_event, unpack_event.
  set (value := to_signed 16 _). set (ty := Z.land _ _). set (number := le_decode _).
  assert (0 ≤ number) as Hn by by apply le_decode_bound, wf_slice.
  destruct (axis_value_ok value) as [x Hx]. rewrite Ha, Hb, Hx. cbn [mbind res_bind].
  assert (∀ o : option float, None ∪ o = o) as Hf by by intros [].
  assert (∀ o : option bool, None ∪ o = o) as Hg by by intros [].
  destruct (Z.eqb_spec ty JS_EVENT_AXIS) as [Et|Et]; cbn [andb].
  - assert (ty =? JS_EVENT_BUTTON = false) as -> by by rewrite Et. cbn [andb].
    destruct (Z.ltb_spec number (Z.of_nat 32)) as [Hlt|Hge].
    + eexists. split; [reflexivity|]. unfold pad_wf. cbn [from_option id axes buttons]. split.
      { split; [by rewrite length_insert|done]. }
      intros n H32. rewrite Hg. split; [|done].
      destruct (Z.eqb_spec number (Z.of_nat n)) as [->|Hne].
      * rewrite Nat2Z.id, list_lookup_insert_eq by (by rewrite Ha). by destruct (axes p !! n).
      * rewrite Hf. apply list_lookup_insert_ne. lia.
    + eexists. split; [reflexivity|]. unfold pad_wf. cbn [from_option id axes buttons]. split; [done|]. intros n H32.
      rewrite Hg, (proj2 (Z.eqb_neq _ _)) by lia. by rewrite Hf.
  - destruct (Z.eqb_spec ty JS_EVENT_BUTTON) as [Eb|Eb]; cbn [andb].
    + destruct (Z.ltb_spec number (Z.of_nat 32)) as [Hlt|Hge].
      * eexists. split; [reflexivity|]. unfold pad_wf. cbn [from_option id axes buttons]. split.
        { split; [done|by rewrite length_insert]. }
        intros n H32. rewrite Hf. split; [done|].
        destruct (Z.eqb_spec number (Z.of_nat n)) as [->|Hne].
        -- rewrite Nat2Z.id, list_lookup_insert_eq by (by rewrite Hb). by destruct (buttons p !! n).
        -- rewrite Hg. apply list_lookup_insert_ne. lia.
      * eexists. split; [reflexivity|]. unfold pad_wf. cbn [from_option id axes buttons]. split; [done|]. intros n H32.
        rewrite Hf, (proj2 (Z.eqb_neq _ _)) by lia. by rewrite Hg.
    + eexists. split; [reflexivity|]. unfold pad_wf. cbn [from_option id axes buttons]. split; [done|]. intros n H32. by rewrite Hf, Hg.
Qed.

(** The state between two rounds: the segment shows the pad. *)
Record current (writer reader : ShmObj) (s : AuxState) : Prop := {
  cu_wf : pad_wf (ar_pad s);
  cu_ready : shm_ready AuxCommandC (ar_shm s) writer;
  cu_shown : ∃ c, AuxCommandShm.read_relaxed reader (ar_shm s) = (Ok c, ar_shm s) ∧
                  shows (ar_pad s) c
}.

Lemma publish_current s writer reader :
  pad_wf (ar_pad s) → shm_ready AuxCommandC (ar_shm s) writer →
  so_handle writer = so_handle reader →
  ∃ s', _publish writer s = (Ok (), s') ∧ ar_pad s' = ar_pad s ∧ current writer reader s'.
Proof.
  intros Hw Hr Ho. destruct (publish_shows s writer reader Hw Hr Ho) as (s' & c & H & Hp & Hr' & Hc).
  exists s'. split; [done|]. split; [done|]. split; [by rewrite Hp|done|]. exists c. by rewrite Hp.
Qed.

Lemma loop_step_current s writer reader r :
  current writer reader s → so_handle writer = so_handle reader → harmless_read r →
  ∃ s', loop_step writer r s = (Ok (), s') ∧ current writer reader s' ∧
    ∀ n, (n < 32)%nat →
      axes (ar_pad s') !! n = axis_event n r ∪ axes (ar_pad s) !! n ∧
      buttons (ar_pad s') !! n = button_event n r ∪ buttons (ar_pad s) !! n.
Proof.
  intros Hc Ho Hr. destruct r as [packet| |]; [|exists s|done].
  2: { split; [done|]. split; [done|]. intros n _. cbn.
       by destruct (axes _ !! n), (buttons _ !! n). }
  destruct Hr as [Hl Hw]. destruct (event_applied packet (ar_pad s) (cu_wf _ _ _ Hc) Hw)
    as (change & He & Hwf & Hn).
  unfold loop_step, gets. rewrite Hl. cbn [negb Nat.eqb JS_EVENT_SIZE]. st_run. rewrite He.
  destruct change as [p|]; [|exists s; split; [done|]; by split].
  destruct (publish_current {| ar_pad := p; ar_shm := ar_shm s; ar_clock := ar_clock s |}
    writer reader Hwf (cu_ready _ _ _ Hc) Ho) as (s' & Hs' & Hp & Hc').
  exists s'. split; [exact Hs'|]. split; [done|]. by rewrite Hp.
Qed.

Lemma loop_current writer reader reads : ∀ s,
  current writer reader s → so_handle writer = so_handle reader → Forall harmless_read reads →
  ∃ s', for_each reads (loop_step writer) s = (Ok (), s') ∧ current writer reader s' ∧
    ∀ n, (n < 32)%nat →
      axes (ar_pad s') !! n = last (omap (axis_event n) reads) ∪ axes (ar_pad s) !! n ∧
      buttons (ar_pad s') !! n = last (omap (button_event n) reads) ∪ buttons (ar_pad s) !! n.
Proof.
  induction reads as [|r reads IH]; intros s Hc Ho Hr.
  { exists s. split; [done|]. split; [done|]. intros n _. cbn.
    by destruct (axes _ !! n), (buttons _ !! n). }
  apply Forall_cons in Hr as [Hr Hrs].
  destruct (loop_step_current s writer reader r Hc Ho Hr) as (s1 & H1 & Hc1 & Hn1).
  destruct (IH s1 Hc1 Ho Hrs) as (s2 & H2 & Hc2 & Hn2).
  exists s2. cbn [for_each]. split; [by rewrite (st_bind_ok _ _ _ _ _ H1)|]. split; [done|].
  intros n Hn. destruct (Hn1 n Hn) as [Ha Hb], (Hn2 n Hn) as [-> ->].
  by rewrite Ha, Hb, !last_omap_cons.
Qed.

(** C21: The gamepad reaches the policy.  Whatever events the joystick delivers, the
    reader publishes without failing, and at the end every process that maps the
    segment reads: each button as its last event left it, released if it had none;
    and as targets the last values of the axes 1, 0 and 3, through the deadband and
    inverted, 0 if they had none. *)
Theorem gamepad_reaches_policy s writer reader reads :
  ar_pad s = neutral → shm_ready AuxCommandC (ar_shm s) writer →
  so_handle writer = so_handle reader → Forall harmless_read reads →
  let axis_now n := default 0%float (last (omap (axis_event n) reads)) in
  ∃ s' c, aux_loop writer reads s = (Ok (), s') ∧
    AuxCommandShm.read_relaxed reader (ar_shm s') = (Ok c, ar_shm s') ∧
    (∀ i name, BUTTON_FIELDS !! i = Some name →
       pressed name (mask_to_buttons (ax_button_mask c)) =
         default false (last (omap (button_event i) reads))) ∧
    ax_lin_vel_target c = map c_float [- _deadband (axis_now 1%nat) 0.05 * 1;
                                       - _deadband (axis_now 0%nat) 0.05 * 1; 0]%float ∧
    ax_ang_vel_target c = map c_float [0; 0; - _deadband (axis_now 3%nat) 0.05 * 1]%float.
Proof.
  intros Hp Hr Ho Hrs axis_now.
  destruct (publish_current s writer reader) as (s1 & H1 & Hp1 & Hc1); [by rewrite Hp|done..|].
  destruct (loop_current writer reader reads s1 Hc1 Ho Hrs) as (s2 & H2 & Hc2 & Hn).
  destruct (cu_shown _ _ _ Hc2) as (c & Hrd & (x0 & x1 & x3 & H0 & Hx1 & H3 & Hlin & Hang) & Hb).
  assert (∀ n x, (n < 32)%nat → axes (ar_pad s2) !! n = Some x → x = axis_now n) as Hax.
  { intros n x Hlt Hx. rewrite (proj1 (Hn n Hlt)), Hp1, Hp in Hx. unfold axis_now.
    cbn [axes neutral] in Hx. rewrite lookup_replicate_2 in Hx by done.
    destruct (last _); by injection Hx as <-. }
  exists s2, c. unfold aux_loop. rewrite (st_bind_ok _ _ _ _ _ H1).
  split; [exact H2|]. split; [exact Hrd|]. split.
  - intros i name Hi. assert (i < 32)%nat as Hlt.
    { apply lookup_lt_Some in Hi. cbn in Hi. lia. }
    specialize (Hb i name Hi). rewrite (proj2 (Hn i Hlt)), Hp1, Hp in Hb.
    cbn [buttons neutral] in Hb. rewrite lookup_replicate_2 in Hb by done.
    destruct (last _); by injection Hb.
  - by rewrite Hlin, Hang, (Hax 0%nat x0), (Hax 1%nat x1), (Hax 3%nat x3) by (lia || done).
Qed.

Lemma gamepad_reaches_policy_witness :
  let o := {| so_name := "aux"%string; so_handle := Some 0%nat |} in
  let s := {| ar_pad := neutral;
              ar_shm := {| shm_names := ∅; shm_objects := {[0%nat := replicate 36 0]};
                           shm_next := 1 |};
              ar_clock := {| ck_monotonic := λ _, 0%float; ck_unix := λ _, 0%float;
                             ck_ns := Z.of_nat; ck_reads := 1 |} |} in
  let reads := [Packet [0; 0; 0; 0; 1; 0; 1; 0]; NoEvent; Packet [0; 0; 0; 0; 255; 127; 2; 1]] in
  ∃ s' c, aux_loop o reads s = (Ok (), s') ∧
    AuxCommandShm.read_relaxed o (ar_shm s') = (Ok c, ar_shm s') ∧
    pressed "a_button" (mask_to_buttons (ax_button_mask c)) = true ∧
    ax_lin_vel_target c = map c_float [-1; -0; 0]%float.
Proof.
  intros o s reads.
  destruct (gamepad_reaches_policy s o o reads) as (s' & c & H1 & H2 & H3 & H4 & _).
  - reflexivity.
  - apply (bool_decide_unpack _). vm_compute. exact I.
  - reflexivity.
  - repeat constructor; cbn; unfold is_byte; lia.
  - exists s', c. split; [exact H1|]. split; [exact H2|].
    split; [by rewrite (H3 0%nat "a_button"%string eq_refl)|]. rewrite H4. vm_compute. reflexivity.
Defined.
