(* ===== verification/DashboardDecode.v ===== *)
(** * What the dashboard reads from the bus

    [dashboard/backend/{socketcan_io,can_decode,bus_load}.py]: the raw socket's
    frames, the monitor's own decoders of the IMU and of the actuators, and the
    sliding window of the bus load. *)

From Stdlib Require Import Ascii String.
From S2P Require Import Prelude PyFloat PyDict CanBus ActuatorDriver SpgProtocol Imu.

(** ** Printing *)

Definition hex_digit_upper (z : Z) : ascii :=
  ascii_of_nat (Z.to_nat (if z <? 10 then 48 + z else 55 + z)).

(** The hexadecimal digits of a number, before [acc]; the fuel bounds their number. *)
Fixpoint hex_digits (fuel : nat) (z : Z) (acc : string) : string :=
  match fuel with
  | O => acc
  | S fuel =>
      let acc := String (hex_digit_upper (z mod 16)) acc in
      if z <? 16 then acc else hex_digits fuel (z / 16) acc
  end.

Fixpoint zeros (n : nat) : string :=
  match n with O => ""%string | S n => String "0" (zeros n) end.

(** [f"{z:0<width>X}"] *)
Definition format_hex (width : nat) (z : Z) : string :=
  let digits := hex_digits (S (Z.to_nat (Z.log2 (Z.abs z)))) (Z.abs z) "" in
  let sign := if z <? 0 then "-"%string else ""%string in
  (sign ++ zeros (width - String.length sign - String.length digits) ++ digits)%string.

Definition hex_id (can_id : Z) : string := ("0x" ++ format_hex 3 can_id)%string.

(** [" ".join(f"{b:02X}" for b in data)] *)
Fixpoint hex_data (data : bytes) : string :=
  match data with
  | [] => ""
  | [b] => format_hex 2 b
  | b :: data => (format_hex 2 b ++ " " ++ hex_data data)%string
  end.

Example format_hex_ex : map (format_hex 3) [0; 0x2A1; 0x1FFF; -1] =
  ["000"; "2A1"; "1FFF"; "-01"]%string.
Proof. reflexivity. Qed.

(** ** Frames of the raw socket *)

Definition CAN_EFF_FLAG : Z := 0x80000000.
Definition CAN_RTR_FLAG : Z := 0x40000000.
Definition CAN_ERR_FLAG : Z := 0x20000000.
Definition CAN_SFF_MASK : Z := 0x7FF.
Definition CAN_EFF_MASK : Z := 0x1FFFFFFF.
Definition CAN_FRAME_SIZE : Z := 16.

Record ParsedFrame := {
  fr_can_id : Z;
  fr_dlc : Z;
  fr_data : bytes;
  fr_is_eff : bool;
  fr_is_rtr : bool;
  fr_is_err : bool
}.

Definition parse_can_frame (frame_bytes : bytes) : res ParsedFrame :=
  x ← unpack_IB3x8s frame_bytes;
  let '(can_id_raw, dlc, data) := x in
  let is_eff := negb (Z.land can_id_raw CAN_EFF_FLAG =? 0) in
  let is_rtr := negb (Z.land can_id_raw CAN_RTR_FLAG =? 0) in
  let is_err := negb (Z.land can_id_raw CAN_ERR_FLAG =? 0) in
  let can_id := Z.land can_id_raw (if is_eff then CAN_EFF_MASK else CAN_SFF_MASK) in
  if (dlc <? 0) || (8 <? dlc) then Raise ValueError
  else Ok {| fr_can_id := can_id; fr_dlc := dlc; fr_data := take (Z.to_nat dlc) data;
             fr_is_eff := is_eff; fr_is_rtr := is_rtr; fr_is_err := is_err |}.

(** ** The monitor's decoders *)

Definition E2BOX_REQ_ID : Z := 0x221.
Definition E2BOX_QUAT_ID : Z := 0x2A1.
Definition E2BOX_GYRO_ID : Z := 0x321.
Definition E2BOX_CMD_GET_ALL : Z := 0x03.
Definition SPG_CMD_MIT_CONTROL : Z := 0xC0.
Definition SPG_CMD_MIT_ENTER : Z := 0xC1.
Definition SPG_CMD_MIT_EXIT : Z := 0xC2.
Definition SPG_CMD_MIT_SET_ZERO : Z := 0xC3.
Definition SPG_CMD_CLEAR_ERROR : Z := 0x9B.

Definition normalize_quat_xyzw (q : quat float) : res (quat float) :=
  let '(qx, qy, qz, qw) := q in
  n ← py_sqrt (qx * qx + qy * qy + qz * qz + qw * qw)%float;
  if (n <? 1e-12)%float || negb (py_isfinite n) then Ok (0, 0, 0, 1)%float
  else
    x ← py_div qx n; y ← py_div qy n; z ← py_div qz n; w ← py_div qw n;
    Ok (x, y, z, w).

(** The same formula as the driver's. *)
Definition gravity_from_xyzw (q : quat float) : vec3 float :=
  projected_gravity_from_xyzw 0%float 2%float (-1)%float
    PrimFloat.add PrimFloat.sub PrimFloat.mul q.

Definition decode_e2box_quat (data : bytes) (quat_scale : float) (normalize : bool) :
    res (quat float * vec3 float) :=
  if negb (length data =? 8)%nat then Raise ValueError
  else
    r ← unpack_hhhh data;
    let '(qz_raw, qy_raw, qx_raw, qw_raw) := r in
    qz ← py_div (Z2F qz_raw) quat_scale;
    qy ← py_div (Z2F qy_raw) quat_scale;
    qx ← py_div (Z2F qx_raw) quat_scale;
    qw ← py_div (Z2F qw_raw) quat_scale;
    let q := ((- qx)%float, qy, qz, qw) in
    q ← (if normalize then normalize_quat_xyzw q else Ok q);
    Ok (q, gravity_from_xyzw q).

Definition gyro_rate (gyro_scale : float) (raw : Z) : res float :=
  x ← py_div (Z2F raw) gyro_scale;
  Ok (x * math_pi / 180)%float.

Definition decode_e2box_gyro (data : bytes) (gyro_scale : float) : res (vec3 float) :=
  if negb (length data =? 8)%nat then Raise ValueError
  else
    r ← unpack_hhhh data;
    let '(gx_raw, gy_raw, gz_raw, _) := r in
    gx ← gyro_rate gyro_scale gx_raw;
    gy ← gyro_rate gyro_scale gy_raw;
    gz ← gyro_rate gyro_scale gz_raw;
    Ok (gy, gx, gz).

Definition spg_opcode_name (opcode : Z) : string :=
  if opcode =? SPG_CMD_MIT_CONTROL then "MIT_STATUS"
  else if opcode =? SPG_CMD_MIT_ENTER then "MIT_ENTER_ACK"
  else if opcode =? SPG_CMD_MIT_EXIT then "MIT_EXIT_ACK"
  else if opcode =? SPG_CMD_MIT_SET_ZERO then "MIT_SET_ZERO_ACK"
  else if opcode =? SPG_CMD_CLEAR_ERROR then "CLEAR_ERROR_ACK"
  else ("OP_" ++ format_hex 2 opcode)%string.

Record SpgStatus := {
  dec_temperature_c : Z;
  dec_iq_count : Z;
  dec_iq_a_approx : float;
  dec_speed_dps : Z;
  dec_position_rad : float
}.

Definition decode_spg_status (data : bytes)
    (feedback_position_max_rad iq_full_scale_count iq_full_scale_current_a : float) :
    res SpgStatus :=
  if negb (length data =? 8)%nat then Raise ValueError
  else
    let temp_c := to_signed 8 (le_decode (slice 1 2 data)) in
    let iq_count := to_signed 16 (le_decode (slice 2 4 data)) in
    let speed_dps := to_signed 16 (le_decode (slice 4 6 data)) in
    let position_i16 := to_signed 16 (le_decode (slice 6 8 data)) in
    iq ← py_div (Z2F iq_count) iq_full_scale_count;
    position ← py_div (Z2F position_i16) 32767;
    Ok {| dec_temperature_c := temp_c; dec_iq_count := iq_count;
          dec_iq_a_approx := (iq * iq_full_scale_current_a)%float; dec_speed_dps := speed_dps;
          dec_position_rad := (position * feedback_position_max_rad)%float |}.

(** ** The bus load *)

Definition estimate_classical_can_bits (dlc : Z) (is_eff is_rtr : bool) (stuff_factor : float)
    (include_intermission : bool) : res Z :=
  let dlc := Z.max 0 (Z.min dlc 8) in
  let data_bits := if is_rtr then 0 else 8 * dlc in
  let base_bits := (if is_eff then 67 else 47) + data_bits in
  let base_bits := if include_intermission then base_bits else base_bits - 3 in
  bits ← py_ceil (Z2F base_bits * stuff_factor)%float;
  Ok (Z.max 0 bits).

(** Drop entries from the front while they are older than the cutoff. *)
Fixpoint popleft_before {A} (time : A → float) (cutoff : float) (q : list A) : list A :=
  match q with
  | [] => []
  | e :: q' => if (time e <? cutoff)%float then popleft_before time cutoff q' else q
  end.

Record BusEvent := { ev_time : float; ev_bits : Z; ev_direction : string }.

Record BusLoadWindow := {
  window_s : float;
  bitrate : float;
  events : list BusEvent
}.

Definition bus_prune (now : float) (w : BusLoadWindow) : BusLoadWindow :=
  {| window_s := window_s w; bitrate := bitrate w;
     events := popleft_before ev_time (now - window_s w)%float (events w) |}.

Definition bus_add (timestamp : float) (bits : Z) (direction : string) (w : BusLoadWindow) :
    BusLoadWindow :=
  bus_prune timestamp
    {| window_s := window_s w; bitrate := bitrate w;
       events := events w ++ [{| ev_time := timestamp; ev_bits := Z.max 0 bits;
                                 ev_direction := direction |}] |}.

Record BusLoadSnapshot := {
  bl_rx_frames : Z; bl_tx_frames : Z; bl_rx_rate : float; bl_tx_rate : float;
  bl_rx_bits : Z; bl_tx_bits : Z; bl_estimated_bps : float; bl_estimated_kbps : float;
  bl_load_percent : float; bl_bitrate : float; bl_window_s : float
}.

(** The frames and bits of one direction. *)
Definition tally (direction : string) (l : list BusEvent) : Z * Z :=
  foldl (λ nb e, if bool_decide (ev_direction e = direction)
                 then (nb.1 + 1, nb.2 + ev_bits e) else nb) (0, 0) l.

Definition bus_snapshot (now : float) (w : BusLoadWindow) :
    res (BusLoadSnapshot * BusLoadWindow) :=
  let w := bus_prune now w in
  let '(rx_frames, rx_bits) := tally "rx" (events w) in
  let '(tx_frames, tx_bits) := tally "tx" (events w) in
  let duration := py_max (window_s w) 1e-9 in
  bps ← py_div (Z2F (rx_bits + tx_bits)) duration;
  rx_rate ← py_div (Z2F rx_frames) duration;
  tx_rate ← py_div (Z2F tx_frames) duration;
  kbps ← py_div bps 1000;
  load ← py_div bps (py_max (bitrate w) 1e-9);
  Ok ({| bl_rx_frames := rx_frames; bl_tx_frames := tx_frames; bl_rx_rate := rx_rate;
         bl_tx_rate := tx_rate; bl_rx_bits := rx_bits; bl_tx_bits := tx_bits;
         bl_estimated_bps := bps; bl_estimated_kbps := kbps;
         bl_load_percent := (load * 100)%float; bl_bitrate := bitrate w;
         bl_window_s := window_s w |}, w).

(** ** Printed identifiers are distinct *)

Definition hex_digit_value (c : ascii) : Z :=
  let n := Z.of_nat (nat_of_ascii c) in if n <=? 57 then n - 48 else n - 55.

Fixpoint hex_value (acc : Z) (s : string) : Z :=
  match s with
  | ""%string => acc
  | String c s => hex_value (acc * 16 + hex_digit_value c) s
  end.

Lemma hex_digit_value_upper z : 0 ≤ z < 16 → hex_digit_value (hex_digit_upper z) = z.
Proof.
  intros Hz. assert (z = Z.of_nat (Z.to_nat z)) as -> by lia.
  assert (Z.to_nat z < 16)%nat as Hn by lia. revert Hn. generalize (Z.to_nat z) as n.
  do 16 (intros [|n]; [reflexivity|]; revert n). lia.
Qed.

Lemma hex_value_digits fuel : ∀ z s,
  0 ≤ z < 16 ^ Z.of_nat fuel → hex_value 0 (hex_digits fuel z s) = hex_value z s.
Proof.
  induction fuel as [|fuel IH]; intros z s Hz; cbn [hex_digits].
  - cbn in Hz. by replace z with 0 by lia.
  - rewrite Nat2Z.inj_succ, Z.pow_succ_r in Hz by lia.
    pose proof (Z.mod_pos_bound z 16 ltac:(lia)). pose proof (Z.div_mod z 16 ltac:(lia)).
    destruct (Z.ltb_spec z 16).
    + cbn [hex_value]. rewrite hex_digit_value_upper by lia.
      by rewrite Z.mod_small by lia.
    + rewrite IH by (split; [apply Z.div_pos; lia|apply Z.div_lt_upper_bound; lia]).
      cbn [hex_value]. rewrite hex_digit_value_upper by lia. f_equal. lia.
Qed.

Lemma hex_value_zeros n s : hex_value 0 (zeros n ++ s)%string = hex_value 0 s.
Proof. by induction n. Qed.

Lemma hex_value_format width z : 0 ≤ z → hex_value 0 (format_hex width z) = z.
Proof.
  intros Hz. unfold format_hex. rewrite (proj2 (Z.ltb_ge z 0)) by lia.
  change (hex_value 0 (zeros (width - 0 - String.length
    (hex_digits (S (Z.to_nat (Z.log2 (Z.abs z)))) (Z.abs z) "")) ++
    hex_digits (S (Z.to_nat (Z.log2 (Z.abs z)))) (Z.abs z) "")%string = z).
  rewrite hex_value_zeros, hex_value_digits; [cbn [hex_value]; lia|].
  rewrite Z.abs_eq by lia. split; [done|]. pose proof (Z.log2_nonneg z).
  rewrite Nat2Z.inj_succ, Z2Nat.id by lia.
  destruct (Z.eq_dec z 0) as [->|]; [done|].
  eapply Z.lt_le_trans; [apply Z.log2_spec; lia|].
  apply Z.pow_le_mono_l. lia.
Qed.

Lemma format_hex_inj width z z' :
  0 ≤ z → 0 ≤ z' → format_hex width z = format_hex width z' → z = z'.
Proof.
  intros Hz Hz' E. rewrite <- (hex_value_format width z), <- (hex_value_format width z') by done.
  by rewrite E.
Qed.

(** ** The monitor and the drivers read the same *)

Definition norm_finite (q : quat float) : bool :=
  let '(x, y, z, w) := q in
  match py_sqrt (x * x + y * y + z * z + w * w)%float with
  | Ok n => py_isfinite n
  | Raise _ => true
  end.

Lemma normalize_agrees q :
  norm_finite q = true → normalize_quat_xyzw q = E2Box._normalize_quat q.
Proof.
  destruct q as [[[x y] z] w]. unfold norm_finite, normalize_quat_xyzw, E2Box._normalize_quat.
  destruct (py_sqrt _) as [n|e]; [|done]. cbn [mbind res_bind]. intros ->.
  by rewrite orb_false_r.
Qed.

(** C37: Monitor and drivers agree. From the same bytes the dashboard's decoders and
    the controller's drivers read the same: the IMU's angular velocity always, its
    attitude and projected gravity unless an attitude of infinite norm is
    normalised, and of an actuator's status the temperature, the current and speed
    counts and the position in rad, with the same range. *)
Theorem monitor_decoders_agree (p : E2BoxIMUProtocol) (now : float) (data : bytes)
    (a : SPGActuatorProtocol) (full_scale amps : float) :
  (∀ q g, decode_e2box_quat data (quat_scale p) false = Ok (q, g) →
     normalize_quat p = true → norm_finite q = true) →
  (full_scale =? 0)%float = false →
  (λ st, (quat_xyzw st, projected_gravity_b st)) <$> E2Box._decode_quat p now data =
    (λ qg, (Some qg.1, Some qg.2)) <$> decode_e2box_quat data (quat_scale p) (normalize_quat p) ∧
  angular_velocity_rad_s <$> E2Box._decode_gyro p now data =
    Some <$> decode_e2box_gyro data (gyro_scale p) ∧
  (∀ st, _decode_mit_status a now data = Ok st →
     ∃ d, decode_spg_status data (feedback_position_max (mit_config a)) full_scale amps = Ok d ∧
       temperature_c st = Some (Z2F (dec_temperature_c d)) ∧
       dict_get "iq_counts"%string (raw st) = Some (RInt (dec_iq_count d)) ∧
       dict_get "speed_dps"%string (raw st) = Some (RInt (dec_speed_dps d)) ∧
       dict_get "position_output_rad"%string (raw st) = Some (RFloat (dec_position_rad d))).
Proof.
  intros Hnorm Hfs. split; [|split].
  - revert Hnorm. unfold E2Box._decode_quat, decode_e2box_quat. destruct (negb _); [done|].
    destruct (unpack_hhhh data) as [[[[qz qy] qx] qw]|e]; [|done]. cbn [mbind res_bind].
    destruct (py_div (Z2F qz) _); cbn [mbind res_bind]; [|done].
    destruct (py_div (Z2F qy) _); cbn [mbind res_bind]; [|done].
    destruct (py_div (Z2F qx) _); cbn [mbind res_bind]; [|done].
    destruct (py_div (Z2F qw) _); cbn [mbind res_bind]; [|done].
    intros Hnorm. destruct (normalize_quat p); [|reflexivity].
    rewrite normalize_agrees by (eapply Hnorm; reflexivity).
    by destruct (E2Box._normalize_quat _).
  - unfold E2Box._decode_gyro, decode_e2box_gyro. destruct (negb _); [done|].
    destruct (unpack_hhhh data) as [[[[gx gy] gz] r]|e]; [|done]. cbn [mbind res_bind].
    unfold E2Box.gyro_axis, gyro_rate.
    destruct (py_div (Z2F gx) _); cbn [mbind res_bind]; [|done].
    destruct (py_div (Z2F gy) _); cbn [mbind res_bind]; [|done].
    by destruct (py_div (Z2F gz) _).
  - intros st Hst. unfold _decode_mit_status, _parse_mit_status_v14, decode_spg_status in *.
    destruct (length data =? 8)%nat; [|done]. cbn [negb] in *.
    destruct (byte_at 0 data) as [cmd|]; [|done]. cbn [mbind res_bind] in Hst.
    destruct (negb _); [done|]. unfold unpack_b, unpack_h in Hst.
    destruct (length (slice 1 2 data) =? 1)%nat; [|done]. cbn [mbind res_bind] in Hst.
    destruct (length (slice 2 4 data) =? 2)%nat; [|done]. cbn [mbind res_bind] in Hst.
    destruct (length (slice 4 6 data) =? 2)%nat; [|done]. cbn [mbind res_bind] in Hst.
    destruct (length (slice 6 8 data) =? 2)%nat; [|done].
    cbn [mbind res_bind st_temp_c iq_counts speed_dps mit_position_i16] in Hst.
    assert (∀ x, py_div x full_scale = Ok (x / full_scale)%float) as Hd
      by (intros; unfold py_div; by rewrite Hfs).
    assert (∀ x, py_div x 32767 = Ok (x / 32767)%float) as Hp by done.
    rewrite Hd, Hp. cbn [mbind res_bind].
    destruct (if feedback_speed_is_motor_side a then _ else _) as [v|]; [|done].
    cbn [mbind res_bind] in Hst. injection Hst as <-. by eexists.
Qed.

Lemma monitor_decoders_agree_witness :
  let p := {| request_id := 0x221; quat_id := 0x2A1; gyro_id := 0x321; cmd_get_quat := 1;
              cmd_get_gyro := 2; cmd_get_all := 3; quat_scale := 10000; gyro_scale := 100;
              normalize_quat := true |} in
  let data := hhhh_bytes 100 (-200) 300 9000 in
  (λ st, (quat_xyzw st, projected_gravity_b st)) <$> E2Box._decode_quat p 1 data =
    (λ qg, (Some qg.1, Some qg.2)) <$> decode_e2box_quat data 10000 true ∧
  is_ok (decode_e2box_quat data 10000 true) = true.
Proof.
  intros p data.
  destruct (monitor_decoders_agree p 1 data example_spg 2048 33) as (H & _).
  - intros q g Hq _. vm_compute in Hq. injection Hq as <- _. vm_compute. reflexivity.
  - reflexivity.
  - split; [exact H|vm_compute; reflexivity].
Defined.
