(* ===== verification/DashboardState.v ===== *)
(** * The dashboard's monitor

    [dashboard/backend/state.py]: what the dashboard knows of the bus from the
    frames it has seen and sent: counters, the nodes and their heartbeats, the
    last readings of the IMU and of the motors, and the snapshot it shows. *)

From S2P Require Import Prelude PyFloat PyDict ActuatorDriver SpgProtocol Imu DashboardDecode.

(** ** Data *)

(** [class RawFrameState] *)
Record RawFrameState := {
  rf_can_id : Z; rf_count : Z; rf_last_t : float; rf_last_dlc : Z; rf_last_data : bytes }.

(** [class NodeState] *)
Record NodeState := {
  nd_key : string;
  nd_name : string;
  nd_can_id : Z;
  nd_role : string;
  nd_timeout_s : float;
  nd_heartbeat_window_s : float;
  nd_rx_count : Z;
  nd_last_t : float;
  nd_last_data : bytes;
  nd_timestamps : list float
}.

(** [class E2BoxState] *)
Record E2BoxState := {
  ib_req_count : Z;
  ib_quat_count : Z;
  ib_gyro_count : Z;
  ib_quat_last_t : float;
  ib_gyro_last_t : float;
  ib_quat_xyzw : quat float;
  ib_projected_gravity_b : vec3 float;
  ib_angular_velocity_rad_s : vec3 float
}.

Definition E2BoxState_new : E2BoxState :=
  {| ib_req_count := 0; ib_quat_count := 0; ib_gyro_count := 0; ib_quat_last_t := 0;
     ib_gyro_last_t := 0; ib_quat_xyzw := (0, 0, 0, 1)%float;
     ib_projected_gravity_b := (0, 0, -1)%float; ib_angular_velocity_rad_s := (0, 0, 0)%float |}.

(** [class SPGMotorState] *)
Record SPGMotorState := {
  mo_can_id : Z;
  mo_name : string;
  mo_rx_count : Z;
  mo_last_t : float;
  mo_last_kind : string;
  mo_enabled_hint : option bool;
  mo_temperature_c : option Z;
  mo_iq_a_approx : option float;
  mo_speed_dps : option Z;
  mo_position_rad : option float;
  mo_zero_offset_count : option Z;
  mo_raw_data : bytes
}.

Definition SPGMotorState_new (can_id : Z) (name : string) : SPGMotorState :=
  {| mo_can_id := can_id; mo_name := name; mo_rx_count := 0; mo_last_t := 0;
     mo_last_kind := "never"; mo_enabled_hint := None; mo_temperature_c := None;
     mo_iq_a_approx := None; mo_speed_dps := None; mo_position_rad := None;
     mo_zero_offset_count := None; mo_raw_data := [] |}.

(** [class CanChannelState] *)
Record CanChannelState := {
  ch_key : string;
  ch_name : string;
  ch_iface : string;
  ch_stuff_factor : float;
  ch_socket_status : string;
  ch_socket_error : option string;
  ch_total_rx : Z;
  ch_total_tx : Z;
  ch_bus_load : BusLoadWindow
}.

(** The constructor, [__post_init__] included. *)
Definition CanChannelState_new (key name iface : string) (rate : Z)
    (bus_window_s stuff_factor : float) : CanChannelState :=
  {| ch_key := key; ch_name := name; ch_iface := iface; ch_stuff_factor := stuff_factor;
     ch_socket_status := "disconnected"; ch_socket_error := None; ch_total_rx := 0;
     ch_total_tx := 0;
     ch_bus_load := {| window_s := bus_window_s; bitrate := Z2F rate; events := [] |} |}.

(** The fields of [MonitorState] that are set once. *)
Record MonitorConfig := {
  mc_heartbeat_window_s : float;
  mc_node_timeout_s : float;
  mc_feedback_position_max_rad : float;
  mc_iq_full_scale_count : float;
  mc_iq_full_scale_current_a : float;
  mc_mit_p_max_rad : float;
  mc_mit_v_max_rad_s : float;
  mc_mit_kp_max : float;
  mc_mit_kd_max : float;
  mc_mit_tau_max_nm : float;
  mc_imu_request_id : Z;
  mc_imu_quat_id : Z;
  mc_imu_gyro_id : Z;
  mc_imu_quat_scale : float;
  mc_imu_gyro_scale : float;
  mc_imu_normalize_quat : bool;
  mc_actuator_configs : list (Z * string);     (* sorted by identifier *)
  mc_allow_actuator_commands : bool;
  mc_mit_poll_hz : float;
  mc_start_t : float
}.

(** [class MonitorState] *)
Record MonitorState := {
  ms_config : MonitorConfig;
  ms_channels : list CanChannelState;
  ms_tx_enabled : bool;
  ms_mit_poll_can_ids : gset Z;
  ms_raw_frames : dict Z RawFrameState;
  ms_nodes : dict string NodeState;
  ms_imu : E2BoxState;
  ms_motors : dict Z SPGMotorState
}.

Section setters.
Context (s : MonitorState).
Definition with_channels (x : list CanChannelState) : MonitorState :=
  {| ms_config := ms_config s; ms_channels := x; ms_tx_enabled := ms_tx_enabled s;
     ms_mit_poll_can_ids := ms_mit_poll_can_ids s; ms_raw_frames := ms_raw_frames s;
     ms_nodes := ms_nodes s; ms_imu := ms_imu s; ms_motors := ms_motors s |}.
Definition with_tx (tx : bool) (poll : gset Z) : MonitorState :=
  {| ms_config := ms_config s; ms_channels := ms_channels s; ms_tx_enabled := tx;
     ms_mit_poll_can_ids := poll; ms_raw_frames := ms_raw_frames s;
     ms_nodes := ms_nodes s; ms_imu := ms_imu s; ms_motors := ms_motors s |}.
Definition with_raw_frames (x : dict Z RawFrameState) : MonitorState :=
  {| ms_config := ms_config s; ms_channels := ms_channels s; ms_tx_enabled := ms_tx_enabled s;
     ms_mit_poll_can_ids := ms_mit_poll_can_ids s; ms_raw_frames := x;
     ms_nodes := ms_nodes s; ms_imu := ms_imu s; ms_motors := ms_motors s |}.
Definition with_nodes (x : dict string NodeState) : MonitorState :=
  {| ms_config := ms_config s; ms_channels := ms_channels s; ms_tx_enabled := ms_tx_enabled s;
     ms_mit_poll_can_ids := ms_mit_poll_can_ids s; ms_raw_frames := ms_raw_frames s;
     ms_nodes := x; ms_imu := ms_imu s; ms_motors := ms_motors s |}.
Definition with_devices (imu : E2BoxState) (motors : dict Z SPGMotorState) : MonitorState :=
  {| ms_config := ms_config s; ms_channels := ms_channels s; ms_tx_enabled := ms_tx_enabled s;
     ms_mit_poll_can_ids := ms_mit_poll_can_ids s; ms_raw_frames := ms_raw_frames s;
     ms_nodes := ms_nodes s; ms_imu := imu; ms_motors := motors |}.
End setters.

(** ** Nodes *)

Definition node_prune (now : float) (n : NodeState) : NodeState :=
  {| nd_key := nd_key n; nd_name := nd_name n; nd_can_id := nd_can_id n; nd_role := nd_role n;
     nd_timeout_s := nd_timeout_s n; nd_heartbeat_window_s := nd_heartbeat_window_s n;
     nd_rx_count := nd_rx_count n; nd_last_t := nd_last_t n; nd_last_data := nd_last_data n;
     nd_timestamps := popleft_before id (now - nd_heartbeat_window_s n)%float (nd_timestamps n) |}.

Definition node_mark_rx (now : float) (data : bytes) (n : NodeState) : NodeState :=
  node_prune now
    {| nd_key := nd_key n; nd_name := nd_name n; nd_can_id := nd_can_id n; nd_role := nd_role n;
       nd_timeout_s := nd_timeout_s n; nd_heartbeat_window_s := nd_heartbeat_window_s n;
       nd_rx_count := nd_rx_count n + 1; nd_last_t := now; nd_last_data := data;
       nd_timestamps := nd_timestamps n ++ [now] |}.

Definition heartbeat_hz (n : NodeState) : float :=
  match nd_timestamps n, last (nd_timestamps n) with
  | t0 :: _ :: _, Some t1 =>
      let duration_s := (t1 - t0)%float in
      if (duration_s <=? 1e-9)%float then 0
      else (Z2F (Z.of_nat (length (nd_timestamps n)) - 1) / duration_s)%float
  | _, _ => 0
  end.

Record NodeSnapshot := {
  ns_key : string; ns_name : string; ns_can_id : string; ns_role : string;
  ns_heartbeat_hz : float; ns_last_seen_s : option float; ns_timeout_s : float;
  ns_status : string; ns_rx_count : Z; ns_last_data : string
}.

Definition seen_status (age_s : option float) (timeout_s : float) : string :=
  match age_s with
  | None => "never"
  | Some a => if (timeout_s <? a)%float then "timeout" else "online"
  end.

Definition node_snapshot (now : float) (n : NodeState) : NodeSnapshot * NodeState :=
  let n := node_prune now n in
  let age_s := if (nd_last_t n <=? 0)%float then None
               else Some (py_max 0 (now - nd_last_t n)%float) in
  ({| ns_key := nd_key n; ns_name := nd_name n; ns_can_id := hex_id (nd_can_id n);
      ns_role := nd_role n; ns_heartbeat_hz := heartbeat_hz n; ns_last_seen_s := age_s;
      ns_timeout_s := nd_timeout_s n; ns_status := seen_status age_s (nd_timeout_s n);
      ns_rx_count := nd_rx_count n; ns_last_data := hex_data (nd_last_data n) |}, n).

(** ** Channels *)

Definition set_bus_load (c : CanChannelState) (rx tx : Z) (w : BusLoadWindow) : CanChannelState :=
  {| ch_key := ch_key c; ch_name := ch_name c; ch_iface := ch_iface c;
     ch_stuff_factor := ch_stuff_factor c; ch_socket_status := ch_socket_status c;
     ch_socket_error := ch_socket_error c; ch_total_rx := rx; ch_total_tx := tx;
     ch_bus_load := w |}.

Definition set_socket (c : CanChannelState) (status : string) (error : option string) :
    CanChannelState :=
  {| ch_key := ch_key c; ch_name := ch_name c; ch_iface := ch_iface c;
     ch_stuff_factor := ch_stuff_factor c; ch_socket_status := status;
     ch_socket_error := error; ch_total_rx := ch_total_rx c; ch_total_tx := ch_total_tx c;
     ch_bus_load := ch_bus_load c |}.

Definition channel_mark_rx (frame : ParsedFrame) (now : float) : ST CanChannelState unit :=
  _ ← modify (λ c, set_bus_load c (ch_total_rx c + 1) (ch_total_tx c) (ch_bus_load c));
  c ← get;
  bits ← lift (estimate_classical_can_bits (fr_dlc frame) (fr_is_eff frame) (fr_is_rtr frame)
                 (ch_stuff_factor c) true);
  modify (λ c, set_bus_load c (ch_total_rx c) (ch_total_tx c)
                 (bus_add now bits "rx" (ch_bus_load c))).

Definition channel_mark_tx (data : bytes) (now : float) : ST CanChannelState unit :=
  _ ← modify (λ c, set_bus_load c (ch_total_rx c) (ch_total_tx c + 1) (ch_bus_load c));
  c ← get;
  bits ← lift (estimate_classical_can_bits (Z.of_nat (length data)) false false
                 (ch_stuff_factor c) true);
  modify (λ c, set_bus_load c (ch_total_rx c) (ch_total_tx c)
                 (bus_add now bits "tx" (ch_bus_load c))).

Record ChannelSnapshot := {
  cn_key : string; cn_name : string; cn_iface : string; cn_socket_status : string;
  cn_socket_error : option string; cn_total_rx : Z; cn_total_tx : Z; cn_load : BusLoadSnapshot
}.

Definition channel_snapshot (now : float) : ST CanChannelState ChannelSnapshot :=
  c ← get;
  x ← lift (bus_snapshot now (ch_bus_load c));
  let '(load, w) := x in
  _ ← modify (λ c, set_bus_load c (ch_total_rx c) (ch_total_tx c) w);
  mret {| cn_key := ch_key c; cn_name := ch_name c; cn_iface := ch_iface c;
          cn_socket_status := ch_socket_status c; cn_socket_error := ch_socket_error c;
          cn_total_rx := ch_total_rx c; cn_total_tx := ch_total_tx c; cn_load := load |}.

(** An operation on one of the channels. *)
Definition on_channel (i : nat) (m : ST CanChannelState unit) : ST MonitorState unit := λ s,
  match ms_channels s !! i with
  | None => (Ok (), s)
  | Some c => let '(r, c') := m c in (r, with_channels s (<[i := c']> (ms_channels s)))
  end.

Definition primary_channel : nat := 0.

(** [self.socket_error = value] *)
Definition set_socket_error (value : option string) : ST MonitorState unit :=
  on_channel primary_channel (modify (λ c, set_socket c (ch_socket_status c) value)).

Definition socket_error (s : MonitorState) : option string :=
  ms_channels s !! primary_channel ≫= ch_socket_error.

(** ** The monitor *)

(** [actuator_config_for_can_id(can_id)]: the name of the first entry. *)
Definition actuator_config_for_can_id (can_id : Z) (s : MonitorState) : option string :=
  dict_get can_id (mc_actuator_configs (ms_config s)).

(** [_ensure_node(key, name, can_id, role)] *)
Definition _ensure_node (key name : string) (can_id : Z) (role : string) (s : MonitorState) :
    MonitorState :=
  match dict_get key (ms_nodes s) with
  | Some _ => s
  | None =>
      with_nodes s (dict_set key
        {| nd_key := key; nd_name := name; nd_can_id := can_id; nd_role := role;
           nd_timeout_s := mc_node_timeout_s (ms_config s);
           nd_heartbeat_window_s := mc_heartbeat_window_s (ms_config s);
           nd_rx_count := 0; nd_last_t := 0; nd_last_data := []; nd_timestamps := [] |}
        (ms_nodes s))
  end.

Definition node_key (can_id : Z) : string := ("can_" ++ format_hex 3 can_id)%string.

(** [ensure_known_nodes()] *)
Definition ensure_actuator (s : MonitorState) (a : Z * string) : MonitorState :=
  let s := _ensure_node (node_key a.1) a.2 a.1 "Actuator" s in
  with_devices s (ms_imu s) (dict_setdefault a.1 (SPGMotorState_new a.1 a.2) (ms_motors s)).

Definition ensure_known_nodes (s : MonitorState) : MonitorState :=
  let c := ms_config s in
  let s := _ensure_node "imu_req" "E2Box command" (mc_imu_request_id c) "IMU" s in
  let s := _ensure_node "imu_quat" "E2Box quaternion" (mc_imu_quat_id c) "IMU" s in
  let s := _ensure_node "imu_gyro" "E2Box gyro" (mc_imu_gyro_id c) "IMU" s in
  foldl ensure_actuator s (mc_actuator_configs c).

(** The constructor: [__post_init__] sorts the actuators by identifier. *)
Definition _normalize_actuator_configs (c : MonitorConfig) : MonitorConfig :=
  {| mc_heartbeat_window_s := mc_heartbeat_window_s c;
     mc_node_timeout_s := mc_node_timeout_s c;
     mc_feedback_position_max_rad := mc_feedback_position_max_rad c;
     mc_iq_full_scale_count := mc_iq_full_scale_count c;
     mc_iq_full_scale_current_a := mc_iq_full_scale_current_a c;
     mc_mit_p_max_rad := mc_mit_p_max_rad c; mc_mit_v_max_rad_s := mc_mit_v_max_rad_s c;
     mc_mit_kp_max := mc_mit_kp_max c; mc_mit_kd_max := mc_mit_kd_max c;
     mc_mit_tau_max_nm := mc_mit_tau_max_nm c; mc_imu_request_id := mc_imu_request_id c;
     mc_imu_quat_id := mc_imu_quat_id c; mc_imu_gyro_id := mc_imu_gyro_id c;
     mc_imu_quat_scale := mc_imu_quat_scale c; mc_imu_gyro_scale := mc_imu_gyro_scale c;
     mc_imu_normalize_quat := mc_imu_normalize_quat c;
     mc_actuator_configs := sorted_by fst (mc_actuator_configs c);
     mc_allow_actuator_commands := mc_allow_actuator_commands c;
     mc_mit_poll_hz := mc_mit_poll_hz c; mc_start_t := mc_start_t c |}.

Definition monitor_init (config : MonitorConfig) (channels : list CanChannelState)
    (tx_enabled : bool) : res MonitorState :=
  if bool_decide (channels = []) then Raise ValueError
  else Ok (ensure_known_nodes
    {| ms_config := _normalize_actuator_configs config; ms_channels := channels;
       ms_tx_enabled := tx_enabled; ms_mit_poll_can_ids := ∅; ms_raw_frames := [];
       ms_nodes := []; ms_imu := E2BoxState_new; ms_motors := [] |}).

(** [_node_for_can_id(can_id)]: the key of the first node with that identifier,
    which is created when there is none. *)
Fixpoint find_node (can_id : Z) (nodes : dict string NodeState) : option string :=
  match nodes with
  | [] => None
  | (k, n) :: nodes => if nd_can_id n =? can_id then Some k else find_node can_id nodes
  end.

Definition _node_for_can_id (can_id : Z) (s : MonitorState) : string * MonitorState :=
  match find_node can_id (ms_nodes s) with
  | Some k => (k, s)
  | None => (node_key can_id,
             _ensure_node (node_key can_id) ("CAN " ++ format_hex 3 can_id)%string can_id "Raw" s)
  end.

Definition mark_node (can_id : Z) (data : bytes) (now : float) (s : MonitorState) :
    MonitorState :=
  let '(k, s) := _node_for_can_id can_id s in
  match dict_get k (ms_nodes s) with
  | Some n => with_nodes s (dict_set k (node_mark_rx now data n) (ms_nodes s))
  | None => s
  end.

(** [_update_raw_frame(frame, now)] *)
Definition _update_raw_frame (frame : ParsedFrame) (now : float) (s : MonitorState) :
    MonitorState :=
  let count := match dict_get (fr_can_id frame) (ms_raw_frames s) with
               | Some r => rf_count r
               | None => 0
               end in
  with_raw_frames s (dict_set (fr_can_id frame)
    {| rf_can_id := fr_can_id frame; rf_count := count + 1; rf_last_t := now;
       rf_last_dlc := fr_dlc frame; rf_last_data := fr_data frame |} (ms_raw_frames s)).

Definition imu_count_request (i : E2BoxState) : E2BoxState :=
  {| ib_req_count := ib_req_count i + 1; ib_quat_count := ib_quat_count i;
     ib_gyro_count := ib_gyro_count i; ib_quat_last_t := ib_quat_last_t i;
     ib_gyro_last_t := ib_gyro_last_t i; ib_quat_xyzw := ib_quat_xyzw i;
     ib_projected_gravity_b := ib_projected_gravity_b i;
     ib_angular_velocity_rad_s := ib_angular_velocity_rad_s i |}.

Definition imu_take_quat (now : float) (quat : quat float) (gravity : vec3 float)
    (i : E2BoxState) : E2BoxState :=
  {| ib_req_count := ib_req_count i; ib_quat_count := ib_quat_count i + 1;
     ib_gyro_count := ib_gyro_count i; ib_quat_last_t := now;
     ib_gyro_last_t := ib_gyro_last_t i; ib_quat_xyzw := quat;
     ib_projected_gravity_b := gravity;
     ib_angular_velocity_rad_s := ib_angular_velocity_rad_s i |}.

Definition imu_take_gyro (now : float) (gyro : vec3 float) (i : E2BoxState) : E2BoxState :=
  {| ib_req_count := ib_req_count i; ib_quat_count := ib_quat_count i;
     ib_gyro_count := ib_gyro_count i + 1; ib_quat_last_t := ib_quat_last_t i;
     ib_gyro_last_t := now; ib_quat_xyzw := ib_quat_xyzw i;
     ib_projected_gravity_b := ib_projected_gravity_b i; ib_angular_velocity_rad_s := gyro |}.

(** [try: x = f() except ValueError: return], and what follows with [x]. *)
Definition or_return {S A} (r : res A) (k : A → ST S unit) : ST S unit :=
  match r with
  | Ok a => k a
  | Raise e => if isinstance e ValueError then mret () else raise e
  end.

(** [_update_imu(frame, now)] *)
Definition update_imu (c : MonitorConfig) (frame : ParsedFrame) (now : float) :
    ST E2BoxState unit :=
  if fr_can_id frame =? mc_imu_request_id c then modify imu_count_request
  else if (fr_can_id frame =? mc_imu_quat_id c) && (fr_dlc frame =? 8) then
    or_return (decode_e2box_quat (fr_data frame) (mc_imu_quat_scale c)
                 (mc_imu_normalize_quat c))
      (λ qg, modify (imu_take_quat now qg.1 qg.2))
  else if (fr_can_id frame =? mc_imu_gyro_id c) && (fr_dlc frame =? 8) then
    or_return (decode_e2box_gyro (fr_data frame) (mc_imu_gyro_scale c))
      (λ g, modify (imu_take_gyro now g))
  else mret ().

(** The first assignments of [_update_motor] and of [_update_motor_tx_hint]. *)
Definition motor_seen (rx : Z) (now : float) (kind : string) (data : bytes)
    (m : SPGMotorState) : SPGMotorState :=
  {| mo_can_id := mo_can_id m; mo_name := mo_name m; mo_rx_count := mo_rx_count m + rx;
     mo_last_t := now; mo_last_kind := kind; mo_enabled_hint := mo_enabled_hint m;
     mo_temperature_c := mo_temperature_c m; mo_iq_a_approx := mo_iq_a_approx m;
     mo_speed_dps := mo_speed_dps m; mo_position_rad := mo_position_rad m;
     mo_zero_offset_count := mo_zero_offset_count m; mo_raw_data := data |}.

Definition motor_hint (enabled : bool) (m : SPGMotorState) : SPGMotorState :=
  {| mo_can_id := mo_can_id m; mo_name := mo_name m; mo_rx_count := mo_rx_count m;
     mo_last_t := mo_last_t m; mo_last_kind := mo_last_kind m; mo_enabled_hint := Some enabled;
     mo_temperature_c := mo_temperature_c m; mo_iq_a_approx := mo_iq_a_approx m;
     mo_speed_dps := mo_speed_dps m; mo_position_rad := mo_position_rad m;
     mo_zero_offset_count := mo_zero_offset_count m; mo_raw_data := mo_raw_data m |}.

Definition motor_zero_offset (count : Z) (m : SPGMotorState) : SPGMotorState :=
  {| mo_can_id := mo_can_id m; mo_name := mo_name m; mo_rx_count := mo_rx_count m;
     mo_last_t := mo_last_t m; mo_last_kind := mo_last_kind m;
     mo_enabled_hint := mo_enabled_hint m; mo_temperature_c := mo_temperature_c m;
     mo_iq_a_approx := mo_iq_a_approx m; mo_speed_dps := mo_speed_dps m;
     mo_position_rad := mo_position_rad m; mo_zero_offset_count := Some count;
     mo_raw_data := mo_raw_data m |}.

Definition motor_status (d : SpgStatus) (m : SPGMotorState) : SPGMotorState :=
  {| mo_can_id := mo_can_id m; mo_name := mo_name m; mo_rx_count := mo_rx_count m;
     mo_last_t := mo_last_t m; mo_last_kind := mo_last_kind m;
     mo_enabled_hint := mo_enabled_hint m; mo_temperature_c := Some (dec_temperature_c d);
     mo_iq_a_approx := Some (dec_iq_a_approx d); mo_speed_dps := Some (dec_speed_dps d);
     mo_position_rad := Some (dec_position_rad d);
     mo_zero_offset_count := mo_zero_offset_count m; mo_raw_data := mo_raw_data m |}.

(** [int.from_bytes(data[6:8], "little", signed=True)] *)
Definition offset_of (data : bytes) : Z := to_signed 16 (le_decode (slice 6 8 data)).

(** The body of [_update_motor] on the motor of the frame. *)
Definition motor_on_frame (c : MonitorConfig) (frame : ParsedFrame) (now : float) :
    ST SPGMotorState unit :=
  if fr_dlc frame <? 1 then modify (motor_seen 1 now "empty" (fr_data frame))
  else
    match fr_data frame with
    | [] =>
        (* [frame.data[0]] *)
        m ← get; _ ← modify (motor_seen 1 now (mo_last_kind m) (fr_data frame)); raise IndexError
    | opcode :: _ =>
        _ ← modify (motor_seen 1 now (spg_opcode_name opcode) (fr_data frame));
        if (opcode =? SPG_CMD_MIT_CONTROL) && (fr_dlc frame =? 8) then
          or_return (decode_spg_status (fr_data frame) (mc_feedback_position_max_rad c)
                       (mc_iq_full_scale_count c) (mc_iq_full_scale_current_a c))
            (λ d, modify (motor_status d))
        else if opcode =? SPG_CMD_MIT_ENTER then modify (motor_hint true)
        else if (opcode =? SPG_CMD_MIT_EXIT) || (opcode =? SPG_CMD_CLEAR_ERROR) then
          modify (motor_hint false)
        else if (opcode =? SPG_CMD_MIT_SET_ZERO) && (fr_dlc frame =? 8) then
          modify (motor_zero_offset (offset_of (fr_data frame)))
        else mret ()
    end.

(** An operation on the motor of an identifier, which [setdefault] creates. *)
Definition on_motor (can_id : Z) (name : string) (m : ST SPGMotorState unit) :
    ST MonitorState unit := λ s,
  let '(r, m') := m (default (SPGMotorState_new can_id name) (dict_get can_id (ms_motors s))) in
  (r, with_devices s (ms_imu s) (dict_set can_id m' (ms_motors s))).

(** [_update_motor(frame, now)] *)
Definition _update_motor (frame : ParsedFrame) (now : float) : ST MonitorState unit :=
  s ← get;
  match actuator_config_for_can_id (fr_can_id frame) s with
  | None => mret ()
  | Some name => on_motor (fr_can_id frame) name (motor_on_frame (ms_config s) frame now)
  end.

Definition _update_imu (frame : ParsedFrame) (now : float) : ST MonitorState unit :=
  s ← get;
  zoom ms_imu (λ i s, with_devices s i (ms_motors s)) (update_imu (ms_config s) frame now).

(** [mark_rx(frame, now, channel)] *)
Definition mark_rx (frame : ParsedFrame) (now : float) (channel : option nat) :
    ST MonitorState unit :=
  _ ← (match channel with Some i => on_channel i (channel_mark_rx frame now) | None => mret () end);
  _ ← modify (_update_raw_frame frame now);
  _ ← modify (mark_node (fr_can_id frame) (fr_data frame) now);
  _ ← _update_imu frame now;
  _update_motor frame now.

(** The branches of [_update_motor_tx_hint] on the first byte. *)
Definition motor_on_sent (data : bytes) (now : float) (m : SPGMotorState) : SPGMotorState :=
  match data with
  | [] => m
  | opcode :: _ =>
      let seen kind := motor_seen 0 now kind (take 8 data) m in
      if opcode =? SPG_CMD_MIT_ENTER then motor_hint true (seen "MIT_ENTER_SENT"%string)
      else if opcode =? SPG_CMD_MIT_EXIT then motor_hint false (seen "MIT_EXIT_SENT"%string)
      else if opcode =? SPG_CMD_MIT_SET_ZERO then
        if (8 <=? length data)%nat
        then motor_zero_offset (offset_of data) (seen "MIT_SET_ZERO_SENT"%string)
        else seen "MIT_SET_ZERO_SENT"%string
      else m
  end.

Definition _update_motor_tx_hint (can_id : Z) (data : bytes) (now : float) :
    ST MonitorState unit :=
  s ← get;
  match data, actuator_config_for_can_id can_id s with
  | _ :: _, Some name => on_motor can_id name (modify (motor_on_sent data now))
  | _, _ => mret ()
  end.

(** [mark_tx(can_id, data, now)] *)
Definition mark_tx (can_id : Z) (data : bytes) (now : float) : ST MonitorState unit :=
  _ ← on_channel primary_channel (channel_mark_tx data now);
  _ ← modify (λ s, if can_id =? mc_imu_request_id (ms_config s)
                   then with_devices s (imu_count_request (ms_imu s)) (ms_motors s) else s);
  _update_motor_tx_hint can_id data now.

(** ** [snapshot()] *)

Record ImuView := {
  iv_req_count : Z; iv_quat_count : Z; iv_gyro_count : Z;
  iv_quat_xyzw : list float; iv_projected_gravity_b : list float;
  iv_angular_velocity_rad_s : list float;
  iv_quat_age_s : option float; iv_gyro_age_s : option float
}.

(** Numbers that are integers here and floats when the controller reports them. *)
Record MotorView := {
  mv_name : string; mv_can_id : string; mv_rx_count : Z; mv_age_s : option float;
  mv_status : string; mv_last_kind : string; mv_enabled_hint : option bool;
  mv_mit_polling : bool; mv_temperature_c : option RawValue; mv_current_a : option float;
  mv_speed_dps : option RawValue; mv_position_rad : option float;
  mv_zero_offset_count : option Z; mv_raw : string
}.

Record FrameView := {
  fv_can_id : string; fv_dlc : Z; fv_data : string; fv_count : Z; fv_age_s : option float }.

Record MonitorSnapshot := {
  mn_time : float; mn_uptime_s : float; mn_can_channels : list ChannelSnapshot;
  mn_nodes : list NodeSnapshot; mn_imu : ImuView; mn_motors : list MotorView;
  mn_recent_frames : list FrameView; mn_tx_enabled : bool; mn_allow_actuator_commands : bool;
  mn_mit_poll_can_ids : list string; mn_mit_poll_hz : float
}.

Definition age_since (now last_t : float) : option float :=
  if (last_t <=? 0)%float then None else Some (now - last_t)%float.

Definition list3 {A} (v : vec3 A) : list A := let '(x, y, z) := v in [x; y; z].
Definition list4 {A} (q : quat A) : list A := let '(x, y, z, w) := q in [x; y; z; w].

Definition _imu_snapshot (now : float) (i : E2BoxState) : ImuView :=
  {| iv_req_count := ib_req_count i; iv_quat_count := ib_quat_count i;
     iv_gyro_count := ib_gyro_count i; iv_quat_xyzw := list4 (ib_quat_xyzw i);
     iv_projected_gravity_b := list3 (ib_projected_gravity_b i);
     iv_angular_velocity_rad_s := list3 (ib_angular_velocity_rad_s i);
     iv_quat_age_s := age_since now (ib_quat_last_t i);
     iv_gyro_age_s := age_since now (ib_gyro_last_t i) |}.

Definition _motor_snapshot (now : float) (s : MonitorState) (m : SPGMotorState) : MotorView :=
  let age_s := age_since now (mo_last_t m) in
  {| mv_name := mo_name m; mv_can_id := hex_id (mo_can_id m); mv_rx_count := mo_rx_count m;
     mv_age_s := age_s; mv_status := seen_status age_s (mc_node_timeout_s (ms_config s));
     mv_last_kind := mo_last_kind m; mv_enabled_hint := mo_enabled_hint m;
     mv_mit_polling := bool_decide (mo_can_id m ∈ ms_mit_poll_can_ids s);
     mv_temperature_c := RInt <$> mo_temperature_c m; mv_current_a := mo_iq_a_approx m;
     mv_speed_dps := RInt <$> mo_speed_dps m; mv_position_rad := mo_position_rad m;
     mv_zero_offset_count := mo_zero_offset_count m; mv_raw := hex_data (mo_raw_data m) |}.

(** [sorted(key=float, reverse=True)]: stable, latest first. *)
Fixpoint insert_latest {A} (key : A → float) (x : A) (l : list A) : list A :=
  match l with
  | [] => [x]
  | y :: l' => if (key x <? key y)%float then y :: insert_latest key x l' else x :: l
  end.

Definition _recent_frames (now : float) (s : MonitorState) : list FrameView :=
  map (λ f, {| fv_can_id := hex_id (rf_can_id f); fv_dlc := rf_last_dlc f;
               fv_data := hex_data (rf_last_data f); fv_count := rf_count f;
               fv_age_s := age_since now (rf_last_t f) |})
    (take 24 (foldr (insert_latest rf_last_t) [] (dict_values (ms_raw_frames s)))).

(** The snapshots of the channels, in order; each prunes its window. *)
Fixpoint snapshot_channels (now : float) (l : list CanChannelState) :
    res (list ChannelSnapshot) * list CanChannelState :=
  match l with
  | [] => (Ok [], [])
  | c :: l =>
      match channel_snapshot now c with
      | (Raise e, c') => (Raise e, c' :: l)
      | (Ok v, c') => let '(r, l') := snapshot_channels now l in (vs ← r; Ok (v :: vs), c' :: l')
      end
  end.

Definition snapshot (now : float) : ST MonitorState MonitorSnapshot :=
  channels ← zoom ms_channels (λ l s, with_channels s l) (snapshot_channels now);
  s ← get;
  _ ← modify (λ s, with_nodes s (map (λ kn, (kn.1, node_prune now kn.2)) (ms_nodes s)));
  mret {| mn_time := now; mn_uptime_s := (now - mc_start_t (ms_config s))%float;
          mn_can_channels := channels;
          mn_nodes := map (λ n, fst (node_snapshot now n))
                        (sorted_by nd_can_id (dict_values (ms_nodes s)));
          mn_imu := _imu_snapshot now (ms_imu s);
          mn_motors := map (_motor_snapshot now s)
                         (sorted_by mo_can_id (dict_values (ms_motors s)));
          mn_recent_frames := _recent_frames now s;
          mn_tx_enabled := ms_tx_enabled s;
          mn_allow_actuator_commands := mc_allow_actuator_commands (ms_config s);
          mn_mit_poll_can_ids :=
            map hex_id (sorted_by (λ z, z) (elements (ms_mit_poll_can_ids s)));
          mn_mit_poll_hz := mc_mit_poll_hz (ms_config s) |}.

(** ** Counting what was received *)

Definition received (can_id : Z) (s : MonitorState) : Z :=
  match dict_get can_id (ms_raw_frames s) with Some r => rf_count r | None => 0 end.
Definition node_received (can_id : Z) (s : MonitorState) : Z :=
  match find_node can_id (ms_nodes s) ≫= λ k, dict_get k (ms_nodes s) with
  | Some n => nd_rx_count n
  | None => 0
  end.
Definition motor_of (can_id : Z) (s : MonitorState) : SPGMotorState :=
  default (SPGMotorState_new can_id "") (dict_get can_id (ms_motors s)).

(** The nodes named after an identifier are that identifier's. *)
Record monitor_wf (s : MonitorState) : Prop := {
  mw_nodes : dict_wf (ms_nodes s);
  mw_named : ∀ id n, 0 ≤ id → dict_get (node_key id) (ms_nodes s) = Some n → nd_can_id n = id
}.

Lemma find_node_some id (nodes : dict string NodeState) k :
  dict_wf nodes → find_node id nodes = Some k →
  ∃ n, dict_get k nodes = Some n ∧ nd_can_id n = id.
Proof.
  induction nodes as [|[k' n] nodes IH]; intros Hw; cbn [find_node dict_get]; [done|].
  apply NoDup_cons in Hw as [Hn Hw]. destruct (Z.eqb_spec (nd_can_id n) id) as [E|E].
  - intros [= ->]. rewrite decide_True by done. eauto.
  - intros Hf. destruct (IH Hw Hf) as (n' & Hg & Hid). rewrite decide_False; [eauto|].
    intros <-. apply Hn. by apply dict_get_in in Hg as ?%(list_elem_of_fmap_2 fst).
Qed.

Lemma find_node_none id (nodes : dict string NodeState) k n :
  find_node id nodes = None → dict_get k nodes = Some n → nd_can_id n ≠ id.
Proof.
  induction nodes as [|[k' n'] nodes IH]; cbn [find_node dict_get]; [done|].
  destruct (Z.eqb_spec (nd_can_id n') id) as [E|E]; [done|].
  intros Hf. case_decide; [by intros [= ->]|by apply IH].
Qed.

(** Replacing a node by one of its identifier does not move any identifier. *)
Lemma find_node_set id (nodes : dict string NodeState) k n n' :
  dict_get k nodes = Some n → nd_can_id n' = nd_can_id n →
  find_node id (dict_set k n' nodes) = find_node id nodes.
Proof.
  induction nodes as [|[k' m] nodes IH]; cbn [dict_get dict_set]; [done|].
  case_decide as Hk; cbn [find_node]; [intros [= ->] ->; by subst|].
  intros Hg Hn. destruct (nd_can_id m =? id); [done|]. by apply IH.
Qed.

Lemma find_node_new id (nodes : dict string NodeState) k n :
  dict_get k nodes = None →
  find_node id (dict_set k n nodes) =
    match find_node id nodes with
    | Some k' => Some k'
    | None => if nd_can_id n =? id then Some k else None
    end.
Proof.
  induction nodes as [|[k' m] nodes IH]; cbn [dict_get dict_set]; [done|].
  case_decide as Hk; [done|]. intros Hg. cbn [find_node].
  destruct (nd_can_id m =? id); [done|]. by apply IH.
Qed.

Lemma node_key_inj id id' : 0 ≤ id → 0 ≤ id' → node_key id = node_key id' → id = id'.
Proof. intros H H' E. injection E. by apply format_hex_inj. Qed.

Lemma ensure_node_wf key name id role s :
  monitor_wf s → (∀ id', 0 ≤ id' → key = node_key id' → id = id') →
  monitor_wf (_ensure_node key name id role s).
Proof.
  intros [Hw Hn] Hk. unfold _ensure_node.
  destruct (dict_get key (ms_nodes s)) eqn:E; [done|]. split; cbn [ms_nodes with_nodes].
  - by apply dict_wf_set.
  - intros id' n Hid. rewrite dict_get_set. case_decide as Heq; [|by apply Hn].
    intros [= <-]. cbn [nd_can_id]. by apply Hk.
Qed.

(** Marking a frame's node counts it there, and nowhere else. *)
Lemma mark_known_node id data now s k n :
  monitor_wf s → find_node id (ms_nodes s) = Some k → dict_get k (ms_nodes s) = Some n →
  let s' := with_nodes s (dict_set k (node_mark_rx now data n) (ms_nodes s)) in
  monitor_wf s' ∧
  (∀ id', node_received id' s' = node_received id' s + (if id' =? id then 1 else 0)).
Proof.
  intros [Hw Hn] Hf Hg s'. destruct (find_node_some _ _ _ Hw Hf) as (n' & Hg' & Hn').
  simplify_eq. split; [split; cbn [s' ms_nodes with_nodes]|].
  - by apply dict_wf_set.
  - intros id' n' Hid'. rewrite dict_get_set. case_decide as Heq; [|by apply Hn].
    intros [= <-]. cbn. apply Hn; [done|]. by rewrite Heq.
  - intros id'. unfold node_received. cbn [s' ms_nodes with_nodes].
    rewrite (find_node_set _ _ _ n) by done.
    destruct (Z.eqb_spec id' (nd_can_id n)) as [->|Hne].
    + rewrite Hf. cbn [mbind option_bind]. by rewrite dict_get_set_eq, Hg.
    + destruct (find_node id' (ms_nodes s)) as [k'|] eqn:Ef'; [|cbn; lia].
      destruct (find_node_some _ _ _ Hw Ef') as (m & Hm & Hid').
      cbn [mbind option_bind]. rewrite dict_get_set_ne; [rewrite Hm; lia|].
      intros ->. by simplify_eq.
Qed.

Lemma mark_node_spec id data now s :
  monitor_wf s → 0 ≤ id →
  monitor_wf (mark_node id data now s) ∧
  (∀ id', node_received id' (mark_node id data now s) =
            node_received id' s + (if id' =? id then 1 else 0)) ∧
  ms_raw_frames (mark_node id data now s) = ms_raw_frames s ∧
  ms_motors (mark_node id data now s) = ms_motors s ∧
  ms_config (mark_node id data now s) = ms_config s ∧
  ms_channels (mark_node id data now s) = ms_channels s.
Proof.
  intros Hwf Hid. unfold mark_node, _node_for_can_id.
  destruct (find_node id (ms_nodes s)) as [k|] eqn:Ef.
  - destruct (find_node_some _ _ _ (mw_nodes _ Hwf) Ef) as (n & Hg & Hn). rewrite Hg.
    destruct (mark_known_node id data now s k n Hwf Ef Hg) as [H1 H2]. by split_and!.
  - set (s1 := _ensure_node _ _ _ _ s).
    assert (dict_get (node_key id) (ms_nodes s) = None) as Hnone.
    { destruct (dict_get (node_key id) (ms_nodes s)) as [n|] eqn:E; [|done].
      destruct (find_node_none _ _ _ _ Ef E). by eapply mw_named. }
    assert (monitor_wf s1) as Hwf1.
    { apply ensure_node_wf; [done|]. intros id' Hid'. by apply node_key_inj. }
    unfold s1, _ensure_node in *. rewrite Hnone in *. cbn [ms_nodes with_nodes] in *.
    rewrite dict_get_set_eq.
    match goal with |- context [dict_set (node_key id) ?n (ms_nodes s)] => set (new := n) in * end.
    pose proof (find_node_new id (ms_nodes s) (node_key id) new Hnone) as Hf1.
    rewrite Ef in Hf1. cbn [new nd_can_id] in Hf1. rewrite Z.eqb_refl in Hf1.
    destruct (mark_known_node id data now (with_nodes s (dict_set (node_key id) new (ms_nodes s))) (node_key id) new
      Hwf1 Hf1 (dict_get_set_eq _ _ _)) as [H1 H2].
    cbn [ms_nodes with_nodes] in H1, H2. split_and!; [exact H1| |done..].
    intros id'. rewrite H2. f_equal. unfold node_received. cbn [ms_nodes with_nodes].
    rewrite find_node_new by done. destruct (find_node id' (ms_nodes s)) as [k'|] eqn:Ef'.
    + destruct (find_node_some _ _ _ (mw_nodes _ Hwf) Ef') as (m & Hm & _).
      cbn [mbind option_bind]. rewrite dict_get_set_ne; [done|]. intros ->. congruence.
    + cbn [nd_can_id new]. destruct (Z.eqb_spec id id'); [|done]. cbn [mbind option_bind].
      by rewrite dict_get_set_eq.
Qed.

(** The estimate of a frame's bits is defined for every channel. *)
Definition stuff_ok (s : MonitorState) : Prop :=
  ∀ c, c ∈ ms_channels s → ∀ b, 0 ≤ b ≤ 200 → is_ok (py_ceil (Z2F b * ch_stuff_factor c)%float) = true.

Lemma estimate_ok dlc eff rtr sf inter :
  (∀ b, 0 ≤ b ≤ 200 → is_ok (py_ceil (Z2F b * sf)%float) = true) →
  is_ok (estimate_classical_can_bits dlc eff rtr sf inter) = true.
Proof.
  intros Hb. unfold estimate_classical_can_bits.
  match goal with |- context [py_ceil (Z2F ?b * sf)%float] => specialize (Hb b) end.
  destruct (py_ceil _); [done|]. apply Hb. destruct eff, rtr, inter; lia.
Qed.

Lemma on_channel_rx i frame now s :
  stuff_ok s →
  ∃ l, on_channel i (channel_mark_rx frame now) s = (Ok (), with_channels s l) ∧
       stuff_ok (with_channels s l).
Proof.
  intros Hs. unfold on_channel. destruct (ms_channels s !! i) as [c|] eqn:E.
  2: { exists (ms_channels s). by destruct s. }
  assert (c ∈ ms_channels s) as Hc by by eapply list_elem_of_lookup_2.
  pose proof (estimate_ok (fr_dlc frame) (fr_is_eff frame) (fr_is_rtr frame) _ true (Hs c Hc))
    as He.
  unfold channel_mark_rx. st_run. cbn [set_bus_load ch_stuff_factor].
  destruct (estimate_classical_can_bits _ _ _ _ _) as [b|]; [|done].
  eexists. split; [done|]. intros c' Hc'. cbn [ms_channels with_channels] in Hc'.
  apply list_elem_of_lookup in Hc' as [j Hj].
  destruct (decide (j = i)) as [->|Hne].
  - rewrite list_lookup_insert_eq in Hj by by eapply lookup_lt_Some.
    injection Hj as <-. apply (Hs c Hc).
  - rewrite list_lookup_insert_ne in Hj by done. apply Hs. by eapply list_elem_of_lookup_2.
Qed.

(** The position a frame reports. *)
Definition status_position (c : MonitorConfig) (f : ParsedFrame) : option float :=
  match fr_data f with
  | opcode :: _ =>
      if negb (fr_dlc f <? 1) && (opcode =? SPG_CMD_MIT_CONTROL) && (fr_dlc f =? 8) then
        match decode_spg_status (fr_data f) (mc_feedback_position_max_rad c)
                (mc_iq_full_scale_count c) (mc_iq_full_scale_current_a c) with
        | Ok d => Some (dec_position_rad d)
        | Raise _ => None
        end
      else None
  | [] => None
  end.

Lemma motor_on_frame_spec c f now m :
  let m' := snd (motor_on_frame c f now m) in
  mo_rx_count m' = mo_rx_count m + 1 ∧
  mo_position_rad m' = status_position c f ∪ mo_position_rad m.
Proof.
  unfold motor_on_frame, status_position. destruct (fr_dlc f <? 1).
  { destruct (fr_data f); cbn; by destruct (mo_position_rad m). }
  st_run. destruct (fr_data f) as [|op data] eqn:E; [cbn; by destruct (mo_position_rad m)|].
  cbn [negb andb]. destruct ((op =? SPG_CMD_MIT_CONTROL) && (fr_dlc f =? 8)).
  - unfold or_return. destruct (decode_spg_status (op :: data) _ _ _) as [d|e];
      [by cbn; destruct (mo_position_rad m)|].
    destruct (isinstance e ValueError); cbn; by destruct (mo_position_rad m).
  - destruct (op =? SPG_CMD_MIT_ENTER); [cbn; by destruct (mo_position_rad m)|].
    destruct (_ || _); [cbn; by destruct (mo_position_rad m)|].
    destruct (_ && _); cbn; by destruct (mo_position_rad m).
Qed.

Definition imu_ids (c : MonitorConfig) : list Z :=
  [mc_imu_request_id c; mc_imu_quat_id c; mc_imu_gyro_id c].

Lemma update_imu_other c f now i :
  fr_can_id f ∉ imu_ids c → update_imu c f now i = (Ok (), i).
Proof.
  unfold imu_ids. rewrite !not_elem_of_cons, <-!Z.eqb_neq. intros (H1 & H2 & H3 & _).
  unfold update_imu. by rewrite H1, H2, H3.
Qed.

Lemma update_motor_other f now s id :
  id ≠ fr_can_id f → motor_of id (snd (_update_motor f now s)) = motor_of id s.
Proof.
  intros Hne. unfold _update_motor, get. st_run.
  destruct (actuator_config_for_can_id _ _); [|done]. unfold on_motor.
  destruct (motor_on_frame _ _ _ _) as [r m]. cbn. unfold motor_of. cbn.
  by rewrite dict_get_set_ne.
Qed.

(** What a frame changes in the counters, the actuators apart. *)
Record counted (f : ParsedFrame) (s s' : MonitorState) : Prop := {
  cd_wf : monitor_wf s';
  cd_stuff : stuff_ok s';
  cd_config : ms_config s' = ms_config s;
  cd_received : ∀ id, received id s' = received id s + (if id =? fr_can_id f then 1 else 0);
  cd_node : ∀ id,
    node_received id s' = node_received id s + (if id =? fr_can_id f then 1 else 0)
}.

Lemma counted_devices f s s' i m : counted f s s' → counted f s (with_devices s' i m).
Proof. intros [[H1 H1'] H2 H3 H4 H5]. by split; [split|..]. Qed.

Lemma counted_motor f now s s' : counted f s s' → counted f s (snd (_update_motor f now s')).
Proof.
  intros Hc. unfold _update_motor, get. st_run.
  destruct (actuator_config_for_can_id _ _); [|done]. unfold on_motor.
  destruct (motor_on_frame _ _ _ _). by apply counted_devices.
Qed.

Lemma mark_rx_front f now ch s :
  monitor_wf s → stuff_ok s → 0 ≤ fr_can_id f →
  ∃ l, let s3 := mark_node (fr_can_id f) (fr_data f) now
                   (_update_raw_frame f now (with_channels s l)) in
    mark_rx f now ch s = (_ ← _update_imu f now; _update_motor f now) s3 ∧
    counted f s s3 ∧ ms_motors s3 = ms_motors s.
Proof.
  intros Hwf Hst Hid.
  assert (∃ l, (match ch with Some i => on_channel i (channel_mark_rx f now) | None => mret () end)
    s = (Ok (), with_channels s l) ∧ stuff_ok (with_channels s l)) as (l & Hch & Hst').
  { destruct ch as [i|]; [by apply on_channel_rx|]. exists (ms_channels s). by destruct s. }
  set (s2 := _update_raw_frame f now (with_channels s l)).
  destruct (mark_node_spec (fr_can_id f) (fr_data f) now s2) as (Hw & Hn & Hr & Hm & Hc & Hk);
    [by destruct Hwf|done|].
  exists l. cbv zeta. fold s2. split; [|split; [split|]].
  - unfold mark_rx. rewrite (st_bind_ok _ _ _ _ _ Hch). reflexivity.
  - done.
  - unfold stuff_ok. by rewrite Hk.
  - by rewrite Hc.
  - intros id. unfold received. rewrite Hr. cbn [s2 _update_raw_frame ms_raw_frames
      with_raw_frames with_channels]. rewrite dict_get_set.
    destruct (Z.eqb_spec id (fr_can_id f)) as [->|Hne].
    + rewrite decide_True by done. cbn [rf_count]. by destruct (dict_get _ (ms_raw_frames s)).
    + rewrite decide_False by done. destruct (dict_get id (ms_raw_frames s)); lia.
  - intros id. by rewrite Hn.
  - done.
Qed.

Lemma update_motor_same f now s :
  is_Some (actuator_config_for_can_id (fr_can_id f) s) →
  let m := motor_of (fr_can_id f) s in
  let m' := motor_of (fr_can_id f) (snd (_update_motor f now s)) in
  mo_rx_count m' = mo_rx_count m + 1 ∧
  mo_position_rad m' = status_position (ms_config s) f ∪ mo_position_rad m.
Proof.
  cbv zeta. intros [name Hname]. unfold _update_motor, get. st_run. rewrite Hname. unfold on_motor.
  set (m0 := default _ _). pose proof (motor_on_frame_spec (ms_config s) f now m0) as [H1 H2].
  destruct (motor_on_frame _ _ _ _) as [r m']. unfold motor_of.
  cbn [fst snd ms_motors with_devices] in *.
  rewrite dict_get_set_eq. cbn [from_option]. change (id m') with m'. rewrite H1, H2. subst m0.
  by destruct (dict_get _ (ms_motors s)).
Qed.

(** One frame. *)
Lemma mark_rx_spec f now ch s :
  monitor_wf s → stuff_ok s → 0 ≤ fr_can_id f →
  let s' := snd (mark_rx f now ch s) in
  counted f s s' ∧
  ∀ id, is_Some (actuator_config_for_can_id id s) → id ∉ imu_ids (ms_config s) →
    mo_rx_count (motor_of id s') =
      mo_rx_count (motor_of id s) + (if id =? fr_can_id f then 1 else 0) ∧
    mo_position_rad (motor_of id s') =
      (if id =? fr_can_id f then status_position (ms_config s) f else None)
        ∪ mo_position_rad (motor_of id s).
Proof.
  intros Hwf Hst Hid. destruct (mark_rx_front f now ch s Hwf Hst Hid) as (l & -> & Hcd & Hm).
  set (s3 := mark_node _ _ _ _) in *.
  assert (∀ i id, motor_of id (with_devices s3 i (ms_motors s3)) = motor_of id s) as Hsame.
  { intros i id. unfold motor_of. cbn. by rewrite Hm. }
  unfold _update_imu, get. st_run. unfold zoom.
  destruct (update_imu (ms_config s3) f now (ms_imu s3)) as [r i] eqn:Ei; cbn [fst snd].
  set (s4 := with_devices s3 i (ms_motors s3)) in *.
  assert (counted f s s4) as Hc4 by by apply counted_devices.
  destruct r as [[]|e].
  - split; [by apply counted_motor|]. intros id Hcfg Himu.
    destruct (Z.eqb_spec id (fr_can_id f)) as [->|Hne].
    2: { rewrite update_motor_other by done. rewrite (Hsame i).
      rewrite Z.add_0_r. by destruct (mo_position_rad _). }
    rewrite <-(Hsame i), <-(cd_config _ _ _ Hcd). apply (update_motor_same f now s4).
    unfold actuator_config_for_can_id in *. by rewrite (cd_config _ _ _ Hc4).
  - split; [done|]. intros id Hcfg Himu. rewrite (Hsame i).
    destruct (Z.eqb_spec id (fr_can_id f)) as [->|Hne].
    + rewrite <-(cd_config _ _ _ Hcd) in Himu. by rewrite update_imu_other in Ei.
    + rewrite Z.add_0_r. by destruct (mo_position_rad _).
Qed.

Definition monitor_run (ch : option nat) (s : MonitorState) (l : list (float * ParsedFrame)) :
    MonitorState :=
  foldl (λ s tf, snd (mark_rx tf.2 tf.1 ch s)) s l.

(** How often an identifier was heard. *)
Definition heard (id : Z) (l : list (float * ParsedFrame)) : Z :=
  Z.of_nat (length (filter (λ tf, fr_can_id tf.2 = id) l)).

Lemma heard_cons id tf l :
  heard id (tf :: l) = (if id =? fr_can_id tf.2 then 1 else 0) + heard id l.
Proof.
  unfold heard. rewrite filter_cons.
  destruct (Z.eqb_spec id (fr_can_id tf.2)); case_decide; cbn [length]; lia.
Qed.


(** A monitor that has just started has heard nothing. *)
Lemma foldl_actuator_wf l s : 
  monitor_wf s → Forall (λ a : Z * string, 0 ≤ a.1) l → monitor_wf (foldl ensure_actuator s l).
Proof.
  revert s. induction l as [|a l IH]; intros s Hw Hl; [done|]. apply Forall_cons in Hl as [Ha Hl].
  apply IH; [|done]. unfold ensure_actuator.
  assert (monitor_wf (_ensure_node (node_key a.1) a.2 a.1 "Actuator" s)) as [H1 H2].
  { apply ensure_node_wf; [done|]. intros id. by apply node_key_inj. }
  by split.
Qed.

Lemma monitor_init_wf c channels tx s :
  monitor_init c channels tx = Ok s → Forall (λ a, 0 ≤ a.1) (mc_actuator_configs c) →
  monitor_wf s.
Proof.
  unfold monitor_init. case_bool_decide; [done|]. intros [= <-] Hl.
  apply foldl_actuator_wf.
  - repeat (apply ensure_node_wf; [|done]). split; [apply NoDup_nil_2|done].
  - cbn. by rewrite (sorted_by_perm fst).
Qed.

(** *** The witness: a bus with one actuator, an unknown device and a frame
    that is too short. *)

Definition monitor_example_config : MonitorConfig :=
  {| mc_heartbeat_window_s := 1; mc_node_timeout_s := 0.5;
     mc_feedback_position_max_rad := 12.5; mc_iq_full_scale_count := 2048;
     mc_iq_full_scale_current_a := 33; mc_mit_p_max_rad := 12.5; mc_mit_v_max_rad_s := 65;
     mc_mit_kp_max := 500; mc_mit_kd_max := 5; mc_mit_tau_max_nm := 18;
     mc_imu_request_id := 1024; mc_imu_quat_id := 1025; mc_imu_gyro_id := 1026;
     mc_imu_quat_scale := 10000; mc_imu_gyro_scale := 10; mc_imu_normalize_quat := true;
     mc_actuator_configs := [(321, "FL_hip"%string)]; mc_allow_actuator_commands := false;
     mc_mit_poll_hz := 10; mc_start_t := 1 |}.

Definition example_frame (id : Z) (data : bytes) : ParsedFrame :=
  {| fr_can_id := id; fr_dlc := Z.of_nat (length data); fr_data := data; fr_is_eff := false;
     fr_is_rtr := false; fr_is_err := false |}.

Definition example_frames : list (float * ParsedFrame) :=
  [(1%float, example_frame 321 [SPG_CMD_MIT_CONTROL; 40; 0; 0; 0; 0; 255; 127]);
   (2%float, example_frame 99 [1]); (3%float, example_frame 321 [])].

#[export] Instance stuff_ok_dec s : Decision (stuff_ok s).
Proof.
  refine (match decide (Forall (λ c,
    Forall (λ b, is_ok (py_ceil (Z2F b * ch_stuff_factor c)%float) = true) (seqZ 0 201))
      (ms_channels s)) with left H => left _ | right n => right _ end).
  - rewrite Forall_forall in *. intros c Hc b Hb.
    specialize (H c Hc). rewrite Forall_forall in H. apply H, elem_of_seqZ. lia.
  - contradict n. apply Forall_forall. intros c Hc. apply Forall_forall. intros b Hb.
    apply elem_of_seqZ in Hb. apply n; [done|lia].
Defined.

