(* ===== verification/DashboardCommand.v ===== *)
(** * The dashboard's motor commands

    [dashboard/backend/command_api.py]: the service through which the dashboard
    sends frames to the CAN daemon, and the conditions under which it refuses to.
    What the controller is doing comes from two providers, which the service is
    given; the ones of the application are in [DashboardApp]. *)

From Stdlib Require Import Ascii String.
From S2P Require Import Prelude PyFloat PyDict CStruct CanBus Dispatcher Wire CanDaemon CanTransport.
From S2P Require Import SpgProtocol Supervisor DashboardDecode DashboardState.
Open Scope Z_scope.

(** ** State names *)

Definition ENABLE_BLOCK_STATES : list string :=
  ["CREATED"; "DISABLED"; "DISARMED"; "FAULT_LATCHED"; "ESTOP"; "SHUTTING_DOWN"; "STOPPED"]%string.
Definition ZERO_SET_ALLOWED_STATES : list string := ["NORMAL"%string].

(** [str.upper] and [str.isalnum] on ASCII text, which all state names are. *)
Definition upper_char (c : ascii) : ascii :=
  let n := nat_of_ascii c in
  if ((97 <=? n) && (n <=? 122))%nat then ascii_of_nat (n - 32) else c.
Definition isalnum_char (c : ascii) : bool :=
  let n := nat_of_ascii c in
  ((48 <=? n) && (n <=? 57) || (65 <=? n) && (n <=? 90) || (97 <=? n) && (n <=? 122))%nat.

(** [text.split(sep)] *)
Fixpoint split_on (sep : ascii) (l : list ascii) : list (list ascii) :=
  match l with
  | [] => [[]]
  | c :: l =>
      if bool_decide (c = sep) then [] :: split_on sep l
      else match split_on sep l with
      | part :: parts => (c :: part) :: parts
      | [] => [[c]]
      end
  end.

(** [sep.join(parts)] *)
Fixpoint join_with (sep : ascii) (parts : list (list ascii)) : list ascii :=
  match parts with
  | [] => []
  | [part] => part
  | part :: parts => part ++ sep :: join_with sep parts
  end.

Definition normalize_state_name (value : option string) : option string :=
  match value with
  | None => None
  | Some value =>
      let normalized :=
        map (λ c, if isalnum_char c then c else "_"%char)
          (map upper_char (strip (String.list_ascii_of_string value))) in
      let normalized :=
        join_with "_" (filter (λ part, part ≠ []) (split_on "_" normalized)) in
      if bool_decide (normalized = []) then None
      else Some (String.string_of_list_ascii normalized)
  end.

(** [text in value] *)
Fixpoint contains (text value : string) : bool :=
  String.prefix text value ||
  match value with String _ value => contains text value | ""%string => false end.

Definition upper (s : string) : string :=
  String.string_of_list_ascii (map upper_char (String.list_ascii_of_string s)).

Definition is_operator_estop_damping (state_name reason : option string) : bool :=
  bool_decide (state_name = Some "DAMPING"%string) &&
  contains "E-STOP" (upper (default ""%string reason)).

Example normalize_ex :
  map normalize_state_name [Some " fault-latched"; Some "ESTOP"; Some " __ "; None]%string
  = [Some "FAULT_LATCHED"; Some "ESTOP"; None; None]%string.
Proof. vm_compute. reflexivity. Qed.

(** ** Payloads *)

Record TxResult := { tx_can_id : string; tx_data : string; tx_sent_bytes : Z }.

(** [data.hex(" ").upper()] is the text of [hex_data(data)]. *)
Definition format_tx_result (can_id : Z) (data : bytes) (sent_bytes : Z) : TxResult :=
  {| tx_can_id := hex_id can_id; tx_data := hex_data data; tx_sent_bytes := sent_bytes |}.

Definition check_range (value lo hi : float) : res unit :=
  if (value <? lo)%float || (hi <? value)%float then Raise ValueError else Ok ().

(** [float_to_uint]: unlike the driver's, it rounds ties to even. *)
Definition scale_to_uint (value value_min value_max : float) (bits : Z) : res Z :=
  _ ← check_range value value_min value_max;
  let span := (value_max - value_min)%float in
  let max_int := Z.shiftl 1 bits - 1 in
  q ← py_div ((value - value_min) * Z2F max_int)%float span;
  py_round q.

(** Its eight bytes are the ones of the driver's [_pack_mit_payload]. *)
Definition pack_mit_payload (q_rad qd_rad_s kp kd tau_ff_nm : float)
    (p_max v_max kp_max kd_max tau_max : float) : res bytes :=
  _ ← check_range q_rad (- p_max) p_max;
  _ ← check_range qd_rad_s (- v_max) v_max;
  _ ← check_range kp 0 kp_max;
  _ ← check_range kd 0 kd_max;
  _ ← check_range tau_ff_nm (- tau_max) tau_max;
  p_u ← scale_to_uint q_rad (- p_max) p_max 16;
  v_u ← scale_to_uint qd_rad_s (- v_max) v_max 12;
  kp_u ← scale_to_uint kp 0 kp_max 12;
  kd_u ← scale_to_uint kd 0 kd_max 8;
  t_u ← scale_to_uint tau_ff_nm (- tau_max) tau_max 8;
  py_bytes (mit_bytes p_u v_u kp_u kd_u t_u).

(** ** The backend's state *)

(** The service's connection: its client and its flag, how connecting will go,
    what the daemon will answer, and what was written to it. The client asks for
    no receive link, so it has no callbacks. *)
Record DaemonLink := {
  can_client : CANProcessClient Empty_set;
  _connected : bool;
  dl_attempts : list attempt;
  dl_replies : list line;
  dl_requests : list json
}.

Record Backend := {
  be_monitor : MonitorState;
  be_link : DaemonLink;
  be_shm : ShmFs;
  be_clock : Clock;
  be_supervisor : SupSt
}.

Definition put_monitor (m : MonitorState) (s : Backend) : Backend :=
  {| be_monitor := m; be_link := be_link s; be_shm := be_shm s; be_clock := be_clock s;
     be_supervisor := be_supervisor s |}.
Definition put_link (l : DaemonLink) (s : Backend) : Backend :=
  {| be_monitor := be_monitor s; be_link := l; be_shm := be_shm s; be_clock := be_clock s;
     be_supervisor := be_supervisor s |}.
Definition put_backend_shm (f : ShmFs) (s : Backend) : Backend :=
  {| be_monitor := be_monitor s; be_link := be_link s; be_shm := f; be_clock := be_clock s;
     be_supervisor := be_supervisor s |}.
Definition put_backend_clock (k : Clock) (s : Backend) : Backend :=
  {| be_monitor := be_monitor s; be_link := be_link s; be_shm := be_shm s; be_clock := k;
     be_supervisor := be_supervisor s |}.
Definition put_backend_supervisor (p : SupSt) (s : Backend) : Backend :=
  {| be_monitor := be_monitor s; be_link := be_link s; be_shm := be_shm s;
     be_clock := be_clock s; be_supervisor := p |}.

Definition in_monitor {A} (m : ST MonitorState A) : ST Backend A := zoom be_monitor put_monitor m.
Definition in_link {A} (m : ST DaemonLink A) : ST Backend A := zoom be_link put_link m.
Definition in_backend_shm {A} (m : ST ShmFs A) : ST Backend A := zoom be_shm put_backend_shm m.
Definition in_supervisor {A} (m : ST SupSt A) : ST Backend A :=
  zoom be_supervisor put_backend_supervisor m.
Definition monotonic : ST Backend float :=
  zoom be_clock put_backend_clock (read_clock ck_monotonic).

(** [self.can_client.connect()] *)
Definition link_connect (now : float) : ST DaemonLink unit := λ k,
  let c := can_client k in
  let '(r, c, rest) := connect_loop (now + cl_connect_timeout_s c)%float (dl_attempts k) c in
  (r, {| can_client := c; _connected := _connected k; dl_attempts := rest;
         dl_replies := dl_replies k; dl_requests := dl_requests k |}).

(** [can_client.send(frame)]: one request, one answer. *)
Definition link_send (frame : CANFrame) : ST DaemonLink bool := λ k,
  let c := can_client k in
  if tx_open c then
    let reply := match dl_replies k with l :: _ => l | [] => Eof end in
    (client_send c reply,
     {| can_client := c; _connected := _connected k; dl_attempts := dl_attempts k;
        dl_replies := drop 1 (dl_replies k);
        dl_requests := dl_requests k ++ [frame_message "tx" frame] |})
  else (client_send c Eof, k).

Definition set_connected (b : bool) (k : DaemonLink) : DaemonLink :=
  {| can_client := can_client k; _connected := b; dl_attempts := dl_attempts k;
     dl_replies := dl_replies k; dl_requests := dl_requests k |}.

(** ** [class CommandService] *)

Section service.
(** The providers, and [str(exc)] of an exception known by its class. *)
Context (controller_safety_state_provider controller_safety_reason_provider :
  option (ST Backend (option string))).
Context (exc_text : exn → string).

Definition lock_tx (s : Backend) : Backend :=
  put_monitor (with_tx (be_monitor s) false (ms_mit_poll_can_ids (be_monitor s))) s.
Definition unlock_tx (s : Backend) : Backend :=
  put_monitor (with_tx (be_monitor s) true (ms_mit_poll_can_ids (be_monitor s))) s.

(** [except (OSError, RuntimeError) as exc: self.state.socket_error = str(exc);
    raise CommandError], after what [before] does. *)
Definition or_command_error {A} (m : ST Backend A) (before : ST Backend unit) : ST Backend A :=
  try_except m (λ e,
    if isinstance e OSError || isinstance e RuntimeError then
      _ ← before; _ ← in_monitor (set_socket_error (Some (exc_text e))); raise CommandError
    else raise e).

Definition require_tx : ST Backend unit :=
  s ← get;
  if negb (ms_tx_enabled (be_monitor s)) then raise CommandError
  else if negb (_connected (be_link s)) then
    _ ← or_command_error (now ← monotonic; in_link (link_connect now)) (mret ());
    in_link (modify (set_connected true))
  else mret ().

Definition controller_safety_state : ST Backend (option string) :=
  match controller_safety_state_provider with
  | None => mret None
  | Some provider => value ← provider; mret (normalize_state_name value)
  end.

Definition controller_safety_reason : ST Backend (option string) :=
  match controller_safety_reason_provider with
  | None => mret None
  | Some provider => provider
  end.

Definition has_provider : bool :=
  match controller_safety_state_provider with Some _ => true | None => false end.

Definition first_is (opcode : Z) (data : bytes) : bool :=
  match data with b :: _ => b =? opcode | [] => false end.

Definition configured (can_id : Z) (s : Backend) : bool :=
  match actuator_config_for_can_id can_id (be_monitor s) with Some _ => true | None => false end.

Definition name_in (name : option string) (names : list string) : bool :=
  match name with Some n => bool_decide (n ∈ names) | None => false end.

Definition reject_motor_enable_when_blocked (can_id : Z) (data : bytes) : ST Backend unit :=
  s ← get;
  if negb (first_is SPG_CMD_MIT_ENTER data) then mret ()
  else if negb (configured can_id s) then mret ()
  else
    state_name ← controller_safety_state;
    if has_provider && bool_decide (state_name = None) then raise CommandError
    else if name_in state_name ENABLE_BLOCK_STATES then raise CommandError
    else
      reason ← controller_safety_reason;
      if is_operator_estop_damping state_name reason then raise CommandError else mret ().

Definition require_controller_state (allowed_states : list string) : ST Backend unit :=
  state_name ← controller_safety_state;
  if negb has_provider || bool_decide (state_name = None) then raise CommandError
  else if negb (name_in state_name allowed_states) then raise CommandError
  else mret ().

Definition reject_motor_zero_when_not_normal (can_id : Z) (data : bytes) : ST Backend unit :=
  s ← get;
  if negb (first_is SPG_CMD_MIT_SET_ZERO data) then mret ()
  else if negb (configured can_id s) then mret ()
  else require_controller_state ZERO_SET_ALLOWED_STATES.

Definition send_raw (can_id : Z) (data : bytes) : ST Backend TxResult :=
  _ ← reject_motor_enable_when_blocked can_id data;
  _ ← reject_motor_zero_when_not_normal can_id data;
  _ ← require_tx;
  _ ← or_command_error (in_link (link_send {| CanBus.can_id := can_id; CanBus.data := data |}))
        (in_link (modify (set_connected false)));
  now ← monotonic;
  _ ← in_monitor (mark_tx can_id data now);
  _ ← in_monitor (set_socket_error None);
  mret (format_tx_result can_id data CAN_FRAME_SIZE).

Definition send_motor_command (can_id : Z) (opcode : Z) (suffix : bytes) : ST Backend TxResult :=
  s ← get;
  if negb (mc_allow_actuator_commands (ms_config (be_monitor s))) then raise CommandError
  else if negb (configured can_id s) then raise CommandError
  else
    op ← lift (py_bytes [opcode]);
    if bool_decide (suffix = []) then send_raw can_id (op ++ replicate 7 0)
    else if (7 <? length suffix)%nat then raise CommandError
    else send_raw can_id (op ++ replicate (7 - length suffix) 0 ++ suffix).

Definition motor_enter (can_id : Z) := send_motor_command can_id SPG_CMD_MIT_ENTER [].
Definition motor_exit (can_id : Z) := send_motor_command can_id SPG_CMD_MIT_EXIT [].

Definition motor_zero (can_id : Z) (offset_count : Z) : ST Backend TxResult :=
  if negb ((-32768 <=? offset_count) && (offset_count <=? 32767)) then raise CommandError
  else send_motor_command can_id SPG_CMD_MIT_SET_ZERO (le_encode 2 offset_count).

Definition motor_mit_hold (can_id : Z) : ST Backend TxResult :=
  s ← get;
  let c := ms_config (be_monitor s) in
  if negb (mc_allow_actuator_commands c) then raise CommandError
  else
    payload ← lift (pack_mit_payload 0 0 0 0.5 0 (mc_mit_p_max_rad c) (mc_mit_v_max_rad_s c)
                      (mc_mit_kp_max c) (mc_mit_kd_max c) (mc_mit_tau_max_nm c));
    send_raw can_id payload.
End service.

(** ** What it lets through *)

Abbreviation requests s := (dl_requests (be_link s)).

(** Nothing was written to the daemon or to a segment, no switch was touched. *)
Record held (s s' : Backend) : Prop := {
  hd_requests : requests s' = requests s;
  hd_config : ms_config (be_monitor s') = ms_config (be_monitor s);
  hd_tx : ms_tx_enabled (be_monitor s') = ms_tx_enabled (be_monitor s);
  hd_shm : be_shm s' = be_shm s
}.

#[export] Instance held_preorder : PreOrder held.
Proof. split; [by split|]. intros ? ? ? [] []. split; by etrans. Qed.

Definition silent (s s' : Backend) : Prop := requests s' = requests s.

#[export] Instance silent_preorder : PreOrder silent.
Proof. split; [done|]. intros ? ? ? H1 H2. unfold silent in *. by etrans. Qed.

Lemma in_monitor_silent {A} (m : ST MonitorState A) : within silent (in_monitor m).
Proof. intros s. unfold in_monitor, zoom. by destruct (m _). Qed.

Lemma monotonic_held : within held monotonic.
Proof. intros s. by split. Qed.

Lemma socket_error_held e : within held (in_monitor (set_socket_error e)).
Proof.
  intros s. unfold in_monitor, zoom, set_socket_error, on_channel.
  destruct (ms_channels _ !! primary_channel); by split.
Qed.

Lemma connect_held now : within held (in_link (link_connect now)).
Proof.
  intros s. unfold in_link, zoom, link_connect.
  by destruct (connect_loop _ _ _) as [[r c] l].
Qed.

Lemma set_connected_held b : within held (in_link (modify (set_connected b))).
Proof. intros s. by split. Qed.

Section gates.
Context (provider reason_provider : option (ST Backend (option string))) (exc_text : exn → string).
Hypothesis provider_held : ∀ m, provider = Some m → within held m.
Hypothesis reason_held : ∀ m, reason_provider = Some m → within held m.

Abbreviation safety_state := (controller_safety_state provider).

(** What the safety state must be for a motor to be enabled, or zeroed. *)
Definition may_enable (s : Backend) : Prop :=
  ∃ name, fst (safety_state s) = Ok name ∧ (is_Some provider → is_Some name) ∧
          name_in name ENABLE_BLOCK_STATES = false.
Definition may_zero (s : Backend) : Prop :=
  is_Some provider ∧ ∃ name, fst (safety_state s) = Ok (Some name) ∧
                             name ∈ ZERO_SET_ALLOWED_STATES.

Lemma safety_state_held : within held safety_state.
Proof.
  unfold controller_safety_state. destruct provider as [m|] eqn:E; [|apply within_ret, _].
  apply within_bind; [apply _|by apply provider_held|]. intros v. apply within_ret, _.
Qed.

Lemma safety_reason_held : within held (controller_safety_reason reason_provider).
Proof.
  unfold controller_safety_reason. destruct reason_provider as [m|] eqn:E; [|apply within_ret, _].
  by apply reason_held.
Qed.

Lemma or_command_error_held {A} (m : ST Backend A) before :
  within held m → within held before → within held (or_command_error exc_text m before).
Proof.
  intros Hm Hb. unfold or_command_error. apply within_try; [apply _|done|]. intros e.
  destruct (_ || _); [|apply within_raise, _].
  apply within_bind; [apply _|done|]. intros _.
  apply within_bind; [apply _|apply socket_error_held|]. intros _. apply within_raise, _.
Qed.

Lemma enable_gate id data s :
  let '(r, s') := reject_motor_enable_when_blocked provider reason_provider id data s in
  held s s' ∧
  (r = Ok () → configured id s = true → first_is SPG_CMD_MIT_ENTER data = true → may_enable s).
Proof.
  unfold reject_motor_enable_when_blocked, get. st_run.
  destruct (first_is _ data) eqn:E1; cbn [negb]; [|by split].
  destruct (configured id s) eqn:E2; cbn [negb]; [|by split].
  pose proof (safety_state_held s) as Hh. unfold may_enable.
  destruct (safety_state s) as [[name|e] s1]; cbn [fst snd] in *; [|by split].
  destruct (has_provider provider && _) eqn:E3; [by split|].
  destruct (name_in name _) eqn:E4; [by split|].
  pose proof (safety_reason_held s1) as Hr.
  assert (is_Some provider → is_Some name) as Hs.
  { intros [m Hm]. unfold has_provider in E3. rewrite Hm in E3. cbn in E3.
    apply bool_decide_eq_false in E3. by destruct name. }
  destruct (controller_safety_reason _ s1) as [[reason|e] s2]; cbn [fst snd] in *.
  - destruct (is_operator_estop_damping _ _); (split; [by etrans|]); [done|]. eauto.
  - split; [by etrans|done].
Qed.

Lemma require_state_gate allowed s :
  let '(r, s') := require_controller_state provider allowed s in
  held s s' ∧
  (r = Ok () → is_Some provider ∧ ∃ name, fst (safety_state s) = Ok (Some name) ∧ name ∈ allowed).
Proof.
  unfold require_controller_state. st_run. pose proof (safety_state_held s) as Hh.
  destruct (safety_state s) as [[name|e] s1]; cbn [fst snd] in *; [|by split].
  destruct (has_provider provider) eqn:E3; cbn [negb orb]; [|by split].
  destruct name as [name|]; [|by split].
  rewrite (bool_decide_eq_false_2 (Some name = None)) by done. cbn [name_in].
  case_bool_decide as E4; cbn [negb]; (split; [done|]); [|done]. intros _.
  split; [|eauto]. unfold has_provider in E3. by destruct provider.
Qed.

Lemma zero_gate id data s :
  let '(r, s') := reject_motor_zero_when_not_normal provider id data s in
  held s s' ∧
  (r = Ok () → configured id s = true → first_is SPG_CMD_MIT_SET_ZERO data = true → may_zero s).
Proof.
  unfold reject_motor_zero_when_not_normal, get. st_run.
  destruct (first_is _ data) eqn:E1; cbn [negb]; [|by split].
  destruct (configured id s) eqn:E2; cbn [negb]; [|by split].
  pose proof (require_state_gate ZERO_SET_ALLOWED_STATES s) as H.
  destruct (require_controller_state _ _ s) as [r s']. destruct H as [Hh Hr]. split; [done|].
  intros Ho _ _. by apply Hr.
Qed.

Lemma require_tx_spec s :
  let '(r, s') := require_tx exc_text s in
  held s s' ∧ (r = Ok () → ms_tx_enabled (be_monitor s) = true).
Proof.
  unfold require_tx, get. st_run. destruct (ms_tx_enabled _) eqn:E; cbn [negb]; [|by split].
  destruct (_connected _); cbn [negb]; [by split|].
  match goal with |- context [or_command_error exc_text ?m ?b s] =>
    pose proof (or_command_error_held m b
      (within_bind _ _ _ monotonic_held connect_held) (within_ret _ _) s) as Hh;
    destruct (or_command_error exc_text m b s) as [[[]|e] s1] end; [|by split].
  split; [|done]. etrans; [exact Hh|]. apply set_connected_held.
Qed.

(** The handler neither writes to the daemon nor swallows the exception. *)
Lemma or_command_error_run {A} (m : ST Backend A) before s :
  within silent before →
  requests (snd (or_command_error exc_text m before s)) = requests (snd (m s)) ∧
  is_ok (fst (or_command_error exc_text m before s)) = is_ok (fst (m s)).
Proof.
  intros Hb. unfold or_command_error, try_except.
  destruct (m s) as [[a|e] s1]; [done|]. cbn [fst snd is_ok].
  destruct (_ || _); [|done]. st_run. specialize (Hb s1).
  destruct (before s1) as [[[]|e'] s2]; cbn [fst snd is_ok] in *; [|done].
  pose proof (in_monitor_silent (set_socket_error (Some (exc_text e))) s2) as Hs.
  destruct (in_monitor _ s2) as [[[]|e'] s3]; cbn [fst snd is_ok] in *; (split; [|done]); by etrans.
Qed.

(** The exchange with the daemon: one request, unless there is no link. *)
Lemma exchange_spec f s :
  let '(r, s') := or_command_error exc_text (in_link (link_send f))
                    (in_link (modify (set_connected false))) s in
  requests s' = requests s ∧ is_ok r = false ∨
  requests s' = requests s ++ [frame_message "tx" f].
Proof.
  destruct (or_command_error_run (in_link (link_send f))
    (in_link (modify (set_connected false))) s) as [Hq Hr]; [by intros ?|].
  destruct (or_command_error _ _ _ s) as [r s']. cbn [fst snd] in *. rewrite Hq, Hr.
  unfold in_link, zoom, link_send. destruct (tx_open _) eqn:E; [by right|].
  left. unfold client_send. by rewrite E.
Qed.

(** What leads from the frame a caller asks for to the frames on the wire. *)
Record gated (s : Backend) (f : CANFrame) : Prop := {
  gt_unlocked : ms_tx_enabled (be_monitor s) = true;
  gt_enable : configured (CanBus.can_id f) s = true →
              first_is SPG_CMD_MIT_ENTER (CanBus.data f) = true → may_enable s;
  gt_zero : configured (CanBus.can_id f) s = true →
            first_is SPG_CMD_MIT_SET_ZERO (CanBus.data f) = true → may_zero s
}.

(** [r] and [s'] are how a call that asks for [f] may end: with [f] written to the
    daemon, which the call only reports as done when it is, or with nothing. *)
Definition ends_gated {A} (s : Backend) (f : CANFrame) (o : res A * Backend) : Prop :=
  requests (snd o) = requests s ∧ is_ok (fst o) = false ∨
  requests (snd o) = requests s ++ [frame_message "tx" f] ∧ gated s f.

Lemma accounted id data : within silent
  (now ← monotonic; _ ← in_monitor (mark_tx id data now);
   _ ← in_monitor (set_socket_error None); mret (format_tx_result id data CAN_FRAME_SIZE)).
Proof.
  apply within_bind; [apply _|by intros ?|]. intros now.
  apply within_bind; [apply _|apply in_monitor_silent|]. intros _.
  apply within_bind; [apply _|apply in_monitor_silent|]. intros _. apply within_ret, _.
Qed.

Lemma first_is_other data :
  first_is SPG_CMD_MIT_SET_ZERO data = true → first_is SPG_CMD_MIT_ENTER data = false.
Proof.
  destruct data as [|b data]; [done|]. cbn. intros ->%Z.eqb_eq. done.
Qed.

Lemma send_raw_gated id data s :
  ends_gated s {| CanBus.can_id := id; CanBus.data := data |}
    (send_raw provider reason_provider exc_text id data s).
Proof.
  set (f := {| CanBus.can_id := id; CanBus.data := data |}).
  assert (∀ e s', held s s' → ends_gated s f (@Raise TxResult e, s')) as Hno.
  { intros e s' []. by left. }
  unfold send_raw. pose proof (enable_gate id data s) as H1.
  destruct (reject_motor_enable_when_blocked _ _ _ _ s) as [[[]|e] s1] eqn:E1;
    destruct H1 as [Hh1 Hen]; [|rewrite (st_bind_raise _ _ _ _ _ E1); by apply Hno].
  rewrite (st_bind_ok _ _ _ _ _ E1).
  pose proof (zero_gate id data s1) as H2.
  destruct (reject_motor_zero_when_not_normal _ _ _ s1) as [[[]|e] s2] eqn:E2;
    destruct H2 as [Hh2 Hze]; [|rewrite (st_bind_raise _ _ _ _ _ E2); apply Hno; by etrans].
  rewrite (st_bind_ok _ _ _ _ _ E2). pose proof (require_tx_spec s2) as H3.
  destruct (require_tx _ s2) as [[[]|e] s3] eqn:E3; destruct H3 as [Hh3 Htx];
    [|rewrite (st_bind_raise _ _ _ _ _ E3); apply Hno; etrans; [done|by etrans]].
  rewrite (st_bind_ok _ _ _ _ _ E3). pose proof (exchange_spec f s3) as H4.
  assert (held s s3) as Hh by (etrans; [done|by etrans]).
  destruct (or_command_error _ _ _ s3) as [r s4] eqn:E4.
  destruct H4 as [[Hq Hr]|Hq]; rewrite (hd_requests _ _ Hh) in Hq.
  - destruct r as [b|e]; [done|]. rewrite (st_bind_raise _ _ _ _ _ E4). by left.
  - right. split; [|split].
    + destruct r as [b|e]; [|by rewrite (st_bind_raise _ _ _ _ _ E4)].
      rewrite (st_bind_ok _ _ _ _ _ E4). rewrite <-Hq. apply accounted.
    + rewrite <-(hd_tx _ _ Hh1), <-(hd_tx _ _ Hh2). by apply Htx.
    + by apply Hen.
    + intros Hc Hz. assert (s1 = s) as ->; [|by apply Hze].
      unfold reject_motor_enable_when_blocked, get in E1. revert E1. st_run.
      rewrite first_is_other by done. cbn [negb]. by intros [= <-].
Qed.

(** *** Every operation of the service *)

Inductive command :=
  | SendRaw (can_id : Z) (data : bytes)
  | Enter (can_id : Z)
  | Exit (can_id : Z)
  | Zero (can_id : Z) (offset_count : Z)
  | Hold (can_id : Z)
  | LockTx
  | UnlockTx.

Definition drop_result (m : ST Backend TxResult) : ST Backend unit := _ ← m; mret ().

Definition perform (c : command) : ST Backend unit :=
  match c with
  | SendRaw id data => drop_result (send_raw provider reason_provider exc_text id data)
  | Enter id => drop_result (motor_enter provider reason_provider exc_text id)
  | Exit id => drop_result (motor_exit provider reason_provider exc_text id)
  | Zero id off => drop_result (motor_zero provider reason_provider exc_text id off)
  | Hold id => drop_result (motor_mit_hold provider reason_provider exc_text id)
  | LockTx => modify lock_tx
  | UnlockTx => modify unlock_tx
  end.

(** The frame a command asks for, if it asks for one at all. *)
Definition asked (c : command) (s : Backend) : option CANFrame :=
  let cfg := ms_config (be_monitor s) in
  let frame id data := {| CanBus.can_id := id; CanBus.data := data |} in
  let motor id data :=
    if mc_allow_actuator_commands cfg && configured id s then Some (frame id data) else None in
  match c with
  | SendRaw id data => Some (frame id data)
  | Enter id => motor id [SPG_CMD_MIT_ENTER; 0; 0; 0; 0; 0; 0; 0]
  | Exit id => motor id [SPG_CMD_MIT_EXIT; 0; 0; 0; 0; 0; 0; 0]
  | Zero id off =>
      if (-32768 <=? off) && (off <=? 32767)
      then motor id ([SPG_CMD_MIT_SET_ZERO; 0; 0; 0; 0; 0] ++ le_encode 2 off) else None
  | Hold id =>
      if mc_allow_actuator_commands cfg then
        match pack_mit_payload 0 0 0 0.5 0 (mc_mit_p_max_rad cfg) (mc_mit_v_max_rad_s cfg)
                (mc_mit_kp_max cfg) (mc_mit_kd_max cfg) (mc_mit_tau_max_nm cfg) with
        | Ok data => Some (frame id data)
        | Raise _ => None
        end
      else None
  | LockTx | UnlockTx => None
  end.

Lemma drop_result_gated s f m :
  ends_gated s f (m s) → ends_gated s f (drop_result m s).
Proof. unfold ends_gated, drop_result. st_run. by destruct (m s) as [[r|e] s']. Qed.

Lemma motor_command_gated id opcode suffix s (f : CANFrame) :
  0 ≤ opcode < 256 → (length suffix ≤ 7)%nat →
  f = {| CanBus.can_id := id; CanBus.data := opcode :: replicate (7 - length suffix) 0 ++ suffix |} →
  let o := send_motor_command provider reason_provider exc_text id opcode suffix s in
  if mc_allow_actuator_commands (ms_config (be_monitor s)) && configured id s
  then ends_gated s f o else o = (Raise CommandError, s).
Proof.
  intros Hop Hl -> o. subst o. unfold send_motor_command, get. st_run.
  destruct (mc_allow_actuator_commands _); cbn [negb andb]; [|done].
  destruct (configured id s); cbn [negb]; [|done].
  rewrite py_bytes_Ok by (constructor; [done|constructor]).
  case_bool_decide as Hs; [subst suffix; rewrite app_nil_r; apply send_raw_gated|].
  destruct (Nat.ltb_spec 7 (length suffix)); [lia|]. apply send_raw_gated.
Qed.

End gates.

(** *** A backend connected to a daemon that accepts a frame *)

Definition example_monitor : MonitorState :=
  ensure_known_nodes
    {| ms_config := monitor_example_config;
       ms_channels := [CanChannelState_new "can0" "CAN 0" "can0" 1000000 1 1.2];
       ms_tx_enabled := true; ms_mit_poll_can_ids := ∅; ms_raw_frames := []; ms_nodes := [];
       ms_imu := E2BoxState_new; ms_motors := [] |}.

Definition example_link : DaemonLink :=
  {| can_client := with_links (client_init 1 false) true false false; _connected := true;
     dl_attempts := []; dl_replies := [Line (tx_result true)]; dl_requests := [] |}.

Definition example_backend (shm : ShmFs) : Backend :=
  {| be_monitor := example_monitor; be_link := example_link; be_shm := shm;
     be_clock := {| ck_monotonic := λ n, Z2F (Z.of_nat n); ck_unix := λ _, 1000.25%float;
                    ck_ns := λ n, Z.of_nat n; ck_reads := 0 |};
     be_supervisor := (example_sup, example_os) |}.

Definition enable_payload : bytes := [SPG_CMD_MIT_ENTER; 0; 0; 0; 0; 0; 0; 0].

