(* ===== verification/DashboardView.v ===== *)
(** * What the dashboard shows of the controller

    [dashboard/backend/robot_state_shm.py]: the reader of the two segments the
    controller publishes, and how it merges what it reads into the monitor's
    snapshot. The payload is the dict that [RobotStateShm.read_latest] builds, a
    record here: an [isinstance(..., dict)] test of one of its parts always holds,
    and [get] of a key it does not have gives the default. *)

From stdpp Require Import pretty.
From S2P Require Import Prelude PyFloat PyDict CStruct RobotState Wire ActuatorDriver Config DashboardDecode.
From S2P Require Import DashboardState DashboardCommand.
Open Scope Z_scope.

(** [class DashboardRobotStateReader]; its [state] is the backend's monitor. *)
Record DashboardRobotStateReader := {
  control_shm_name : string;
  dashboard_shm_name : string;
  stale_timeout_s : float;
  control_reader : ShmObj;
  dashboard_reader : ShmObj
}.

Definition reader_init (control_name dashboard_name : string) (stale_timeout_s : float) :
    ST ShmFs DashboardRobotStateReader :=
  c ← RobotStateShm.open_reader control_name;
  d ← RobotStateShm.open_reader dashboard_name;
  mret {| control_shm_name := control_name; dashboard_shm_name := dashboard_name;
          DashboardView.stale_timeout_s := stale_timeout_s; control_reader := c;
          dashboard_reader := d |}.

Definition reader_close (r : DashboardRobotStateReader) : DashboardRobotStateReader :=
  {| control_shm_name := control_shm_name r; dashboard_shm_name := dashboard_shm_name r;
     stale_timeout_s := DashboardView.stale_timeout_s r;
     control_reader := RobotStateShm.close (control_reader r);
     dashboard_reader := RobotStateShm.close (dashboard_reader r) |}.

(** The result of [_channel_result]; the text of an error is not modelled, its
    exception is. *)
Record ChannelResult := {
  cr_status : string;
  cr_shm_name : string;
  cr_age_s : option float;
  cr_error : option exn;
  cr_payload : option RobotStateDict
}.

Definition _channel_result (shm_name status : string) (payload : option RobotStateDict)
    (error : option exn) (age_s : option float) : ChannelResult :=
  {| cr_status := status; cr_shm_name := shm_name; cr_age_s := age_s; cr_error := error;
     cr_payload := payload |}.

Definition unix_time : ST Backend float := zoom be_clock put_backend_clock (read_clock ck_unix).

(** [_read_channel]: the payload's schema is always the one of the C structure
    and its [timestamp_unix] a float. *)
Definition _read_channel (reader : ShmObj) (shm_name : string) (stale_timeout_s : float) :
    ST Backend ChannelResult :=
  now ← monotonic;
  x ← try_except (y ← in_backend_shm (RobotStateShm.read_latest now reader); mret (inl y))
        (λ e, if isinstance e FileNotFoundError then
                mret (inr (_channel_result shm_name "disconnected" None (Some e) None))
              else if isinstance e RuntimeError || isinstance e ValueError then
                mret (inr (_channel_result shm_name "error" None (Some e) None))
              else raise e);
  match x with
  | inr result => mret result
  | inl None => mret (_channel_result shm_name "waiting" None None None)
  | inl (Some robot_state) =>
      t ← unix_time;
      let age_s := py_max 0 (t - rd_timestamp_unix robot_state)%float in
      let status := if (stale_timeout_s <? age_s)%float then "stale"%string else "online"%string in
      mret (_channel_result shm_name status (Some robot_state) None (Some age_s))
  end.

(** ** What the controller says of itself *)

(** [payload.get(key)] for the keys [_controller_snapshot] asks for: of these the
    payload has only [controller_state]. *)
Definition payload_get (key : string) (payload : RobotStateDict) : option string :=
  if bool_decide (key = "controller_state"%string) then Some (rd_controller_state payload)
  else None.

Record ControllerView := {
  cv_shm_name : string;
  cv_status : string;
  cv_controller_state : option string;
  cv_safety_state : option string;
  cv_control_action : option string;
  cv_safety_reason : option string;
  cv_fault_code : option string;
  cv_age_s : option float;
  cv_error : option exn
}.

(** [a or b] on texts and [None] *)
Definition text_or (a b : option string) : option string :=
  match a with Some ""%string | None => b | Some _ => a end.

Definition _controller_snapshot (control_state : ChannelResult) : ControllerView :=
  let get key := cr_payload control_state ≫= payload_get key in
  {| cv_shm_name := cr_shm_name control_state; cv_status := cr_status control_state;
     cv_controller_state := get "controller_state"%string;
     cv_safety_state := text_or (get "safety_state"%string) (get "controller_state"%string);
     cv_control_action := get "control_action"%string;
     cv_safety_reason := get "safety_reason"%string;
     cv_fault_code := get "fault_code"%string;
     cv_age_s := cr_age_s control_state; cv_error := cr_error control_state |}.

(** ** Merging *)

Section merge.
(** [f"{x:.<n>f}"] *)
Context (fixed : nat → float → string).

Definition _age (now_monotonic last_t : float) : option float :=
  if (last_t <=? 0)%float then None else Some (py_max 0 (now_monotonic - last_t)%float).

Definition _control_status (item : ActuatorDict) (age_s : option float) : string :=
  match age_s with
  | None => "never"
  | Some _ => if ad_stale item || negb (ad_online item) then "timeout" else "online"
  end.

Definition _control_mode (item : ActuatorDict) (age_s : option float) : string :=
  match age_s, ad_is_enabled item with
  | None, _ => "never"
  | Some _, Some true => "ENABLED"
  | Some _, Some false => "DISABLED"
  | Some _, None => "FEEDBACK"
  end.

Definition part (name : string) (digits : nat) (unit : string) (x : option float) : list string :=
  match x with Some x => [(name ++ fixed digits x ++ unit)%string] | None => [] end.

Definition _control_summary (item : ActuatorDict) : string :=
  String.concat " "
    (part "q=" 3 "rad" (ad_position_rad item) ++
     part "qd=" 3 "rad/s" (ad_velocity_rad_s item) ++
     part "tau=" 3 "Nm" (ad_torque_nm item) ++
     part "i=" 2 "A" (ad_current_a item) ++
     match ad_fault_code item with
     | None => []
     | Some fault_code =>
         if fault_code =? 0 then [] else [("fault=" ++ pretty fault_code)%string]
     end).

Definition _rad_s_to_deg_s (value : option float) : option float :=
  (λ x, (x * 57.29577951308232)%float) <$> value.

Definition _actuator_name (can_id : Z) (s : MonitorState) : string :=
  default (hex_id can_id) (actuator_config_for_can_id can_id s).

Definition _control_motor_snapshot (s : MonitorState) (now_monotonic : float)
    (item : ActuatorDict) : MotorView :=
  let can_id := ad_can_id item in
  let age_s := match ad_age_s item with
               | Some a => Some a
               | None => _age now_monotonic (ad_last_feedback_t item)
               end in
  let existing := dict_get can_id (ms_motors s) in
  let current_a := match ad_current_a item with
                   | Some x => Some x | None => existing ≫= mo_iq_a_approx end in
  let temperature_c := match ad_temperature_c item with
                       | Some x => Some (RFloat x)
                       | None => RInt <$> (existing ≫= mo_temperature_c) end in
  {| mv_name := _actuator_name can_id s; mv_can_id := hex_id can_id;
     mv_rx_count := match existing with Some m => mo_rx_count m | None => 0 end;
     mv_age_s := age_s; mv_status := _control_status item age_s;
     mv_last_kind := _control_mode item age_s; mv_enabled_hint := ad_is_enabled item;
     mv_mit_polling := bool_decide (can_id ∈ ms_mit_poll_can_ids s);
     mv_temperature_c := temperature_c; mv_current_a := current_a;
     mv_speed_dps := RFloat <$> _rad_s_to_deg_s (ad_velocity_rad_s item);
     mv_position_rad := ad_position_rad item;
     mv_zero_offset_count := existing ≫= mo_zero_offset_count;
     mv_raw := _control_summary item |}.

(** The node of a motor of the controller. *)
Definition actuator_node (s : MonitorState) (existing_by_can_id : dict Z NodeSnapshot)
    (motor : MotorView) : res NodeSnapshot :=
  can_id ← py_int0 (mv_can_id motor);
  Ok {| ns_key := node_key can_id; ns_name := mv_name motor; ns_can_id := mv_can_id motor;
        ns_role := "Actuator";
        ns_heartbeat_hz := match dict_get can_id existing_by_can_id with
                           | Some n => ns_heartbeat_hz n | None => 0 end;
        ns_last_seen_s := mv_age_s motor; ns_timeout_s := mc_node_timeout_s (ms_config s);
        ns_status := mv_status motor; ns_rx_count := mv_rx_count motor;
        ns_last_data := mv_raw motor |}.

Definition _nodes_from_control_state (s : MonitorState) (existing_nodes : list NodeSnapshot)
    (motors : list MotorView) : res (list NodeSnapshot) :=
  let non_actuator_nodes := filter (λ n, ns_role n ≠ "Actuator"%string) existing_nodes in
  ids ← mapR (λ n, py_int0 (ns_can_id n)) existing_nodes;
  actuator_nodes ← mapR (actuator_node s (dict_of (zip ids existing_nodes))) motors;
  let nodes := non_actuator_nodes ++ actuator_nodes in
  keys ← mapR (λ n, py_int0 (ns_can_id n)) nodes;
  Ok (map snd (sorted_by fst (zip keys nodes))).

(** What [api_state] returns, the process rows apart. *)
Record DashboardSnapshot := {
  ds_base : MonitorSnapshot;
  ds_control_state : option ChannelResult;
  ds_dashboard_state : option ChannelResult;
  ds_robot_controller : option ControllerView;
  ds_current_command : option CommandOutputDict
}.

Definition with_control (b : MonitorSnapshot) (imu : ImuView) (motors : list MotorView)
    (nodes : list NodeSnapshot) : MonitorSnapshot :=
  {| mn_time := mn_time b; mn_uptime_s := mn_uptime_s b; mn_can_channels := mn_can_channels b;
     mn_nodes := nodes; mn_imu := imu; mn_motors := motors;
     mn_recent_frames := mn_recent_frames b; mn_tx_enabled := mn_tx_enabled b;
     mn_allow_actuator_commands := mn_allow_actuator_commands b;
     mn_mit_poll_can_ids := mn_mit_poll_can_ids b; mn_mit_poll_hz := mn_mit_poll_hz b |}.

Definition _merge_control_state (base : MonitorSnapshot) (robot_state : RobotStateDict) :
    ST Backend MonitorSnapshot :=
  now_monotonic ← monotonic;
  s ← gets be_monitor;
  let imu := rd_imu robot_state in
  let view :=
    {| iv_req_count := iv_req_count (mn_imu base); iv_quat_count := iv_quat_count (mn_imu base);
       iv_gyro_count := iv_gyro_count (mn_imu base); iv_quat_xyzw := list4 (id_quat_xyzw imu);
       iv_projected_gravity_b := list3 (id_projected_gravity_b imu);
       iv_angular_velocity_rad_s := list3 (id_angular_velocity_rad_s imu);
       iv_quat_age_s := _age now_monotonic (id_last_quat_t imu);
       iv_gyro_age_s := _age now_monotonic (id_last_gyro_t imu) |} in
  let motors := map (_control_motor_snapshot s now_monotonic) (rd_actuators robot_state) in
  nodes ← lift (_nodes_from_control_state s (mn_nodes base) motors);
  mret (with_control base view motors nodes).

(** [dashboard_snapshot()]. The payload of the dashboard's segment is merged by
    [_merge_dashboard_state], which finds neither processes nor a CAN interface in
    it and changes nothing. *)
Definition dashboard_snapshot (r : DashboardRobotStateReader) : ST Backend DashboardSnapshot :=
  now ← monotonic;
  base ← in_monitor (snapshot now);
  control_state ← _read_channel (control_reader r) (control_shm_name r)
                    (DashboardView.stale_timeout_s r);
  base ← match cr_payload control_state with
         | Some payload => _merge_control_state base payload
         | None => mret base
         end;
  dashboard_state ← _read_channel (dashboard_reader r) (dashboard_shm_name r)
                      (DashboardView.stale_timeout_s r);
  mret {| ds_base := base; ds_control_state := Some control_state;
          ds_dashboard_state := Some dashboard_state;
          ds_robot_controller := Some (_controller_snapshot control_state);
          ds_current_command := rd_command_output <$> cr_payload control_state |}.
End merge.
