(* ===== verification/DashboardApp.v ===== *)
(** * The dashboard's application

    [dashboard/backend/app.py]: what the requests of the web page do. A handler's
    outcome is its answer, an [HTTPException] with its status, or an exception
    that leaves it, which the server turns into a 500. Handlers run to their end
    one at a time, except that the process ones wait in a thread. *)

From Stdlib Require Import Ascii String.
From S2P Require Import Prelude PyFloat PyDict CStruct OperatorCommand StateMachine RobotState.
From S2P Require Import Telemetry CanBus Wire ActuatorDriver Config Supervisor.
From S2P Require Import DashboardDecode DashboardState DashboardCommand DashboardView.
Open Scope Z_scope.

Definition PROTECTED_PROCESS_NAMES : list string := ["can_daemon"; "dashboard"]%string.

(** ** The application's state *)

(** The backend, and the segment [operator_commands] writes. *)
Record App := { app_backend : Backend; operator_commands : ShmObj }.

Definition put_app_backend (b : Backend) (s : App) : App :=
  {| app_backend := b; operator_commands := operator_commands s |}.
Definition in_backend {A} (m : ST Backend A) : ST App A := zoom app_backend put_app_backend m.

(** What a handler answers. *)
Inductive reply (A : Type) := Done (a : A) | HTTPException (status_code : Z).
Arguments Done {A}.
Arguments HTTPException {A}.

(** [try: ... except classes as exc: raise HTTPException(code)], one clause after
    the other. *)
Fixpoint clause (clauses : list (list exn * Z)) (e : exn) : option Z :=
  match clauses with
  | [] => None
  | (classes, code) :: clauses =>
      if existsb (isinstance e) classes then Some code else clause clauses e
  end.

Definition http {A} (m : ST App A) (clauses : list (list exn * Z)) : ST App (reply A) :=
  try_except (a ← m; mret (Done a))
    (λ e, match clause clauses e with
          | Some code => mret (HTTPException code)
          | None => raise e
          end).

(** ** Requests *)

(** [int | str] *)
Definition parse_can_id (value : Z + string) : res Z :=
  match value with inl z => Ok z | inr s => py_int0 s end.

Definition is_filler (c : ascii) : bool := bool_decide (c = " " ∨ c = "_" ∨ c = "-")%char.

Definition parse_hex_payload (value : string) : res bytes :=
  let compact := String.string_of_list_ascii
    (filter (λ c, is_filler c = false) (String.list_ascii_of_string value)) in
  if negb (Nat.even (String.length compact)) then Raise ValueError
  else
    data ← bytes_fromhex compact;
    if (8 <? length data)%nat then Raise ValueError else Ok data.

Definition round_half_away (value : float) : res Z :=
  if (0 <=? value)%float then py_int (value + 0.5)%float else py_int (value - 0.5)%float.

(** [class MotorZeroRequest] and its [resolved_offset_count()] *)
Record MotorZeroRequest := { offset_count : option Z; offset_deg : option float }.

Definition resolved_offset_count (req : MotorZeroRequest) : res Z :=
  match offset_count req, offset_deg req with
  | Some _, Some _ => Raise ValueError
  | _, Some d => round_half_away (d * 100)%float
  | Some n, None => Ok n
  | None, None => Ok 0
  end.

(** [class OperatorZeroTargetRequest] *)
Record OperatorZeroTargetRequest := { zt_can_id : Z + string; zt_offset : MotorZeroRequest }.

Section app.
(** The robot-state reader, when it is enabled; [f"{x:.nf}"]; [str(exc)]; the
    environment of child processes. *)
Context (robot_state_reader : option DashboardRobotStateReader).
Context (fixed : nat → float → string) (exc_text : exn → string).
Context (environ : dict string string) (resolve : string → string).

(** ** Snapshots *)

Record ProcessRow := {
  row_name : string; row_status : ProcessStatus; row_manageable : bool; row_reason : string }.

(** [sorted(items)] by name: the names of a dict are distinct. *)
Fixpoint insert_name {A} (x : string * A) (l : list (string * A)) : list (string * A) :=
  match l with
  | [] => [x]
  | y :: l' => if String.leb (fst x) (fst y) then x :: l else y :: insert_name x l'
  end.
Definition sorted_items {A} (d : dict string A) : list (string * A) := foldr insert_name [] d.

Definition process_status_rows : ST Backend (list ProcessRow) :=
  status ← in_supervisor status;
  mret (map (λ ni,
    let protected := bool_decide (fst ni ∈ PROTECTED_PROCESS_NAMES) in
    {| row_name := fst ni; row_status := snd ni; row_manageable := negb protected;
       row_reason := (if protected then "managed by robot controller supervisor" else "")%string |})
    (sorted_items status)).

(** [dashboard_snapshot()], its process rows apart. *)
Definition backend_snapshot : ST Backend DashboardSnapshot :=
  match robot_state_reader with
  | None =>
      now ← DashboardCommand.monotonic;
      base ← in_monitor (snapshot now);
      mret {| ds_base := base; ds_control_state := None; ds_dashboard_state := None;
              ds_robot_controller := None; ds_current_command := None |}
  | Some r => DashboardView.dashboard_snapshot fixed r
  end.

Definition dashboard_snapshot : ST Backend (DashboardSnapshot * list ProcessRow) :=
  snapshot ← backend_snapshot;
  rows ← process_status_rows;
  mret (snapshot, rows).

(** [current_controller_snapshot()] *)
Definition current_controller_snapshot : ST Backend (option ControllerView) :=
  snapshot ← dashboard_snapshot;
  mret (match ds_robot_controller (fst snapshot) with
        | Some c => if bool_decide (cv_status c = "online"%string) then Some c else None
        | None => None
        end).

Definition current_controller_safety_state : ST Backend (option string) :=
  controller ← current_controller_snapshot;
  mret (controller ≫= cv_safety_state).

Definition current_controller_safety_reason : ST Backend (option string) :=
  controller ← current_controller_snapshot;
  mret (controller ≫= cv_safety_reason).

(** The providers [commands] is constructed with. *)
Definition state_provider : option (ST Backend (option string)) :=
  match robot_state_reader with Some _ => Some current_controller_safety_state | None => None end.
Definition reason_provider : option (ST Backend (option string)) :=
  match robot_state_reader with Some _ => Some current_controller_safety_reason | None => None end.

(** ** The handlers *)

Definition api_state := in_backend dashboard_snapshot.
Definition api_processes := in_backend process_status_rows.

Definition known_process (name : string) (s : App) : bool :=
  match dict_get name (process_configs (fst (be_supervisor (app_backend s)))) with
  | Some _ => true | None => false end.

(** [ensure_process_name], [ensure_process_manageable], then the operation. *)
Definition manage (name : string) (m : ST SupSt unit) : ST App (reply (list ProcessRow)) :=
  s ← get;
  if negb (known_process name s) then mret (HTTPException 404)
  else if bool_decide (name ∈ PROTECTED_PROCESS_NAMES) then mret (HTTPException 403)
  else
    x ← http (in_backend (in_supervisor m)) [([KeyError; RuntimeError; ValueError; OSError], 400)];
    match x with
    | HTTPException code => mret (HTTPException code)
    | Done _ => rows ← in_backend process_status_rows; mret (Done rows)
    end.

Definition api_process_start (name : string) := manage name (start_by_name environ resolve name).
Definition api_process_stop (name : string) (shutdown_timeout_s : float) :=
  manage name (stop_by_name name shutdown_timeout_s).

Definition tx_lock : ST App (reply bool) :=
  _ ← in_backend (modify lock_tx);
  s ← get; mret (Done (ms_tx_enabled (be_monitor (app_backend s)))).
Definition tx_unlock : ST App (reply bool) :=
  _ ← in_backend (modify unlock_tx);
  s ← get; mret (Done (ms_tx_enabled (be_monitor (app_backend s)))).

(** [POST /api/can/send] *)
Definition can_send (can_id : Z + string) (data : string) : ST App (reply TxResult) :=
  http (id ← lift (parse_can_id can_id);
        payload ← lift (parse_hex_payload data);
        in_backend (send_raw state_provider reason_provider exc_text id payload))
    [([ValueError; CommandError; OSError], 400)].

(** [POST /api/operator/<what>] for the five commands without targets; the clock
    gives the time the command is stamped with. *)
Definition publish_flags (f : OperatorCommandShmWriter.flags) : ST App Z :=
  s ← get;
  in_backend (now_ns ← zoom be_clock put_backend_clock (read_clock ck_ns);
              in_backend_shm (OperatorCommandShmWriter.publish now_ns (operator_commands s) f)).

Definition operator_post (f : OperatorCommandShmWriter.flags) : ST App (reply Z) :=
  http (publish_flags f) [([FileNotFoundError; RuntimeError; ValueError], 503)].

Definition operator_fault_clear := operator_post
  (OperatorCommandShmWriter.Build_flags false true false false false false false).
Definition operator_arm := operator_post
  (OperatorCommandShmWriter.Build_flags true false false false false false false).
Definition operator_run := operator_post
  (OperatorCommandShmWriter.Build_flags false false false false false false true).
Definition operator_damping := operator_post
  (OperatorCommandShmWriter.Build_flags false false false true false false false).
Definition operator_estop := operator_post
  (OperatorCommandShmWriter.Build_flags false false true false false false false).

(** [publish_operator_zero_set(targets)] *)
Definition check_zero_target (t : Z * Z) : ST Backend unit :=
  s ← get;
  if negb (configured (fst t) s) then raise ValueError
  else if negb ((-32768 <=? snd t) && (snd t <=? 32767)) then raise ValueError
  else mret ().

Definition publish_operator_zero_set (targets : list (Z * Z)) : ST App Z :=
  s ← get;
  in_backend
    (_ ← require_controller_state state_provider ["NORMAL"%string];
     _ ← for_each targets check_zero_target;
     now_ns ← zoom be_clock put_backend_clock (read_clock ck_ns);
     in_backend_shm (OperatorCommandShmWriter.publish_zero_set now_ns (operator_commands s) targets)).

Definition zero_target (t : OperatorZeroTargetRequest) : res (Z * Z) :=
  can_id ← parse_can_id (zt_can_id t);
  offset ← resolved_offset_count (zt_offset t);
  Ok (can_id, offset).

Definition zero_clauses : list (list exn * Z) :=
  [([ValueError], 400); ([CommandError], 403); ([FileNotFoundError; RuntimeError], 503)].

(** [POST /api/operator/zero-set]; a request without body has no targets. *)
Definition operator_zero_set (req : list OperatorZeroTargetRequest) : ST App (reply Z) :=
  http (targets ← lift (mapR zero_target req); publish_operator_zero_set targets) zero_clauses.

(** [POST /api/actuator/<can_id>/...] *)
Definition motor_post (m : Z → ST Backend TxResult) (can_id : string) : ST App (reply TxResult) :=
  http (id ← lift (parse_can_id (inr can_id)); in_backend (m id))
    [([CommandError; OSError], 403)].
Definition api_motor_enter := motor_post (motor_enter state_provider reason_provider exc_text).
Definition api_motor_exit := motor_post (motor_exit state_provider reason_provider exc_text).

Definition api_motor_zero (can_id : string) (req : MotorZeroRequest) : ST App (reply Z) :=
  http (offset ← lift (resolved_offset_count req);
        id ← lift (parse_can_id (inr can_id));
        publish_operator_zero_set [(id, offset)]) zero_clauses.

Definition set_poll (f : gset Z → gset Z) (s : Backend) : Backend :=
  let m := be_monitor s in put_monitor (with_tx m (ms_tx_enabled m) (f (ms_mit_poll_can_ids m))) s.

Definition motor_mit_poll_start (can_id : string) (confirmed : bool) : ST App (reply string) :=
  if negb confirmed then mret (HTTPException 400)
  else
    id ← lift (parse_can_id (inr can_id));
    s ← get;
    match dict_get id (ms_motors (be_monitor (app_backend s))) with
    | None => mret (HTTPException 404)
    | Some _ => _ ← in_backend (modify (set_poll (λ x, {[id]} ∪ x))); mret (Done (hex_id id))
    end.

Definition motor_mit_poll_stop (can_id : string) : ST App (reply string) :=
  id ← lift (parse_can_id (inr can_id));
  _ ← in_backend (modify (set_poll (λ x, x ∖ {[id]})));
  mret (Done (hex_id id)).

(** ** The background tasks *)

(** What one call of [sock.recv] gives. *)
Inductive received_frame := Frame (frame_bytes : bytes) | WouldBlock | SocketFailed (e : exn).

(** The reading part of a round of [socketcan_loop] on a connected channel: frames
    until none is left, at most [max_frames_per_tick] of them. *)
Definition max_frames_per_tick : nat := 4096.

Fixpoint read_frames (budget : nat) (channel : nat) (l : list received_frame) : ST Backend nat :=
  match budget, l with
  | S budget, Frame frame_bytes :: l =>
      frame ← lift (parse_can_frame frame_bytes);
      now ← DashboardCommand.monotonic;
      _ ← in_monitor (mark_rx frame now (Some channel));
      n ← read_frames budget channel l;
      mret (S n)
  | S _, SocketFailed e :: _ => raise e
  | _, _ => mret 0%nat
  end.

Definition set_channel_socket (channel : nat) (status : string) (error : option string) :
    ST Backend unit :=
  in_monitor (on_channel channel (modify (λ c, set_socket c status error))).

(** A round: whether the socket is open, what opening it gives if it is not, and
    whether it is open afterwards. *)
Definition socketcan_round (channel : nat) (open : bool) (opened : res unit)
    (l : list received_frame) : ST Backend bool :=
  match (if open then Ok () else opened) with
  | Raise e =>
      if isinstance e OSError then
        _ ← set_channel_socket channel "disconnected" (Some (exc_text e)); mret false
      else raise e
  | Ok _ =>
      _ ← (if open then mret () else set_channel_socket channel "connected" None);
      try_except (_ ← read_frames max_frames_per_tick channel l; mret true)
        (λ e, if isinstance e OSError then
                _ ← set_channel_socket channel "disconnected" (Some (exc_text e)); mret false
              else raise e)
  end.

(** When [mit_poll_loop] polls next, after a round that ended at [now]. *)
Definition next_poll (next_send_t now period_s : float) : float :=
  let next_send_t := (next_send_t + period_s)%float in
  if (next_send_t <? now)%float then (now + period_s)%float else next_send_t.

(** A round of [mit_poll_loop] with actuators to poll. *)
Definition mit_poll_round : ST Backend unit :=
  s ← get;
  try_except
    (for_each (sorted_by (λ z, z) (elements (ms_mit_poll_can_ids (be_monitor s))))
       (λ can_id, _ ← motor_mit_hold state_provider reason_provider exc_text can_id; mret ()))
    (λ e, if isinstance e CommandError then in_monitor (set_socket_error (Some (exc_text e)))
          else raise e).

(** An iteration of [mit_poll_loop], from the [next_send_t] of the one before: its result is
    the next one. [meanwhile] is what the other tasks do at its [await], if it gets to one. *)
Definition mit_poll_iteration (meanwhile : Backend → Backend) (next_send_t : float) :
    ST Backend float :=
  s ← get;
  if bool_decide (ms_mit_poll_can_ids (be_monitor s) = ∅) then
    next_send_t ← DashboardCommand.monotonic;
    _ ← modify meanwhile;
    mret next_send_t
  else
    period_s ← lift (py_div 1 (mc_mit_poll_hz (ms_config (be_monitor s))));
    now ← DashboardCommand.monotonic;
    _ ← whenM (now <? next_send_t)%float (modify meanwhile);
    _ ← mit_poll_round;
    now ← DashboardCommand.monotonic;
    mret (next_poll next_send_t now period_s).

Fixpoint poll_from (next_send_t : float) (l : list (Backend → Backend)) : ST Backend unit :=
  match l with
  | [] => mret ()
  | meanwhile :: l => next_send_t ← mit_poll_iteration meanwhile next_send_t; poll_from next_send_t l
  end.

(** [mit_poll_loop()], cancelled after the iterations of the list. *)
Definition mit_poll_loop (l : list (Backend → Backend)) : ST Backend unit :=
  next_send_t ← DashboardCommand.monotonic; poll_from next_send_t l.
End app.

(** ** The gate follows the controller *)

(** Which switches a snapshot leaves alone. *)
Lemma snapshot_held now : within held (in_monitor (snapshot now)).
Proof.
  intros s. unfold in_monitor, zoom, snapshot. st_run. unfold zoom.
  destruct (snapshot_channels now _) as [[v|e] l]; by split.
Qed.

Lemma held_zoom {T A} (view : Backend → T) put (m : ST T A) :
  (∀ t s, held s (put t s)) → within held (zoom view put m).
Proof. intros Hp s. unfold zoom. destruct (m _). apply Hp. Qed.

Lemma read_latest_pure now o fs : snd (RobotStateShm.read_latest now o fs) = fs.
Proof.
  unfold RobotStateShm.read_latest, RobotStateShm.read_relaxed. st_run.
  pose proof (wrapper_read_pure RobotStateC fs o) as H.
  by destruct (wrapper_read _ o fs) as [[x|e] fs'].
Qed.

Lemma read_latest_held now reader : within held (in_backend_shm (RobotStateShm.read_latest now reader)).
Proof.
  intros s. unfold in_backend_shm, zoom. pose proof (read_latest_pure now reader (be_shm s)) as H.
  destruct (RobotStateShm.read_latest _ _ _) as [x f]. cbn in H. subst f. by split.
Qed.

Lemma read_channel_held reader name timeout : within held (_read_channel reader name timeout).
Proof.
  unfold _read_channel. apply within_bind; [apply _|apply monotonic_held|]. intros now.
  apply within_bind; [apply _| |].
  - apply within_try; [apply _| |].
    + apply within_bind; [apply _|apply read_latest_held|]. intros y. apply within_ret, _.
    + intros e. repeat (apply within_if); apply within_ret || apply within_raise; apply _.
  - intros [[d|]|c]; [|apply within_ret, _..].
    apply within_bind; [apply _|apply held_zoom; by split|]. intros t. apply within_ret, _.
Qed.

Lemma merge_held fixed base d : within held (_merge_control_state fixed base d).
Proof.
  unfold _merge_control_state. apply within_bind; [apply _|apply monotonic_held|]. intros now.
  apply within_bind; [apply _|apply within_gets, _|]. intros m.
  apply within_bind; [apply _|apply within_lift, _|]. intros n. apply within_ret, _.
Qed.

Lemma view_held fixed r : within held (DashboardView.dashboard_snapshot fixed r).
Proof.
  unfold DashboardView.dashboard_snapshot.
  apply within_bind; [apply _|apply monotonic_held|]. intros now.
  apply within_bind; [apply _|apply snapshot_held|]. intros base.
  apply within_bind; [apply _|apply read_channel_held|]. intros c.
  apply within_bind; [apply _| |].
  { destruct (cr_payload c); [apply merge_held|apply within_ret, _]. }
  intros base'. apply within_bind; [apply _|apply read_channel_held|]. intros d.
  apply within_ret, _.
Qed.

(** ** Polling *)

(** Sending leaves the configuration and the lock as they are. *)
Definition steady (s s' : Backend) : Prop :=
  ms_config (be_monitor s') = ms_config (be_monitor s) ∧
  ms_tx_enabled (be_monitor s') = ms_tx_enabled (be_monitor s).
Definition steady_monitor (m m' : MonitorState) : Prop :=
  ms_config m' = ms_config m ∧ ms_tx_enabled m' = ms_tx_enabled m.

#[export] Instance steady_preorder : PreOrder steady.
Proof. split; [done|]. intros ? ? ? [] []. split; congruence. Qed.
#[export] Instance steady_monitor_preorder : PreOrder steady_monitor.
Proof. split; [done|]. intros ? ? ? [] []. split; congruence. Qed.

Lemma held_steady {A} (m : ST Backend A) : within held m → within steady m.
Proof. intros H s. split; apply H. Qed.

Lemma steady_in_monitor {A} (m : ST MonitorState A) :
  within steady_monitor m → within steady (in_monitor m).
Proof.
  intros H s. specialize (H (be_monitor s)). unfold in_monitor, zoom. by destruct (m _).
Qed.

Lemma steady_in_link {A} (m : ST DaemonLink A) : within steady (in_link m).
Proof. intros s. unfold in_link, zoom. by destruct (m _). Qed.

Lemma steady_on_channel i m : within steady_monitor (on_channel i m).
Proof.
  intros s. unfold on_channel. destruct (_ !! i) as [c|]; [|done]. by destruct (m c).
Qed.

Lemma steady_mark_tx id data now : within steady_monitor (mark_tx id data now).
Proof.
  unfold mark_tx, _update_motor_tx_hint. apply within_bind; [apply _|apply steady_on_channel|].
  intros _. apply within_bind; [apply _| |].
  { intros s. cbn. by destruct (_ =? _). }
  intros _. apply within_bind; [apply _|by intros m|]. intros s.
  destruct data, (actuator_config_for_can_id id s); try apply within_ret, _.
  by intros m.
Qed.

Section gate.
Context (r : DashboardRobotStateReader) (fixed : nat → float → string) (exc_text : exn → string).

Lemma snapshot_within_held : within held (dashboard_snapshot (Some r) fixed).
Proof.
  unfold dashboard_snapshot, backend_snapshot, process_status_rows.
  apply within_bind; [apply _|apply view_held|]. intros x.
  apply within_bind; [apply _| |intros y; apply within_ret, _].
  apply within_bind; [apply _|apply held_zoom; by split|]. intros y. apply within_ret, _.
Qed.

Lemma controller_held : within held (current_controller_snapshot (Some r) fixed).
Proof.
  apply within_bind; [apply _|apply snapshot_within_held|]. intros x. apply within_ret, _.
Qed.

Lemma state_provider_held m : state_provider (Some r) fixed = Some m → within held m.
Proof.
  intros [= <-]. apply within_bind; [apply _|apply controller_held|]. intros c. apply within_ret, _.
Qed.

Lemma reason_provider_held m : reason_provider (Some r) fixed = Some m → within held m.
Proof.
  intros [= <-]. apply within_bind; [apply _|apply controller_held|]. intros c. apply within_ret, _.
Qed.

(** What the control segment must hold for the dashboard to see a controller. *)
Record live_controller (s : Backend) (state : RobotStateC) : Prop := {
  lc_read : fst (RobotStateShm.read_relaxed (control_reader r) (be_shm s)) = Ok state;
  lc_published : rs_timestamp_ns state ≠ 0;
  lc_fresh : ∃ t, (DashboardView.stale_timeout_s r <?
                   py_max 0 (t - f64_value (rs_timestamp_unix state)))%float = false
}.

Lemma read_channel_online reader name timeout s c s' :
  _read_channel reader name timeout s = (Ok c, s') → cr_status c = "online"%string →
  ∃ state now t, fst (RobotStateShm.read_relaxed reader (be_shm s)) = Ok state ∧
    rs_timestamp_ns state ≠ 0 ∧ cr_payload c = Some (robot_state_to_dict now state) ∧
    (timeout <? py_max 0 (t - f64_value (rs_timestamp_unix state)))%float = false.
Proof.
  unfold _read_channel, DashboardCommand.monotonic, in_backend_shm, zoom, read_clock, try_except,
    RobotStateShm.read_latest.
  st_run. cbn [be_shm put_backend_clock].
  destruct (RobotStateShm.read_relaxed reader (be_shm s)) as [[state|e] f]; cbn [fst snd].
  - destruct (Z.eqb_spec (rs_timestamp_ns state) 0) as [Hz|Hz]; [by intros [= <- _]|].
    unfold unix_time, zoom, read_clock. cbn. intros [= <- _]. cbn [cr_status _channel_result].
    destruct (timeout <? _)%float eqn:E; [done|]. intros _. eauto 8.
  - destruct (isinstance e FileNotFoundError); [by intros [= <- _]|].
    destruct (_ || _); [by intros [= <- _]|done].
Qed.

Lemma safety_state_live s v s' :
  controller_safety_state (state_provider (Some r) fixed) s = (Ok (Some v), s') →
  ∃ state, live_controller s state ∧
    normalize_state_name (Some (_mode_name (rs_controller_mode state))) = Some v.
Proof.
  intros (x & s1 & H & [= Hx <-])%st_bind_inv.
  apply st_bind_inv in H as (c & s2 & H & [= <- <-]).
  apply st_bind_inv in H as ([d rows] & s3 & H & [= <- <-]).
  apply st_bind_inv in H as (d' & s4 & H & Hrows).
  apply st_bind_inv in Hrows as (rows' & s5 & Hrows & [= <- <- <-]).
  apply st_bind_inv in H as (now & s6 & [= _ <-] & H).
  apply st_bind_inv in H as (base & s7 & Hsnap & H).
  apply st_bind_inv in H as (ctl & s8 & Hread & H).
  apply st_bind_inv in H as (base' & s9 & _ & H).
  apply st_bind_inv in H as (dash & s10 & _ & [= <- _]).
  cbn [ds_robot_controller fst cv_status _controller_snapshot] in Hx.
  revert Hx. case_bool_decide as Ho; [|done]. cbn [mbind option_bind cv_safety_state].
  destruct (read_channel_online _ _ _ _ _ _ Hread Ho) as (state & n & t & Hr & Hp & Hpay & Hf).
  assert (be_shm s7 = be_shm s) as Hs7.
  { revert Hsnap. unfold in_monitor, zoom. destruct (snapshot now _) as [o m].
    by intros [= _ <-]. }
  rewrite Hs7 in Hr. unfold _controller_snapshot. rewrite Hpay. intros Hx.
  exists state. split; [split; eauto|exact Hx].
Qed.

(** The controller publishes no reason with its state, so that the test for an
    operator's E-stop damping never applies. *)
Lemma safety_reason_absent s v s' :
  controller_safety_reason (reason_provider (Some r) fixed) s = (Ok v, s') → v = None.
Proof.
  intros (c & s2 & H & [= <- <-])%st_bind_inv.
  apply st_bind_inv in H as ([d rows] & s3 & H & [= <- <-]).
  apply st_bind_inv in H as (d' & s4 & H & Hrows).
  apply st_bind_inv in Hrows as (rows' & s5 & _ & [= <- <- <-]).
  apply st_bind_inv in H as (now & s6 & _ & H).
  apply st_bind_inv in H as (base & s7 & _ & H).
  apply st_bind_inv in H as (ctl & s8 & _ & H).
  apply st_bind_inv in H as (base' & s9 & _ & H).
  apply st_bind_inv in H as (dash & s10 & _ & [= <- _]).
  cbn [ds_robot_controller fst]. case_bool_decide; [|done].
  cbn [mbind option_bind cv_safety_reason _controller_snapshot]. by destruct (cr_payload ctl).
Qed.

(** A mode's name is not changed by [normalize_state_name], and an unknown mode is
    not taken for another. *)
Lemma known_mode_name v : v ∈ [0; 1; 2; 3; 4; 5] →
  normalize_state_name (Some (_mode_name v)) = Some (_mode_name v).
Proof.
  rewrite !elem_of_cons. intros Hv.
  repeat (destruct Hv as [->|Hv]; [vm_compute; reflexivity|]). by apply elem_of_nil in Hv.
Qed.

(** [_mode_name] names each mode differently, also once normalised: the name of
    an unknown mode starts with an M. *)
Lemma strip_head c l : is_space c = false → ∃ l', strip (c :: l) = c :: l'.
Proof.
  intros Hc. unfold strip. cbn [lstrip]. rewrite Hc.
  assert (∀ m, ∃ m', lstrip (m ++ [c]) = m' ++ [c]) as Hl.
  { induction m as [|d m (m' & IH)]; cbn [app lstrip]; [rewrite Hc; by exists []|].
    destruct (is_space d); [eauto|]. by exists (d :: m). }
  cbn [rev]. destruct (Hl (rev l)) as [m' ->]. rewrite rev_unit. eauto.
Qed.

Lemma split_head sep c l : c ≠ sep → ∃ part parts, split_on sep (c :: l) = (c :: part) :: parts.
Proof.
  intros Hc. cbn [split_on]. rewrite bool_decide_eq_false_2 by done.
  destruct (split_on sep l) as [|part parts]; eauto.
Qed.

Lemma normalize_head c text :
  is_space c = false → isalnum_char (upper_char c) = true → upper_char c ≠ "_"%char →
  ∃ text', normalize_state_name (Some (String c text)) = Some (String (upper_char c) text').
Proof.
  intros Hs Ha Hu. unfold normalize_state_name. cbn [String.list_ascii_of_string].
  destruct (strip_head c (String.list_ascii_of_string text) Hs) as [l ->]. cbn [map].
  rewrite Ha. destruct (split_head "_"%char (upper_char c) (map (λ d, if isalnum_char d then d
    else "_"%char) (map upper_char l)) Hu) as (part & parts & ->).
  rewrite filter_cons_True by done.
  match goal with |- context [bool_decide (?j = [])] =>
    assert (∃ l', j = upper_char c :: l') as [l' ->] end.
  { cbn [join_with]. destruct (filter _ parts); eauto. }
  rewrite bool_decide_eq_false_2 by done. cbn. eauto.
Qed.

Lemma mode_name_cases v :
  v ∈ [0; 1; 2; 3; 4; 5] ∨
  ∃ text, normalize_state_name (Some (_mode_name v)) = Some (String "M" text).
Proof.
  destruct (decide (v ∈ [0; 1; 2; 3; 4; 5])) as [|Hn]; [by left|right].
  rewrite !not_elem_of_cons in Hn. destruct Hn as (H0 & H1 & H2 & H3 & H4 & H5 & _).
  unfold _mode_name. cbn [dict_get]. rewrite !decide_False by done.
  apply (normalize_head "M"); vm_compute; done.
Qed.

Lemma safety_is_live s name :
  fst (controller_safety_state (state_provider (Some r) fixed) s) = Ok (Some name) →
  ∃ state, live_controller s state ∧
    normalize_state_name (Some (_mode_name (rs_controller_mode state))) = Some name.
Proof.
  intros H. destruct (controller_safety_state _ s) as [x s'] eqn:E. cbn in H. subst x.
  by apply safety_state_live in E.
Qed.

Lemma normal_is_live s :
  may_zero (state_provider (Some r) fixed) s →
  ∃ state, live_controller s state ∧ rs_controller_mode state = Mode.value Mode.NORMAL.
Proof.
  intros (_ & name & Hn & Hin). apply list_elem_of_singleton in Hin as ->.
  destruct (safety_is_live _ _ Hn) as (state & Hl & Hm). exists state. split; [done|].
  destruct (mode_name_cases (rs_controller_mode state)) as [Hk|[text Ht]];
    [|rewrite Ht in Hm; done].
  rewrite known_mode_name in Hm by done. rewrite !elem_of_cons in Hk.
  repeat (destruct Hk as [Hk|Hk]; [rewrite Hk in *; try done|]). by apply elem_of_nil in Hk.
Qed.

Lemma enabled_is_live s :
  may_enable (state_provider (Some r) fixed) s →
  ∃ state, live_controller s state ∧
    rs_controller_mode state ∉ [Mode.value Mode.DISABLED; Mode.value Mode.ESTOP].
Proof.
  intros (name & Hn & Hs & Hb). destruct Hs as [n ->]; [by eexists|].
  destruct (safety_is_live _ _ Hn) as (state & Hl & Hm). exists state. split; [done|].
  rewrite !not_elem_of_cons. split_and!; [| |apply not_elem_of_nil]; intros Hv;
    rewrite Hv in Hm; vm_compute in Hm; injection Hm as <-; done.
Qed.

Lemma check_target t s :
  check_zero_target t s =
    (if bool_decide (configured t.1 s = true ∧ -32768 ≤ t.2 ≤ 32767) then Ok ()
     else Raise ValueError, s).
Proof.
  unfold check_zero_target, get. st_run.
  destruct (configured t.1 s) eqn:Hc; cbn [negb].
  - destruct ((-32768 <=? t.2) && (t.2 <=? 32767)) eqn:Hr; cbn [negb]; case_bool_decide as Hd;
      try done; bool_to_prop; [by destruct Hd|]. destruct Hd as [_ Hd].
    apply andb_false_iff in Hr. lia.
  - by rewrite bool_decide_eq_false_2 by (by intros []).
Qed.

Lemma check_targets ts s :
  snd (for_each ts check_zero_target s) = s ∧
  (is_ok (fst (for_each ts check_zero_target s)) = true →
   Forall (λ t, configured t.1 s = true ∧ -32768 ≤ t.2 ≤ 32767) ts).
Proof.
  induction ts as [|t ts [IH1 IH2]]; [done|]. cbn [for_each].
  pose proof (check_target t s) as Ht. case_bool_decide as Hd.
  - rewrite (st_bind_ok _ _ _ _ _ Ht). split; [done|]. intros Ho. constructor; [done|by apply IH2].
  - by rewrite (st_bind_raise _ _ _ _ _ Ht).
Qed.

(** What a zero-set request does to the backend it starts in. *)
Lemma zero_set_gated targets s (write : ST Backend Z) :
  (∀ s, requests (snd (write s)) = requests s) →
  let s' := snd ((_ ← require_controller_state (state_provider (Some r) fixed) ["NORMAL"%string];
                  _ ← for_each targets check_zero_target; write) s) in
  requests s' = requests s ∧
  (be_shm s' = be_shm s ∨ may_zero (state_provider (Some r) fixed) s ∧
     Forall (λ t, configured t.1 s = true ∧ -32768 ≤ t.2 ≤ 32767) targets).
Proof.
  intros Hw. pose proof (require_state_gate _ state_provider_held ["NORMAL"%string] s) as Hg.
  destruct (require_controller_state _ _ s) as [[[]|e] s1] eqn:E; destruct Hg as [Hh Hz].
  2: { rewrite (st_bind_raise _ _ _ _ _ E). destruct Hh. by split; [|left]. }
  rewrite (st_bind_ok _ _ _ _ _ E). destruct (check_targets targets s1) as [Hs1 Ht].
  destruct (for_each targets check_zero_target s1) as [[[]|e] s2] eqn:E2; cbn [fst snd] in *;
    subst s2.
  2: { rewrite (st_bind_raise _ _ _ _ _ E2). destruct Hh. by split; [|left]. }
  rewrite (st_bind_ok _ _ _ _ _ E2). split; [rewrite Hw; apply Hh|]. right.
  split; [by apply Hz|]. eapply Forall_impl; [by apply Ht|]. intros t [Hc Hr]. split; [|done].
  revert Hc. unfold configured, actuator_config_for_can_id. by rewrite (hd_config _ _ Hh).
Qed.

Lemma written_to_shm op targets s :
  requests (snd ((now_ns ← zoom be_clock put_backend_clock (read_clock ck_ns);
    in_backend_shm (OperatorCommandShmWriter.publish_zero_set now_ns op targets)) s)) = requests s.
Proof.
  unfold in_backend_shm, zoom, read_clock. st_run.
  by destruct (OperatorCommandShmWriter.publish_zero_set _ _ _ _).
Qed.

(** The frame that holds an actuator: [motor_mit_hold]'s for the configuration. *)
Definition hold_payload (s : Backend) : res bytes :=
  let c := ms_config (be_monitor s) in
  pack_mit_payload 0 0 0 0.5 0 (mc_mit_p_max_rad c) (mc_mit_v_max_rad_s c) (mc_mit_kp_max c)
    (mc_mit_kd_max c) (mc_mit_tau_max_nm c).

Abbreviation send_raw_here id data :=
  (send_raw (state_provider (Some r) fixed) (reason_provider (Some r) fixed) exc_text id data).

Lemma steady_command_error {A} (m : ST Backend A) before :
  within steady m → within steady before → within steady (or_command_error exc_text m before).
Proof.
  intros Hm Hb. unfold or_command_error. apply within_try; [apply _|done|]. intros e.
  destruct (_ || _); [|apply within_raise, _].
  apply within_bind; [apply _|done|]. intros _.
  apply within_bind; [apply _|apply held_steady, socket_error_held|]. intros _.
  apply within_raise, _.
Qed.

Lemma steady_send_raw id data : within steady (send_raw_here id data).
Proof.
  unfold send_raw. apply within_bind; [apply _| |intros _].
  { intros s. pose proof (enable_gate _ _ state_provider_held reason_provider_held id data s) as H.
    destruct (reject_motor_enable_when_blocked _ _ _ _ s). split; apply H. }
  apply within_bind; [apply _| |intros _].
  { intros s. pose proof (zero_gate _ state_provider_held id data s) as H.
    destruct (reject_motor_zero_when_not_normal _ _ _ s). split; apply H. }
  apply within_bind; [apply _| |intros _].
  { intros s. pose proof (require_tx_spec exc_text s) as H.
    destruct (require_tx _ s). split; apply H. }
  apply within_bind; [apply _|apply steady_command_error; apply steady_in_link|intros _].
  apply within_bind; [apply _|apply held_steady, monotonic_held|intros now].
  apply within_bind; [apply _|apply steady_in_monitor, steady_mark_tx|intros _].
  apply within_bind; [apply _|apply held_steady, socket_error_held|intros _].
  apply within_ret, _.
Qed.

Definition hold_frame (d : bytes) (id : Z) : CANFrame :=
  {| CanBus.can_id := id; CanBus.data := d |}.

Abbreviation hold id :=
  (_ ← motor_mit_hold (state_provider (Some r) fixed) (reason_provider (Some r) fixed)
         exc_text id; mret ()).

Lemma hold_sent id s :
  let '(x, s') := hold id s in
  steady s s' ∧
  (requests s' = requests s ∧ is_ok x = false ∨
   ∃ d, hold_payload s = Ok d ∧ mc_allow_actuator_commands (ms_config (be_monitor s)) = true ∧
     ms_tx_enabled (be_monitor s) = true ∧
     requests s' = requests s ++ [frame_message "tx" (hold_frame d id)]).
Proof.
  unfold motor_mit_hold, get. st_run.
  destruct (mc_allow_actuator_commands _) eqn:Ha; cbn [negb]; [|split; [done|by left]].
  fold (hold_payload s). destruct (hold_payload s) as [d|e] eqn:Ed; [|split; [done|by left]].
  pose proof (steady_send_raw id d s) as Hs.
  pose proof (send_raw_gated _ _ exc_text state_provider_held reason_provider_held id d s) as Hg.
  destruct (send_raw_here id d s) as [[x|e] s1]; (split; [exact Hs|]);
    (destruct Hg as [Hq|[Hq [Hu _ _]]]; [by left|right; by exists d]).
Qed.

(** The hold commands of a list are sent as long as none raises. *)
Lemma holds_sent ids : ∀ s,
  let '(x, s') := for_each ids (λ id, hold id) s in
  steady s s' ∧
  (requests s' = requests s ∧ (ids = [] ∨ is_ok x = false) ∨
   ∃ d n, hold_payload s = Ok d ∧ mc_allow_actuator_commands (ms_config (be_monitor s)) = true ∧
     ms_tx_enabled (be_monitor s) = true ∧ (is_ok x = true → n = length ids) ∧
     requests s' = requests s ++ map (λ id, frame_message "tx" (hold_frame d id)) (take n ids)).
Proof.
  induction ids as [|id ids IH]; intros s; cbn [for_each].
  { split; [done|]. left. split; [done|by left]. }
  pose proof (hold_sent id s) as H. destruct (hold id s) as [[[]|e] s1] eqn:E.
  - rewrite (st_bind_ok _ _ _ _ _ E).
    destruct H as [Hs [[_ H]|(d & Hd & Ha & Ht & Hq)]]; [discriminate H|].
    specialize (IH s1). destruct (for_each ids _ s1) as [y s2]. destruct IH as [Hs2 IH].
    split; [by etrans|]. right.
    assert (hold_payload s1 = hold_payload s) as Hp by (unfold hold_payload; by rewrite (proj1 Hs)).
    destruct IH as [[Hq2 Hy]|(d' & n & Hd' & _ & _ & Hn & Hq2)].
    + exists d, 1%nat. split_and!; try done; [|by rewrite Hq2, Hq].
      intros Hok. destruct Hy as [->|Hy]; [done|congruence].
    + exists d, (S n). split_and!; try done; [intros; cbn; by rewrite Hn|].
      assert (d' = d) as -> by congruence. by rewrite Hq2, Hq, <- app_assoc.
  - rewrite (st_bind_raise _ _ _ _ _ E). destruct H as [Hs H]. split; [done|].
    destruct H as [[Hq _]|(d & Hd & Ha & Ht & Hq)]; [left; by auto|].
    right. exists d, 1%nat. by split_and!.
Qed.

(** Polling. What a round of [mit_poll_loop] asks of the CAN daemon are hold commands of the
    configuration for polled actuators, in increasing order and each at most once; nothing while transmission is locked or actuator commands are
    not allowed. An error of the command service ends the round, not the task. *)
Theorem polling_holds s :
  let ids := sorted_by (λ z, z) (elements (ms_mit_poll_can_ids (be_monitor s))) in
  let '(x, s') := mit_poll_round (Some r) fixed exc_text s in
  steady s s' ∧ (∀ e, x = Raise e → isinstance e CommandError = false) ∧
  (requests s' = requests s ∨
   ∃ d n, hold_payload s = Ok d ∧ mc_allow_actuator_commands (ms_config (be_monitor s)) = true ∧
     ms_tx_enabled (be_monitor s) = true ∧
     requests s' = requests s ++ map (λ id, frame_message "tx" (hold_frame d id)) (take n ids)).
Proof.
  intros ids. unfold mit_poll_round, get. st_run. fold ids. unfold try_except.
  pose proof (holds_sent ids s) as H. revert H. st_run.
  destruct (for_each ids _ s) as [[[]|e] s1]; intros [Hs H].
  - split; [done|]. split; [done|].
    destruct H as [[Hq _]|(d & n & ? & ? & ? & _ & ?)]; [by left|right; by exists d, n].
  - assert (requests s1 = requests s ∨ ∃ d n, hold_payload s = Ok d ∧
      mc_allow_actuator_commands (ms_config (be_monitor s)) = true ∧
      ms_tx_enabled (be_monitor s) = true ∧
      requests s1 = requests s ++ map (λ id, frame_message "tx" (hold_frame d id)) (take n ids))
      as Hq by (destruct H as [[Hq _]|(d & n & ? & ? & ? & _ & ?)]; [by left|right; by exists d, n]).
    destruct (isinstance e CommandError) eqn:Ei; [|split; [done|]; split; [by intros ? [= <-]|done]].
    pose proof (socket_error_held (Some (exc_text e)) s1) as Hh.
    destruct (in_monitor _ s1) as [y s2] eqn:Ey. cbn [snd] in Hh.
    split; [etrans; [exact Hs|split; apply Hh]|]. rewrite (hd_requests _ _ Hh). split; [|done].
    intros e' ->. revert Ey. unfold in_monitor, zoom, set_socket_error, on_channel.
    by destruct (ms_channels _ !! primary_channel).
Qed.
End gate.

(** *** The controller is in DAMPING and the operator enables a motor *)

Definition control_segment : ShmObj := {| so_name := "state"; so_handle := Some 0%nat |}.

Definition example_reader : DashboardRobotStateReader :=
  {| control_shm_name := "state"; dashboard_shm_name := "dashboard";
     DashboardView.stale_timeout_s := 0.5; control_reader := control_segment;
     dashboard_reader := control_segment |}.

Definition published_shm : ShmFs :=
  snd (publish 10 7 {| sp_writer := control_segment; publish_period_s := 0.01;
                       last_publish_t := 0 |} example_snapshot true
         {| shm_names := ∅; shm_objects := {[0%nat := replicate 972 0]}; shm_next := 1 |}).

