(* ===== verification/DashboardConfig.v ===== *)
(** * The dashboard's configuration

    [dashboard/backend/app.py]: the loading of [dashboard.yaml], which may not
    repeat what the platform file says, and the monitor, the reader of the
    controller's state and the operator's segment that are made from it. A
    mapping that the code changes in place is a mapping passed on: the reader
    delivers a tree, so no section is shared with another. *)

From Stdlib Require Import Ascii.
From stdpp Require Import pretty.
From S2P Require Import Prelude PyFloat PyDict CStruct OperatorCommand StateMachine RobotState CanBus Wire CanTransport ActuatorDriver SpgProtocol Config ShippedConfig ShmManager Supervisor DashboardDecode DashboardState DashboardCommand DashboardView DashboardApp.
Open Scope Z_scope.

(** ** Access to a nested mapping *)

(** [require_section(config, section)] *)
Definition require_section (config : mapping) (section : string) : res mapping :=
  match dict_get section config with Some (JObj d) => Ok d | _ => Raise ValueError end.

(** [nested(config, section, key)] *)
Definition nested (config : mapping) (section key : string) : res json :=
  d ← require_section config section;
  match dict_get key d with Some v => Ok v | None => Raise ValueError end.

(** [config[section][key] = value] *)
Definition set_in (section key : string) (value : json) (config : mapping) : res mapping :=
  match dict_get section config with
  | Some (JObj d) => Ok (dict_set section (JObj (dict_set key value d)) config)
  | Some _ => Raise TypeError
  | None => Raise KeyError
  end.

(** Several such assignments to one section. *)
Fixpoint set_all_in (section : string) (items : list (string * json)) (config : mapping) :
    res mapping :=
  match items with
  | [] => Ok config
  | (key, value) :: items =>
      config ← set_in section key value config; set_all_in section items config
  end.

(** [config.setdefault(section, {})] and assignments to it. *)
Definition fill_section (section : string) (items : list (string * json)) (config : mapping) :
    res mapping :=
  set_all_in section items (dict_setdefault section (JObj []) config).

(** ** Keys the platform owns *)

Definition platform_owned : list (string * list string) :=
  [("can", ["iface"; "bitrate"]);
   ("can_daemon", ["ipc_socket_path"]);
   ("robot_controller_state",
     ["control_shm_name"; "dashboard_shm_name"; "operator_shm_name"; "operator_shm_size_bytes"]);
   ("imu", ["request_id"; "quat_id"; "gyro_id"; "cmd_get_all"; "cmd_get_quat"; "cmd_get_gyro";
            "quat_scale"; "gyro_scale"; "normalize_quat"]);
   ("spg", ["feedback_position_max_rad"; "iq_full_scale_count"; "iq_full_scale_current_a";
            "p_max_rad"; "v_max_rad_s"; "kp_max"; "kd_max"; "tau_max_nm"])]%string.

Definition overrides (config : mapping) (check : string * list string) : bool :=
  match dict_get (fst check) config with
  | Some (JObj d) => existsb (λ key, dict_mem key d) (snd check)
  | _ => false
  end.

Definition require_no_platform_owned_keys (config : mapping) : res unit :=
  if existsb (overrides config) platform_owned then Raise ValueError
  else if dict_mem "actuators"%string config then Raise ValueError
  else Ok ().

(** ** Presets of the page *)

Definition ids_by_name (actuators : list PlatformActuatorConfig) : dict string Z :=
  dict_of (map (λ a, (pa_name a, pa_can_id a)) actuators).

Section loaders.
Context (py : Platform).

(** The body of the loop of [resolve_transmit_ids]. *)
Definition resolve_transmit (actuators : dict string Z) (item : json) : res json :=
  match item with
  | JObj d =>
      if dict_mem "can_id"%string d then Raise ValueError
      else if dict_mem "platform_ref"%string d then Raise ValueError
      else match dict_get "actuator"%string d with
      | None => Raise ValueError
      | Some v =>
          match dict_get (py_str py v) actuators with
          | None => Raise ValueError
          | Some can_id => Ok (JObj (dict_set "can_id"%string (JInt can_id) d))
          end
      end
  | _ => Raise ValueError
  end.

Definition resolve_transmit_ids (config : mapping) (p : PlatformConfig) : res mapping :=
  dashboard ← require_section config "dashboard";
  match dict_get "transmit_ids"%string dashboard with
  | Some (JList raw) =>
      resolved ← mapR (resolve_transmit (ids_by_name (pf_actuators p))) raw;
      set_in "dashboard" "transmit_ids" (JList resolved) config
  | _ => Raise ValueError
  end.

(** [offset_deg, offset_count] of a target: one is given, the other follows. *)
Definition preset_offset (target : mapping) : res (float * Z) :=
  match dict_get "offset_deg"%string target, dict_get "offset_count"%string target with
  | Some _, Some _ => Raise ValueError
  | Some v, None =>
      offset_deg ← py_float py v;
      offset_count ← round_half_away (offset_deg * 100)%float;
      Ok (offset_deg, offset_count)
  | None, Some v =>
      offset_count ← json_int v;
      x ← py_float_of_int offset_count;
      Ok ((x * 0.01)%float, offset_count)
  | None, None => Raise ValueError
  end.

Definition resolve_zero_target (actuators : dict string Z) (target : json) : res json :=
  match target with
  | JObj d =>
      if dict_mem "can_id"%string d then Raise ValueError
      else match dict_get "actuator"%string d with
      | None => Raise ValueError
      | Some v =>
          let name := py_str py v in
          match dict_get name actuators with
          | None => Raise ValueError
          | Some can_id =>
              x ← preset_offset d;
              let '(offset_deg, offset_count) := x in
              if negb ((-32768 <=? offset_count) && (offset_count <=? 32767)) then
                Raise ValueError
              else Ok (JObj [("actuator"%string, JStr name); ("can_id"%string, JInt can_id);
                             ("offset_deg"%string, JFloat offset_deg);
                             ("offset_count"%string, JInt offset_count)])
          end
      end
  | _ => Raise ValueError
  end.

(** [str(item.get(key) or otherwise)] *)
Definition str_or (d : mapping) (key otherwise : string) : string :=
  match dict_get key d with
  | Some v => if json_truthy v then py_str py v else otherwise
  | None => otherwise
  end.

Definition resolve_preset (actuators : dict string Z) (index : Z) (item : json) : res json :=
  match item with
  | JObj d =>
      match dict_get "targets"%string d with
      | Some (JList ((_ :: _) as targets_raw)) =>
          targets ← mapR (resolve_zero_target actuators) targets_raw;
          Ok (JObj
            [("id"%string, JStr (str_or d "id" ("preset_" ++ pretty (index + 1))));
             ("label"%string, JStr (str_or d "label" ("Preset " ++ pretty (index + 1))));
             ("targets"%string, JList targets)])
      | _ => Raise ValueError
      end
  | _ => Raise ValueError
  end.

Fixpoint resolve_presets (actuators : dict string Z) (index : Z) (raw : list json) :
    res (list json) :=
  match raw with
  | [] => Ok []
  | item :: raw =>
      x ← resolve_preset actuators index item;
      l ← resolve_presets actuators (index + 1) raw;
      Ok (x :: l)
  end.

Definition resolve_zero_set_presets (config : mapping) (p : PlatformConfig) : res mapping :=
  dashboard ← require_section config "dashboard";
  raw ← (match dict_get "zero_set_presets"%string dashboard with
         | None | Some JNull => Ok []
         | Some (JList l) => Ok l
         | Some _ => Raise ValueError
         end);
  resolved ← resolve_presets (ids_by_name (enabled_actuators p)) 0 raw;
  set_in "dashboard" "zero_set_presets" (JList resolved) config.

(** ** [load_config()] *)

Section values.
Context (p : PlatformConfig) (c : RobotControllerConfig).
Local Open Scope string_scope.

(** What is assigned to the sections, from the platform and the controller. *)
Definition platform_sections : list (string * list (string * json)) :=
  [("can", [("iface", JStr (pc_interface (pf_can p))); ("bitrate", JInt (pc_bitrate (pf_can p)))]);
   ("can_daemon", [("ipc_socket_path", JStr (pc_daemon_socket (pf_can p)))]);
   ("robot_controller_state",
     [("control_shm_name", JStr (ps_control_state (pf_shm p)));
      ("dashboard_shm_name", JStr (ps_dashboard_state (pf_shm p)));
      ("operator_shm_name", JStr (opc_name (operator_command (cfg_shm c))));
      ("operator_shm_size_bytes", JInt (opc_size_bytes (operator_command (cfg_shm c))))]);
   ("imu",
     [("request_id", JInt (pi_request_id (pf_imu p))); ("quat_id", JInt (pi_quat_id (pf_imu p)));
      ("gyro_id", JInt (pi_gyro_id (pf_imu p))); ("quat_scale", JFloat (pi_quat_scale (pf_imu p)));
      ("gyro_scale", JFloat (pi_gyro_scale (pf_imu p)));
      ("normalize_quat", JBool (pi_normalize_quat (pf_imu p)))]);
   ("spg",
     [("feedback_position_max_rad", JFloat (feedback_position_max_rad (pf_spg_mit p)));
      ("iq_full_scale_count", JFloat (iq_full_scale_count (pf_spg_mit p)));
      ("iq_full_scale_current_a", JFloat (iq_full_scale_current_a (pf_spg_mit p)));
      ("p_max_rad", JFloat (p_max_rad (pf_spg_mit p)));
      ("v_max_rad_s", JFloat (pm_v_max_rad_s (pf_spg_mit p)));
      ("kp_max", JFloat (pm_kp_max (pf_spg_mit p)));
      ("kd_max", JFloat (pm_kd_max (pf_spg_mit p)));
      ("tau_max_nm", JFloat (pm_tau_max_nm (pf_spg_mit p)))])].

Definition platform_actuators : json :=
  JList (map (λ a, JObj [("name", JStr (pa_name a)); ("can_id", JInt (pa_can_id a))])
           (enabled_actuators p)).

Fixpoint fill_sections (sections : list (string * list (string * json))) (config : mapping) :
    res mapping :=
  match sections with
  | [] => Ok config
  | (section, items) :: sections =>
      config ← fill_section section items config; fill_sections sections config
  end.

(** From [config = dict(raw)] on. *)
Definition merge_platform (raw : mapping) : res mapping :=
  config ← resolve_transmit_ids raw p;
  config ← resolve_zero_set_presets config p;
  config ← fill_sections platform_sections
    (dict_del "robot_controller_config" (dict_del "platform_config" config));
  Ok (dict_set "actuators" platform_actuators config).
End values.

Definition load_config (CONFIG_PATH : string) : res (mapping * RobotControllerConfig) :=
  raw ← load_yaml_mapping py CONFIG_PATH;
  _ ← require_no_platform_owned_keys raw;
  platform_value ← key_str py ValueError raw "platform_config";
  _ ← require_key ValueError raw "robot_controller_config";
  platform_path ← resolve_config_path py CONFIG_PATH platform_value;
  platform ← load_platform_config py platform_path;
  controller_value ← key_str py ValueError raw "robot_controller_config";
  controller_config_path ← resolve_config_path py CONFIG_PATH controller_value;
  controller_config ← load_robot_controller_config py controller_config_path;
  if bool_decide (pf_path (cfg_platform controller_config) ≠ pf_path platform) then
    Raise ValueError
  else
    config ← merge_platform platform controller_config raw;
    Ok (config, controller_config).

(** ** The monitor *)

(** [parse_int_maybe_hex(value)] *)
Definition parse_int_maybe_hex (value : json) : res Z :=
  match value with JStr s => py_int0 s | _ => json_int value end.

Definition nested_float (config : mapping) (section key : string) : res float :=
  v ← nested config section key; py_float py v.
Definition nested_int (config : mapping) (section key : string) : res Z :=
  v ← nested config section key; parse_int_maybe_hex v.
Definition nested_bool (config : mapping) (section key : string) : res bool :=
  v ← nested config section key; Ok (json_truthy v).

(** [require_hz(value, field, lo, hi)], and with the default bounds. *)
Definition require_hz_in (lo hi : float) (value : json) : res float :=
  value ← py_float py value;
  if (value <? lo)%float || (hi <? value)%float then Raise ValueError else Ok value.
Definition require_hz := require_hz_in 0.1 1000.

(** [text.strip()], of ASCII text. *)
Definition is_str_space (c : ascii) : bool :=
  let n := nat_of_ascii c in bool_decide (n = 32 ∨ (9 ≤ n ≤ 13) ∨ (28 ≤ n ≤ 31))%nat.

Fixpoint str_lstrip (l : list ascii) : list ascii :=
  match l with c :: l' => if is_str_space c then str_lstrip l' else l | [] => [] end.

Definition py_strip (s : string) : string :=
  String.string_of_list_ascii
    (rev (str_lstrip (rev (str_lstrip (String.list_ascii_of_string s))))).

(** One round of the loop, after the channels [acc]: the two [seen] sets hold
    their keys and interfaces. *)
Definition load_channel (bus_window_s stuff_factor : float) (acc : list CanChannelState)
    (item : json) : res CanChannelState :=
  match item with
  | JObj d =>
      let name := py_strip (str_or d "name" "") in
      let iface := py_strip (str_or d "iface" "") in
      if decide (name = ""%string) then Raise ValueError
      else if decide (iface = ""%string) then Raise ValueError
      else if decide (iface ∈ map ch_iface acc) then Raise ValueError
      else
        bitrate ← json_int (default (JInt 0) (dict_get "bitrate"%string d));
        if bitrate <=? 0 then Raise ValueError
        else
          let key := str_or d "key" iface in
          if decide (key ∈ map ch_key acc) then Raise ValueError
          else Ok (CanChannelState_new key name iface bitrate bus_window_s stuff_factor)
  | _ => Raise ValueError
  end.

Fixpoint load_channels (bus_window_s stuff_factor : float) (acc : list CanChannelState)
    (raw : list json) : res (list CanChannelState) :=
  match raw with
  | [] => Ok acc
  | item :: raw =>
      c ← load_channel bus_window_s stuff_factor acc item;
      load_channels bus_window_s stuff_factor (acc ++ [c]) raw
  end.

Definition load_can_display_channels (config : mapping) : res (list CanChannelState) :=
  can_config ← require_section config "can";
  match dict_get "display_channels"%string can_config with
  | Some (JList ((_ :: _) as raw)) =>
      bus_window_s ← nested_float config "can" "bus_window_s";
      stuff_factor ← nested_float config "can" "stuff_factor";
      load_channels bus_window_s stuff_factor [] raw
  | _ => Raise ValueError
  end.

Definition load_actuator_config (seen_can_ids : list Z) (item : json) : res (Z * string) :=
  match item with
  | JObj d =>
      match dict_get "can_id"%string d, dict_get "name"%string d with
      | Some v, Some n =>
          can_id ← parse_int_maybe_hex v;
          if can_id <=? 0 then Raise ValueError
          else if decide (can_id ∈ seen_can_ids) then Raise ValueError
          else Ok (can_id, py_str py n)
      | _, _ => Raise ValueError
      end
  | _ => Raise ValueError
  end.

Fixpoint load_actuator_items (acc : list (Z * string)) (raw : list json) :
    res (list (Z * string)) :=
  match raw with
  | [] => Ok acc
  | item :: raw =>
      a ← load_actuator_config (map fst acc) item; load_actuator_items (acc ++ [a]) raw
  end.

Definition load_actuator_configs (config : mapping) : res (list (Z * string)) :=
  match dict_get "actuators"%string config with
  | Some (JList ((_ :: _) as raw)) => load_actuator_items [] raw
  | _ => Raise ValueError
  end.

(** [make_state(config)], at the time [now]. *)
Definition make_state (now : float) (config : mapping) : res MonitorState :=
  let num := nested_float config in
  _ ← num "can" "bus_window_s"; heartbeat ← num "can" "heartbeat_window_s";
  node_timeout ← num "can" "node_timeout_s"; _ ← num "can" "stuff_factor";
  position_max ← num "spg" "feedback_position_max_rad";
  iq_count ← num "spg" "iq_full_scale_count"; iq_current ← num "spg" "iq_full_scale_current_a";
  p_max ← num "spg" "p_max_rad"; v_max ← num "spg" "v_max_rad_s"; kp_max ← num "spg" "kp_max";
  kd_max ← num "spg" "kd_max"; tau_max ← num "spg" "tau_max_nm";
  request_id ← nested_int config "imu" "request_id"; quat_id ← nested_int config "imu" "quat_id";
  gyro_id ← nested_int config "imu" "gyro_id"; quat_scale ← num "imu" "quat_scale";
  gyro_scale ← num "imu" "gyro_scale"; normalize ← nested_bool config "imu" "normalize_quat";
  channels ← load_can_display_channels config; actuators ← load_actuator_configs config;
  tx_enabled ← nested_bool config "safety" "tx_enabled_by_default";
  allow ← nested_bool config "safety" "allow_actuator_commands";
  hz ← nested config "spg" "default_mit_poll_hz"; poll_hz ← require_hz hz;
  monitor_init
    {| mc_heartbeat_window_s := heartbeat; mc_node_timeout_s := node_timeout;
       mc_feedback_position_max_rad := position_max; mc_iq_full_scale_count := iq_count;
       mc_iq_full_scale_current_a := iq_current; mc_mit_p_max_rad := p_max;
       mc_mit_v_max_rad_s := v_max; mc_mit_kp_max := kp_max; mc_mit_kd_max := kd_max;
       mc_mit_tau_max_nm := tau_max; mc_imu_request_id := request_id; mc_imu_quat_id := quat_id;
       mc_imu_gyro_id := gyro_id; mc_imu_quat_scale := quat_scale;
       mc_imu_gyro_scale := gyro_scale; mc_imu_normalize_quat := normalize;
       mc_actuator_configs := actuators; mc_allow_actuator_commands := allow;
       mc_mit_poll_hz := poll_hz; mc_start_t := now |} channels tx_enabled.
End loaders.

(** ** The module's objects *)

(** [str(nested(config, section, key))] *)
Definition nested_str (py : Platform) (config : mapping) (section key : string) : res string :=
  v ← nested config section key; Ok (py_str py v).

(** [robot_state_reader] *)
Definition make_reader (py : Platform) (config : mapping) :
    ST ShmFs (option DashboardRobotStateReader) :=
  let section := "robot_controller_state"%string in
  enabled ← lift (nested_bool config section "enabled");
  if enabled : bool then
    control ← lift (nested_str py config section "control_shm_name");
    dashboard ← lift (nested_str py config section "dashboard_shm_name");
    timeout ← lift (nested_float py config section "stale_timeout_s");
    r ← reader_init control dashboard timeout;
    mret (Some r)
  else mret None.

(** [operator_commands] *)
Definition make_operator_writer (py : Platform) (config : mapping) : ST ShmFs ShmObj :=
  let section := "robot_controller_state"%string in
  name ← lift (nested_str py config section "operator_shm_name");
  _ ← lift (v ← nested config section "operator_shm_size_bytes"; json_int v);
  OperatorCommandShmWriter.init name.

(** The service's link to the daemon: what the daemon will do is given. *)
Definition make_link (py : Platform) (config : mapping) (attempts : list attempt)
    (replies : list line) : res DaemonLink :=
  _ ← nested config "can_daemon" "ipc_socket_path";
  timeout ← nested_float py config "can_daemon" "connect_timeout_s";
  Ok {| can_client := client_init timeout false; _connected := false; dl_attempts := attempts;
        dl_replies := replies; dl_requests := [] |}.

(** What the module finds around it when it is imported. *)
Record Surroundings := {
  sr_now : float; sr_clock : Clock; sr_fs : ShmFs; sr_os : OS; sr_pid_dir : string;
  sr_log_dir : string; sr_attempts : list attempt; sr_replies : list line
}.

(** From [config, controller_config = load_config()] to [commands]. *)
Definition make_app (py : Platform) (CONFIG_PATH : string) (w : Surroundings) :
    res (option DashboardRobotStateReader * App) :=
  x ← load_config py CONFIG_PATH;
  let '(config, c) := x in
  state ← make_state py (sr_now w) config;
  let '(r, fs) := make_reader py config (sr_fs w) in
  reader ← r;
  let '(o, fs) := make_operator_writer py config fs in
  operator ← o;
  link ← make_link py config (sr_attempts w) (sr_replies w);
  Ok (reader,
      {| app_backend :=
           {| be_monitor := state; be_link := link; be_shm := fs; be_clock := sr_clock w;
              be_supervisor :=
                (sup_init (sr_pid_dir w) (sr_log_dir w) (cfg_processes c), sr_os w) |};
         operator_commands := operator |}).

(** [ws_state(websocket)]: a snapshot is sent, then the task sleeps for a period, in which
    the others change the backend. The list ends when the client disconnects. *)
Definition ws_period (py : Platform) (config : mapping) : res float :=
  v ← nested config "dashboard" "state_hz"; state_hz ← require_hz_in py 1 60 v;
  py_div 1 state_hz.

Fixpoint ws_send {A} (dashboard_snapshot : ST Backend A) (l : list (Backend → Backend)) :
    ST Backend (list A) :=
  match l with
  | [] => mret []
  | meanwhile :: l =>
      a ← dashboard_snapshot; _ ← modify meanwhile;
      sent ← ws_send dashboard_snapshot l; mret (a :: sent)
  end.

Definition ws_state (py : Platform) (config : mapping)
    (reader : option DashboardRobotStateReader) (fixed : nat → float → string)
    (l : list (Backend → Backend)) : ST Backend (list (DashboardSnapshot * list ProcessRow)) :=
  _ ← lift (ws_period py config);
  ws_send (dashboard_snapshot reader fixed) l.

(** The address [main()] serves. *)
Definition server_address (py : Platform) (config : mapping) : res (string * Z) :=
  host ← nested_str py config "dashboard" "host";
  port ← (v ← nested config "dashboard" "port"; json_int v);
  Ok (host, port).

(** [shutdown()], after its tasks were cancelled. *)
Definition app_shutdown (x : option DashboardRobotStateReader * App) :
    option DashboardRobotStateReader * App :=
  (reader_close <$> fst x,
   {| app_backend := app_backend (snd x);
      operator_commands := OperatorCommandShm.close (operator_commands (snd x)) |}).

(** ** Properties *)

(** Clients that watch send nothing and lock or unlock nothing. *)
Lemma watching_held py config (r : DashboardRobotStateReader) fixed l :
  Forall (λ meanwhile, ∀ s : Backend, held s (meanwhile s)) l →
  within held (ws_state py config (Some r) fixed l).
Proof.
  intros Hl. apply within_bind; [apply _|apply within_lift, _|]. intros _.
  induction Hl as [|meanwhile l Hm Hl IH]; [apply within_ret, _|].
  apply within_bind; [apply _|apply snapshot_within_held|]. intros a.
  apply within_bind; [apply _|exact Hm|]. intros _.
  apply within_bind; [apply _|exact IH|]. intros sent. apply within_ret, _.
Qed.

(** *** Nested keys *)

Lemma nested_set_in section key v (config config' : mapping) :
  set_in section key v config = Ok config' →
  ∀ s k, nested config' s k =
    if decide (s = section ∧ k = key) then Ok v else nested config s k.
Proof.
  unfold set_in, nested, require_section. intros H s k.
  destruct (dict_get section config) as [[]|] eqn:E; try done. injection H as <-.
  rewrite dict_get_set. destruct (decide (s = section)) as [->|Hs].
  - cbn [mbind res_bind]. rewrite dict_get_set, E. cbn [mbind res_bind].
    destruct (decide (k = key)); [by rewrite decide_True|by rewrite decide_False by tauto].
  - by rewrite decide_False by tauto.
Qed.

Lemma nested_set_all_in section items : ∀ config config' : mapping,
  set_all_in section items config = Ok config' → dict_wf items →
  ∀ s k, nested config' s k =
    match (if decide (s = section) then dict_get k items else None) with
    | Some v => Ok v
    | None => nested config s k
    end.
Proof.
  induction items as [|[key v] items IH]; intros config config' H Hw s k; cbn [set_all_in] in H.
  - injection H as <-. by case_decide.
  - apply res_bind_Ok in H as (c1 & H1 & H). apply NoDup_cons in Hw as [Hn Hw].
    rewrite (IH _ _ H Hw), (nested_set_in _ _ _ _ _ H1). cbn [dict_get fst].
    destruct (decide (s = section)) as [->|Hs]; [|by rewrite decide_False by tauto].
    destruct (decide (k = key)) as [->|Hk].
    + rewrite decide_True by done. by rewrite (proj2 (dict_get_None key items) Hn).
    + by rewrite decide_False by tauto.
Qed.

Lemma nested_setdefault s k section (config : mapping) v :
  nested config s k = Ok v → nested (dict_setdefault section (JObj []) config) s k = Ok v.
Proof.
  unfold dict_setdefault. destruct (dict_get section config) eqn:E; [done|].
  unfold nested, require_section. rewrite dict_get_set. case_decide; [|done].
  subst. by rewrite E.
Qed.

Lemma fill_section_get section items (config config' : mapping) k v :
  fill_section section items config = Ok config' → dict_wf items →
  dict_get k items = Some v → nested config' section k = Ok v.
Proof.
  intros H Hw Hk. rewrite (nested_set_all_in _ _ _ _ H Hw), decide_True by done. by rewrite Hk.
Qed.

Lemma fill_section_other section items (config config' : mapping) s k v :
  fill_section section items config = Ok config' → dict_wf items → s ≠ section →
  nested config s k = Ok v → nested config' s k = Ok v.
Proof.
  intros H Hw Hs Hk. rewrite (nested_set_all_in _ _ _ _ H Hw), decide_False by done.
  by apply nested_setdefault.
Qed.

Lemma fill_sections_other sections : ∀ config config' : mapping,
  fill_sections sections config = Ok config' → Forall (λ x, dict_wf x.2) sections →
  ∀ s k v, s ∉ dict_keys sections → nested config s k = Ok v → nested config' s k = Ok v.
Proof.
  induction sections as [|[s1 items] sections IH]; intros config config' H Hw s k v Hs Hk.
  - by injection H as <-.
  - cbn [fill_sections] in H. apply res_bind_Ok in H as (c1 & H1 & H).
    apply Forall_cons in Hw as [Hi Hw]. apply not_elem_of_cons in Hs as [Hne Hs].
    apply (IH _ _ H Hw); [done|]. by eapply fill_section_other.
Qed.

Lemma fill_sections_get sections : ∀ config config' : mapping,
  fill_sections sections config = Ok config' → dict_wf sections →
  Forall (λ x, dict_wf x.2) sections →
  ∀ s items k v, dict_get s sections = Some items → dict_get k items = Some v →
  nested config' s k = Ok v.
Proof.
  induction sections as [|[s1 items1] sections IH]; intros config config' H Hd Hw s items k v Hs Hk;
    [done|].
  cbn [fill_sections] in H. apply res_bind_Ok in H as (c1 & H1 & H).
  apply Forall_cons in Hw as [Hi Hw]. apply NoDup_cons in Hd as [Hn Hd].
  cbn [dict_get] in Hs. case_decide as Heq; [|by eapply IH].
  injection Hs as ->. subst. eapply fill_sections_other; [done|done|done|].
  by eapply fill_section_get.
Qed.

(** *** What [load_config] delivers *)

Lemma platform_sections_wf p c :
  dict_wf (platform_sections p c) ∧ Forall (λ x, dict_wf x.2) (platform_sections p c).
Proof.
  split; [|repeat (apply Forall_cons; split); try apply Forall_nil_2];
    apply (bool_decide_unpack _); vm_compute; exact I.
Qed.

Lemma load_platform_path py path p : load_platform_config py path = Ok p → pf_path p = path.
Proof. unfold load_platform_config. intros H. run_res H. by injection H as <-. Qed.

(** The controller's platform is the one its file names, and its motors are the
    enabled actuators of that. *)
Lemma controller_platform py path c :
  load_robot_controller_config py path = Ok c →
  load_platform_config py (pf_path (cfg_platform c)) = Ok (cfg_platform c) ∧
  mo_can_ids (cc_motors (cfg_can c)) = map pa_can_id (enabled_actuators (cfg_platform c)) ∧
  rc_name (control_state (cfg_shm c)) = ps_control_state (pf_shm (cfg_platform c)) ∧
  rc_name (dashboard_state (cfg_shm c)) = ps_dashboard_state (pf_shm (cfg_platform c)).
Proof.
  unfold load_robot_controller_config. intros H. run_res H. injection H as <-.
  cbn [cfg_platform cfg_can cfg_shm cc_motors control_state dashboard_state].
  repeat match goal with
  | E : load_platform_config _ _ = Ok _ |- _ =>
      rewrite (load_platform_path _ _ _ E), E; clear E
  | E : load_motors _ _ = Ok _ |- _ => apply load_motors_ids in E; rewrite E; clear E
  | E : load_state_shm _ _ _ = Ok _ |- _ => apply load_state_shm_name in E
  end.
  done.
Qed.

(** The dashboard's platform is the controller's. *)
Lemma load_config_spec py path config c :
  load_config py path = Ok (config, c) →
  (∃ raw, merge_platform py (cfg_platform c) c raw = Ok config) ∧
  (∃ raw, parse_actuators py raw = Ok (pf_actuators (cfg_platform c))) ∧
  mo_can_ids (cc_motors (cfg_can c)) = map pa_can_id (enabled_actuators (cfg_platform c)) ∧
  rc_name (control_state (cfg_shm c)) = ps_control_state (pf_shm (cfg_platform c)) ∧
  rc_name (dashboard_state (cfg_shm c)) = ps_dashboard_state (pf_shm (cfg_platform c)).
Proof.
  unfold load_config. intros H. run_res H. injection H as -> ->.
  match goal with
  | Hp : load_platform_config _ _ = Ok _, Hc : load_robot_controller_config _ _ = Ok _,
    E : bool_decide _ = false |- _ =>
      apply bool_decide_eq_false, dec_stable in E; apply controller_platform in Hc as (Hc & Hm & Hn);
      pose proof (load_platform_path _ _ _ Hp) as Hpath; rewrite E, Hpath, Hp in Hc;
      injection Hc as ->
  end.
  split; [by eexists|]. split; [|by split].
  match goal with Hp : load_platform_config _ _ = Ok _ |- _ => by apply load_platform_spec in Hp as [_ Hp] end.
Qed.

Lemma merged_sections py p c raw config s items k v :
  merge_platform py p c raw = Ok config →
  dict_get s (platform_sections p c) = Some items → dict_get k items = Some v →
  nested config s k = Ok v.
Proof.
  unfold merge_platform. intros H Hs Hk. run_res H. injection H as <-.
  destruct (platform_sections_wf p c) as [Hd Hw].
  assert (s ≠ "actuators"%string) as Hne.
  { apply dict_get_in, (list_elem_of_fmap_2 fst) in Hs. intros ->.
    revert Hs. apply (bool_decide_unpack _). vm_compute. exact I. }
  unfold nested, require_section. rewrite dict_get_set_ne by done.
  by eapply fill_sections_get.
Qed.

Lemma merged_actuators py p c raw config :
  merge_platform py p c raw = Ok config →
  dict_get "actuators"%string config = Some (platform_actuators p).
Proof.
  unfold merge_platform. intros H. run_res H. injection H as <-. apply dict_get_set_eq.
Qed.

(** A value of the platform, read from the merged mapping. *)
Ltac platform_value Hm E :=
  match type of E with
  | context [nested _ ?s ?k] => rewrite (merged_sections _ _ _ _ _ s _ k _ Hm eq_refl eq_refl) in E
  end;
  cbn [mbind res_bind py_str py_float parse_int_maybe_hex json_int json_truthy] in E;
  injection E as <-.

(** *** What [make_state] delivers *)

(** The channels made so far have distinct keys and interfaces. *)
Definition channels_distinct (l : list CanChannelState) : Prop :=
  NoDup (map ch_key l) ∧ NoDup (map ch_iface l) ∧
  Forall (λ c, ch_name c ≠ ""%string ∧ ch_iface c ≠ ""%string ∧
               ∃ z, 0 < z ∧ bitrate (ch_bus_load c) = Z2F z) l.

Lemma load_channels_distinct py bw sf raw : ∀ acc l,
  load_channels py bw sf acc raw = Ok l → channels_distinct acc →
  channels_distinct l ∧ length l = (length acc + length raw)%nat.
Proof.
  induction raw as [|item raw IH]; intros acc l H Hacc; cbn [load_channels] in H.
  { injection H as <-. split; [done|]. cbn. lia. }
  apply res_bind_Ok in H as (c & Hc & H). destruct (IH _ _ H) as [Hd ->].
  - destruct Hacc as (Hk & Hi & Ha). unfold load_channel in Hc. destruct item; try done.
    repeat (case_decide; [done|]). run_res Hc. case_decide; [done|]. injection Hc as <-.
    split_and!.
    + rewrite map_app. by apply NoDup_snoc.
    + rewrite map_app. by apply NoDup_snoc.
    + apply Forall_app. split; [done|]. apply Forall_singleton. cbn.
      split_and!; [done|done|]. eexists. split; [|done]. by apply Z.leb_gt.
  - split; [done|]. rewrite length_app. cbn. lia.
Qed.

Lemma load_actuator_items_distinct py raw : ∀ acc l,
  load_actuator_items py acc raw = Ok l →
  NoDup (map fst acc) → Forall (λ a, 0 < a.1) acc →
  NoDup (map fst l) ∧ Forall (λ a, 0 < a.1) l.
Proof.
  induction raw as [|item raw IH]; intros acc l H Hd Hp; cbn [load_actuator_items] in H.
  { by injection H as <-. }
  apply res_bind_Ok in H as (a & Ha & H). apply (IH _ _ H).
  all: unfold load_actuator_config in Ha; destruct item; try done.
  all: destruct (dict_get "can_id"%string d); [|done]; destruct (dict_get "name"%string d); [|done].
  all: run_res Ha; case_decide; [done|]; injection Ha as <-.
  - rewrite map_app. by apply NoDup_snoc.
  - apply Forall_app. split; [done|]. apply Forall_singleton. cbn. by apply Z.leb_gt.
Qed.

(** The platform's entries are read as they were written. *)
Lemma load_actuator_items_entries py l : ∀ acc l',
  load_actuator_items py acc
    (map (λ a, JObj [("name"%string, JStr (pa_name a)); ("can_id"%string, JInt (pa_can_id a))]) l)
    = Ok l' →
  l' = acc ++ map (λ a, (pa_can_id a, pa_name a)) l.
Proof.
  induction l as [|a l IH]; intros acc l' H; cbn [map load_actuator_items] in H.
  { injection H as <-. by rewrite app_nil_r. }
  apply res_bind_Ok in H as (x & Hx & H). apply IH in H as ->. rewrite <-app_assoc. do 2 f_equal.
  change (load_actuator_config _ _ _) with
    (if pa_can_id a <=? 0 then Raise ValueError
     else if decide (pa_can_id a ∈ map fst acc) then Raise ValueError
     else Ok (pa_can_id a, pa_name a)) in Hx.
  destruct (_ <=? 0); [done|]. case_decide; [done|]. by injection Hx as <-.
Qed.

(** A new monitor keeps what it is given, and knows a motor for each actuator. *)
Lemma ensure_node_keeps key name id role s :
  let s' := _ensure_node key name id role s in
  ms_config s' = ms_config s ∧ ms_channels s' = ms_channels s ∧
  ms_tx_enabled s' = ms_tx_enabled s ∧ ms_motors s' = ms_motors s.
Proof. unfold _ensure_node. by destruct (dict_get key (ms_nodes s)). Qed.

Lemma actuators_known l : ∀ s,
  NoDup (dict_keys (ms_motors s) ++ map fst l) →
  let s' := foldl ensure_actuator s l in
  ms_config s' = ms_config s ∧ ms_channels s' = ms_channels s ∧
  ms_tx_enabled s' = ms_tx_enabled s ∧ dict_keys (ms_motors s') = dict_keys (ms_motors s) ++ map fst l.
Proof.
  induction l as [|a l IH]; intros s Hd s'; cbn [foldl] in s'; [by rewrite app_nil_r|].
  destruct (ensure_node_keeps (node_key a.1) a.2 a.1 "Actuator" s) as (H1 & H2 & H3 & H4).
  assert (dict_keys (ms_motors (ensure_actuator s a)) = dict_keys (ms_motors s) ++ [a.1]) as E.
  { unfold ensure_actuator, dict_setdefault. cbn [ms_motors with_devices]. rewrite H4.
    assert (a.1 ∉ dict_keys (ms_motors s)) as Hn.
    { cbn [map] in Hd. apply NoDup_app in Hd as (_ & Hd & _). intros Hin. apply (Hd _ Hin). left. }
    rewrite (proj2 (dict_get_None _ _) Hn), dict_keys_set. by rewrite decide_False. }
  destruct (IH (ensure_actuator s a)) as (I1 & I2 & I3 & I4).
  { by rewrite E, <-app_assoc. }
  unfold s'. rewrite I1, I2, I3, I4, E, <-app_assoc. done.
Qed.

Lemma monitor_init_spec c channels tx s :
  monitor_init c channels tx = Ok s → NoDup (map fst (mc_actuator_configs c)) →
  ms_config s = _normalize_actuator_configs c ∧ ms_channels s = channels ∧ channels ≠ [] ∧
  ms_tx_enabled s = tx ∧
  dict_keys (ms_motors s) = map fst (sorted_by fst (mc_actuator_configs c)).
Proof.
  unfold monitor_init. case_bool_decide as Hc; [done|]. intros [= <-] Hd.
  unfold ensure_known_nodes.
  match goal with |- context [foldl ensure_actuator ?s _] =>
    destruct (actuators_known (sorted_by fst (mc_actuator_configs c)) s) as (H1 & H2 & H3 & H4) end.
  - cbn. by rewrite (sorted_by_perm fst).
  - split_and!; [exact H1|exact H2|done|exact H3|exact H4].
Qed.

(** A monitor that is configured for a platform: what it watches is the
    platform's, and its channels and actuators are told apart. *)
Record monitor_for (p : PlatformConfig) (s : MonitorState) : Prop := {
  mf_actuators : mc_actuator_configs (ms_config s) =
    sorted_by fst (map (λ a, (pa_can_id a, pa_name a)) (enabled_actuators p));
  mf_positive : Forall (λ a, 0 < a.1) (mc_actuator_configs (ms_config s));
  mf_motors : dict_keys (ms_motors s) = map fst (mc_actuator_configs (ms_config s));
  mf_wf : monitor_wf s;
  mf_channels : ms_channels s ≠ [] ∧ channels_distinct (ms_channels s);
  mf_imu_ids :
    (mc_imu_request_id (ms_config s), mc_imu_quat_id (ms_config s), mc_imu_gyro_id (ms_config s))
    = (pi_request_id (pf_imu p), pi_quat_id (pf_imu p), pi_gyro_id (pf_imu p));
  mf_imu_scales :
    (mc_imu_quat_scale (ms_config s), mc_imu_gyro_scale (ms_config s),
     mc_imu_normalize_quat (ms_config s))
    = (pi_quat_scale (pf_imu p), pi_gyro_scale (pf_imu p), pi_normalize_quat (pf_imu p));
  mf_ranges :
    {| mr_position_rad := mc_mit_p_max_rad (ms_config s);
       mr_velocity_rad_s := mc_mit_v_max_rad_s (ms_config s);
       mr_kp := mc_mit_kp_max (ms_config s); mr_kd := mc_mit_kd_max (ms_config s);
       mr_torque_ff_nm := mc_mit_tau_max_nm (ms_config s);
       mr_feedback_position_rad := mc_feedback_position_max_rad (ms_config s) |}
    = mit_range (pf_spg_mit p);
  mf_poll_hz : (mc_mit_poll_hz (ms_config s) <? 0.1)%float = false ∧
               (1000 <? mc_mit_poll_hz (ms_config s))%float = false
}.

Lemma loaded_actuators py p c raw config l :
  merge_platform py p c raw = Ok config → load_actuator_configs py config = Ok l →
  l = map (λ a, (pa_can_id a, pa_name a)) (enabled_actuators p) ∧ Forall (λ a, 0 < a.1) l.
Proof.
  unfold load_actuator_configs. intros Hm H. rewrite (merged_actuators _ _ _ _ _ Hm) in H.
  unfold platform_actuators in H.
  destruct (map _ _) as [|x l0] eqn:E in H; [done|]. rewrite <-E in H.
  split; [by apply load_actuator_items_entries in H|].
  eapply load_actuator_items_distinct; [exact H|apply NoDup_nil_2|apply Forall_nil_2].
Qed.

Lemma loaded_channels py config l :
  load_can_display_channels py config = Ok l → l ≠ [] ∧ channels_distinct l.
Proof.
  unfold load_can_display_channels. intros H. run_res H.
  destruct (dict_get _ _) as [[]|]; try done. destruct l0 as [|x raw]; [done|]. run_res H.
  apply load_channels_distinct in H as [Hd Hl];
    [|by repeat split; try apply NoDup_nil_2; try apply Forall_nil_2].
  split; [|done]. intros ->. by cbn in Hl.
Qed.

Lemma make_state_spec py now config s p c raw :
  merge_platform py p c raw = Ok config → NoDup (map pa_can_id (enabled_actuators p)) →
  make_state py now config = Ok s → monitor_for p s.
Proof.
  intros Hm Hd H. unfold make_state in H. cbv zeta in H. run_res H.
  unfold nested_float, nested_int, nested_bool in *.
  repeat match goal with
  | E : (nested config _ _ ≫= _) = Ok _ |- _ => platform_value Hm E
  | E : load_actuator_configs py config = Ok _ |- _ =>
      destruct (loaded_actuators _ _ _ _ _ _ Hm E) as [-> Hpos]; clear E
  | E : load_can_display_channels py config = Ok _ |- _ => apply loaded_channels in E as [_ Hch]
  | E : require_hz py _ = Ok _ |- _ =>
      unfold require_hz, require_hz_in in E; run_res E; injection E as ->
  end.
  match goal with E : _ || _ = false |- _ => apply orb_false_iff in E as [Hlo Hhi] end.
  pose proof (monitor_init_wf _ _ _ _ H) as Hw.
  apply monitor_init_spec in H as (Hc & <- & Hne & _ & Hk); [|by cbn [mc_actuator_configs]; rewrite map_map].
  cbn [mc_actuator_configs] in Hw, Hk.
  split; rewrite ?Hc; cbn [_normalize_actuator_configs mc_actuator_configs]; try done.
  - by rewrite (sorted_by_perm fst).
  - apply Hw. eapply Forall_impl; [exact Hpos|]. cbn. lia.
Qed.

(** *** The objects that are made from it *)

Lemma make_reader_spec py p c raw config fs reader fs' :
  merge_platform py p c raw = Ok config → make_reader py config fs = (Ok reader, fs') →
  fs' = fs ∧
  ∀ r, reader = Some r →
    attached fs (control_reader r) (ps_control_state (pf_shm p)) ∧
    attached fs (dashboard_reader r) (ps_dashboard_state (pf_shm p)).
Proof.
  intros Hm H. unfold make_reader in H. cbv zeta in H.
  apply st_bind_inv in H as (enabled & s1 & [_ ->]%lift_inv & H).
  destruct enabled; [|by injection H as <- <-].
  apply st_bind_inv in H as (cn & s3 & [Hn ->]%lift_inv & H).
  apply st_bind_inv in H as (dn & s3 & [Hn' ->]%lift_inv & H).
  apply st_bind_inv in H as (timeout & s3 & [_ ->]%lift_inv & H).
  apply st_bind_inv in H as (r & s3 & Hr & H). injection H as <- <-.
  apply st_bind_inv in Hr as (c1 & s4 & Hc & Hr).
  apply st_bind_inv in Hr as (d1 & s5 & Hd & Hr). injection Hr as <- <-.
  unfold nested_str in Hn, Hn'. platform_value Hm Hn. platform_value Hm Hn'.
  apply wrapper_open_attached in Hc as [-> Hc]. apply wrapper_open_attached in Hd as [-> Hd].
  split; [done|]. by intros r [= <-].
Qed.

Lemma make_operator_writer_spec py p c raw config fs o fs' :
  merge_platform py p c raw = Ok config → make_operator_writer py config fs = (Ok o, fs') →
  fs' = fs ∧ attached fs o (opc_name (operator_command (cfg_shm c))).
Proof.
  intros Hm H. unfold make_operator_writer in H. cbv zeta in H.
  apply st_bind_inv in H as (name & s3 & [Hn ->]%lift_inv & H).
  apply st_bind_inv in H as (z & s4 & [_ ->]%lift_inv & H).
  unfold nested_str in Hn. platform_value Hm Hn. by apply wrapper_open_attached in H.
Qed.

(** What has happened when the application was made. *)
Lemma make_app_inv py path w reader app :
  make_app py path w = Ok (reader, app) →
  ∃ config c raw fs,
    load_config py path = Ok (config, c) ∧ merge_platform py (cfg_platform c) c raw = Ok config ∧
    mo_can_ids (cc_motors (cfg_can c)) = map pa_can_id (enabled_actuators (cfg_platform c)) ∧
    NoDup (map pa_can_id (enabled_actuators (cfg_platform c))) ∧
    monitor_for (cfg_platform c) (be_monitor (app_backend app)) ∧
    make_reader py config (sr_fs w) = (Ok reader, fs) ∧
    make_operator_writer py config fs = (Ok (operator_commands app), be_shm (app_backend app)).
Proof.
  unfold make_app. intros H. run_res H. destruct a as [config c]. run_res H.
  destruct (make_reader _ _ _) as [r fs] eqn:Hr. run_res H. subst r.
  destruct (make_operator_writer _ _ _) as [o fs'] eqn:Ho. run_res H. subst o.
  injection H as -> <-.
  match goal with E : load_config _ _ = _ |- _ =>
    pose proof E as El; apply load_config_spec in E as ([raw Hm] & [items Hi] & Hids & _) end.
  apply parsed_ids_distinct in Hi as [Hd _].
  match goal with E : make_state _ _ _ = _ |- _ =>
    pose proof (make_state_spec _ _ _ _ _ _ _ Hm Hd E) as Hmon end.
  exists config, c, raw, fs. done.
Qed.

(** C27: The dashboard and the controller are configured alike. A dashboard that
    starts has the controller's own platform: its monitor knows exactly the
    motors the controller drives, each once, with the platform's names,
    identifiers and ranges and with distinct channels; and its operator segment
    and readers are attached to the segments of the controller's configuration,
    which it has not changed. *)
Theorem dashboard_matches_controller (py : Platform) (path : string) (w : Surroundings)
    (reader : option DashboardRobotStateReader) (app : App) :
  make_app py path w = Ok (reader, app) →
  ∃ config c, load_config py path = Ok (config, c) ∧
    let p := cfg_platform c in
    let b := app_backend app in
    monitor_for p (be_monitor b) ∧
    dict_keys (ms_motors (be_monitor b)) ≡ₚ mo_can_ids (cc_motors (cfg_can c)) ∧
    NoDup (dict_keys (ms_motors (be_monitor b))) ∧
    be_shm b = sr_fs w ∧
    attached (sr_fs w) (operator_commands app) (opc_name (operator_command (cfg_shm c))) ∧
    (∀ r, reader = Some r →
       attached (sr_fs w) (control_reader r) (rc_name (control_state (cfg_shm c))) ∧
       attached (sr_fs w) (dashboard_reader r) (rc_name (dashboard_state (cfg_shm c)))).
Proof.
  intros H. apply make_app_inv in H as (config & c & raw & fs & Hl & Hm & Hids & Hd & Hmon & Hr & Ho).
  exists config, c. split; [done|]. cbv zeta.
  apply (make_reader_spec _ _ _ _ _ _ _ _ Hm) in Hr as [-> Hr].
  apply (make_operator_writer_spec _ _ _ _ _ _ _ _ Hm) in Ho as [-> Ho].
  apply load_config_spec in Hl as (_ & _ & _ & Hct & Hds).
  assert (dict_keys (ms_motors (be_monitor (app_backend app))) ≡ₚ
          map pa_can_id (enabled_actuators (cfg_platform c))) as Hk.
  { by rewrite (mf_motors _ _ Hmon), (mf_actuators _ _ Hmon), (sorted_by_perm fst), map_map. }
  rewrite Hids, Hct, Hds.
  split_and!; [exact Hmon|exact Hk|by rewrite Hk|done|exact Ho|exact Hr].
Qed.

(** *** Presets *)

(** Degrees and counts of one offset say the same: [int] truncates what the
    driver's rounding passes to [floor] and [ceil]. *)
Lemma finite_floor x z : py_floor x = Ok z → finite x.
Proof. unfold py_floor, finite. by destruct (Prim2SF x). Qed.

Lemma py_int_of_floor x z : py_floor x = Ok z → 0 ≤ z → py_int x = Ok z.
Proof.
  intros H Hz. pose proof (finite_floor _ _ H) as Hf. unfold py_int.
  rewrite ltb_fixval by done. pose proof H as H'. rewrite py_floor_fixval in H' by done.
  injection H' as H'. change (fixval 0) with 0.
  rewrite (proj2 (Z.ltb_ge _ _)); [done|].
  assert (0 < 2 ^ 1074) by (apply Z.pow_pos_nonneg; lia).
  pose proof (Z.mul_div_le (fixval x) (2 ^ 1074) ltac:(lia)). nia.
Qed.

Lemma py_int_of_ceil x z : py_ceil x = Ok z → z < 0 → py_int x = Ok z.
Proof.
  unfold py_ceil. intros H Hz. destruct (py_floor (- x)) as [n|] eqn:E; [|done].
  cbn [fmap res_fmap] in H. injection H as <-. pose proof (finite_floor _ _ E) as Hf.
  unfold py_int, py_ceil. rewrite E. cbn [fmap res_fmap].
  rewrite py_floor_fixval in E by done. injection E as E.
  assert (finite x ∧ fixval x = - fixval (- x)%float) as [Hfx Hv].
  { revert Hf. unfold finite, fixval. rewrite opp_spec.
    destruct (Prim2SF x) as [[]|[]| |[] m e]; try done; intros _; cbn; split; done || lia. }
  rewrite ltb_fixval by done. change (fixval 0) with 0.
  rewrite (proj2 (Z.ltb_lt _ _)); [done|].
  assert (0 < 2 ^ 1074) by (apply Z.pow_pos_nonneg; lia).
  pose proof (Z.mul_div_le (fixval (- x)%float) (2 ^ 1074) ltac:(lia)). nia.
Qed.

Lemma scaled_sign z :
  -32768 ≤ z ≤ 32767 → (0 <=? Z2F z * 0.01 * 100)%float = (0 <=? z).
Proof.
  intros Hz. destruct (Z.leb_spec 0 z) as [Hp|Hn].
  - destruct (counts_ok z ltac:(lia)) as [H _]. unfold count_ok in H.
    by apply andb_true_iff in H as [[-> _]%andb_true_iff _].
  - destruct (counts_ok (- z - 1) ltac:(lia)) as [_ H]. unfold neg_count_ok in H.
    replace (- z - 1 + 1) with (- z) in H by lia.
    apply andb_true_iff in H as [[H _]%andb_true_iff _]. apply negb_true_iff in H.
    rewrite <-Z2F_opp in H by (simpl; lia). by rewrite Z.opp_involutive in H.
Qed.

Lemma half_away_count z :
  -32768 ≤ z ≤ 32767 → round_half_away (Z2F z * 0.01 * 100)%float = Ok z.
Proof.
  intros Hz. pose proof (round_scaled_count z Hz) as H. revert H.
  unfold round_half_away, round_half_away_from_zero. rewrite scaled_sign by done.
  destruct (Z.leb_spec 0 z); intros H'; [by apply py_int_of_floor|by apply py_int_of_ceil].
Qed.

(** A resolved target: a known name, its identifier, and one offset twice. *)
Inductive resolved_target (actuators : dict string Z) : json → Prop :=
  | resolved_target_intro name id deg n :
      dict_get name actuators = Some id → -32768 ≤ n ≤ 32767 →
      round_half_away (deg * 100)%float = Ok n →
      resolved_target actuators
        (JObj [("actuator"%string, JStr name); ("can_id"%string, JInt id);
               ("offset_deg"%string, JFloat deg); ("offset_count"%string, JInt n)]).

Inductive resolved_preset (actuators : dict string Z) : json → Prop :=
  | resolved_preset_intro id label targets :
      targets ≠ [] → Forall (resolved_target actuators) targets →
      resolved_preset actuators
        (JObj [("id"%string, JStr id); ("label"%string, JStr label);
               ("targets"%string, JList targets)]).

Lemma float_of_count n : -32768 ≤ n ≤ 32767 → py_float_of_int n = Ok (Z2F n).
Proof.
  intros Hn. unfold py_float_of_int. destruct (Z2F_spec n ltac:(simpl; lia)) as [Hf _].
  unfold is_infinity. revert Hf. unfold finite. rewrite eqb_spec, abs_spec.
  change (Prim2SF infinity) with (S754_infinity false).
  by destruct (Prim2SF (Z2F n)) as [[]| | |].
Qed.

Lemma preset_offset_agrees py d deg n :
  preset_offset py d = Ok (deg, n) → -32768 ≤ n ≤ 32767 →
  round_half_away (deg * 100)%float = Ok n.
Proof.
  unfold preset_offset. intros H Hn.
  destruct (dict_get "offset_deg"%string d), (dict_get "offset_count"%string d); try done;
    run_res H.
  - by injection H as -> ->.
  - injection H as <- ->. rewrite float_of_count in Ha0 by done. injection Ha0 as <-.
    by apply half_away_count.
Qed.

Lemma resolve_zero_target_spec py actuators t t' :
  resolve_zero_target py actuators t = Ok t' → resolved_target actuators t'.
Proof.
  unfold resolve_zero_target. destruct t as [| | | | | |d]; try done. intros H. run_res H.
  destruct (dict_get "actuator"%string d) as [v|]; [|done].
  destruct (dict_get (py_str py v) actuators) as [id|] eqn:E1; [|done]. run_res H.
  destruct a as [deg n]. run_res H. injection H as <-. bool_to_prop.
  constructor; [done|lia|]. eapply preset_offset_agrees; [done|lia].
Qed.

Lemma resolve_presets_spec py actuators raw : ∀ index l,
  resolve_presets py actuators index raw = Ok l → Forall (resolved_preset actuators) l.
Proof.
  induction raw as [|item raw IH]; intros index l H; cbn [resolve_presets] in H.
  { injection H as <-. apply Forall_nil_2. }
  run_res H. injection H as <-. apply Forall_cons. split; [|by eapply IH].
  unfold resolve_preset in Ha. destruct item as [| | | | | |d]; try done.
  destruct (dict_get "targets"%string d) as [[| | | | |[|t ts]|]|]; try done. run_res Ha.
  injection Ha as <-. apply mapR_Ok in Ha1. constructor.
  - intros ->. by inversion Ha1.
  - apply Forall_forall. intros x Hx. apply list_elem_of_lookup_1 in Hx as [i Hx].
    destruct (Forall2_lookup_r _ _ _ _ _ Ha1 Hx) as (y & _ & Hy).
    by apply resolve_zero_target_spec in Hy.
Qed.

Lemma resolve_zero_set_presets_spec py config p config' :
  resolve_zero_set_presets py config p = Ok config' →
  ∃ l, nested config' "dashboard" "zero_set_presets" = Ok (JList l) ∧
       Forall (resolved_preset (ids_by_name (enabled_actuators p))) l.
Proof.
  unfold resolve_zero_set_presets. intros H. run_res H.
  match goal with E : resolve_presets _ _ _ _ = Ok ?l |- _ =>
    exists l; split; [|by eapply resolve_presets_spec] end.
  rewrite (nested_set_in _ _ _ _ _ H). by rewrite decide_True.
Qed.

(** The presets are still there when the platform's values have been merged. *)
Lemma merged_presets py p c raw config :
  merge_platform py p c raw = Ok config →
  ∃ l, nested config "dashboard" "zero_set_presets" = Ok (JList l) ∧
       Forall (resolved_preset (ids_by_name (enabled_actuators p))) l.
Proof.
  unfold merge_platform. intros H. run_res H. injection H as <-.
  match goal with E : resolve_zero_set_presets _ _ _ = _, F : fill_sections _ _ = _ |- _ =>
    apply resolve_zero_set_presets_spec in E as (l & Hn & Hl);
    pose proof (fill_sections_other _ _ _ F (proj2 (platform_sections_wf p c))
      "dashboard"%string "zero_set_presets"%string (JList l)) as Ho end.
  exists l. split; [|done]. unfold nested, require_section in Ho, Hn |- *.
  rewrite dict_get_set_ne by done. apply Ho.
  - apply (bool_decide_unpack _). vm_compute. exact I.
  - by rewrite !dict_get_del_ne.
Qed.

(** What a target of a preset is when the page sends it back. *)
Definition preset_target (id : Z) (deg : option float) (count : option Z) :
    OperatorZeroTargetRequest :=
  {| zt_can_id := inl id; zt_offset := {| offset_count := count; offset_deg := deg |} |}.

Lemma ids_by_name_in l name id :
  dict_get name (ids_by_name l) = Some id → ∃ a, a ∈ l ∧ pa_name a = name ∧ pa_can_id a = id.
Proof.
  unfold ids_by_name. intros H. apply dict_get_in, dict_of_in in H.
  apply list_elem_of_fmap in H as (a & [= -> ->] & Ha). by exists a.
Qed.

Lemma check_zero_target_accepts id name n s :
  (id, name) ∈ mc_actuator_configs (ms_config (be_monitor s)) → -32768 ≤ n ≤ 32767 →
  check_zero_target (id, n) s = (Ok (), s).
Proof.
  intros Hin Hn. unfold check_zero_target, configured, actuator_config_for_can_id. st_run.
  destruct (dict_get _ _) eqn:E.
  - cbn [negb fst snd]. rewrite (proj2 (Z.leb_le _ _)), (proj2 (Z.leb_le _ _)) by lia. done.
  - apply dict_get_None in E. destruct E. by apply (list_elem_of_fmap_2 fst) in Hin.
Qed.


(** *** The witness: the shipped dashboard, beside the shipped controller *)

(** The store a controller with the shipped configuration leaves. *)
Definition shipped_segments : ShmFs :=
  match load_shipped shipped_processes with
  | Ok c => snd (create_all (cfg_shm c) shm_empty)
  | Raise _ => shm_empty
  end.

Definition shipped_surroundings : Surroundings :=
  {| sr_now := 1;
     sr_clock := {| ck_monotonic _ := 1%float; ck_unix _ := 1%float; ck_ns _ := 1; ck_reads := 0 |};
     sr_fs := shipped_segments; sr_os := example_os; sr_pid_dir := "/tmp"; sr_log_dir := "log";
     sr_attempts := []; sr_replies := [] |}.

Definition shipped_app : res (option DashboardRobotStateReader * App) :=
  make_app (shipped_platform shipped_processes) "dashboard.yaml" shipped_surroundings.

Definition shipped_motors : list Z :=
  match shipped_app with
  | Ok (Some _, app) => dict_keys (ms_motors (be_monitor (app_backend app)))
  | _ => []
  end.

Lemma dashboard_matches_controller_witness :
  ∃ r app, shipped_app = Ok (Some r, app) ∧
    dict_keys (ms_motors (be_monitor (app_backend app))) =
      [1; 2; 3; 17; 18; 19; 33; 34; 35; 49; 50; 51] ∧
    NoDup (dict_keys (ms_motors (be_monitor (app_backend app)))) ∧
    be_shm (app_backend app) = shipped_segments ∧
    is_Some (so_handle (operator_commands app)).
Proof.
  assert (shipped_motors = [1; 2; 3; 17; 18; 19; 33; 34; 35; 49; 50; 51]) as Hm
    by (vm_compute; reflexivity).
  unfold shipped_motors in Hm.
  destruct shipped_app as [[[r|] app]|] eqn:E; [|discriminate Hm..].
  destruct (dashboard_matches_controller _ _ _ _ _ E)
    as (config & c & _ & _ & _ & Hd & Hs & (_ & _ & Ho) & _).
  exists r, app. split; [reflexivity|]. split; [exact Hm|].
  split; [exact Hd|]. split; [exact Hs|exact Ho].
Defined.

Definition shipped_presets : res json :=
  x ← load_config (shipped_platform shipped_processes) "dashboard.yaml";
  nested (fst x) "dashboard" "zero_set_presets".

