(* ===== verification/CanMonitor.v ===== *)
(** * The terminal monitor

    [tools/can_monitor.py]: a second observer of the bus, with its own decoders,
    counters, bus load and screen. It is compared with the dashboard's monitor. *)

From Stdlib Require Import Ascii String.
From stdpp Require Import pretty.
From S2P Require Import Prelude PyFloat PyDict Wire Config CanBus ActuatorDriver SpgProtocol Imu.
From S2P Require Import DashboardDecode DashboardState.
Open Scope Z_scope.

(** ** Decoders *)

Definition normalize_quat_xyzw (q : quat float) : res (quat float) :=
  let '(qx, qy, qz, qw) := q in
  n ← py_sqrt (qx * qx + qy * qy + qz * qz + qw * qw)%float;
  if (n <? 1e-12)%float || negb (py_isfinite n) then Ok (0, 0, 0, 1)%float
  else
    x ← py_div qx n; y ← py_div qy n; z ← py_div qz n; w ← py_div qw n;
    Ok (x, y, z, w).

Definition projected_gravity_from_xyzw (q : quat float) : vec3 float :=
  let '(qx, qy, qz, qw) := q in
  let '(vx, vy, vz) := (0, 0, -1)%float in
  let tx := (2 * (qy * vz - qz * vy))%float in
  let ty := (2 * (qz * vx - qx * vz))%float in
  let tz := (2 * (qx * vy - qy * vx))%float in
  let vpx := (vx - qw * tx + (qy * tz - qz * ty))%float in
  let vpy := (vy - qw * ty + (qz * tx - qx * tz))%float in
  let vpz := (vz - qw * tz + (qx * ty - qy * tx))%float in
  (vpy, vpx, vpz).

Definition decode_e2box_quat (data : bytes) : res (quat float * vec3 float) :=
  if (length data <? 8)%nat then Raise ValueError
  else
    r ← unpack_hhhh (take 8 data);
    let '(qz_raw, qy_raw, qx_raw, qw_raw) := r in
    qz ← py_div (Z2F qz_raw) 10000;
    qy ← py_div (Z2F qy_raw) 10000;
    qx ← py_div (Z2F qx_raw) 10000;
    qw ← py_div (Z2F qw_raw) 10000;
    q ← normalize_quat_xyzw ((- qx)%float, qy, qz, qw);
    Ok (q, projected_gravity_from_xyzw q).

Definition gyro_axis (raw : Z) : res float :=
  x ← py_div (Z2F raw) 100;
  py_div (x * math_pi)%float 180.

Definition decode_e2box_gyro (data : bytes) : res (vec3 float) :=
  if (length data <? 8)%nat then Raise ValueError
  else
    r ← unpack_hhhh (take 8 data);
    let '(gx_raw, gy_raw, gz_raw, _) := r in
    gx ← gyro_axis gx_raw;
    gy ← gyro_axis gy_raw;
    gz ← gyro_axis gz_raw;
    Ok (gy, gx, gz).

(** ** Frames of the socket *)

(** A length above eight is taken for eight, and the data are always eight bytes. *)
Definition parse_can_frame (frame_bytes : bytes) : res ParsedFrame :=
  x ← unpack_IB3x8s frame_bytes;
  let '(can_id_raw, dlc, data) := x in
  let is_eff := negb (Z.land can_id_raw CAN_EFF_FLAG =? 0) in
  let is_rtr := negb (Z.land can_id_raw CAN_RTR_FLAG =? 0) in
  let is_err := negb (Z.land can_id_raw CAN_ERR_FLAG =? 0) in
  let can_id := Z.land can_id_raw (if is_eff then CAN_EFF_MASK else DashboardDecode.CAN_SFF_MASK) in
  Ok {| fr_can_id := can_id; fr_dlc := Z.min dlc 8; fr_data := take 8 data;
        fr_is_eff := is_eff; fr_is_rtr := is_rtr; fr_is_err := is_err |}.

Definition build_can_frame (can_id : Z) (data : bytes) : res bytes :=
  if (8 <? length data)%nat then Raise ValueError
  else
    let dlc := Z.of_nat (length data) in
    pack_IB3x8s (Z.land can_id DashboardDecode.CAN_SFF_MASK) dlc (ljust0 8 data).

(** ** State *)

(** [args]; texts that are only displayed are strings. *)
Record MonitorArgs := {
  iface : string;
  poll_imu : bool;
  imu_poll_hz : float;
  ui_hz : float;
  arg_bitrate : float;
  bus_window_s : float;
  stuff_factor : float;
  bus_bar_width : Z;
  spg_can_ids : list Z;
  tau_max_nm : float;
  feedback_pos_max_rad : float;
  iq_full_scale_count : float;
  iq_full_scale_current_a : float;
  recent_count : Z
}.

(** [class RawFrameState] *)
Record RawFrameState := {
  raw_can_id : Z; raw_rx_count : Z; raw_last_t : float; raw_last_dlc : Z; raw_last_data : bytes }.

Definition RawFrameState_new (can_id : Z) : RawFrameState :=
  {| raw_can_id := can_id; raw_rx_count := 0; raw_last_t := 0; raw_last_dlc := 0;
     raw_last_data := replicate 8 0 |}.

(** [class E2BoxState] *)
Record E2BoxState := {
  req_count : Z;
  quat_count : Z;
  quat_last_t : float;
  box_quat_xyzw : quat float;
  box_projected_gravity_b : vec3 float;
  gyro_count : Z;
  gyro_last_t : float;
  box_angular_velocity_rad_s : vec3 float
}.

Definition E2BoxState_new : E2BoxState :=
  {| req_count := 0; quat_count := 0; quat_last_t := 0; box_quat_xyzw := (0, 0, 0, 1)%float;
     box_projected_gravity_b := (0, 0, -1)%float; gyro_count := 0; gyro_last_t := 0;
     box_angular_velocity_rad_s := (0, 0, 0)%float |}.

(** [class SPGMotorState] *)
Record SPGMotorState := {
  spg_can_id : Z;
  spg_rx_count : Z;
  spg_last_t : float;
  last_opcode : option Z;
  last_kind : string;
  enabled_hint : option bool;
  temp_c : option Z;
  iq_count : option Z;
  iq_a_approx : option float;
  spg_speed_dps : option Z;
  spg_position_rad : option float;
  zero_offset_count : option Z;
  raw_data : bytes
}.

Definition SPGMotorState_new (can_id : Z) : SPGMotorState :=
  {| spg_can_id := can_id; spg_rx_count := 0; spg_last_t := 0; last_opcode := None;
     last_kind := "none"; enabled_hint := None; temp_c := None; iq_count := None;
     iq_a_approx := None; spg_speed_dps := None; spg_position_rad := None;
     zero_offset_count := None; raw_data := replicate 8 0 |}.

(** [class MonitorState] *)
Record MonitorState := {
  start_t : float;
  total_rx : Z;
  total_tx : Z;
  raw_frames : dict Z RawFrameState;
  box : E2BoxState;
  spg_motors : dict Z SPGMotorState;
  bus_load : BusLoadWindow
}.

(** The bits of a frame and [BusLoadWindow.add], the code of
    [dashboard/backend/bus_load.py]. *)
Definition estimate_frame_bits (args : MonitorArgs) (dlc : Z) (is_eff is_rtr : bool) : res Z :=
  estimate_classical_can_bits dlc is_eff is_rtr (stuff_factor args) true.

(** [BusLoadWindow.stats] *)
Record LoadStats := {
  st_rx_frames : Z; st_tx_frames : Z; st_rx_bits : Z; st_tx_bits : Z;
  st_bit_rate : float; st_load_percent : float }.

Definition stats (now : float) (w : BusLoadWindow) : res (LoadStats * BusLoadWindow) :=
  let w := bus_prune now w in
  let '(rx_frames, rx_bits) := tally "rx" (events w) in
  let '(tx_frames, tx_bits) := tally "tx" (events w) in
  let duration := py_max (window_s w) 1e-9 in
  bit_rate ← py_div (Z2F (rx_bits + tx_bits)) duration;
  load ← py_div bit_rate (py_max (bitrate w) 1e-9);
  Ok ({| st_rx_frames := rx_frames; st_tx_frames := tx_frames; st_rx_bits := rx_bits;
         st_tx_bits := tx_bits; st_bit_rate := bit_rate;
         st_load_percent := (load * 100)%float |}, w).

(** ** Updates *)

Definition with_total_rx (x : Z) (s : MonitorState) : MonitorState :=
  {| start_t := start_t s; total_rx := x; total_tx := total_tx s; raw_frames := raw_frames s;
     box := box s; spg_motors := spg_motors s; bus_load := bus_load s |}.
Definition with_total_tx (x : Z) (s : MonitorState) : MonitorState :=
  {| start_t := start_t s; total_rx := total_rx s; total_tx := x; raw_frames := raw_frames s;
     box := box s; spg_motors := spg_motors s; bus_load := bus_load s |}.
Definition with_raw (x : dict Z RawFrameState) (s : MonitorState) : MonitorState :=
  {| start_t := start_t s; total_rx := total_rx s; total_tx := total_tx s; raw_frames := x;
     box := box s; spg_motors := spg_motors s; bus_load := bus_load s |}.
Definition with_box (x : E2BoxState) (s : MonitorState) : MonitorState :=
  {| start_t := start_t s; total_rx := total_rx s; total_tx := total_tx s;
     raw_frames := raw_frames s; box := x; spg_motors := spg_motors s; bus_load := bus_load s |}.
Definition with_spg (x : dict Z SPGMotorState) (s : MonitorState) : MonitorState :=
  {| start_t := start_t s; total_rx := total_rx s; total_tx := total_tx s;
     raw_frames := raw_frames s; box := box s; spg_motors := x; bus_load := bus_load s |}.
Definition with_load (x : BusLoadWindow) (s : MonitorState) : MonitorState :=
  {| start_t := start_t s; total_rx := total_rx s; total_tx := total_tx s;
     raw_frames := raw_frames s; box := box s; spg_motors := spg_motors s; bus_load := x |}.

Definition update_raw_state (can_id dlc : Z) (data : bytes) (now : float) (s : MonitorState) :
    MonitorState :=
  let raw := default (RawFrameState_new can_id) (dict_get can_id (raw_frames s)) in
  with_raw (dict_set can_id
    {| raw_can_id := raw_can_id raw; raw_rx_count := raw_rx_count raw + 1; raw_last_t := now;
       raw_last_dlc := dlc; raw_last_data := data |} (raw_frames s)) s.

Definition box_count_request (b : E2BoxState) : E2BoxState :=
  {| req_count := req_count b + 1; quat_count := quat_count b; quat_last_t := quat_last_t b;
     box_quat_xyzw := box_quat_xyzw b; box_projected_gravity_b := box_projected_gravity_b b;
     gyro_count := gyro_count b; gyro_last_t := gyro_last_t b;
     box_angular_velocity_rad_s := box_angular_velocity_rad_s b |}.

Definition box_take_quat (now : float) (quat : quat float) (pg : vec3 float) (b : E2BoxState) :
    E2BoxState :=
  {| req_count := req_count b; quat_count := quat_count b + 1; quat_last_t := now;
     box_quat_xyzw := quat; box_projected_gravity_b := pg;
     gyro_count := gyro_count b; gyro_last_t := gyro_last_t b;
     box_angular_velocity_rad_s := box_angular_velocity_rad_s b |}.

Definition box_take_gyro (now : float) (gyro : vec3 float) (b : E2BoxState) : E2BoxState :=
  {| req_count := req_count b; quat_count := quat_count b; quat_last_t := quat_last_t b;
     box_quat_xyzw := box_quat_xyzw b; box_projected_gravity_b := box_projected_gravity_b b;
     gyro_count := gyro_count b + 1; gyro_last_t := now; box_angular_velocity_rad_s := gyro |}.

Definition update_imu_state (can_id dlc : Z) (data : bytes) (now : float) : ST E2BoxState unit :=
  if can_id =? E2BOX_REQ_ID then modify box_count_request
  else if (can_id =? E2BOX_QUAT_ID) && (dlc =? 8) then
    or_return (decode_e2box_quat data) (λ qg, modify (box_take_quat now qg.1 qg.2))
  else if (can_id =? E2BOX_GYRO_ID) && (dlc =? 8) then
    or_return (decode_e2box_gyro data) (λ gyro, modify (box_take_gyro now gyro))
  else mret ().

(** The first assignments of [decode_spg_frame], with those of the branch. *)
Definition spg_seen (now : float) (data : bytes) (opcode : option Z) (kind : string)
    (m : SPGMotorState) : SPGMotorState :=
  {| spg_can_id := spg_can_id m; spg_rx_count := spg_rx_count m + 1; spg_last_t := now;
     last_opcode := opcode; last_kind := kind; enabled_hint := enabled_hint m;
     temp_c := temp_c m; iq_count := iq_count m; iq_a_approx := iq_a_approx m;
     spg_speed_dps := spg_speed_dps m; spg_position_rad := spg_position_rad m;
     zero_offset_count := zero_offset_count m; raw_data := data |}.

Definition spg_hint (enabled : bool) (m : SPGMotorState) : SPGMotorState :=
  {| spg_can_id := spg_can_id m; spg_rx_count := spg_rx_count m; spg_last_t := spg_last_t m;
     last_opcode := last_opcode m; last_kind := last_kind m; enabled_hint := Some enabled;
     temp_c := temp_c m; iq_count := iq_count m; iq_a_approx := iq_a_approx m;
     spg_speed_dps := spg_speed_dps m; spg_position_rad := spg_position_rad m;
     zero_offset_count := zero_offset_count m; raw_data := raw_data m |}.

Definition spg_zero (count : Z) (m : SPGMotorState) : SPGMotorState :=
  {| spg_can_id := spg_can_id m; spg_rx_count := spg_rx_count m; spg_last_t := spg_last_t m;
     last_opcode := last_opcode m; last_kind := last_kind m; enabled_hint := enabled_hint m;
     temp_c := temp_c m; iq_count := iq_count m; iq_a_approx := iq_a_approx m;
     spg_speed_dps := spg_speed_dps m; spg_position_rad := spg_position_rad m;
     zero_offset_count := Some count; raw_data := raw_data m |}.

(** What is assigned before the current is computed, and after. *)
Definition spg_counts (temp iq : Z) (m : SPGMotorState) : SPGMotorState :=
  {| spg_can_id := spg_can_id m; spg_rx_count := spg_rx_count m; spg_last_t := spg_last_t m;
     last_opcode := last_opcode m; last_kind := last_kind m; enabled_hint := enabled_hint m;
     temp_c := Some temp; iq_count := Some iq; iq_a_approx := iq_a_approx m;
     spg_speed_dps := spg_speed_dps m; spg_position_rad := spg_position_rad m;
     zero_offset_count := zero_offset_count m; raw_data := raw_data m |}.
Definition spg_readings (iq_a : float) (speed : Z) (position : float) (m : SPGMotorState) :
    SPGMotorState :=
  {| spg_can_id := spg_can_id m; spg_rx_count := spg_rx_count m; spg_last_t := spg_last_t m;
     last_opcode := last_opcode m; last_kind := last_kind m; enabled_hint := enabled_hint m;
     temp_c := temp_c m; iq_count := iq_count m; iq_a_approx := Some iq_a;
     spg_speed_dps := Some speed; spg_position_rad := Some position;
     zero_offset_count := zero_offset_count m; raw_data := raw_data m |}.

Definition decode_spg_frame (args : MonitorArgs) (dlc : Z) (data : bytes) (now : float) :
    ST SPGMotorState unit :=
  m ← get;
  if dlc <? 1 then modify (spg_seen now (take 8 data) None "empty")
  else
    match data with
    | [] =>
        _ ← modify (spg_seen now (take 8 data) (last_opcode m) (last_kind m));
        raise IndexError
    | opcode :: _ =>
        let seen := spg_seen now (take 8 data) (Some opcode) in
        if (opcode =? SPG_CMD_MIT_CONTROL) && (dlc =? 8) then
          _ ← modify (seen (last_kind m));
          temp ← lift (unpack_b (slice 1 2 data));
          iq ← lift (unpack_h (slice 2 4 data));
          speed_dps ← lift (unpack_h (slice 4 6 data));
          pos_i16 ← lift (unpack_h (slice 6 8 data));
          _ ← modify (λ _, spg_counts temp iq (seen "MIT_STATUS"%string m));
          iq_a ← lift (py_div (Z2F iq) (iq_full_scale_count args));
          position ← lift (py_div (Z2F pos_i16) 32767);
          modify (spg_readings (iq_a * iq_full_scale_current_a args)%float speed_dps
                    (position * feedback_pos_max_rad args)%float)
        else if opcode =? SPG_CMD_MIT_ENTER then
          modify (λ m, spg_hint true (seen "MIT_ENTER_ACK"%string m))
        else if opcode =? SPG_CMD_MIT_EXIT then
          modify (λ m, spg_hint false (seen "MIT_EXIT_ACK"%string m))
        else if opcode =? SPG_CMD_MIT_SET_ZERO then
          _ ← modify (seen "MIT_SET_ZERO_ACK"%string);
          if dlc =? 8 then
            count ← lift (unpack_h (slice 6 8 data)); modify (spg_zero count)
          else mret ()
        else if opcode =? SPG_CMD_CLEAR_ERROR then
          modify (λ m, spg_hint false (seen "CLEAR_ERROR_ACK"%string m))
        else modify (seen ("OP_" ++ format_hex 2 opcode)%string)
    end.

Definition update_spg_state (args : MonitorArgs) (can_id dlc : Z) (data : bytes) (now : float) :
    ST MonitorState unit :=
  if negb (bool_decide (can_id ∈ spg_can_ids args)) then mret ()
  else λ s,
    let '(r, m) := decode_spg_frame args dlc data now
                     (default (SPGMotorState_new can_id) (dict_get can_id (spg_motors s))) in
    (r, with_spg (dict_set can_id m (spg_motors s)) s).

(** [handle_rx_frame], [now] being its reading of the clock. *)
Definition handle_rx_frame (args : MonitorArgs) (now : float) (f : ParsedFrame) :
    ST MonitorState unit :=
  _ ← modify (λ s, with_total_rx (total_rx s + 1) s);
  bits ← lift (estimate_frame_bits args (fr_dlc f) (fr_is_eff f) (fr_is_rtr f));
  _ ← modify (λ s, with_load (bus_add now bits "rx" (bus_load s)) s);
  _ ← modify (update_raw_state (fr_can_id f) (fr_dlc f) (fr_data f) now);
  _ ← zoom box with_box (update_imu_state (fr_can_id f) (fr_dlc f) (fr_data f) now);
  update_spg_state args (fr_can_id f) (fr_dlc f) (fr_data f) now.

(** ** Texts *)

(** [value.split(",")] *)
Fixpoint split_commas (s : string) : list string :=
  match s with
  | EmptyString => [EmptyString]
  | String c s =>
      match split_commas s with
      | word :: words =>
          if Ascii.eqb c "," then ""%string :: word :: words else String c word :: words
      | [] => []
      end
  end.

(** [value.replace(";", ",")] *)
Fixpoint semicolons_to_commas (s : string) : string :=
  match s with
  | EmptyString => EmptyString
  | String c s => String (if Ascii.eqb c ";" then ","%char else c) (semicolons_to_commas s)
  end.

Definition strip_string (s : string) : string :=
  String.string_of_list_ascii (strip (String.list_ascii_of_string s)).

Fixpoint parse_tokens (items : list string) : res (list Z) :=
  match items with
  | [] => Ok []
  | item :: items =>
      let token := strip_string item in
      if decide (token = ""%string) then parse_tokens items
      else id ← py_int0 token; ids ← parse_tokens items; Ok (id :: ids)
  end.

Definition parse_can_id_list (value : string) : res (list Z) :=
  parse_tokens (split_commas (semicolons_to_commas value)).

Example parse_can_id_list_ex :
  map parse_can_id_list ["0x141, 0x142;3"; " ;,"; "1,x"]%string =
  [Ok [0x141; 0x142; 3]; Ok []; Raise ValueError].
Proof. reflexivity. Qed.

(** The defaults of [parse_args]. *)
Definition default_args : MonitorArgs :=
  {| iface := "can0"; poll_imu := false; imu_poll_hz := 400; ui_hz := 24; arg_bitrate := 1000000;
     bus_window_s := 1; stuff_factor := 1.15; bus_bar_width := 32;
     spg_can_ids := seqZ 0x141 12; tau_max_nm := 33; feedback_pos_max_rad := 12.56;
     iq_full_scale_count := 2048; iq_full_scale_current_a := 33; recent_count := 12 |}.

(** [c * n] *)
Definition repeat_char (c : ascii) (n : Z) : string :=
  String.string_of_list_ascii (replicate (Z.to_nat n) c).

Definition make_bar (percent : float) (width : Z) : res string :=
  let percent := py_max 0 (py_min percent 999) in
  x ← py_div (py_min percent 100) 100;
  filled ← py_round (x * Z2F width)%float;
  Ok ("[" ++ repeat_char "#" filled ++ repeat_char "." (width - filled) ++ "]")%string.

Example make_bar_ex : map (λ x, make_bar x 8) [0; 37.5; 250; 0 / 0]%float =
  map Ok ["[........]"; "[###.....]"; "[########]"; "[........]"]%string.
Proof. vm_compute. reflexivity. Qed.

(** [f"{text:>n}"] and [f"{text:n}"] *)
Definition pad_left (n : nat) (s : string) : string :=
  (repeat_char " " (Z.of_nat (n - String.length s)) ++ s)%string.
Definition pad_right (n : nat) (s : string) : string :=
  (s ++ repeat_char " " (Z.of_nat (n - String.length s)))%string.

Definition fmt_hex_data (data : bytes) (dlc : Z) : string := hex_data (take (Z.to_nat dlc) data).

(** ** The screen *)

Section screen.

(** How Python prints a float with a format specification. *)
Variable fmt : string → float → string.

Definition fmt_age (last_t now : float) : string :=
  if (last_t <=? 0)%float then "never"
  else
    let age := (now - last_t)%float in
    if (age <? 1)%float then (fmt "6.1f" (age * 1000)%float ++ " ms")%string
    else (fmt "6.2f" age ++ " s ")%string.

Definition load_lines (args : MonitorArgs) (s : MonitorState) (now : float) (w : LoadStats)
    (bar : string) (rx_rate : float) : list string :=
  ["MuJoCo Virtual CAN Node Monitor";
   "iface=" ++ iface args ++ "  rx=" ++ pretty (total_rx s) ++ "  tx=" ++ pretty (total_tx s) ++
     "  rx_rate=" ++ fmt ".1f" rx_rate ++ " fps  " ++
     "poll_imu=" ++ (if poll_imu args then "True" else "False") ++ "  quit=q/Ctrl-C";
   "CAN load " ++ bar ++ " " ++ fmt "6.2f" (st_load_percent w) ++ "%  " ++
     "bitrate=" ++ fmt ".0f" (arg_bitrate args / 1000)%float ++ " kbps  " ++
     "window=" ++ fmt ".2f" (bus_window_s args) ++ "s  " ++
     "est=" ++ fmt "8.1f" (st_bit_rate w / 1000)%float ++ " kbps  " ++
     "rx=" ++ pad_left 5 (pretty (st_rx_frames w)) ++ "f/" ++
     pad_left 7 (pretty (st_rx_bits w)) ++ "b  tx=" ++
     pad_left 5 (pretty (st_tx_frames w)) ++ "f/" ++ pad_left 7 (pretty (st_tx_bits w)) ++ "b";
   ""]%string.

Definition imu_lines (b : E2BoxState) (now : float) : list string :=
  let '(qx, qy, qz, qw) := box_quat_xyzw b in
  let '(pgx, pgy, pgz) := box_projected_gravity_b b in
  let '(wx, wy, wz) := box_angular_velocity_rad_s b in
  let f x := fmt "+.5f" x in
  ["[E2Box IMU]";
   "  req_count=" ++ pretty (req_count b) ++ "  quat_count=" ++ pretty (quat_count b) ++
     "  gyro_count=" ++ pretty (gyro_count b);
   "  quat_xyzw=(" ++ f qx ++ ", " ++ f qy ++ ", " ++ f qz ++ ", " ++ f qw ++ ")  age=" ++
     fmt_age (quat_last_t b) now;
   "  projected_gravity_b=(" ++ f pgx ++ ", " ++ f pgy ++ ", " ++ f pgz ++ ")";
   "  gyro_rad_s=(" ++ f wx ++ ", " ++ f wy ++ ", " ++ f wz ++ ")  age=" ++
     fmt_age (gyro_last_t b) now;
   ""]%string.

Definition dash {A} (show : A → string) (x : option A) : string :=
  match x with None => "-"%string | Some a => show a end.

Definition motor_line (s : MonitorState) (now : float) (can_id : Z) : string :=
  match dict_get can_id (spg_motors s) with
  | None =>
      "  " ++ format_hex 3 can_id ++ "  " ++ pad_left 5 "0" ++ "  " ++ pad_left 8 "never" ++
      "  " ++ pad_right 16 "-" ++ "  " ++ pad_left 3 "-" ++ "  " ++ pad_left 4 "-" ++ "  " ++
      pad_left 7 "-" ++ "  " ++ pad_left 10 "-" ++ "  " ++ pad_left 8 "-" ++ "  -"
  | Some m =>
      let en := dash (λ b : bool, if b then "Y" else "N") (enabled_hint m) in
      "  " ++ format_hex 3 can_id ++ "  " ++ pad_left 5 (pretty (spg_rx_count m)) ++ "  " ++
      pad_left 8 (fmt_age (spg_last_t m) now) ++ "  " ++ pad_right 16 (last_kind m) ++ "  " ++
      pad_left 3 en ++ "  " ++ pad_left 4 (dash pretty (temp_c m)) ++ "  " ++
      pad_left 7 (dash (fmt "+.2f") (iq_a_approx m)) ++ "  " ++
      pad_left 10 (dash pretty (spg_speed_dps m)) ++ "  " ++
      pad_left 8 (dash (fmt "+.4f") (spg_position_rad m)) ++ "  " ++
      fmt_hex_data (raw_data m) 8
  end%string.

Definition recent_line (now : float) (raw : RawFrameState) : string :=
  ("  " ++ format_hex 3 (raw_can_id raw) ++ "  count=" ++ pad_left 6 (pretty (raw_rx_count raw)) ++
   "  age=" ++ fmt_age (raw_last_t raw) now ++ "  dlc=" ++ pretty (raw_last_dlc raw) ++
   "  data=" ++ fmt_hex_data (raw_last_data raw) (raw_last_dlc raw))%string.

Definition recent (args : MonitorArgs) (s : MonitorState) : list RawFrameState :=
  take (Z.to_nat (recent_count args))
    (foldr (insert_latest raw_last_t) [] (dict_values (raw_frames s))).

(** The lines, from the top; pruning the window of the bus load is the only change. *)
Definition render_lines (args : MonitorArgs) (now : float) : ST MonitorState (list string) :=
  s ← get;
  let elapsed := py_max (now - start_t s)%float 1e-9 in
  rx_rate ← lift (py_div (Z2F (total_rx s)) elapsed);
  x ← lift (stats now (bus_load s));
  _ ← modify (with_load (snd x));
  bar ← lift (make_bar (st_load_percent (fst x)) (bus_bar_width args));
  mret (load_lines args s now (fst x) bar rx_rate ++ imu_lines (box s) now ++
        ["[SPG/MIT Actuators]";
         "  CANID  Count  Age       Last              En   Temp  Iq[A]    Speed[dps]  Pos[rad]   Raw"]%string ++
        map (motor_line s now) (spg_can_ids args) ++
        [""; "[Recent CAN IDs]"]%string ++
        map (recent_line now) (recent args s)).

(** [write_line] for each line on a screen of [h] rows and [w] columns: what is
    below or to the right of it is not drawn. *)
Fixpoint write_lines (h w row : Z) (lines : list string) : list (Z * string) :=
  match lines with
  | [] => []
  | text :: lines =>
      let rest := write_lines h w (row + 1) lines in
      if h <=? row then rest
      else (row, String.substring 0 (Z.to_nat (Z.max 0 (w - 1))) text) :: rest
  end.

Definition render_dashboard (args : MonitorArgs) (size : Z * Z) (now : float) :
    ST MonitorState (list (Z * string)) :=
  lines ← render_lines args now; mret (write_lines size.1 size.2 0 lines).

(** ** The main loop *)

(** What happens in a round of [curses_main]: the answer of [sock.send], what
    [sock.recv] delivers while the socket is readable, the size of the screen and
    the key pressed. *)
Record Round := {
  ro_send : res unit;
  ro_received : list (res bytes);
  ro_size : Z * Z;
  ro_key : option Z
}.

(** The monitor, the clock, the frames sent and the screens drawn. *)
Record World := {
  wo_state : MonitorState;
  wo_clock : Clock;
  wo_sent : list bytes;
  wo_screens : list (list (Z * string));
  wo_closed : bool
}.

Definition on_state {A} (m : ST MonitorState A) : ST World A :=
  zoom wo_state (λ x s, {| wo_state := x; wo_clock := wo_clock s; wo_sent := wo_sent s;
                           wo_screens := wo_screens s; wo_closed := wo_closed s |}) m.
Definition monotonic : ST World float :=
  zoom wo_clock (λ x s, {| wo_state := wo_state s; wo_clock := x; wo_sent := wo_sent s;
                           wo_screens := wo_screens s; wo_closed := wo_closed s |})
    (read_clock ck_monotonic).
Definition record_sent (frame : bytes) : ST World unit :=
  modify (λ s, {| wo_state := wo_state s; wo_clock := wo_clock s; wo_sent := wo_sent s ++ [frame];
                  wo_screens := wo_screens s; wo_closed := wo_closed s |}).
Definition draw (screen : list (Z * string)) : ST World unit :=
  modify (λ s, {| wo_state := wo_state s; wo_clock := wo_clock s; wo_sent := wo_sent s;
                  wo_screens := wo_screens s ++ [screen]; wo_closed := wo_closed s |}).
Definition sock_close : ST World unit :=
  modify (λ s, {| wo_state := wo_state s; wo_clock := wo_clock s; wo_sent := wo_sent s;
                  wo_screens := wo_screens s; wo_closed := true |}).

Definition send_can_frame (answer : res unit) (can_id : Z) (data : bytes) : ST World unit :=
  frame ← lift (build_can_frame can_id data);
  _ ← lift answer;
  record_sent frame.

(** The request to the IMU, and the time of the next one. *)
Definition poll (args : MonitorArgs) (answer : res unit) (now next_imu_poll_t : float) :
    ST World float :=
  if poll_imu args && (next_imu_poll_t <=? now)%float then
    _ ← try_except
          (let payload := [E2BOX_CMD_GET_ALL] in
           _ ← send_can_frame answer E2BOX_REQ_ID payload;
           tx_bits ← lift (estimate_frame_bits args (Z.of_nat (length payload)) false false);
           on_state (modify (λ s, with_total_tx (total_tx s + 1)
                                    (with_load (bus_add now tx_bits "tx" (bus_load s)) s))))
          (λ e, if isinstance e OSError then mret () else raise e);
    x ← lift (py_div 1 (imu_poll_hz args));
    mret (now + py_max 1e-6 x)%float
  else mret next_imu_poll_t.

(** The frames that are waiting. *)
Fixpoint drain (args : MonitorArgs) (received : list (res bytes)) : ST World unit :=
  match received with
  | [] => mret ()
  | Raise e :: _ => if isinstance e BlockingIOError then mret () else raise e
  | Ok frame_bytes :: received =>
      if negb (Z.of_nat (length frame_bytes) =? CAN_FRAME_SIZE) then drain args received
      else
        f ← lift (parse_can_frame frame_bytes);
        if fr_is_err f then drain args received
        else
          now ← monotonic;
          _ ← on_state (handle_rx_frame args now f);
          drain args received
  end.

Definition refresh (args : MonitorArgs) (size : Z * Z) (now next_render_t : float) :
    ST World float :=
  if (next_render_t <=? now)%float then
    at_render ← monotonic;
    screen ← on_state (render_dashboard args size at_render);
    _ ← draw screen;
    x ← lift (py_div 1 (ui_hz args));
    mret (now + py_max 1e-6 x)%float
  else mret next_render_t.

(** How the loop ends: by the key "q", or by Ctrl-C after the last round. *)
Inductive Ended := Quit | Interrupted.

Fixpoint monitor_loop (args : MonitorArgs) (rounds : list Round)
    (next_imu_poll_t next_render_t : float) : ST World Ended :=
  match rounds with
  | [] => mret Interrupted
  | r :: rounds =>
      now ← monotonic;
      next_imu_poll_t ← poll args (ro_send r) now next_imu_poll_t;
      _ ← drain args (ro_received r);
      next_render_t ← refresh args (ro_size r) now next_render_t;
      if bool_decide (ro_key r = Some 113) || bool_decide (ro_key r = Some 81) then mret Quit
      else monitor_loop args rounds next_imu_poll_t next_render_t
  end.

(** [MonitorState()] with the window of the arguments. *)
Definition terminal_start (args : MonitorArgs) (now : float) : MonitorState :=
  {| start_t := now; total_rx := 0; total_tx := 0; raw_frames := []; box := E2BoxState_new;
     spg_motors := [];
     bus_load := {| window_s := bus_window_s args; bitrate := arg_bitrate args; events := [] |} |}.

(** [curses_main], after the calls of curses. *)
Definition curses_main (args : MonitorArgs) (opening : res unit) (rounds : list Round) :
    ST World Ended :=
  now ← monotonic;
  _ ← on_state (modify (λ _, terminal_start args now));
  _ ← lift opening;
  try_finally (monitor_loop args rounds 0 0) sock_close.

(** [main], its exit code. *)
Definition monitor_main (args : MonitorArgs) (opening : res unit) (rounds : list Round) :
    ST World Z :=
  try_except
    (ended ← curses_main args opening rounds;
     mret (match ended with Quit => 0 | Interrupted => 130 end))
    (λ e, if isinstance e OSError then mret 1 else raise e).
End screen.

(** ** What the monitor does to the bus *)

(** The request to the IMU on the wire. *)
Definition imu_request : bytes := [0x21; 2; 0; 0; 1; 0; 0; 0; 3; 0; 0; 0; 0; 0; 0; 0].

(** Nothing is sent, counted as sent, or closed. *)
Definition listens (s s' : World) : Prop :=
  wo_sent s' = wo_sent s ∧ wo_closed s' = wo_closed s ∧
  total_tx (wo_state s') = total_tx (wo_state s).

#[export] Instance listens_preorder : PreOrder listens.
Proof. split; [done|]. intros s1 s2 s3 (?&?&?) (?&?&?). by split_and!; etrans. Qed.

Definition keeps_tx (t t' : MonitorState) : Prop := total_tx t' = total_tx t.

#[export] Instance keeps_tx_preorder : PreOrder keeps_tx.
Proof. split; [done|]. intros ???. unfold keeps_tx. congruence. Qed.

Lemma listens_on_state {A} (m : ST MonitorState A) : within keeps_tx m → within listens (on_state m).
Proof.
  intros H s. specialize (H (wo_state s)). unfold on_state, zoom.
  by destruct (m (wo_state s)) as [r t].
Qed.

Lemma keeps_modify f : (∀ s, total_tx (f s) = total_tx s) → within keeps_tx (modify f).
Proof. intros H s. apply H. Qed.

Lemma keeps_handle args now f : within keeps_tx (handle_rx_frame args now f).
Proof.
  unfold handle_rx_frame.
  repeat (apply within_bind; [apply _| |intros]);
    try (by apply keeps_modify); try apply within_lift; try apply _.
  - intros s. unfold zoom. by destruct (update_imu_state _ _ _ _ _).
  - intros s. unfold update_spg_state. case_bool_decide; cbn [negb]; [|done].
    by destruct (decode_spg_frame _ _ _ _ _).
Qed.

Lemma listens_monotonic : within listens monotonic.
Proof. by intros s. Qed.

Lemma listens_drain args l : within listens (drain args l).
Proof.
  induction l as [|[b|e] l IH]; cbn [drain]; [apply within_ret, _| |].
  - destruct (negb _); [exact IH|]. apply within_bind; [apply _|apply within_lift, _|].
    intros f. destruct (fr_is_err f); [exact IH|].
    apply within_bind; [apply _|apply listens_monotonic|]. intros now.
    apply within_bind; [apply _| |done]. apply listens_on_state, keeps_handle.
  - destruct (isinstance e BlockingIOError); [apply within_ret, _|apply within_raise, _].
Qed.

Section passive.
Variable fmt : string → float → string.

Lemma keeps_render args size now : within keeps_tx (render_dashboard fmt args size now).
Proof.
  unfold render_dashboard, render_lines. apply within_bind; [apply _| |intros; apply within_ret, _].
  apply within_bind; [apply _|apply within_gets, _|]. intros s.
  apply within_bind; [apply _|apply within_lift, _|]. intros rate.
  apply within_bind; [apply _|apply within_lift, _|]. intros x.
  apply within_bind; [apply _|by apply keeps_modify|]. intros [].
  apply within_bind; [apply _|apply within_lift, _|]. intros bar. apply within_ret, _.
Qed.

Lemma listens_refresh args size now next : within listens (refresh fmt args size now next).
Proof.
  unfold refresh. destruct (next <=? now)%float; [|apply within_ret, _].
  apply within_bind; [apply _|apply listens_monotonic|]. intros at_render.
  apply within_bind; [apply _|apply listens_on_state, keeps_render|]. intros screen.
  apply within_bind; [apply _|by intros s|]. intros [].
  apply within_bind; [apply _|apply within_lift, _|]. intros x. apply within_ret, _.
Qed.

(** [k] requests went out; they are counted unless an exception got in between. *)
Definition asked (args : MonitorArgs) (k : nat) (counted : bool) (s s' : World) : Prop :=
  wo_sent s' = wo_sent s ++ replicate k imu_request ∧ wo_closed s' = wo_closed s ∧
  (poll_imu args = false → k = 0%nat) ∧
  (counted = true → total_tx (wo_state s') = total_tx (wo_state s) + Z.of_nat k).

Lemma asked_listens args c s s' : listens s s' → asked args 0 c s s'.
Proof. intros (H1 & H2 & H3). split_and!; try done; [by rewrite app_nil_r|intros; lia]. Qed.

Lemma asked_trans args k k' c c' s s' s'' :
  asked args k c s s' → asked args k' c' s' s'' → asked args (k + k') (c && c') s s''.
Proof.
  intros (H1 & H2 & H3 & H4) (H1' & H2' & H3' & H4'). split_and!.
  - by rewrite H1', H1, <-app_assoc, <-replicate_add.
  - by rewrite H2'.
  - intros Hp. rewrite H3, H3' by done. done.
  - intros [Hc Hc']%andb_true_iff. rewrite H4', H4 by done. lia.
Qed.

(** Estimating a length does not raise what the loop takes for a failed send. *)
Lemma estimate_raises args dlc eff rtr e :
  estimate_frame_bits args dlc eff rtr = Raise e → isinstance e OSError = false.
Proof.
  unfold estimate_frame_bits, estimate_classical_can_bits, py_ceil, py_floor.
  destruct (Prim2SF _); cbn; try done; by intros [= <-].
Qed.

Lemma poll_asks args answer now next s :
  let x := poll args answer now next s in
  ∃ k, (k ≤ 1)%nat ∧ asked args k (is_ok (fst x)) s (snd x).
Proof.
  cbv zeta. unfold poll. destruct (poll_imu args && _)%bool eqn:E.
  2: { exists 0%nat. split; [lia|]. by apply asked_listens. }
  apply andb_true_iff in E as [E _]. unfold send_can_frame.
  change (build_can_frame E2BOX_REQ_ID [E2BOX_CMD_GET_ALL]) with (Ok imu_request).
  unfold try_except, on_state, zoom, record_sent. st_run.
  destruct answer as [[]|e].
  - exists 1%nat. split; [lia|].
    destruct (estimate_frame_bits _ _ _ _) as [bits|e] eqn:Eb;
      [|rewrite (estimate_raises _ _ _ _ _ Eb)];
      try destruct (py_div 1 _); (split_and!; [done|done|by rewrite E|]); cbn; by rewrite ?E.
  - exists 0%nat. split; [lia|]. apply asked_listens.
    destruct (isinstance e OSError); [destruct (py_div 1 _)|]; by destruct s.
Qed.

Lemma monitor_loop_asks args rounds : ∀ next_poll next_render s,
  let x := monitor_loop fmt args rounds next_poll next_render s in
  ∃ k, (k ≤ length rounds)%nat ∧ asked args k (is_ok (fst x)) s (snd x).
Proof.
  induction rounds as [|r rounds IH]; intros next_poll next_render s; cbv zeta.
  { exists 0%nat. split; [done|]. by apply asked_listens. }
  cbn [monitor_loop]. rewrite (st_bind_ok monotonic _ s _ (snd (monotonic s)) eq_refl).
  set (now := ck_monotonic _ _). set (s1 := snd (monotonic s)).
  assert (asked args 0 true s s1) as H0 by by apply asked_listens.
  destruct (poll_asks args (ro_send r) now next_poll s1) as (k & Hk & H1).
  destruct (poll args (ro_send r) now next_poll s1) as [[next|e] s2] eqn:E1; cbn [fst snd] in H1.
  2: { rewrite (st_bind_raise _ _ _ _ _ E1). exists k. cbn [length]. split; [lia|].
    exact (asked_trans _ _ _ _ _ _ _ _ H0 H1). }
  rewrite (st_bind_ok _ _ _ _ _ E1).
  pose proof (asked_trans _ _ _ _ _ _ _ _ H0 H1) as H01.
  pose proof (listens_drain args (ro_received r) s2) as H2.
  destruct (drain args (ro_received r) s2) as [[[]|e] s3] eqn:E2; cbn [snd] in H2.
  2: { rewrite (st_bind_raise _ _ _ _ _ E2). exists k. cbn [length]. split; [lia|].
    pose proof (asked_trans _ _ _ _ _ _ _ _ H01 (asked_listens args false _ _ H2)) as H.
    by rewrite Nat.add_0_r in H. }
  rewrite (st_bind_ok _ _ _ _ _ E2).
  pose proof (listens_refresh args (ro_size r) now next_render s3) as H3.
  destruct (refresh fmt args (ro_size r) now next_render s3) as [[next'|e] s4] eqn:E3;
    cbn [snd] in H3.
  2: { rewrite (st_bind_raise _ _ _ _ _ E3). exists k. cbn [length]. split; [lia|].
    pose proof (asked_trans _ _ _ _ _ _ _ _ H01
      (asked_listens args false _ _ (transitivity H2 H3))) as H.
    by rewrite Nat.add_0_r in H. }
  rewrite (st_bind_ok _ _ _ _ _ E3).
  pose proof (asked_trans _ _ _ _ _ _ _ _ H01
    (asked_listens args true _ _ (transitivity H2 H3))) as H04.
  rewrite Nat.add_0_r in H04. cbn [is_ok andb fst] in H04.
  destruct (_ || _).
  { exists k. cbn [length]. split; [lia|]. exact H04. }
  destruct (IH next next' s4) as (k' & Hk' & H5).
  exists (k + k')%nat. cbn [length]. split; [lia|]. exact (asked_trans _ _ _ _ _ _ _ _ H04 H5).
Qed.

Lemma curses_main_asks args opening rounds s :
  let x := curses_main fmt args opening rounds s in
  ∃ k, (k ≤ length rounds)%nat ∧ wo_sent (snd x) = wo_sent s ++ replicate k imu_request ∧
    (poll_imu args = false → k = 0%nat) ∧ (opening = Ok () → wo_closed (snd x) = true) ∧
    (is_ok (fst x) = true → total_tx (wo_state (snd x)) = Z.of_nat k).
Proof.
  cbv zeta. unfold curses_main.
  rewrite (st_bind_ok monotonic _ s _ (snd (monotonic s)) eq_refl).
  set (s1 := snd (monotonic s)). set (start := terminal_start args _).
  set (s2 := snd (on_state (modify (λ _, start)) s1)).
  rewrite (st_bind_ok (on_state (modify (λ _, start))) _ s1 () s2 eq_refl).
  destruct opening as [[]|e].
  2: { rewrite (st_bind_raise (lift _) _ s2 e s2 eq_refl). exists 0%nat. cbn.
    split_and!; try done; [lia|by rewrite app_nil_r]. }
  rewrite (st_bind_ok (lift _) _ s2 () s2 eq_refl).
  destruct (monitor_loop_asks args rounds 0%float 0%float s2) as (k & Hk & H1 & H2 & H3 & H4).
  exists k. split; [exact Hk|]. unfold try_finally, sock_close, modify.
  destruct (monitor_loop fmt args rounds 0 0 s2) as [r s3]. cbn in *. by split_and!.
Qed.

End passive.
