(* ===== verification/MonitorsAgree.v ===== *)
(** * The two monitors show the same

    The terminal monitor ([CanMonitor]) and the dashboard's ([DashboardState]) decode
    the bus with separate code. Set up for the same devices they stay in step: a
    simulation relation between their states that every frame preserves. *)

From S2P Require Import Prelude PyFloat PyDict CanBus ActuatorDriver SpgProtocol Imu.
From S2P Require Import DashboardDecode DashboardState CanMonitor.
Open Scope Z_scope.

Abbreviation Terminal := CanMonitor.MonitorState.
Abbreviation Dashboard := DashboardState.MonitorState.

(** ** The relation *)

(** The row of an identifier among the raw frames. *)
Record shows_raw (id : Z) (r : CanMonitor.RawFrameState) (r' : DashboardState.RawFrameState) :
    Prop := {
  sr_can_id : raw_can_id r = id;
  sr_can_id' : rf_can_id r' = id;
  sr_count : raw_rx_count r = rf_count r';
  sr_last_t : raw_last_t r = rf_last_t r';
  sr_last_dlc : raw_last_dlc r = rf_last_dlc r';
  sr_last_data : take (Z.to_nat (raw_last_dlc r)) (raw_last_data r) = rf_last_data r'
}.

(** The IMU, as the dashboard keeps it. *)
Definition box_view (b : CanMonitor.E2BoxState) : DashboardState.E2BoxState :=
  {| ib_req_count := req_count b; ib_quat_count := quat_count b; ib_gyro_count := gyro_count b;
     ib_quat_last_t := quat_last_t b; ib_gyro_last_t := gyro_last_t b;
     ib_quat_xyzw := box_quat_xyzw b; ib_projected_gravity_b := box_projected_gravity_b b;
     ib_angular_velocity_rad_s := box_angular_velocity_rad_s b |}.

(** The name of the last frame: the terminal monitor does not name a status that is
    too short. *)
Definition same_kind (kind kind' : string) : Prop :=
  kind = kind' ∨ kind = "OP_C0"%string ∧ kind' = "MIT_STATUS"%string.

(** An actuator. What was last heard of it is compared once it was heard. *)
Record shows_motor (m : CanMonitor.SPGMotorState) (m' : DashboardState.SPGMotorState) : Prop := {
  sm_count : spg_rx_count m = mo_rx_count m';
  sm_last_t : spg_last_t m = mo_last_t m';
  sm_hint : enabled_hint m = mo_enabled_hint m';
  sm_temp : temp_c m = mo_temperature_c m';
  sm_current : iq_a_approx m = mo_iq_a_approx m';
  sm_speed : spg_speed_dps m = mo_speed_dps m';
  sm_position : spg_position_rad m = mo_position_rad m';
  sm_zero : zero_offset_count m = mo_zero_offset_count m';
  sm_heard : 0 < spg_rx_count m → same_kind (last_kind m) (mo_last_kind m')
}.

Definition terminal_motor (id : Z) (t : Terminal) : CanMonitor.SPGMotorState :=
  default (CanMonitor.SPGMotorState_new id) (dict_get id (spg_motors t)).

Record same_view (args : MonitorArgs) (t : Terminal) (d : Dashboard) : Prop := {
  sv_raw : ∀ id, option_Forall2 (shows_raw id) (dict_get id (raw_frames t)) (dict_get id (ms_raw_frames d));
  sv_imu : box_view (box t) = ms_imu d;
  sv_motors : ∀ id, id ∈ spg_can_ids args → is_Some (actuator_config_for_can_id id d) →
    shows_motor (terminal_motor id t) (motor_of id d)
}.

(** The dashboard is set up for the device the terminal monitor is written for, and
    both for the same actuators. *)
Record same_setup (args : MonitorArgs) (c : MonitorConfig) : Prop := {
  ss_request : mc_imu_request_id c = E2BOX_REQ_ID;
  ss_quat : mc_imu_quat_id c = E2BOX_QUAT_ID;
  ss_gyro : mc_imu_gyro_id c = E2BOX_GYRO_ID;
  ss_quat_scale : mc_imu_quat_scale c = 10000%float;
  ss_gyro_scale : mc_imu_gyro_scale c = 100%float;
  ss_normalize : mc_imu_normalize_quat c = true;
  ss_position : mc_feedback_position_max_rad c = feedback_pos_max_rad args;
  ss_counts : mc_iq_full_scale_count c = iq_full_scale_count args;
  ss_current : mc_iq_full_scale_current_a c = iq_full_scale_current_a args;
  ss_divisor : (iq_full_scale_count args =? 0)%float = false;
  ss_stuff : ∀ b, 0 ≤ b ≤ 200 → is_ok (py_ceil (Z2F b * stuff_factor args)%float) = true
}.

(** ** Decoders *)

Lemma normalize_same q : CanMonitor.normalize_quat_xyzw q = DashboardDecode.normalize_quat_xyzw q.
Proof. by destruct q as [[[x y] z] w]. Qed.

Lemma gravity_same q : CanMonitor.projected_gravity_from_xyzw q = gravity_from_xyzw q.
Proof. by destruct q as [[[x y] z] w]. Qed.

Lemma quat_same data :
  length data = 8%nat →
  CanMonitor.decode_e2box_quat data = DashboardDecode.decode_e2box_quat data 10000 true.
Proof.
  intros Hl. unfold CanMonitor.decode_e2box_quat, DashboardDecode.decode_e2box_quat.
  rewrite take_ge, Hl by lia. cbn [Nat.ltb Nat.leb Nat.eqb negb].
  destruct (unpack_hhhh data) as [[[[qz qy] qx] qw]|]; [|done]. cbn [mbind res_bind].
  destruct (py_div (Z2F qz) _); [|done]. destruct (py_div (Z2F qy) _); [|done].
  destruct (py_div (Z2F qx) _); [|done]. destruct (py_div (Z2F qw) _); [|done].
  cbn [mbind res_bind]. rewrite normalize_same.
  destruct (DashboardDecode.normalize_quat_xyzw _); [|done]. cbn [mbind res_bind].
  by rewrite gravity_same.
Qed.

Lemma gyro_same data :
  length data = 8%nat →
  CanMonitor.decode_e2box_gyro data = DashboardDecode.decode_e2box_gyro data 100.
Proof.
  intros Hl. unfold CanMonitor.decode_e2box_gyro, DashboardDecode.decode_e2box_gyro.
  rewrite take_ge, Hl by lia. cbn [Nat.ltb Nat.leb Nat.eqb negb].
  by destruct (unpack_hhhh data) as [[[[gx gy] gz] gw]|].
Qed.

(** The status of an actuator decodes in both, to the same readings. *)
Lemma status_same (args : MonitorArgs) c data :
  length data = 8%nat → same_setup args c →
  ∃ temp iq speed pos,
    unpack_b (slice 1 2 data) = Ok temp ∧ unpack_h (slice 2 4 data) = Ok iq ∧
    unpack_h (slice 4 6 data) = Ok speed ∧ unpack_h (slice 6 8 data) = Ok pos ∧
    py_div (Z2F iq) (iq_full_scale_count args) = Ok (Z2F iq / iq_full_scale_count args)%float ∧
    py_div (Z2F pos) 32767 = Ok (Z2F pos / 32767)%float ∧
    decode_spg_status data (mc_feedback_position_max_rad c) (mc_iq_full_scale_count c)
      (mc_iq_full_scale_current_a c) =
    Ok {| dec_temperature_c := temp; dec_iq_count := iq;
          dec_iq_a_approx := (Z2F iq / iq_full_scale_count args * iq_full_scale_current_a args)%float;
          dec_speed_dps := speed;
          dec_position_rad := (Z2F pos / 32767 * feedback_pos_max_rad args)%float |}.
Proof.
  intros Hl Hs.
  assert (∀ x, py_div x (iq_full_scale_count args) = Ok (x / iq_full_scale_count args)%float) as Hd.
  { intros x. unfold py_div. by rewrite (ss_divisor _ _ Hs). }
  assert (∀ x, py_div x 32767 = Ok (x / 32767)%float) as Hp by done.
  assert (∀ i j, (i ≤ j ≤ 8)%nat → length (slice i j data) = (j - i)%nat) as Hsl.
  { intros i j Hij. unfold slice. rewrite length_take, length_drop. lia. }
  unfold decode_spg_status. rewrite Hl, (ss_position _ _ Hs), (ss_counts _ _ Hs), (ss_current _ _ Hs).
  cbn [Nat.eqb negb]. rewrite Hd, Hp. unfold unpack_b, unpack_h. rewrite !Hsl by lia.
  do 4 eexists. split_and!; done.
Qed.

(** A number that is not below a positive bound is not zero. *)
Lemma not_small_not_zero n : (n <? 1e-12)%float = false → (n =? 0)%float = false.
Proof.
  rewrite ltb_spec, eqb_spec. change (Prim2SF 0) with (S754_zero false).
  unfold SFltb, SFeqb, SFcompare. by destruct (Prim2SF n) as [[]|[]| |[] m e].
Qed.

Definition ok_or_value_error {A} (r : res A) : Prop :=
  match r with Ok _ => True | Raise e => e = ValueError end.

Lemma normalize_result q : ok_or_value_error (DashboardDecode.normalize_quat_xyzw q).
Proof.
  destruct q as [[[x y] z] w]. unfold DashboardDecode.normalize_quat_xyzw.
  unfold py_sqrt. destruct (_ <? 0)%float; [done|]. cbn [mbind res_bind].
  destruct (_ <? 1e-12)%float eqn:E; [done|]. cbn [orb].
  destruct (negb _); [done|]. unfold py_div. by rewrite (not_small_not_zero _ E).
Qed.

Lemma quat_result data : ok_or_value_error (DashboardDecode.decode_e2box_quat data 10000 true).
Proof.
  unfold DashboardDecode.decode_e2box_quat.
  destruct (length data =? 8)%nat eqn:E; [|done]. cbn [negb]. unfold unpack_hhhh. rewrite E.
  assert (∀ x, py_div x 10000 = Ok (x / 10000)%float) as Hd by done.
  cbn [mbind res_bind]. rewrite !Hd. cbn [mbind res_bind].
  match goal with |- context [DashboardDecode.normalize_quat_xyzw ?q] =>
    pose proof (normalize_result q) as H; destruct (DashboardDecode.normalize_quat_xyzw q) end;
    exact H.
Qed.

Lemma gyro_result data : ok_or_value_error (DashboardDecode.decode_e2box_gyro data 100).
Proof.
  unfold DashboardDecode.decode_e2box_gyro.
  destruct (length data =? 8)%nat eqn:E; [|done]. cbn [negb]. unfold unpack_hhhh. by rewrite E.
Qed.

(** [try: ... except ValueError: return] of a decoder that only raises that. *)
Lemma or_return_run {S A} (r : res A) (k : A → S → S) s :
  ok_or_value_error r →
  or_return r (λ a, modify (k a)) s = (Ok (), match r with Ok a => k a s | Raise _ => s end).
Proof. destruct r as [a|e]; [done|]. by intros ->. Qed.

(** ** One frame *)

(** A frame as the two parse it. *)
Record same_frame (f g : ParsedFrame) : Prop := {
  sf_id : fr_can_id f = fr_can_id g;
  sf_id_pos : 0 ≤ fr_can_id g;
  sf_dlc : fr_dlc f = fr_dlc g;
  sf_dlc_range : 0 ≤ fr_dlc g ≤ 8;
  sf_length : length (fr_data f) = 8%nat;
  sf_data : fr_data g = take (Z.to_nat (fr_dlc g)) (fr_data f)
}.

Definition wire_dlc (frame_bytes : bytes) : Z := le_decode (slice 4 5 frame_bytes).

Lemma parse_same b :
  length b = 16%nat → 0 ≤ wire_dlc b ≤ 8 →
  ∃ f g, CanMonitor.parse_can_frame b = Ok f ∧ DashboardDecode.parse_can_frame b = Ok g ∧
    same_frame f g.
Proof.
  intros Hl Hd. unfold CanMonitor.parse_can_frame, DashboardDecode.parse_can_frame, unpack_IB3x8s.
  rewrite Hl. cbn [CLASSIC_CAN_FRAME_SIZE Nat.eqb mbind res_bind]. fold (wire_dlc b).
  rewrite (proj2 (Z.ltb_ge (wire_dlc b) 0)), (proj2 (Z.ltb_ge 8 (wire_dlc b))) by lia. cbn [orb].
  assert (length (slice 8 16 b) = 8%nat) as H8
    by (unfold slice; rewrite length_take, length_drop; lia).
  do 2 eexists. split; [done|]. split; [done|].
  split; cbn [fr_can_id fr_dlc fr_data]; try done; try lia.
  - apply Z.land_nonneg. right. by destruct (negb _).
  - rewrite length_take. lia.
  - by rewrite (take_ge (slice 8 16 b) 8) by lia.
Qed.

Lemma same_frame_full f g : same_frame f g → fr_dlc g = 8 → fr_data g = fr_data f.
Proof.
  intros H E. rewrite (sf_data _ _ H), E, take_ge; [done|]. by rewrite (sf_length _ _ H).
Qed.

Lemma imu_step args c f g now b :
  same_setup args c → same_frame f g →
  ∃ b', update_imu_state (fr_can_id f) (fr_dlc f) (fr_data f) now b = (Ok (), b') ∧
        update_imu c g now (box_view b) = (Ok (), box_view b').
Proof.
  intros Hs Hf. unfold update_imu_state, update_imu.
  rewrite (sf_id _ _ Hf), (sf_dlc _ _ Hf), (ss_request _ _ Hs), (ss_quat _ _ Hs), (ss_gyro _ _ Hs),
    (ss_quat_scale _ _ Hs), (ss_gyro_scale _ _ Hs), (ss_normalize _ _ Hs).
  destruct (fr_can_id g =? E2BOX_REQ_ID); [by eexists|].
  destruct (fr_dlc g =? 8) eqn:E; [|rewrite !andb_false_r; by eexists].
  apply Z.eqb_eq in E. rewrite (same_frame_full _ _ Hf E), !andb_true_r.
  rewrite quat_same, gyro_same by apply (sf_length _ _ Hf).
  destruct (fr_can_id g =? E2BOX_QUAT_ID).
  { rewrite !or_return_run by apply quat_result. eexists. split; [done|].
    by destruct (DashboardDecode.decode_e2box_quat _ _ _). }
  destruct (fr_can_id g =? E2BOX_GYRO_ID); [|by eexists].
  rewrite !or_return_run by apply gyro_result. eexists. split; [done|].
  by destruct (DashboardDecode.decode_e2box_gyro _ _).
Qed.

(** The two updates are computed; what is left are the fields. *)
Ltac same_update Hm :=
  do 2 eexists; split; [reflexivity|]; split; [reflexivity|];
  destruct Hm; split; cbn; intros; first [congruence | lia | done | by left | by right].

Lemma motor_step args c f g now m m' :
  same_setup args c → same_frame f g → shows_motor m m' →
  ∃ m1 m1', decode_spg_frame args (fr_dlc f) (fr_data f) now m = (Ok (), m1) ∧
    motor_on_frame c g now m' = (Ok (), m1') ∧ shows_motor m1 m1'.
Proof.
  intros Hs Hf Hm. unfold decode_spg_frame, motor_on_frame. rewrite (sf_dlc _ _ Hf). st_run.
  destruct (Z.ltb_spec (fr_dlc g) 1) as [E|E]; [same_update Hm|].
  pose proof (sf_length _ _ Hf) as Hl. pose proof (same_frame_full _ _ Hf) as Hfull.
  destruct (status_same args c (fr_data f) Hl Hs)
    as (temp & iq & speed & pos & Ht & Hi & Hv & Hp & Hdi & Hdp & Hst).
  assert (pos = offset_of (fr_data f)) as Hpos.
  { unfold unpack_h in Hp. destruct (_ =? _)%nat; [|done]. by injection Hp as <-. }
  destruct (fr_data f) as [|opcode data] eqn:Ed; [done|].
  assert (∃ data', fr_data g = opcode :: data') as [data' Eg].
  { rewrite (sf_data _ _ Hf), Ed. destruct (Z.to_nat (fr_dlc g)) eqn:En; [lia|]. by eexists. }
  rewrite Eg. unfold spg_opcode_name. rewrite Ht, Hi, Hv, Hp, Hdi, Hdp.
  destruct (fr_dlc g =? 8) eqn:E8;
    [apply Z.eqb_eq in E8; rewrite <-Eg, (Hfull E8), Hst, <-Hpos|]; rewrite ?andb_true_r, ?andb_false_r.
  - destruct (opcode =? SPG_CMD_MIT_CONTROL); [same_update Hm|].
    destruct (opcode =? SPG_CMD_MIT_ENTER); [same_update Hm|].
    destruct (opcode =? SPG_CMD_MIT_EXIT); [same_update Hm|].
    destruct (opcode =? SPG_CMD_MIT_SET_ZERO) eqn:E3.
    { apply Z.eqb_eq in E3 as ->. same_update Hm. }
    destruct (opcode =? SPG_CMD_CLEAR_ERROR); same_update Hm.
  - destruct (opcode =? SPG_CMD_MIT_CONTROL) eqn:E1; [apply Z.eqb_eq in E1 as ->; same_update Hm|].
    destruct (opcode =? SPG_CMD_MIT_ENTER); [same_update Hm|].
    destruct (opcode =? SPG_CMD_MIT_EXIT); [same_update Hm|].
    destruct (opcode =? SPG_CMD_MIT_SET_ZERO) eqn:E3.
    { apply Z.eqb_eq in E3 as ->. same_update Hm. }
    destruct (opcode =? SPG_CMD_CLEAR_ERROR); same_update Hm.
Qed.

(** Every actuator of one side is shown by some actuator of the other. *)
Lemma shown_terminal m : ∃ m', shows_motor m m'.
Proof.
  exists {| mo_can_id := spg_can_id m; mo_name := ""; mo_rx_count := spg_rx_count m;
            mo_last_t := spg_last_t m; mo_last_kind := last_kind m;
            mo_enabled_hint := enabled_hint m; mo_temperature_c := temp_c m;
            mo_iq_a_approx := iq_a_approx m; mo_speed_dps := spg_speed_dps m;
            mo_position_rad := spg_position_rad m; mo_zero_offset_count := zero_offset_count m;
            mo_raw_data := raw_data m |}.
  split; cbn; try done. by left.
Qed.

Lemma shown_dashboard m' : ∃ m, shows_motor m m'.
Proof.
  exists {| spg_can_id := mo_can_id m'; spg_rx_count := mo_rx_count m'; spg_last_t := mo_last_t m';
            last_opcode := None; last_kind := mo_last_kind m'; enabled_hint := mo_enabled_hint m';
            temp_c := mo_temperature_c m'; iq_count := None; iq_a_approx := mo_iq_a_approx m';
            spg_speed_dps := mo_speed_dps m'; spg_position_rad := mo_position_rad m';
            zero_offset_count := mo_zero_offset_count m'; raw_data := mo_raw_data m' |}.
  split; cbn; try done. by left.
Qed.

(** The name does not matter. *)
Lemma shows_default m id name name' o :
  shows_motor m (default (DashboardState.SPGMotorState_new id name) o) →
  shows_motor m (default (DashboardState.SPGMotorState_new id name') o).
Proof. destruct o; [done|]. intros []. by split. Qed.

(** What a frame does to the actuators of either side. *)
Lemma spg_run args c f g now t :
  same_setup args c → same_frame f g →
  ∃ x, update_spg_state args (fr_can_id f) (fr_dlc f) (fr_data f) now t = (Ok (), with_spg x t) ∧
    (∀ id, id ≠ fr_can_id f → dict_get id x = dict_get id (spg_motors t)) ∧
    (fr_can_id f ∈ spg_can_ids args → ∃ m1, dict_get (fr_can_id f) x = Some m1 ∧
       decode_spg_frame args (fr_dlc f) (fr_data f) now (terminal_motor (fr_can_id f) t) =
         (Ok (), m1)).
Proof.
  intros Hs Hf. unfold update_spg_state. case_bool_decide as Hid; cbn [negb].
  2: { exists (spg_motors t). split; [by destruct t|]. by split. }
  fold (terminal_motor (fr_can_id f) t).
  destruct (shown_terminal (terminal_motor (fr_can_id f) t)) as [m' Hm].
  destruct (motor_step args c f g now _ _ Hs Hf Hm) as (m1 & m1' & H1 & _). rewrite H1.
  eexists. split; [done|]. split; [by intros id Hne; rewrite dict_get_set_ne|].
  intros _. exists m1. by rewrite dict_get_set_eq.
Qed.

Lemma update_motor_run args f g now d :
  same_setup args (ms_config d) → same_frame f g →
  ∃ y, _update_motor g now d = (Ok (), with_devices d (ms_imu d) y) ∧
    (∀ id, id ≠ fr_can_id g → dict_get id y = dict_get id (ms_motors d)) ∧
    (∀ name, actuator_config_for_can_id (fr_can_id g) d = Some name → ∃ m1,
       dict_get (fr_can_id g) y = Some m1 ∧
       motor_on_frame (ms_config d) g now
         (default (DashboardState.SPGMotorState_new (fr_can_id g) name)
                  (dict_get (fr_can_id g) (ms_motors d))) = (Ok (), m1)).
Proof.
  intros Hs Hf. unfold _update_motor, get. st_run.
  destruct (actuator_config_for_can_id (fr_can_id g) d) as [name|].
  2: { exists (ms_motors d). split; [by destruct d|]. by split. }
  unfold on_motor. set (m := default _ _).
  destruct (shown_dashboard m) as [m0 Hm].
  destruct (motor_step args (ms_config d) f g now _ _ Hs Hf Hm) as (m1 & m1' & _ & H1 & _).
  rewrite H1. eexists. split; [done|]. split; [by intros id Hne; rewrite dict_get_set_ne|].
  intros name' [= <-]. exists m1'. by rewrite dict_get_set_eq.
Qed.

Lemma motors_step args f g now t d :
  same_setup args (ms_config d) → same_frame f g →
  (∀ id, id ∈ spg_can_ids args → is_Some (actuator_config_for_can_id id d) →
     shows_motor (terminal_motor id t) (motor_of id d)) →
  ∃ x y,
    update_spg_state args (fr_can_id f) (fr_dlc f) (fr_data f) now t = (Ok (), with_spg x t) ∧
    _update_motor g now d = (Ok (), with_devices d (ms_imu d) y) ∧
    ∀ id, id ∈ spg_can_ids args → is_Some (actuator_config_for_can_id id d) →
      shows_motor (default (CanMonitor.SPGMotorState_new id) (dict_get id x))
        (default (DashboardState.SPGMotorState_new id "") (dict_get id y)).
Proof.
  intros Hs Hf Hm.
  destruct (spg_run args (ms_config d) f g now t Hs Hf) as (x & Hx & Hxo & Hxi).
  destruct (update_motor_run args f g now d Hs Hf) as (y & Hy & Hyo & Hyi).
  exists x, y. split; [exact Hx|]. split; [exact Hy|]. intros id Hid [name Hname].
  pose proof (sf_id _ _ Hf) as Efg.
  destruct (decide (id = fr_can_id g)) as [->|Hne].
  - rewrite <-Efg in *. destruct (Hxi Hid) as (m1 & -> & H1). rewrite Efg in Hname, Hyi.
    destruct (Hyi _ Hname) as (m1' & E1 & H1'). rewrite <-Efg in E1, H1', Hname. rewrite E1.
    pose proof (Hm _ Hid ltac:(by eexists)) as Hsh. unfold motor_of in Hsh.
    apply (shows_default _ _ _ name) in Hsh.
    destruct (motor_step args (ms_config d) f g now _ _ Hs Hf Hsh) as (n1 & n1' & E2 & E3 & Hn).
    cbn [default from_option id]. congruence.
  - rewrite Hxo, Hyo by congruence. apply (Hm id Hid). by eexists.
Qed.

Lemma raw_step f g now (rt : dict Z CanMonitor.RawFrameState) (d : Dashboard) :
  same_frame f g →
  (∀ id, option_Forall2 (shows_raw id) (dict_get id rt) (dict_get id (ms_raw_frames d))) →
  ∀ t id, raw_frames t = rt →
    option_Forall2 (shows_raw id)
      (dict_get id (raw_frames (update_raw_state (fr_can_id f) (fr_dlc f) (fr_data f) now t)))
      (dict_get id (ms_raw_frames (_update_raw_frame g now d))).
Proof.
  intros Hf Hraw t id <-. unfold update_raw_state, _update_raw_frame.
  cbn [raw_frames with_raw ms_raw_frames with_raw_frames]. rewrite (sf_id _ _ Hf), !dict_get_set.
  destruct (decide (id = fr_can_id g)) as [->|Hne]; [|apply Hraw]. constructor.
  specialize (Hraw (fr_can_id g)).
  assert (take (Z.to_nat (fr_dlc f)) (fr_data f) = fr_data g) as Hd
    by by rewrite (sf_data _ _ Hf), (sf_dlc _ _ Hf).
  destruct Hraw as [r r' []|]; by split; cbn; try congruence; rewrite ?(sf_dlc _ _ Hf).
Qed.

Lemma mark_node_imu id data now s : ms_imu (mark_node id data now s) = ms_imu s.
Proof.
  unfold mark_node, _node_for_can_id.
  destruct (find_node id (ms_nodes s)); [by destruct (dict_get _ _)|].
  unfold _ensure_node. destruct (dict_get _ (ms_nodes s)) eqn:E; cbn [ms_nodes with_nodes].
  - by rewrite E.
  - by rewrite dict_get_set_eq.
Qed.

(** What both sides need to go on. *)
Record in_step (args : MonitorArgs) (t : Terminal) (d : Dashboard) : Prop := {
  is_view : same_view args t d;
  is_setup : same_setup args (ms_config d);
  is_wf : monitor_wf d;
  is_stuff : stuff_ok d
}.

Lemma frame_step args ch t d f g now :
  in_step args t d → same_frame f g →
  ∃ t' d', handle_rx_frame args now f t = (Ok (), t') ∧ mark_rx g now ch d = (Ok (), d') ∧
    in_step args t' d' ∧ total_rx t' = total_rx t + 1 ∧ ms_config d' = ms_config d.
Proof.
  intros [[Hraw Himu Hmot] Hset Hwf Hst] Hf.
  pose proof (estimate_ok (fr_dlc f) (fr_is_eff f) (fr_is_rtr f) _ true (ss_stuff _ _ Hset)) as Hb.
  destruct (mark_rx_front g now ch d Hwf Hst (sf_id_pos _ _ Hf)) as (l & Hfront & Hcd & Hmo).
  set (d1 := mark_node _ _ _ _) in *.
  assert (ms_imu d1 = ms_imu d) as Hi1 by (unfold d1; by rewrite mark_node_imu).
  assert (ms_raw_frames d1 = ms_raw_frames (_update_raw_frame g now d)) as Hr1.
  { unfold d1.
    destruct (mark_node_spec (fr_can_id g) (fr_data g) now (_update_raw_frame g now (with_channels d l)))
      as (_ & _ & Hr & _); [by destruct Hwf|apply (sf_id_pos _ _ Hf)|]. by rewrite Hr. }
  pose proof (cd_config _ _ _ Hcd) as Hc1.
  destruct (imu_step args (ms_config d) f g now (box t) Hset Hf) as (b' & Hb1 & Hb2).
  destruct (estimate_classical_can_bits (fr_dlc f) (fr_is_eff f) (fr_is_rtr f) (stuff_factor args)
    true) as [bits|] eqn:Ebits; [|done].
  set (t1 := with_box b' (update_raw_state (fr_can_id f) (fr_dlc f) (fr_data f) now
    (with_load (bus_add now bits "rx" (bus_load t)) (with_total_rx (total_rx t + 1) t)))).
  set (d2 := with_devices d1 (box_view b') (ms_motors d1)).
  destruct (motors_step args f g now t1 d2) as (x & y & Hx & Hy & Hxy).
  - cbn [ms_config d2 with_devices]. by rewrite Hc1.
  - exact Hf.
  - intros id Hid Hname. unfold actuator_config_for_can_id in *. cbn [ms_config d2 with_devices] in Hname.
    rewrite Hc1 in Hname. pose proof (Hmot id Hid Hname) as H. unfold motor_of in *.
    cbn [ms_motors d2 with_devices]. by rewrite Hmo.
  - exists (with_spg x t1), (with_devices d2 (ms_imu d2) y). split; [|split; [|split; [|split]]].
    + unfold handle_rx_frame, estimate_frame_bits. st_run. rewrite Ebits. unfold zoom.
      cbn [box update_raw_state with_raw with_load with_total_rx]. rewrite Hb1. exact Hx.
    + rewrite Hfront. unfold _update_imu, get. st_run. unfold zoom.
      rewrite Hi1, Hc1, <-Himu, Hb2. exact Hy.
    + split; [split| | |].
      * intros id. cbn [ms_raw_frames d2 with_devices]. rewrite Hr1.
        by apply (raw_step f g now (raw_frames t)).
      * reflexivity.
      * intros id Hid Hname. by apply Hxy.
      * cbn [ms_config d2 with_devices]. by rewrite Hc1.
      * by destruct (cd_wf _ _ _ Hcd).
      * apply (cd_stuff _ _ _ Hcd).
    + reflexivity.
    + exact Hc1.
Qed.

(** ** Whatever is received *)

Definition terminal_hears (args : MonitorArgs) (l : list (float * bytes)) : ST Terminal unit :=
  for_each l (λ tb, f ← lift (CanMonitor.parse_can_frame tb.2); handle_rx_frame args tb.1 f).
Definition dashboard_hears (ch : option nat) (l : list (float * bytes)) : ST Dashboard unit :=
  for_each l (λ tb, f ← lift (DashboardDecode.parse_can_frame tb.2); mark_rx f tb.1 ch).

Definition wire_frame (b : bytes) : Prop := length b = 16%nat ∧ 0 ≤ wire_dlc b ≤ 8.


(** ** From the start *)

Definition unheard (s : Dashboard) : Prop :=
  ∀ id, ∃ name, motor_of id s = DashboardState.SPGMotorState_new id name.

Lemma ensure_node_same k name id role s :
  ms_imu (_ensure_node k name id role s) = ms_imu s ∧
  ms_raw_frames (_ensure_node k name id role s) = ms_raw_frames s ∧
  ms_motors (_ensure_node k name id role s) = ms_motors s ∧
  ms_config (_ensure_node k name id role s) = ms_config s ∧
  ms_channels (_ensure_node k name id role s) = ms_channels s.
Proof. unfold _ensure_node. by destruct (dict_get _ _). Qed.

Lemma ensure_actuators_same l : ∀ s,
  unheard s →
  let s' := foldl ensure_actuator s l in
  unheard s' ∧ ms_imu s' = ms_imu s ∧ ms_raw_frames s' = ms_raw_frames s ∧
  ms_config s' = ms_config s ∧ ms_channels s' = ms_channels s.
Proof.
  induction l as [|a l IH]; intros s Hs; [done|]. cbn [foldl].
  destruct (ensure_node_same (node_key a.1) a.2 a.1 "Actuator" s) as (Hi & Hr & Hm & Hc & Hch).
  destruct (IH (ensure_actuator s a)) as (H1 & H2 & H3 & H4 & H5).
  - intros id. unfold motor_of, ensure_actuator. cbn [ms_motors with_devices]. rewrite Hm.
    unfold dict_setdefault. destruct (dict_get a.1 (ms_motors s)) eqn:E; [apply Hs|].
    rewrite dict_get_set. destruct (decide (id = a.1)) as [->|]; [by exists a.2|apply Hs].
  - cbv zeta. rewrite H2, H3, H4, H5. unfold ensure_actuator. by cbn [ms_imu ms_raw_frames
      ms_config ms_channels with_devices].
Qed.

(** A terminal monitor and a dashboard that have just started. *)
Lemma starts_in_step args config channels tx now d :
  monitor_init config channels tx = Ok d → same_setup args config →
  Forall (λ a, 0 ≤ a.1) (mc_actuator_configs config) → stuff_ok d →
  in_step args (terminal_start args now) d.
Proof.
  intros Hd Hs Hpos Hst. pose proof (monitor_init_wf _ _ _ _ Hd Hpos) as Hwf.
  revert Hd. unfold monitor_init, ensure_known_nodes. case_bool_decide; [done|]. intros [= <-].
  match goal with |- context [foldl ensure_actuator ?s ?l] =>
    destruct (ensure_actuators_same l s) as (H1 & H2 & H3 & H4 & H5) end.
  { intros id. unfold motor_of. rewrite !(proj1 (proj2 (proj2 (ensure_node_same _ _ _ _ _)))).
    by eexists. }
  split; [split| | |done].
  - intros id. rewrite H3, !(proj1 (proj2 (ensure_node_same _ _ _ _ _))). constructor.
  - by rewrite H2, !(proj1 (ensure_node_same _ _ _ _ _)).
  - intros id _ _. destruct (H1 id) as [name ->]. by split.
  - rewrite H4, !(proj1 (proj2 (proj2 (proj2 (ensure_node_same _ _ _ _ _))))).
    destruct Hs. by split.
  - done.
Qed.

Definition example_monitor_config : MonitorConfig :=
  {| mc_heartbeat_window_s := 1; mc_node_timeout_s := 0.5;
     mc_feedback_position_max_rad := 12.56; mc_iq_full_scale_count := 2048;
     mc_iq_full_scale_current_a := 33; mc_mit_p_max_rad := 12.5; mc_mit_v_max_rad_s := 45;
     mc_mit_kp_max := 500; mc_mit_kd_max := 5; mc_mit_tau_max_nm := 33;
     mc_imu_request_id := 0x221; mc_imu_quat_id := 0x2A1; mc_imu_gyro_id := 0x321;
     mc_imu_quat_scale := 10000; mc_imu_gyro_scale := 100; mc_imu_normalize_quat := true;
     mc_actuator_configs := [(0x141, "FL_HR"%string)]; mc_allow_actuator_commands := false;
     mc_mit_poll_hz := 10; mc_start_t := 1 |}.

(** A status, a truncated one, an attitude and a frame of an unknown device. *)
Definition example_wire : list (float * bytes) :=
  [(1%float, [0x41; 1; 0; 0; 8; 0; 0; 0; 0xC0; 40; 0; 4; 0; 0; 255; 127]);
   (2%float, [0x41; 1; 0; 0; 2; 0; 0; 0; 0xC0; 41; 0; 0; 0; 0; 0; 0]);
   (3%float, [0xA1; 2; 0; 0; 8; 0; 0; 0; 0; 0; 0; 0; 0; 0; 16; 39]);
   (4%float, [0x63; 0; 0; 0; 0; 0; 0; 0; 0; 0; 0; 0; 0; 0; 0; 0])].

