(* ===== verification/PolicyRunner.v ===== *)
(** * The policy of the task controller

    [subprocesses/task_controller/policy_runner.py]: finding and loading a policy,
    building its observation from the robot's state, and turning the network's
    output into joint offsets. The ONNX network is a parameter, a function from
    the observation to its output. *)

From Stdlib Require Import Ascii.
From S2P Require Import Prelude PyFloat PyDict Numpy Wire Config.
Open Scope Z_scope.

(** ** Paths *)

(** [pathlib]'s pure paths: empty and "." components are dropped. *)
Record Path := { is_absolute : bool; parts : list string }.

#[export] Instance Path_eq_dec : EqDecision Path.
Proof. solve_decision. Defined.

Fixpoint split_slash (acc : string) (s : string) : list string :=
  match s with
  | EmptyString => [acc]
  | String c s =>
      if bool_decide (c = "/"%char) then acc :: split_slash "" s
      else split_slash (acc +:+ String c "") s
  end.

(** [Path(text)] *)
Definition path_of (s : string) : Path :=
  {| is_absolute := match s with String c _ => bool_decide (c = "/"%char) | _ => false end;
     parts := filter (λ x, x ≠ ""%string ∧ x ≠ "."%string) (split_slash "" s) |}.

(** [p / q] *)
Definition path_join (p q : Path) : Path :=
  if is_absolute q then q
  else {| is_absolute := is_absolute p; parts := parts p ++ parts q |}.
Definition path_child (p : Path) (name : string) : Path := path_join p (path_of name).

(** [p.name] *)
Definition path_name (p : Path) : string := default ""%string (last (parts p)).

Example path_of_ex :
  parts (path_of "../policy/./SPARQ//SPARQ/") = ["..";"policy";"SPARQ";"SPARQ"]%string ∧
  path_join (path_of "a") (path_of "/b") = path_of "/b".
Proof. split; reflexivity. Qed.

(** [str(p)] *)
Definition path_str (p : Path) : string :=
  let s := String.concat "/" (parts p) in
  if is_absolute p then "/" +:+ s else if decide (parts p = []) then "." else s.

(** The file system and the ONNX runtime. *)
Record Files := {
  fl_exists : Path → bool;
  fl_is_dir : Path → bool;
  fl_resolve : Path → Path;
  fl_cwd : Path;
  fl_session : Path → res (array → res array)         (* [InferenceSession], its [run] flattened *)
}.

(** The dtype of the policy's arrays. *)
Section dtype.
Context {dt : DType}.

Section files.
Context (fl : Files) (py : Platform).

Definition load_yaml (path : Path) : res mapping :=
  data ← read_yaml py (path_str path);
  match data with JObj d => Ok d | _ => Raise ValueError end.

Definition project_root (value : option string) : res Path :=
  let root := match value with
              | Some s => if decide (s = ""%string) then fl_cwd fl else path_of s
              | None => fl_cwd fl
              end in
  let root := if is_absolute root then root else path_join (fl_cwd fl) root in
  if fl_is_dir fl root then Ok (fl_resolve fl root) else Raise FileNotFoundError.

Definition has_policies (root : Path) : bool :=
  fl_exists fl (path_child root "policy_list.yaml") ||
  fl_exists fl (path_child root "runner_config.yaml").

Definition resolve_policy_config_dir (project_root_path : Path) (policy_config_dir : string)
    (robot_name : string) : res Path :=
  let root := path_of policy_config_dir in
  let root := if is_absolute root then root else path_join project_root_path root in
  if has_policies root then Ok (fl_resolve fl root)
  else
    let robot_root := path_child root robot_name in
    if has_policies robot_root then Ok (fl_resolve fl robot_root) else Raise FileNotFoundError.

(** [class RunnerBundle] *)
Record RunnerBundle := {
  rb_name : string; rb_directory : Path; rb_runner_config : mapping; rb_obs_config : mapping }.

Definition load_bundle (name : string) (directory : Path) : res RunnerBundle :=
  runner_config ← load_yaml (path_child directory "runner_config.yaml");
  obs_config ←
    (if fl_exists fl (path_child directory "obs_config.yaml")
     then load_yaml (path_child directory "obs_config.yaml") else Ok []);
  Ok {| rb_name := name; rb_directory := directory; rb_runner_config := runner_config;
        rb_obs_config := obs_config |}.

Definition load_bundles (policy_config_dir : Path) : res (list RunnerBundle) :=
  let policy_list_path := path_child policy_config_dir "policy_list.yaml" in
  if fl_exists fl policy_list_path then
    policy_list ← load_yaml policy_list_path;
    match dict_get "list_of_policy_names"%string policy_list with
    | Some (JList ((_ :: _) as names)) =>
        mapR (λ name, load_bundle (py_str py name) (path_child policy_config_dir (py_str py name)))
          names
    | _ => Raise ValueError
    end
  else
    b ← load_bundle (path_name policy_config_dir) policy_config_dir;
    Ok [b].

Fixpoint drop_parents (l : list string) : list string :=
  match l with
  | x :: l' => if decide (x = "."%string ∨ x = ".."%string) then drop_parents l' else l
  | [] => []
  end.

(** [_strip_leading_parents(path)] of a relative path *)
Definition _strip_leading_parents (p : Path) : Path :=
  match drop_parents (parts p) with
  | [] => p
  | l => {| is_absolute := false; parts := l |}
  end.

Definition _resolve_policy_dir (project_root_path : Path) (raw_file_path : string) : res Path :=
  let raw := path_of raw_file_path in
  let candidates :=
    if is_absolute raw then [raw]
    else [path_join project_root_path raw;
          path_join project_root_path (_strip_leading_parents raw)] in
  match list_find (λ c, fl_exists fl (path_child c "policy.onnx") = true) candidates with
  | Some (_, c) => Ok (fl_resolve fl c)
  | None => Raise FileNotFoundError
  end.

(** ** [class OnnxPolicy] *)

(** The attributes that are set once. *)
Record PolicyConfig := {
  pl_name : string;
  pl_directory : Path;
  pl_config : mapping;
  num_joint : Z;
  action_scale : float;
  action_clip : float;
  obs_type : Z;
  input_indices : list Z;
  output_indices : list Z;
  default_joint_angle : array;
  obs_components : list string;
  obs_scales : dict string float;
  session : array → res array
}.

(** The arrays and flags that change. *)
Record PolicyState := {
  dof_pos : array;
  dof_vel : array;
  delta_dof_pos : array;
  actions : array;
  scaled_actions : array;
  last_actions : array;
  last_last_actions : array;
  last_last_last_actions : array;
  base_ang_vel : array;
  projected_gravity : array;
  commands : array;
  policy_mode : bool;
  cnt : Z
}.

Record OnnxPolicy := { pl : PolicyConfig; ps : PolicyState }.

(** [mapping[key]] and [mapping[key][key2]] *)
Definition item (m : mapping) (key : string) : res json := dict_index key m.
Definition item_of (j : json) (key : string) : res json :=
  match j with JObj d => item d key | _ => Raise TypeError end.

(** Iterating over a value. *)
Definition py_iter (j : json) : res (list json) :=
  match j with
  | JList l => Ok l
  | JObj d => Ok (map (λ kv, JStr (fst kv)) d)
  | JStr s => Ok (map (λ c, JStr (String c "")) (String.list_ascii_of_string s))
  | _ => Raise TypeError
  end.

Definition item_list {A} (f : json → res A) (j : json) (key : string) : res (list A) :=
  v ← item_of j key; l ← py_iter v; mapR f l.

(** [d.get(key, default)] on a value that may not be a mapping *)
Definition get_or (j : json) (key : string) (otherwise : json) : res json :=
  match j with JObj d => Ok (default otherwise (dict_get key d)) | _ => Raise AttributeError end.

Definition _obs_components (obs_config : mapping) : res (list string) :=
  components ← get_or (default (JObj []) (dict_get "observations"%string obs_config))
                 "components" (JList []);
  if json_truthy components then l ← py_iter components; Ok (map (py_str py) l)
  else Raise RuntimeError.

Definition _obs_scales (obs_config : mapping) : res (dict string float) :=
  scales ← get_or (default (JObj []) (dict_get "observations"%string obs_config))
             "scales" (JObj []);
  match scales with
  | JObj d => l ← mapR (λ kv, x ← py_float py (snd kv); Ok (fst kv, x)) d; Ok (dict_of l)
  | _ => Ok []
  end.

(** [__init__(project_root_path, bundle)] *)
Definition policy_init (project_root_path : Path) (bundle : RunnerBundle) : res OnnxPolicy :=
  let config := rb_runner_config bundle in
  n ← (v ← item config "num_joint"; json_int v);
  scale ← (v ← item config "action_scale"; py_float py v);
  clip ← (v ← item config "action_clip"; py_float py v);
  obs_type ← json_int (default (JInt 0) (dict_get "obs_type"%string config));
  style ← (v ← item config "joint_idx_style"; Ok (py_str py v));
  conversion ← item config ("joint_idx_conversion_" ++ style)%string;
  input ← item_list json_int conversion "input";
  output ← item_list json_int conversion "output";
  defaults ← item_list (py_float py) (JObj config) "default_joint_angle";
  angles ← mapR (py_index defaults) input;
  zeros ← np_zeros n;
  components ← _obs_components (rb_obs_config bundle);
  scales ← _obs_scales (rb_obs_config bundle);
  file_path ← (v ← item config "file_path"; Ok (py_str py v));
  policy_dir ← _resolve_policy_dir project_root_path file_path;
  session ← fl_session fl (path_child policy_dir "policy.onnx");
  Ok {| pl := {| pl_name := rb_name bundle; pl_directory := rb_directory bundle;
                 pl_config := config; num_joint := n; action_scale := scale;
                 action_clip := clip; obs_type := obs_type; input_indices := input;
                 output_indices := output; default_joint_angle := np_array angles;
                 obs_components := components; obs_scales := scales; session := session |};
        ps := {| dof_pos := zeros; dof_vel := zeros; delta_dof_pos := zeros; actions := zeros;
                 scaled_actions := zeros; last_actions := zeros; last_last_actions := zeros;
                 last_last_last_actions := zeros; base_ang_vel := replicate 3 0%float;
                 projected_gravity := [0; 0; -1]%float; commands := replicate 3 0%float;
                 policy_mode := false; cnt := 0 |} |}.

Definition load_policies (project_root_path policy_config_dir : Path) : res (list OnnxPolicy) :=
  bundles ← load_bundles policy_config_dir; mapR (policy_init project_root_path) bundles.

(** [action_offset(policy, robot_name, q, mode)]: both of its returns. *)
Definition action_offset (p : OnnxPolicy) (q : array) : res array :=
  defaults ← item_list (py_float py) (JObj (pl_config (pl p))) "default_joint_angle";
  Ok (take (length q) (np_array defaults)).
End files.

(** ** A step of the policy *)

(** [_quat_to_projected_gravity(quat_wxyz)]: the rotation is computed in doubles and
    stored in the dtype; the product with (0, 0, -1) is summed from the left (another
    order could only change the sign of a zero). *)
Definition rotation (w x y z : float) : list array :=
  map np_array
    [[1 - 2 * (y * y + z * z); 2 * (x * y - z * w); 2 * (x * z + y * w)];
     [2 * (x * y + z * w); 1 - 2 * (x * x + z * z); 2 * (y * z - x * w)];
     [2 * (x * z - y * w); 2 * (y * z + x * w); 1 - 2 * (x * x + y * y)]]%float.

Definition mul_transposed (m : list array) (v : array) : array :=
  map (λ j, foldl (λ acc x, rnd (acc + x)%float) 0%float
              (zip_with (λ row x, np_mul (default 0%float (row !! j)) x) m v))
      (seq 0 (length v)).

Definition _quat_to_projected_gravity (quat_wxyz : float * float * float * float) : res array :=
  let '(w, x, y, z) := quat_wxyz in
  norm ← py_sqrt (w * w + x * x + y * y + z * z)%float;
  w ← py_div w norm; x ← py_div x norm; y ← py_div y norm; z ← py_div z norm;
  Ok (mul_transposed (rotation w x y z) [0; 0; -1]%float).

(** [set_state(dof_pos, dof_vel, quat_wxyz, ang_vel)] *)
Definition set_state (q v : array) (quat_wxyz : float * float * float * float)
    (ang_vel : array) (p : OnnxPolicy) : res OnnxPolicy :=
  let c := pl p in
  let s := ps p in
  pos ← (l ← mapR (py_index q) (input_indices c); np_assign (dof_pos s) (np_array l));
  vel ← (l ← mapR (py_index v) (input_indices c); np_assign (dof_vel s) (np_array l));
  delta ← (if obs_type c =? 1 then np_assign (delta_dof_pos s) pos
           else d ← np_sub pos (default_joint_angle c); np_assign (delta_dof_pos s) d);
  gravity ← _quat_to_projected_gravity quat_wxyz;
  gyro ← np_assign (base_ang_vel s) (np_array ang_vel);
  Ok {| pl := c;
        ps := {| dof_pos := pos; dof_vel := vel; delta_dof_pos := delta; actions := actions s;
                 scaled_actions := scaled_actions s; last_actions := last_actions s;
                 last_last_actions := last_last_actions s;
                 last_last_last_actions := last_last_last_actions s; base_ang_vel := gyro;
                 projected_gravity := gravity; commands := commands s;
                 policy_mode := policy_mode s; cnt := cnt s |} |}.

(** [set_commands(lin_x, lin_y, yaw, mode)] *)
Definition set_commands (lin_x lin_y yaw : float) (mode : bool) (p : OnnxPolicy) : OnnxPolicy :=
  let s := ps p in
  {| pl := pl p;
     ps := {| dof_pos := dof_pos s; dof_vel := dof_vel s; delta_dof_pos := delta_dof_pos s;
              actions := actions s; scaled_actions := scaled_actions s;
              last_actions := last_actions s; last_last_actions := last_last_actions s;
              last_last_last_actions := last_last_last_actions s;
              base_ang_vel := base_ang_vel s; projected_gravity := projected_gravity s;
              commands := np_array [lin_x; lin_y; yaw]; policy_mode := mode; cnt := cnt s |} |}.

(** [_scale(key, 1.0)] *)
Definition _scale (p : OnnxPolicy) (key : string) : float :=
  default 1%float (dict_get key (obs_scales (pl p))).

Definition float_of_bool (b : bool) : float := if b then 1%float else 0%float.

(** One component of [_observation()]. *)
Definition observed (p : OnnxPolicy) (component : string) : res (list float) :=
  let s := ps p in
  let k := _scale p component in
  let scaled a := Ok (np_scale a k) in
  let one r := x ← r; Ok [np_mul x k] in
  let gravity i := x ← py_index (projected_gravity s) i;
                   Ok (py_max 0 (py_min 1 (- x)))%float in
  if decide (component = "base_ang_vel_"%string) then scaled (base_ang_vel s)
  else if decide (component = "projected_gravity"%string) then scaled (projected_gravity s)
  else if decide (component = "lin_vel_x_commands_"%string) then one (py_index (commands s) 0)
  else if decide (component = "lin_vel_y_commands_"%string) then one (py_index (commands s) 1)
  else if decide (component = "ang_vel_z_commands_"%string) then one (py_index (commands s) 2)
  else if decide (component = "dof_pos"%string) then scaled (dof_pos s)
  else if decide (component = "delta_dof_pos"%string) then scaled (delta_dof_pos s)
  else if decide (component = "dof_vel"%string) then scaled (dof_vel s)
  else if decide (component = "actions"%string) then scaled (actions s)
  else if decide (component = "last_actions"%string) then scaled (last_actions s)
  else if decide (component = "last_last_actions"%string) then scaled (last_last_actions s)
  else if decide (component = "last_last_last_actions"%string) then
    scaled (last_last_last_actions s)
  else if decide (component = "alpha"%string) then one (gravity 2)
  else if decide (component = "beta"%string) then
    x ← gravity 0; one (Ok (np_mul x (float_of_bool (policy_mode s))))
  else if decide (component = "mode"%string) then
    Ok [(float_of_bool (policy_mode s) * k)%float]
  else Raise RuntimeError.

(** [_observation()]: [alpha] and [beta] are computed before the loop, but cannot
    fail on the three elements of [projected_gravity]. *)
Definition _observation (p : OnnxPolicy) : res array :=
  l ← mapR (observed p) (obs_components (pl p)); Ok (np_array (dt := float32) (concat l)).

(** The loop over [output_indices]. *)
Fixpoint reorder (out_index : nat) (indices : list Z) (source target : array) : res array :=
  match indices with
  | [] => Ok target
  | src_index :: indices =>
      x ← py_index source src_index;
      target ← np_store target out_index x;
      reorder (S out_index) indices source target
  end.

(** [compute_action()]: the policy after it, and the array it returns. *)
Definition compute_action (p : OnnxPolicy) : res (OnnxPolicy * array) :=
  let c := pl p in
  let s := ps p in
  obs ← _observation p;
  output ← session c obs;
  let raw := py_prefix (np_array output) (num_joint c) in
  act ← np_assign (actions s) (np_clip raw (- action_clip c)%float (action_clip c));
  let scaled_original := np_scale act (action_scale c) in
  scaled ← reorder 0 (output_indices c) scaled_original (scaled_actions s);
  last3 ← np_assign (last_last_last_actions s) (last_last_actions s);
  last2 ← np_assign (last_last_actions s) (last_actions s);
  last1 ← np_assign (last_actions s) act;
  Ok ({| pl := c;
         ps := {| dof_pos := dof_pos s; dof_vel := dof_vel s; delta_dof_pos := delta_dof_pos s;
                  actions := act; scaled_actions := scaled; last_actions := last1;
                  last_last_actions := last2; last_last_last_actions := last3;
                  base_ang_vel := base_ang_vel s; projected_gravity := projected_gravity s;
                  commands := commands s; policy_mode := policy_mode s; cnt := cnt s + 1 |} |},
      scaled).

(** ** Properties *)

(** What [_observation] knows. *)
Definition COMPONENTS : list string :=
  ["base_ang_vel_"; "projected_gravity"; "lin_vel_x_commands_"; "lin_vel_y_commands_";
   "ang_vel_z_commands_"; "dof_pos"; "delta_dof_pos"; "dof_vel"; "actions"; "last_actions";
   "last_last_actions"; "last_last_last_actions"; "alpha"; "beta"; "mode"]%string.

(** A policy of [n] joints with its two index tables. *)
Record config_wf (n : nat) (ins outs : list nat) (c : PolicyConfig) : Prop := {
  cw_joint : num_joint c = Z.of_nat n;
  cw_input : input_indices c = map Z.of_nat ins;
  cw_output : output_indices c = map Z.of_nat outs;
  cw_ins : length ins = n ∧ Forall (λ k, (k < n)%nat) ins;
  cw_outs : length outs = n ∧ Forall (λ k, (k < n)%nat) outs;
  cw_default : length (default_joint_angle c) = n;
  cw_components : Forall (λ x, x ∈ COMPONENTS) (obs_components c)
}.

Record state_wf (n : nat) (s : PolicyState) : Prop := {
  sw_dof_pos : length (dof_pos s) = n;
  sw_dof_vel : length (dof_vel s) = n;
  sw_delta : length (delta_dof_pos s) = n;
  sw_actions : length (actions s) = n;
  sw_scaled : length (scaled_actions s) = n;
  sw_last : length (last_actions s) = n;
  sw_last2 : length (last_last_actions s) = n;
  sw_last3 : length (last_last_last_actions s) = n;
  sw_gyro : length (base_ang_vel s) = 3%nat;
  sw_gravity : length (projected_gravity s) = 3%nat;
  sw_commands : length (commands s) = 3%nat
}.

Lemma reorder_spec source (d : float) idx : ∀ pre rest,
  Forall (λ k, (k < length source)%nat) idx → (length idx ≤ length rest)%nat →
  reorder (length pre) (map Z.of_nat idx) source (pre ++ rest) =
    Ok (pre ++ map (λ k, nth k source d) idx ++ drop (length idx) rest).
Proof.
  induction idx as [|k idx IH]; intros pre rest Hi Hl; [done|].
  apply Forall_cons in Hi as [Hk Hi]. destruct rest as [|y rest]; [cbn in Hl; lia|].
  destruct (lookup_lt_is_Some_2 source k Hk) as [x Hx].
  cbn [map reorder]. rewrite (py_index_nat _ _ _ Hx). cbn [mbind res_bind]. unfold np_store.
  rewrite length_app. cbn [length]. rewrite (proj2 (Nat.ltb_lt _ _)) by lia. cbn [mbind res_bind].
  rewrite insert_app_r_alt, Nat.sub_diag by lia. cbn [list_insert insert]. specialize (IH (pre ++ [x]) rest Hi ltac:(cbn in Hl; lia)).
  rewrite length_app, Nat.add_1_r, <-!app_assoc in IH. cbn [app] in IH. rewrite IH.
  by rewrite (nth_lookup_Some _ _ d _ Hx).
Qed.

(** Every target is overwritten when there is an index for each. *)
Lemma reorder_all source target idx :
  Forall (λ k, (k < length source)%nat) idx → length idx = length target →
  reorder 0 (map Z.of_nat idx) source target = Ok (map (λ k, nth k source 0%float) idx).
Proof.
  intros Hi Hl. pose proof (reorder_spec source 0%float idx [] target Hi ltac:(lia)) as H.
  cbn [length app] in H. by rewrite H, Hl, drop_all, app_nil_r.
Qed.

Lemma index3 (l : array) k : length l = 3%nat → (k < 3)%nat → ∃ x, py_index l (Z.of_nat k) = Ok x.
Proof.
  intros Hl Hk. destruct (lookup_lt_is_Some_2 l k) as [x Hx]; [lia|].
  exists x. by apply py_index_nat.
Qed.

Lemma observed_total n p component :
  state_wf n (ps p) → component ∈ COMPONENTS → ∃ l, observed p component = Ok l.
Proof.
  intros Hw Hin.
  destruct (index3 _ 0%nat (sw_commands _ _ Hw)) as [c0 H0]; [lia|].
  destruct (index3 _ 1%nat (sw_commands _ _ Hw)) as [c1 H1]; [lia|].
  destruct (index3 _ 2%nat (sw_commands _ _ Hw)) as [c2 H2]; [lia|].
  destruct (index3 _ 0%nat (sw_gravity _ _ Hw)) as [g0 H3]; [lia|].
  destruct (index3 _ 2%nat (sw_gravity _ _ Hw)) as [g2 H4]; [lia|].
  change (Z.of_nat 0) with 0 in *. change (Z.of_nat 1) with 1 in *. change (Z.of_nat 2) with 2 in *.
  unfold COMPONENTS in Hin. rewrite !elem_of_cons in Hin.
  repeat (destruct Hin as [->|Hin];
    [unfold observed; cbv zeta; repeat rewrite decide_False by discriminate;
     rewrite ?decide_True by reflexivity;
     rewrite ?H0, ?H1, ?H2, ?H3, ?H4; cbn; by eexists|]).
  by apply elem_of_nil in Hin.
Qed.

Lemma mapR_total {A B} (f : A → res B) l :
  Forall (λ x, ∃ y, f x = Ok y) l → ∃ l', mapR f l = Ok l'.
Proof.
  induction 1 as [|x l [y Hy] _ [l' Hl]]; [by exists []|].
  exists (y :: l'). cbn [mapR]. rewrite Hy. cbn [mbind res_bind]. by rewrite Hl.
Qed.

Lemma observation_total n ins outs p :
  config_wf n ins outs (pl p) → state_wf n (ps p) → ∃ obs, _observation p = Ok obs.
Proof.
  intros Hc Hs. destruct (mapR_total (observed p) (obs_components (pl p))) as [l Hl].
  { eapply Forall_impl; [exact (cw_components _ _ _ _ Hc)|]. intros x. by eapply observed_total. }
  unfold _observation. rewrite Hl. by eexists.
Qed.

(** The action a network output stands for. *)
Definition clipped (c : PolicyConfig) (n : nat) (output : array) : array :=
  np_clip (take n (np_array output)) (- action_clip c)%float (action_clip c).

(** What [compute_action] does with an output of at least [n] numbers. *)
Lemma compute_action_spec n ins outs p obs output :
  config_wf n ins outs (pl p) → state_wf n (ps p) →
  _observation p = Ok obs → session (pl p) obs = Ok output → (n ≤ length output)%nat →
  let act := clipped (pl p) n output in
  ∃ p' scaled, compute_action p = Ok (p', scaled) ∧
    scaled = map (λ k, np_mul (nth k act 0%float) (action_scale (pl p))) outs ∧
    pl p' = pl p ∧ state_wf n (ps p') ∧ length act = n ∧
    actions (ps p') = act ∧ last_actions (ps p') = act ∧
    last_last_actions (ps p') = last_actions (ps p) ∧
    last_last_last_actions (ps p') = last_last_actions (ps p) ∧
    dof_pos (ps p') = dof_pos (ps p).
Proof.
  intros Hc Hs Hobs Hout Hlen act.
  destruct (cw_outs _ _ _ _ Hc) as [Hol Hof].
  assert (length act = n) as Hact.
  { unfold act, clipped, np_clip, np_array. rewrite length_map, length_take, length_map. lia. }
  unfold compute_action. cbv zeta. rewrite Hobs. cbn [mbind res_bind]. rewrite Hout. cbn [mbind res_bind].
  rewrite (cw_joint _ _ _ _ Hc), py_prefix_all, (cw_output _ _ _ _ Hc).
  fold (clipped (pl p) n output). fold act.
  rewrite (np_assign_same (actions (ps p)) act) by (by rewrite (sw_actions _ _ Hs)). cbn [mbind res_bind].
  rewrite reorder_all; cycle 1.
  { unfold np_scale. by rewrite length_map, Hact. }
  { by rewrite Hol, (sw_scaled _ _ Hs). }
  cbn [mbind res_bind].
  rewrite (np_assign_same (last_last_last_actions (ps p)))
    by (by rewrite (sw_last2 _ _ Hs), (sw_last3 _ _ Hs)). cbn [mbind res_bind].
  rewrite (np_assign_same (last_last_actions (ps p)))
    by (by rewrite (sw_last _ _ Hs), (sw_last2 _ _ Hs)). cbn [mbind res_bind].
  rewrite (np_assign_same (last_actions (ps p))) by (by rewrite (sw_last _ _ Hs)).
  cbn [mbind res_bind]. do 2 eexists. split; [done|]. cbn [pl ps actions last_actions
    last_last_actions last_last_last_actions].
  split.
  - apply map_ext_Forall. eapply Forall_impl; [exact Hof|]. intros k Hk. unfold np_scale.
    destruct (lookup_lt_is_Some_2 act k) as [x Hx]; [by rewrite Hact|].
    erewrite !nth_lookup_Some; [done|done|]. by rewrite list_lookup_fmap, Hx.
  - split; [done|]. split; [|done]. destruct Hs.
    split; cbn; try done. by rewrite length_map.
Qed.

Lemma delta_total n p pos :
  state_wf n (ps p) → length (default_joint_angle (pl p)) = n → length pos = n →
  ∃ delta, (if obs_type (pl p) =? 1 then np_assign (delta_dof_pos (ps p)) pos
            else d ← np_sub pos (default_joint_angle (pl p)); np_assign (delta_dof_pos (ps p)) d)
           = Ok delta ∧ length delta = n.
Proof.
  intros Hs Hd Hp. destruct (_ =? 1).
  - rewrite np_assign_same by (by rewrite Hp, (sw_delta _ _ Hs)). by eexists.
  - unfold np_sub. rewrite np_map2_same by by rewrite Hp, Hd. cbn [mbind res_bind].
    assert (length (zip_with (λ x y, rnd (x - y)%float) pos (default_joint_angle (pl p))) = n)
      as Hl by (rewrite length_zip_with; lia).
    rewrite np_assign_same by (by rewrite Hl, (sw_delta _ _ Hs)). by eexists.
Qed.

Lemma gravity_length quat g : _quat_to_projected_gravity quat = Ok g → length g = 3%nat.
Proof.
  unfold _quat_to_projected_gravity. destruct quat as [[[w x] y] z]. intros H. run_res H.
  by injection H as <-.
Qed.

(** What [set_state] does with the readings of [n] joints. *)
Lemma set_state_spec n ins outs q v quat gyro gravity p :
  config_wf n ins outs (pl p) → state_wf n (ps p) →
  length q = n → length v = n → length gyro = 3%nat →
  _quat_to_projected_gravity quat = Ok gravity →
  ∃ p', set_state q v quat gyro p = Ok p' ∧ pl p' = pl p ∧ state_wf n (ps p') ∧
    dof_pos (ps p') = np_array (map (λ k, nth k q 0%float) ins) ∧
    dof_vel (ps p') = np_array (map (λ k, nth k v 0%float) ins) ∧
    base_ang_vel (ps p') = np_array gyro ∧ projected_gravity (ps p') = gravity ∧
    actions (ps p') = actions (ps p) ∧ last_actions (ps p') = last_actions (ps p) ∧
    last_last_actions (ps p') = last_last_actions (ps p) ∧
    last_last_last_actions (ps p') = last_last_last_actions (ps p).
Proof.
  intros Hc Hs Hq Hv Hg Hgr. destruct (cw_ins _ _ _ _ Hc) as [Hil Hif].
  unfold set_state. cbv zeta. rewrite (cw_input _ _ _ _ Hc).
  rewrite (mapR_index q ins 0%float) by by rewrite Hq.
  rewrite (mapR_index v ins 0%float) by by rewrite Hv.
  cbn [mbind res_bind].
  assert (∀ l : array, length (np_array (map (λ k, nth k l 0%float) ins)) = n) as Hlen
    by (intros; by rewrite length_np_array, length_map).
  set (pos := np_array (map (λ k, nth k q 0%float) ins)).
  set (vel := np_array (map (λ k, nth k v 0%float) ins)).
  rewrite (np_assign_same (dof_pos (ps p)) pos) by (unfold pos; by rewrite Hlen, (sw_dof_pos _ _ Hs)).
  cbn [mbind res_bind].
  rewrite (np_assign_same (dof_vel (ps p)) vel) by (unfold vel; by rewrite Hlen, (sw_dof_vel _ _ Hs)).
  cbn [mbind res_bind].
  destruct (delta_total n p pos) as (delta & Hdelta & Hdl);
    [done|by apply (cw_default _ _ _ _ Hc)|apply Hlen|].
  rewrite Hdelta, Hgr. cbn [mbind res_bind].
  rewrite (np_assign_same (base_ang_vel (ps p)))
    by (by rewrite length_np_array, Hg, (sw_gyro _ _ Hs)).
  cbn [mbind res_bind]. eexists. split; [done|]. cbn [pl ps dof_pos dof_vel base_ang_vel
    projected_gravity actions last_actions last_last_actions last_last_last_actions].
  split; [done|]. split; [|done]. destruct Hs. split; cbn; try done; try apply Hlen.
  - by rewrite length_np_array.
  - by eapply gravity_length.
Qed.

(** *** A sequence of steps *)

(** What the main loop gives the policy in a round. *)
Record Reading := {
  rd_dof_pos : array; rd_dof_vel : array; rd_quat_wxyz : float * float * float * float;
  rd_gyro : array; rd_lin_x : float; rd_lin_y : float; rd_yaw : float; rd_mode : bool }.

(** [set_state], [set_commands] and [compute_action], as the main loop calls them. *)
Definition policy_step (r : Reading) (p : OnnxPolicy) : res (OnnxPolicy * array) :=
  p ← set_state (rd_dof_pos r) (rd_dof_vel r) (rd_quat_wxyz r) (rd_gyro r) p;
  compute_action (set_commands (rd_lin_x r) (rd_lin_y r) (rd_yaw r) (rd_mode r) p).

(** What the network is shown in that step. *)
Definition step_observation (r : Reading) (p : OnnxPolicy) : res array :=
  p ← set_state (rd_dof_pos r) (rd_dof_vel r) (rd_quat_wxyz r) (rd_gyro r) p;
  _observation (set_commands (rd_lin_x r) (rd_lin_y r) (rd_yaw r) (rd_mode r) p).

Fixpoint policy_run (rs : list Reading) (p : OnnxPolicy) : res (OnnxPolicy * list array) :=
  match rs with
  | [] => Ok (p, [])
  | r :: rs =>
      x ← policy_step r p; y ← policy_run rs (fst x); Ok (fst y, snd x :: snd y)
  end.

(** Readings of [n] joints and a quaternion that can be normalised. *)
Record reading_ok (n : nat) (r : Reading) : Prop := {
  ro_pos : length (rd_dof_pos r) = n;
  ro_vel : length (rd_dof_vel r) = n;
  ro_gyro : length (rd_gyro r) = 3%nat;
  ro_quat : is_ok (_quat_to_projected_gravity (rd_quat_wxyz r)) = true
}.

(** A network of [n] outputs. *)
Definition network_of (n : nat) (c : PolicyConfig) : Prop :=
  ∀ obs, ∃ output, session c obs = Ok output ∧ length output = n.

(** The actions a policy remembers, the last one first; before the first there
    were only zeros. *)
Definition remembers (n : nat) (past : list array) (s : PolicyState) : Prop :=
  let nth_past i := nth i past (replicate n 0%float) in
  actions s = nth_past 0%nat ∧ last_actions s = nth_past 0%nat ∧
  last_last_actions s = nth_past 1%nat ∧ last_last_last_actions s = nth_past 2%nat.

(** The targets that are returned for an action. *)
Definition scaled_targets (c : PolicyConfig) (outs : list nat) (act : array) : array :=
  map (λ k, np_mul (nth k act 0%float) (action_scale c)) outs.

Definition within_clip (c : PolicyConfig) (act : array) : Prop :=
  Forall (λ x, not_nan x →
    (rnd (- action_clip c) <=? x)%float = true ∧ (x <=? rnd (action_clip c))%float = true)
    act.

Lemma np_clip1_not_nan lo hi x : not_nan (np_clip1 lo hi x) → not_nan (rnd hi) → not_nan x.
Proof.
  intros H Hh Hx. revert H. unfold np_clip1.
  assert (is_nan x = true) as E.
  { unfold is_nan. rewrite eqb_spec. unfold SFeqb, SFcompare. by rewrite Hx. }
  rewrite E. cbn [orb]. rewrite E. cbn [orb]. intros H. by apply H.
Qed.

Lemma clipped_within c n output :
  (rnd (- action_clip c) <=? rnd (action_clip c))%float = true →
  within_clip c (clipped c n output).
Proof.
  intros Hb. unfold within_clip, clipped, np_clip. apply Forall_map, Forall_forall.
  intros x _ Hx. apply np_clip1_bounds; [done|].
  apply (np_clip1_not_nan _ _ _ Hx). by apply leb_not_nan in Hb as [_ Hb].
Qed.

Lemma policy_step_spec n ins outs r p :
  config_wf n ins outs (pl p) → state_wf n (ps p) → network_of n (pl p) → reading_ok n r →
  ∃ p' obs output, let act := clipped (pl p) n output in
    policy_step r p = Ok (p', scaled_targets (pl p) outs act) ∧
    step_observation r p = Ok obs ∧ session (pl p) obs = Ok output ∧ length act = n ∧
    pl p' = pl p ∧ state_wf n (ps p') ∧
    dof_pos (ps p') = np_array (map (λ k, nth k (rd_dof_pos r) 0%float) ins) ∧
    ∀ past, remembers n past (ps p) → remembers n (act :: past) (ps p').
Proof.
  intros Hc Hs Hnet [Hq Hv Hg Hquat].
  destruct (_quat_to_projected_gravity (rd_quat_wxyz r)) as [gravity|] eqn:Hgr; [|done].
  destruct (set_state_spec n ins outs _ _ _ _ _ p Hc Hs Hq Hv Hg Hgr)
    as (p1 & H1 & Hpl1 & Hs1 & Hdp & _ & _ & _ & Ha & Hl1 & Hl2 & Hl3).
  set (p2 := set_commands (rd_lin_x r) (rd_lin_y r) (rd_yaw r) (rd_mode r) p1).
  assert (config_wf n ins outs (pl p2)) as Hc2 by (unfold p2; cbn [pl set_commands]; by rewrite Hpl1).
  assert (state_wf n (ps p2)) as Hs2 by (destruct Hs1; by split).
  destruct (observation_total n ins outs p2 Hc2 Hs2) as [obs Hobs].
  destruct (Hnet obs) as (output & Hout & Hlen).
  assert (pl p2 = pl p) as Hpl2 by done.
  destruct (compute_action_spec n ins outs p2 obs output Hc2 Hs2 Hobs)
    as (p3 & scaled & H3 & Hsc & Hpl3 & Hs3 & Hal & Hact & Hla & Hl2' & Hl3' & Hdp');
    [by rewrite Hpl2|lia|].
  rewrite Hpl2 in *. exists p3, obs, output. cbv zeta.
  split; [unfold policy_step; rewrite H1; cbn [mbind res_bind]; fold p2; by rewrite H3, Hsc|].
  split; [unfold step_observation; rewrite H1; exact Hobs|].
  split; [done|]. split; [done|]. split; [done|]. split; [done|].
  split; [by rewrite Hdp'|].
  intros past (_ & Hr1 & Hr2 & Hr3). unfold remembers. cbn [nth].
  rewrite Hact, Hla, Hl2', Hl3'. unfold p2. cbn [ps set_commands last_actions last_last_actions].
  by rewrite Hl1, Hl2, Hr1, Hr2.
Qed.

End dtype.
