(* ===== verification/TaskController.v ===== *)
(** * The task controller and the joint initializer

    [subprocesses/task_controller/main.py] and [joint_initializer/main.py]: two
    versions of one program, which reads the robot's state and the gamepad, asks the
    policy for joint targets and writes them for the controller. They differ in the
    dtype of the arrays they build and in whether the action is multiplied by the
    "a" button. *)

From S2P Require Import Prelude PyFloat PyDict CStruct Numpy Wire Config ControlCommand RobotState PolicyRunner.
Open Scope Z_scope.

(** Both programs import the policy runner of the task controller, of binary32 arrays. *)
#[local] Existing Instance float32.

(** What differs between the two programs. *)
Record Variant := { asarray : list float → array; gated : bool }.
Definition task_controller : Variant := {| asarray := np_array; gated := true |}.
Definition joint_initializer : Variant := {| asarray := id; gated := false |}.

(** The locals of [main] that the loop uses. *)
Record Task := {
  tc_can_ids : list Z;
  tc_kp : float;
  tc_kd : float;
  control_state_reader : ShmObj;
  aux_reader : ShmObj;
  control_command_writer : ShmObj
}.

Record TaskState := { tk_shm : ShmFs; tk_clock : Clock }.

Definition in_task_shm {A} (m : ST ShmFs A) : ST TaskState A :=
  zoom tk_shm (λ f s, {| tk_shm := f; tk_clock := tk_clock s |}) m.
Definition task_time_ns : ST TaskState Z :=
  zoom tk_clock (λ k s, {| tk_shm := tk_shm s; tk_clock := k |}) (read_clock ck_ns).

(** ** A round of the loop *)

(** [{int(item.can_id): item for item in control_state.actuators[:count]}] *)
Definition actuators_by_id (state : RobotStateC) : dict Z ActuatorStateC :=
  dict_of (map (λ a, (as_can_id a, a))
    (take (Z.to_nat (rs_actuator_count state)) (rs_actuators state))).

(** [[float(actuators[can_id].field) for can_id in can_ids]] *)
Definition field_of (actuators : dict Z ActuatorStateC) (field : ActuatorStateC → Z)
    (can_ids : list Z) : res (list float) :=
  mapR (λ can_id, a ← dict_index can_id actuators; Ok (f32_value (field a))) can_ids.

Definition wxyz (quat_xyzw : Z * Z * Z * Z) : float * float * float * float :=
  let '(x, y, z, w) := map4 f32_value quat_xyzw in (w, x, y, z).

Definition floats3 (v : Z * Z * Z) : list float :=
  let '(x, y, z) := map3 f32_value v in [x; y; z].

(** What a round reads: the arguments of [set_state] and [set_commands]. *)
Definition read_round (v : Variant) (can_ids : list Z) (state : RobotStateC) (aux : AuxCommandC) :
    res Reading :=
  let lin_vel := map f32_value (ax_lin_vel_target aux) in
  let ang_vel := map f32_value (ax_ang_vel_target aux) in
  let buttons := mask_to_buttons (ax_button_mask aux) in
  let actuators := actuators_by_id state in
  q ← field_of actuators as_position_rad can_ids;
  qd ← field_of actuators as_velocity_rad_s can_ids;
  lin_x ← py_index lin_vel 0; lin_y ← py_index lin_vel 1; yaw ← py_index ang_vel 2;
  Ok {| rd_dof_pos := asarray v q; rd_dof_vel := asarray v qd;
        rd_quat_wxyz := wxyz (im_quat_xyzw (rs_imu state));
        rd_gyro := asarray v (floats3 (im_angular_velocity_rad_s (rs_imu state)));
        rd_lin_x := lin_x; rd_lin_y := lin_y; rd_yaw := yaw;
        rd_mode := pressed "a_button" buttons |}.

(** [compute_action() * mode + action_offset(...)] *)
Definition q_targets (py : Platform) (v : Variant) (p : OnnxPolicy) (r : Reading) (action : array) :
    res array :=
  offset ← action_offset py p (rd_dof_pos r);
  np_add (if gated v then np_scale action (float_of_bool (rd_mode r)) else action) offset.

Fixpoint control_targets (t : Task) (index : Z) (can_ids : list Z) (q_target : array) :
    res (list ControlTarget) :=
  match can_ids with
  | [] => Ok []
  | can_id :: can_ids =>
      q ← py_index q_target index;
      l ← control_targets t (index + 1) can_ids q_target;
      Ok ({| t_can_id := can_id; t_q := q; t_dq := 0; t_kp := tc_kp t; t_kd := tc_kd t;
             t_tau := 0 |} :: l)
  end.

(** The body of the [while]: what it reads of the clock only serves its sleep and
    its messages. *)
Definition task_tick (py : Platform) (v : Variant) (t : Task) (p : OnnxPolicy) :
    ST TaskState OnnxPolicy :=
  control_state ← in_task_shm (RobotStateShm.read_relaxed (control_state_reader t));
  if rs_timestamp_ns control_state =? 0 then mret p
  else
    aux_state ← in_task_shm (AuxCommandShm.read_relaxed (aux_reader t));
    r ← lift (read_round v (tc_can_ids t) control_state aux_state);
    x ← lift (policy_step r p);
    q_target ← lift (q_targets py v (fst x) r (snd x));
    targets ← lift (control_targets t 0 (tc_can_ids t) q_target);
    now_ns ← task_time_ns;
    _ ← in_task_shm (ControlCommandShm.write_targets now_ns (control_command_writer t) targets);
    mret (fst x).

(** ** The process *)

(** The parsed arguments, their defaults from the environment included. *)
Record Args := {
  arg_controller_config : string;
  arg_robot_name : option string;
  arg_project_root : string;
  arg_policy_config_dir : option string;
  arg_control_hz : float;
  arg_rate_log_interval_s : option float
}.

(** The options of the command line, as written. *)
Record CommandLine := {
  opt_controller_config : option string;
  opt_robot_name : option string;
  opt_project_root : option string;
  opt_policy_config_dir : option string;
  opt_control_hz : option string;
  opt_rate_log_interval_s : option string
}.
Definition no_options : CommandLine := Build_CommandLine None None None None None None.

(** [_float_env(name)]; [None] is [SystemExit]. *)
Definition _float_env (py : Platform) (environ : dict string string) (name : string) :
    option (option float) :=
  match dict_get name environ with
  | None => Some None
  | Some value =>
      match float_of_string py value with Ok x => Some (Some x) | Raise _ => None end
  end.

(** A text, or the default of its option; an option of [type=float]: its text is
    converted, or ends the program. *)
Definition text_option (given default : option string) : option string :=
  match given with Some _ => given | None => default end.
Definition float_option (py : Platform) (given : option string) (default : option float) :
    option (option float) :=
  match given with
  | None => Some default
  | Some text => match float_of_string py text with Ok x => Some (Some x) | Raise _ => None end
  end.

(** [parse_args()]: [None] when it ends the program; [--control-hz] is required unless the
    environment has it. *)
Definition parse_args (py : Platform) (environ : dict string string) (c : CommandLine) :
    option Args :=
  control_hz_default ← _float_env py environ "TASK_CONTROL_HZ";
  rate_log_interval_s_default ← _float_env py environ "TASK_RATE_LOG_INTERVAL_S";
  control_hz ← float_option py (opt_control_hz c) control_hz_default;
  rate ← float_option py (opt_rate_log_interval_s c) rate_log_interval_s_default;
  control_hz ← control_hz;
  let text given name otherwise := default otherwise (text_option given (dict_get name environ)) in
  Some {| arg_controller_config :=
            text (opt_controller_config c) "ROBOT_CONTROLLER_CONFIG"
              "config/app_config/robot_controller.yaml";
          arg_robot_name := text_option (opt_robot_name c) (dict_get "ROBOT_NAME" environ);
          arg_project_root := text (opt_project_root c) "QHRR_PROJECT_ROOT" ".";
          arg_policy_config_dir :=
            text_option (opt_policy_config_dir c) (dict_get "POLICY_CONFIG_DIR" environ);
          arg_control_hz := control_hz; arg_rate_log_interval_s := rate |}%string.

(** [value or otherwise] *)
Definition str_else (value : option string) (otherwise : string) : string :=
  match value with
  | Some s => if decide (s = ""%string) then otherwise else s
  | None => otherwise
  end.

Definition _controller_config_path (root : Path) (value : string) : Path :=
  path_child root value.

(** [main] up to its [try]. *)
Definition task_setup (fl : Files) (py : Platform) (args : Args) :
    ST TaskState (Task * OnnxPolicy) :=
  root ← lift (project_root fl (Some (arg_project_root args)));
  config ← lift (load_robot_controller_config py
                   (path_str (_controller_config_path root (arg_controller_config args))));
  let robot_name := str_else (arg_robot_name args) (pf_robot_name (cfg_platform config)) in
  robot_assets ← lift (dict_index robot_name (pf_robots (cfg_platform config)));
  policy_config_dir ← lift (resolve_policy_config_dir fl root
    (str_else (arg_policy_config_dir args) (Config.policy_config_dir robot_assets)) robot_name);
  policies ← lift (load_policies fl py root policy_config_dir);
  active_policy ← lift (py_index policies 0);
  pd_config ← lift (load_yaml py (path_child (pl_directory (pl active_policy)) "pd_config.yaml"));
  kp ← lift (v ← dict_index "kp"%string pd_config; py_float py v);
  kd ← lift (v ← dict_index "kd"%string pd_config; py_float py v);
  control_state_reader ← in_task_shm (RobotStateShm.open_reader (rc_name (control_state (cfg_shm config))));
  aux_reader ← in_task_shm (AuxCommandShm.open_reader (rc_name (Config.aux_command (cfg_shm config))));
  control_command_writer ←
    in_task_shm (ControlCommandShm.open_writer (mc_name (mit_command (cfg_shm config))));
  _ ← lift (py_div 1 (arg_control_hz args));
  _ ← lift (match arg_rate_log_interval_s args with
            | Some x => if (x <? 0)%float then Raise ValueError else Ok ()
            | None => Ok ()
            end);
  mret ({| tc_can_ids := mo_can_ids (cc_motors (cfg_can config)); tc_kp := kp; tc_kd := kd;
           control_state_reader := control_state_reader; aux_reader := aux_reader;
           control_command_writer := control_command_writer |}, active_policy).

(** The loops run until a signal clears [RUNNING]: each round is preceded by what
    the other processes write, and the list ends when [RUNNING] is cleared. *)
Abbreviation outside := (ShmFs → ShmFs).
Definition meanwhile (change : outside) : ST TaskState unit := in_task_shm (modify change).

(** Waiting for the first state: the rest of the schedule. *)
Fixpoint wait_state (t : Task) (schedule : list outside) : ST TaskState (list outside) :=
  match schedule with
  | [] => mret []
  | change :: schedule =>
      _ ← meanwhile change;
      control_state ← in_task_shm (RobotStateShm.read_relaxed (control_state_reader t));
      if rs_timestamp_ns control_state =? 0 then wait_state t schedule else mret schedule
  end.

Fixpoint task_loop (py : Platform) (v : Variant) (t : Task) (schedule : list outside)
    (p : OnnxPolicy) : ST TaskState OnnxPolicy :=
  match schedule with
  | [] => mret p
  | change :: schedule =>
      _ ← meanwhile change; p ← task_tick py v t p; task_loop py v t schedule p
  end.

(** The [finally]. *)
Definition task_close (t : Task) : Task :=
  {| tc_can_ids := tc_can_ids t; tc_kp := tc_kp t; tc_kd := tc_kd t;
     control_state_reader := RobotStateShm.close (control_state_reader t);
     aux_reader := AuxCommandShm.close (aux_reader t);
     control_command_writer := ControlCommandShm.close (control_command_writer t) |}.

(** [main()]; closing the segments leaves them as they are. *)
Definition task_main (fl : Files) (py : Platform) (v : Variant) (args : Args)
    (schedule : list outside) : ST TaskState Task :=
  x ← task_setup fl py args;
  schedule ← wait_state (fst x) schedule;
  _ ← task_loop py v (fst x) schedule (snd x);
  mret (task_close (fst x)).

(** The two programs. *)
Definition task_controller_main (fl : Files) (py : Platform) := task_main fl py task_controller.
Definition joint_initializer_main (fl : Files) (py : Platform) := task_main fl py joint_initializer.
Definition joint_initializer_tick (py : Platform) := task_tick py joint_initializer.
(** Its other functions are the task controller's, to the letter. *)
Definition joint_initializer_float_env := _float_env.
Definition joint_initializer_parse_args := parse_args.
Definition joint_initializer_config_path := _controller_config_path.

(** ** Properties *)

Lemma field_of_known actuators field ids :
  Forall (λ id, is_Some (dict_get id actuators)) ids →
  ∃ l, field_of actuators field ids = Ok l ∧ length l = length ids ∧
    ∀ i id a, ids !! i = Some id → dict_get id actuators = Some a →
      l !! i = Some (f32_value (field a)).
Proof.
  induction ids as [|id ids IH]; intros H; [by exists []|].
  apply Forall_cons in H as [[a Ha] H]. destruct (IH H) as (l & Hl & Hlen & Hi).
  exists (f32_value (field a) :: l). unfold field_of in *. cbn [mapR].
  assert (dict_index id actuators = Ok a) as -> by (unfold dict_index; by rewrite Ha). cbn [mbind res_bind]. rewrite Hl. cbn [mbind res_bind].
  split; [done|]. split; [cbn; lia|]. intros [|i] id' a' Hid Ha'; cbn in Hid |- *.
  - by simplify_eq.
  - by eapply Hi.
Qed.

Lemma control_targets_spec t ids q : ∀ index,
  (index + length ids ≤ length q)%nat →
  control_targets t (Z.of_nat index) ids q =
    Ok (zip_with (λ id x, {| t_can_id := id; t_q := x; t_dq := 0; t_kp := tc_kp t;
                             t_kd := tc_kd t; t_tau := 0 |}) ids (drop index q)).
Proof.
  induction ids as [|id ids IH]; intros index Hl; cbn [control_targets length] in *; [done|].
  destruct (lookup_lt_is_Some_2 q index) as [x Hx]; [lia|].
  rewrite (py_index_nat _ _ _ Hx). cbn [mbind res_bind].
  replace (Z.of_nat index + 1) with (Z.of_nat (S index)) by lia. rewrite IH by lia.
  cbn [mbind res_bind]. by rewrite (drop_S _ _ _ Hx).
Qed.

Lemma read_round_ok v ids state aux :
  Forall (λ id, is_Some (dict_get id (actuators_by_id state))) ids →
  wf_aux_command aux → (∀ l, length (asarray v l) = length l) →
  is_ok (_quat_to_projected_gravity (wxyz (im_quat_xyzw (rs_imu state)))) = true →
  ∃ r q, read_round v ids state aux = Ok r ∧ reading_ok (length ids) r ∧
    rd_dof_pos r = asarray v q ∧ length q = length ids ∧
    rd_mode r = pressed "a_button" (mask_to_buttons (ax_button_mask aux)) ∧
    ∀ i id a, ids !! i = Some id → dict_get id (actuators_by_id state) = Some a →
      q !! i = Some (f32_value (as_position_rad a)).
Proof.
  intros Hids Haux Hv Hquat.
  destruct (field_of_known _ as_position_rad ids Hids) as (q & Hq & Hql & Hqi).
  destruct (field_of_known _ as_velocity_rad_s ids Hids) as (qd & Hqd & Hqdl & _).
  unfold read_round. cbv zeta. rewrite Hq, Hqd. cbn [mbind res_bind].
  destruct aux as [ts lin ang mask], Haux as [_ Hlin Hang _ _ _]. cbn [ax_lin_vel_target
    ax_ang_vel_target ax_button_mask] in *.
  destruct lin as [|x0 [|x1 [|x2 [|]]]], ang as [|a0 [|a1 [|a2 [|]]]]; try done.
  cbn [map]. do 2 eexists. split; [reflexivity|]. split.
  - split; cbn [rd_dof_pos rd_dof_vel rd_gyro rd_quat_wxyz]; rewrite ?Hv; try done.
    unfold floats3. by destruct (map3 _ _) as [[]].
  - by split_and!.
Qed.

(** The target of a joint, for an action and its default angle. *)
Definition target_of (v : Variant) (c : PolicyConfig) (mode : bool) (a d : float) : float :=
  let x := np_mul a (action_scale c) in
  binary32 ((if gated v then np_mul x (float_of_bool mode) else x) + binary32 d)%float.

Lemma q_targets_spec py v p r n outs act defaults :
  item_list (py_float py) (JObj (pl_config (pl p))) "default_joint_angle" = Ok defaults →
  (n ≤ length defaults)%nat → length (rd_dof_pos r) = n → length outs = n →
  ∃ q, q_targets py v p r (scaled_targets (pl p) outs act) = Ok q ∧ length q = n ∧
    ∀ j k d, outs !! j = Some k → defaults !! j = Some d →
      q !! j = Some (target_of v (pl p) (rd_mode r) (nth k act 0%float) d).
Proof.
  intros Hd Hn Hr Ho. unfold q_targets, action_offset. rewrite Hd, Hr. cbn [mbind res_bind].
  set (x := if gated v then _ else _).
  assert (length x = n) as Hx.
  { unfold x, np_scale, scaled_targets. destruct (gated v); rewrite ?length_map; done. }
  assert (length (take n (np_array defaults)) = n) as Hy
    by (rewrite length_take, length_np_array; lia).
  unfold np_add. rewrite np_map2_same by by rewrite Hx, Hy. eexists. split; [done|].
  split; [rewrite length_zip_with; lia|].
  intros j k d Hj Hdj. assert (j < n)%nat as Hlt.
  { rewrite <-Ho. by eapply lookup_lt_Some. }
  rewrite lookup_zip_with. rewrite (lookup_take_lt _ _ _ Hlt). unfold np_array.
  rewrite list_lookup_fmap, Hdj. unfold x, np_scale, scaled_targets, target_of.
  destruct (gated v); rewrite !list_lookup_fmap, Hj; done.
Qed.

(** All that a round needs: a policy whose tables are inverse to each other, states
    and commands that can be read, with every motor among the actuators, and a
    writable segment. *)
Record ready (py : Platform) (t : Task) (p : OnnxPolicy) (n : nat) (ins outs : list nat)
    (defaults : list float) (state : RobotStateC) (aux : AuxCommandC) (fs : ShmFs) : Prop := {
  ry_config : config_wf n ins outs (pl p);
  ry_state : state_wf n (ps p);
  ry_network : network_of n (pl p);
  ry_inverse : ∀ k j, ins !! k = Some j → outs !! j = Some k;
  ry_defaults : item_list (py_float py) (JObj (pl_config (pl p))) "default_joint_angle" = Ok defaults;
  ry_length : (n ≤ length defaults)%nat;
  ry_ids : length (tc_can_ids t) = n;
  ry_fits : (n ≤ MAX_CONTROL_TARGETS)%nat;
  ry_read : RobotStateShm.read_relaxed (control_state_reader t) fs = (Ok state, fs);
  ry_fresh : rs_timestamp_ns state ≠ 0;
  ry_known : Forall (λ id, is_Some (dict_get id (actuators_by_id state))) (tc_can_ids t);
  ry_quat : is_ok (_quat_to_projected_gravity (wxyz (im_quat_xyzw (rs_imu state)))) = true;
  ry_aux : AuxCommandShm.read_relaxed (aux_reader t) fs = (Ok aux, fs);
  ry_aux_wf : wf_aux_command aux;
  ry_writer : shm_ready ControlCommandC fs (control_command_writer t)
}.

(** A round, from the results of its parts. *)
Lemma task_tick_run py v t p s state aux r p' action q ts fs' :
  RobotStateShm.read_relaxed (control_state_reader t) (tk_shm s) = (Ok state, tk_shm s) →
  rs_timestamp_ns state ≠ 0 →
  AuxCommandShm.read_relaxed (aux_reader t) (tk_shm s) = (Ok aux, tk_shm s) →
  read_round v (tc_can_ids t) state aux = Ok r → policy_step r p = Ok (p', action) →
  q_targets py v p' r action = Ok q → control_targets t 0 (tc_can_ids t) q = Ok ts →
  ControlCommandShm.write_targets (ck_ns (tk_clock s) (ck_reads (tk_clock s)))
    (control_command_writer t) ts (tk_shm s) = (Ok (), fs') →
  task_tick py v t p s =
    (Ok p', {| tk_shm := fs'; tk_clock := snd (read_clock ck_ns (tk_clock s)) |}).
Proof.
  destruct s as [fs clk]. cbn [tk_shm tk_clock].
  intros Hrd Hts Hax Hr Hstep Hqt Hct Hpub. apply Z.eqb_neq in Hts.
  unfold task_tick, in_task_shm, task_time_ns, zoom, read_clock, lift. st_run. cbn [tk_shm tk_clock].
  rewrite Hrd, Hts. cbn [tk_shm tk_clock]. rewrite Hax, Hr, Hstep. cbn [fst snd].
  rewrite Hqt, Hct. cbn [tk_shm tk_clock]. by rewrite Hpub.
Qed.

(** The angle of a joint, for output [k] of the network and its default angle. *)
Definition joint_target (v : Variant) (c : PolicyConfig) (n : nat) (aux : AuxCommandC)
    (output : array) (k : nat) (d : float) : float :=
  target_of v c (pressed "a_button" (mask_to_buttons (ax_button_mask aux)))
    (nth k (clipped c n output) 0%float) d.

(** The position of a motor as the network sees it. *)
Lemma shown_position v (ins : list nat) (k j : nat) (q : list float) (x : float) :
  v ∈ [task_controller; joint_initializer] → ins !! k = Some j → q !! j = Some x →
  np_array (map (λ k, nth k (asarray v q) 0%float) ins) !! k = head (np_array (asarray v [x])).
Proof.
  intros Hv Hk Hq. unfold np_array. rewrite !list_lookup_fmap, Hk. cbn [fmap option_fmap option_map].
  rewrite (nth_lookup_Some (asarray v q) j 0%float (hd 0%float (asarray v [x]))).
  - rewrite !elem_of_cons in Hv. by destruct Hv as [->|[->|Hv%elem_of_nil]].
  - rewrite !elem_of_cons in Hv. destruct Hv as [->|[->|Hv%elem_of_nil]]; [|done..].
    cbn [asarray task_controller]. unfold np_array. rewrite list_lookup_fmap, Hq. reflexivity.
Qed.

(** The targets of a round: what is read, what the network is shown and gives, and
    the target of each joint. *)
Lemma round_targets py v t p n ins outs defaults state aux fs :
  v ∈ [task_controller; joint_initializer] →
  ready py t p n ins outs defaults state aux fs →
  ∃ p' r obs output action q ts, let act := clipped (pl p) n output in
    read_round v (tc_can_ids t) state aux = Ok r ∧ step_observation r p = Ok obs ∧
    session (pl p) obs = Ok output ∧ policy_step r p = Ok (p', action) ∧
    q_targets py v p' r action = Ok q ∧ control_targets t 0 (tc_can_ids t) q = Ok ts ∧
    pl p' = pl p ∧ state_wf n (ps p') ∧
    (∀ past, remembers n past (ps p) → remembers n (act :: past) (ps p')) ∧
    length ts = n ∧
    ∀ k j id a d, ins !! k = Some j → tc_can_ids t !! j = Some id →
      dict_get id (actuators_by_id state) = Some a → defaults !! j = Some d →
      dof_pos (ps p') !! k =
        head (np_array (asarray v [f32_value (as_position_rad a)])) ∧
      ts !! j = Some {| t_can_id := id; t_q := joint_target v (pl p) n aux output k d; t_dq := 0;
                        t_kp := tc_kp t; t_kd := tc_kd t; t_tau := 0 |}.
Proof.
  intros Hv H. destruct H as [Hc Hs Hnet Hinv Hd Hdn Hids Hfit Hrd Hts Hknown Hquat Hax Hawf Hw].
  assert (∀ l, length (asarray v l) = length l) as Hasl.
  { intros l. rewrite !elem_of_cons in Hv. destruct Hv as [->|[->|Hv%elem_of_nil]]; [|done..].
    apply length_np_array. }
  destruct (read_round_ok v (tc_can_ids t) state aux Hknown Hawf Hasl Hquat)
    as (r & q & Hr & Hrok & Hrq & Hql & Hmode & Hqi).
  rewrite Hids in Hrok, Hql.
  destruct (policy_step_spec n ins outs r p Hc Hs Hnet Hrok)
    as (p' & obs & output & Hstep & Hobs & Hout & Hact & Hpl & Hs' & Hdof & Hrem).
  assert (length outs = n) as Ho' by apply (cw_outs _ _ _ _ Hc).
  destruct (q_targets_spec py v p' r n outs (clipped (pl p) n output) defaults)
    as (qt & Hqt & Hqtl & Hqti); [by rewrite Hpl|done|by rewrite Hrq, Hasl|done|].
  rewrite Hpl in Hqt, Hqti.
  pose proof (control_targets_spec t (tc_can_ids t) qt 0 ltac:(lia)) as Hct.
  rewrite drop_0 in Hct. eexists p', r, obs, output, _, qt, _. cbv zeta.
  split_and!; try done; [rewrite length_zip_with; lia|].
  intros k j id a d Hk Hj Ha Hdj. pose proof (Hinv _ _ Hk) as Hjk. split.
  - rewrite Hdof, Hrq. apply (shown_position _ _ _ j); [done..|]. by eapply Hqi.
  - rewrite lookup_zip_with, Hj, (Hqti j k d Hjk Hdj). unfold joint_target. by rewrite Hmode.
Qed.

