(* ===== verification/ShippedPolicy.v ===== *)
(** * The policy in the repository

    [config/policy_config/SPARQ/], as the YAML reader delivers it, and the task
    controller that loads it, for the examples. The network is a stand-in: the
    repository's is a binary. *)

From S2P Require Import Prelude PyFloat PyDict CStruct Numpy Wire Config ShippedConfig Supervisor ControlCommand RobotState PolicyRunner TaskController.
Open Scope Z_scope.

#[local] Existing Instance float32.

Section yaml.
Local Open Scope string_scope.

Definition ints (l : list Z) : json := JList (map JInt l).
Definition floats (l : list float) : json := JList (map JFloat l).

Definition shipped_defaults : list float :=
  [0; 0.7; -1.4; 0; 0.7; -1.4; 0; 0.7; -1.4; 0; 0.7; -1.4]%float.

Definition policy_list_yaml : json := obj [("list_of_policy_names", JList [str "SPARQ"])].

Definition runner_config_yaml : json :=
  obj [("file_path", str "../policy/SPARQ/SPARQ/"); ("runner_type", str "onnx");
       ("num_joint", JInt 12); ("joint_idx_style", str "isaaclab_to_rainbow");
       ("joint_idx_conversion_isaaclab_to_rainbow", obj
          [("input", ints [0; 3; 6; 9; 1; 4; 7; 10; 2; 5; 8; 11]);
           ("output", ints [0; 4; 8; 1; 5; 9; 2; 6; 10; 3; 7; 11])]);
       ("default_joint_angle",
          floats shipped_defaults);
       ("action_scale", JFloat 0.25); ("action_clip", JInt 5); ("history_length", JInt 0);
       ("obs_type", JInt 0)].

Definition obs_config_yaml : json :=
  obj [("observations", obj
    [("components", JList (map str
       ["lin_vel_x_commands_"; "lin_vel_y_commands_"; "ang_vel_z_commands_"; "base_ang_vel_";
        "projected_gravity"; "delta_dof_pos"; "dof_vel"; "last_actions"; "last_last_actions";
        "last_last_last_actions"]));
     ("scales", obj
       [("base_ang_vel_", JFloat 0.25); ("projected_gravity", JFloat 1);
        ("lin_vel_x_commands_", JFloat 2); ("lin_vel_y_commands_", JFloat 2);
        ("ang_vel_z_commands_", JFloat 0.25); ("delta_dof_pos", JFloat 1);
        ("dof_vel", JFloat 0.05); ("last_actions", JFloat 1); ("last_last_actions", JFloat 1);
        ("last_last_last_actions", JFloat 1)])])].

Definition pd_config_yaml : json :=
  obj [("robot", str "SPARQ"); ("decimation", JInt 1); ("kp", JFloat 20); ("kd", JFloat 0.5);
       ("num_joint", JInt 12)].

Definition policy_files : dict string json :=
  let dir := "/robot/config/policy_config/SPARQ/" in
  [(dir +:+ "policy_list.yaml", policy_list_yaml);
   (dir +:+ "SPARQ/runner_config.yaml", runner_config_yaml);
   (dir +:+ "SPARQ/obs_config.yaml", obs_config_yaml);
   (dir +:+ "SPARQ/pd_config.yaml", pd_config_yaml)].

(** The repository at /robot, read by a process started there. *)
Definition repository (network : array → res array) : Files :=
  {| fl_exists p := dict_mem (path_str p) policy_files ||
                    bool_decide (path_str p = "/robot/policy/SPARQ/SPARQ/policy.onnx");
     fl_is_dir p := bool_decide (path_str p = "/robot"); fl_resolve p := p;
     fl_cwd := path_of "/robot"; fl_session _ := Ok network |}.

Definition repository_reader : Platform :=
  {| str_of_float _ := ""; float_of_string _ := Raise ValueError; str_of_json _ := "";
     read_yaml path :=
       match dict_get path policy_files with
       | Some v => Ok v
       | None => read_yaml (shipped_platform shipped_processes) (path_name (path_of path))
       end;
     resolve_path _ value := value |}.

Definition shipped_args : Args :=
  {| arg_controller_config := "config/app_config/robot_controller.yaml"; arg_robot_name := None;
     arg_project_root := "."; arg_policy_config_dir := None; arg_control_hz := 50;
     arg_rate_log_interval_s := Some 1%float |}.

(** The policy that is loaded from these files. *)
Definition shipped_policy {dt : DType} (network : array → res array) : res OnnxPolicy :=
  root ← project_root (repository network) (Some ".");
  dir ← resolve_policy_config_dir (repository network) root "config/policy_config/SPARQ" "SPARQ";
  l ← load_policies (repository network) repository_reader root dir;
  py_index l 0.
End yaml.

(** ** The arguments the supervisor starts the task controller with *)

(** Whatever environment the controller inherits, the task controller of processes.yaml
    runs at 50 Hz with the repository's configuration: the inherited environment only
    chooses the robot and the directory of the policies. *)
Lemma supervised_arguments (py : Platform) environ :
  float_of_string py "50.0" = Ok 50%float → float_of_string py "1.0" = Ok 1%float →
  ∃ c config, load_shipped shipped_processes = Ok c ∧ config ∈ cfg_processes c ∧
    pr_name config = "task_controller"%string ∧
    parse_args py (_process_env environ config) no_options =
      Some {| arg_controller_config := "config/app_config/robot_controller.yaml";
              arg_robot_name := dict_get "ROBOT_NAME" environ; arg_project_root := ".";
              arg_policy_config_dir := dict_get "POLICY_CONFIG_DIR" environ;
              arg_control_hz := 50; arg_rate_log_interval_s := Some 1%float |}%string.
Proof.
  intros Hhz Hrate. destruct (load_shipped shipped_processes) as [c|e] eqn:E; [|by vm_compute in E].
  vm_compute in E. injection E as <-. do 2 eexists. split; [reflexivity|]. cbn [cfg_processes].
  split; [do 2 apply list_elem_of_further; apply list_elem_of_here|]. split; [reflexivity|].
  unfold parse_args, _float_env, _process_env. cbn [pr_env].
  rewrite !dict_get_update by (apply (bool_decide_unpack (NoDup _)); by vm_compute).
  repeat match goal with |- context [dict_get ?k (?kv :: ?l)] =>
    let v := eval vm_compute in (dict_get k (kv :: l)) in change (dict_get k (kv :: l)) with v end.
  assert (∀ (x : string) m, Some x ∪ m = Some x) as Hset by (by intros x []).
  rewrite !Hset, !(left_id_L None (∪)). cbn.
  rewrite Hhz, Hrate. cbn. reflexivity.
Qed.

Definition shipped_input : list nat := [0; 3; 6; 9; 1; 4; 7; 10; 2; 5; 8; 11]%nat.
Definition shipped_output : list nat := [0; 4; 8; 1; 5; 9; 2; 6; 10; 3; 7; 11]%nat.

(** What the loaded policy is, whatever the network and the dtype. *)
Lemma shipped_policy_loads {dt : DType} network :
  ∃ p, shipped_policy network = Ok p ∧ session (pl p) = network ∧
    config_wf 12 shipped_input shipped_output (pl p) ∧ state_wf 12 (ps p) ∧
    remembers 12 [] (ps p) ∧ action_clip (pl p) = 5%float ∧
    item_list (py_float repository_reader) (JObj (pl_config (pl p))) "default_joint_angle" =
      Ok shipped_defaults ∧ action_scale (pl p) = 0.25%float.
Proof.
  eexists. split; [vm_compute; reflexivity|]. split; [reflexivity|].
  split; [|split; [|split; [|split; [|split]]]].
  - split; cbn; try reflexivity; try (split; [reflexivity|]);
      apply (bool_decide_unpack _); vm_compute; exact I.
  - by split.
  - by split_and!.
  - vm_compute. reflexivity.
  - vm_compute. reflexivity.
  - vm_compute. reflexivity.
Qed.

(** The two index tables are inverse to each other. *)
Lemma shipped_inverse k j : shipped_input !! k = Some j → shipped_output !! j = Some k.
Proof.
  intros H. pose proof (lookup_lt_Some _ _ _ H) as Hk. cbn in Hk.
  do 12 (destruct k as [|k]; [injection H as <-; reflexivity|]). done.
Qed.

(** ** A robot that stands, and a network that asks for too much *)

Definition eager (obs : array) : res array := Ok (replicate 12 8%float).

Definition standing : Reading :=
  {| rd_dof_pos := replicate 12 0%float; rd_dof_vel := replicate 12 0%float;
     rd_quat_wxyz := (1, 0, 0, 0)%float; rd_gyro := replicate 3 0%float; rd_lin_x := 0;
     rd_lin_y := 0; rd_yaw := 0; rd_mode := true |}.

Lemma eager_network p : session (pl p) = eager → network_of 12 (pl p).
Proof. intros H obs. rewrite H. by exists (replicate 12 8%float). Qed.


(** ** A published state, a pressed button and a round *)

Definition standing_state : RobotStateC :=
  {| rs_timestamp_ns := 1; rs_timestamp_monotonic := 0; rs_timestamp_unix := 0;
     rs_controller_mode := 0; rs_actuator_count := 12;
     rs_imu := {| im_quat_xyzw := map4 c_float (0, 0, 0, 1)%float;
                  im_projected_gravity_b := (0, 0, 0); im_angular_velocity_rad_s := (0, 0, 0);
                  im_last_quat_t := 0; im_last_gyro_t := 0; im_quat_online := 0;
                  im_gyro_online := 0; im_quat_stale := 0; im_gyro_stale := 0 |};
     rs_actuators := map (λ id, {| as_can_id := id; as_position_rad := c_float 0.5;
        as_velocity_rad_s := 0; as_torque_nm := 0; as_current_a := 0; as_temperature_c := 0;
        as_fault_code := 0; as_is_enabled := 0; as_last_feedback_t := 0; as_age_s := 0;
        as_online := 0; as_stale := 0; as_pad := (0, 0) |}) (seqZ 1 12);
     rs_command_output := rs_command_output RobotStateC_new |}.

Definition pressed_pad : AuxCommandC :=
  {| ax_timestamp_ns := 1; ax_lin_vel_target := [0; 0; 0]; ax_ang_vel_target := [0; 0; 0];
     ax_button_mask := 1 |}.

Lemma pressed_pad_wf : wf_aux_command pressed_pad.
Proof. split; cbn; try lia; try done; repeat constructor; lia. Qed.

(** Three segments, holding these and room for a command. *)
Definition standing_fs : ShmFs :=
  {| shm_names := ∅;
     shm_objects := {[0%nat := to_bytes standing_state; 1%nat := to_bytes pressed_pad;
                      2%nat := replicate 300 0]};
     shm_next := 3 |}.
Definition handle (n : nat) : ShmObj := {| so_name := ""; so_handle := Some n |}.
Definition standing_task : Task :=
  {| tc_can_ids := seqZ 1 12; tc_kp := 20; tc_kd := 0.5; control_state_reader := handle 0;
     aux_reader := handle 1; control_command_writer := handle 2 |}.
Definition standing_world : TaskState :=
  {| tk_shm := standing_fs;
     tk_clock := {| ck_monotonic _ := 0%float; ck_unix _ := 0%float; ck_ns _ := 7; ck_reads := 0 |} |}.

Lemma standing_ready p :
  session (pl p) = eager → config_wf 12 shipped_input shipped_output (pl p) →
  state_wf 12 (ps p) →
  item_list (py_float repository_reader) (JObj (pl_config (pl p))) "default_joint_angle" =
    Ok shipped_defaults →
  ready repository_reader standing_task p 12 shipped_input shipped_output
    shipped_defaults standing_state pressed_pad
    standing_fs.
Proof.
  intros Hn Hc Hs Hd. split; try done.
  - by apply eager_network.
  - apply shipped_inverse.
  - apply (bool_decide_unpack _). vm_compute. exact I.
  - exact pressed_pad_wf.
  - exists 2%nat, (replicate 300 0). split; [reflexivity|]. split; [reflexivity|].
    rewrite length_replicate. reflexivity.
Qed.

