(* ===== verification/JointPolicy.v ===== *)
(** * The joint initializer's own policy runner

    [subprocesses/joint_initializer/policy_runner.py]: the task controller's
    [policy_runner.py], line by line, with [float64] where that has [float32] (but for
    the observation the network is shown, which is [float32] in both). Nothing imports
    it: [joint_initializer/main.py] imports the task controller's. Its definitions are
    those of [PolicyRunner] at this dtype; its theorem says what the other dtype would
    change. *)

From S2P Require Import Prelude PyFloat PyDict Numpy Wire Config PolicyRunner ShippedPolicy.
Open Scope Z_scope.

#[local] Existing Instance float64.

Module Joint.
Definition RunnerBundle := PolicyRunner.RunnerBundle.
Definition PolicyConfig := PolicyRunner.PolicyConfig.
Definition PolicyState := PolicyRunner.PolicyState.
Definition OnnxPolicy := PolicyRunner.OnnxPolicy.

Section files.
Context (fl : Files) (py : Platform).
Definition load_yaml := PolicyRunner.load_yaml py.
Definition project_root := PolicyRunner.project_root fl.
Definition has_policies := PolicyRunner.has_policies fl.
Definition resolve_policy_config_dir := PolicyRunner.resolve_policy_config_dir fl.
Definition load_bundle := PolicyRunner.load_bundle fl py.
Definition load_bundles := PolicyRunner.load_bundles fl py.
Definition _strip_leading_parents := PolicyRunner._strip_leading_parents.
Definition _resolve_policy_dir := PolicyRunner._resolve_policy_dir fl.
Definition _obs_components := PolicyRunner._obs_components py.
Definition _obs_scales := PolicyRunner._obs_scales py.
Definition policy_init (project_root_path : Path) (bundle : RunnerBundle) : res OnnxPolicy :=
  PolicyRunner.policy_init fl py project_root_path bundle.
Definition load_policies (project_root_path policy_config_dir : Path) : res (list OnnxPolicy) :=
  PolicyRunner.load_policies fl py project_root_path policy_config_dir.
Definition action_offset (p : OnnxPolicy) (q : array) : res array :=
  PolicyRunner.action_offset py p q.
End files.

Definition rotation (w x y z : float) : list array := PolicyRunner.rotation w x y z.
Definition _quat_to_projected_gravity (quat_wxyz : float * float * float * float) : res array :=
  PolicyRunner._quat_to_projected_gravity quat_wxyz.
Definition set_state (q v : array) (quat_wxyz : float * float * float * float)
    (ang_vel : array) (p : OnnxPolicy) : res OnnxPolicy :=
  PolicyRunner.set_state q v quat_wxyz ang_vel p.
Definition set_commands (lin_x lin_y yaw : float) (mode : bool) (p : OnnxPolicy) : OnnxPolicy :=
  PolicyRunner.set_commands lin_x lin_y yaw mode p.
Definition _scale := PolicyRunner._scale.
Definition observed (p : OnnxPolicy) (component : string) : res (list float) :=
  PolicyRunner.observed p component.
Definition _observation (p : OnnxPolicy) : res array := PolicyRunner._observation p.
Definition reorder := PolicyRunner.reorder.
Definition compute_action (p : OnnxPolicy) : res (OnnxPolicy * array) :=
  PolicyRunner.compute_action p.
End Joint.

(** [float64] arrays round nothing. *)
Lemma np_array_exact l : np_array l = l.
Proof. apply map_id. Qed.

(** A step of a policy in [float64]. The network is shown the positions that were read,
    reordered, and the targets are the clipped outputs times the scale, reordered: nothing
    is rounded but by that one product, where the runner that is imported rounds each
    reading, each output and each product to [float32]. *)
Theorem joint_step_exact n ins outs r (p : Joint.OnnxPolicy) :
  config_wf n ins outs (pl p) → state_wf n (ps p) → network_of n (pl p) → reading_ok n r →
  ∃ p1 p' obs output,
    let act := map (np_clip1 (- action_clip (pl p)) (action_clip (pl p)))%float (take n output) in
    Joint.set_state (rd_dof_pos r) (rd_dof_vel r) (rd_quat_wxyz r) (rd_gyro r) p = Ok p1 ∧
    dof_pos (ps p1) = map (λ k, nth k (rd_dof_pos r) 0%float) ins ∧
    Joint._observation (set_commands (rd_lin_x r) (rd_lin_y r) (rd_yaw r) (rd_mode r) p1) = Ok obs ∧
    session (pl p) obs = Ok output ∧
    Joint.compute_action (Joint.set_commands (rd_lin_x r) (rd_lin_y r) (rd_yaw r) (rd_mode r) p1) =
      Ok (p', map (λ k, nth k act 0 * action_scale (pl p))%float outs) ∧
    actions (ps p') = act ∧ state_wf n (ps p').
Proof.
  intros Hc Hs Hnet [Hq Hv Hg Hquat].
  destruct (_quat_to_projected_gravity (rd_quat_wxyz r)) as [gravity|] eqn:Hgr; [|done].
  destruct (set_state_spec n ins outs _ _ _ _ _ p Hc Hs Hq Hv Hg Hgr)
    as (p1 & H1 & Hpl1 & Hs1 & Hdp & _).
  set (p2 := set_commands (rd_lin_x r) (rd_lin_y r) (rd_yaw r) (rd_mode r) p1).
  assert (pl p2 = pl p) as Hpl2 by done.
  assert (state_wf n (ps p2)) as Hs2 by (destruct Hs1; by split).
  destruct (observation_total n ins outs p2) as [obs Hobs]; [by rewrite Hpl2|done|].
  destruct (Hnet obs) as (output & Hout & Hlen).
  destruct (compute_action_spec n ins outs p2 obs output)
    as (p' & scaled & H3 & Hsc & _ & Hs3 & _ & Hact & _); rewrite ?Hpl2; try done; [lia|].
  rewrite Hpl2 in *. exists p1, p', obs, output. cbv zeta.
  unfold clipped in *. rewrite np_array_exact in *.
  split; [exact H1|]. split; [exact Hdp|]. split; [exact Hobs|]. split; [exact Hout|].
  split; [exact (eq_trans H3 (f_equal (λ x, Ok (p', x)) Hsc))|by split].
Qed.

(** The two runners on the repository's policy: what they add to the action. *)
Example offsets_differ :
  match shipped_policy eager with
  | Ok p =>
      Joint.action_offset repository_reader p (replicate 3 0%float) = Ok [0; 0.7; -1.4]%float ∧
      action_offset (dt := float32) repository_reader p (replicate 3 0%float) =
        Ok [0; 0.699999988079071; -1.399999976158142]%float
  | Raise _ => False
  end.
Proof. vm_compute. done. Qed.

Lemma joint_step_exact_witness :
  ∃ p p1 p' outs obs output, shipped_policy eager = Ok p ∧
    Joint.set_state (rd_dof_pos standing) (rd_dof_vel standing) (rd_quat_wxyz standing)
      (rd_gyro standing) p = Ok p1 ∧
    Joint.compute_action (Joint.set_commands 0 0 0 true p1) = Ok (p', outs) ∧
    Joint._observation (Joint.set_commands 0 0 0 true p1) = Ok obs ∧
    session (pl p) obs = Ok output.
Proof.
  destruct (shipped_policy_loads eager) as (p & Hp & Hn & Hc & Hs & _).
  assert (reading_ok 12 standing) as Ho.
  { split; [reflexivity|reflexivity|reflexivity|]. vm_compute. reflexivity. }
  destruct (joint_step_exact 12 shipped_input shipped_output standing p Hc Hs
              (eager_network p Hn) Ho) as (p1 & p' & obs & output & H1 & _ & H2 & H3 & H4 & _).
  exists p, p1, p'. eexists. exists obs, output.
  split; [exact Hp|]. split; [exact H1|]. split; [exact H4|]. split; [exact H2|exact H3].
Defined.
