(* ===== verification/Launch.v ===== *)
(** * The launch scripts

    [run_mujoco_simulation.py], which builds the simulator, starts it and ends it;
    [run_controller.py], which builds the SPARQ CAN program before the controller; and
    [subprocesses/sparq_can/main.py], which replaces itself by that program. Processes
    are those of [Supervisor], paths those of [PolicyRunner]. What a build program does
    (its exit status, the files it leaves) is a parameter; the messages printed and
    argument parsing, but for its defaults, are not modelled. *)

From S2P Require Import Prelude PyFloat PyDict Wire CStruct CanTransport Config ShmManager Supervisor.
From S2P Require Import Controller PolicyRunner ShippedConfig.

(** What a script acts on: the processes, the files that exist, and the [returncode]
    of the last [CalledProcessError]. *)
Record Host := {
  ho_os : OS;
  ho_exists : Path → bool;
  ho_returncode : Z
}.

Definition with_os (h : Host) (o : OS) : Host :=
  {| ho_os := o; ho_exists := ho_exists h; ho_returncode := ho_returncode h |}.
Definition with_run (h : Host) (ex : Path → bool) (code : Z) : Host :=
  {| ho_os := ho_os h; ho_exists := ex; ho_returncode := code |}.

(** ** Ending processes *)

(** [terminate(processes, timeout_s)] *)
Definition ask_to_end (process : Z) : ST OS unit :=
  ended ← popen_poll process;
  whenM (negb ended) (os_killpg process SIGTERM).

Definition await_end (deadline timeout_s : float) (process : Z) : ST OS unit :=
  now ← monotonic;
  try_except (popen_wait process (py_max 0 (deadline - now)%float))
    (λ e,
       if isinstance e TimeoutExpired then
         _ ← os_killpg process SIGKILL;
         popen_wait process timeout_s
       else raise e).

Definition terminate (processes : list Z) (timeout_s : float) : ST OS unit :=
  now ← monotonic;
  let deadline := (now + timeout_s)%float in
  _ ← for_each processes ask_to_end;
  for_each processes (await_end deadline timeout_s).

(** The loop of [main] over its sleeps to come, each of which a Ctrl-C may interrupt
    ([true]); at the end of the list it is still watching. *)
Inductive watched := Exited | Interrupted | Watching.

#[export] Instance watched_eq_dec : EqDecision watched.
Proof. solve_decision. Defined.

Fixpoint watch (process : Z) (sleeps : list bool) : ST OS watched :=
  ended ← popen_poll process;
  if ended : bool then mret Exited
  else match sleeps with
  | [] => mret Watching
  | true :: _ => mret Interrupted
  | false :: sleeps => _ ← sleep; watch process sleeps
  end.

(** [parse_args()] of run_mujoco_simulation.py *)
Record LaunchArgs := {
  ra_config : Path;
  ra_robot : option string;
  ra_build_dir : Path;
  ra_skip_build : bool;
  ra_shutdown_timeout_s : float
}.

Definition default_args : LaunchArgs :=
  {| ra_config := path_of "config/app_config/mujoco.yaml"; ra_robot := None;
     ra_build_dir := path_of "build/mujoco"; ra_skip_build := false;
     ra_shutdown_timeout_s := 2 |}.

Section launch.
(** [PROJECT_ROOT] (an absolute path), [Path.resolve], [os.environ], the YAML reader, the exit
    status of a program that [subprocess.run] runs in a directory ([None]: it cannot be
    started), with the files that exist afterwards, and the [returncode] of a [Popen] object whose process has ended. *)
Context (PROJECT_ROOT : Path) (resolve : Path → Path) (environ : dict string string).
Context (py : Platform).
Context (run_program : list string → Path → (Path → bool) → option Z * (Path → bool)).
Context (returncode : Z → Z).

(** ** Paths and programs *)

(** [(PROJECT_ROOT / path).resolve() if not path.is_absolute() else path] *)
Definition project_path (path : Path) : Path :=
  if is_absolute path then path else resolve (path_join PROJECT_ROOT path).

(** [require_path(path, description)] *)
Definition require_path (ex : Path → bool) (path : Path) : res Path :=
  let resolved := project_path path in
  if ex resolved then Ok resolved else Raise FileNotFoundError.

Definition required (path : Path) : ST Host Path :=
  ex ← gets ho_exists; lift (require_path ex path).

(** [subprocess.run(command, cwd=..., check=True)] *)
Definition run_check (command : list string) (cwd : Path) : ST Host unit := λ h,
  match run_program command cwd (ho_exists h) with
  | (Some code, ex) =>
      if code =? 0 then (Ok (), with_run h ex (ho_returncode h))
      else (Raise CalledProcessError, with_run h ex code)
  | (None, ex) => (Raise OSError, with_run h ex (ho_returncode h))
  end.

(** [run_checked(command)] *)
Definition run_checked (command : list string) : ST Host unit :=
  run_check command PROJECT_ROOT.

(** [build_mujoco_simulate(build_dir)] *)
Definition build_mujoco_simulate (build_dir : Path) : ST Host Path :=
  source_dir ← required (path_of ".");
  let resolved_build_dir := project_path build_dir in
  _ ← run_checked ["cmake"; "-S"; path_str source_dir; "-B"; path_str resolved_build_dir]%string;
  _ ← run_checked ["cmake"; "--build"; path_str resolved_build_dir; "--target";
                   "mujoco_simulate"]%string;
  required (path_child resolved_build_dir "mujoco_simulate").

(** ** The environment of the simulator *)

Definition wsl_lib_dir : Path := path_of "/usr/lib/wsl/lib".

(** The variables set when running under WSL. *)
Definition wsl_env (env : dict string string) : dict string string :=
  dict_del "LIBGL_ALWAYS_INDIRECT"
    (dict_set "MUJOCO_GL" "glfw"
      (dict_set "LIBGL_ALWAYS_SOFTWARE" "0"
        (dict_set "MESA_LOADER_DRIVER_OVERRIDE" "d3d12"
          (dict_set "GALLIUM_DRIVER" "d3d12" env))))%string.

(** [build_env(args, robot_name=..., ...)] *)
Definition build_env (ex : Path → bool) (robot_name : string)
    (model_config_path policy_config_dir pd_config_path : Path) : res (dict string string) :=
  let env := dict_set "QHRR_PROJECT_ROOT" (path_str PROJECT_ROOT)
               (dict_set "ROBOT_NAME" robot_name environ) in
  policy_dir ← require_path ex policy_config_dir;
  let env := dict_set "POLICY_CONFIG_DIR" (path_str policy_dir) env in
  pd_config ← require_path ex pd_config_path;
  let env := dict_set "GLFW_PLATFORM" "wayland"
               (dict_set "MUJOCO_CAN_CONFIG" (path_str model_config_path)
                 (dict_set "PD_CONFIG_PATH" (path_str pd_config) env)) in
  let on_wsl := ex wsl_lib_dir in
  let library_paths := if on_wsl then [path_str wsl_lib_dir] else [] in
  let env := if on_wsl then wsl_env env else env in
  mujoco_lib ← require_path ex (path_of "third_party/mujoco/lib");
  onnx_lib ← require_path ex (path_of "third_party/onnxruntime/lib");
  let library_paths := library_paths ++ [path_str mujoco_lib; path_str onnx_lib] in
  let library_paths :=
    match dict_get "LD_LIBRARY_PATH" env with
    | Some existing => if decide (existing = ""%string) then library_paths
                       else library_paths ++ [existing]
    | None => library_paths
    end in
  Ok (dict_set "LD_LIBRARY_PATH" (String.concat ":" library_paths) env).

(** ** run_mujoco_simulation.py *)

(** The first part of [main]: the command that is started, and its environment. *)
Definition prepare (args : LaunchArgs) : ST Host (list string * dict string string) :=
  mujoco_config_path ← required (ra_config args);
  mujoco_raw ← lift (load_yaml_mapping py (path_str mujoco_config_path));
  platform_value ← lift (require_key KeyError mujoco_raw "platform_config");
  platform_config_path ← lift (resolve_config_path py (path_str mujoco_config_path)
                                 (py_str py platform_value));
  platform ← lift (load_platform_config py platform_config_path);
  let robot_name := match ra_robot args with
                    | Some name => if decide (name = ""%string) then pf_robot_name platform
                                   else name
                    | None => pf_robot_name platform
                    end in
  match dict_get robot_name (pf_robots platform) with
  | None => raise KeyError
  | Some robot =>
      mujoco_simulate ←
        (if ra_skip_build args then
           build_dir ← required (ra_build_dir args);
           required (path_child build_dir "mujoco_simulate")
         else build_mujoco_simulate (ra_build_dir args));
      model_path ← required (path_of (model_path robot));
      ex ← gets ho_exists;
      env ← lift (build_env ex robot_name mujoco_config_path
                    (path_of (policy_config_dir robot)) (path_of (pd_config_path robot)));
      mret ([path_str mujoco_simulate; path_str model_path], env)
  end.

(** [spawn(name, command, env)] *)
Definition spawn (command : list string) (env : dict string string) : ST OS Z :=
  popen {| la_argv := command; la_cwd := path_str PROJECT_ROOT; la_env := env;
           la_logged := false |}.

(** The [try] of [main], over the processes started and the operating system. Its
    result, [None] while it is still watching: only an end runs the [finally]. *)
Definition simulate (command : list string) (env : dict string string) (sleeps : list bool) :
    ST (list Z * OS) (option Z) :=
  let os {A} (m : ST OS A) : ST (list Z * OS) A := zoom snd (λ o s, (fst s, o)) m in
  process ← os (spawn command env);
  _ ← modify (λ s, (fst s ++ [process], snd s));
  how ← os (watch process sleeps);
  match how with
  | Exited => mret (Some (returncode process))
  | Interrupted => mret (Some 130)
  | Watching => mret None
  end.

Definition terminate_all (timeout_s : float) : ST (list Z * OS) unit := λ s,
  let '(r, o) := terminate (fst s) timeout_s (snd s) in (r, (fst s, o)).

Definition try_simulate (command : list string) (env : dict string string) (timeout_s : float)
    (sleeps : list bool) : ST (list Z * OS) (option Z) := λ s,
  match simulate command env sleeps s with
  | (Ok None, s') => (Ok None, s')
  | (r, s') => try_finally (λ _, (r, s')) (terminate_all timeout_s) s'
  end.

(** [main()] *)
Definition mujoco_main (args : LaunchArgs) (sleeps : list bool) : ST Host (option Z) :=
  x ← prepare args;
  zoom (λ h, ([], ho_os h)) (λ s h, with_os h (snd s))
    (try_simulate (fst x) (snd x) (ra_shutdown_timeout_s args) sleeps).

(** [if __name__ == "__main__"]: the exit code. *)
Definition mujoco_exit (r : res Z) : Z := match r with Ok code => code | Raise _ => 1 end.

(** ** run_controller.py *)

Definition SPARQ_CAN_DIR : Path :=
  path_join PROJECT_ROOT (path_of "robot_controller/subprocesses/sparq_can").

(** [build_sparq_can()] *)
Definition build_sparq_can (is_dir : Path → bool) : ST Host unit :=
  if negb (is_dir SPARQ_CAN_DIR) then raise FileNotFoundError
  else run_check ["make"]%string SPARQ_CAN_DIR.

Section controller.
Context {PS : Type} `{ProcessControl PS}.

(** What the controller's program acts on before it has a controller. *)
Record Machine := { mc_host : Host; mc_shm : ShmFs; mc_procs : PS; mc_clock : Clock }.

Definition on_host {A} (m : ST Host A) : ST Machine A :=
  zoom mc_host (λ h s, {| mc_host := h; mc_shm := mc_shm s; mc_procs := mc_procs s;
                          mc_clock := mc_clock s |}) m.

(** [controller.start()], [run()] and [shutdown()] of a constructed controller. *)
Definition control (c : RobotController) (schedule : list (list outside)) : ST Machine unit := λ s,
  let '(r, sys) := Controller.main schedule
        {| sys_ctl := c; sys_shm := mc_shm s; sys_procs := mc_procs s; sys_clock := mc_clock s |} in
  (r, {| mc_host := mc_host s; mc_shm := sys_shm sys; mc_procs := sys_procs sys;
         mc_clock := sys_clock sys |}).

(** [main()] of robot_controller/main.py, configuration and construction included; what
    the daemon answers to the controller's connection, and what happens while it runs, are
    arguments as in [Controller]. *)
Definition robot_controller_main (config_path : string) (attempts : list attempt)
    (replies : list line) (now : float) (schedule : list (list outside)) : ST Machine unit :=
  config ← lift (load_robot_controller_config py config_path);
  controller ← lift (controller_init config attempts replies now);
  control controller schedule.

(** [main()] of run_controller.py *)
Definition run_controller_main (is_dir : Path → bool) (config_path : string)
    (attempts : list attempt) (replies : list line) (now : float)
    (schedule : list (list outside)) : ST Machine Z :=
  _ ← on_host (build_sparq_can is_dir);
  _ ← robot_controller_main config_path attempts replies now schedule;
  mret 0.

(** [if __name__ == "__main__"]: an exception other than [CalledProcessError] ends the
    script with a traceback and 1. *)
Definition run_controller_exit (x : res Z * Machine) : Z :=
  match x with
  | (Ok code, _) => code
  | (Raise CalledProcessError, s) => ho_returncode (mc_host s)
  | (Raise _, _) => 1
  end.
End controller.

(** ** subprocesses/sparq_can/main.py *)

(** [os.execv(str(binary), [str(binary)])] in the working directory of the second path:
    the program the process has become. *)
Record Exec := { ex_path : string; ex_argv : list string; ex_cwd : string }.

Definition DEFAULT_BINARY : Path := path_child SPARQ_CAN_DIR "SPARQ_CAN".

(** [path.parent] *)
Definition path_parent (p : Path) : Path :=
  {| is_absolute := is_absolute p; parts := removelast (parts p) |}.

Definition sparq_can_main (exists_ executable : Path → bool) (binary : Path) : res Exec :=
  let binary := resolve binary in
  if negb (exists_ binary) then Raise FileNotFoundError
  else if negb (executable binary) then Raise PermissionError
  else Ok {| ex_path := path_str binary; ex_argv := [path_str binary];
             ex_cwd := path_str (path_parent binary) |}.
End launch.

(** ** What the operations leave alone *)

(** Processes live on as [later] says, and nothing is started. *)
Definition calm (o o' : OS) : Prop :=
  (∀ pid, later pid o o') ∧ os_launches o' = os_launches o.
(** No signal is sent. *)
Definition silent (o o' : OS) : Prop := os_signals o' = os_signals o.

#[export] Instance calm_preorder : PreOrder calm.
Proof.
  split; [by split|]. intros o1 o2 o3 [H1 E1] [H2 E2]. split; [|congruence].
  intros pid. by transitivity o2.
Qed.
#[export] Instance silent_preorder : PreOrder silent.
Proof. split; [done|]. intros ? ? ? H1 H2. unfold silent in *. congruence. Qed.

Lemma within_calm {A} (m : ST OS A) :
  (∀ pid, quiet pid m) → (∀ o, os_launches (snd (m o)) = os_launches o) → within calm m.
Proof. intros Hq Hl o. split; [intros pid; apply Hq|apply Hl]. Qed.

Lemma calm_monotonic : within calm monotonic.
Proof.
  apply within_calm; [auto with within|]. intros o. unfold monotonic. by destruct (os_clock o).
Qed.
Lemma calm_sleep : within calm sleep.
Proof. apply within_calm; [auto with within|done]. Qed.
Lemma calm_poll pid : within calm (popen_poll pid).
Proof.
  apply within_calm; [auto with within|]. intros o. unfold popen_poll.
  destruct (os_procs o !! pid) as [p|]; [|done]. by destruct (px_dead p).
Qed.
Lemma calm_killpg pid s : within calm (os_killpg pid s).
Proof.
  apply within_calm; [auto with within|]. intros o. unfold os_killpg.
  destruct (os_procs o !! pid) as [p|]; [|done].
  destruct (negb (px_exists p)); [done|]. cbv zeta. by case_bool_decide.
Qed.

Lemma silent_monotonic : within silent monotonic.
Proof. intros o. unfold monotonic. by destruct (os_clock o). Qed.
Lemma silent_sleep : within silent sleep.
Proof. done. Qed.
Lemma silent_poll pid : within silent (popen_poll pid).
Proof.
  intros o. unfold popen_poll. destruct (os_procs o !! pid) as [p|]; [|done].
  by destruct (px_dead p).
Qed.

#[export] Hint Resolve calm_monotonic calm_sleep calm_poll calm_killpg
  silent_monotonic silent_sleep silent_poll : within.

(** A wait sends no signal and starts nothing. *)
Lemma within_wait (R : OS → OS → Prop) `{!PreOrder R} pid timeout :
  within R monotonic → within R sleep → within R (popen_poll pid) →
  within R (popen_wait pid timeout).
Proof.
  intros Hm Hs Hp.
  assert (∀ endtime clock, within R (wait_until pid endtime clock)) as Hw.
  { intros endtime clock. induction clock as [|t clock IH]; cbn [wait_until];
      auto 15 with within. }
  unfold popen_wait. auto 10 with within.
Qed.

Lemma within_watch (R : OS → OS → Prop) `{!PreOrder R} pid sleeps :
  within R sleep → within R (popen_poll pid) → within R (watch pid sleeps).
Proof.
  intros Hs Hp. induction sleeps as [|[] sleeps IH]; cbn [watch]; auto 15 with within.
Qed.

Lemma calm_wait pid timeout : within calm (popen_wait pid timeout).
Proof. apply within_wait; auto with within. Qed.
Lemma silent_wait pid timeout : within silent (popen_wait pid timeout).
Proof. apply within_wait; auto with within. Qed.
#[export] Hint Resolve calm_wait silent_wait : within.

Lemma calm_ask pid : within calm (ask_to_end pid).
Proof. unfold ask_to_end. auto 10 with within. Qed.
Lemma calm_await deadline timeout_s pid : within calm (await_end deadline timeout_s pid).
Proof. unfold await_end. auto 15 with within. Qed.
#[export] Hint Resolve calm_ask calm_await : within.
Lemma calm_terminate processes timeout_s : within calm (terminate processes timeout_s).
Proof. unfold terminate. auto 15 with within. Qed.

Lemma calm_killable pid o o' : calm o o' → killable pid o → killable pid o'.
Proof. intros [H _]. apply later_killable, H. Qed.
Lemma calm_exited pid o o' : calm o o' → exited pid o → exited pid o'.
Proof. intros [H _]. apply later_exited, H. Qed.

(** ** How asking and awaiting end *)

(** The process [pid] is listed, and has not exited. *)
Definition alive (pid : Z) (o : OS) : Prop :=
  ∃ p, os_procs o !! pid = Some p ∧ px_dead p = false.

(** [Popen.wait] that times out leaves a process that has not exited. *)
Lemma wait_until_times_out pid endtime clock : ∀ o e o',
  (∃ p, os_procs o !! pid = Some p) →
  wait_until pid endtime clock o = (Raise e, o') → alive pid o'.
Proof.
  induction clock as [|t clock IH]; intros o e o' (p & Hp); cbn [wait_until]; st_run;
    unfold popen_poll; rewrite Hp; destruct (px_dead p) eqn:Hd; cbn; [done| |done|].
  - intros [= _ <-]. by exists p.
  - pose proof (quiet_monotonic pid o) as Hm.
    destruct (monotonic o) as [[now|e1] o1] eqn:E; cbn in Hm.
    + destruct (la_proc _ _ _ Hm p Hp) as (p1 & Hp1 & _).
      destruct (endtime - now <=? 0)%float.
      * intros [= _ <-]. unfold monotonic in E.
        assert (os_procs o1 = os_procs o) as Ho by (by destruct (os_clock o); injection E as _ <-).
        exists p. by rewrite Ho.
      * apply IH. destruct (la_proc _ _ _ (quiet_sleep pid o1) p1 Hp1) as (p2 & Hp2 & _). eauto.
    + unfold monotonic in E. by destruct (os_clock o).
Qed.

Lemma killpg_alive pid s o :
  killable pid o → alive pid o →
  ∃ o' l, os_killpg pid s o = (Ok (), o') ∧ (s = SIGKILL → exited pid o') ∧
    os_signals o' = os_signals o ++ map (λ q, (q, s)) l ∧
    (s = SIGTERM → ∀ p, os_procs o !! pid = Some p → px_on_term p = Some 0%nat → exited pid o').
Proof.
  intros Hk (p & Hp & Hd). destruct (killpg_spec pid s o Hk) as [(o' & E & Hx)|[_ Hx]].
  - exists o'. revert E. unfold os_killpg. rewrite Hp. unfold px_exists. rewrite Hd.
    cbn [negb andb]. cbv zeta. case_bool_decide; [done|]. intros [= <-]. eexists.
    split; [reflexivity|]. split; [done|]. split.
    { cbn [with_signal os_signals]. f_equal. symmetry. apply (map_map fst (λ q, (q, s))). }
    intros -> p' Hp' Ht. assert (p' = p) as -> by congruence.
    exists (deliver SIGTERM p). cbn [with_signal os_procs]. rewrite lookup_fmap, Hp. cbn [fmap option_fmap option_map].
    destruct Hk as (p1 & Hp1 & Ho & _). simplify_eq.
    unfold in_group, px_exists. rewrite Z.eqb_refl, Hd, Ho. split; [done|].
    unfold px_dead, deliver, with_left. cbn [px_left]. rewrite Ht. apply bool_decide_eq_true.
    destruct (px_left p1); cbn; [|done]. by rewrite Nat.min_0_r.
  - destruct Hx as (q & Hq & Hqd). congruence.
Qed.

Lemma poll_cases pid o : killable pid o →
  (exited pid o ∧ ∃ o', popen_poll pid o = (Ok true, o') ∧ exited pid o') ∨
  (alive pid o ∧ popen_poll pid o = (Ok false, o)).
Proof.
  intros (p & Hp & _). destruct (px_dead p) eqn:Hd; [left|right].
  - assert (exited pid o) as Hx by (by exists p). split; [done|]. by apply poll_exited.
  - split; [by exists p|]. unfold popen_poll. by rewrite Hp, Hd.
Qed.

(** Asking reaches a process that has not exited, and sends nothing to one that has. *)
Lemma ask_spec pid o : killable pid o →
  ∃ o', ask_to_end pid o = (Ok (), o') ∧
    (exited pid o → os_signals o' = os_signals o) ∧
    (∃ l, os_signals o' = os_signals o ++ map (λ q, (q, SIGTERM)) l) ∧
    (∀ p, os_procs o !! pid = Some p → px_on_term p = Some 0%nat → exited pid o').
Proof.
  intros Hk. unfold ask_to_end. pose proof (silent_poll pid o) as Hs.
  destruct (poll_cases pid o Hk) as [[Hx (o' & E & Hx')]|[Ha E]]; rewrite E in Hs.
  - exists o'. split; [by rewrite (st_bind_ok _ _ _ _ _ E)|]. split; [by intros _|].
    split; [exists []; by rewrite app_nil_r|by intros].
  - destruct (killpg_alive pid SIGTERM o Hk Ha) as (o' & l & E' & _ & Hl & Ht).
    exists o'. split; [by rewrite (st_bind_ok _ _ _ _ _ E)|]. split.
    + intros (q & Hq & Hd). destruct Ha as (p & Hp & Hd'). congruence.
    + split; [by exists l|]. by apply Ht.
Qed.

(** Awaiting ends a process, whatever it does on SIGTERM; one that has exited gets no
    further signal. *)
Lemma await_spec deadline timeout_s pid o : killable pid o →
  ∃ o', await_end deadline timeout_s pid o = (Ok (), o') ∧ exited pid o' ∧
    (exited pid o → os_signals o' = os_signals o).
Proof.
  intros Hk. unfold await_end.
  pose proof (calm_monotonic o) as C1. pose proof (silent_monotonic o) as S1.
  assert (∃ now o1, monotonic o = (Ok now, o1)) as (now & o1 & E1)
    by (unfold monotonic; destruct (os_clock o); eauto).
  rewrite E1 in C1, S1. cbn in C1, S1. setoid_rewrite (st_bind_ok _ _ _ _ _ E1).
  pose proof (calm_killable _ _ _ C1 Hk) as Hk1. unfold try_except.
  set (rest := py_max 0 (deadline - now)%float).
  destruct (popen_wait_spec pid rest o1 (killable_exists _ _ Hk1)) as (_ & Hx & Hw).
  pose proof (calm_wait pid rest o1) as C2. pose proof (silent_wait pid rest o1) as S2.
  destruct (popen_wait pid rest o1) as [[[]|e] o2] eqn:E2; cbn in *.
  - exists o2. split; [done|]. split; [done|]. intros _. by rewrite S2, S1.
  - subst e. change (isinstance TimeoutExpired TimeoutExpired) with true. cbv iota.
    pose proof (calm_killable _ _ _ C2 Hk1) as Hk2.
    assert (alive pid o2) as Ha.
    { unfold popen_wait in E2. pose proof (killable_exists _ _ Hk1) as Hex.
      destruct (monotonic o1) as [[t|e] o3] eqn:E3; [|by unfold monotonic in E3; destruct (os_clock o1)].
      rewrite (st_bind_ok _ _ _ _ _ E3) in E2. revert E2. st_run. apply wait_until_times_out.
      pose proof (calm_monotonic o1) as C3. rewrite E3 in C3.
      by apply killable_exists, (calm_killable _ _ _ C3). }
    destruct (killpg_alive pid SIGKILL o2 Hk2 Ha) as (o3 & l & E3 & Hd & _ & _).
    rewrite (st_bind_ok _ _ _ _ _ E3).
    pose proof (calm_killpg pid SIGKILL o2) as C3. rewrite E3 in C3.
    destruct (popen_wait_spec pid timeout_s o3
                (killable_exists _ _ (calm_killable _ _ _ C3 Hk2))) as (_ & Hok & Hx5).
    specialize (Hok (Hd eq_refl)). destruct (popen_wait pid timeout_s o3) as [r o5].
    cbn in Hok. subst r. exists o5. split; [done|]. split; [done|].
    intros Hx'. specialize (Hx (calm_exited _ _ _ C1 Hx')). done.
Qed.

(** Ending a list of processes: all have exited, whatever each does on SIGTERM. *)
Lemma asks_ok processes : ∀ o, Forall (λ pid, killable pid o) processes →
  ∃ o', for_each processes ask_to_end o = (Ok (), o').
Proof.
  induction processes as [|pid processes IH]; intros o Hk; cbn [for_each]; [by eexists|].
  apply Forall_cons in Hk as [Hp Hk]. destruct (ask_spec pid o Hp) as (o1 & E & _).
  rewrite (st_bind_ok _ _ _ _ _ E). apply IH. eapply Forall_impl; [exact Hk|].
  intros q. pose proof (calm_ask pid o) as C. rewrite E in C. by apply calm_killable.
Qed.

Lemma awaits_ok deadline timeout_s processes : ∀ o, Forall (λ pid, killable pid o) processes →
  ∃ o', for_each processes (await_end deadline timeout_s) o = (Ok (), o') ∧
        Forall (λ pid, exited pid o') processes.
Proof.
  induction processes as [|pid processes IH]; intros o Hk; cbn [for_each]; [by eexists|].
  apply Forall_cons in Hk as [Hp Hk].
  destruct (await_spec deadline timeout_s pid o Hp) as (o1 & E & Hx & _).
  pose proof (calm_await deadline timeout_s pid o) as C. rewrite E in C. cbn in C.
  rewrite (st_bind_ok _ _ _ _ _ E). destruct (IH o1) as (o2 & E2 & Hall).
  { eapply Forall_impl; [exact Hk|]. intros q. by apply calm_killable. }
  exists o2. split; [done|]. constructor; [|done].
  assert (within calm (for_each processes (await_end deadline timeout_s))) as Hc
    by auto with within.
  specialize (Hc o1). rewrite E2 in Hc. by eapply calm_exited.
Qed.

Lemma monotonic_ok o : ∃ now o', monotonic o = (Ok now, o') ∧ calm o o' ∧ silent o o' ∧
  os_procs o' = os_procs o.
Proof.
  pose proof (calm_monotonic o) as C. pose proof (silent_monotonic o) as S.
  unfold monotonic in *. destruct (os_clock o); eauto 8.
Qed.

Lemma terminate_spec processes timeout_s o :
  Forall (λ pid, killable pid o) processes →
  ∃ o', terminate processes timeout_s o = (Ok (), o') ∧ calm o o' ∧
        Forall (λ pid, exited pid o') processes.
Proof.
  intros Hk. pose proof (calm_terminate processes timeout_s o) as C. unfold terminate in *.
  destruct (monotonic_ok o) as (now & o1 & E1 & C1 & _).
  rewrite (st_bind_ok _ _ _ _ _ E1) in *.
  assert (Forall (λ pid, killable pid o1) processes) as Hk1.
  { eapply Forall_impl; [exact Hk|]. intros q. by apply calm_killable. }
  destruct (asks_ok processes o1 Hk1) as (o2 & E2).
  assert (within calm (for_each processes ask_to_end)) as C2 by auto with within.
  specialize (C2 o1). rewrite E2 in C2. rewrite (st_bind_ok _ _ _ _ _ E2) in *.
  destruct (awaits_ok (now + timeout_s)%float timeout_s processes o2) as (o3 & E3 & Hx).
  { eapply Forall_impl; [exact Hk1|]. intros q. by apply calm_killable. }
  rewrite E3 in *. by exists o3.
Qed.

(** With one process: the signals it gets. None when it has exited, only SIGTERM when it
    ends on SIGTERM at once. *)
Lemma terminate_one pid timeout_s p o :
  killable pid o → os_procs o !! pid = Some p →
  let o' := snd (terminate [pid] timeout_s o) in
  (px_dead p = true → silent o o') ∧
  (px_on_term p = Some 0%nat →
     ∃ l, os_signals o' = os_signals o ++ map (λ q, (q, SIGTERM)) l).
Proof.
  intros Hk Hp. unfold terminate. cbn [for_each].
  destruct (monotonic_ok o) as (now & o1 & E1 & C1 & S1 & P1).
  rewrite (st_bind_ok _ _ _ _ _ E1).
  destruct (ask_spec pid o1 (calm_killable _ _ _ C1 Hk)) as (o2 & E2 & Hsil & (l & Hl) & Ht).
  pose proof (calm_ask pid o1) as C2. rewrite E2 in C2. cbn in C2.
  rewrite (st_bind_ok _ _ _ () o2 (st_bind_ok _ _ _ _ _ E2)).
  destruct (await_spec (now + timeout_s)%float timeout_s pid o2
              (calm_killable _ _ _ C2 (calm_killable _ _ _ C1 Hk))) as (o3 & E3 & _ & Hsil3).
  rewrite (st_bind_ok _ _ _ _ _ E3). cbn.
  unfold silent in *. split.
  - intros Hd. assert (exited pid o1) as Hx by (exists p; by rewrite P1).
    rewrite Hsil3, Hsil, S1; [done|done|by eapply calm_exited].
  - intros Htm. exists l. rewrite Hsil3, Hl, S1; [done|]. apply (Ht p); [by rewrite P1|done].
Qed.

(** ** How a simulation ends *)

(** What the loop of [main] comes to, by how long the process runs and by the Ctrl-C. *)
Fixpoint fate (left : option nat) (sleeps : list bool) : watched :=
  match left with
  | Some 0%nat => Exited
  | _ =>
      match sleeps with
      | [] => Watching
      | true :: _ => Interrupted
      | false :: sleeps => fate (pred <$> left) sleeps
      end
  end.

Lemma fate_dead left sleeps : left = Some 0%nat → fate left sleeps = Exited.
Proof. intros ->. by destruct sleeps. Qed.

Lemma fate_alive left sleeps : left ≠ Some 0%nat →
  fate left sleeps = match sleeps with
                     | [] => Watching
                     | true :: _ => Interrupted
                     | false :: sleeps => fate (pred <$> left) sleeps
                     end.
Proof. intros H. by destruct sleeps, left as [[|n]|]. Qed.

Lemma watch_spec pid sleeps : ∀ o p, os_procs o !! pid = Some p →
  ∃ o' p', watch pid sleeps o = (Ok (fate (px_left p) sleeps), o') ∧
    os_procs o' !! pid = Some p' ∧ px_on_term p' = px_on_term p ∧
    px_dead p' = bool_decide (fate (px_left p) sleeps = Exited).
Proof.
  induction sleeps as [|b sleeps IH]; intros o p Hp; cbn [watch]; st_run;
    unfold popen_poll; rewrite Hp; destruct (px_dead p) eqn:Hd.
  1,3: apply bool_decide_eq_true in Hd as Hl; rewrite fate_dead by done;
    eexists _, (reap p); (split; [done|]); cbn [with_procs os_procs];
    rewrite lookup_insert_eq; done.
  - apply bool_decide_eq_false in Hd as Hl. rewrite fate_alive by done. by exists o, p.
  - apply bool_decide_eq_false in Hd as Hl. rewrite fate_alive by done.
    destruct b; [by exists o, p|].
    destruct (IH (snd (sleep o)) (elapse p)) as (o' & p' & E & Hp' & Ht & Hd').
    { cbn. by rewrite lookup_fmap, Hp. }
    exists o', p'. split_and!; [exact E|done|exact Ht|exact Hd'].
Qed.

Section ends.
Context (PROJECT_ROOT : Path) (returncode : Z → Z).

(** Starting a child that the system gives. *)
Lemma spawn_spec command env o c rest :
  os_children o = Ok c :: rest →
  let pid := os_next_pid o in
  ∃ o', spawn PROJECT_ROOT command env o = (Ok pid, o') ∧
    os_launches o' = os_launches o ++
      [{| la_argv := command; la_cwd := path_str PROJECT_ROOT; la_env := env;
          la_logged := false |}] ∧
    os_signals o' = os_signals o ∧
    ∃ p, os_procs o' !! pid = Some p ∧ px_left p = ch_left c ∧ px_owned p = true ∧
         px_on_term p = ch_on_term c ∧ px_on_kill p = ch_on_kill c.
Proof.
  intros Hc. unfold spawn, popen. rewrite Hc. eexists. split; [reflexivity|].
  split; [done|]. split; [done|]. eexists. cbn. rewrite lookup_insert_eq. done.
Qed.

(** The [try] of [main] from a child to its end. *)
Lemma try_simulate_spec command env timeout_s sleeps o c rest :
  os_children o = Ok c :: rest → ch_on_kill c = 0%nat →
  let pid := os_next_pid o in
  ∃ r o', try_simulate PROJECT_ROOT returncode command env timeout_s sleeps ([], o) =
      (Ok r, ([pid], o')) ∧
    os_launches o' = os_launches o ++
      [{| la_argv := command; la_cwd := path_str PROJECT_ROOT; la_env := env;
          la_logged := false |}] ∧
    match fate (ch_left c) sleeps with
    | Watching => r = None ∧ alive pid o' ∧ os_signals o' = os_signals o
    | Exited => r = Some (returncode pid) ∧ exited pid o' ∧ os_signals o' = os_signals o
    | Interrupted => r = Some 130 ∧ exited pid o' ∧
        (ch_on_term c = Some 0%nat →
           ∃ l, os_signals o' = os_signals o ++ map (λ q, (q, SIGTERM)) l)
    end.
Proof.
  intros Hc Hkill pid.
  destruct (spawn_spec command env o c rest Hc) as (o1 & E1 & Hl1 & Hs1 & p & Hp & Hpl & Ho & Ht & Hk).
  destruct (watch_spec pid sleeps o1 p Hp) as (o2 & p2 & E2 & Hp2 & Ht2 & Hd2).
  pose proof (within_watch calm pid sleeps calm_sleep (calm_poll pid) o1) as C2.
  pose proof (within_watch silent pid sleeps silent_sleep (silent_poll pid) o1) as S2.
  rewrite E2 in C2, S2. rewrite Hpl in E2, Hd2. cbn [snd] in C2, S2.
  assert (killable pid o2) as Hk2.
  { apply (calm_killable pid o1 o2 C2). exists p. split_and!; [done|done|congruence]. }
  destruct (terminate_spec [pid] timeout_s o2) as (o3 & E3 & C3 & Hx3).
  { by constructor. }
  apply Forall_cons in Hx3 as [Hx3 _].
  pose proof (terminate_one pid timeout_s p2 o2 Hk2 Hp2) as Hone. rewrite E3 in Hone.
  cbn [snd] in Hone. destruct Hone as [Hsil Hterm].
  unfold try_simulate, simulate. cbv zeta. unfold zoom. st_run. cbn [fst snd].
  rewrite E1. cbn [fst snd app]. fold pid. rewrite E2. cbn [fst snd].
  unfold try_finally, terminate_all.
  destruct (fate (ch_left c) sleeps); cbn [fst snd]; rewrite ?E3.
  - eexists _, o3. split; [reflexivity|]. split; [by rewrite (proj2 C3), (proj2 C2)|].
    split_and!; [done|done|]. rewrite Hsil; [by rewrite S2|by rewrite Hd2].
  - eexists _, o3. split; [reflexivity|]. split; [by rewrite (proj2 C3), (proj2 C2)|].
    split_and!; [done|done|]. intros Htc. destruct Hterm as [l Hl]; [congruence|].
    exists l. by rewrite Hl, S2, Hs1.
  - eexists _, o2. split; [reflexivity|]. split; [by rewrite (proj2 C2)|].
    split_and!; [done| |by rewrite S2]. exists p2. by rewrite Hd2.
Qed.
End ends.

(** ** What is prepared *)

Section prepared.
Context (PROJECT_ROOT : Path) (resolve : Path → Path) (environ : dict string string).
Context (py : Platform).
Context (run_program : list string → Path → (Path → bool) → option Z * (Path → bool)).
Context (returncode : Z → Z).

(** Preparing, builds included, does nothing to the processes. *)
Definition same_os (h h' : Host) : Prop := ho_os h' = ho_os h.

#[export] Instance same_os_preorder : PreOrder same_os.
Proof. split; [done|]. intros ? ? ? H1 H2. unfold same_os in *. congruence. Qed.

Lemma same_os_required path : within same_os (required PROJECT_ROOT resolve path).
Proof. unfold required. auto with within. Qed.

Lemma same_os_run command cwd : within same_os (run_check run_program command cwd).
Proof.
  intros h. unfold run_check, same_os.
  destruct (run_program command cwd (ho_exists h)) as [[code|] ex]; [|done].
  by destruct (code =? 0).
Qed.
Hint Resolve same_os_required same_os_run : within.

Lemma same_os_build build_dir :
  within same_os (build_mujoco_simulate PROJECT_ROOT resolve run_program build_dir).
Proof. unfold build_mujoco_simulate, run_checked. cbv zeta. auto 15 with within. Qed.
Hint Resolve same_os_build : within.

Lemma same_os_prepare args :
  within same_os (prepare PROJECT_ROOT resolve environ py run_program args).
Proof.
  unfold prepare. do 5 (apply within_bind; [apply _|auto 15 with within|intros ?]).
  cbv zeta. match goal with |- within _ (match ?x with _ => _ end) => destruct x end;
    auto 20 with within.
Qed.

Lemma required_inv path h p h' :
  required PROJECT_ROOT resolve path h = (Ok p, h') →
  h' = h ∧ ho_exists h p = true ∧ p = project_path PROJECT_ROOT resolve path.
Proof.
  unfold required. st_run. unfold require_path.
  destruct (ho_exists h _) eqn:E; intros H; [|discriminate H]. by injection H as <- <-.
Qed.

(** What is started was there when it was looked for. *)
Lemma prepare_spec args h command env h' :
  prepare PROJECT_ROOT resolve environ py run_program args h = (Ok (command, env), h') →
  ∃ simulator model,
    command = [path_str simulator; path_str model] ∧
    ho_exists h' simulator = true ∧ ho_exists h' model = true ∧
    ∃ robot_name config policy_dir pd_config,
      build_env PROJECT_ROOT resolve environ (ho_exists h') robot_name config policy_dir
        pd_config = Ok env.
Proof.
  unfold prepare. intros H.
  do 5 (apply st_bind_inv in H as (? & ? & _ & H)). cbv zeta in H.
  match type of H with match ?x with _ => _ end _ = _ => destruct x; [|discriminate H] end.
  apply st_bind_inv in H as (simulator & h1 & Hsim & H).
  apply st_bind_inv in H as (model & h2 & [-> [Hm _]]%required_inv & H).
  apply st_bind_inv in H as (ex & h3 & [= <- <-] & H).
  apply st_bind_inv in H as (env' & h4 & [He ->]%lift_inv & [= <- <- <-]).
  exists simulator, model. split; [done|]. split; [|split; [done|by repeat eexists]].
  destruct (ra_skip_build args).
  - by apply st_bind_inv in Hsim as (dir & h5 & [-> _]%required_inv & [-> [? _]]%required_inv).
  - unfold build_mujoco_simulate in Hsim. do 3 (apply st_bind_inv in Hsim as (? & ? & _ & Hsim)).
    by apply required_inv in Hsim as [-> [? _]].
Qed.

End prepared.

(** ** run_controller.py and subprocesses/sparq_can/main.py *)

Section scripts.
Context (PROJECT_ROOT : Path) (resolve : Path → Path) (py : Platform).
Context (run_program : list string → Path → (Path → bool) → option Z * (Path → bool)).
Context {PS : Type} `{ProcessControl PS}.

(** The controller runs only on a build that succeeded. Without the directory, without
    make, or when make fails, the script ends with 1 or make's exit status, and nothing of
    the controller has happened; otherwise the controller's program runs, and the script ends
    with 0 exactly when it returns. *)
Theorem controller_after_build (is_dir : Path → bool) config_path attempts replies now schedule
    (s : Machine (PS := PS)) :
  let x := run_controller_main PROJECT_ROOT py run_program is_dir config_path attempts replies
             now schedule s in
  let built := build_sparq_can PROJECT_ROOT run_program is_dir (mc_host s) in
  let s1 := {| mc_host := snd built; mc_shm := mc_shm s; mc_procs := mc_procs s;
               mc_clock := mc_clock s |} in
  match fst built with
  | Raise e =>
      x = (Raise e, s1) ∧
      (e = CalledProcessError →
         ∃ code ex, run_program ["make"%string] (SPARQ_CAN_DIR PROJECT_ROOT)
                      (ho_exists (mc_host s)) = (Some code, ex) ∧ code ≠ 0 ∧
                    run_controller_exit x = code) ∧
      (e ≠ CalledProcessError → run_controller_exit x = 1)
  | Ok _ =>
      is_dir (SPARQ_CAN_DIR PROJECT_ROOT) = true ∧
      let y := robot_controller_main py config_path attempts replies now schedule s1 in
      snd x = snd y ∧ fst x = (_ ← fst y; Ok 0)
  end.
Proof.
  cbv zeta. unfold run_controller_main, on_host, zoom. st_run.
  destruct (build_sparq_can PROJECT_ROOT run_program is_dir (mc_host s)) as [[[]|e] h1] eqn:E;
    cbn [fst snd].
  - unfold build_sparq_can in E. destruct (is_dir _); [|discriminate E]. split; [done|].
    by destruct (robot_controller_main _ _ _ _ _ _ _) as [[[]|e] s2].
  - split; [done|]. split; [|by destruct e].
    intros ->. unfold build_sparq_can in E. destruct (is_dir _); [|discriminate E].
    cbn [negb] in E. unfold run_check in E.
    destruct (run_program _ _ _) as [[code|] ex]; [|discriminate E].
    destruct (code =? 0) eqn:Ec; [discriminate E|]. exists code, ex. injection E as <-.
    split; [done|]. split; [by apply Z.eqb_neq|done].
Qed.
End scripts.

(** ** The environment, and an example *)

(** The variables [build_env] sets or removes. *)
Definition launch_variables (on_wsl : bool) : list string :=
  ["ROBOT_NAME"; "QHRR_PROJECT_ROOT"; "POLICY_CONFIG_DIR"; "PD_CONFIG_PATH";
   "MUJOCO_CAN_CONFIG"; "GLFW_PLATFORM"; "LD_LIBRARY_PATH"]%string ++
  (if on_wsl then ["GALLIUM_DRIVER"; "MESA_LOADER_DRIVER_OVERRIDE"; "LIBGL_ALWAYS_SOFTWARE";
                   "MUJOCO_GL"; "LIBGL_ALWAYS_INDIRECT"]%string
   else []).

(** Looking a variable up in an environment built by assignments. *)
Ltac env_lookup :=
  repeat first
    [ rewrite dict_get_set_eq
    | rewrite dict_get_set_ne by (discriminate || assumption)
    | rewrite dict_get_del_ne by (discriminate || assumption) ].

(** The environment of the simulator. Its robot and its files are those asked for, the
    files exist, the library path holds the libraries before what it held, under WSL the
    drivers of WSL are chosen whatever the caller's environment says, and every other
    variable is inherited. *)
Theorem simulator_environment root resolve environ ex robot_name config policy_dir pd_config env :
  dict_wf environ →
  build_env root resolve environ ex robot_name config policy_dir pd_config = Ok env →
  let path := project_path root resolve in
  let wsl := ex wsl_lib_dir in
  let get k := dict_get k env in
  let libraries := map (λ p, path (path_of p))
                     ["third_party/mujoco/lib"; "third_party/onnxruntime/lib"]%string in
  (get "ROBOT_NAME" = Some robot_name ∧ get "QHRR_PROJECT_ROOT" = Some (path_str root) ∧
   get "MUJOCO_CAN_CONFIG" = Some (path_str config) ∧
   get "POLICY_CONFIG_DIR" = Some (path_str (path policy_dir)) ∧
   get "PD_CONFIG_PATH" = Some (path_str (path pd_config)))%string ∧
  Forall (λ p, ex p = true) (path policy_dir :: path pd_config :: libraries) ∧
  get "LD_LIBRARY_PATH"%string =
    Some (String.concat ":" ((if wsl then [path_str wsl_lib_dir] else []) ++
            map path_str libraries ++
            (match dict_get "LD_LIBRARY_PATH"%string environ with
             | Some e => if decide (e = ""%string) then [] else [e] | None => [] end))) ∧
  (wsl = true → get "GALLIUM_DRIVER" = Some "d3d12" ∧ get "MUJOCO_GL" = Some "glfw" ∧
                get "LIBGL_ALWAYS_INDIRECT" = None)%string ∧
  ∀ k, k ∉ launch_variables wsl → get k = dict_get k environ.
Proof.
  intros Hwf H. cbv zeta. unfold build_env, require_path in H. cbv zeta in H.
  set (path := project_path root resolve) in *.
  destruct (ex (path policy_dir)) eqn:E1; [|discriminate H]. cbn [mbind res_bind] in H.
  destruct (ex (path pd_config)) eqn:E2; [|discriminate H]. cbn [mbind res_bind] in H.
  destruct (ex (path (path_of "third_party/mujoco/lib"))) eqn:E3; [|discriminate H].
  cbn [mbind res_bind] in H.
  destruct (ex (path (path_of "third_party/onnxruntime/lib"))) eqn:E4; [|discriminate H].
  cbn [mbind res_bind] in H. injection H as <-.
  assert (Forall (λ p, ex p = true) [path policy_dir; path pd_config;
            path (path_of "third_party/mujoco/lib"); path (path_of "third_party/onnxruntime/lib")])
    as Hex by (repeat constructor; done).
  unfold launch_variables, wsl_env. destruct (ex wsl_lib_dir); (split; [|split; [exact Hex|split; [|split]]]).
  1,5: split_and!; env_lookup; reflexivity.
  1,4: env_lookup; do 2 f_equal; destruct (dict_get _ _); [case_decide|]; reflexivity.
  2,4: intros k Hk; cbn [app] in Hk; rewrite !not_elem_of_cons in Hk;
    destruct_and? Hk; env_lookup; reflexivity.
  - intros _. split_and!; env_lookup; [done|done|].
    rewrite dict_get_del by auto 15 with sparq. by rewrite decide_True.
  - done.
Qed.

(** [config/app_config/mujoco.yaml] *)
Definition mujoco_yaml : json :=
  (JObj [("platform_config", JStr "platform.yaml");
         ("mujoco_can", JObj [
            ("enabled", JBool true);
            ("imu_sensors", JObj [("quat_sensor_name", JStr "imu_quat");
                                  ("gyro_sensor_name", JStr "imu_gyro")]);
            ("socketcan", JObj [("enabled", JBool true)]);
            ("spg_mit", JObj [("set_zero_hold_s", JFloat 0.020)])])])%string.

Definition mujoco_platform : Platform :=
  let p := shipped_platform shipped_processes in
  {| str_of_float := str_of_float p; float_of_string := float_of_string p;
     str_of_json := str_of_json p;
     read_yaml path :=
       if decide (path = "/robot/config/app_config/mujoco.yaml"%string) then Ok mujoco_yaml
       else read_yaml p path;
     resolve_path := resolve_path p |}.

(** A cmake that makes the simulator, on a machine that has everything else. *)
Definition simulator_path : Path := path_of "/robot/build/mujoco/mujoco_simulate".
Definition cmake (command : list string) (_ : Path) (ex : Path → bool) :
    option Z * (Path → bool) :=
  (Some 0, λ p, ex p || bool_decide (p = simulator_path ∧ "--build"%string ∈ command)).

(** Its next process ignores SIGTERM and does not end by itself. *)
Definition a_host : Host :=
  {| ho_os := {| os_procs := ∅; os_next_pid := 100; os_files := ∅; os_clock := [0; 1; 2; 5; 6]%float;
                 os_children := [Ok {| ch_left := None; ch_on_term := None; ch_on_kill := 0 |}];
                 os_launches := []; os_signals := [] |};
     ho_exists p := negb (bool_decide (p = simulator_path)); ho_returncode := 0 |}.

Definition a_simulation : res (option Z) * Host :=
  mujoco_main (path_of "/robot") (λ p, p) [] mujoco_platform cmake (λ _, 0) default_args
    [false; true] a_host.

Example a_simulation_signals :
  fst a_simulation = Ok (Some 130) ∧
  os_signals (ho_os (snd a_simulation)) = [(100, SIGTERM); (100, SIGKILL)] ∧
  map la_argv (os_launches (ho_os (snd a_simulation))) =
    [["/robot/build/mujoco/mujoco_simulate";
      "/robot/third_party/mujoco/model/SPARQ/sparq_environment.xml"]%string].
Proof. vm_compute. done. Qed.

