(* ===== verification/Scenario.v ===== *)
(** * A controller at work

    The controller with the configuration of the repository (the entry of
    "can_daemon" included), started on a machine where every process starts and
    the CAN daemon accepts every frame. The witnesses of the controller's
    theorems apply them to this system, and it shows a whole run. *)

From S2P Require Import Prelude PyFloat PyDict CStruct OperatorCommand StateMachine ControlCommand.
From S2P Require Import RobotState Telemetry CanBus Dispatcher Wire CanDaemon CanTransport.
From S2P Require Import CommManager ActuatorDriver SpgProtocol Imu Config ShippedConfig ShmManager.
From S2P Require Import Supervisor Controller ControllerFacts ControllerSpec ControllerRun.

(** Processes that always start and stop; the state is the list of requests. *)
#[export] Instance willing : ProcessControl (list string) := {
  pc_start_by_name name := modify (λ l, l ++ ["start " ++ name]%string);
  pc_start_all := modify (λ l, l ++ ["start all"]%string);
  pc_stop_all _ := modify (λ l, l ++ ["stop all"]%string)
}.

(** The [n]th reading of a clock is [n] milliseconds. *)
Definition milliseconds : Clock :=
  {| ck_monotonic n := (Z2F (Z.of_nat (S n)) * 0.001)%float;
     ck_unix n := (1700000000 + Z2F (Z.of_nat n) * 0.001)%float;
     ck_ns n := 1000000 * Z.of_nat (S n); ck_reads := 0 |}.

Definition accepting (n : nat) : list line := replicate n (Line (tx_result true)).

(** The controller as constructed, on a machine without segments. *)
Definition cold : res (System (list string)) :=
  config ← load_shipped (can_daemon_yaml :: shipped_processes);
  c ← controller_init config [{| at_tx := Ok (); at_rx := Ok (); at_now := 0 |}]
        (accepting 100) 0;
  Ok {| sys_ctl := c; sys_shm := shm_empty; sys_procs := []; sys_clock := milliseconds |}.

(** What [start()] returned, and what it left. *)
Definition started : option (res unit * System (list string)) :=
  match cold with Ok s => Some (start s) | Raise _ => None end.

Lemma started_some : is_Some started.
Proof. apply (bool_decide_unpack _). vm_compute. exact I. Qed.

(** The controller once started. *)
Definition warm : System (list string) := snd (is_Some_proj started_some).

(** ** The controller's theorems at this system *)

Lemma warm_wf : dict_wf (rc_actuators (sys_ctl warm)).
Proof. apply (bool_decide_unpack _). vm_compute. exact I. Qed.

(** The segments it reads. *)
Definition segment (o : option ShmObj) : ShmObj :=
  default {| so_name := ""; so_handle := None |} o.
Definition operator_segment : ShmObj := segment (operator_cmd_shm (sys_ctl warm)).
Definition control_segment : ShmObj := segment (control_cmd_shm (sys_ctl warm)).

Lemma warm_segments :
  operator_cmd_shm (sys_ctl warm) = Some operator_segment ∧
  control_cmd_shm (sys_ctl warm) = Some control_segment ∧
  shm_ready OperatorCommandC (sys_shm warm) operator_segment ∧
  shm_ready ControlCommandC (sys_shm warm) control_segment.
Proof.
  split; [vm_compute; reflexivity|]. split; [vm_compute; reflexivity|].
  apply (bool_decide_unpack _). vm_compute. exact I.
Qed.

(** What an operator and a policy write between two ticks. *)
Definition publish_operator (code : OperatorCommandCode) (now_ns : Z) :
    event (PS:=list string) :=
  Outside (ShmChange (λ fs,
    snd (OperatorCommandShm.publish now_ns operator_segment (code_value code) 0 fs))).
Definition publish_policy (ts : list ControlTarget) : event (PS:=list string) :=
  Outside (ShmChange (λ fs, snd (ControlCommandShm.write_targets 1 control_segment ts fs))).

Lemma tick_sends_plan_witness :
  is_ok (fst (tick warm)) = true ∧
  ∃ l, sent warm (snd (tick warm)) l ∧ length l = 13%nat ∧ map Ok l = tick_plan warm.
Proof.
  assert (is_ok (fst (tick warm)) = true) as Hok by (vm_compute; reflexivity).
  split; [exact Hok|].
  destruct (tick_sends_plan warm) as (l & Hl & _ & Hall). exists l. split; [exact Hl|].
  destruct (Hall Hok) as (op & Hd & E).
  assert (map Ok l = tick_plan warm) as E' by (unfold tick_plan; rewrite Hd; exact E).
  split; [|exact E']. rewrite <- (length_map Ok l), E'. vm_compute. reflexivity.
Defined.

Lemma no_motion_without_command_witness :
  let es := [Tick; publish_operator ESTOP 7; Tick;
             Outside (RxFrame {| can_id := 0x141; data := [0xB1; 1; 2; 3; 4; 5; 6; 7] |}); Tick] in
  off_mode (sm_mode (state_machine (sys_ctl (after warm es)))) ∧
  ∃ l, sent warm (after warm es) l ∧ Forall (harmless warm) l.
Proof.
  intros es. apply (no_motion_without_command warm es).
  - exact warm_wf.
  - left. vm_compute. reflexivity.
  - vm_compute. repeat split.
Defined.


(** In DAMPING, with RUN published: the next tick is in NORMAL. *)
Definition about_to_run : System (list string) :=
  after warm [publish_operator DAMPING 5; Tick; publish_operator RUN 6].

Definition reach (id : Z) (q : float) : ControlTarget :=
  {| t_can_id := id; t_q := q; t_dq := 0; t_kp := 20; t_kd := 0.5; t_tau := 0 |}.

Lemma policy_reaches_bus_witness :
  let ts := [reach 0x22 0.1; reach 0x7F 0; reach 0x01 (-1.5)] in
  ∃ fs' l,
    ControlCommandShm.write_targets 9 control_segment ts (sys_shm about_to_run) = (Ok (), fs') ∧
    sent (put_shm fs' about_to_run) (snd (tick (put_shm fs' about_to_run))) l ∧
    length l = 3%nat.
Proof.
  intros ts.
  assert (is_ok (decided about_to_run) = true ∧
    fst <$> decided about_to_run = Ok Mode.NORMAL) as [Hok Hd] by (split; vm_compute; reflexivity).
  destruct (decided about_to_run) as [[mode op]|e] eqn:Hdec; [|discriminate Hok].
  injection Hd as ->.
  assert (Forall sendable (imu_plan (sys_ctl about_to_run) ++
    policy_frames (protocols (sys_ctl about_to_run)) ts)) as Hsend.
  { vm_compute. repeat (apply Forall_cons; split; [split; discriminate|]). apply Forall_nil, I. }
  destruct (policy_reaches_bus about_to_run control_segment control_segment 9 ts op)
    as (fs' & l & H1 & _ & H2 & _ & H3 & H4).
  - vm_compute. reflexivity.
  - reflexivity.
  - apply (bool_decide_unpack _). vm_compute. exact I.
  - vm_compute. intros o' [= <-]. discriminate.
  - vm_compute. repeat constructor.
  - exact Hdec.
  - exists fs', l. split; [exact H1|]. split; [exact H2|].
    rewrite <- (length_map Ok l), H3; [vm_compute; reflexivity|]. apply H4; [|exact Hsend|].
    + apply (bool_decide_unpack _). vm_compute. exact I.
    + apply (bool_decide_unpack _). vm_compute. exact I.
Defined.


Lemma cold_some : is_ok cold = true.
Proof. vm_compute. reflexivity. Qed.

