(* ===== verification/EndToEnd.v ===== *)
(** * From the gamepad and the policy to the motors

    A round of the task controller followed by a tick of the controller, on the
    shared memory they share: which angle each motor is told, for which output of
    the network. The witness plays it on the shipped configuration and policy. *)

From S2P Require Import Prelude PyFloat PyDict CStruct Numpy OperatorCommand StateMachine.
From S2P Require Import ControlCommand RobotState Telemetry CanBus Dispatcher Wire CanDaemon CanTransport.
From S2P Require Import CommManager ActuatorDriver SpgProtocol Imu Config ShippedConfig ShmManager.
From S2P Require Import Supervisor Controller ControllerFacts ControllerRun PolicyRunner TaskController.
From S2P Require Import ShippedPolicy Scenario.
Open Scope Z_scope.

#[local] Existing Instance float32.

(** The impedance frame of one target. *)
Definition impedance_frame (p : SPGActuatorProtocol) (t : ControlTarget) : res CANFrame :=
  spg_encode_impedance_command_frame p (binary32 (t_q t)) (binary32 (t_dq t))
    (binary32 (t_kp t)) (binary32 (t_kd t)) (binary32 (t_tau t)).

(** An identifier that the controller knows. *)
Definition known_to (ps : dict Z SPGActuatorProtocol) (id : Z) : Prop :=
  0 ≤ id < 2 ^ 32 ∧ is_Some (dict_get id ps).

Lemma policy_frames_known ps ts :
  Forall (known_to ps) (map t_can_id ts) →
  length (policy_frames ps ts) = length ts ∧
  ∀ j t p, ts !! j = Some t → dict_get (t_can_id t) ps = Some p →
    policy_frames ps ts !! j = Some (impedance_frame p t).
Proof.
  induction ts as [|t ts IH]; intros H; [done|].
  cbn [map] in H. apply Forall_cons in H as [[Hid [p Hp]] H]. destruct (IH H) as [Hl Hj].
  unfold policy_frames in *. cbn [map concat]. rewrite Z.mod_small, Hp by done. cbn [app length].
  split; [by rewrite Hl|]. intros [|j] t' p' Ht Hp'; cbn in Ht |- *; [|by apply Hj].
  by simplify_eq.
Qed.

Lemma control_targets_ids t q : ∀ ids index ts,
  control_targets t index ids q = Ok ts → map t_can_id ts = ids.
Proof.
  induction ids as [|id ids IH]; intros index ts; cbn [control_targets]; [by intros [= <-]|].
  destruct (py_index q index) as [x|]; [|done]. cbn [mbind res_bind].
  destruct (control_targets t (index + 1) ids q) as [l|] eqn:E; [|done]. cbn [mbind res_bind].
  intros [= <-]. cbn [map t_can_id]. f_equal. by eapply IH.
Qed.

Section motion.
Context {PS : Type} `{ProcessControl PS}.
Implicit Types (s : System PS).

(** C4: From the gamepad to the motors. When a policy process is ready and the
    controller's next tick is in NORMAL, one round of the policy and then that tick
    send, after the IMU request, one impedance frame per configured motor, in the
    configured order: joint [j] is told, in binary32, the clipped and scaled output
    [k] of the network (in the task controller only while "a" is held) plus its
    default angle, where [k] is the place at which the network was shown the
    position of that joint; the gains are those of the policy, velocity and torque
    are zero. A target that cannot be encoded ends the tick after the frames before
    it; when all can be built and the daemon accepts them, the tick returns. *)
Theorem policy_moves_motors py v t p n ins outs defaults state aux (clock : Clock) s o op :
  v ∈ [task_controller; joint_initializer] →
  ready py t p n ins outs defaults state aux (sys_shm s) →
  Forall (known_to (protocols (sys_ctl s))) (tc_can_ids t) →
  control_cmd_shm (sys_ctl s) = Some o → so_handle (control_command_writer t) = so_handle o →
  (∀ o', operator_cmd_shm (sys_ctl s) = Some o' →
     so_handle o' ≠ so_handle (control_command_writer t)) →
  decided s = Ok (Mode.NORMAL, op) →
  ∃ p' w' r obs output joints l,
    task_tick py v t p {| tk_shm := sys_shm s; tk_clock := clock |} = (Ok p', w') ∧
    read_round v (tc_can_ids t) state aux = Ok r ∧ step_observation r p = Ok obs ∧
    session (pl p) obs = Ok output ∧ length joints = n ∧
    (∀ k j id a d pr, ins !! k = Some j → tc_can_ids t !! j = Some id →
       dict_get id (actuators_by_id state) = Some a → defaults !! j = Some d →
       dict_get id (protocols (sys_ctl s)) = Some pr →
       dof_pos (ps p') !! k = head (np_array (asarray v [f32_value (as_position_rad a)])) ∧
       joints !! j = Some (spg_encode_impedance_command_frame pr
         (binary32 (joint_target v (pl p) n aux output k d)) 0 (binary32 (tc_kp t))
         (binary32 (tc_kd t)) 0)) ∧
    let s' := put_shm (tk_shm w') s in
    let frames := imu_plan (sys_ctl s) ++ joints in
    sent s' (snd (tick s')) l ∧ map Ok l `prefix_of` frames ∧
    (is_ok (fst (tick s')) = true → map Ok l = frames) ∧
    (pubs_ready s → Forall sendable frames → answering (length frames) (rc_can (sys_ctl s)) →
       is_ok (fst (tick s')) = true).
Proof.
  intros Hv Hr Hknown Ho Hw Hop Hdec.
  destruct (round_targets py v t p n ins outs defaults state aux (sys_shm s) Hv Hr)
    as (p' & r & obs & output & action & q & ts & Hrd & Hobs & Hout & Hstep & Hq & Hts & Hpl & Hs' &
        _ & Hlen & Hj).
  pose proof (control_targets_ids _ _ _ _ _ Hts) as Hids. rewrite <-Hids in Hknown.
  destruct (policy_frames_known _ _ Hknown) as [Hfl Hfj].
  destruct Hr as [_ _ _ _ _ _ _ Hfit Hread Hfresh _ _ Hax _ Hready].
  destruct (policy_written s _ o (ck_ns clock (ck_reads clock)) ts op Ho Hw Hready Hop
    ltac:(lia) Hdec) as (fs' & Hpub & _ & Hplan & Hpubs).
  destruct (tick_spec (put_shm fs' s)) as (l & Hs & Hp & _ & Hall). rewrite Hplan in Hp, Hall.
  eexists p', _, r, obs, output, (policy_frames (protocols (sys_ctl s)) ts), l.
  split; [by eapply (task_tick_run py v t p {| tk_shm := sys_shm s; tk_clock := clock |})|].
  split; [done|]. split; [done|]. split; [done|]. split; [by rewrite Hfl|]. split.
  - intros k j id a d pr Hk Hid Ha Hd Hpr. destruct (Hj k j id a d Hk Hid Ha Hd) as [Hdof Ht].
    split; [exact Hdof|]. rewrite (Hfj j _ pr Ht) by done. reflexivity.
  - cbv zeta. cbn [tk_shm]. split; [exact Hs|]. split; [exact Hp|]. split; [exact Hall|].
    intros Hready' Hsend Hans. apply tick_ok; [by apply Hpubs|by rewrite Hplan|by rewrite Hplan].
Qed.
End motion.

(** ** On the shipped configuration

    The controller of [Scenario] about to enter NORMAL, a gamepad whose "a" is held,
    and the shipped policy over a network that asks for too much. *)

Definition opened (f : string → ST ShmFs ShmObj) (name : string) : ShmObj :=
  match fst (f name (sys_shm about_to_run)) with Ok o => o | Raise _ => segment None end.

Definition aux_segment : ShmObj := opened AuxCommandShm.open_writer "qhrr_aux_command".
Definition state_segment : ShmObj := opened RobotStateShm.open_reader "qhrr_control_state".

Definition held_a : dict string bool := [("a_button"%string, true)].

(** What the gamepad process leaves. *)
Definition driven : System (list string) :=
  put_shm (snd (AuxCommandShm.publish 1 aux_segment [0; 0; 0]%float [0; 0; 0]%float held_a
                  (sys_shm about_to_run))) about_to_run.

Definition driven_task : Task :=
  {| tc_can_ids := [1; 2; 3; 33; 34; 35; 17; 18; 19; 49; 50; 51]; tc_kp := 20; tc_kd := 0.5;
     control_state_reader := state_segment; aux_reader := aux_segment;
     control_command_writer := control_segment |}.

(** What the controller has published. *)
Definition driven_state : RobotStateC :=
  match fst (RobotStateShm.read_relaxed state_segment (sys_shm driven)) with
  | Ok state => state
  | Raise _ => RobotStateC_new
  end.

(** A structure that is read is the value of the read, and reading changes nothing. *)
Lemma read_value T `{CStruct T} (o : ShmObj) fs (x : T) :
  fst (wrapper_read T o fs) = Ok x → wrapper_read T o fs = (Ok x, fs).
Proof.
  intros Hx. rewrite (surjective_pairing (wrapper_read T o fs)), Hx. by rewrite wrapper_read_pure.
Qed.

Lemma read_default T `{CStruct T} (o : ShmObj) fs (d : T) :
  is_ok (fst (wrapper_read T o fs)) = true →
  fst (wrapper_read T o fs) =
    Ok (match fst (wrapper_read T o fs) with Ok x => x | Raise _ => d end).
Proof. by destruct (fst _). Qed.

Lemma driven_reads : is_ok (fst (wrapper_read RobotStateC state_segment (sys_shm driven))) = true.
Proof. vm_compute. reflexivity. Qed.

Lemma pad_reads :
  fst (wrapper_read AuxCommandC aux_segment (sys_shm driven)) = Ok pressed_pad.
Proof. vm_compute. reflexivity. Qed.

Lemma state_read :
  RobotStateShm.read_relaxed state_segment (sys_shm driven) = (Ok driven_state, sys_shm driven).
Proof. unfold driven_state, RobotStateShm.read_relaxed. apply read_value, read_default, driven_reads. Qed.

Lemma pad_read :
  AuxCommandShm.read_relaxed aux_segment (sys_shm driven) = (Ok pressed_pad, sys_shm driven).
Proof. unfold AuxCommandShm.read_relaxed. apply read_value, pad_reads. Qed.

Lemma driven_ready p :
  session (pl p) = eager → config_wf 12 shipped_input shipped_output (pl p) →
  state_wf 12 (ps p) →
  item_list (py_float repository_reader) (JObj (pl_config (pl p))) "default_joint_angle" =
    Ok shipped_defaults →
  ready repository_reader driven_task p 12 shipped_input shipped_output shipped_defaults
    driven_state pressed_pad (sys_shm driven).
Proof.
  intros Hn Hc Hs Hd. split.
  - exact Hc.
  - exact Hs.
  - by apply eager_network.
  - apply shipped_inverse.
  - exact Hd.
  - apply Nat.leb_le. vm_compute. reflexivity.
  - reflexivity.
  - apply Nat.leb_le. vm_compute. reflexivity.
  - exact state_read.
  - vm_compute. discriminate.
  - apply (bool_decide_unpack _). vm_compute. exact I.
  - vm_compute. reflexivity.
  - exact pad_read.
  - exact pressed_pad_wf.
  - apply (bool_decide_unpack _). vm_compute. exact I.
Qed.

Lemma driven_decides : fst <$> decided driven = Ok Mode.NORMAL.
Proof. vm_compute. reflexivity. Qed.

(** The frame of the second motor: the clipped output 5, scaled by 0.25, on its
    default angle of 0.7 rad. *)
Definition second_frame : CANFrame :=
  {| can_id := 2; data := [0xC0; 147; 247; 128; 0; 164; 26; 128] |}.

Lemma policy_moves_motors_witness :
  ∃ p p' w' joints l,
    shipped_policy eager = Ok p ∧
    task_tick repository_reader task_controller driven_task p
      {| tk_shm := sys_shm driven; tk_clock := milliseconds |} = (Ok p', w') ∧
    length joints = 12%nat ∧ joints !! 1%nat = Some (Ok second_frame) ∧
    sent (put_shm (tk_shm w') driven) (snd (tick (put_shm (tk_shm w') driven))) l ∧
    map Ok l `prefix_of` imu_plan (sys_ctl driven) ++ joints.
Proof.
  destruct (shipped_policy_loads eager) as (p & Hp & Hn & Hc & Hs & _ & Hclip & Hd & Hscale).
  pose proof driven_decides as Hm.
  destruct (decided driven) as [[mode op]|e] eqn:Hdec; [|discriminate Hm]. injection Hm as ->.
  destruct (policy_moves_motors repository_reader task_controller driven_task p 12 shipped_input
    shipped_output shipped_defaults driven_state pressed_pad milliseconds driven control_segment op)
    as (p' & w' & r & obs & output & joints & l & Htick & _ & _ & Hout & Hlen & Hj & Hs' & Hpre & _).
  - left.
  - exact (driven_ready p Hn Hc Hs Hd).
  - apply (bool_decide_unpack _). vm_compute. exact I.
  - vm_compute. reflexivity.
  - reflexivity.
  - vm_compute. intros o' [= <-]. discriminate.
  - exact Hdec.
  - exists p, p', w', joints, l. split; [exact Hp|]. split; [exact Htick|]. split; [exact Hlen|].
    split; [|split; [exact Hs'|exact Hpre]].
    rewrite Hn in Hout. injection Hout as <-.
    assert (is_Some (dict_get 2 (protocols (sys_ctl driven)))) as [pr Hpr]
      by (apply (bool_decide_unpack _); vm_compute; exact I).
    assert (is_Some (dict_get 2 (actuators_by_id driven_state))) as [a Ha]
      by (apply (bool_decide_unpack _); vm_compute; exact I).
    destruct (Hj 4%nat 1%nat 2 a 0.7%float pr eq_refl eq_refl Ha eq_refl Hpr) as [_ Ht].
    rewrite Ht. f_equal. vm_compute in Hpr. injection Hpr as <-.
    unfold joint_target, target_of, clipped. rewrite Hclip, Hscale. vm_compute. reflexivity.
Defined.
